(* ===== verification/_CoqProject ===== *)
-Q . S2P
Prelude.v
Crc.v
CText.v
Dvb.v
Timer.v
Log.v
Psi.v
PsiFormat.v
PsiFeed.v
OptParser.v
OptProps.v
Config.v
ConfigText.v
PsiProps.v
Tuner.v
TunerProps.v
QueryProps.v
Rtp.v
Vtuner.v
VtunerProps.v
Rtsp.v
RtspInv.v
RtspText.v
RtspProps.v
RtspServer.v
RtspSession.v
RtspTheorems.v
Session.v
SessionInv.v
SessionProps.v
RtpThread.v
SessionServer.v
Requests.v
Manager.v
ManagerProps.v
