(* ===== verification/Prelude.v ===== *)
(** Verification of the SAT>IP client: a daemon that makes a tuner of a SAT>IP
    server on the network look like a local DVB device.

    ** The program

    For every complete line of its configuration file (option.cpp) the manager
    (manager.cpp) creates a session (session.cpp). A session owns a virtual
    tuner device (vtuner.cpp), through which the kernel driver says what to tune
    and which pids to deliver; the configuration (config.cpp), which keeps these
    wishes and knows what the server was asked for; an RTSP client (rtsp.cpp),
    which connects to the server, sets a session up and sends the requests that
    bring the server to the wishes; the data path (rtp.cpp), which writes the
    stream that arrives to the device; and a parser (psi.cpp), which taps the
    stream and adds the pids that descrambling needs to the wishes. Two threads
    work on a session: the main loop, which polls the device, the socket and a
    wakeup pipe and runs the timers (timer.h), and the rtp thread, whose parser
    wakes the main loop when the pids change.

    ** The files

    - Prelude: record update, reads of buffers, machine integers, the iteration
      order of std::set and std::map, [returns], tactics and hints.
    - Crc, Psi (operations and invariant), PsiFormat (the wire formats, as
      encoders), PsiFeed (reassembly as an automaton), PsiProps: psi.cpp.
      [satipPSI] is the class with its members; [processTS], [feed],
      [parsePMT], ... are its methods.
    - CText: std::string and the pieces of the C library the program uses.
      OptParser, OptProps: option.h, option.cpp.
    - Dvb: the constants of the DVB headers, as a class of parameters.
    - Config, ConfigText, Tuner, TunerProps, QueryProps: config.h, config.cpp.
      [satipConfig] is the class; what points to the parser there is a second
      component of the state here, since both call each other (the class
      [CaSink] of Psi is the part of the configuration the parser sees). Tuner
      adds a server that does what requests say, to state that it follows.
    - Timer: timer.h, timer.cpp, over the interface [TimerWorld] of the owner.
    - Log: log.h, log.cpp, and the options of main.cpp, which set it up.
    - Rtp: rtp.h, rtp.cpp. Vtuner, VtunerProps: vtuner.h, vtuner.cpp.
    - Rtsp (operations), RtspInv (invariant), RtspText (responses),
      RtspProps, RtspSession, RtspTheorems: rtsp.h, rtsp.cpp. A [client] is
      the object with what it refers to, the texts it sent and the bytes it
      wrote to the device.
    - RtspServer: a server that reads the texts of the requests, and what each
      call of the client does to the agreement with it.
    - Session, SessionInv, SessionProps: session.h, session.cpp, with the rtp
      thread of rtp.cpp as steps between the calls of the main loop.
      RtpThread: the loop of that thread, whose turns are these steps.
      SessionServer, Requests: the session and its server, and the form of
      the requests.
    - Manager, ManagerProps: manager.h, manager.cpp, and the signals, start and
      shutdown of main.cpp: the whole program as one transition system,
      [program_exec].

    ** What is shown

    - Safety: no sequence of calls makes the parser read or write outside a
      buffer, whatever the stream holds (PsiProps.psi_run_safe); in UDP mode no
      step of the program is undefined on well formed input, which the theorem
      lists (ManagerProps.program_step_returns). Input that is left out there
      because the code is not safe on it has a theorem that shows so
      (Rtp.rtcp_overread, RtspTheorems.recv_error_underflow,
      RtspTheorems.session_header_overflow, VtunerProps.snr_answer).
    - Invariants: configuration, parser and the record of what the server was
      asked for agree after any calls, but for the record a clear or a bare
      retune drops (TunerProps.tuner_run_ok); a server that reads nothing but
      the texts of the requests sends what the session wants once nothing is
      pending, whatever the threads, the driver and the network do in between,
      with the same exception (SessionServer.session_server_agrees); every
      session keeps its invariant under every interleaving of the threads, and
      main returns only when all threads have ended
      (ManagerProps.program_invariant). What the steps take for granted of the
      system and the driver is [session_step_ok]: recv hands over no more than
      there is room for and does not fail while the buffer is empty, and pids
      are 16 bit numbers.
    - Types: every text that is sent is a request, in which neither a parameter
      nor a session id can break a line (Requests.requests_well_formed).
    - Function: tables are learned from the stream however sections are cut
      into packets (PsiProps), damaged ones are not, and what the parser makes
      of a datagram does not depend on the memory behind it
      (Rtp.stream_delivered); requests bring the server to the wanted pids
      (TunerProps); what the driver tunes by satellite is what the request asks
      for (VtunerProps); responses are understood, failed attempts
      are repeated with growing delays (RtspTheorems); the stream and the
      reports of the reception get through (Rtp), packet by packet and in order
      in the loop of the rtp thread (RtpThread.rtp_thread_delivers); the device is opened with the
      numbers its driver knows (VtunerProps); the sessions that run are those of
      the configuration (ManagerProps.sessions_started).
    - Liveness: a new tuning leads to the stream, which is kept alive by one
      request per period of the server (RtspTheorems), pids found by
      the rtp thread wake the main loop, which requests them, and the server
      sends them (SessionServer.pid_change_reaches_server), a signal ends the program
      (ManagerProps.signal_ends_program).
    - Round trips and equivalences: the configuration file, sections and their
      chunks, the table driven crc and its bit serial definition, the
      reassembly loop and a byte at a time automaton, the search for a scrambling
      code and the x sequence of the standard.
    - The log: no message overruns its buffers, and the options select what is
      written (Log.log_lines_bounded, Log.options_selected).

    ** Conventions

    Integers are [Z]; where the code's width matters the conversion is written
    out ([u32], [s32], the clamping of strtol, masks). The rtsp sequence number
    and the counter of tune attempts are left unbounded: they would overflow
    after 2^31 requests. [None] is undefined behaviour of the C++ code: an access
    outside of a buffer, a signed overflow, a null pointer handed to the library,
    the use of a number sscanf did not set. What the system answers (clock,
    sockets, poll, ioctls, ports) is an argument of each step, so a theorem for
    all arguments is one for all behaviours of the system; one reading of the
    clock serves a whole call.

    Loops that are not structural take fuel. It is the number of bytes left for
    the loops over buffers ([rtcp_loop], [feed_loop], [ts_loop], the parsers of
    sections), each round of which consumes at least one, and one more than the
    number of bytes in the buffer for [again], the loop over responses; the lemmas
    named [..._ok] and [..._returns] show that it is enough. [again] and
    [rtcp_loop] have the result for exhausted fuel as an argument, [None] where
    they are called: RtspProps.receive_loops_end shows, in both modes and on any
    bytes, that with enough fuel this argument has no influence, so that branch
    is never taken. [Read] of the rtp thread takes one answer of
    the system per round. [pls_root2gold] runs as often as the code's own bound says.

    A call of a method is one step. What both threads of a session share is the
    parser, every public method of which takes its lock, and the ca pids of the
    configuration, which a method reads or writes once, under a lock. The rtp
    thread also writes the three values of the reception, each an int that is
    read once.

    ** Not modelled

    The calls of the log in the other parts, the dumps of the timers and the
    settings, the usage text and the scheduling class: no state depends on them.
    One such call is not harmless itself: with the debug level on, rtcpData
    prints the bytes it received with %s, which nothing terminates.
    What printf makes of a format is an argument of [write_message]. Sockets,
    threads, files and devices appear as the answers above. [sessionStart] of the manager
    has no caller, and would start a second thread for every session. The
    destructors release what the constructors took; they run after the last
    step here. *)

From Stdlib Require Import ZArith Lia Bool.
From Stdlib.Strings Require Export Byte.
From stdpp Require Export sorting strings.
From stdpp Require Export base tactics option list gmap.


#[export] Set Warnings "-clear-no-such-hyp".
Declare Scope satip_scope.
Delimit Scope satip_scope with satip.
Open Scope satip_scope.
Open Scope Z_scope.

(** ** Functional record update

    [r <| f := v |>] is the record [r] with its field [f] set to [v]; a record
    opts in with an instance of [Settable], its eta expansion. *)

Class Settable (R : Type) := rebuild : R -> R.
Class Setter {R T : Type} (field : R -> T) := { update_field : (T -> T) -> R -> R }.
Arguments update_field {R T} field {_} _ _.

Ltac head_symbol t := lazymatch t with ?f _ => head_symbol f | _ => t end.

Ltac derive_setter :=
  lazymatch goal with
  | |- @Setter ?R ?T ?field =>
      lazymatch constr:(@rebuild R _) with
      | @rebuild _ ?inst =>
          let h := head_symbol inst in
          let eta := eval cbv beta delta [rebuild h] in (@rebuild R inst) in
          lazymatch eval pattern field in eta with
          | ?build _ =>
              let s := constr:(fun (change : T -> T) => build (fun r : R => change (field r))) in
              let s := eval cbv beta in s in
              exact (Build_Setter R T field s)
          end
      end
  end.

#[export] Hint Extern 1 (Setter _) => derive_setter : typeclass_instances.

Notation "r <| f := v |>" := (update_field f (fun _ => v) r)
  (at level 1, left associativity, f at level 200, v at level 200) : satip_scope.


Ltac norm_fields := cbn [update_field] in *; cbn in *.

(** ** Bytes, buffers and machine integers *)

Definition ub (b : byte) : Z := Z.of_N (Byte.to_N b).
Definition zlen {A} (l : list A) : Z := Z.of_nat (length l).

(** Reading [p[i]] of a buffer: [None] is an access outside of it. *)
Definition rdb (p : list byte) (i : Z) : option byte :=
  if i <? 0 then None else p !! Z.to_nat i.
Definition rd (p : list byte) (i : Z) : option Z := ub <$> rdb p i.

(** The [n] bytes at [p + i], as memcpy reads them. *)
Definition rd_range (p : list byte) (i n : Z) : option (list byte) :=
  if (0 <=? i) && (0 <=? n) && (i + n <=? zlen p)
  then Some (take (Z.to_nat n) (drop (Z.to_nat i) p)) else None.

(** The pointer [p + i]; like the C++ pointer it may point one past the end. *)
Definition ptr_add (p : list byte) (i : Z) : list byte := drop (Z.to_nat i) p.

Definition u16 (x : Z) : Z := x `mod` 2 ^ 16.
Definition u32 (x : Z) : Z := x `mod` 2 ^ 32.
Definition u64 (x : Z) : Z := x `mod` 2 ^ 64.
Definition s32 (x : Z) : Z := (x + 2 ^ 31) `mod` 2 ^ 32 - 2 ^ 31.

(** [(hi << 8) | lo], the big endian 16 bit field the formats use. *)
Definition be16 (hi lo : Z) : Z := Z.lor (Z.shiftl hi 8) lo.

Lemma s32_id n : - 2 ^ 31 <= n < 2 ^ 31 -> s32 n = n.
Proof. intros Hn. unfold s32. rewrite Z.mod_small; lia. Qed.

Lemma ub_bounds b : 0 <= ub b < 256.
Proof. unfold ub. destruct b; vm_compute; split; congruence. Qed.

Lemma ub_inj b c : ub b = ub c -> b = c.
Proof.
  unfold ub. intros H%N2Z.inj.
  pose proof (Byte.of_to_N b) as Hb. pose proof (Byte.of_to_N c) as Hc. congruence.
Qed.

Lemma zlen_nonneg {A} (l : list A) : 0 <= zlen l.
Proof. unfold zlen. lia. Qed.

Lemma zlen_app {A} (l k : list A) : zlen (l ++ k) = zlen l + zlen k.
Proof. unfold zlen. rewrite length_app. lia. Qed.

Lemma zlen_cons {A} (x : A) (l : list A) : zlen (x :: l) = 1 + zlen l.
Proof. unfold zlen. cbn [length]. lia. Qed.

Lemma zlen_take {A} n (l : list A) : 0 <= n <= zlen l -> zlen (take (Z.to_nat n) l) = n.
Proof. unfold zlen. rewrite length_take. lia. Qed.

Lemma zlen_ptr_add p i : 0 <= i <= zlen p -> zlen (ptr_add p i) = zlen p - i.
Proof. unfold zlen, ptr_add. rewrite length_drop. lia. Qed.

Lemma rdb_ok p i : 0 <= i < zlen p -> exists b, rdb p i = Some b.
Proof.
  unfold rdb, zlen. intros Hi. destruct (Z.ltb_spec i 0); [lia|].
  apply lookup_lt_is_Some_2. lia.
Qed.

Lemma rd_ok p i : 0 <= i < zlen p -> exists b, rd p i = Some b /\ 0 <= b < 256.
Proof.
  intros Hi. unfold rd. destruct (rdb_ok p i Hi) as [b ->].
  exists (ub b). split; [done|apply ub_bounds].
Qed.

Lemma rd_bounds p i b : rd p i = Some b -> 0 <= i < zlen p /\ 0 <= b < 256.
Proof.
  unfold rd, rdb, zlen. destruct (Z.ltb_spec i 0); [done|].
  destruct (p !! Z.to_nat i) as [c|] eqn:E; [|done]. cbn. intros [= <-].
  apply lookup_lt_Some in E. pose proof (ub_bounds c). lia.
Qed.

(** Reads of a buffer do not look at what follows it. *)
Lemma rdb_app_l p q i : i < zlen p -> rdb (p ++ q) i = rdb p i.
Proof.
  unfold rdb, zlen. intros Hi. destruct (Z.ltb_spec i 0); [done|].
  apply lookup_app_l. lia.
Qed.

Lemma rdb_app_r p q i : zlen p <= i -> rdb (p ++ q) i = rdb q (i - zlen p).
Proof.
  intros Hi. pose proof (zlen_nonneg p). unfold rdb.
  destruct (Z.ltb_spec i 0), (Z.ltb_spec (i - zlen p) 0); try lia.
  unfold zlen in *. rewrite lookup_app_r by lia. f_equal. lia.
Qed.

Lemma rdb_ptr_add p i j : 0 <= i -> 0 <= j -> rdb (ptr_add p i) j = rdb p (i + j).
Proof.
  intros Hi Hj. unfold rdb, ptr_add.
  destruct (Z.ltb_spec j 0), (Z.ltb_spec (i + j) 0); try lia.
  rewrite lookup_drop. f_equal. lia.
Qed.

Lemma rd_range_ok p i n :
  0 <= i -> 0 <= n -> i + n <= zlen p ->
  exists l, rd_range p i n = Some l /\ zlen l = n.
Proof.
  intros Hi Hn Hp. unfold rd_range.
  rewrite (proj2 (Z.leb_le 0 i)), (proj2 (Z.leb_le 0 n)), (proj2 (Z.leb_le _ _)) by lia.
  eexists. split; [done|]. fold (ptr_add p i).
  apply zlen_take. rewrite zlen_ptr_add by lia. lia.
Qed.

Lemma ptr_add_take p i n :
  0 <= i -> 0 <= n -> ptr_add p i = take (Z.to_nat n) (ptr_add p i) ++ ptr_add p (i + n).
Proof.
  intros Hi Hn. unfold ptr_add. rewrite Z2Nat.inj_add, <- drop_drop by lia.
  by rewrite take_drop.
Qed.

Lemma be16_eq hi lo : 0 <= lo < 256 -> be16 hi lo = hi * 256 + lo.
Proof.
  intros Hlo. unfold be16. rewrite <- Z.add_nocarry_lor.
  - rewrite Z.shiftl_mul_pow2 by lia. done.
  - apply Z.bits_inj'. intros n Hn. rewrite Z.land_spec, Z.bits_0.
    destruct (decide (n < 8)).
    + rewrite Z.shiftl_spec_low by lia. done.
    + rewrite (Z.bits_above_log2 lo), andb_false_r; [done|lia|].
      destruct (decide (lo = 0)) as [->|]; [cbn; lia|].
      apply Z.lt_le_trans with 8; [|lia]. apply Z.log2_lt_pow2; lia.
Qed.

Lemma land_ones_bounds x n : 0 <= n -> 0 <= Z.land x (Z.ones n) < 2 ^ n.
Proof. intros Hn. rewrite Z.land_ones by lia. apply Z.mod_pos_bound. lia. Qed.

(** 13 bit pids and 12 bit lengths as the tables encode them. *)
Definition pid13 (hi lo : Z) : Z := be16 (Z.land hi 0x1f) lo.
Definition len12 (hi lo : Z) : Z := be16 (Z.land hi 0x0f) lo.

Lemma pid13_bounds hi lo : 0 <= lo < 256 -> 0 <= pid13 hi lo < 0x2000.
Proof.
  intros. unfold pid13. rewrite be16_eq by done.
  pose proof (land_ones_bounds hi 5). change (Z.ones 5) with 0x1f in *. lia.
Qed.

Lemma len12_bounds hi lo : 0 <= lo < 256 -> 0 <= len12 hi lo < 0x1000.
Proof.
  intros. unfold len12. rewrite be16_eq by done.
  pose proof (land_ones_bounds hi 4). change (Z.ones 4) with 0x0f in *. lia.
Qed.

(** ** Postconditions of partial operations

    [returns o Q]: the operation neither reads out of bounds nor runs out of
    fuel, and its result satisfies [Q]. *)

Definition returns {A} (o : option A) (Q : A -> Prop) : Prop :=
  match o with Some x => Q x | None => False end.

Lemma returns_Some {A} (o : option A) Q : returns o Q <-> exists x, o = Some x /\ Q x.
Proof.
  destruct o as [x|]; cbn; split; [eauto| |done|].
  - by intros (y & [= ->] & ?).
  - by intros (y & ? & ?).
Qed.

Lemma returns_ret {A} (x : A) (Q : A -> Prop) : Q x -> returns (Some x) Q.
Proof. done. Qed.

Lemma returns_mono {A} (o : option A) (P Q : A -> Prop) :
  returns o P -> (forall x, P x -> Q x) -> returns o Q.
Proof. destruct o; cbn; auto. Qed.

Lemma returns_bind {A B} (o : option A) (k : A -> option B) (P : A -> Prop) Q :
  returns o P -> (forall x, P x -> returns (k x) Q) -> returns (o ≫= k) Q.
Proof. destruct o; cbn; [auto|done]. Qed.

(** Computing one bind of a partial operation. *)
Lemma bind_Some_eq {A B} (o : option A) (k : A -> option B) x : o = Some x -> (o ≫= k) = k x.
Proof. by intros ->. Qed.

Lemma returns_rd {B} p i (k : Z -> option B) Q :
  0 <= i < zlen p -> (forall b, 0 <= b < 256 -> returns (k b) Q) -> returns (rd p i ≫= k) Q.
Proof. intros Hi Hk. destruct (rd_ok p i Hi) as (b & -> & Hb). by apply Hk. Qed.

Lemma returns_rd_range {B} p i n (k : list byte -> option B) Q :
  0 <= i -> 0 <= n -> i + n <= zlen p ->
  (forall l, zlen l = n -> returns (k l) Q) -> returns (rd_range p i n ≫= k) Q.
Proof. intros Hi Hn Hp Hk. destruct (rd_range_ok p i n Hi Hn Hp) as (l & -> & Hl). by apply Hk. Qed.

(** ** std::set<int> and std::map<int, _>

    A [std::set<int>] is a [gset Z]; where the code iterates over it the order
    is the ascending one of [set_iter]. *)

Definition set_iter (s : gset Z) : list Z := merge_sort Z.le (elements s).

(** The first [n] elements in iteration order. *)
Definition set_take (n : nat) (s : gset Z) : gset Z := list_to_set (take n (set_iter s)).

(** Inserting the set of every entry of the map into one set. *)
Definition all_values (m : gmap Z (gset Z)) : gset Z :=
  map_fold (fun _ s acc => acc ∪ s) ∅ m.

#[export] Instance Z_le_transitive : Transitive Z.le.
Proof. exact Z.le_trans. Qed.

Lemma set_iter_Permutation s : set_iter s ≡ₚ elements s.
Proof. apply merge_sort_Permutation. Qed.

Lemma elem_of_set_iter s x : x ∈ set_iter s <-> x ∈ s.
Proof. by rewrite set_iter_Permutation, elem_of_elements. Qed.

Lemma NoDup_set_iter s : NoDup (set_iter s).
Proof. rewrite set_iter_Permutation. apply NoDup_elements. Qed.

Lemma set_iter_sorted s : StronglySorted Z.le (set_iter s).
Proof. apply StronglySorted_merge_sort; apply _. Qed.

Lemma length_set_iter s : length (set_iter s) = size s.
Proof. rewrite (Permutation_length (set_iter_Permutation s)). done. Qed.

Lemma set_iter_nil s : set_iter s = [] <-> s = ∅.
Proof.
  split; [|by intros ->].
  intros H. apply set_eq. intros x. rewrite <- elem_of_set_iter, H. set_solver.
Qed.

Lemma set_iter_lt s : StronglySorted Z.lt (set_iter s).
Proof.
  pose proof (set_iter_sorted s) as Hs. pose proof (NoDup_set_iter s) as Hnd.
  induction Hs as [|x l Hs IH Hx]; [constructor|]. apply NoDup_cons in Hnd as [Hn Hnd].
  constructor; [by apply IH|]. rewrite Forall_forall in Hx |- *. intros y Hy.
  specialize (Hx y Hy). assert (y <> x) by (by intros ->). lia.
Qed.

(** The entries of a map in the order of their keys. *)
Definition entries {A} (m : gmap Z A) : list (Z * A) :=
  omap (fun k => pair k <$> m !! k) (set_iter (dom m)).

Section Entries.
Context {A : Type}.
Implicit Types (m : gmap Z A) (k : Z).

Lemma elem_of_entries m k a : (k, a) ∈ entries m <-> m !! k = Some a.
Proof.
  unfold entries. rewrite list_elem_of_omap. split.
  - intros (j & _ & Hj). apply fmap_Some in Hj as (b & Hb & [= -> ->]). done.
  - intros Hk. exists k. rewrite elem_of_set_iter, elem_of_dom, Hk. split; [by eexists|done].
Qed.

Lemma StronglySorted_omap {B} (f : Z -> option B) (key : B -> Z) l :
  (forall k b, f k = Some b -> key b = k) ->
  StronglySorted Z.lt l -> StronglySorted Z.lt (key <$> omap f l).
Proof.
  intros Hf. induction 1 as [|k l Hs IH Hk]; [constructor|]. cbn [omap list_omap].
  destruct (f k) as [b|] eqn:E; [|done]. cbn [fmap list_fmap]. constructor; [done|].
  rewrite Forall_forall in Hk |- *. intros j (c & -> & Hc)%list_elem_of_fmap.
  apply list_elem_of_omap in Hc as (i & Hi & Hc). rewrite (Hf _ _ Hc), (Hf _ _ E). by apply Hk.
Qed.

Lemma entries_sorted m : StronglySorted Z.lt (fst <$> entries m).
Proof.
  apply StronglySorted_omap; [|apply set_iter_lt].
  intros k [j a] Hk. by apply fmap_Some in Hk as (b & _ & [= -> ->]).
Qed.
Lemma NoDup_entries m : NoDup (fst <$> entries m).
Proof.
  induction (entries_sorted m) as [|k l Hs IH Hk]; constructor; [|done].
  intros Hin. rewrite Forall_forall in Hk. specialize (Hk k Hin). lia.
Qed.

Lemma list_to_map_entries m : list_to_map (entries m) = m.
Proof.
  apply map_eq. intros k. destruct (m !! k) as [a|] eqn:E.
  - apply elem_of_list_to_map; [apply NoDup_entries|]. by apply elem_of_entries.
  - apply not_elem_of_list_to_map. intros ([j a] & -> & Hja)%list_elem_of_fmap.
    apply elem_of_entries in Hja. cbn in E. congruence.
Qed.
End Entries.

Lemma set_take_subseteq n s : set_take n s ⊆ s.
Proof.
  intros x. unfold set_take. rewrite elem_of_list_to_set. intros Hx.
  apply elem_of_set_iter. eapply elem_of_take in Hx as (i & Hi & _).
  by eapply list_elem_of_lookup_2.
Qed.

Lemma size_set_take n s : size (set_take n s) = Nat.min n (size s).
Proof.
  unfold set_take. rewrite size_list_to_set.
  - rewrite length_take, length_set_iter. done.
  - pose proof (NoDup_set_iter s) as H. rewrite <- (take_drop n (set_iter s)) in H. apply NoDup_app in H. tauto.
Qed.

Lemma set_take_all n s : (size s <= n)%nat -> set_take n s = s.
Proof.
  intros Hn. unfold set_take. rewrite take_ge by (rewrite length_set_iter; lia).
  apply set_eq. intros x. by rewrite elem_of_list_to_set, elem_of_set_iter.
Qed.

(** What the truncation keeps is below everything it drops. *)
Lemma set_take_below n s x y :
  x ∈ set_take n s -> y ∈ s -> y ∉ set_take n s -> x < y.
Proof.
  unfold set_take. rewrite !elem_of_list_to_set. intros Hx Hy Hny.
  pose proof (set_iter_sorted s) as Hs. rewrite <- (take_drop n (set_iter s)) in Hs.
  rewrite <- elem_of_set_iter, <- (take_drop n (set_iter s)), elem_of_app in Hy.
  destruct Hy as [Hy|Hy]; [done|].
  pose proof (StronglySorted_app_1_elem_of _ _ _ x y Hs Hx Hy).
  assert (x <> y) by congruence. lia.
Qed.

(** The least element survives any non empty truncation. *)
Lemma set_take_least n s x :
  (0 < n)%nat -> x ∈ s -> (forall y, y ∈ s -> x <= y) -> x ∈ set_take n s.
Proof.
  intros Hn Hx Hmin. destruct (decide (x ∈ set_take n s)) as [|Hout]; [done|].
  destruct (set_choose_or_empty (set_take n s)) as [[y Hy]|He].
  - pose proof (set_take_below _ _ _ _ Hy Hx Hout).
    pose proof (Hmin y (set_take_subseteq _ _ _ Hy)). lia.
  - assert (size (set_take n s) = O) as Hz by (rewrite He; apply size_empty).
    rewrite size_set_take in Hz. assert (size s <> O) as Hs.
    { intros Hs. apply size_empty_inv in Hs. set_solver. }
    lia.
Qed.

Lemma elem_of_all_values m x :
  x ∈ all_values m <-> exists k s, m !! k = Some s /\ x ∈ s.
Proof.
  unfold all_values. revert x.
  apply (map_fold_weak_ind (fun acc m => forall x, x ∈ acc <-> exists k s, m !! k = Some s /\ x ∈ s)).
  - intros x. split; [set_solver|]. intros (k & s & H & _). by rewrite lookup_empty in H.
  - intros i s m' acc Hi IH x. rewrite elem_of_union, IH. split.
    + intros [(k & t & Hk & Hx)|Hx].
      * exists k, t. split; [|done]. rewrite lookup_insert_ne; [done|]. congruence.
      * exists i, s. split; [apply lookup_insert_eq|done].
    + intros (k & t & Hk & Hx). destruct (decide (i = k)) as [->|Hne].
      * rewrite lookup_insert_eq in Hk. injection Hk as ->. auto.
      * rewrite lookup_insert_ne in Hk by done. left. eauto.
Qed.

(** [eraseUnlisted] and friends keep the entries whose key is listed. *)
Definition keep_keys {A} (m : gmap Z A) (keep : gset Z) : gmap Z A :=
  filter (fun kv => kv.1 ∈ keep) m.

Lemma lookup_keep_keys {A} (m : gmap Z A) keep k v :
  keep_keys m keep !! k = Some v <-> m !! k = Some v /\ k ∈ keep.
Proof. unfold keep_keys. rewrite map_lookup_filter_Some. done. Qed.

Lemma dom_keep_keys {A} (m : gmap Z A) keep : dom (keep_keys m keep) ⊆ keep.
Proof.
  intros k [v Hv]%elem_of_dom. by apply lookup_keep_keys in Hv as [_ ?].
Qed.

(** ** Executions *)

Section Reachability.
Context {S : Type} (step : S -> S -> Prop).

Inductive steps : S -> S -> Prop :=
| steps_refl s : steps s s
| steps_cons s t u : step s t -> steps t u -> steps s u.

Lemma steps_invariant (I : S -> Prop) :
  (forall s t, I s -> step s t -> I t) -> forall s t, steps s t -> I s -> I t.
Proof. intros Hstep s t Hst. induction Hst; eauto. Qed.

Lemma steps_trans s t u : steps s t -> steps t u -> steps s u.
Proof. intros H. revert u. induction H; eauto using steps. Qed.
End Reachability.

(** ** Automation *)

Create HintDb satip.
#[export] Hint Resolve ub_bounds pid13_bounds len12_bounds zlen_nonneg : satip.
Create Rewrite HintDb satip.
#[export] Hint Rewrite @zlen_app @zlen_cons elem_of_set_iter : satip.

(** Step over one read of the program, showing that it is inside the buffer. *)
Ltac wp_rd b Hb :=
  lazymatch goal with
  | |- returns (rd ?p ?i ≫= _) _ => apply (returns_rd p i); [try lia|intros b Hb]
  end.

Ltac bool_cases :=
  repeat match goal with
  | H : (_ <? _) = true |- _ => apply Z.ltb_lt in H
  | H : (_ <? _) = false |- _ => apply Z.ltb_ge in H
  | H : (_ <=? _) = true |- _ => apply Z.leb_le in H
  | H : (_ <=? _) = false |- _ => apply Z.leb_gt in H
  | H : (_ =? _) = true |- _ => apply Z.eqb_eq in H
  | H : (_ =? _) = false |- _ => apply Z.eqb_neq in H
  | H : _ && _ = true |- _ => apply andb_true_iff in H as [? ?]
  | H : _ || _ = false |- _ => apply orb_false_iff in H as [? ?]
  | H : negb _ = true |- _ => apply negb_true_iff in H
  | H : negb _ = false |- _ => apply negb_false_iff in H
  | H : bool_decide _ = true |- _ => apply bool_decide_eq_true in H
  | H : bool_decide _ = false |- _ => apply bool_decide_eq_false in H
  end.

(** Invert the option binds of a hypothesis [e = Some r]. *)
Ltac inv_bind :=
  repeat match goal with
  | H : _ ≫= _ = Some _ |- _ => apply bind_Some in H as (? & ? & ?)
  | H : Some _ = Some _ |- _ => injection H as H
  | H : None = Some _ |- _ => discriminate H
  end.

(** ** Memory behind a buffer *)

Lemma rdb_more p q i b : rdb p i = Some b -> rdb (p ++ q) i = Some b.
Proof. unfold rdb. destruct (i <? 0); [done|]. apply lookup_app_l_Some. Qed.

Lemma rd_more p q i v : rd p i = Some v -> rd (p ++ q) i = Some v.
Proof.
  unfold rd. intros (b & Hb & ->)%fmap_Some. by rewrite (rdb_more _ q _ _ Hb).
Qed.

Lemma rd_range_more p q i n l : rd_range p i n = Some l -> rd_range (p ++ q) i n = Some l.
Proof.
  unfold rd_range. destruct (_ && _ && _) eqn:E; [|done]. bool_cases. intros [= <-].
  rewrite !(proj2 (Z.leb_le _ _)) by (rewrite ?zlen_app; pose proof (zlen_nonneg q); lia). cbn [andb].
  unfold zlen in *. rewrite drop_app_le, take_app_le by (rewrite ?length_drop; lia). done.
Qed.

Lemma ptr_add_more p q i : 0 <= i <= zlen p -> ptr_add (p ++ q) i = ptr_add p i ++ q.
Proof. intros Hi. unfold ptr_add, zlen in *. by rewrite drop_app_le by lia. Qed.

Lemma rd_range_ptr_add p i j n :
  0 <= i <= zlen p -> 0 <= j -> rd_range p (i + j) n = rd_range (ptr_add p i) j n.
Proof.
  intros Hi Hj. unfold rd_range. rewrite zlen_ptr_add by done. unfold ptr_add.
  rewrite drop_drop, <- Z2Nat.inj_add by lia.
  rewrite (proj2 (Z.leb_le 0 (i + j))), (proj2 (Z.leb_le 0 j)) by lia. cbn [andb].
  replace (i + j + n <=? zlen p) with (j + n <=? zlen p - i); [done|].
  destruct (Z.leb_spec (i + j + n) (zlen p)), (Z.leb_spec (j + n) (zlen p - i)); done || lia.
Qed.

(** A read that succeeds does so with more memory behind the buffer. *)
Ltac read_more q :=
  match goal with
  | H : context [rd ?p ?i ≫= _] |- _ =>
      let b := fresh "b" in let E := fresh "E" in
      destruct (rd p i) as [b|] eqn:E; [|done];
      rewrite (rd_more _ q _ _ E); cbn [mbind option_bind] in H |- *
  end.
