(* ===== verification/Crc.v ===== *)
(** The MPEG-2 CRC32 of psi.cpp ([crc32_init], [crc32_calc]): the table driven
    routine, a bit serial reference it is proved equal to, and the properties
    the section filter relies on (a section that carries its crc yields 0, a
    corrupted byte never does). *)

From S2P Require Import Prelude.

Definition poly : Z := 0x04c11db7.

(** One round of the inner loop of [crc32_init], on [uint32_t k]. *)
Definition crc32_round (k : Z) : Z :=
  if negb (Z.land k 0x80000000 =? 0)
  then Z.lxor (u32 (Z.shiftl k 1)) poly
  else u32 (Z.shiftl k 1).

Definition crc32_entry (i : Z) : Z := Nat.iter 8 crc32_round (u32 (Z.shiftl i 24)).

(** The contents of [crc32_table] once [crc32_init] has run. *)
Definition crc32_table : list Z := crc32_entry <$> seqZ 0 256.

(** One step of the loop of [crc32_calc]. *)
Definition crc32_step (crc : Z) (b : byte) : Z :=
  Z.lxor (u32 (Z.shiftl crc 8))
    (crc32_table !!! Z.to_nat (Z.land (Z.lxor (Z.shiftr crc 24) (ub b)) 0xff)).

Definition crc32_calc (data : list byte) : Z := foldl crc32_step 0xffffffff data.

(** ** The reference: shift the message through the register bit by bit *)

Definition bit_step (crc : Z) (bit : bool) : Z :=
  let fb := xorb (Z.testbit crc 31) bit in
  Z.lxor (u32 (Z.shiftl crc 1)) (if fb then poly else 0).

(** The bits of a byte, most significant first. *)
Definition byte_bits (b : byte) : list bool :=
  (fun i => Z.testbit (ub b) i) <$> [7; 6; 5; 4; 3; 2; 1; 0].

Definition crc32_reference (data : list byte) : Z :=
  foldl bit_step 0xffffffff (data ≫= byte_bits).

(** The crc as the section carries it, big endian. *)
Definition byte_of (x : Z) : byte := default x00 (Byte.of_N (Z.to_N (Z.land x 0xff))).
Definition be32_bytes (x : Z) : list byte :=
  [byte_of (Z.shiftr x 24); byte_of (Z.shiftr x 16); byte_of (Z.shiftr x 8); byte_of x].

(** ** Bit level lemmas *)

Definition is_u32 (x : Z) : Prop := 0 <= x < 2 ^ 32.

Lemma u32_range x : is_u32 (u32 x).
Proof. apply Z.mod_pos_bound. lia. Qed.

Lemma u32_testbit x i : 0 <= i -> Z.testbit (u32 x) i = (i <? 32) && Z.testbit x i.
Proof.
  intros Hi. unfold u32. destruct (Z.ltb_spec i 32).
  - by rewrite Z.mod_pow2_bits_low.
  - by rewrite Z.mod_pow2_bits_high by lia.
Qed.

Lemma u32_high x i : is_u32 x -> 32 <= i -> Z.testbit x i = false.
Proof.
  intros Hx Hi. rewrite <- (Z.mod_small x (2 ^ 32)) by apply Hx.
  apply Z.mod_pow2_bits_high. lia.
Qed.

Lemma lxor_range x y : is_u32 x -> is_u32 y -> is_u32 (Z.lxor x y).
Proof.
  intros Hx Hy. replace (Z.lxor x y) with (u32 (Z.lxor x y)); [apply u32_range|].
  apply Z.bits_inj'. intros i Hi. rewrite u32_testbit by done.
  destruct (Z.ltb_spec i 32); [done|].
  by rewrite Z.lxor_spec, !u32_high by (done || lia).
Qed.

Lemma shl_lxor n x y :
  u32 (Z.shiftl (Z.lxor x y) n) = Z.lxor (u32 (Z.shiftl x n)) (u32 (Z.shiftl y n)).
Proof.
  apply Z.bits_inj'. intros i Hi.
  rewrite Z.lxor_spec, !u32_testbit, !Z.shiftl_spec, Z.lxor_spec by done.
  by destruct (i <? 32).
Qed.

Lemma testbit31 k : is_u32 k -> negb (Z.land k 0x80000000 =? 0) = Z.testbit k 31.
Proof.
  intros Hk. destruct (Z.testbit k 31) eqn:E.
  - apply negb_true_iff, Z.eqb_neq. intros H0.
    assert (Z.testbit (Z.land k 0x80000000) 31 = true) as H by (rewrite Z.land_spec, E; done).
    rewrite H0 in H. done.
  - apply negb_false_iff, Z.eqb_eq. apply Z.bits_inj'. intros i Hi.
    rewrite Z.land_spec, Z.bits_0. destruct (decide (i = 31)) as [->|Hne]; [by rewrite E|].
    change 0x80000000 with (2 ^ 31). rewrite Z.pow2_bits_false by done. apply andb_false_r.
Qed.

Lemma crc32_round_eq k : is_u32 k -> crc32_round k = bit_step k false.
Proof.
  intros Hk. unfold crc32_round, bit_step. rewrite testbit31 by done.
  rewrite xorb_false_r. destruct (Z.testbit k 31); [done|]. by rewrite Z.lxor_0_r.
Qed.

Lemma bit_step_range c b : is_u32 (bit_step c b).
Proof. unfold bit_step. apply lxor_range; [apply u32_range|]. by destruct (xorb _ _). Qed.

(** The register is linear over GF(2) in its contents and the incoming bit. *)
Lemma bit_step_lxor c d a b :
  bit_step (Z.lxor c d) (xorb a b) = Z.lxor (bit_step c a) (bit_step d b).
Proof.
  unfold bit_step. rewrite shl_lxor, Z.lxor_spec.
  set (x := u32 _). set (y := u32 _).
  destruct (Z.testbit c 31), (Z.testbit d 31), a, b; cbn [xorb];
    apply Z.bits_inj'; intros i Hi; rewrite !Z.lxor_spec;
    destruct (Z.testbit x i), (Z.testbit y i), (Z.testbit poly i);
    rewrite ?Z.bits_0; done.
Qed.

Definition shift_zero (c : Z) : Z := bit_step c false.

Lemma foldl_bit_step_lxor l : forall c d k, length l = length k ->
  foldl bit_step (Z.lxor c d) (zip_with xorb l k)
  = Z.lxor (foldl bit_step c l) (foldl bit_step d k).
Proof.
  induction l as [|a l IH]; intros c d [|b k] [=]; [done|].
  cbn. rewrite bit_step_lxor. by apply IH.
Qed.

Lemma iter_shift_lxor n c d :
  Nat.iter n shift_zero (Z.lxor c d)
  = Z.lxor (Nat.iter n shift_zero c) (Nat.iter n shift_zero d).
Proof.
  induction n as [|n IH]; [done|]. rewrite !Nat.iter_succ, IH.
  unfold shift_zero. by rewrite <- bit_step_lxor.
Qed.

(** As long as no set bit reaches the top the rounds only shift. *)
Lemma iter_shift_low n x :
  (n <= 32)%nat -> 0 <= x < 2 ^ (32 - Z.of_nat n) ->
  Nat.iter n shift_zero x = Z.shiftl x (Z.of_nat n).
Proof.
  induction n as [|n IH]; intros Hn Hx; [by rewrite Z.shiftl_0_r|].
  rewrite !Nat.iter_succ, IH.
  2: lia.
  2: { split; [lia|]. apply Z.lt_le_trans with (1 := proj2 Hx).
       apply Z.pow_le_mono_r; lia. }
  unfold shift_zero, bit_step. rewrite xorb_false_r.
  rewrite Z.shiftl_spec by lia.
  rewrite (proj1 (Z.bounded_iff_bits_nonneg' (31 - Z.of_nat n) x ltac:(lia) ltac:(lia))).
  2: { replace (32 - Z.of_nat (S n)) with (31 - Z.of_nat n) in Hx by lia. tauto. }
  2: lia.
  rewrite Z.lxor_0_r, Z.shiftl_shiftl by lia.
  replace (Z.of_nat n + 1) with (Z.of_nat (S n)) by lia.
  unfold u32. rewrite Z.mod_small; [done|].
  rewrite Z.shiftl_mul_pow2 by lia. split; [lia|].
  replace (2 ^ 32) with (2 ^ (32 - Z.of_nat (S n)) * 2 ^ Z.of_nat (S n)).
  - apply Z.mul_lt_mono_pos_r; [lia|tauto].
  - rewrite <- Z.pow_add_r by lia. f_equal. lia.
Qed.

Lemma crc32_entry_eq i : crc32_entry i = Nat.iter 8 shift_zero (u32 (Z.shiftl i 24)).
Proof.
  unfold crc32_entry. generalize 8%nat as n. induction n as [|n IH]; [done|].
  rewrite !Nat.iter_succ, IH. apply crc32_round_eq.
  destruct n; [apply u32_range|apply bit_step_range].
Qed.

Lemma crc32_entry_lxor i j :
  crc32_entry (Z.lxor i j) = Z.lxor (crc32_entry i) (crc32_entry j).
Proof. by rewrite !crc32_entry_eq, shl_lxor, iter_shift_lxor. Qed.

Lemma crc32_table_lookup i : 0 <= i < 256 -> crc32_table !!! Z.to_nat i = crc32_entry i.
Proof.
  intros Hi. unfold crc32_table. apply list_lookup_total_correct.
  rewrite list_lookup_fmap, lookup_seqZ_lt by lia. cbn [fmap option_fmap option_map].
  do 2 f_equal. rewrite Z2Nat.id; lia.
Qed.

Lemma entry_of_byte b : foldl bit_step 0 (byte_bits b) = crc32_entry (ub b).
Proof. destruct b; vm_compute; reflexivity. Qed.

Lemma byte_index c b : is_u32 c ->
  Z.land (Z.lxor (Z.shiftr c 24) (ub b)) 0xff = Z.lxor (Z.shiftr c 24) (ub b).
Proof.
  intros Hc. change 0xff with (Z.ones 8). apply Z.bits_inj'. intros i Hi.
  rewrite Z.land_spec, Z.testbit_ones_nonneg by lia.
  destruct (Z.ltb_spec i 8); [by rewrite andb_true_r|].
  rewrite Z.lxor_spec, Z.shiftr_spec, (u32_high c) by (done || lia).
  rewrite (proj1 (Z.bounded_iff_bits_nonneg' 8 (ub b) ltac:(lia) (proj1 (ub_bounds b))));
    [done|apply ub_bounds|lia].
Qed.

Lemma byte_index_range c b : is_u32 c -> 0 <= Z.lxor (Z.shiftr c 24) (ub b) < 256.
Proof.
  intros Hc. rewrite <- byte_index by done. change 0xff with (Z.ones 8).
  apply land_ones_bounds. lia.
Qed.

Lemma crc32_step_entry c b : is_u32 c ->
  crc32_step c b = Z.lxor (u32 (Z.shiftl c 8)) (crc32_entry (Z.lxor (Z.shiftr c 24) (ub b))).
Proof.
  intros Hc. unfold crc32_step. rewrite byte_index by done.
  by rewrite crc32_table_lookup by (apply byte_index_range; done).
Qed.

(** Splitting the register into its top byte and the rest. *)
Lemma split_top c : is_u32 c ->
  c = Z.lxor (u32 (Z.shiftl (Z.shiftr c 24) 24)) (Z.land c (Z.ones 24)).
Proof.
  intros Hc. apply Z.bits_inj'. intros i Hi.
  rewrite Z.lxor_spec, u32_testbit, Z.land_spec, Z.testbit_ones_nonneg by lia.
  destruct (Z.ltb_spec i 32).
  2: { rewrite u32_high by done. done. }
  destruct (Z.ltb_spec i 24).
  - rewrite Z.shiftl_spec_low by done. by rewrite andb_true_r.
  - rewrite Z.shiftl_spec, Z.shiftr_spec by lia. rewrite andb_false_r, xorb_false_r.
    cbn. f_equal. lia.
Qed.

Lemma shl8_low c : u32 (Z.shiftl c 8) = Z.shiftl (Z.land c (Z.ones 24)) 8.
Proof.
  apply Z.bits_inj'. intros i Hi. rewrite u32_testbit, !Z.shiftl_spec by done.
  destruct (decide (i < 8)).
  - rewrite !Z.testbit_neg_r by lia. apply andb_false_r.
  - rewrite Z.land_spec, Z.testbit_ones_nonneg by lia.
    destruct (Z.ltb_spec i 32), (Z.ltb_spec (i - 8) 24); try lia;
      by rewrite ?andb_true_r, ?andb_false_r.
Qed.

Lemma zip_with_xorb_false l : zip_with xorb (replicate (length l) false) l = l.
Proof. induction l as [|b l IH]; [done|]. cbn. rewrite IH. by destruct b. Qed.

Lemma foldl_zeros n c : foldl bit_step c (replicate n false) = Nat.iter n shift_zero c.
Proof.
  revert c. induction n as [|n IH]; intros c; [done|].
  cbn [replicate foldl]. by rewrite IH, Nat.iter_succ_r.
Qed.

Lemma foldl_bits_split c l :
  foldl bit_step c l = Z.lxor (Nat.iter (length l) shift_zero c) (foldl bit_step 0 l).
Proof.
  rewrite <- (zip_with_xorb_false l) at 1. rewrite <- (Z.lxor_0_r c) at 1.
  rewrite foldl_bit_step_lxor by (by rewrite length_replicate). by rewrite foldl_zeros.
Qed.

Lemma crc32_step_bits c b : is_u32 c -> crc32_step c b = foldl bit_step c (byte_bits b).
Proof.
  intros Hc. rewrite crc32_step_entry, crc32_entry_lxor, foldl_bits_split, entry_of_byte by done.
  change (length (byte_bits b)) with 8%nat. rewrite <- Z.lxor_assoc. f_equal.
  rewrite (split_top c Hc) at 3. rewrite iter_shift_lxor, <- crc32_entry_eq.
  rewrite (iter_shift_low 8); [|lia|apply land_ones_bounds; lia].
  rewrite shl8_low. apply Z.lxor_comm.
Qed.

Lemma foldl_bit_step_range c l : is_u32 c -> is_u32 (foldl bit_step c l).
Proof.
  revert c. induction l as [|b l IH]; intros c Hc; [done|].
  cbn. apply IH, bit_step_range.
Qed.

Lemma crc32_step_range c b : is_u32 c -> is_u32 (crc32_step c b).
Proof. intros Hc. rewrite crc32_step_bits by done. by apply foldl_bit_step_range. Qed.

Lemma foldl_crc32_step_range c l : is_u32 c -> is_u32 (foldl crc32_step c l).
Proof.
  revert c. induction l as [|b l IH]; intros c Hc; [done|].
  cbn. by apply IH, crc32_step_range.
Qed.

Lemma foldl_crc32_step_bits c l : is_u32 c ->
  foldl crc32_step c l = foldl bit_step c (l ≫= byte_bits).
Proof.
  revert c. induction l as [|b l IH]; intros c Hc; [done|].
  cbn [foldl]. rewrite IH by (by apply crc32_step_range).
  change ((b :: l) ≫= byte_bits) with (byte_bits b ++ (l ≫= byte_bits)).
  by rewrite foldl_app, crc32_step_bits.
Qed.

Lemma init_u32 : is_u32 0xffffffff.
Proof. split; vm_compute; congruence. Qed.

Lemma crc32_calc_range d : is_u32 (crc32_calc d).
Proof. apply foldl_crc32_step_range, init_u32. Qed.

Lemma crc32_step_top c : is_u32 c -> crc32_step c (byte_of (Z.shiftr c 24)) = u32 (Z.shiftl c 8).
Proof.
  intros Hc. rewrite crc32_step_entry by done.
  replace (ub (byte_of (Z.shiftr c 24))) with (Z.shiftr c 24).
  - by rewrite Z.lxor_nilpotent, Z.lxor_0_r.
  - pose proof (byte_index_range c x00 Hc) as Hr. rewrite Z.lxor_0_r in Hr.
    pose proof (byte_index c x00 Hc) as Hm. rewrite Z.lxor_0_r in Hm.
    unfold byte_of. rewrite Hm. unfold ub.
    destruct (Byte.of_N (Z.to_N (Z.shiftr c 24))) as [b|] eqn:E; cbn [from_option id].
    + apply Byte.to_of_N in E. rewrite E, Z2N.id; lia.
    + apply Byte.of_N_None_iff in E. lia.
Qed.

Lemma byte_of_shift c k : 0 <= k <= 16 ->
  byte_of (Z.shiftr c k) = byte_of (Z.shiftr (u32 (Z.shiftl c 8)) (k + 8)).
Proof.
  intros Hk. unfold byte_of. do 3 f_equal. change 0xff with (Z.ones 8).
  apply Z.bits_inj'. intros i Hi.
  rewrite !Z.land_spec, !Z.shiftr_spec, Z.testbit_ones_nonneg, u32_testbit, Z.shiftl_spec by lia.
  destruct (Z.ltb_spec i 8), (Z.ltb_spec (i + (k + 8)) 32); try lia; rewrite ?andb_false_r; try done.
  rewrite !andb_true_r, andb_true_l. f_equal. lia.
Qed.

(** ** Injectivity of the register transitions *)

Definition top_aligned : list bool -> Z -> Z :=
  fix go l i := match l with
                | [] => 0
                | b :: l => Z.lxor (if b : bool then 2 ^ i else 0) (go l (i - 1))
                end.

Lemma bit_step_load c b : bit_step c b = shift_zero (Z.lxor c (if b then 2 ^ 31 else 0)).
Proof.
  unfold shift_zero. rewrite <- (xorb_false_r false) at 1. rewrite bit_step_lxor.
  destruct b.
  - change (bit_step (2 ^ 31) false) with poly. unfold bit_step.
    destruct (Z.testbit c 31); cbn [xorb]; rewrite ?Z.lxor_0_r; [|done].
    by rewrite Z.lxor_assoc, Z.lxor_nilpotent, Z.lxor_0_r.
  - change (bit_step 0 false) with 0. by rewrite Z.lxor_0_r.
Qed.

Lemma shift_zero_pow i : 0 <= i < 31 -> shift_zero (2 ^ i) = 2 ^ (i + 1).
Proof.
  intros Hi. unfold shift_zero, bit_step. rewrite Z.pow2_bits_false by lia.
  cbn [xorb]. rewrite Z.lxor_0_r, Z.shiftl_mul_pow2, <- Z.pow_add_r by lia.
  unfold u32. apply Z.mod_small. split; [lia|]. apply Z.pow_lt_mono_r; lia.
Qed.

Lemma shift_zero_top_aligned l i : i < 31 -> Z.of_nat (length l) <= i + 1 ->
  shift_zero (top_aligned l i) = top_aligned l (i + 1).
Proof.
  revert i. induction l as [|b l IH]; intros i Hi Hl; [done|]. cbn [length] in Hl.
  cbn [top_aligned]. unfold shift_zero in *. rewrite <- (xorb_false_r false) at 1.
  rewrite bit_step_lxor, IH by lia.
  replace (i - 1 + 1) with (i + 1 - 1) by lia. f_equal.
  destruct b; [|done]. apply shift_zero_pow. lia.
Qed.

Lemma foldl_bit_step_load l c : (length l <= 32)%nat ->
  foldl bit_step c l = Nat.iter (length l) shift_zero (Z.lxor c (top_aligned l 31)).
Proof.
  revert c. induction l as [|b l IH]; intros c Hl; cbn [length] in *.
  { by rewrite Z.lxor_0_r. }
  cbn [foldl]. rewrite IH, bit_step_load by lia.
  rewrite Nat.iter_succ_r. f_equal. cbn [top_aligned]. rewrite <- Z.lxor_assoc.
  set (d := Z.lxor c _). change (top_aligned l 31) with (top_aligned l (30 + 1)).
  rewrite <- shift_zero_top_aligned by lia. change (31 - 1) with 30.
  unfold shift_zero. by rewrite <- bit_step_lxor.
Qed.

Lemma shift_zero_inj c : is_u32 c -> shift_zero c = 0 -> c = 0.
Proof.
  intros Hc. unfold shift_zero, bit_step. rewrite xorb_false_r. intros H.
  assert (Z.testbit c 31 = false) as Htop.
  { apply (f_equal (fun z => Z.testbit z 0)) in H.
    rewrite Z.lxor_spec, u32_testbit, Z.shiftl_spec_low in H by lia.
    destruct (Z.testbit c 31); [done|done]. }
  rewrite Htop, Z.lxor_0_r in H. apply Z.bits_inj'. intros i Hi. rewrite Z.bits_0.
  destruct (decide (i = 31)) as [->|]; [done|]. destruct (decide (32 <= i)).
  { by apply u32_high. }
  apply (f_equal (fun z => Z.testbit z (i + 1))) in H.
  rewrite u32_testbit, Z.shiftl_spec, Z.bits_0 in H by lia.
  destruct (Z.ltb_spec (i + 1) 32); [|lia]. by replace (i + 1 - 1) with i in H by lia.
Qed.

Lemma iter_shift_inj n c : is_u32 c -> Nat.iter n shift_zero c = 0 -> c = 0.
Proof.
  induction n as [|n IH]; intros Hc H; [done|]. rewrite Nat.iter_succ in H.
  apply IH; [done|]. apply shift_zero_inj in H; [done|].
  destruct n; [done|apply bit_step_range].
Qed.

Lemma top_aligned_range l i : -1 <= i -> Z.of_nat (length l) <= i + 1 ->
  0 <= top_aligned l i < 2 ^ (i + 1).
Proof.
  revert i. induction l as [|b l IH]; intros i Hi Hl; cbn [length top_aligned] in *; [lia|].
  apply Z.bounded_iff_bits_nonneg'; [lia| |].
  - apply Z.lxor_nonneg. destruct (IH (i - 1)); [lia..|]. destruct b; lia.
  - intros j Hj. rewrite Z.lxor_spec.
    rewrite (proj1 (Z.bounded_iff_bits_nonneg' (i - 1 + 1) (top_aligned l (i - 1))
                      ltac:(lia) ltac:(apply IH; lia))); [|apply IH; lia|lia].
    destruct b; [|by rewrite Z.bits_0]. by rewrite Z.pow2_bits_false by lia.
Qed.

Lemma top_aligned_0 l i : -1 <= i -> Z.of_nat (length l) <= i + 1 ->
  top_aligned l i = 0 -> l = replicate (length l) false.
Proof.
  revert i. induction l as [|b l IH]; intros i Hi Hl H; cbn [length top_aligned] in *; [done|].
  pose proof (top_aligned_range l (i - 1) ltac:(lia) ltac:(lia)) as Hr.
  assert (b = false) as ->.
  { destruct b; [|done]. apply (f_equal (fun z => Z.testbit z i)) in H.
    rewrite Z.lxor_spec, Z.pow2_bits_true, Z.bits_0 in H by lia.
    rewrite (proj1 (Z.bounded_iff_bits_nonneg' i _ ltac:(lia) (proj1 Hr))) in H; [done| |lia].
    by replace (i - 1 + 1) with i in Hr by lia. }
  rewrite Z.lxor_0_l in H. cbn [replicate]. f_equal. apply (IH (i - 1)); [lia..|done].
Qed.

Lemma foldl_bit_step_inj c d l : is_u32 c -> is_u32 d ->
  foldl bit_step c l = foldl bit_step d l -> c = d.
Proof.
  intros Hc Hd. rewrite (foldl_bits_split c), (foldl_bits_split d). intros H.
  assert (Nat.iter (length l) shift_zero (Z.lxor c d) = 0) as H0.
  { rewrite iter_shift_lxor. apply Z.lxor_eq_0_iff.
    apply (f_equal (fun z => Z.lxor z (foldl bit_step 0 l))) in H.
    by rewrite !Z.lxor_assoc, Z.lxor_nilpotent, !Z.lxor_0_r in H. }
  apply iter_shift_inj in H0; [|by apply lxor_range]. by apply Z.lxor_eq.
Qed.

(** At most 32 bits into the register: different bits, different register. *)
Lemma foldl_bit_step_bits_inj c l k : length l = length k -> (length l <= 32)%nat ->
  is_u32 c -> foldl bit_step c l = foldl bit_step c k -> l = k.
Proof.
  intros Hlen Hl Hc. rewrite (foldl_bits_split c l), (foldl_bits_split c k), <- Hlen. intros H.
  apply (f_equal (Z.lxor (Nat.iter (length l) shift_zero c))) in H.
  rewrite <- !Z.lxor_assoc, !Z.lxor_nilpotent, !Z.lxor_0_l in H.
  apply Z.lxor_eq_0_iff in H. rewrite <- foldl_bit_step_lxor, Z.lxor_0_r in H by done.
  assert (length (zip_with xorb l k) = length l) as Hz by (rewrite length_zip_with; lia).
  rewrite foldl_bit_step_load, Z.lxor_0_l in H by lia.
  apply iter_shift_inj in H.
  - apply top_aligned_0 in H; [|lia..]. rewrite Hz in H. clear -H Hlen.
    revert k Hlen H. induction l as [|a l IH]; intros [|b k] [=]; [done|].
    cbn. intros [= H1 H2]. f_equal; [by destruct a, b|auto].
  - apply (top_aligned_range _ 31); lia.
Qed.

Lemma byte_bits_value b :
  ub b = foldl (fun (a : Z) (bit : bool) => 2 * a + Z.b2z bit) 0 (byte_bits b).
Proof. destruct b; reflexivity. Qed.

Lemma byte_bits_inj b c : byte_bits b = byte_bits c -> b = c.
Proof. intros H. apply ub_inj. by rewrite !byte_bits_value, H. Qed.

Lemma bytes_bits_inj l k : length l = length k -> l ≫= byte_bits = k ≫= byte_bits -> l = k.
Proof.
  revert k. induction l as [|b l IH]; intros [|c k] [=]; [done|].
  change ((b :: l) ≫= byte_bits) with (byte_bits b ++ (l ≫= byte_bits)).
  change ((c :: k) ≫= byte_bits) with (byte_bits c ++ (k ≫= byte_bits)).
  intros [E1 E2]%app_inj_1; [|done]. f_equal; [by apply byte_bits_inj|auto].
Qed.

Lemma length_bytes_bits l : length (l ≫= byte_bits) = (8 * length l)%nat.
Proof.
  induction l as [|b l IH]; [done|].
  change ((b :: l) ≫= byte_bits) with (byte_bits b ++ (l ≫= byte_bits)).
  rewrite length_app, IH. cbn [length]. change (length (byte_bits b)) with 8%nat. lia.
Qed.

Lemma crc32_calc_app d e : crc32_calc (d ++ e) = foldl crc32_step (crc32_calc d) e.
Proof. apply foldl_app. Qed.

(** Feeding the register its own contents empties it. *)
Lemma crc32_zero_state c : is_u32 c -> foldl crc32_step c (be32_bytes c) = 0.
Proof.
  intros Hr. unfold be32_bytes. cbn [foldl]. rewrite crc32_step_top by done.
  rewrite (byte_of_shift c 16), crc32_step_top by (lia || apply u32_range).
  rewrite (byte_of_shift c 8), (byte_of_shift _ 16), crc32_step_top by (lia || apply u32_range).
  rewrite <- (Z.shiftr_0_r c) at 2.
  rewrite (byte_of_shift c 0), (byte_of_shift _ 8), (byte_of_shift _ 16), crc32_step_top
    by (lia || apply u32_range).
  apply Z.bits_inj'. intros i Hi. rewrite Z.bits_0, u32_testbit by done.
  destruct (Z.ltb_spec i 32); [|done]. cbn [andb].
  repeat (rewrite Z.shiftl_spec by done; destruct (decide (0 <= i - 8));
          [rewrite u32_testbit by lia|by rewrite Z.testbit_neg_r by lia]).
  all: repeat match goal with
       | |- context [Z.testbit (Z.shiftl _ _) ?j] =>
           destruct (decide (j < 8)); [rewrite Z.shiftl_spec_low, ?andb_false_r by lia; done|];
           rewrite Z.shiftl_spec by lia; rewrite ?u32_testbit by lia
       end; rewrite ?(Z.testbit_neg_r c) by lia; rewrite ?andb_false_r; done.
Qed.

(** Two buffers that differ in a window of four bytes. *)
Lemma crc32_burst_differs pre x y post :
  length x = length y -> (length x <= 4)%nat -> x <> y ->
  crc32_calc (pre ++ x ++ post) <> crc32_calc (pre ++ y ++ post).
Proof.
  intros Hlen H4 Hne H. apply Hne. rewrite !crc32_calc_app, !foldl_app in H.
  pose proof (crc32_calc_range pre) as Hr.
  rewrite !(foldl_crc32_step_bits _ post) in H by (by apply foldl_crc32_step_range).
  apply foldl_bit_step_inj in H; [|by apply foldl_crc32_step_range..].
  rewrite !foldl_crc32_step_bits in H by done.
  apply foldl_bit_step_bits_inj in H; [|rewrite !length_bytes_bits; lia..|done].
  by apply bytes_bits_inj.
Qed.

(** ** Properties *)

(** C22: the table driven [crc32_calc], with the table [crc32_init] builds,
    computes the bit serial MPEG-2 CRC32 of every buffer. *)
Theorem crc32_table_driven data : crc32_calc data = crc32_reference data.
Proof. apply foldl_crc32_step_bits, init_u32. Qed.

(** The comment of [crc32_calc], "a complete section (crc included)
    results in 0": appending the big endian crc of any data gives crc 0. *)
Theorem crc32_section_zero data :
  crc32_calc (data ++ be32_bytes (crc32_calc data)) = 0.
Proof. rewrite crc32_calc_app. apply crc32_zero_state, crc32_calc_range. Qed.

(** Two sections of the same length that differ only inside a window of
    at most four bytes (any burst of up to 32 bits) have different crcs, so a
    section damaged that way is never taken for a good one. *)
Theorem crc32_burst_detected pre x y post :
  length x = length y -> (length x <= 4)%nat -> x <> y ->
  crc32_calc (pre ++ x ++ post) <> crc32_calc (pre ++ y ++ post).
Proof. apply crc32_burst_differs. Qed.

Lemma crc32_burst_detected_witness :
  crc32_calc ([x00] ++ [x01; x02] ++ [xff]) <> crc32_calc ([x00] ++ [x01; x03] ++ [xff]).
Proof. apply (crc32_burst_detected [x00] [x01; x02] [x01; x03] [xff]); [reflexivity|cbn; lia|discriminate]. Defined.
