(* ===== verification/CText.v ===== *)
(** C and C++ text: [std::string] values and [char] buffers are lists of bytes.
    The pieces of the standard library the program uses on them (printing of
    integers, strtol, sscanf's %d, strstr, strchr, getline with a delimiter),
    and the lemmas that what is printed is read back. *)

From stdpp Require Import pretty.
From S2P Require Import Prelude.

Abbreviation text := (list byte).

#[export] Instance byte_eq_decision : EqDecision byte := Byte.byte_eq_dec.

Definition str (s : string) : text := String.list_byte_of_string s.

#[global] Arguments str !s /.

(** ** Characters *)

Definition is_space (b : byte) : bool := (ub b =? 32) || ((9 <=? ub b) && (ub b <=? 13)).

(** The value of a character as a digit of [base] (2 to 36). *)
Definition digit_of (base : Z) (b : byte) : option Z :=
  let c := ub b in
  let v := if (48 <=? c) && (c <=? 57) then c - 48
           else if (97 <=? c) && (c <=? 122) then c - 87
           else if (65 <=? c) && (c <=? 90) then c - 55
           else base in
  if v <? base then Some v else None.

(** ** Printing *)

(** [oss << n] and [%d] of a (signed) integer. *)
Definition dec (n : Z) : text := str (pretty n).

(** One digit of [%x]. *)
Definition hex_digit (d : Z) : byte :=
  default x30 (Byte.of_N (Z.to_N (if d <? 10 then 48 + d else 87 + d))).

Fixpoint hex_digits (fuel : nat) (n : Z) (acc : text) : text :=
  match fuel with
  | O => acc
  | S fuel =>
    let acc := hex_digit (n `mod` 16) :: acc in
    if n <? 16 then acc else hex_digits fuel (n / 16) acc
  end.

(** [0x%04x] of an int: at least four digits of its unsigned value. *)
Definition hex4 (n : Z) : text :=
  let d := hex_digits 8 (u32 n) [] in
  str "0x" ++ replicate (4 - length d) x30 ++ d.

(** ** Reading *)

Fixpoint skip_spaces (s : text) : text :=
  match s with
  | b :: s' => if is_space b then skip_spaces s' else s
  | [] => []
  end.

(** The value of the leading digits, and what follows them. *)
Fixpoint read_digits (base acc : Z) (s : text) : Z * text :=
  match s with
  | b :: s' =>
    match digit_of base b with
    | Some v => read_digits base (acc * base + v) s'
    | None => (acc, s)
    end
  | [] => (acc, [])
  end.

Definition read_sign (s : text) : bool * text :=
  match s with
  | b :: s' => if ub b =? 45 then (true, s') else if ub b =? 43 then (false, s') else (false, s)
  | [] => (false, s)
  end.

(** The base strtol uses, and the text behind a hexadecimal prefix. *)
Definition read_prefix (base : Z) (s : text) : Z * text :=
  match s with
  | z :: s' =>
    if (ub z =? 48) && ((base =? 0) || (base =? 16)) then
      match s' with
      | x :: d :: _ =>
        if ((ub x =? 120) || (ub x =? 88)) && bool_decide (is_Some (digit_of 16 d))
        then (16, tail s') else (if base =? 0 then 8 else base, s)
      | _ => (if base =? 0 then 8 else base, s)
      end
    else (if base =? 0 then 10 else base, s)
  | [] => (base, s)
  end.

Definition clamp (lo hi x : Z) : Z := Z.max lo (Z.min hi x).

(** The width of [long], which differs between the supported boxes. *)
Class LongWidth := long_bits : Z.

Definition strtol `{LongWidth} (base : Z) (s : text) : Z :=
  let '(neg, s) := read_sign (skip_spaces s) in
  let '(base, s) := read_prefix base s in
  let v := fst (read_digits base 0 s) in
  clamp (- 2 ^ (long_bits - 1)) (2 ^ (long_bits - 1) - 1) (if neg then - v else v).

Definition atoi `{LongWidth} (s : text) : Z := s32 (strtol 10 s).

(** One [%d] of sscanf: [None] when there is no number to convert. *)
Definition scan_int `{LongWidth} (s : text) : option (Z * text) :=
  let '(neg, s) := read_sign (skip_spaces s) in
  match s with
  | b :: _ =>
    if bool_decide (is_Some (digit_of 10 b)) then
      let '(v, rest) := read_digits 10 0 s in
      Some (s32 (clamp (- 2 ^ (long_bits - 1)) (2 ^ (long_bits - 1) - 1)
                       (if neg then - v else v)), rest)
    else None
  | [] => None
  end.

(** The C string a buffer holds: the bytes before the first NUL. *)
Fixpoint c_str (s : text) : text :=
  match s with
  | b :: s' => if ub b =? 0 then [] else b :: c_str s'
  | [] => []
  end.

Fixpoint is_prefix (p s : text) : bool :=
  match p, s with
  | [], _ => true
  | _ :: _, [] => false
  | b :: p', c :: s' => (ub b =? ub c) && is_prefix p' s'
  end.

(** [strstr]: the suffix that starts at the first occurrence. *)
Fixpoint strstr (hay needle : text) : option text :=
  if is_prefix needle hay then Some hay
  else match hay with [] => None | _ :: hay' => strstr hay' needle end.

Fixpoint strchr (hay : text) (c : Z) : option text :=
  match hay with
  | [] => None
  | b :: hay' => if ub b =? c then Some hay else strchr hay' c
  end.

(** Repeated [getline] with a delimiter: the pieces between the delimiters.
    Nothing follows a delimiter at the very end, and the empty text has no
    pieces. *)
Fixpoint getline_split (delim : Z) (cur s : text) : list text :=
  match s with
  | [] => match cur with [] => [] | _ => [rev cur] end
  | b :: s' =>
    if ub b =? delim then rev cur :: getline_split delim [] s'
    else getline_split delim (b :: cur) s'
  end.

(** ** Printed numbers are read back *)

Lemma byte_of_ascii_digit (x : N) : (x < 10)%N ->
  digit_of 10 (Ascii.byte_of_ascii (pretty_N_char x)) = Some (Z.of_N x).
Proof.
  intros Hx. rewrite <- (N2Nat.id x) in *. assert (N.to_nat x < 10)%nat as H by lia.
  revert H. clear Hx. generalize (N.to_nat x). intros n Hn.
  do 10 (destruct n as [|n]; [reflexivity|]). lia.
Qed.

(** Digits followed by something that is not one. *)
Definition no_digit (s : text) : Prop :=
  match s with [] => True | b :: _ => digit_of 10 b = None end.

Definition digits (s : text) : Prop := Forall (fun b => is_Some (digit_of 10 b)) s.

Lemma read_digits_app s : forall acc rest, digits s -> no_digit rest ->
  read_digits 10 acc (s ++ rest) = (fst (read_digits 10 acc s), rest).
Proof.
  induction s as [|b s IH]; intros acc rest Hs Hr.
  - destruct rest as [|c rest]; [done|]. cbn in *. by rewrite Hr.
  - apply Forall_cons in Hs as [[v Hv] Hs]. cbn [app read_digits]. rewrite Hv. by apply IH.
Qed.

Lemma pretty_go_digits x : forall s,
  exists d, str (pretty_N_go x s) = d ++ str s /\ digits d /\
    forall acc, fst (read_digits 10 acc d)
                = acc * 10 ^ Z.of_nat (length d) + Z.of_N x.
Proof.
  induction (N.lt_wf_0 x) as [x _ IH]. intros s.
  destruct (decide (x = 0)%N) as [->|Hx].
  { exists []. rewrite pretty_N_go_0. split; [done|]. split; [by apply Forall_nil|].
    intros acc. cbn. lia. }
  rewrite pretty_N_go_step by lia.
  destruct (IH (x `div` 10)%N) with (s := String (pretty_N_char (x `mod` 10)%N) s)
    as (d & Hd & Hdig & Hval); [apply N.div_lt; lia|].
  set (c := Ascii.byte_of_ascii (pretty_N_char (x `mod` 10)%N)).
  assert (digit_of 10 c = Some (Z.of_N (x `mod` 10))) as Hc.
  { apply byte_of_ascii_digit. by apply N.mod_lt. }
  exists (d ++ [c]). split; [|split].
  - rewrite Hd, <- app_assoc. done.
  - apply Forall_app. split; [done|]. apply Forall_singleton. by eexists.
  - intros acc. clear IH Hd. revert acc Hval. clearbody c.
    assert (forall acc, fst (read_digits 10 acc (d ++ [c]))
      = fst (read_digits 10 acc d) * 10 + Z.of_N (x `mod` 10)) as Hsnoc.
    { induction d as [|b d IHd]; intros acc; cbn; [by rewrite Hc|].
      apply Forall_cons in Hdig as [[v Hv] Hdig]. rewrite Hv. by apply IHd. }
    intros acc Hval. rewrite Hsnoc, Hval, length_app. cbn [length].
    rewrite Nat.add_1_r, Nat2Z.inj_succ, Z.pow_succ_r by lia.
    pose proof (N.div_mod x 10). rewrite Z.mul_add_distr_r. lia.
Qed.

Lemma dec_digits n : 0 <= n ->
  digits (dec n) /\ dec n <> [] /\ fst (read_digits 10 0 (dec n)) = n.
Proof.
  intros Hn. unfold dec. destruct n as [|p|p]; [|clear Hn|lia].
  { repeat split; try done. apply Forall_singleton. by eexists. }
  change (pretty (Z.pos p)) with (pretty_N_go (N.pos p) "").
  destruct (pretty_go_digits (N.pos p) "") as (d & -> & Hd & Hv). cbn [str]. rewrite app_nil_r.
  split; [done|]. specialize (Hv 0). cbn [Z.mul Z.add] in Hv. split; [|by rewrite Hv].
  intros ->. cbn in Hv. lia.
Qed.

Lemma digit_range c : is_Some (digit_of 10 c) -> 48 <= ub c <= 57.
Proof.
  intros [v Hv]. revert Hv. unfold digit_of. pose proof (ub_bounds c).
  destruct ((48 <=? ub c) && (ub c <=? 57)) eqn:E1; bool_cases; [lia|].
  destruct ((97 <=? ub c) && (ub c <=? 122)) eqn:E2; bool_cases.
  { destruct (Z.ltb_spec (ub c - 87) 10); [lia|done]. }
  destruct ((65 <=? ub c) && (ub c <=? 90)) eqn:E3; bool_cases.
  { destruct (Z.ltb_spec (ub c - 55) 10); [lia|done]. }
  done.
Qed.

(** Text without a character. *)
Definition free_of (c : Z) (s : text) : Prop := Forall (fun b => ub b <> c) s.

Lemma free_of_app c a b : free_of c (a ++ b) <-> free_of c a /\ free_of c b.
Proof. apply Forall_app. Qed.

Lemma digits_free c s : ~ (48 <= c <= 57) -> digits s -> free_of c s.
Proof.
  intros Hc Hs. eapply Forall_impl; [exact Hs|]. cbn. intros b Hb Hbc. apply Hc. subst c.
  by apply digit_range.
Qed.

Lemma dec_free c n : ~ (48 <= c <= 57) -> c <> 45 -> free_of c (dec n).
Proof.
  intros Hc Hm. destruct (decide (0 <= n)) as [Hn|Hn].
  { apply digits_free; [done|]. by apply dec_digits. }
  destruct n as [|p|p]; [lia|lia|].
  change (free_of c (x2d :: dec (Z.pos p))). constructor; [cbn; lia|].
  apply digits_free; [done|]. by apply dec_digits.
Qed.

(** The pieces between delimiters. *)
Lemma getline_split_app d a b : forall cur, free_of d a ->
  getline_split d cur (a ++ b) = getline_split d (rev a ++ cur) b.
Proof.
  induction a as [|c a IH]; intros cur Ha; [done|].
  apply Forall_cons in Ha as [Hc Ha]. cbn [app getline_split].
  rewrite (proj2 (Z.eqb_neq _ _)) by done. rewrite IH by done. f_equal. cbn.
  by rewrite <- app_assoc.
Qed.

Lemma getline_split_last d a : free_of d a -> a <> [] -> getline_split d [] a = [a].
Proof.
  intros Ha Hne. rewrite <- (app_nil_r a) at 1. rewrite getline_split_app by done.
  cbn [getline_split]. rewrite app_nil_r.
  destruct (rev a) as [|x r] eqn:E.
  - apply (f_equal (@rev byte)) in E. rewrite rev_involutive in E. done.
  - rewrite <- E, rev_involutive. done.
Qed.

Lemma getline_split_cons d a b rest : free_of d a -> ub b = d ->
  getline_split d [] (a ++ b :: rest) = a :: getline_split d [] rest.
Proof.
  intros Ha Hb. rewrite getline_split_app by done. cbn [getline_split].
  rewrite (proj2 (Z.eqb_eq _ _)) by done. by rewrite app_nil_r, rev_involutive.
Qed.

(** The head of a printed number is a digit, so nothing is skipped there. *)
Lemma dec_head n : 0 <= n ->
  exists b s, dec n = b :: s /\ is_space b = false /\ is_Some (digit_of 10 b) /\
              (ub b =? 45) = false /\ (ub b =? 43) = false.
Proof.
  intros Hn. destruct (dec_digits n Hn) as (Hd & Hne & _).
  destruct (dec n) as [|b s]; [done|]. exists b, s.
  apply Forall_cons in Hd as [Hb _]. split; [done|].
  apply digit_range in Hb as Hc. unfold is_space.
  destruct (Z.eqb_spec (ub b) 32), (Z.leb_spec 9 (ub b)), (Z.leb_spec (ub b) 13); try lia.
  repeat split; try done; apply Z.eqb_neq; lia.
Qed.

(** Searching skips text without the first character of the needle. *)
Lemma strstr_skip a b needle n :
  head needle = Some n -> free_of (ub n) a -> strstr (a ++ b) needle = strstr b needle.
Proof.
  intros Hn Ha. destruct needle as [|m ns]; [done|]. injection Hn as ->.
  induction Ha as [|c a Hc Ha IH]; [done|].
  cbn [app strstr is_prefix]. rewrite (proj2 (Z.eqb_neq (ub n) (ub c))) by congruence. exact IH.
Qed.

Lemma is_prefix_app p s : is_prefix p (p ++ s) = true.
Proof. induction p as [|b p IH]; [done|]. cbn. by rewrite Z.eqb_refl, IH. Qed.

Lemma strstr_here p s : strstr (p ++ s) p = Some (p ++ s).
Proof.
  pose proof (is_prefix_app p s) as Hp. destruct (p ++ s) as [|b r] eqn:E.
  - cbn [strstr]. by rewrite Hp.
  - cbn [strstr]. by rewrite Hp.
Qed.

Lemma is_prefix_length p : forall s, is_prefix p s = true -> (length p <= length s)%nat.
Proof.
  induction p as [|b p IH]; intros s Hp; [cbn; lia|]. destruct s as [|c s]; [done|].
  cbn [is_prefix] in Hp. apply andb_true_iff in Hp as [_ Hp]. specialize (IH _ Hp). cbn. lia.
Qed.

Lemma strstr_length hay needle s :
  strstr hay needle = Some s -> zlen needle <= zlen s <= zlen hay.
Proof.
  unfold zlen. induction hay as [|b hay IH]; cbn [strstr]; intros Hs.
  - destruct (is_prefix needle []) eqn:Hp; [|done]. injection Hs as <-.
    apply is_prefix_length in Hp. cbn in *. lia.
  - destruct (is_prefix needle (b :: hay)) eqn:Hp.
    + injection Hs as <-. apply is_prefix_length in Hp. lia.
    + specialize (IH Hs). cbn [length]. lia.
Qed.

Lemma strchr_length hay c s : strchr hay c = Some s -> zlen s <= zlen hay.
Proof.
  unfold zlen. induction hay as [|b hay IH]; cbn [strchr]; intros Hs; [done|].
  destruct (ub b =? c); [by injection Hs as <-|]. specialize (IH Hs). cbn [length]. lia.
Qed.

Lemma skip_spaces_length s : zlen (skip_spaces s) <= zlen s.
Proof.
  unfold zlen. induction s as [|b s IH]; cbn [skip_spaces]; [lia|].
  destruct (is_space b); cbn [length]; lia.
Qed.

(** A search passes over text that lacks a character of the needle, when what
    follows starts with a character that is not in the needle. *)
Lemma is_prefix_spec p : forall s, is_prefix p s = true -> exists r, s = p ++ r.
Proof.
  induction p as [|b p IH]; intros s Hp; [by exists s|]. destruct s as [|c s]; [done|].
  cbn [is_prefix] in Hp. apply andb_true_iff in Hp as [Hb Hp].
  apply Z.eqb_eq, ub_inj in Hb as ->. destruct (IH s Hp) as [r ->]. by exists r.
Qed.

Lemma strstr_pass needle a x b m :
  m ∈ needle -> free_of (ub m) a -> free_of (ub x) needle ->
  strstr (a ++ x :: b) needle = strstr (x :: b) needle.
Proof.
  intros Hm Ha Hx. induction a as [|c a IH]; [done|].
  apply Forall_cons in Ha as Hca. destruct Hca as [_ Ha']. cbn [app strstr].
  destruct (is_prefix needle (c :: a ++ x :: b)) eqn:Hp; [|by apply IH].
  exfalso. apply is_prefix_spec in Hp as [r Hr].
  assert (c :: a ++ x :: b = (c :: a) ++ x :: b) as Hca by done. rewrite Hca in Hr.
  apply app_eq_inv in Hr as [(k & Hk & _)|(k & Hk & Hr)].
  - apply list_elem_of_lookup in Hm as [i Hi]. unfold free_of in Ha. rewrite Hk in Ha.
    apply Forall_app in Ha as [Ha _]. by apply (Forall_lookup_1 _ _ _ _ Ha) in Hi.
  - destruct k as [|y k].
    + rewrite app_nil_r in Hk. subst needle. apply list_elem_of_lookup in Hm as [i Hi].
      by apply (Forall_lookup_1 _ _ _ _ Ha) in Hi.
    + injection Hr as -> _. rewrite Hk in Hx. apply Forall_app in Hx as [_ Hx].
      by apply Forall_cons in Hx as [Hx _].
Qed.

(** A NUL ends the C string. *)
Lemma c_str_bound s : forall i, s !! i = Some x00 -> (length (c_str s) <= i)%nat.
Proof.
  induction s as [|b s IH]; intros i Hi; [done|]. cbn [c_str]. destruct i as [|i].
  - by injection Hi as ->.
  - specialize (IH i Hi). destruct (ub b =? 0); cbn; lia.
Qed.

Lemma strchr_skip a b c : free_of c a -> strchr (a ++ b) c = strchr b c.
Proof.
  intros Ha. induction Ha as [|x a Hx Ha IH]; [done|].
  cbn [app strchr]. by rewrite (proj2 (Z.eqb_neq (ub x) c)).
Qed.

Section Reading.
Context `{LongWidth}.

Lemma clamp_id lo hi x : lo <= x <= hi -> clamp lo hi x = x.
Proof. unfold clamp. lia. Qed.

(** Base 10: [strtol] gives back a printed number. *)
Lemma strtol_dec n rest :
  0 <= n < 2 ^ (long_bits - 1) -> no_digit rest -> strtol 10 (dec n ++ rest) = n.
Proof.
  intros Hn Hr. destruct (dec_digits n) as (Hd & _ & Hv); [lia|].
  destruct (dec_head n) as (b & s & Hb & Hsp & _ & Hm & Hp); [lia|].
  pose proof (read_digits_app (dec n) 0 rest Hd Hr) as Hread.
  unfold strtol. rewrite Hb in *. cbn [app skip_spaces] in *. rewrite Hsp. cbn [read_sign].
  rewrite Hm, Hp. unfold read_prefix. change (10 =? 0) with false. change (10 =? 16) with false.
  rewrite andb_false_r. rewrite Hread, Hv. cbn [fst]. apply clamp_id. lia.
Qed.

Lemma atoi_dec n rest :
  32 <= long_bits -> 0 <= n < 2 ^ 31 -> no_digit rest -> atoi (dec n ++ rest) = n.
Proof.
  intros Hl Hn Hr. pose proof (Z.pow_le_mono_r 2 31 (long_bits - 1)).
  unfold atoi. rewrite strtol_dec by (done || lia). apply s32_id. lia.
Qed.

Lemma scan_int_dec n rest :
  32 <= long_bits -> 0 <= n < 2 ^ 31 -> no_digit rest -> scan_int (dec n ++ rest) = Some (n, rest).
Proof.
  intros Hl Hn Hr. pose proof (Z.pow_le_mono_r 2 31 (long_bits - 1)).
  destruct (dec_digits n) as (Hd & _ & Hv); [lia|].
  destruct (dec_head n) as (b & s & Hb & Hsp & Hdig & Hm & Hp); [lia|].
  pose proof (read_digits_app (dec n) 0 rest Hd Hr) as Hread.
  unfold scan_int. rewrite Hb in *. cbn [app skip_spaces] in *. rewrite Hsp. cbn [read_sign].
  rewrite Hm, Hp, bool_decide_eq_true_2 by done. rewrite Hread, Hv. cbn [fst].
  rewrite clamp_id by lia. rewrite s32_id by lia. done.
Qed.
End Reading.
