(* ===== verification/Dvb.v ===== *)
(** The constants of <linux/dvb/frontend.h>. That header is not part of the
    program, so the development is parametric in them: [DvbConstants] names
    the ones the program uses, [DvbLaws] states what its switch statements rely
    on (labels of one switch are distinct), and [linux_dvb] are the documented
    values, at which the theorems are instantiated. *)

From S2P Require Import Prelude.

Class DvbConstants := {
  SYS_UNDEFINED : Z; SYS_DVBC_ANNEX_A : Z; SYS_DVBT : Z; SYS_DVBS : Z; SYS_DVBS2 : Z;
  SYS_DVBT2 : Z;
  QPSK : Z; QAM_16 : Z; QAM_32 : Z; QAM_64 : Z; QAM_128 : Z; QAM_256 : Z; PSK_8 : Z;
  FEC_1_2 : Z; FEC_2_3 : Z; FEC_3_4 : Z; FEC_4_5 : Z; FEC_5_6 : Z; FEC_7_8 : Z; FEC_8_9 : Z;
  FEC_AUTO : Z; FEC_3_5 : Z; FEC_9_10 : Z;
  ROLLOFF_35 : Z; ROLLOFF_20 : Z; ROLLOFF_25 : Z; ROLLOFF_AUTO : Z;
  PILOT_ON : Z; PILOT_OFF : Z; PILOT_AUTO : Z;
  TRANSMISSION_MODE_2K : Z; TRANSMISSION_MODE_8K : Z; TRANSMISSION_MODE_AUTO : Z;
  TRANSMISSION_MODE_4K : Z; TRANSMISSION_MODE_1K : Z; TRANSMISSION_MODE_16K : Z;
  TRANSMISSION_MODE_32K : Z;
  GUARD_INTERVAL_1_32 : Z; GUARD_INTERVAL_1_16 : Z; GUARD_INTERVAL_1_8 : Z;
  GUARD_INTERVAL_1_4 : Z; GUARD_INTERVAL_AUTO : Z; GUARD_INTERVAL_1_128 : Z;
  GUARD_INTERVAL_19_128 : Z; GUARD_INTERVAL_19_256 : Z;
  NO_STREAM_ID_FILTER : Z;
  SEC_VOLTAGE_13 : Z; SEC_VOLTAGE_18 : Z; SEC_VOLTAGE_OFF : Z;
  SEC_TONE_ON : Z; SEC_TONE_OFF : Z;
  SEC_MINI_A : Z; SEC_MINI_B : Z;
  FE_HAS_SIGNAL : Z; FE_HAS_LOCK : Z; FE_TIMEDOUT : Z;
  DTV_TUNE : Z; DTV_CLEAR : Z; DTV_FREQUENCY : Z; DTV_MODULATION : Z; DTV_BANDWIDTH_HZ : Z;
  DTV_INVERSION : Z; DTV_SYMBOL_RATE : Z; DTV_INNER_FEC : Z; DTV_PILOT : Z; DTV_ROLLOFF : Z;
  DTV_DELIVERY_SYSTEM : Z; DTV_CODE_RATE_HP : Z; DTV_CODE_RATE_LP : Z;
  DTV_GUARD_INTERVAL : Z; DTV_TRANSMISSION_MODE : Z; DTV_HIERARCHY : Z; DTV_STREAM_ID : Z;
  DTV_SCRAMBLING_SEQUENCE_INDEX : Z
}.

(** The frontend types and the capabilities of <linux/dvb/frontend.h>; a
    capability is a bit. *)
Class FrontendConstants := {
  FE_QPSK : Z; FE_QAM : Z; FE_OFDM : Z;
  FE_CAN_INVERSION_AUTO : Z; FE_CAN_FEC_1_2 : Z; FE_CAN_FEC_2_3 : Z; FE_CAN_FEC_3_4 : Z;
  FE_CAN_FEC_4_5 : Z; FE_CAN_FEC_5_6 : Z; FE_CAN_FEC_7_8 : Z; FE_CAN_FEC_8_9 : Z;
  FE_CAN_FEC_AUTO : Z; FE_CAN_QPSK : Z; FE_CAN_QAM_16 : Z; FE_CAN_QAM_32 : Z; FE_CAN_QAM_64 : Z;
  FE_CAN_QAM_128 : Z; FE_CAN_QAM_256 : Z; FE_CAN_TRANSMISSION_MODE_AUTO : Z;
  FE_CAN_GUARD_INTERVAL_AUTO : Z; FE_CAN_HIERARCHY_AUTO : Z; FE_CAN_MULTISTREAM : Z;
  FE_CAN_2G_MODULATION : Z; FE_CAN_RECOVER : Z
}.

Definition linux_frontend : FrontendConstants := {|
  FE_QPSK := 0; FE_QAM := 1; FE_OFDM := 2;
  FE_CAN_INVERSION_AUTO := 0x1; FE_CAN_FEC_1_2 := 0x2; FE_CAN_FEC_2_3 := 0x4;
  FE_CAN_FEC_3_4 := 0x8; FE_CAN_FEC_4_5 := 0x10; FE_CAN_FEC_5_6 := 0x20; FE_CAN_FEC_7_8 := 0x80;
  FE_CAN_FEC_8_9 := 0x100; FE_CAN_FEC_AUTO := 0x200; FE_CAN_QPSK := 0x400; FE_CAN_QAM_16 := 0x800;
  FE_CAN_QAM_32 := 0x1000; FE_CAN_QAM_64 := 0x2000; FE_CAN_QAM_128 := 0x4000;
  FE_CAN_QAM_256 := 0x8000; FE_CAN_TRANSMISSION_MODE_AUTO := 0x20000;
  FE_CAN_GUARD_INTERVAL_AUTO := 0x80000; FE_CAN_HIERARCHY_AUTO := 0x100000;
  FE_CAN_MULTISTREAM := 0x4000000; FE_CAN_2G_MODULATION := 0x10000000;
  FE_CAN_RECOVER := 0x40000000
|}.

(** The labels of each switch over these constants. *)
Definition commands `{DvbConstants} : list Z :=
  [DTV_TUNE; DTV_CLEAR; DTV_FREQUENCY; DTV_MODULATION; DTV_BANDWIDTH_HZ; DTV_INVERSION;
   DTV_SYMBOL_RATE; DTV_INNER_FEC; DTV_PILOT; DTV_ROLLOFF; DTV_DELIVERY_SYSTEM;
   DTV_CODE_RATE_HP; DTV_CODE_RATE_LP; DTV_GUARD_INTERVAL; DTV_TRANSMISSION_MODE;
   DTV_HIERARCHY; DTV_STREAM_ID; DTV_SCRAMBLING_SEQUENCE_INDEX].

Definition fec_rates `{DvbConstants} : list Z :=
  [FEC_1_2; FEC_2_3; FEC_3_4; FEC_4_5; FEC_5_6; FEC_7_8; FEC_8_9; FEC_AUTO; FEC_3_5; FEC_9_10].

Definition modulations `{DvbConstants} : list Z :=
  [QPSK; QAM_16; QAM_32; QAM_64; QAM_128; QAM_256; PSK_8].

Class DvbLaws `{DvbConstants} := {
  commands_distinct : NoDup commands;
  fec_distinct : NoDup fec_rates;
  modulations_distinct : NoDup modulations;
  systems_distinct : NoDup [SYS_UNDEFINED; SYS_DVBT; SYS_DVBS; SYS_DVBS2; SYS_DVBT2];
  rolloff_distinct : NoDup [ROLLOFF_35; ROLLOFF_20; ROLLOFF_25; ROLLOFF_AUTO];
  pilot_distinct : NoDup [PILOT_ON; PILOT_OFF; PILOT_AUTO];
  voltage_distinct : NoDup [SEC_VOLTAGE_13; SEC_VOLTAGE_18; SEC_VOLTAGE_OFF];
  tone_distinct : NoDup [SEC_TONE_ON; SEC_TONE_OFF];
  burst_distinct : NoDup [SEC_MINI_A; SEC_MINI_B]
}.

(** The values of the Linux DVB API. *)
Definition linux_dvb : DvbConstants := {|
  SYS_UNDEFINED := 0; SYS_DVBC_ANNEX_A := 1; SYS_DVBT := 3; SYS_DVBS := 5; SYS_DVBS2 := 6;
  SYS_DVBT2 := 16;
  QPSK := 0; QAM_16 := 1; QAM_32 := 2; QAM_64 := 3; QAM_128 := 4; QAM_256 := 5; PSK_8 := 9;
  FEC_1_2 := 1; FEC_2_3 := 2; FEC_3_4 := 3; FEC_4_5 := 4; FEC_5_6 := 5; FEC_7_8 := 7;
  FEC_8_9 := 8; FEC_AUTO := 9; FEC_3_5 := 10; FEC_9_10 := 11;
  ROLLOFF_35 := 0; ROLLOFF_20 := 1; ROLLOFF_25 := 2; ROLLOFF_AUTO := 3;
  PILOT_ON := 0; PILOT_OFF := 1; PILOT_AUTO := 2;
  TRANSMISSION_MODE_2K := 0; TRANSMISSION_MODE_8K := 1; TRANSMISSION_MODE_AUTO := 2;
  TRANSMISSION_MODE_4K := 3; TRANSMISSION_MODE_1K := 4; TRANSMISSION_MODE_16K := 5;
  TRANSMISSION_MODE_32K := 6;
  GUARD_INTERVAL_1_32 := 0; GUARD_INTERVAL_1_16 := 1; GUARD_INTERVAL_1_8 := 2;
  GUARD_INTERVAL_1_4 := 3; GUARD_INTERVAL_AUTO := 4; GUARD_INTERVAL_1_128 := 5;
  GUARD_INTERVAL_19_128 := 6; GUARD_INTERVAL_19_256 := 7;
  NO_STREAM_ID_FILTER := 0xffffffff;
  SEC_VOLTAGE_13 := 0; SEC_VOLTAGE_18 := 1; SEC_VOLTAGE_OFF := 2;
  SEC_TONE_ON := 0; SEC_TONE_OFF := 1;
  SEC_MINI_A := 0; SEC_MINI_B := 1;
  FE_HAS_SIGNAL := 0x01; FE_HAS_LOCK := 0x10; FE_TIMEDOUT := 0x20;
  DTV_TUNE := 1; DTV_CLEAR := 2; DTV_FREQUENCY := 3; DTV_MODULATION := 4;
  DTV_BANDWIDTH_HZ := 5; DTV_INVERSION := 6; DTV_SYMBOL_RATE := 8; DTV_INNER_FEC := 9;
  DTV_PILOT := 12; DTV_ROLLOFF := 13; DTV_DELIVERY_SYSTEM := 17; DTV_CODE_RATE_HP := 36;
  DTV_CODE_RATE_LP := 37; DTV_GUARD_INTERVAL := 38; DTV_TRANSMISSION_MODE := 39;
  DTV_HIERARCHY := 40; DTV_STREAM_ID := 42; DTV_SCRAMBLING_SEQUENCE_INDEX := 70
|}.

Lemma linux_dvb_laws : @DvbLaws linux_dvb.
Proof. constructor; apply (bool_decide_unpack _); reflexivity. Qed.

(** ** Comparing the labels of a switch *)

Lemma distinct_eqb (labels : list Z) i j x y :
  NoDup labels -> labels !! i = Some x -> labels !! j = Some y -> i <> j -> (x =? y) = false.
Proof.
  intros Hnd Hi Hj Hne. apply Z.eqb_neq. intros ->. apply Hne. by eapply NoDup_lookup.
Qed.

Ltac index_of x l :=
  lazymatch l with
  | x :: _ => constr:(0%nat)
  | _ :: ?l => let n := index_of x l in constr:(S n)
  end.

(** Takes the branch of a switch over [labels], which [distinct] says are
    distinct. *)
Ltac switch labels distinct :=
  repeat match goal with
  | |- context [?x =? ?x] => rewrite (Z.eqb_refl x)
  | |- context [?x =? ?y] =>
      let l := eval hnf in labels in
      let i := index_of x l in
      let j := index_of y l in
      rewrite (distinct_eqb labels i j x y distinct eq_refl eq_refl ltac:(lia))
  end; cbn [andb].
