(* ===== verification/Timer.v ===== *)
(** The timers of timer.h and timer.cpp: [timer_elem] and [satipTimer].

    Handlers are code of the object that owns the timers and may start and
    stop any of them, so the operations that call them are stated over an
    interface, [TimerWorld]: a world that stores the elements, lists them,
    runs a handler and has a clock. *)

From S2P Require Import Prelude.

#[local] Ltac Zify.zify_post_hook ::= Z.to_euclidean_division_equations.

Record timespec := TS { tv_sec : Z; tv_nsec : Z }.

(** [operator>] of the timer code, written out in [callNextTimer]. *)
Definition ts_after (a b : timespec) : bool :=
  (tv_sec b <? tv_sec a) || ((tv_sec a =? tv_sec b) && (tv_nsec b <? tv_nsec a)).

(** [cur + msec], with C's division that rounds towards zero. *)
Definition ts_add (cur : timespec) (msec : Z) : timespec :=
  let sec := tv_sec cur + Z.quot msec 1000 in
  let nsec := tv_nsec cur + Z.rem msec 1000 * 1000000 in
  if 1000000000 <=? nsec then TS (sec + 1) (nsec - 1000000000) else TS sec nsec.

Record timer_elem := Timer {
  m_interval : Z;
  m_ts : timespec;
  m_active : bool;
  m_single : bool
}.

#[export] Instance timer_elem_settable : Settable timer_elem :=
  fun t => Timer (m_interval t) (m_ts t) (m_active t) (m_single t).

(** [m_interval] and [m_ts] are uninitialised until the first [start]; only an
    active timer's are read. *)
Definition timer_elem_new : timer_elem := Timer 0 (TS 0 0) false false.

Definition start (cur : timespec) (t : timer_elem) (msec : Z) (single : bool) : timer_elem :=
  Timer msec (ts_add cur msec) true single.

Definition stop (t : timer_elem) : timer_elem := t <| m_active := false |>.

(** The list of [satipTimer]. [remove] takes out every occurrence. *)
Definition create {A} (timer : A) (m_timer_list : list A) : list A := m_timer_list ++ [timer].

Definition remove {A} `{EqDecision A} (timer : A) (m_timer_list : list A) : list A :=
  filter (fun t => t <> timer) m_timer_list.

Lemma remove_create {A} `{EqDecision A} (timer : A) l :
  timer ∉ l -> remove timer (create timer l) = l.
Proof.
  intros Hl. unfold remove, create. rewrite filter_app, filter_cons_False, filter_nil, app_nil_r by naive_solver.
  induction l as [|t l IH]; [done|]. apply not_elem_of_cons in Hl as [Ht Hl].
  by rewrite filter_cons_True, IH.
Qed.

(** The timers of a world [W], in the order of [m_timer_list]. *)
Class TimerWorld (W : Type) := {
  timer_id : Type;
  m_timer_list : W -> list timer_id;
  timer_at : timer_id -> W -> timer_elem;
  set_timer : timer_id -> timer_elem -> W -> W;
  run_handler : timer_id -> W -> W;
  clock_gettime : W -> timespec * W
}.

Class TimerWorldLaws (W : Type) `{TimerWorld W} := {
  timer_at_set i t w : timer_at i (set_timer i t w) = t
}.

Section Timers.
Context {W : Type} `{TimerWorld W}.

(** [timer_elem::call]. *)
Definition call (i : timer_id) (w : W) : W :=
  if m_active (timer_at i w) then
    let '(ts, w) := clock_gettime w in
    let w := run_handler i w in
    let t := timer_at i w in
    if m_single t then set_timer i (t <| m_active := false |>) w
    else set_timer i (t <| m_ts := ts_add ts (m_interval t) |>) w
  else w.

Definition callNextTimer (w : W) : W :=
  let '(cur, w) := clock_gettime w in
  foldl (fun w i =>
    if m_active (timer_at i w) then
      if ts_after cur (m_ts (timer_at i w)) then call i w else w
    else w) w (m_timer_list w).

(** What the handlers that run keep, [callNextTimer] keeps. *)
Lemma callNextTimer_ind (P : W -> Prop) w :
  (forall w, P w -> P (clock_gettime w).2) -> (forall i w, P w -> P (call i w)) ->
  P w -> P (callNextTimer w).
Proof.
  intros Hclock Hcall Hw. unfold callNextTimer. specialize (Hclock w Hw).
  destruct (clock_gettime w) as [cur w1]. cbn [snd] in Hclock. revert Hclock.
  generalize (m_timer_list w1) as l. intros l. generalize w1 as v. clear -Hcall.
  induction l as [|i l IH]; intros v Hv; [done|]. cbn [foldl]. apply IH.
  destruct (m_active _); [|done]. destruct (ts_after _ _); [by apply Hcall|done].
Qed.

(** The loop of [getNextTimerBegin]: the active timer with the earliest time,
    the first one of equal ones. *)
Definition min_timer (ts : list timer_elem) : option timer_elem :=
  foldl (fun best t =>
    if m_active t then
      match best with
      | None => Some t
      | Some b => if ts_after (m_ts b) (m_ts t) then Some t else best
      end
    else best) None ts.

(** The wait until [deadline] in milliseconds, stored in an int. *)
Definition wait_msec (cur deadline : timespec) : Z :=
  let msec := s32 ((tv_sec deadline - tv_sec cur) * 1000
                   + Z.quot (tv_nsec deadline - tv_nsec cur) 1000000 + 1) in
  if msec <? 0 then 0 else msec.

Definition getNextTimerBegin (w : W) : Z * W :=
  match min_timer (map (fun i => timer_at i w) (m_timer_list w)) with
  | None => (1000, w)
  | Some t => let '(cur, w) := clock_gettime w in (wait_msec cur (m_ts t), w)
  end.
End Timers.

(** ** Times as nanoseconds *)

Definition ts_ns (t : timespec) : Z := tv_sec t * 1000000000 + tv_nsec t.
Definition ts_wf (t : timespec) : Prop := 0 <= tv_nsec t < 1000000000.

Lemma ts_after_ns a b : ts_wf a -> ts_wf b -> ts_after a b = (ts_ns b <? ts_ns a).
Proof.
  unfold ts_wf, ts_after, ts_ns. intros Ha Hb.
  destruct (Z.ltb_spec (tv_sec b) (tv_sec a)), (Z.eqb_spec (tv_sec a) (tv_sec b)),
    (Z.ltb_spec (tv_nsec b) (tv_nsec a)); cbn; symmetry;
    (apply Z.ltb_lt || apply Z.ltb_ge); lia.
Qed.

Lemma ts_add_ns cur msec : ts_wf cur -> 0 <= msec ->
  ts_wf (ts_add cur msec) /\ ts_ns (ts_add cur msec) = ts_ns cur + msec * 1000000.
Proof.
  unfold ts_wf, ts_add, ts_ns. intros Hc Hm.
  rewrite Z.quot_div_nonneg, Z.rem_mod_nonneg by lia.
  set (n := tv_nsec cur + _).
  destruct (Z.leb_spec 1000000000 n); cbn [tv_sec tv_nsec]; subst n; lia.
Qed.

(** The chosen timer is active, and none of the active ones is earlier. *)
Definition earliest (ts : list timer_elem) (t : timer_elem) : Prop :=
  t ∈ ts /\ m_active t = true /\
  forall u, u ∈ ts -> m_active u = true -> ts_ns (m_ts t) <= ts_ns (m_ts u).

Definition timers_wf (ts : list timer_elem) : Prop :=
  Forall (fun t => m_active t = true -> ts_wf (m_ts t)) ts.

Lemma min_timer_spec ts : timers_wf ts ->
  match min_timer ts with
  | Some t => earliest ts t
  | None => forall u, u ∈ ts -> m_active u = false
  end.
Proof.
  induction ts as [|t ts IH] using rev_ind; intros Hwf; [by intros u []%elem_of_nil|].
  apply Forall_app in Hwf as [Hwf [Ht _]%Forall_cons]. specialize (IH Hwf).
  unfold min_timer in *. rewrite foldl_app. cbn [foldl].
  destruct (foldl _ None ts) as [b|].
  - destruct IH as (Hb & Hba & Hmin). destruct (m_active t) eqn:Hta.
    + assert (ts_wf (m_ts b)) as Hbwf by (by apply (proj1 (Forall_forall _ _) Hwf b Hb)).
      rewrite ts_after_ns by auto. destruct (Z.ltb_spec (ts_ns (m_ts t)) (ts_ns (m_ts b))).
      * split; [set_solver|]. split; [done|].
        intros u [Hu| ->%list_elem_of_singleton]%elem_of_app Hua; [|lia].
        specialize (Hmin u Hu Hua). lia.
      * split; [set_solver|]. split; [done|].
        intros u [Hu| ->%list_elem_of_singleton]%elem_of_app Hua; [by apply Hmin|lia].
    + split; [set_solver|]. split; [done|].
      intros u [Hu| ->%list_elem_of_singleton]%elem_of_app Hua; [by apply Hmin|congruence].
  - destruct (m_active t) eqn:Hta.
    + split; [set_solver|]. split; [done|].
      intros u [Hu| ->%list_elem_of_singleton]%elem_of_app Hua; [|lia].
      rewrite IH in Hua; done.
    + intros u [Hu| ->%list_elem_of_singleton]%elem_of_app; auto.
Qed.

(** Sleeping for the wait passes the deadline, by less than two milliseconds. *)
Lemma wait_msec_spec cur deadline :
  ts_wf cur -> ts_wf deadline -> Z.abs (tv_sec deadline - tv_sec cur) < 2 ^ 21 ->
  let r := wait_msec cur deadline in
  0 <= r /\ ts_ns deadline < ts_ns cur + r * 1000000 /\
  (0 < r -> ts_ns cur + r * 1000000 < ts_ns deadline + 2000000).
Proof.
  intros Hc Hd Hsec r. subst r. unfold ts_wf, ts_ns, wait_msec in *.
  set (secd := tv_sec deadline - tv_sec cur) in *.
  set (nsd := tv_nsec deadline - tv_nsec cur) in *.
  rewrite s32_id by lia.
  destruct (Z.ltb_spec (secd * 1000 + Z.quot nsd 1000000 + 1) 0); subst secd nsd; lia.
Qed.

(** ** Properties *)

(** A started timer is active and its deadline is exactly [msec]
    milliseconds away, as a normalised time. *)
Theorem start_deadline cur t msec single :
  ts_wf cur -> 0 <= msec ->
  let t' := start cur t msec single in
  m_active t' = true /\ m_single t' = single /\ ts_wf (m_ts t') /\
  ts_ns (m_ts t') = ts_ns cur + msec * 1000000.
Proof. intros Hc Hm t'. destruct (ts_add_ns cur msec Hc Hm). by split_and!. Qed.

Lemma start_deadline_witness :
  let t' := start (TS 10 999999999) timer_elem_new 4000 true in
  m_active t' = true /\ m_single t' = true /\ ts_wf (m_ts t') /\
  ts_ns (m_ts t') = ts_ns (TS 10 999999999) + 4000 * 1000000.
Proof. apply start_deadline; [unfold ts_wf; cbn; lia|lia]. Defined.

(** C30: [getNextTimerBegin] gives the poll loop a wait that is long enough and
    not too long: without an active timer a second; otherwise never negative,
    and for the earliest active timer, sleeping that long passes the deadline
    (so [callNextTimer] will find it due), by less than two milliseconds. *)
Theorem next_timer_wait {W} `{TimerWorld W} w :
  let ts := map (fun i => timer_at i w) (m_timer_list w) in
  let cur := (clock_gettime w).1 in
  timers_wf ts -> ts_wf cur ->
  (forall t, t ∈ ts -> m_active t = true -> Z.abs (tv_sec (m_ts t) - tv_sec cur) < 2 ^ 21) ->
  let r := (getNextTimerBegin w).1 in
  (r = 1000 /\ forall t, t ∈ ts -> m_active t = false) \/
  exists t, earliest ts t /\ 0 <= r /\ ts_ns (m_ts t) < ts_ns cur + r * 1000000 /\
            (0 < r -> ts_ns cur + r * 1000000 < ts_ns (m_ts t) + 2000000).
Proof.
  intros ts cur Hts Hcur Hfar r. subst r. unfold getNextTimerBegin. fold ts.
  pose proof (min_timer_spec ts Hts) as Hmin. destruct (min_timer ts) as [t|]; [right|by left].
  destruct Hmin as (Ht & Hta & Hmin). exists t. split; [by split_and!|].
  assert (ts_wf (m_ts t)) as Hwf.
  { unfold timers_wf in Hts. rewrite Forall_forall in Hts. by apply Hts. }
  specialize (Hfar t Ht Hta). pose proof (wait_msec_spec cur (m_ts t) Hcur Hwf Hfar) as Hw.
  subst cur. by destruct (clock_gettime w).
Qed.

(** A world of timers whose handlers do nothing. *)
Definition idle_world : TimerWorld (list timer_elem * timespec) := {|
  timer_id := nat;
  m_timer_list w := seq 0 (length w.1);
  timer_at i w := default timer_elem_new (w.1 !! i);
  set_timer i t w := (<[i := t]> w.1, w.2);
  run_handler i w := w;
  clock_gettime w := (w.2, w)
|}.

Lemma next_timer_wait_witness :
  let w := ([Timer 4000 (TS 14 5) true true; Timer 1000 (TS 11 7) true true;
             timer_elem_new], TS 10 8) in
  let ts := map (fun i => @timer_at _ idle_world i w) (@m_timer_list _ idle_world w) in
  let r := (@getNextTimerBegin _ idle_world w).1 in
  (r = 1000 /\ forall t, t ∈ ts -> m_active t = false) \/
  exists t, earliest ts t /\ 0 <= r /\ ts_ns (m_ts t) < ts_ns (TS 10 8) + r * 1000000 /\
            (0 < r -> ts_ns (TS 10 8) + r * 1000000 < ts_ns (m_ts t) + 2000000).
Proof.
  intros w ts r. apply (@next_timer_wait _ idle_world w).
  - repeat constructor; cbn; lia.
  - split; cbn; lia.
  - intros t Ht. assert (Forall (fun t => Z.abs (tv_sec (m_ts t) - 10) < 2 ^ 21) ts) as Hall.
    { repeat constructor; cbn; lia. }
    rewrite Forall_forall in Hall. intros _. by apply Hall.
Defined.
