(* ===== verification/Log.v ===== *)
(** Logging and the options of the command line: log.h and log.cpp, and the loop
    over getopt in main.cpp, which selects what is logged and where to. *)

From S2P Require Import Prelude CText Timer.

(** ** Character arrays

    A [char] array is the list of its bytes; [None] is a write behind its end,
    or a missing terminator. *)

(** The text formatted into the first [size] bytes. *)
Definition vsnprintf (dst : list byte) (size : Z) (formatted : text) : option (list byte) :=
  let out := take (Z.to_nat (size - 1)) formatted ++ [x00] in
  if zlen out <=? zlen dst then Some (out ++ ptr_add dst (zlen out)) else None.

Definition strncat (dst src : list byte) (n : Z) : option (list byte) :=
  let out := c_str dst ++ take (Z.to_nat n) (c_str src) ++ [x00] in
  if zlen out <=? zlen dst then Some (out ++ ptr_add dst (zlen out)) else None.

(** [strncpy(dst, "", n)]. *)
Definition strncpy_empty (dst : list byte) (n : Z) : option (list byte) :=
  if n <=? zlen dst then Some (replicate (Z.to_nat n) x00 ++ ptr_add dst n) else None.

(** ** State *)

Definition MAX_MSGSIZE : Z := 1024.

Definition MSG_MAIN : Z := 1.
Definition MSG_NET : Z := 2.
Definition MSG_HW : Z := 4.
Definition MSG_SRV : Z := 8.
Definition MSG_DATA : Z := 16.
Definition MSG_CA : Z := 32.

Definition MSG_ERROR : Z := 1.
Definition MSG_WARN : Z := 2.
Definition MSG_INFO : Z := 3.
Definition MSG_DEBUG : Z := 4.

(** syslog.h *)
Definition LOG_ERR : Z := 3.
Definition LOG_WARNING : Z := 4.
Definition LOG_INFO : Z := 6.
Definition LOG_DEBUG : Z := 7.

(** The variables of main.cpp and log.cpp; [msg] is that of the thread that
    logs. A file is a number. *)
Record logging := mkLogging {
  dbg_level : Z;
  dbg_mask : Z;
  use_syslog : Z;
  log_file : option Z;
  msg : list byte
}.

#[export] Instance logging_settable : Settable logging :=
  fun g => mkLogging (dbg_level g) (dbg_mask g) (use_syslog g) (log_file g) (msg g).

Definition logging_new : logging :=
  mkLogging MSG_ERROR (foldl Z.lor 0 [MSG_MAIN; MSG_NET; MSG_HW; MSG_SRV; MSG_CA]) 0 None
    (replicate (Z.to_nat MAX_MSGSIZE) x00).

(** Where a message goes. *)
Inductive log_line :=
| ToFile (file : Z) (line : text)
| ToSyslog (priority : Z) (line : text)
| ToStderr (line : text).

(** ** write_message *)

(** [%03ld] *)
Definition dec3 (n : Z) : text := replicate (3 - length (dec n)) x30 ++ dec n.

(** [[%ld.%03ld]] in front of a line. *)
Definition stamp (tp : timespec) : text :=
  str "[" ++ dec (tv_sec tp) ++ str "." ++ dec3 (Z.quot (tv_nsec tp) 1000000) ++ str "]".

Definition syslog_priority (level : Z) : Z :=
  if level =? 1 then LOG_ERR
  else if level =? 2 then LOG_WARNING
  else if level =? 3 then LOG_INFO
  else LOG_DEBUG.

(** [formatted] is what the format and its arguments make, [tn] the memory of
    the local array before. *)
Definition write_message (now : timespec) (tn : list byte) (mtype level : Z) (formatted : text)
    (g : logging) : option (logging * option log_line) :=
  if Z.land mtype (dbg_mask g) =? 0 then Some (g, None) else
  '(g, out) ← (if level <=? dbg_level g then
    tn ← vsnprintf tn (MAX_MSGSIZE - 1) formatted;
    m ← strncat (msg g) tn (MAX_MSGSIZE - 1);
    if zlen m <? MAX_MSGSIZE then None else
    let m := <[Z.to_nat (MAX_MSGSIZE - 1) := x00]> m in
    let line := c_str m in
    Some (g <| msg := m |>,
          Some (match log_file g with
                | Some f => ToFile f (stamp now ++ line)
                | None => if negb (use_syslog g =? 0) then ToSyslog (syslog_priority level) line
                          else ToStderr (stamp now ++ line)
                end))
  else Some (g, None));
  m ← strncpy_empty (msg g) MAX_MSGSIZE;
  Some (g <| msg := m |>, out).

(** Calls one after the other. *)
Record log_call := LogCall {
  lc_now : timespec;
  lc_stack : list byte;
  lc_mtype : Z;
  lc_level : Z;
  lc_text : text
}.

Definition write_messages (g : logging) (calls : list log_call) :
    option (logging * list log_line) :=
  foldl (fun s c => '(g, lines) ← s;
                    '(g, out) ← write_message (lc_now c) (lc_stack c) (lc_mtype c) (lc_level c) (lc_text c) g;
                    Some (g, lines ++ option_list out)) (Some (g, [])) calls.

(** ** The options *)

(** What getopt returns, one value after the other; [fopen] is what opening
    [optarg] gives. *)
Record getopt_res := GetOpt { opt : Z; optarg : text; opt_fopen : option Z }.

(** Why the process ends with status 1: the usage is printed, or a file cannot be
    opened. *)
Inductive option_exit := Usage | CannotOpen (file : text).

Section Options.
Context `{LongWidth}.

(** The variables and the files that are open. *)
Definition main_option (o : getopt_res) (s : logging * list Z) : (logging * list Z) + option_exit :=
  let '(g, files) := s in
  if opt o =? 109 then inl (g <| dbg_mask := u32 (atoi (optarg o)) |>, files)
  else if opt o =? 108 then inl (g <| dbg_level := atoi (optarg o) |>, files)
  else if opt o =? 121 then inl (g <| use_syslog := 1 |>, files)
  else if opt o =? 102 then
    match opt_fopen o with
    | None => inr (CannotOpen (optarg o))
    | Some f =>
        let files := f :: files in
        let files := match log_file g with
                     | Some old => filter (fun f => f <> old) files
                     | None => files
                     end in
        inl (g <| log_file := Some f |>, files)
    end
  else inr Usage.

Fixpoint main_options (l : list getopt_res) (s : logging * list Z) : (logging * list Z) + option_exit :=
  match l with
  | [] => inl s
  | o :: l => match main_option o s with inl s => main_options l s | inr e => inr e end
  end.
End Options.

(** ** What is logged *)

Lemma c_str_take_free n t : free_of 0 t -> c_str (take n t ++ [x00]) = take n t.
Proof.
  revert n. induction t as [|b t IH]; intros n Ht; [by destruct n|].
  apply Forall_cons in Ht as [Hb Ht]. destruct n as [|n]; [done|]. cbn [take app c_str].
  by rewrite (proj2 (Z.eqb_neq _ _) Hb), IH.
Qed.

Lemma c_str_app_zero t rest : c_str (t ++ x00 :: rest) = c_str (t ++ [x00]).
Proof. induction t as [|b t IH]; [done|]. cbn [app c_str]. destruct (_ =? 0); [done|]. by rewrite IH. Qed.

Lemma c_str_idemp t rest : c_str (c_str t ++ x00 :: rest) = c_str t.
Proof.
  induction t as [|b t IH]; [done|]. cbn [c_str]. destruct (ub b =? 0) eqn:Hb; [done|].
  cbn [app c_str]. by rewrite Hb, IH.
Qed.

Lemma c_str_length t : zlen (c_str t) <= zlen t.
Proof.
  induction t as [|b t IH]; [done|]. cbn [c_str]. rewrite zlen_cons.
  destruct (_ =? 0); [change (zlen []) with 0|rewrite zlen_cons]; pose proof (zlen_nonneg t); lia.
Qed.

Lemma c_str_no_zero t : free_of 0 (c_str t).
Proof.
  induction t as [|b t IH]; [by apply Forall_nil|]. cbn [c_str].
  destruct (Z.eqb_spec (ub b) 0); [by apply Forall_nil|by constructor].
Qed.

Definition empty_buffer : list byte := replicate (Z.to_nat MAX_MSGSIZE) x00.

(** The line of a message: at most 1022 characters of it. *)
Definition line_of (formatted : text) : text :=
  c_str (take (Z.to_nat (MAX_MSGSIZE - 2)) formatted ++ [x00]).

Lemma line_of_length t : zlen (line_of t) <= MAX_MSGSIZE - 2.
Proof.
  unfold line_of. pose proof (c_str_no_zero (take (Z.to_nat (MAX_MSGSIZE - 2)) t ++ [x00])) as Hf.
  set (s := take _ t). pose proof (c_str_length (s ++ [x00])) as Hl. rewrite zlen_app in Hl.
  change (zlen [x00]) with 1 in Hl.
  assert (zlen s <= MAX_MSGSIZE - 2) by (subst s; unfold zlen, MAX_MSGSIZE; rewrite length_take; lia).
  destruct (Z.eq_dec (zlen (c_str (s ++ [x00]))) (zlen s + 1)) as [He|]; [exfalso|lia].
  clear -He. induction s as [|b s IH]; [by cbn in He|]. cbn [app c_str] in He. rewrite zlen_cons in He.
  destruct (_ =? 0); [change (zlen []) with 0 in He; pose proof (zlen_nonneg s); lia|].
  rewrite zlen_cons in He. apply IH. lia.
Qed.

Lemma vsnprintf_line tn t :
  zlen tn = MAX_MSGSIZE ->
  exists m, vsnprintf tn (MAX_MSGSIZE - 1) t = Some m /\ c_str m = line_of t.
Proof.
  intros Htn. unfold vsnprintf. set (out := take _ t ++ [x00]).
  assert (zlen out <= MAX_MSGSIZE - 1) as Hout.
  { subst out. rewrite zlen_app. unfold zlen, MAX_MSGSIZE. rewrite length_take. cbn. lia. }
  rewrite (proj2 (Z.leb_le _ _)) by lia. eexists. split; [done|]. unfold out, line_of.
  rewrite <- app_assoc. apply c_str_app_zero.
Qed.

Lemma strncat_empty src n :
  zlen (c_str src) <= n -> n + 1 <= MAX_MSGSIZE ->
  strncat empty_buffer src n = Some (c_str src ++ x00 :: ptr_add empty_buffer (zlen (c_str src) + 1)).
Proof.
  intros Hsrc Hn. unfold strncat. change (c_str empty_buffer) with ([] : text). cbn [app].
  rewrite take_ge by (unfold zlen in Hsrc; lia). rewrite zlen_app. change (zlen [x00]) with 1.
  change (zlen empty_buffer) with MAX_MSGSIZE. rewrite (proj2 (Z.leb_le _ _)) by lia.
  by rewrite <- app_assoc.
Qed.

(** Whether a message passes the mask and the level. *)
Definition passes (g : logging) (mtype level : Z) : bool :=
  negb (Z.land mtype (dbg_mask g) =? 0) && (level <=? dbg_level g).

Definition destination (g : logging) (now : timespec) (level : Z) (line : text) : log_line :=
  match log_file g with
  | Some f => ToFile f (stamp now ++ line)
  | None => if negb (use_syslog g =? 0) then ToSyslog (syslog_priority level) line
            else ToStderr (stamp now ++ line)
  end.

Lemma write_message_spec now tn mtype level t g :
  msg g = empty_buffer -> zlen tn = MAX_MSGSIZE ->
  write_message now tn mtype level t g
  = Some (g, if passes g mtype level then Some (destination g now level (line_of t)) else None).
Proof.
  intros Hg Htn. unfold write_message, passes. destruct (_ =? 0); [done|]. cbn [negb andb].
  assert (forall m, zlen m = MAX_MSGSIZE -> strncpy_empty m MAX_MSGSIZE = Some empty_buffer) as Hclear.
  { intros m Hm. unfold strncpy_empty. rewrite (proj2 (Z.leb_le _ _)) by lia.
    unfold ptr_add. rewrite drop_ge by (unfold zlen in Hm; lia). by rewrite app_nil_r. }
  assert (g <| msg := empty_buffer |> = g) as Hsame by (destruct g; cbn in *; by rewrite Hg).
  destruct (level <=? dbg_level g); cbn [mbind option_bind].
  2: { rewrite Hg, Hclear by done. cbn [mbind option_bind]. by rewrite Hsame. }
  destruct (vsnprintf_line tn t Htn) as (m & -> & Hm). cbn [mbind option_bind].
  pose proof (line_of_length t) as Hlen.
  rewrite Hg, strncat_empty by (rewrite ?Hm; unfold MAX_MSGSIZE in *; lia). cbn [mbind option_bind].
  rewrite Hm. set (buf := line_of t ++ _). pose proof (zlen_nonneg (line_of t)) as Hpos.
  assert (zlen buf = MAX_MSGSIZE) as Hbuf.
  { subst buf. rewrite zlen_app, zlen_cons, zlen_ptr_add; change (zlen empty_buffer) with MAX_MSGSIZE; lia. }
  rewrite (proj2 (Z.ltb_ge _ _)) by lia. cbn [mbind option_bind].
  assert (<[Z.to_nat (MAX_MSGSIZE - 1) := x00]> buf = buf) as ->.
  { apply list_insert_id. subst buf.
    rewrite lookup_app_r by (unfold zlen, MAX_MSGSIZE in *; lia).
    set (i := (Z.to_nat (MAX_MSGSIZE - 1) - length (line_of t))%nat).
    assert (i = S (i - 1)) as -> by (unfold i, zlen, MAX_MSGSIZE in *; lia).
    change ((x00 :: ptr_add empty_buffer (zlen (line_of t) + 1)) !! S (i - 1))
      with (ptr_add empty_buffer (zlen (line_of t) + 1) !! (i - 1)%nat).
    unfold ptr_add, empty_buffer. rewrite lookup_drop. apply lookup_replicate.
    split; [done|]. unfold i, zlen, MAX_MSGSIZE in *. lia. }
  cbn [msg update_field logging_settable rebuild]. rewrite (Hclear buf) by done. cbn [mbind option_bind].
  assert (c_str buf = line_of t) as -> by apply c_str_idemp.
  clearbody buf. destruct g as [lv mk sl lf m']. cbn in Hg. by subst m'.
Qed.

(** C32: no message can break the log, or another message. Whatever is logged, of
    any length and in any order, the two character arrays are not overrun; each
    message that passes the mask and the level gives one line at its
    destination, of at most 1022 characters of the message and nothing else;
    the buffer is empty again after each call. *)
Theorem log_lines_bounded g calls :
  msg g = empty_buffer -> Forall (fun c => zlen (lc_stack c) = MAX_MSGSIZE) calls ->
  write_messages g calls
  = Some (g, map (fun c => destination g (lc_now c) (lc_level c) (line_of (lc_text c)))
               (filter (fun c => passes g (lc_mtype c) (lc_level c) = true) calls)) /\
  forall c, c ∈ calls -> zlen (line_of (lc_text c)) <= 1022.
Proof.
  intros Hg Hstack. split; [|intros c _; apply line_of_length]. unfold write_messages.
  assert (forall lines, foldl (fun s c => '(g, lines) ← s;
      '(g, out) ← write_message (lc_now c) (lc_stack c) (lc_mtype c) (lc_level c) (lc_text c) g;
      Some (g, lines ++ option_list out)) (Some (g, lines)) calls
    = Some (g, lines ++ map (fun c => destination g (lc_now c) (lc_level c) (line_of (lc_text c)))
               (filter (fun c => passes g (lc_mtype c) (lc_level c) = true) calls))) as Hrun;
    [|apply Hrun].
  induction Hstack as [|c calls Hc _ IH]; intros lines; [cbn; by rewrite app_nil_r|].
  cbn [foldl mbind option_bind]. rewrite write_message_spec by done. cbn [mbind option_bind].
  destruct (passes g (lc_mtype c) (lc_level c)) eqn:Hp; cbn [option_list]; rewrite IH.
  - rewrite filter_cons_True by done. cbn [map]. by rewrite <- app_assoc.
  - rewrite filter_cons_False by (by rewrite Hp). by rewrite app_nil_r.
Qed.

(** ** What the options select *)

Section Selected.
Context `{LongWidth}.

(** The last argument of an option. *)
Definition last_arg (c : Z) (l : list getopt_res) : option text :=
  last (omap (fun o => if opt o =? c then Some (optarg o) else None) l).

Definition last_file (l : list getopt_res) : option Z :=
  last (omap (fun o => if opt o =? 102 then opt_fopen o else None) l).

(** An option that is known, and whose file can be opened. *)
Definition accepted (o : getopt_res) : bool :=
  (opt o =? 109) || (opt o =? 108) || (opt o =? 121)
  || ((opt o =? 102) && bool_decide (is_Some (opt_fopen o))).

(** A file that is opened is none that is open. *)
Fixpoint fresh_files (open : option Z) (l : list getopt_res) : Prop :=
  match l with
  | [] => True
  | o :: l =>
      match (if opt o =? 102 then opt_fopen o else None) with
      | Some f => open <> Some f /\ fresh_files (Some f) l
      | None => fresh_files open l
      end
  end.

(** What a list of options makes of the variables. *)
Definition selected (l : list getopt_res) (g : logging) : logging :=
  mkLogging (default (dbg_level g) (atoi <$> last_arg 108 l))
    (default (dbg_mask g) ((fun t => u32 (atoi t)) <$> last_arg 109 l))
    (if existsb (fun o => opt o =? 121) l then 1 else use_syslog g)
    (match last_file l with Some f => Some f | None => log_file g end) (msg g).

Lemma last_cons_default {A B} (f : A -> B) (x : A) l d :
  default d (f <$> last (x :: l)) = default (f x) (f <$> last l).
Proof. rewrite last_cons. by destruct (last l). Qed.

Lemma selected_cons o l g g' files :
  main_option o (g, option_list (log_file g)) = inl (g', files) ->
  fresh_files (log_file g) (o :: l) ->
  files = option_list (log_file g') /\ fresh_files (log_file g') l /\
  selected (o :: l) g = selected l g' /\ accepted o = true.
Proof.
  intros Ho Hf. cbn [fresh_files] in Hf. unfold main_option in Ho.
  unfold selected, last_arg, last_file, accepted. cbn [omap list_omap existsb].
  destruct (Z.eqb_spec (opt o) 109) as [E|N1].
  { injection Ho as <- <-. rewrite E in *. cbn in *. rewrite last_cons_default. by split_and!. }
  destruct (Z.eqb_spec (opt o) 108) as [E|N2].
  { injection Ho as <- <-. rewrite E in *. cbn in *. rewrite last_cons_default. by split_and!. }
  destruct (Z.eqb_spec (opt o) 121) as [E|N3].
  { injection Ho as <- <-. rewrite E in *. cbn in *. split_and!; try done. f_equal. by destruct (existsb _ l). }
  destruct (Z.eqb_spec (opt o) 102) as [E|N4]; [|done].
  destruct (opt_fopen o) as [f|]; [|done]. injection Ho as <- <-. destruct Hf as [Hne Hf]. cbn in *.
  split_and!; [|done| |done].
  - destruct (log_file g) as [old|]; [|done]. cbn.
    repeat case_decide; cbn; congruence.
  - f_equal. rewrite last_cons. by destruct (last _).
Qed.

(** C33: the options of the command line are taken as documented: when every
    option is known and its file can be opened, the last argument of -m and of
    -l is the mask and the level, -y selects syslog, and of the files named by
    -f the last one is open, and no other. Otherwise the process ends before it
    starts anything. *)
Theorem options_selected l :
  fresh_files None l ->
  if forallb accepted l then
    main_options l (logging_new, []) = inl (selected l logging_new, option_list (last_file l))
  else exists e, main_options l (logging_new, []) = inr e.
Proof.
  intros Hf.
  assert (forall g, fresh_files (log_file g) l ->
    if forallb accepted l then
      main_options l (g, option_list (log_file g)) = inl (selected l g, option_list (log_file (selected l g)))
    else exists e, main_options l (g, option_list (log_file g)) = inr e) as Hrun.
  { clear Hf. induction l as [|o l IH]; intros g Hf; [by destruct g|]. cbn [forallb main_options].
    destruct (main_option o (g, option_list (log_file g))) as [[g' files]|e] eqn:Ho.
    - destruct (selected_cons o l g g' files Ho Hf) as (-> & Hf' & -> & ->). cbn [andb]. by apply IH.
    - assert (accepted o = false) as ->; [|by exists e]. unfold main_option in Ho. unfold accepted.
      destruct (_ =? 109); [done|]. destruct (_ =? 108); [done|]. destruct (_ =? 121); [done|].
      destruct (_ =? 102); [|done]. destruct (opt_fopen o); [done|]. by rewrite bool_decide_eq_false_2 by (by intros []). }
  specialize (Hrun logging_new Hf). change (option_list (log_file logging_new)) with ([] : list Z) in Hrun.
  destruct (forallb accepted l); [|exact Hrun]. rewrite Hrun. unfold selected. by destruct (last_file l).
Qed.
End Selected.


(** ** Witnesses *)

Lemma log_lines_bounded_witness :
  let call := LogCall (TS 12 34000000) (replicate 1024 xff) MSG_NET MSG_ERROR (replicate 2000 x41) in
  write_messages logging_new [call; call]
  = Some (logging_new, repeat (ToStderr (str "[12.034]" ++ replicate 1022 x41)) 2).
Proof.
  intros call. destruct (log_lines_bounded logging_new [call; call]) as [Hrun _];
    [reflexivity|repeat constructor|]. rewrite Hrun. vm_compute. reflexivity.
Defined.

Lemma options_selected_witness :
  @main_options 64 [GetOpt 109 (str "63") None; GetOpt 102 (str "a") (Some 3);
                    GetOpt 108 (str "4") None; GetOpt 102 (str "b") (Some 4)] (logging_new, [])
  = inl (mkLogging 4 63 0 (Some 4) empty_buffer, [4]).
Proof.
  apply (@options_selected 64 [GetOpt 109 (str "63") None; GetOpt 102 (str "a") (Some 3);
                    GetOpt 108 (str "4") None; GetOpt 102 (str "b") (Some 4)]).
  by repeat split.
Defined.
