(* ===== verification/Psi.v ===== *)
(** The PSI parser of psi.h and psi.cpp: the class [satipPSI], which taps the
    transport stream, reassembles PAT, CAT and PMT sections and derives the
    ecm/emm pids of the services being received.

    Every public method takes [m_lock] for its whole body, so each one is one
    atomic function here. Log output is not modelled. An operation that reads
    a buffer returns [None] when the C++ code would access memory outside of
    it (or when the fuel of a loop runs out); the safety theorem shows that
    neither happens. *)

From S2P Require Import Prelude Crc.

Definition TS_PACKET_SIZE : Z := 188.
Definition PSI_MAX_SECTION_LEN : Z := 4096.
Definition PSI_MAX_DERIVED_PIDS : nat := 32.
Definition PSI_PID_PAT : Z := 0x0000.
Definition PSI_PID_CAT : Z := 0x0001.
Definition PSI_PID_NULL : Z := 0x1fff.

(** ** Data *)

(** [sa_data] are the first [len] bytes of the array [data[4096]]; nothing
    else of it is ever read. *)
Record section_assembler := SA { sa_data : list byte; sa_expected : Z }.
Definition sa_len (sa : section_assembler) : Z := zlen (sa_data sa).
Definition sa_idle : section_assembler := SA [] 0.

Record pmt_info := PMT { version : Z; ecm_pids : gset Z; es_pids : gset Z }.
Definition pmt_info_new : pmt_info := PMT (-1) ∅ ∅.

Record satipPSI := mkPSI {
  m_emm_enabled : bool;
  m_tuner_id : Z;
  m_caid_filter : gset Z;
  m_dirty : bool;
  m_joined_pids : gset Z;
  m_watched_pids : gset Z;
  m_derived_pids : gset Z;
  m_pat_version : Z;
  m_cat_version : Z;
  m_pat_sections : gmap Z (gset Z);
  m_cat_sections : gmap Z (gset Z);
  m_pat_pmt_pids : gset Z;
  m_emm_pids : gset Z;
  m_pmt : gmap Z pmt_info;
  m_assembler : gmap Z section_assembler;
  m_ts_packets : Z;
  m_sections : Z;
  m_crc_errors : Z;
  m_last_stats : Z;
  m_saw_data : bool
}.

#[export] Instance satipPSI_settable : Settable satipPSI := fun p => mkPSI
  (m_emm_enabled p) (m_tuner_id p) (m_caid_filter p) (m_dirty p) (m_joined_pids p)
  (m_watched_pids p) (m_derived_pids p) (m_pat_version p) (m_cat_version p)
  (m_pat_sections p) (m_cat_sections p) (m_pat_pmt_pids p) (m_emm_pids p) (m_pmt p)
  (m_assembler p) (m_ts_packets p) (m_sections p) (m_crc_errors p) (m_last_stats p)
  (m_saw_data p).

(** What the parser needs of the object behind [m_cfg] (satipConfig): it can be
    told the ca pids, and remembers what it was told last. *)
Class CaSink (C : Type) := { setCaPids : gset Z -> C -> C; reported : C -> gset Z }.
Class CaSinkLaws (C : Type) `{CaSink C} := {
  reported_setCaPids s c : reported (setCaPids s c) = s
}.

(** ** Descriptors and tables *)

Definition caidAllowed (p : satipPSI) (caid : Z) : bool :=
  if bool_decide (m_caid_filter p = ∅) then true
  else bool_decide (caid ∈ m_caid_filter p).

(** The loop of [collectCaDescriptors], from [pos] on. *)
Fixpoint collect_loop (fuel : nat) (psi : satipPSI) (p : list byte) (len pos : Z)
    (out : gset Z) : option (gset Z) :=
  match fuel with
  | O => None
  | S fuel =>
    if pos + 2 <=? len then
      tag ← rd p pos;
      dlen ← rd p (pos + 1);
      if len <? pos + 2 + dlen then Some out
      else
        out ← (if (tag =? 0x09) && (4 <=? dlen) then
                 c0 ← rd p (pos + 2); c1 ← rd p (pos + 3);
                 p0 ← rd p (pos + 4); p1 ← rd p (pos + 5);
                 let caid := be16 c0 c1 in
                 let ca_pid := pid13 p0 p1 in
                 if (0 <? ca_pid) && (ca_pid <? PSI_PID_NULL) then
                   Some (if caidAllowed psi caid then {[ca_pid]} ∪ out else out)
                 else Some out
               else Some out);
        collect_loop fuel psi p len (pos + (2 + dlen)) out
    else Some out
  end.

Definition collectCaDescriptors (psi : satipPSI) (p : list byte) (len : Z) (out : gset Z) :
    option (gset Z) :=
  collect_loop (S (Z.to_nat len)) psi p len 0 out.

(** The loop of [parsePAT] over the program entries. *)
Fixpoint pat_loop (fuel : nat) (sec : list byte) (len i : Z) (pmt_pids : gset Z) :
    option (gset Z) :=
  match fuel with
  | O => None
  | S fuel =>
    if i + 4 <=? len - 4 then
      n0 ← rd sec i; n1 ← rd sec (i + 1); p0 ← rd sec (i + 2); p1 ← rd sec (i + 3);
      let program_number := be16 n0 n1 in
      let pmt_pid := pid13 p0 p1 in
      if program_number =? 0 then pat_loop fuel sec len (i + 4) pmt_pids
      else if (pmt_pid =? 0) || (PSI_PID_NULL <=? pmt_pid) then
        pat_loop fuel sec len (i + 4) pmt_pids
      else pat_loop fuel sec len (i + 4) ({[pmt_pid]} ∪ pmt_pids)
    else Some pmt_pids
  end.

Definition parsePAT (psi : satipPSI) (sec : list byte) (len : Z) : option satipPSI :=
  b5 ← rd sec 5;
  section_number ← rd sec 6;
  let version := Z.land (Z.shiftr b5 1) 0x1f in
  let psi := if negb (version =? m_pat_version psi)
             then psi <| m_pat_sections := ∅ |> <| m_pat_version := version |> else psi in
  pmt_pids ← pat_loop (S (Z.to_nat len)) sec len 8 ∅;
  let psi := psi <| m_pat_sections := <[section_number := pmt_pids]> (m_pat_sections psi) |> in
  let all := all_values (m_pat_sections psi) in
  if bool_decide (all <> m_pat_pmt_pids psi) then
    let psi := psi <| m_pat_pmt_pids := all |> in
    let psi := psi <| m_pmt := keep_keys (m_pmt psi) (m_pat_pmt_pids psi) |> in
    Some (psi <| m_dirty := true |>)
  else Some psi.

Definition parseCAT (psi : satipPSI) (sec : list byte) (len : Z) : option satipPSI :=
  b5 ← rd sec 5;
  section_number ← rd sec 6;
  let version := Z.land (Z.shiftr b5 1) 0x1f in
  let psi := if negb (version =? m_cat_version psi)
             then psi <| m_cat_sections := ∅ |> <| m_cat_version := version |> else psi in
  emm_pids ← collectCaDescriptors psi (ptr_add sec 8) ((len - 4) - 8) ∅;
  let psi := psi <| m_cat_sections := <[section_number := emm_pids]> (m_cat_sections psi) |> in
  let all := all_values (m_cat_sections psi) in
  if bool_decide (all <> m_emm_pids psi) then
    Some (psi <| m_emm_pids := all |> <| m_dirty := true |>)
  else Some psi.

(** The elementary stream loop of [parsePMT]: (ecm pids, es pids). *)
Fixpoint es_loop (fuel : nat) (psi : satipPSI) (sec : list byte) (end_ pos : Z)
    (ecm es : gset Z) : option (gset Z * gset Z) :=
  match fuel with
  | O => None
  | S fuel =>
    if pos + 5 <=? end_ then
      b1 ← rd sec (pos + 1); b2 ← rd sec (pos + 2);
      let es_pid := pid13 b1 b2 in
      let es := if (0 <? es_pid) && (es_pid <? PSI_PID_NULL) then {[es_pid]} ∪ es else es in
      b3 ← rd sec (pos + 3); b4 ← rd sec (pos + 4);
      let es_info_length := len12 b3 b4 in
      let pos := pos + 5 in
      if end_ <? pos + es_info_length then Some (ecm, es)
      else
        ecm ← collectCaDescriptors psi (ptr_add sec pos) es_info_length ecm;
        es_loop fuel psi sec end_ (pos + es_info_length) ecm es
    else Some (ecm, es)
  end.

Definition parsePMT (psi : satipPSI) (pid : Z) (sec : list byte) (len : Z) : option satipPSI :=
  _ ← rd sec 3; _ ← rd sec 4; (* program_number, only logged *)
  b5 ← rd sec 5;
  let version' := Z.land (Z.shiftr b5 1) 0x1f in
  (* pmt_info& info = m_pmt[pid], which creates the entry *)
  let info := default pmt_info_new (m_pmt psi !! pid) in
  let psi := psi <| m_pmt := <[pid := info]> (m_pmt psi) |> in
  if version info =? version' then Some psi else
  let end_ := len - 4 in
  if end_ <? 12 then Some psi else
  b10 ← rd sec 10; b11 ← rd sec 11;
  let program_info_length := len12 b10 b11 in
  let pos := 12 in
  if end_ <? pos + program_info_length then Some psi else
  ecm ← collectCaDescriptors psi (ptr_add sec pos) program_info_length ∅;
  let pos := pos + program_info_length in
  '(ecm, es) ← es_loop (S (Z.to_nat len)) psi sec end_ pos ecm ∅;
  let info' := PMT version' (ecm_pids info) es in
  if bool_decide (ecm_pids info <> ecm) then
    Some (psi <| m_pmt := <[pid := PMT version' ecm es]> (m_pmt psi) |> <| m_dirty := true |>)
  else Some (psi <| m_pmt := <[pid := info']> (m_pmt psi) |>).

(** ** Sections and packets *)

Definition handleSection (psi : satipPSI) (pid : Z) (sec : list byte) (len : Z) :
    option satipPSI :=
  b1 ← rd sec 1;
  if Z.land b1 0x80 =? 0 then Some psi else
  data ← rd_range sec 0 len;
  if negb (crc32_calc data =? 0) then
    Some (psi <| m_crc_errors := u64 (m_crc_errors psi + 1) |>)
  else
  let psi := psi <| m_sections := u64 (m_sections psi + 1) |> in
  b5 ← rd sec 5;
  if Z.land b5 0x01 =? 0 then Some psi else
  table_id ← rd sec 0;
  if pid =? PSI_PID_PAT then
    if table_id =? 0x00 then parsePAT psi sec len else Some psi
  else if pid =? PSI_PID_CAT then
    if table_id =? 0x01 then parseCAT psi sec len else Some psi
  else if table_id =? 0x02 then parsePMT psi pid sec len
  else Some psi.

(** Writing at [sa.data + sa.len]; [None] past the end of the array. *)
Definition sa_append (sa : section_assembler) (bytes : list byte) : option section_assembler :=
  if sa_len sa + zlen bytes <=? PSI_MAX_SECTION_LEN
  then Some (SA (sa_data sa ++ bytes) (sa_expected sa)) else None.

(** The loop of [feed]. The reference [sa] into [m_assembler] stays valid:
    nothing called from here touches [m_assembler]. *)
Fixpoint feed_loop (fuel : nat) (pid : Z) (buf : list byte) (len pos : Z) (allow_start : bool)
    (sa : section_assembler) (psi : satipPSI) : option (section_assembler * satipPSI) :=
  match fuel with
  | O => None
  | S fuel =>
    if negb (pos <? len) then Some (sa, psi)
    else if sa_expected sa =? 0 then
      if (sa_len sa =? 0) && negb allow_start then Some (sa, psi) else
      b ← rdb buf pos;
      if (sa_len sa =? 0) && (ub b =? 0xff) then Some (sa, psi) else
      sa ← sa_append sa [b];
      let pos := pos + 1 in
      if sa_len sa <? 3 then feed_loop fuel pid buf len pos allow_start sa psi else
      d1 ← rd (sa_data sa) 1; d2 ← rd (sa_data sa) 2;
      let section_length := len12 d1 d2 in
      if (section_length <? 9) || (PSI_MAX_SECTION_LEN <? section_length + 3) then
        Some (SA [] (sa_expected sa), psi)
      else
        feed_loop fuel pid buf len pos allow_start (SA (sa_data sa) (section_length + 3)) psi
    else
      let need := sa_expected sa - sa_len sa in
      let take := if len - pos <? need then len - pos else need in
      chunk ← rd_range buf pos take;
      sa ← sa_append sa chunk;
      let pos := pos + take in
      if sa_len sa =? sa_expected sa then
        psi ← handleSection psi pid (sa_data sa) (sa_len sa);
        feed_loop fuel pid buf len pos allow_start sa_idle psi
      else feed_loop fuel pid buf len pos allow_start sa psi
  end.

Definition feed (psi : satipPSI) (pid : Z) (buf : list byte) (len : Z) (allow_start : bool) :
    option satipPSI :=
  let sa := default sa_idle (m_assembler psi !! pid) in
  '(sa, psi) ← feed_loop (S (Z.to_nat len)) pid buf len 0 allow_start sa psi;
  Some (psi <| m_assembler := <[pid := sa]> (m_assembler psi) |>).

(** The body of the packet loop of [processTS] for the packet at [p]. The
    boolean says whether the end of the body was reached (no [continue]). *)
Definition ts_packet (psi : satipPSI) (p : list byte) : option (satipPSI * bool) :=
  let psi := psi <| m_ts_packets := u64 (m_ts_packets psi + 1) |> in
  b1 ← rd p 1; b2 ← rd p 2;
  let pid := pid13 b1 b2 in
  if bool_decide (pid ∉ m_watched_pids psi) then Some (psi, false) else
  b3 ← rd p 3;
  if negb (Z.land b3 0xc0 =? 0) then Some (psi, false) else
  let afc := Z.land (Z.shiftr b3 4) 0x03 in
  if (afc =? 0) || (afc =? 2) then Some (psi, false) else
  pos ← (if afc =? 3 then b4 ← rd p 4; Some (4 + (1 + b4)) else Some 4);
  if (afc =? 3) && (TS_PACKET_SIZE <=? pos) then Some (psi, false) else
  if negb (Z.land b1 0x40 =? 0) then
    ptr ← rd p pos;
    let pos := pos + 1 in
    if TS_PACKET_SIZE <? pos + ptr then Some (psi, false) else
    psi ← (if 0 <? ptr then feed psi pid (ptr_add p pos) ptr false else Some psi);
    let pos := pos + ptr in
    psi ← feed psi pid (ptr_add p pos) (TS_PACKET_SIZE - pos) true;
    Some (psi, true)
  else
    psi ← feed psi pid (ptr_add p pos) (TS_PACKET_SIZE - pos) false;
    Some (psi, true).

(** ** Deriving the pid set *)

Definition pmt_is_active (psi : satipPSI) (pmt_pid : Z) : bool :=
  match m_pmt psi !! pmt_pid with
  | Some info => existsb (fun es => bool_decide (es ∈ m_joined_pids psi)) (set_iter (es_pids info))
  | None => false
  end.

(** One iteration over [m_pat_pmt_pids]: the sets (derived, watched). *)
Definition recompute_pmt (psi : satipPSI) (acc : gset Z * gset Z) (pmt_pid : Z) :
    gset Z * gset Z :=
  let '(derived, watched) := acc in
  let watched := {[pmt_pid]} ∪ watched in
  if negb (pmt_is_active psi pmt_pid) then (derived, watched)
  else
    let derived := {[pmt_pid]} ∪ derived in
    match m_pmt psi !! pmt_pid with
    | Some info => (derived ∪ ecm_pids info, watched)
    | None => (derived, watched)
    end.

(** The sets [recompute] builds before it truncates and stores them. *)
Definition recompute_sets (psi : satipPSI) : gset Z * gset Z :=
  let derived := {[PSI_PID_PAT]} in
  let watched := {[PSI_PID_PAT]} in
  let '(derived, watched) :=
    if m_emm_enabled psi
    then ({[PSI_PID_CAT]} ∪ derived ∪ m_emm_pids psi, {[PSI_PID_CAT]} ∪ watched)
    else (derived, watched) in
  foldl (recompute_pmt psi) (derived, watched) (set_iter (m_pat_pmt_pids psi)).

Section WithConfig.
Context {C : Type} `{CaSink C}.

(** [cfg] is the object [m_cfg] points to, [None] the null pointer. *)
Definition recompute (psi : satipPSI) (cfg : option C) : satipPSI * option C :=
  let '(derived, watched) := recompute_sets psi in
  let derived := if bool_decide (PSI_MAX_DERIVED_PIDS < size derived)%nat
                 then set_take PSI_MAX_DERIVED_PIDS derived else derived in
  let psi := psi <| m_assembler := keep_keys (m_assembler psi) watched |>
                 <| m_watched_pids := watched |> in
  if bool_decide (derived = m_derived_pids psi) then (psi, cfg)
  else
    let psi := psi <| m_derived_pids := derived |> in
    (psi, setCaPids derived <$> cfg).

Definition clearState (psi : satipPSI) : satipPSI :=
  psi <| m_watched_pids := ∅ |> <| m_pat_version := -1 |> <| m_cat_version := -1 |>
      <| m_pat_sections := ∅ |> <| m_cat_sections := ∅ |> <| m_pat_pmt_pids := ∅ |>
      <| m_emm_pids := ∅ |> <| m_pmt := ∅ |> <| m_assembler := ∅ |> <| m_dirty := false |>.

Definition reset (psi : satipPSI) (cfg : option C) : satipPSI * option C :=
  recompute ((clearState psi) <| m_joined_pids := ∅ |>) cfg.

Definition setJoinedPids (psi : satipPSI) (cfg : option C) (pids : gset Z) :
    satipPSI * option C :=
  if bool_decide (pids <> m_joined_pids psi)
  then recompute (psi <| m_joined_pids := pids |>) cfg else (psi, cfg).

(** The packet loop of [processTS], from offset [off] on. *)
Fixpoint ts_loop (fuel : nat) (psi : satipPSI) (cfg : option C) (data : list byte)
    (len off : Z) : option (satipPSI * option C) :=
  match fuel with
  | O => None
  | S fuel =>
    if off + TS_PACKET_SIZE <=? len then
      let p := ptr_add data off in
      b0 ← rd p 0;
      if negb (b0 =? 0x47) then Some (psi, cfg) else
      '(psi, reached) ← ts_packet psi p;
      let '(psi, cfg) :=
        if reached && m_dirty psi then recompute (psi <| m_dirty := false |>) cfg
        else (psi, cfg) in
      ts_loop fuel psi cfg data len (off + TS_PACKET_SIZE)
    else Some (psi, cfg)
  end.

(** [t0] and [t1] are the results of the two calls of [time]. *)
Definition processTS (psi : satipPSI) (cfg : option C) (data : list byte) (len t0 t1 : Z) :
    option (satipPSI * option C) :=
  let psi := if negb (m_saw_data psi)
             then psi <| m_saw_data := true |> <| m_last_stats := t0 |> else psi in
  '(psi, cfg) ← ts_loop (S (Z.to_nat len)) psi cfg data len 0;
  let psi := if 60 <=? t1 - m_last_stats psi then psi <| m_last_stats := t1 |> else psi in
  Some (psi, cfg).

(** The constructor: every set and map starts empty, then [reset]. *)
Definition satipPSI_new (cfg : option C) (emm_enabled : bool) (caid_filter : gset Z)
    (tuner_id : Z) : satipPSI * option C :=
  reset (mkPSI emm_enabled tuner_id caid_filter false ∅ ∅ ∅ (-1) (-1) ∅ ∅ ∅ ∅ ∅ ∅
           0 0 0 0 false) cfg.
End WithConfig.

(** ** Safety: reads stay in bounds, loops terminate, pids stay in range *)

(** A pid the tables may announce: neither the PAT nor the null pid. *)
Definition pids_ok (s : gset Z) : Prop := forall x, x ∈ s -> 0 < x < PSI_PID_NULL.

Lemma pids_ok_empty : pids_ok ∅.
Proof. intros x. set_solver. Qed.

Lemma pids_ok_union s t : pids_ok s -> pids_ok t -> pids_ok (s ∪ t).
Proof. intros Hs Ht x [?|?]%elem_of_union; auto. Qed.

Lemma pids_ok_insert x s : 0 < x < PSI_PID_NULL -> pids_ok s -> pids_ok ({[x]} ∪ s).
Proof. intros Hx. apply pids_ok_union. intros y ->%elem_of_singleton. done. Qed.

Lemma pids_ok_all_values m :
  (forall k s, m !! k = Some s -> pids_ok s) -> pids_ok (all_values m).
Proof. intros Hm x (k & s & Hk & Hx)%elem_of_all_values. by apply (Hm k s). Qed.

#[export] Hint Resolve pids_ok_empty pids_ok_union pids_ok_insert : satip.

Lemma collect_loop_ok fuel psi p len : forall pos out,
  len <= zlen p -> 0 <= pos -> Z.max 0 (len - pos) < Z.of_nat fuel -> pids_ok out ->
  returns (collect_loop fuel psi p len pos out) pids_ok.
Proof.
  induction fuel as [|fuel IH]; intros pos out Hlen Hpos Hfuel Hout; [lia|].
  cbn [collect_loop]. destruct (Z.leb_spec (pos + 2) len); [|done].
  wp_rd tag Htag. wp_rd dlen Hdlen.
  destruct (Z.ltb_spec len (pos + 2 + dlen)); [done|].
  apply returns_bind with pids_ok; [|intros; apply IH; lia || done].
  destruct ((tag =? 9) && (4 <=? dlen)) eqn:Etag; bool_cases; [|done].
  wp_rd c0 Hc0. wp_rd c1 Hc1. wp_rd p0 Hp0. wp_rd p1 Hp1.
  destruct ((0 <? pid13 p0 p1) && (pid13 p0 p1 <? PSI_PID_NULL)) eqn:Epid; bool_cases; [|done].
  destruct (caidAllowed _ _); cbn; auto with satip.
Qed.

Lemma collect_ok psi p len out :
  len <= zlen p -> pids_ok out -> returns (collectCaDescriptors psi p len out) pids_ok.
Proof. intros Hlen Hout. apply collect_loop_ok; lia || done. Qed.

Lemma pat_loop_ok fuel sec len : forall i pmts,
  len <= zlen sec -> 0 <= i -> Z.max 0 (len - i) < Z.of_nat fuel -> pids_ok pmts ->
  returns (pat_loop fuel sec len i pmts) pids_ok.
Proof.
  induction fuel as [|fuel IH]; intros i pmts Hlen Hi Hfuel Hp; [lia|].
  cbn [pat_loop]. destruct (Z.leb_spec (i + 4) (len - 4)); [|done].
  wp_rd n0 Hn0. wp_rd n1 Hn1. wp_rd p0 Hp0. wp_rd p1 Hp1.
  pose proof (pid13_bounds p0 p1 Hp1).
  destruct (be16 n0 n1 =? 0); [apply IH; lia || done|].
  destruct ((pid13 p0 p1 =? 0) || (PSI_PID_NULL <=? pid13 p0 p1)) eqn:E;
    bool_cases; apply IH; try lia; try done.
  apply pids_ok_insert; [lia|done].
Qed.

Lemma es_loop_ok fuel psi sec end_ : forall pos ecm es,
  end_ <= zlen sec -> 0 <= pos -> Z.max 0 (end_ - pos) < Z.of_nat fuel ->
  pids_ok ecm -> pids_ok es ->
  returns (es_loop fuel psi sec end_ pos ecm es) (fun r => pids_ok r.1 /\ pids_ok r.2).
Proof.
  induction fuel as [|fuel IH]; intros pos ecm es Hlen Hpos Hfuel Hecm Hes; [lia|].
  cbn [es_loop]. destruct (Z.leb_spec (pos + 5) end_); [|done].
  wp_rd b1 Hb1. wp_rd b2 Hb2. set (es' := if (_ && _ : bool) then _ else _).
  assert (pids_ok es') as Hes'.
  { subst es'. destruct (_ && _) eqn:E; bool_cases; auto with satip. }
  wp_rd b3 Hb3. wp_rd b4 Hb4. pose proof (len12_bounds b3 b4 Hb4).
  destruct (Z.ltb_spec end_ (pos + 5 + len12 b3 b4)); [done|].
  apply returns_bind with pids_ok.
  - apply collect_ok; [rewrite zlen_ptr_add by lia; lia|done].
  - intros ecm' Hecm'. apply IH; lia || done.
Qed.

(** ** The invariant *)

Definition sa_wf (sa : section_assembler) : Prop :=
  (sa_expected sa = 0 /\ sa_len sa < 3) \/
  (12 <= sa_expected sa <= PSI_MAX_SECTION_LEN /\ 3 <= sa_len sa < sa_expected sa).

Definition pmt_ok (info : pmt_info) : Prop := pids_ok (ecm_pids info) /\ pids_ok (es_pids info).

Definition sections_ok (m : gmap Z (gset Z)) : Prop :=
  map_Forall (fun _ s => pids_ok s) m.

(** What holds of the tables at every moment, also inside a packet. *)
Record tables_wf (p : satipPSI) : Prop := {
  twf_pat : m_pat_pmt_pids p = all_values (m_pat_sections p);
  twf_cat : m_emm_pids p = all_values (m_cat_sections p);
  twf_pat_ok : sections_ok (m_pat_sections p);
  twf_cat_ok : sections_ok (m_cat_sections p);
  twf_pmt : dom (m_pmt p) ⊆ m_pat_pmt_pids p;
  twf_pmt_ok : map_Forall (fun _ => pmt_ok) (m_pmt p)
}.

(** The pids the parser must be watching. *)
Definition watched_of (p : satipPSI) : gset Z :=
  {[PSI_PID_PAT]} ∪ (if m_emm_enabled p then {[PSI_PID_CAT]} else ∅) ∪ m_pat_pmt_pids p.

(** What holds between two calls (and between two packets). *)
Record psi_wf (p : satipPSI) : Prop := {
  wf_tables : tables_wf p;
  wf_clean : m_dirty p = false;
  wf_watched : m_watched_pids p = watched_of p;
  wf_assembler : dom (m_assembler p) ⊆ m_watched_pids p;
  wf_sa : map_Forall (fun _ => sa_wf) (m_assembler p);
  wf_derived_size : (size (m_derived_pids p) <= PSI_MAX_DERIVED_PIDS)%nat;
  wf_derived_pat : PSI_PID_PAT ∈ m_derived_pids p;
  wf_derived_range : forall x, x ∈ m_derived_pids p -> 0 <= x < PSI_PID_NULL
}.

(** What a section handler leaves alone. *)
Record same_frame (p q : satipPSI) : Prop := {
  sf_emm : m_emm_enabled q = m_emm_enabled p;
  sf_caid : m_caid_filter q = m_caid_filter p;
  sf_joined : m_joined_pids q = m_joined_pids p;
  sf_watched : m_watched_pids q = m_watched_pids p;
  sf_derived : m_derived_pids q = m_derived_pids p;
  sf_assembler : m_assembler q = m_assembler p;
  sf_packets : m_ts_packets q = m_ts_packets p;
  sf_pat : m_dirty q = false -> m_dirty p = false /\ m_pat_pmt_pids q = m_pat_pmt_pids p
                                /\ m_emm_pids q = m_emm_pids p
}.

Lemma same_frame_refl p : same_frame p p.
Proof. by constructor. Qed.

Lemma same_frame_trans p q r : same_frame p q -> same_frame q r -> same_frame p r.
Proof.
  intros [] []. constructor; try congruence. intros Hr.
  destruct (sf_pat1 Hr) as (Hq & -> & ->). auto.
Qed.

Lemma sections_ok_insert m k s : sections_ok m -> pids_ok s -> sections_ok (<[k := s]> m).
Proof. intros Hm Hs. by apply map_Forall_insert_2. Qed.

Lemma sections_ok_empty : sections_ok ∅.
Proof. apply map_Forall_empty. Qed.

#[export] Hint Resolve same_frame_refl sections_ok_insert sections_ok_empty : satip.

(** The pid a section is parsed under: a pmt is only parsed on a pid the PAT
    announced. *)
Definition section_pid_ok (p : satipPSI) (pid : Z) : Prop :=
  pid = PSI_PID_PAT \/ pid = PSI_PID_CAT \/ pid ∈ m_pat_pmt_pids p.

(** Outcome of a section handler. *)
Definition handled (p q : satipPSI) (pid : Z) : Prop :=
  tables_wf q /\ same_frame p q /\ (section_pid_ok p pid -> section_pid_ok q pid).

Lemma handled_refl p pid : tables_wf p -> handled p p pid.
Proof. intros Hp. split; [done|split; [apply same_frame_refl|done]]. Qed.

Lemma parsePAT_ok p sec len :
  tables_wf p -> 7 <= len <= zlen sec ->
  returns (parsePAT p sec len) (fun q => handled p q PSI_PID_PAT).
Proof.
  intros [Hpat Hcat Hpok Hcok Hpmt Hmok] Hlen. unfold parsePAT.
  wp_rd b5 Hb5. wp_rd b6 Hb6.
  apply returns_bind with pids_ok.
  { apply pat_loop_ok; try lia. apply pids_ok_empty. }
  intros pmts Hpmts.
  destruct (negb (Z.land (Z.shiftr b5 1) 0x1f =? m_pat_version p)); cbn;
    case_bool_decide as Hall; cbn; try apply dec_stable in Hall;
    (split; [constructor; cbn; auto with satip|split; [by constructor|by left]]).
  all: first [apply dom_keep_keys | intros k info [Hk _]%lookup_keep_keys; by apply (Hmok k)].
Qed.

Lemma parseCAT_ok p sec len :
  tables_wf p -> 12 <= len <= zlen sec ->
  returns (parseCAT p sec len) (fun q => handled p q PSI_PID_CAT).
Proof.
  intros [Hpat Hcat Hpok Hcok Hpmt Hmok] Hlen. unfold parseCAT.
  wp_rd b5 Hb5. wp_rd b6 Hb6.
  apply returns_bind with pids_ok.
  { apply collect_ok; [rewrite zlen_ptr_add by lia; lia|apply pids_ok_empty]. }
  intros emms Hemms.
  destruct (negb (Z.land (Z.shiftr b5 1) 0x1f =? m_cat_version p)); cbn;
    case_bool_decide as Hall; cbn; (split; [|split; [|right; left; done]]);
    try (apply dec_stable in Hall); constructor; cbn; auto with satip; done.
Qed.

Lemma pmt_ok_new : pmt_ok pmt_info_new.
Proof. split; apply pids_ok_empty. Qed.

(** Storing an entry for an announced pmt pid. *)
Lemma tables_wf_set_pmt p pid info :
  tables_wf p -> pid ∈ m_pat_pmt_pids p -> pmt_ok info ->
  tables_wf (p <| m_pmt := <[pid := info]> (m_pmt p) |>).
Proof.
  intros [Hpat Hcat Hpok Hcok Hpmt Hmok] Hpid Hinfo. constructor; cbn; try done.
  - rewrite dom_insert_L. intros x [->%elem_of_singleton|?]%elem_of_union; auto.
  - by apply map_Forall_insert_2.
Qed.

Lemma tables_wf_dirty p b : tables_wf p -> tables_wf (p <| m_dirty := b |>).
Proof. by intros []. Qed.

Lemma parsePMT_ok p pid sec len :
  tables_wf p -> pid ∈ m_pat_pmt_pids p -> 12 <= len <= zlen sec ->
  returns (parsePMT p pid sec len) (fun q => handled p q pid).
Proof.
  intros Hwf Hpid Hlen. unfold parsePMT.
  assert (pmt_ok (default pmt_info_new (m_pmt p !! pid))) as Hinfo.
  { destruct (m_pmt p !! pid) eqn:E; [by apply (twf_pmt_ok p Hwf pid)|apply pmt_ok_new]. }
  set (info := default _ _) in *.
  pose proof (tables_wf_set_pmt p pid info Hwf Hpid Hinfo) as Hwf1.
  wp_rd b3 Hb3. wp_rd b4 Hb4. wp_rd b5 Hb5.
  set (p1 := p <| m_pmt := <[pid:=info]> (m_pmt p) |>) in *.
  assert (handled p p1 pid) as H1 by (split; [done|split; [by constructor|done]]).
  destruct (version info =? _); [done|].
  destruct (Z.ltb_spec (len - 4) 12); [done|].
  wp_rd b10 Hb10. wp_rd b11 Hb11. pose proof (len12_bounds b10 b11 Hb11).
  destruct (Z.ltb_spec (len - 4) (12 + len12 b10 b11)); [done|].
  apply returns_bind with pids_ok.
  { apply collect_ok; [rewrite zlen_ptr_add by lia; lia|apply pids_ok_empty]. }
  intros ecm Hecm.
  apply returns_bind with (fun r => pids_ok r.1 /\ pids_ok r.2).
  { apply es_loop_ok; try lia; [done|apply pids_ok_empty]. }
  intros [ecm' es'] [Hecm' Hes']; cbn [fst snd] in *.
  case_bool_decide as Hne; cbn [returns]; (split; [|split; [by constructor|done]]).
  - apply tables_wf_dirty, tables_wf_set_pmt; [done..|by split].
  - apply tables_wf_set_pmt; [done..|split; [apply Hinfo|done]].
Qed.

Lemma handleSection_ok p pid sec len :
  tables_wf p -> section_pid_ok p pid -> 12 <= len <= zlen sec ->
  returns (handleSection p pid sec len) (fun q => handled p q pid).
Proof.
  intros Hwf Hpid Hlen. unfold handleSection.
  assert (forall c s, handled p (p <| m_crc_errors := c |>) pid
                      /\ handled p (p <| m_sections := s |>) pid) as Hsame.
  { intros c s. destruct Hwf. split; (split; [by constructor|split; [by constructor|done]]). }
  wp_rd b1 Hb1. destruct (Z.land b1 0x80 =? 0); [by apply handled_refl|].
  apply returns_rd_range; [lia..|]. intros data Hdata.
  destruct (negb _); [cbn; by eapply Hsame|].
  set (p1 := p <| m_sections := _ |>).
  assert (handled p p1 pid) as H1 by (by eapply Hsame).
  assert (forall q, handled p1 q pid -> handled p q pid) as Htrans.
  { intros q (Hq & Hf & Hs). split; [done|split; [|by auto]].
    by apply same_frame_trans with p1; [apply H1|]. }
  wp_rd b5 Hb5. destruct (Z.land b5 1 =? 0); [done|].
  wp_rd b0 Hb0.
  destruct (Z.eqb_spec pid PSI_PID_PAT) as [->|Hn0].
  { destruct (b0 =? 0); [|done].
    eapply returns_mono; [apply parsePAT_ok; [apply H1|lia]|done]. }
  destruct (Z.eqb_spec pid PSI_PID_CAT) as [->|Hn1].
  { destruct (b0 =? 1); [|done].
    eapply returns_mono; [apply parseCAT_ok; [apply H1|lia]|done]. }
  destruct (b0 =? 2); [|done].
  destruct Hpid as [?|[?|Hpid]]; [done..|].
  eapply returns_mono; [apply parsePMT_ok; [apply H1|done|lia]|done].
Qed.

Lemma handled_trans p q r pid : handled p q pid -> handled q r pid -> handled p r pid.
Proof.
  intros (_ & Hpq & Hs) (Hr & Hqr & Ht).
  split; [done|split; [by apply same_frame_trans with q|auto]].
Qed.

Lemma sa_append_ok {B} sa bytes (next : section_assembler -> option B) (Q : B -> Prop) :
  sa_len sa + zlen bytes <= PSI_MAX_SECTION_LEN ->
  returns (next (SA (sa_data sa ++ bytes) (sa_expected sa))) Q ->
  returns (sa ← sa_append sa bytes; next sa) Q.
Proof. intros Hlen HQ. unfold sa_append. by rewrite (proj2 (Z.leb_le _ _) Hlen). Qed.

Lemma sa_len_app data bytes expected : sa_len (SA (data ++ bytes) expected) = zlen data + zlen bytes.
Proof. unfold sa_len. cbn [sa_data]. apply zlen_app. Qed.

Lemma sa_idle_wf : sa_wf sa_idle.
Proof. left. cbn. done. Qed.

Lemma feed_loop_ok fuel pid buf len allow : forall pos sa p,
  len <= zlen buf -> 0 <= pos -> Z.max 0 (len - pos) < Z.of_nat fuel ->
  sa_wf sa -> tables_wf p -> section_pid_ok p pid ->
  returns (feed_loop fuel pid buf len pos allow sa p)
    (fun r => sa_wf r.1 /\ handled p r.2 pid).
Proof.
  induction fuel as [|fuel IH]; intros pos sa p Hlen Hpos Hfuel Hsa Hwf Hpid; [lia|].
  pose proof (handled_refl p pid Hwf) as Hrefl.
  cbn [feed_loop]. destruct (Z.ltb_spec pos len); cbn [negb]; [|done].
  destruct (Z.eqb_spec (sa_expected sa) 0) as [He|He].
  - destruct ((sa_len sa =? 0) && negb allow); [done|].
    destruct (rdb_ok buf pos) as [b ->]; [lia|]. cbn [mbind option_bind].
    destruct ((sa_len sa =? 0) && (ub b =? 0xff)); [done|].
    destruct Hsa as [[_ Hshort]|[? _]]; [|lia].
    unfold sa_len in Hshort. apply sa_append_ok; change (zlen [b]) with 1;
      [unfold sa_len, PSI_MAX_SECTION_LEN; lia|].
    rewrite sa_len_app. change (zlen [b]) with 1. cbn [sa_data sa_expected].
    destruct (Z.ltb_spec (zlen (sa_data sa) + 1) 3).
    { apply IH; try done; try lia. left. rewrite sa_len_app. change (zlen [b]) with 1. cbn. lia. }
    assert (zlen (sa_data sa ++ [b]) = 3) as H3 by (rewrite zlen_app; change (zlen [b]) with 1; lia).
    wp_rd d1 Hd1. wp_rd d2 Hd2. pose proof (len12_bounds d1 d2 Hd2).
    destruct ((len12 d1 d2 <? 9) || (PSI_MAX_SECTION_LEN <? len12 d1 d2 + 3)) eqn:E; bool_cases.
    { split; [|done]. left. by split. }
    apply IH; try done; try lia. right. unfold sa_len. cbn. lia.
  - destruct Hsa as [[? _]|[Hexp Hlt]]; [done|].
    set (need := sa_expected sa - sa_len sa).
    set (take := if len - pos <? need then len - pos else need).
    assert (0 < take <= need /\ take <= len - pos) as Htake.
    { subst take need. destruct (Z.ltb_spec (len - pos) (sa_expected sa - sa_len sa)); lia. }
    apply returns_rd_range; [lia..|]. intros chunk Hchunk. apply sa_append_ok; [lia|].
    rewrite sa_len_app, Hchunk. cbn [sa_data sa_expected]. change (zlen (sa_data sa)) with (sa_len sa).
    destruct (Z.eqb_spec (sa_len sa + take) (sa_expected sa)) as [Hdone|Hmore].
    + eapply returns_bind.
      { apply handleSection_ok; [done..|]. rewrite zlen_app, Hchunk. unfold sa_len in *. lia. }
      intros q Hq. eapply returns_mono.
      { apply IH; try lia; [apply sa_idle_wf|apply Hq|by apply Hq]. }
      intros [sa' r] [Hsa' Hr]. split; [done|]. by apply handled_trans with q.
    + apply IH; try lia; [|done..]. right. rewrite sa_len_app, Hchunk. cbn. unfold sa_len in *. lia.
Qed.

(** Outcome of a step on a watched pid: [handled], and the assemblers keep
    their shape and stay among the watched pids. *)
Record fed (p q : satipPSI) : Prop := {
  fed_tables : tables_wf q;
  fed_emm : m_emm_enabled q = m_emm_enabled p;
  fed_joined : m_joined_pids q = m_joined_pids p;
  fed_watched : m_watched_pids q = m_watched_pids p;
  fed_derived : m_derived_pids q = m_derived_pids p;
  fed_sa : map_Forall (fun _ => sa_wf) (m_assembler q);
  fed_asm : dom (m_assembler q) ⊆ m_watched_pids q;
  fed_pat : m_dirty q = false -> m_pat_pmt_pids q = m_pat_pmt_pids p
}.

Lemma feed_ok p pid buf len allow :
  tables_wf p -> map_Forall (fun _ => sa_wf) (m_assembler p) ->
  dom (m_assembler p) ⊆ m_watched_pids p -> pid ∈ m_watched_pids p ->
  section_pid_ok p pid -> len <= zlen buf ->
  returns (feed p pid buf len allow) (fun q =>
    fed p q /\ section_pid_ok q pid /\ (m_dirty q = false -> m_dirty p = false)).
Proof.
  intros Hwf Hsas Hdom Hpid Hsec Hlen. unfold feed.
  assert (sa_wf (default sa_idle (m_assembler p !! pid))) as Hsa.
  { destruct (m_assembler p !! pid) eqn:E; [by apply (Hsas pid)|apply sa_idle_wf]. }
  eapply returns_bind; [by apply feed_loop_ok; try lia|].
  intros [sa q] [Hsa' (Hq & [] & Hs)]; cbn in *.
  split; [|split; [by apply Hs|intros Hd; by apply sf_pat0]]. constructor; cbn; try congruence.
  - by destruct Hq.
  - rewrite sf_assembler0. by apply map_Forall_insert_2.
  - rewrite sf_assembler0, sf_watched0, dom_insert_L. intros x [->%elem_of_singleton|?]%elem_of_union; auto.
  - intros Hd. by apply sf_pat0.
Qed.

(** ** What recompute derives *)

(** The kernel joined one of the elementary streams of the service. *)
Definition service_active (p : satipPSI) (pmt_pid : Z) : Prop :=
  exists info es, m_pmt p !! pmt_pid = Some info /\ es ∈ es_pids info /\ es ∈ m_joined_pids p.

(** The pids the parser should ask for: the PAT, with emm the CAT and the emm
    pids, and of every active service the pmt pid and its ecm pids. *)
Definition wanted (p : satipPSI) (x : Z) : Prop :=
  x = PSI_PID_PAT \/
  (m_emm_enabled p = true /\ (x = PSI_PID_CAT \/ x ∈ m_emm_pids p)) \/
  exists pmt_pid info, pmt_pid ∈ m_pat_pmt_pids p /\ service_active p pmt_pid /\
    m_pmt p !! pmt_pid = Some info /\ (x = pmt_pid \/ x ∈ ecm_pids info).

Lemma pmt_is_active_spec p pmt_pid : pmt_is_active p pmt_pid = true <-> service_active p pmt_pid.
Proof.
  unfold pmt_is_active, service_active. destruct (m_pmt p !! pmt_pid) as [info|].
  - rewrite existsb_exists. split.
    + intros (es & Hin & Hj). apply bool_decide_eq_true in Hj.
      apply list_elem_of_In, elem_of_set_iter in Hin. eauto.
    + intros (info' & es & [= <-] & Hin & Hj). exists es.
      rewrite bool_decide_eq_true. split; [|done].
      by apply list_elem_of_In, elem_of_set_iter.
  - split; [done|]. by intros (? & ? & ? & _).
Qed.

Lemma foldl_recompute_pmt p l : forall d w x,
  let r := foldl (recompute_pmt p) (d, w) l in
  (x ∈ r.2 <-> x ∈ w \/ x ∈ l) /\
  (x ∈ r.1 <-> x ∈ d \/ exists pmt_pid info, pmt_pid ∈ l /\ service_active p pmt_pid /\
                 m_pmt p !! pmt_pid = Some info /\ (x = pmt_pid \/ x ∈ ecm_pids info)).
Proof.
  induction l as [|q l IH]; intros d w x.
  { cbn. split; [set_solver|]. split; [by left|]. intros [?|(? & ? & []%elem_of_nil & _)]; done. }
  cbn [foldl]. unfold recompute_pmt at 2 4.
  destruct (pmt_is_active p q) eqn:Hact; cbn [negb].
  - apply pmt_is_active_spec in Hact as Ha. destruct Ha as (info & es & Hq & Hes).
    rewrite Hq. specialize (IH ({[q]} ∪ d ∪ ecm_pids info) ({[q]} ∪ w) x).
    destruct IH as [-> ->]. split; [set_solver|].
    rewrite !elem_of_union, elem_of_singleton. split.
    + intros [[[->|?]|?]|(m & i & ? & ?)]; [right; exists q, info| |right; exists q, info|right; exists m, i].
      * split; [left|]. split; [by exists info, es|auto].
      * by left.
      * split; [left|]. split; [by exists info, es|auto].
      * split; [by right|done].
    + intros [?|(m & i & [->|Hm]%elem_of_cons & Hs & Hi & Hx)]; [auto| |].
      * left. rewrite Hq in Hi. injection Hi as <-. destruct Hx as [->|?]; auto.
      * right. exists m, i. auto.
  - specialize (IH d ({[q]} ∪ w) x). destruct IH as [-> ->]. split; [set_solver|].
    split; (intros [?|(m & i & Hm & Hs & ?)]; [by left|right; exists m, i]).
    + split; [by right|done].
    + apply elem_of_cons in Hm as [->|?]; [|done].
      apply pmt_is_active_spec in Hs. congruence.
Qed.

Lemma recompute_sets_watched p : (recompute_sets p).2 = watched_of p.
Proof.
  apply set_eq. intros x. unfold recompute_sets, watched_of.
  destruct (m_emm_enabled p);
    rewrite (proj1 (foldl_recompute_pmt p _ _ _ x)), elem_of_set_iter; set_solver.
Qed.

Lemma recompute_sets_derived p x : x ∈ (recompute_sets p).1 <-> wanted p x.
Proof.
  unfold recompute_sets, wanted. destruct (m_emm_enabled p);
    rewrite (proj2 (foldl_recompute_pmt p _ _ _ x)).
  - rewrite !elem_of_union, !elem_of_singleton. setoid_rewrite elem_of_set_iter. intuition.
  - rewrite elem_of_singleton. setoid_rewrite elem_of_set_iter. intuition congruence.
Qed.

(** The set [recompute] reports: everything wanted, cut to the 32 smallest. *)
Definition derived_of (p : satipPSI) : gset Z :=
  set_take PSI_MAX_DERIVED_PIDS (recompute_sets p).1.

Lemma recompute_derived `{CaSink C} p (cfg : option C) :
  m_derived_pids (recompute p cfg).1 = derived_of p.
Proof.
  unfold recompute, derived_of. destruct (recompute_sets p) as [d w]. cbn [fst].
  assert ((if bool_decide (PSI_MAX_DERIVED_PIDS < size d)%nat
           then set_take PSI_MAX_DERIVED_PIDS d else d) = set_take PSI_MAX_DERIVED_PIDS d) as ->.
  { case_bool_decide; [done|]. rewrite set_take_all; [done|lia]. }
  case_bool_decide as E; [by rewrite E|done].
Qed.

Lemma wanted_range p x : tables_wf p -> wanted p x -> 0 <= x < PSI_PID_NULL.
Proof.
  intros Hwf [->|[[_ [->|Hx]]|(pmt & info & Hpmt & _ & Hi & Hx)]].
  - unfold PSI_PID_PAT, PSI_PID_NULL. lia.
  - unfold PSI_PID_CAT, PSI_PID_NULL. lia.
  - rewrite (twf_cat p Hwf) in Hx. apply pids_ok_all_values in Hx; [lia|apply Hwf].
  - destruct Hx as [->|Hx].
    + rewrite (twf_pat p Hwf) in Hpmt. apply pids_ok_all_values in Hpmt; [lia|apply Hwf].
    + apply (twf_pmt_ok p Hwf) in Hi as [He _]. apply He in Hx. lia.
Qed.

Lemma derived_of_wf p : tables_wf p ->
  (size (derived_of p) <= PSI_MAX_DERIVED_PIDS)%nat /\ PSI_PID_PAT ∈ derived_of p /\
  forall x, x ∈ derived_of p -> 0 <= x < PSI_PID_NULL.
Proof.
  intros Hwf. unfold derived_of. split; [rewrite size_set_take; lia|].
  assert (forall x, x ∈ (recompute_sets p).1 -> 0 <= x < PSI_PID_NULL) as Hr.
  { intros x Hx%recompute_sets_derived. by apply wanted_range with p. }
  split.
  - apply set_take_least; [unfold PSI_MAX_DERIVED_PIDS; lia| |].
    + apply recompute_sets_derived. by left.
    + intros y Hy. apply Hr in Hy. unfold PSI_PID_PAT. lia.
  - intros x Hx. by apply Hr, (set_take_subseteq PSI_MAX_DERIVED_PIDS).
Qed.

Lemma watched_section_pid p pid :
  m_watched_pids p = watched_of p -> pid ∈ m_watched_pids p -> section_pid_ok p pid.
Proof.
  intros -> Hpid. unfold watched_of in Hpid. unfold section_pid_ok.
  destruct (m_emm_enabled p); set_solver.
Qed.

Lemma fed_refl p :
  tables_wf p -> map_Forall (fun _ => sa_wf) (m_assembler p) ->
  dom (m_assembler p) ⊆ m_watched_pids p -> fed p p.
Proof. by constructor. Qed.

Lemma fed_trans p q r : (m_dirty r = false -> m_dirty q = false) -> fed p q -> fed q r -> fed p r.
Proof.
  intros Hd [] []. constructor; try congruence; try done.
  intros Hr. rewrite fed_pat1, fed_pat0; auto.
Qed.

Lemma psi_wf_fed p : psi_wf p -> fed p p.
Proof. intros []. by apply fed_refl. Qed.

(** One packet: nothing is read outside of its 188 bytes. *)
Lemma ts_packet_ok p pkt :
  psi_wf p -> TS_PACKET_SIZE <= zlen pkt ->
  returns (ts_packet p pkt) (fun r => fed p r.1 /\ (r.2 = false -> m_dirty r.1 = false)).
Proof.
  intros Hwf Hlen. unfold TS_PACKET_SIZE in Hlen. unfold ts_packet.
  set (p1 := p <| m_ts_packets := _ |>).
  assert (psi_wf p1) as Hwf1 by (destruct Hwf as [[]]; constructor; [by constructor|done..]).
  assert (forall q, fed p1 q -> fed p q) as Hp1 by (intros q []; by constructor).
  assert (fed p p1 /\ (false = false -> m_dirty p1 = false)) as Hskip.
  { split; [apply Hp1, psi_wf_fed, Hwf1|intros _; apply Hwf1]. }
  wp_rd b1 Hb1. wp_rd b2 Hb2. case_bool_decide as Hw; [done|].
  set (pid := pid13 b1 b2) in *.
  pose proof (watched_section_pid p1 pid (wf_watched p1 Hwf1) Hw) as Hsec.
  wp_rd b3 Hb3. destruct (negb (Z.land b3 0xc0 =? 0)); [done|].
  set (afc := Z.land (Z.shiftr b3 4) 3). destruct ((afc =? 0) || (afc =? 2)); [done|].
  apply returns_bind with (fun pos => 4 <= pos /\ ((afc =? 3) = false -> pos = 4)).
  { destruct (afc =? 3); [|cbn; lia]. wp_rd b4 Hb4. cbn. lia. }
  intros pos [Hpos Hafc].
  destruct ((afc =? 3) && (TS_PACKET_SIZE <=? pos)) eqn:Eskip; [done|].
  assert (pos < 188) as Hlt.
  { destruct (afc =? 3); cbn in Eskip; [unfold TS_PACKET_SIZE in *; bool_cases; lia|].
    rewrite Hafc by done. lia. }
  clear Eskip Hafc. destruct (wf_tables p1 Hwf1), Hwf1 as [Htab Hcl Hwat Hasm Hsa _ _ _].
  destruct (negb (Z.land b1 0x40 =? 0)).
  - wp_rd ptr Hptr. destruct (Z.ltb_spec TS_PACKET_SIZE (pos + 1 + ptr)); [done|].
    unfold TS_PACKET_SIZE in *.
    apply returns_bind with (fun q => fed p1 q /\ section_pid_ok q pid).
    { destruct (0 <? ptr); [|by split; [apply fed_refl|]].
      eapply returns_mono; [apply feed_ok; try done; rewrite zlen_ptr_add by lia; lia|].
      cbn. intros q (? & ? & _). done. }
    intros q [Hq Hqs]. eapply returns_bind.
    { apply feed_ok; [apply Hq..| |done|rewrite zlen_ptr_add by lia; lia].
      by rewrite (fed_watched _ _ Hq). }
    cbn. intros r (Hr & _ & Hd). split; [|done]. by apply Hp1, fed_trans with q.
  - eapply returns_bind.
    { apply feed_ok; try done. rewrite zlen_ptr_add by lia. unfold TS_PACKET_SIZE. lia. }
    cbn. intros r (Hr & _ & Hd). split; [by apply Hp1|done].
Qed.

Section Operations.
Context {C : Type} `{CaSinkLaws C}.

(** What the config was told last is what the parser believes it told it. *)
Definition in_sync (p : satipPSI) (cfg : option C) : Prop :=
  forall c, cfg = Some c -> reported c = m_derived_pids p.

Definition op_ok (r : satipPSI * option C) : Prop := psi_wf r.1 /\ in_sync r.1 r.2.

Lemma recompute_ok p (cfg : option C) :
  tables_wf p -> m_dirty p = false -> map_Forall (fun _ => sa_wf) (m_assembler p) ->
  in_sync p cfg -> op_ok (recompute p cfg).
Proof.
  intros Hwf Hd Hsa Hsync. pose proof (recompute_derived p cfg) as Hder.
  pose proof (derived_of_wf p Hwf) as (Hsz & Hpat & Hrange).
  rewrite <- Hder in Hsz, Hpat, Hrange. pose proof (recompute_sets_watched p) as Hw.
  unfold recompute in *. destruct (recompute_sets p) as [d w]. cbn [snd] in Hw. subst w.
  destruct Hwf. case_bool_decide as E; split; cbn in *; [constructor| |constructor|]; cbn; try done.
  all: try apply dom_keep_keys.
  all: try (intros pid sa [Hk _]%lookup_keep_keys; by apply (Hsa pid)).
  intros c Hc. destruct cfg as [c0|]; [|done]. injection Hc as <-. apply reported_setCaPids.
Qed.

(** The end of the loop body of [processTS]: recompute when dirty. *)
Lemma settle_ok p q reached (cfg : option C) :
  psi_wf p -> in_sync p cfg -> fed p q -> (reached = false -> m_dirty q = false) ->
  op_ok (if reached && m_dirty q then recompute (q <| m_dirty := false |>) cfg else (q, cfg)).
Proof.
  intros Hwf Hsync Hq Hreach. destruct (reached && m_dirty q) eqn:Ed.
  - apply recompute_ok; [|done|apply Hq|].
    + destruct Hq as [[]]. by constructor.
    + intros c Hc. cbn. rewrite (fed_derived _ _ Hq). by apply Hsync.
  - assert (m_dirty q = false) as Hd.
    { destruct reached; [done|]. by apply Hreach. }
    split.
    + destruct Hq, Hwf. specialize (fed_pat0 Hd). constructor; try done; try congruence; cbn.
      { unfold watched_of. by rewrite fed_watched0, wf_watched0, fed_emm0, fed_pat0. }
      all: by rewrite fed_derived0.
    + intros c Hc. cbn. rewrite (fed_derived _ _ Hq). by apply Hsync.
Qed.

Lemma ts_loop_ok fuel data len : forall off p (cfg : option C),
  len <= zlen data -> 0 <= off -> Z.max 0 (len - off) < Z.of_nat fuel ->
  psi_wf p -> in_sync p cfg -> returns (ts_loop fuel p cfg data len off) op_ok.
Proof.
  induction fuel as [|fuel IH]; intros off p cfg Hlen Hoff Hfuel Hwf Hsync; [lia|].
  cbn [ts_loop]. unfold TS_PACKET_SIZE at 1.
  destruct (Z.leb_spec (off + 188) len); [|done].
  assert (188 <= zlen (ptr_add data off)) as Hpkt by (rewrite zlen_ptr_add; lia).
  wp_rd b0 Hb0. destruct (negb (b0 =? 71)); [done|].
  eapply returns_bind; [by apply ts_packet_ok|].
  intros [q reached] [Hq Hreach]. cbn [fst snd] in *. unfold TS_PACKET_SIZE.
  pose proof (settle_ok p q reached cfg Hwf Hsync Hq Hreach) as [Hr1 Hr2].
  destruct (if reached && m_dirty q then _ else _) as [r cfg'].
  apply IH; lia || done.
Qed.

Lemma processTS_ok p (cfg : option C) data len t0 t1 :
  psi_wf p -> in_sync p cfg -> len <= zlen data ->
  returns (processTS p cfg data len t0 t1) op_ok.
Proof.
  intros Hwf Hsync Hlen. unfold processTS. set (p1 := if negb _ then _ else _).
  assert (psi_wf p1 /\ in_sync p1 cfg) as [Hwf1 Hsync1].
  { subst p1. destruct (m_saw_data p); cbn; [done|]. split; [|done].
    destruct Hwf as [[]]. constructor; [by constructor|done..]. }
  eapply returns_bind; [apply ts_loop_ok; try done; lia|].
  intros [q cfg'] [Hq Hs]. cbn in *. destruct (60 <=? t1 - m_last_stats q); [|by split].
  split; [|done]. destruct Hq as [[]]. constructor; [by constructor|done..].
Qed.

Lemma setJoinedPids_ok p (cfg : option C) pids :
  psi_wf p -> in_sync p cfg -> op_ok (setJoinedPids p cfg pids).
Proof.
  intros Hwf Hsync. unfold setJoinedPids. case_bool_decide; [|by split].
  destruct Hwf as [[]]. apply recompute_ok; [by constructor|done..].
Qed.

Lemma cleared_tables p : tables_wf ((clearState p) <| m_joined_pids := ∅ |>).
Proof.
  constructor; cbn; auto with satip; try (by apply map_Forall_empty).
Qed.

Lemma reset_ok p (cfg : option C) : in_sync p cfg -> op_ok (reset p cfg).
Proof.
  intros Hsync. apply recompute_ok; [apply cleared_tables|done|by apply map_Forall_empty|done].
Qed.

Lemma satipPSI_new_ok (c : C) emm filter tuner :
  reported c = ∅ -> op_ok (satipPSI_new (Some c) emm filter tuner).
Proof. intros Hc. apply reset_ok. intros c' [= <-]. done. Qed.
End Operations.

(** ** The parser as an object: any sequence of calls *)

Inductive psi_call :=
| CallReset
| CallSetJoinedPids (pids : gset Z)
| CallProcessTS (data : list byte) (t0 t1 : Z).

Definition psi_exec `{CaSink C} (r : satipPSI * option C) (call : psi_call) :
    option (satipPSI * option C) :=
  match call with
  | CallReset => Some (reset r.1 r.2)
  | CallSetJoinedPids pids => Some (setJoinedPids r.1 r.2 pids)
  | CallProcessTS data t0 t1 => processTS r.1 r.2 data (zlen data) t0 t1
  end.

Definition psi_run `{CaSink C} (r : satipPSI * option C) (calls : list psi_call) :
    option (satipPSI * option C) :=
  foldl (fun r call => r ≫= fun r => psi_exec r call) (Some r) calls.

Section Calls.
Context {C : Type} `{CaSinkLaws C}.

Lemma psi_exec_ok (r : satipPSI * option C) call : op_ok r -> returns (psi_exec r call) op_ok.
Proof.
  intros [Hwf Hs]. destruct call; cbn [psi_exec].
  - by apply reset_ok.
  - by apply setJoinedPids_ok.
  - by apply processTS_ok.
Qed.

Lemma psi_run_ok calls : forall o : option (satipPSI * option C),
  returns o op_ok -> returns (foldl (fun r call => r ≫= fun r => psi_exec r call) o calls) op_ok.
Proof.
  induction calls as [|call calls IH]; intros o Ho; [done|].
  cbn. apply IH. eapply returns_bind; [done|]. intros r Hr. by apply psi_exec_ok.
Qed.
End Calls.

#[global] Arguments handleSection : simpl never.
#[global] Arguments parsePAT : simpl never.
#[global] Arguments parseCAT : simpl never.
#[global] Arguments parsePMT : simpl never.
#[global] Arguments feed : simpl never.
#[global] Arguments ts_packet : simpl never.
#[global] Arguments recompute {C _} psi cfg : simpl never.
#[global] Arguments recompute_sets : simpl never.

(** ** What is behind the data has no part in parsing it *)

Lemma feed_loop_more q fuel pid buf len allow : forall pos sa p r,
  feed_loop fuel pid buf len pos allow sa p = Some r ->
  feed_loop fuel pid (buf ++ q) len pos allow sa p = Some r.
Proof.
  induction fuel as [|fuel IH]; intros pos sa p r Hr; [done|]. cbn [feed_loop] in *.
  destruct (negb _); [done|]. destruct (sa_expected sa =? 0).
  - destruct (_ && _); [done|]. destruct (rdb buf pos) as [b|] eqn:Eb; [|done].
    rewrite (rdb_more _ q _ _ Eb). cbn [mbind option_bind] in *. destruct (_ && _); [done|].
    destruct (sa_append sa [b]) as [sa'|]; [|done]. cbn [mbind option_bind] in *.
    destruct (_ <? 3); [by apply IH|].
    destruct (rd (sa_data sa') 1), (rd (sa_data sa') 2); try done. cbn [mbind option_bind] in *.
    destruct (_ || _); [done|by apply IH].
  - destruct (rd_range buf pos _) as [chunk|] eqn:Ec; [|done].
    rewrite (rd_range_more _ q _ _ _ Ec). cbn [mbind option_bind] in *.
    destruct (sa_append sa chunk) as [sa'|]; [|done]. cbn [mbind option_bind] in *.
    destruct (_ =? _); [|by apply IH].
    destruct (handleSection p pid _ _); [|done]. cbn [mbind option_bind] in *. by apply IH.
Qed.

Lemma feed_more psi pid p q pos len allow r :
  0 <= pos <= zlen p -> feed psi pid (ptr_add p pos) len allow = Some r ->
  feed psi pid (ptr_add (p ++ q) pos) len allow = Some r.
Proof.
  intros Hpos Hr. rewrite ptr_add_more by done. unfold feed in *.
  destruct (feed_loop _ pid (ptr_add p pos) _ _ _ _ _) as [[sa psi']|] eqn:E; [|done].
  by rewrite (feed_loop_more q _ _ _ _ _ _ _ _ _ E).
Qed.

Lemma ts_packet_more psi p q r :
  188 <= zlen p -> ts_packet psi p = Some r -> ts_packet psi (p ++ q) = Some r.
Proof.
  intros Hlen Hr. unfold ts_packet in *. set (psi1 := psi <| m_ts_packets := _ |>) in *. clearbody psi1.
  read_more q. read_more q. case_bool_decide; [done|]. read_more q. destruct (negb _); [done|].
  destruct (_ || _) eqn:Eafc; [done|]. set (afc := Z.land (Z.shiftr _ 4) 3) in *.
  assert (exists pos, 4 <= pos /\
    (if afc =? 3 then b4 ← rd p 4; Some (4 + (1 + b4)) else Some 4) = Some pos /\
    (if afc =? 3 then b4 ← rd (p ++ q) 4; Some (4 + (1 + b4)) else Some 4) = Some pos)
    as (pos & Hpos & Hp1 & Hp2).
  { destruct (afc =? 3); [|by exists 4]. destruct (rd_ok p 4) as (b4 & E4 & Hb4); [lia|].
    rewrite (rd_more _ q _ _ E4), E4. exists (4 + (1 + b4)). split; [lia|done]. }
  rewrite Hp1 in Hr. rewrite Hp2. cbn [mbind option_bind] in *.
  destruct ((afc =? 3) && (TS_PACKET_SIZE <=? pos)) eqn:Efull; [done|].
  assert (pos < 188) as Hpos'.
  { destruct (afc =? 3); [by apply Z.leb_gt in Efull|]. injection Hp1 as <-. lia. }
  destruct (negb _).
  - destruct (rd_ok p pos) as (ptr & Ep & Hptr); [lia|]. rewrite (rd_more _ q _ _ Ep). rewrite Ep in Hr.
    cbn [mbind option_bind] in *. destruct (Z.ltb_spec TS_PACKET_SIZE (pos + 1 + ptr)) as [|Hle]; [done|].
    unfold TS_PACKET_SIZE in Hle.
    assert (forall f f' : option satipPSI, (forall x, f = Some x -> f' = Some x) ->
      forall k k' : satipPSI -> option (satipPSI * bool), (forall x, k x = Some r -> k' x = Some r) ->
      f ≫= k = Some r -> f' ≫= k' = Some r) as Hbind.
    { intros [x|] f' Hf k k' Hk; [|done]. rewrite (Hf x eq_refl). apply Hk. }
    revert Hr. apply Hbind; [|intros x; apply Hbind; [|done]].
    + intros x. destruct (0 <? ptr); [apply feed_more; lia|done].
    + intros y. apply feed_more. lia.
  - destruct (feed psi1 _ (ptr_add p pos) _ _) as [x|] eqn:Ef; [|done].
    apply (feed_more _ _ _ q) in Ef; [|lia]. rewrite Ef. exact Hr.
Qed.

Lemma ts_loop_more `{CaSink C} q fuel data len : forall p (cfg : option C) off r,
  len <= zlen data -> 0 <= off ->
  ts_loop fuel p cfg data len off = Some r -> ts_loop fuel p cfg (data ++ q) len off = Some r.
Proof.
  induction fuel as [|fuel IH]; intros p cfg off r Hlen Hoff Hr; [done|]. cbn [ts_loop] in *.
  destruct (Z.leb_spec (off + TS_PACKET_SIZE) len) as [Hle|]; [|done]. unfold TS_PACKET_SIZE in Hle.
  rewrite ptr_add_more by lia. read_more q. destruct (negb _); [done|].
  assert (188 <= zlen (ptr_add data off)) as Hz by (rewrite zlen_ptr_add; lia).
  destruct (ts_packet p (ptr_add data off)) as [[p1 reached]|] eqn:Ep; [|done].
  rewrite (ts_packet_more _ _ q _ Hz Ep). cbn [mbind option_bind] in *.
  destruct (if reached && m_dirty p1 then _ else _) as [p2 cfg2].
  apply IH; [done|unfold TS_PACKET_SIZE; lia|exact Hr].
Qed.

Lemma processTS_more `{CaSinkLaws C} p (cfg : option C) data q t0 t1 :
  psi_wf p -> in_sync p cfg ->
  processTS p cfg (data ++ q) (zlen data) t0 t1 = processTS p cfg data (zlen data) t0 t1.
Proof.
  intros Hwf Hs. assert (zlen data <= zlen data) as Hlen by lia.
  pose proof (processTS_ok p cfg data (zlen data) t0 t1 Hwf Hs Hlen) as Hok. unfold processTS in *.
  destruct (ts_loop _ _ _ data _ _) as [r|] eqn:E; [|done].
  by rewrite (ts_loop_more q _ _ _ _ _ 0 _ Hlen ltac:(done) E).
Qed.
