(* ===== verification/PsiFormat.v ===== *)
(** The wire formats the parser of Psi.v reads, as encoders: CA descriptors,
    PAT, CAT and PMT sections with their crc. Each parser is proved to recover
    exactly what the encoder was given. *)

From S2P Require Import Prelude Crc Psi.

#[local] Ltac Zify.zify_post_hook ::= Z.to_euclidean_division_equations.

(** ** Reading behind a known prefix *)

Lemma ub_byte_of n : 0 <= n < 256 -> ub (byte_of n) = n.
Proof.
  intros Hn. unfold byte_of. change 0xff with (Z.ones 8). rewrite Z.land_ones by lia.
  rewrite Z.mod_small by lia.
  destruct (Byte.of_N (Z.to_N n)) as [b|] eqn:E; cbn [from_option id].
  - unfold ub. apply Byte.to_of_N in E. rewrite E, Z2N.id; lia.
  - apply Byte.of_N_None_iff in E. lia.
Qed.

Lemma ub_byte_of_mod n : ub (byte_of n) = n `mod` 256.
Proof.
  rewrite <- (ub_byte_of (n `mod` 256)) by (apply Z.mod_pos_bound; lia). f_equal.
  unfold byte_of. change 0xff with (Z.ones 8). rewrite !Z.land_ones by lia.
  change (2 ^ 8) with 256. by rewrite Z.mod_mod.
Qed.

Lemma rd_shift pre l k : 0 <= k -> rd (pre ++ l) (zlen pre + k) = rd l k.
Proof.
  intros Hk. pose proof (zlen_nonneg pre). unfold rd. rewrite rdb_app_r by lia.
  do 2 f_equal. lia.
Qed.

Lemma rd_shift0 pre l : rd (pre ++ l) (zlen pre) = rd l 0.
Proof. rewrite <- (Z.add_0_r (zlen pre)) at 1. by apply rd_shift. Qed.

Lemma rd_app_l p q i : i < zlen p -> rd (p ++ q) i = rd p i.
Proof. intros Hi. unfold rd. by rewrite rdb_app_l. Qed.

Lemma rd_range_all l : rd_range l 0 (zlen l) = Some l.
Proof.
  unfold rd_range. rewrite Z.add_0_l, !Z.leb_refl.
  rewrite (proj2 (Z.leb_le 0 (zlen l))) by apply zlen_nonneg.
  cbn [andb]. f_equal. apply take_ge. change (drop (Z.to_nat 0) l) with l. unfold zlen. lia.
Qed.

(** ** CA descriptors *)

Record descriptor := Desc { d_tag : byte; d_body : list byte }.
Definition desc_wf (d : descriptor) : Prop := zlen (d_body d) < 256.

Definition encode_desc (d : descriptor) : list byte :=
  d_tag d :: byte_of (zlen (d_body d)) :: d_body d.
Definition encode_descs (ds : list descriptor) : list byte := ds ≫= encode_desc.

(** The pid a descriptor contributes under a caid filter. *)
Definition ca_pid_of (psi : satipPSI) (d : descriptor) : option Z :=
  if ub (d_tag d) =? 0x09 then
    match d_body d with
    | c0 :: c1 :: p0 :: p1 :: _ =>
        let pid := pid13 (ub p0) (ub p1) in
        if (0 <? pid) && (pid <? PSI_PID_NULL) && caidAllowed psi (be16 (ub c0) (ub c1))
        then Some pid else None
    | _ => None
    end
  else None.

Definition ca_pids_of (psi : satipPSI) (ds : list descriptor) : gset Z :=
  list_to_set (omap (ca_pid_of psi) ds).

(** Only the caid filter of the parser matters. *)
Lemma ca_pids_of_filter p q ds :
  m_caid_filter p = m_caid_filter q -> ca_pids_of p ds = ca_pids_of q ds.
Proof.
  intros Hpq. unfold ca_pids_of. f_equal. induction ds as [|d ds IH]; [done|].
  cbn [omap list_omap]. rewrite IH. unfold ca_pid_of, caidAllowed. by rewrite Hpq.
Qed.

Lemma zlen_encode_desc d : zlen (encode_desc d) = 2 + zlen (d_body d).
Proof. unfold encode_desc. rewrite !zlen_cons. lia. Qed.

Lemma encode_descs_cons d ds : encode_descs (d :: ds) = encode_desc d ++ encode_descs ds.
Proof. done. Qed.

(** The loop body on one well formed descriptor. *)
Lemma collect_loop_step fuel psi pre d post len out :
  desc_wf d -> zlen pre + zlen (encode_desc d) <= len ->
  collect_loop (S fuel) psi (pre ++ encode_desc d ++ post) len (zlen pre) out
  = collect_loop fuel psi (pre ++ encode_desc d ++ post) len (zlen pre + zlen (encode_desc d))
      (match ca_pid_of psi d with Some x => {[x]} ∪ out | None => out end).
Proof.
  intros Hd Hlen. destruct d as [tag body]. pose proof (zlen_nonneg body) as Hb.
  unfold desc_wf in Hd. cbn [d_body] in Hd. rewrite zlen_encode_desc in *. cbn [d_body] in *.
  cbn [collect_loop]. rewrite (proj2 (Z.leb_le _ _)) by lia.
  rewrite rd_shift0, (rd_shift pre _ 1) by lia. unfold encode_desc. cbn [d_tag d_body app].
  change (rd (tag :: ?l) 0) with (Some (ub tag)).
  change (rd (tag :: ?b :: ?l) 1) with (Some (ub b)).
  cbn [mbind option_bind]. rewrite ub_byte_of by lia.
  rewrite (proj2 (Z.ltb_ge _ _)) by lia.
  unfold ca_pid_of. cbn [d_tag d_body].
  replace (zlen pre + 2 + zlen body) with (zlen pre + (2 + zlen body)) by lia.
  destruct (ub tag =? 9); cbn [andb]; [|done].
  destruct (Z.leb_spec 4 (zlen body)) as [H4|H4].
  - destruct body as [|c0 [|c1 [|p0 [|p1 body]]]];
      try (unfold zlen in H4; cbn in H4; lia).
    rewrite !rd_shift by lia. cbn [app].
    change (rd (_ :: _ :: c0 :: ?l) 2) with (Some (ub c0)).
    change (rd (_ :: _ :: c0 :: c1 :: ?l) 3) with (Some (ub c1)).
    change (rd (_ :: _ :: c0 :: c1 :: p0 :: ?l) 4) with (Some (ub p0)).
    change (rd (_ :: _ :: c0 :: c1 :: p0 :: p1 :: ?l) 5) with (Some (ub p1)).
    cbn [mbind option_bind].
    destruct ((0 <? pid13 (ub p0) (ub p1)) && (pid13 (ub p0) (ub p1) <? PSI_PID_NULL)); [|done].
    cbn [andb mbind option_bind]. by destruct (caidAllowed psi _).
  - destruct body as [|c0 [|c1 [|p0 [|p1 body]]]]; try done.
    unfold zlen in H4. cbn in H4. lia.
Qed.

Lemma collect_loop_encode psi ds : forall fuel pre post out,
  Forall desc_wf ds -> (length ds < fuel)%nat ->
  collect_loop fuel psi (pre ++ encode_descs ds ++ post)
    (zlen pre + zlen (encode_descs ds)) (zlen pre) out
  = Some (ca_pids_of psi ds ∪ out).
Proof.
  induction ds as [|d ds IH]; intros fuel pre post out Hwf Hfuel;
    (destruct fuel as [|fuel]; [cbn in Hfuel; lia|]).
  { cbn [collect_loop encode_descs mbind list_bind]. change (zlen []) with 0.
    rewrite (proj2 (Z.leb_gt _ _)) by lia. f_equal. unfold ca_pids_of. cbn. set_solver. }
  apply Forall_cons in Hwf as [Hd Hwf]. rewrite encode_descs_cons, <- app_assoc.
  rewrite zlen_app. pose proof (zlen_nonneg (encode_descs ds)).
  rewrite collect_loop_step by (done || lia).
  rewrite <- (zlen_app pre (encode_desc d)), (app_assoc pre), Z.add_assoc, <- zlen_app.
  rewrite IH by (done || (cbn in Hfuel; lia)). f_equal.
  unfold ca_pids_of. cbn [omap list_omap]. destruct (ca_pid_of psi d); cbn; set_solver.
Qed.

Lemma length_encode_descs ds : 2 * Z.of_nat (length ds) <= zlen (encode_descs ds).
Proof.
  induction ds as [|d ds IH]; [done|]. rewrite encode_descs_cons, zlen_app, zlen_encode_desc.
  pose proof (zlen_nonneg (d_body d)). cbn [length]. lia.
Qed.

Lemma collect_encode psi ds post out :
  Forall desc_wf ds ->
  collectCaDescriptors psi (encode_descs ds ++ post) (zlen (encode_descs ds)) out
  = Some (ca_pids_of psi ds ∪ out).
Proof.
  intros Hwf. unfold collectCaDescriptors. pose proof (length_encode_descs ds).
  apply (collect_loop_encode psi ds _ [] post out Hwf). lia.
Qed.

(** ** Big endian fields *)

Lemma be16_encode n : 0 <= n < 65536 -> be16 (ub (byte_of (n / 256))) (ub (byte_of n)) = n.
Proof.
  intros Hn. rewrite be16_eq by apply ub_bounds.
  rewrite ub_byte_of by (split; [|apply Z.div_lt_upper_bound]; lia).
  rewrite ub_byte_of_mod. lia.
Qed.

Lemma pid13_encode p : 0 <= p < 0x2000 ->
  pid13 (ub (byte_of (0xe0 + p / 256))) (ub (byte_of p)) = p.
Proof.
  intros Hp. unfold pid13. rewrite be16_eq by apply ub_bounds.
  assert (0 <= p / 256 < 32) by lia. rewrite ub_byte_of, ub_byte_of_mod by lia.
  change 0x1f with (Z.ones 5). rewrite Z.land_ones by lia. change (2 ^ 5) with 32. lia.
Qed.

Lemma len12_encode k l : 0 <= k < 16 -> 0 <= l < 4096 ->
  len12 (ub (byte_of (16 * k + l / 256))) (ub (byte_of l)) = l.
Proof.
  intros Hk Hl. unfold len12. rewrite be16_eq by apply ub_bounds.
  assert (0 <= l / 256 < 16) by lia. rewrite ub_byte_of, ub_byte_of_mod by lia.
  change 0x0f with (Z.ones 4). rewrite Z.land_ones by lia. change (2 ^ 4) with 16. lia.
Qed.

(** ** Sections *)

Definition section_header (table_id : byte) (ext version secno last_secno : Z)
    (body : list byte) : list byte :=
  let section_length := 9 + zlen body in
  [table_id; byte_of (0xb0 + section_length / 256); byte_of section_length;
   byte_of (ext / 256); byte_of ext; byte_of (0xc1 + 2 * version);
   byte_of secno; byte_of last_secno].

Definition encode_section (table_id : byte) (ext version secno last_secno : Z)
    (body : list byte) : list byte :=
  let content := section_header table_id ext version secno last_secno body ++ body in
  content ++ be32_bytes (crc32_calc content).

Definition section_wf (version secno : Z) (body : list byte) : Prop :=
  0 <= version < 32 /\ 0 <= secno < 256 /\ zlen body <= 4084.

Lemma zlen_encode_section t e v s l body : zlen (encode_section t e v s l body) = 12 + zlen body.
Proof.
  unfold encode_section. rewrite !zlen_app. unfold be32_bytes, section_header.
  rewrite !zlen_cons. change (zlen []) with 0. lia.
Qed.

Lemma crc32_encode_section t e v s l body : crc32_calc (encode_section t e v s l body) = 0.
Proof.
  unfold encode_section. set (content := _ ++ body). rewrite crc32_calc_app.
  pose proof (crc32_calc_range content) as Hr. revert Hr. generalize (crc32_calc content).
  clear. intros c Hr. by apply crc32_zero_state.
Qed.

Lemma syntax_bit h : 0 <= h < 16 -> (Z.land (0xb0 + h) 0x80 =? 0) = false.
Proof.
  intros Hh. rewrite <- (Z2Nat.id h) by lia. assert (Z.to_nat h < 16)%nat as H by lia.
  revert H. generalize (Z.to_nat h). clear. intros n Hn.
  do 16 (destruct n as [|n]; [reflexivity|]). lia.
Qed.

Lemma version_encode v : 0 <= v < 32 ->
  Z.land (Z.shiftr (ub (byte_of (0xc1 + 2 * v))) 1) 0x1f = v /\
  (Z.land (ub (byte_of (0xc1 + 2 * v))) 0x01 =? 0) = false.
Proof.
  intros Hv. rewrite ub_byte_of by lia. change 0x1f with (Z.ones 5). change (Z.land ?x 0x01) with (Z.land x (Z.ones 1)).
  rewrite !Z.land_ones, Z.shiftr_div_pow2 by lia. change (2 ^ 5) with 32. change (2 ^ 1) with 2.
  split; [lia|]. apply Z.eqb_neq. lia.
Qed.

(** The fixed fields of an encoded section, as the parsers read them. *)
Lemma rd_section_header t e v s l body rest : section_wf v s body ->
  let sec := section_header t e v s l body ++ rest in
  rd sec 0 = Some (ub t) /\ rd sec 1 = Some (0xb0 + (9 + zlen body) / 256) /\
  rd sec 3 = Some (ub (byte_of (e / 256))) /\ rd sec 4 = Some (ub (byte_of e)) /\
  rd sec 5 = Some (ub (byte_of (0xc1 + 2 * v))) /\ rd sec 6 = Some s.
Proof.
  intros (Hv & Hs & Hb). pose proof (zlen_nonneg body).
  assert (0 <= (9 + zlen body) / 256 < 16) by lia.
  pose proof (ub_byte_of (0xb0 + (9 + zlen body) / 256) ltac:(lia)) as H1.
  pose proof (ub_byte_of s Hs) as H6.
  split_and!; try done; [exact (f_equal Some H1)|exact (f_equal Some H6)].
Qed.

(** A good section goes straight to the parser its pid and table id select. *)
Lemma handleSection_encode psi pid t e v s l body :
  section_wf v s body ->
  let sec := encode_section t e v s l body in
  let psi' := psi <| m_sections := u64 (m_sections psi + 1) |> in
  handleSection psi pid sec (zlen sec) =
  if pid =? PSI_PID_PAT then if ub t =? 0x00 then parsePAT psi' sec (zlen sec) else Some psi'
  else if pid =? PSI_PID_CAT then if ub t =? 0x01 then parseCAT psi' sec (zlen sec) else Some psi'
  else if ub t =? 0x02 then parsePMT psi' pid sec (zlen sec) else Some psi'.
Proof.
  intros Hwf sec psi'. pose proof Hwf as (Hv & Hs & Hb). pose proof (zlen_nonneg body).
  unfold handleSection. subst sec. rewrite rd_range_all.
  assert (exists rest, encode_section t e v s l body = section_header t e v s l body ++ rest)
    as [rest Hrest] by (unfold encode_section; rewrite <- app_assoc; eauto).
  destruct (rd_section_header t e v s l body rest Hwf) as (H0 & H1 & _ & _ & H5 & _).
  rewrite <- Hrest in H0, H1, H5. rewrite H0, H1, H5. cbn [mbind option_bind].
  rewrite syntax_bit by lia. rewrite crc32_encode_section. cbn [Z.eqb negb].
  by rewrite (proj2 (version_encode v Hv)).
Qed.

(** A section splits into the eight header bytes, the body and the crc. *)
Lemma encode_section_split t e v s l body :
  encode_section t e v s l body
  = section_header t e v s l body ++ body
    ++ be32_bytes (crc32_calc (section_header t e v s l body ++ body)).
Proof. unfold encode_section. by rewrite <- app_assoc. Qed.

Lemma ptr_add_app p q k : zlen p = k -> ptr_add (p ++ q) k = q.
Proof. intros <-. unfold ptr_add, zlen. rewrite Nat2Z.id. by rewrite drop_app_length. Qed.

(** ** PAT *)

Record pat_entry := PatEntry { pe_program : Z; pe_pid : Z }.
Definition pat_entry_wf (x : pat_entry) : Prop :=
  0 <= pe_program x < 65536 /\ 0 <= pe_pid x < 0x2000.

Definition encode_pat_entry (x : pat_entry) : list byte :=
  [byte_of (pe_program x / 256); byte_of (pe_program x);
   byte_of (0xe0 + pe_pid x / 256); byte_of (pe_pid x)].
Definition encode_pat_entries (es : list pat_entry) : list byte := es ≫= encode_pat_entry.

(** Program 0 is the network pid, not a service. *)
Definition pat_entry_pid (x : pat_entry) : option Z :=
  if (pe_program x =? 0) || (pe_pid x =? 0) || (PSI_PID_NULL <=? pe_pid x)
  then None else Some (pe_pid x).
Definition pat_pids (es : list pat_entry) : gset Z := list_to_set (omap pat_entry_pid es).

Lemma pat_loop_step fuel pre x post len acc :
  pat_entry_wf x -> zlen pre + 8 <= len ->
  pat_loop (S fuel) (pre ++ encode_pat_entry x ++ post) len (zlen pre) acc
  = pat_loop fuel (pre ++ encode_pat_entry x ++ post) len (zlen pre + 4)
      (match pat_entry_pid x with Some y => {[y]} ∪ acc | None => acc end).
Proof.
  intros [Hn Hp] Hlen. cbn [pat_loop]. rewrite (proj2 (Z.leb_le _ _)) by lia.
  rewrite rd_shift0, !rd_shift by lia. unfold encode_pat_entry. cbn [app].
  change (rd (?a :: ?l) 0) with (Some (ub a)).
  change (rd (?a :: ?b :: ?l) 1) with (Some (ub b)).
  change (rd (?a :: ?b :: ?c :: ?l) 2) with (Some (ub c)).
  change (rd (?a :: ?b :: ?c :: ?d :: ?l) 3) with (Some (ub d)).
  cbn [mbind option_bind]. rewrite be16_encode, pid13_encode by done. unfold pat_entry_pid.
  destruct (pe_program x =? 0); [done|].
  by destruct ((pe_pid x =? 0) || (PSI_PID_NULL <=? pe_pid x)) eqn:E;
    rewrite orb_false_l, E.
Qed.

Lemma pat_loop_encode es : forall fuel pre post acc,
  Forall pat_entry_wf es -> (length es < fuel)%nat -> zlen post = 4 ->
  let sec := pre ++ encode_pat_entries es ++ post in
  pat_loop fuel sec (zlen sec) (zlen pre) acc = Some (pat_pids es ∪ acc).
Proof.
  induction es as [|x es IH]; intros fuel pre post acc Hwf Hfuel Hpost sec; subst sec;
    (destruct fuel as [|fuel]; [cbn in Hfuel; lia|]).
  { cbn [pat_loop encode_pat_entries mbind list_bind app]. rewrite zlen_app, Hpost.
    rewrite (proj2 (Z.leb_gt _ _)) by lia. f_equal. unfold pat_pids. cbn. set_solver. }
  apply Forall_cons in Hwf as [Hx Hwf].
  change (encode_pat_entries (x :: es)) with (encode_pat_entry x ++ encode_pat_entries es).
  rewrite <- app_assoc. pose proof (zlen_nonneg (encode_pat_entries es)).
  assert (zlen (encode_pat_entry x) = 4) as H4 by done.
  rewrite pat_loop_step by (done || (rewrite !zlen_app; lia)).
  rewrite <- H4, <- zlen_app, app_assoc.
  rewrite IH by (done || (cbn in Hfuel; lia)). f_equal.
  unfold pat_pids. cbn [omap list_omap]. destruct (pat_entry_pid x); cbn; set_solver.
Qed.

Lemma zlen_encode_pat es : zlen (encode_pat_entries es) = 4 * Z.of_nat (length es).
Proof.
  induction es as [|x es IH]; [done|].
  change (encode_pat_entries (x :: es)) with (encode_pat_entry x ++ encode_pat_entries es).
  rewrite zlen_app, IH. change (zlen (encode_pat_entry x)) with 4. cbn [length]. lia.
Qed.

(** The table state after section [secno] of version [v] brought the set [s]. *)
Definition section_update (old_version v secno : Z) (old : gmap Z (gset Z)) (s : gset Z) :
    gmap Z (gset Z) :=
  <[secno := s]> (if v =? old_version then old else ∅).

Lemma parsePAT_encode psi t e v s l es :
  let body := encode_pat_entries es in
  section_wf v s body -> Forall pat_entry_wf es ->
  let sec := encode_section t e v s l body in
  exists psi', parsePAT psi sec (zlen sec) = Some psi' /\
    m_pat_version psi' = v /\
    m_pat_sections psi'
      = section_update (m_pat_version psi) v s (m_pat_sections psi) (pat_pids es) /\
    m_pat_pmt_pids psi' = all_values (m_pat_sections psi').
Proof.
  intros body Hwf Hes sec. unfold parsePAT.
  assert (pat_loop (S (Z.to_nat (zlen sec))) sec (zlen sec) 8 ∅ = Some (pat_pids es)) as Hloop.
  { subst sec. rewrite encode_section_split.
    rewrite (pat_loop_encode es _ (section_header t e v s l body)); [|done| |done].
    - f_equal. set_solver.
    - rewrite <- encode_section_split, zlen_encode_section. subst body.
      rewrite zlen_encode_pat. lia. }
  rewrite Hloop. clear Hloop.
  destruct (rd_section_header t e v s l body
    (body ++ be32_bytes (crc32_calc (section_header t e v s l body ++ body))) Hwf)
    as (_ & _ & _ & _ & H5 & H6).
  rewrite <- encode_section_split in H5, H6. fold sec in H5, H6. rewrite H5, H6.
  cbn [mbind option_bind]. rewrite (proj1 (version_encode v (proj1 Hwf))).
  unfold section_update.
  destruct (Z.eqb_spec v (m_pat_version psi)); cbn [negb];
    (case_bool_decide as Hall; eexists; (split; [reflexivity|]); cbn; auto).
Qed.

(** ** CAT *)

Lemma parseCAT_encode psi t e v s l ds :
  let body := encode_descs ds in
  section_wf v s body -> Forall desc_wf ds ->
  let sec := encode_section t e v s l body in
  exists psi', parseCAT psi sec (zlen sec) = Some psi' /\
    m_cat_version psi' = v /\
    m_cat_sections psi'
      = section_update (m_cat_version psi) v s (m_cat_sections psi) (ca_pids_of psi ds) /\
    m_emm_pids psi' = all_values (m_cat_sections psi').
Proof.
  intros body Hwf Hds sec. unfold parseCAT.
  assert (forall q, m_caid_filter q = m_caid_filter psi ->
    collectCaDescriptors q (ptr_add sec 8) (zlen sec - 4 - 8) ∅ = Some (ca_pids_of psi ds)) as Hloop.
  { intros q Hq. subst sec. rewrite zlen_encode_section, encode_section_split.
    rewrite ptr_add_app by done. replace (12 + zlen body - 4 - 8) with (zlen body) by lia.
    subst body. rewrite collect_encode by done. f_equal.
    rewrite (ca_pids_of_filter q psi) by done. set_solver. }
  destruct (rd_section_header t e v s l body
    (body ++ be32_bytes (crc32_calc (section_header t e v s l body ++ body))) Hwf)
    as (_ & _ & _ & _ & H5 & H6).
  rewrite <- encode_section_split in H5, H6. fold sec in H5, H6. rewrite H5, H6.
  cbn [mbind option_bind]. rewrite (proj1 (version_encode v (proj1 Hwf))).
  unfold section_update. rewrite Hloop by (by destruct (negb _)).
  cbn [mbind option_bind].
  destruct (Z.eqb_spec v (m_cat_version psi)); cbn [negb];
    (case_bool_decide as Hall; eexists; (split; [reflexivity|]); cbn; auto).
Qed.

(** ** PMT *)

Record stream := Stream { st_type : byte; st_pid : Z; st_descs : list descriptor }.
Definition stream_wf (x : stream) : Prop :=
  0 <= st_pid x < 0x2000 /\ Forall desc_wf (st_descs x) /\ zlen (encode_descs (st_descs x)) < 4096.

(** A list of descriptors behind its 12 bit length. *)
Definition encode_info (ds : list descriptor) : list byte :=
  let n := zlen (encode_descs ds) in
  [byte_of (16 * 15 + n / 256); byte_of n] ++ encode_descs ds.

Definition encode_stream (x : stream) : list byte :=
  [st_type x; byte_of (0xe0 + st_pid x / 256); byte_of (st_pid x)] ++ encode_info (st_descs x).
Definition encode_streams (xs : list stream) : list byte := xs ≫= encode_stream.

Definition encode_pmt (pcr : Z) (pds : list descriptor) (xs : list stream) : list byte :=
  [byte_of (0xe0 + pcr / 256); byte_of pcr] ++ encode_info pds ++ encode_streams xs.

(** What a PMT announces. *)
Definition stream_pid (x : stream) : option Z :=
  if (0 <? st_pid x) && (st_pid x <? PSI_PID_NULL) then Some (st_pid x) else None.
Definition stream_pids (xs : list stream) : gset Z := list_to_set (omap stream_pid xs).
Definition stream_ecm_pids (psi : satipPSI) (xs : list stream) : gset Z :=
  ⋃ ((fun x => ca_pids_of psi (st_descs x)) <$> xs).
Definition pmt_ecm_pids (psi : satipPSI) (pds : list descriptor) (xs : list stream) : gset Z :=
  ca_pids_of psi pds ∪ stream_ecm_pids psi xs.

Lemma zlen_encode_stream x : zlen (encode_stream x) = 5 + zlen (encode_descs (st_descs x)).
Proof. unfold encode_stream, encode_info. rewrite !zlen_app, !zlen_cons. change (zlen []) with 0. lia. Qed.

Lemma es_loop_step fuel psi pre x post end_ ecm es :
  stream_wf x -> zlen pre + zlen (encode_stream x) <= end_ ->
  es_loop (S fuel) psi (pre ++ encode_stream x ++ post) end_ (zlen pre) ecm es
  = es_loop fuel psi (pre ++ encode_stream x ++ post) end_ (zlen pre + zlen (encode_stream x))
      (ca_pids_of psi (st_descs x) ∪ ecm)
      (match stream_pid x with Some y => {[y]} ∪ es | None => es end).
Proof.
  intros (Hp & Hds & Hn) Hlen. rewrite zlen_encode_stream in *.
  pose proof (zlen_nonneg (encode_descs (st_descs x))) as Hn0.
  cbn [es_loop]. rewrite (proj2 (Z.leb_le _ _)) by lia.
  rewrite !rd_shift by lia. unfold encode_stream, encode_info. cbn [app].
  change (rd (?a :: ?b :: ?l) 1) with (Some (ub b)).
  change (rd (?a :: ?b :: ?c :: ?l) 2) with (Some (ub c)).
  change (rd (?a :: ?b :: ?c :: ?d :: ?l) 3) with (Some (ub d)).
  change (rd (?a :: ?b :: ?c :: ?d :: ?e :: ?l) 4) with (Some (ub e)).
  cbn [mbind option_bind]. rewrite pid13_encode, len12_encode by lia.
  rewrite (proj2 (Z.ltb_ge _ _)) by lia.
  set (b0 := st_type x). set (b1 := byte_of (0xe0 + _)). set (b2 := byte_of (st_pid x)).
  set (b3 := byte_of (16 * 15 + _)). set (b4 := byte_of (zlen _)).
  assert (pre ++ b0 :: b1 :: b2 :: b3 :: b4 :: encode_descs (st_descs x) ++ post
          = (pre ++ [b0; b1; b2; b3; b4]) ++ encode_descs (st_descs x) ++ post) as ->
    by (by rewrite <- app_assoc).
  rewrite ptr_add_app by (rewrite zlen_app; done). rewrite collect_encode by done.
  cbn [mbind option_bind]. unfold stream_pid.
  replace (zlen pre + 5 + zlen (encode_descs (st_descs x)))
    with (zlen pre + (5 + zlen (encode_descs (st_descs x)))) by lia.
  by destruct ((0 <? st_pid x) && (st_pid x <? PSI_PID_NULL)).
Qed.

Lemma es_loop_encode psi xs : forall fuel pre post ecm es,
  Forall stream_wf xs -> (length xs < fuel)%nat ->
  es_loop fuel psi (pre ++ encode_streams xs ++ post)
    (zlen pre + zlen (encode_streams xs)) (zlen pre) ecm es
  = Some (stream_ecm_pids psi xs ∪ ecm, stream_pids xs ∪ es).
Proof.
  induction xs as [|x xs IH]; intros fuel pre post ecm es Hwf Hfuel;
    (destruct fuel as [|fuel]; [cbn in Hfuel; lia|]).
  { cbn [es_loop encode_streams mbind list_bind]. change (zlen []) with 0.
    rewrite (proj2 (Z.leb_gt _ _)) by lia.
    unfold stream_pids, stream_ecm_pids. cbn. do 2 f_equal; set_solver. }
  apply Forall_cons in Hwf as [Hx Hwf].
  change (encode_streams (x :: xs)) with (encode_stream x ++ encode_streams xs).
  rewrite <- app_assoc, zlen_app. pose proof (zlen_nonneg (encode_streams xs)).
  rewrite es_loop_step by (done || lia).
  rewrite <- (zlen_app pre (encode_stream x)), (app_assoc pre), Z.add_assoc, <- zlen_app.
  rewrite IH by (done || (cbn in Hfuel; lia)).
  unfold stream_pids, stream_ecm_pids. cbn [omap list_omap].
  destruct (stream_pid x); cbn; do 2 f_equal; set_solver.
Qed.

Lemma length_encode_streams xs : 5 * Z.of_nat (length xs) <= zlen (encode_streams xs).
Proof.
  induction xs as [|x xs IH]; [done|].
  change (encode_streams (x :: xs)) with (encode_stream x ++ encode_streams xs).
  rewrite zlen_app, zlen_encode_stream.
  pose proof (zlen_nonneg (encode_descs (st_descs x))). cbn [length]. lia.
Qed.

Definition pmt_body_wf (pcr : Z) (pds : list descriptor) (xs : list stream) : Prop :=
  0 <= pcr < 0x2000 /\ Forall desc_wf pds /\ zlen (encode_descs pds) < 4096 /\
  Forall stream_wf xs.

(** The entry of a pmt pid after a section of version [v] for it. *)
Definition pmt_update (psi : satipPSI) (info : pmt_info) (v : Z) (pds : list descriptor)
    (xs : list stream) : pmt_info :=
  if version info =? v then info else PMT v (pmt_ecm_pids psi pds xs) (stream_pids xs).

(** The twelve bytes before the program descriptors. *)
Definition pmt_head (t : byte) (e v s l pcr : Z) (pds : list descriptor) (body : list byte) :
    list byte :=
  section_header t e v s l body ++
  [byte_of (0xe0 + pcr / 256); byte_of pcr;
   byte_of (16 * 15 + zlen (encode_descs pds) / 256); byte_of (zlen (encode_descs pds))].

Lemma pmt_layout t e v s l pcr pds xs :
  let body := encode_pmt pcr pds xs in
  exists crc, encode_section t e v s l body
              = pmt_head t e v s l pcr pds body ++ encode_descs pds ++ encode_streams xs ++ crc.
Proof.
  intros body. exists (be32_bytes (crc32_calc (section_header t e v s l body ++ body))).
  rewrite encode_section_split. unfold pmt_head. subst body.
  unfold encode_pmt at 2, encode_info. by rewrite <- !app_assoc.
Qed.

Lemma zlen_encode_pmt pcr pds xs :
  zlen (encode_pmt pcr pds xs) = 4 + zlen (encode_descs pds) + zlen (encode_streams xs).
Proof.
  unfold encode_pmt, encode_info. rewrite !zlen_app, !zlen_cons. change (zlen []) with 0. lia.
Qed.

(** Both descriptor levels of a PMT, from the bytes behind [pmt_head]. *)
Lemma pmt_loops psi q head pds xs crc fuel :
  m_caid_filter q = m_caid_filter psi -> Forall desc_wf pds -> Forall stream_wf xs ->
  zlen head = 12 -> (length xs < fuel)%nat ->
  let sec := head ++ encode_descs pds ++ encode_streams xs ++ crc in
  let n := zlen (encode_descs pds) in
  (ecm ← collectCaDescriptors q (ptr_add sec 12) n ∅;
   es_loop fuel q sec (12 + n + zlen (encode_streams xs)) (12 + n) ecm ∅)
  = Some (pmt_ecm_pids psi pds xs, stream_pids xs).
Proof.
  intros Hq Hpds Hxs Hhead Hfuel sec n. subst sec n.
  rewrite ptr_add_app, collect_encode by done. cbn [mbind option_bind].
  rewrite app_assoc, <- Hhead, <- zlen_app, es_loop_encode by done.
  unfold pmt_ecm_pids. rewrite (ca_pids_of_filter q psi) by done.
  assert (stream_ecm_pids q xs = stream_ecm_pids psi xs) as ->.
  { unfold stream_ecm_pids. f_equal. apply list_fmap_ext. intros _ x _.
    by apply ca_pids_of_filter. }
  do 2 f_equal; set_solver.
Qed.

Lemma parsePMT_encode psi pid t e v s l pcr pds xs :
  let body := encode_pmt pcr pds xs in
  section_wf v s body -> pmt_body_wf pcr pds xs ->
  let sec := encode_section t e v s l body in
  let info := default pmt_info_new (m_pmt psi !! pid) in
  let info' := pmt_update psi info v pds xs in
  parsePMT psi pid sec (zlen sec)
  = Some (psi <| m_pmt := <[pid := info']> (m_pmt psi) |>
              <| m_dirty := m_dirty psi || bool_decide (ecm_pids info <> ecm_pids info') |>).
Proof.
  intros body Hwf (Hpcr & Hpds & Hn & Hxs) sec info info'. unfold parsePMT.
  pose proof (zlen_nonneg (encode_descs pds)) as Hn0.
  pose proof (zlen_nonneg (encode_streams xs)) as Hs0.
  pose proof (length_encode_streams xs) as Hxl.
  assert (zlen sec = 12 + zlen body) as Hlen by apply zlen_encode_section.
  unfold body in Hlen. rewrite zlen_encode_pmt in Hlen.
  destruct (pmt_layout t e v s l pcr pds xs) as [crc Hsec]. fold body sec in Hsec.
  destruct (rd_section_header t e v s l body
    (body ++ be32_bytes (crc32_calc (section_header t e v s l body ++ body))) Hwf)
    as (_ & _ & H3 & H4 & H5 & _).
  rewrite <- encode_section_split in H3, H4, H5. fold sec in H3, H4, H5. rewrite H3, H4, H5.
  cbn [mbind option_bind]. rewrite (proj1 (version_encode v (proj1 Hwf))).
  fold info. subst info'. unfold pmt_update. destruct (Z.eqb_spec (version info) v).
  { rewrite bool_decide_eq_false_2 by (by intros []). by rewrite orb_false_r. }
  rewrite (proj2 (Z.ltb_ge _ _)) by lia.
  assert (rd sec 10 = Some (ub (byte_of (16 * 15 + zlen (encode_descs pds) / 256))) /\
          rd sec 11 = Some (ub (byte_of (zlen (encode_descs pds))))) as [-> ->]
    by (rewrite Hsec; done).
  cbn [mbind option_bind]. rewrite len12_encode, (proj2 (Z.ltb_ge _ _)) by lia.
  pose proof (pmt_loops psi (psi <| m_pmt := <[pid := info]> (m_pmt psi) |>)
    (pmt_head t e v s l pcr pds body) pds xs crc (S (Z.to_nat (zlen sec)))
    eq_refl Hpds Hxs eq_refl ltac:(lia)) as Hloops. cbn zeta in Hloops.
  rewrite <- Hsec in Hloops.
  replace (12 + _ + zlen (encode_streams xs)) with (zlen sec - 4) in Hloops by lia.
  apply bind_Some in Hloops as (ecm & Hecm & Hes).
  etrans; [exact (bind_Some_eq _ _ _ Hecm)|]. cbv beta.
  etrans; [exact (bind_Some_eq _ _ _ Hes)|]. cbn [ecm_pids].
  case_bool_decide as Hne; cbn; f_equal; destruct psi; cbn; f_equal;
    rewrite ?insert_insert_eq, ?orb_true_r, ?orb_false_r; try done.
  by rewrite Hne.
Qed.
