(* ===== verification/PsiFeed.v ===== *)
(** Section reassembly. [feed] of psi.cpp collects the header byte by byte and
    copies the rest with memcpy; here it is proved equal to an automaton that
    takes one byte at a time, and from that: however a section is cut into
    packets, its handler runs once, on exactly the bytes of the section. *)

From S2P Require Import Prelude Crc Psi PsiFormat.

#[local] Ltac Zify.zify_post_hook ::= Z.to_euclidean_division_equations.

(** ** The byte automaton *)

Inductive feed_state :=
| Running (sa : section_assembler) (psi : satipPSI)
| Stopped (sa : section_assembler) (psi : satipPSI).

Definition feed_result (st : feed_state) : section_assembler * satipPSI :=
  match st with Running sa psi | Stopped sa psi => (sa, psi) end.

Definition is_idle (sa : section_assembler) : bool := (sa_expected sa =? 0) && (sa_len sa =? 0).

(** The header of a section is complete: learn the length or drop it. *)
Definition header_done (sa : section_assembler) (psi : satipPSI) : option feed_state :=
  d1 ← rd (sa_data sa) 1; d2 ← rd (sa_data sa) 2;
  let n := len12 d1 d2 in
  if (n <? 9) || (PSI_MAX_SECTION_LEN <? n + 3) then Some (Stopped (SA [] 0) psi)
  else Some (Running (SA (sa_data sa) (n + 3)) psi).

Definition push_byte (pid : Z) (allow_start : bool) (st : feed_state) (b : byte) :
    option feed_state :=
  match st with
  | Stopped _ _ => Some st
  | Running sa psi =>
    if is_idle sa && (negb allow_start || (ub b =? 0xff)) then Some (Stopped sa psi) else
    let sa := SA (sa_data sa ++ [b]) (sa_expected sa) in
    if sa_expected sa =? 0 then
      if sa_len sa <? 3 then Some (Running sa psi) else header_done sa psi
    else if sa_len sa =? sa_expected sa then
      psi ← handleSection psi pid (sa_data sa) (sa_len sa);
      Some (Running sa_idle psi)
    else Some (Running sa psi)
  end.

Fixpoint push_bytes (pid : Z) (allow_start : bool) (st : feed_state) (l : list byte) :
    option feed_state :=
  match l with
  | [] => Some st
  | b :: l => st ← push_byte pid allow_start st b; push_bytes pid allow_start st l
  end.

Lemma push_bytes_app pid allow l k st :
  push_bytes pid allow st (l ++ k)
  = (st ← push_bytes pid allow st l; push_bytes pid allow st k).
Proof.
  revert st. induction l as [|b l IH]; intros st; [done|]. cbn.
  destruct (push_byte _ _ st b); cbn; [apply IH|done].
Qed.

Lemma push_bytes_stopped pid allow l sa psi :
  push_bytes pid allow (Stopped sa psi) l = Some (Stopped sa psi).
Proof. induction l; done. Qed.

(** A chunk of the body: it either completes the section or is appended. *)
Lemma push_bytes_body pid allow l : forall sa psi,
  sa_expected sa <> 0 -> sa_len sa + zlen l <= sa_expected sa -> l <> [] ->
  push_bytes pid allow (Running sa psi) l =
  let sa' := SA (sa_data sa ++ l) (sa_expected sa) in
  if sa_len sa + zlen l =? sa_expected sa then
    psi ← handleSection psi pid (sa_data sa') (sa_len sa'); Some (Running sa_idle psi)
  else Some (Running sa' psi).
Proof.
  induction l as [|b l IH]; intros sa psi Hexp Hlen Hne; [done|]. clear Hne.
  rewrite zlen_cons in *. pose proof (zlen_nonneg l). cbn [push_bytes push_byte].
  unfold is_idle. rewrite (proj2 (Z.eqb_neq _ 0) Hexp). cbn [andb sa_expected].
  rewrite (proj2 (Z.eqb_neq _ 0) Hexp).
  assert (sa_len (SA (sa_data sa ++ [b]) (sa_expected sa)) = sa_len sa + 1) as Hl
    by (unfold sa_len; cbn; by rewrite zlen_app).
  rewrite Hl. destruct l as [|c l].
  { cbn [push_bytes]. change (zlen (@nil byte)) with 0. rewrite Z.add_0_r.
    destruct (Z.eqb_spec (sa_len sa + 1) (sa_expected sa)); cbn; rewrite ?Hl; [|done].
    by destruct (handleSection psi pid (sa_data sa ++ [b]) (sa_len sa + 1)). }
  pose proof (zlen_nonneg l). pose proof (zlen_cons c l).
  rewrite (proj2 (Z.eqb_neq (sa_len sa + 1) _)) by lia. cbn [mbind option_bind].
  rewrite IH; [|done|rewrite Hl; cbn [sa_expected]; lia|done].
  rewrite Hl. cbn [sa_data sa_expected]. rewrite <- app_assoc. cbn [app].
  by replace (sa_len sa + 1 + zlen (c :: l)) with (sa_len sa + (1 + zlen (c :: l))) by lia.
Qed.

(** ** The loop is the automaton *)

(** The bytes of [buf[pos..len)]. *)
Definition pending (buf : list byte) (len pos : Z) : list byte :=
  ptr_add (take (Z.to_nat len) buf) pos.

Lemma pending_split buf len pos n :
  0 <= pos -> 0 <= n -> pos + n <= len -> len <= zlen buf ->
  exists l, rd_range buf pos n = Some l /\ pending buf len pos = l ++ pending buf len (pos + n).
Proof.
  intros Hp Hn Hl Hb. pose proof (zlen_take len buf ltac:(lia)) as Ht.
  unfold pending. rewrite (ptr_add_take _ pos n) by lia.
  eexists. split; [|reflexivity]. unfold rd_range.
  rewrite (proj2 (Z.leb_le 0 pos)), (proj2 (Z.leb_le 0 n)), (proj2 (Z.leb_le _ _)) by lia.
  cbn [andb]. f_equal. unfold ptr_add. rewrite skipn_firstn_comm, take_take. f_equal. lia.
Qed.

Lemma pending_end buf len pos : len <= pos -> pending buf len pos = [].
Proof.
  intros H. unfold pending, ptr_add. apply drop_ge. rewrite length_take. lia.
Qed.

Lemma pending_cons buf len pos :
  0 <= pos < len -> len <= zlen buf ->
  exists b, rdb buf pos = Some b /\ pending buf len pos = b :: pending buf len (pos + 1).
Proof.
  intros Hp Hb. destruct (pending_split buf len pos 1) as (l & Hl & Hpend); [lia..|].
  destruct (rdb_ok buf pos ltac:(lia)) as [b Hrd]. exists b. split; [done|].
  rewrite Hpend. f_equal. unfold rd_range in Hl.
  destruct (_ && _) in Hl; [|done]. injection Hl as <-.
  unfold rdb in Hrd. destruct (Z.ltb_spec pos 0); [lia|].
  rewrite (drop_S buf b (Z.to_nat pos)) by done. done.
Qed.

Lemma sa_append_eq sa bytes :
  sa_len sa + zlen bytes <= PSI_MAX_SECTION_LEN ->
  sa_append sa bytes = Some (SA (sa_data sa ++ bytes) (sa_expected sa)).
Proof. intros H. unfold sa_append. by rewrite (proj2 (Z.leb_le _ _) H). Qed.

Lemma sa_len_snoc d e l : sa_len (SA (d ++ l) e) = zlen d + zlen l.
Proof. unfold sa_len. cbn. by rewrite zlen_app. Qed.

(** One header byte, as the loop and as the automaton take it. *)
Lemma feed_loop_header pid buf len allow fuel pos sa psi b :
  sa_expected sa = 0 -> sa_len sa < 3 -> 0 <= pos < len -> rdb buf pos = Some b ->
  feed_loop (S fuel) pid buf len pos allow sa psi =
  (st ← push_byte pid allow (Running sa psi) b;
   match st with
   | Running sa psi => feed_loop fuel pid buf len (pos + 1) allow sa psi
   | Stopped sa psi => Some (sa, psi)
   end).
Proof.
  intros He Hs Hpos Hb. pose proof (zlen_nonneg (sa_data sa)).
  cbn [feed_loop push_byte]. rewrite (proj2 (Z.ltb_lt _ _)) by lia. cbn [negb].
  unfold is_idle. rewrite He. cbn [Z.eqb andb]. rewrite Hb. cbn [mbind option_bind].
  destruct (sa_len sa =? 0) eqn:E0; cbn [andb]; destruct allow; cbn [negb orb andb]; try done.
  all: try (destruct (ub b =? 255); [done|]).
  all: rewrite sa_append_eq by (change (zlen [b]) with 1; unfold PSI_MAX_SECTION_LEN; lia).
  all: rewrite He; cbn [mbind option_bind sa_expected Z.eqb].
  all: destruct (sa_len (SA (sa_data sa ++ [b]) 0) <? 3); [done|].
  all: unfold header_done; cbn [sa_data].
  all: destruct (rd (sa_data sa ++ [b]) 1) as [d1|]; [|done]; cbn [mbind option_bind].
  all: destruct (rd (sa_data sa ++ [b]) 2) as [d2|]; [|done]; cbn [mbind option_bind].
  all: by destruct ((len12 d1 d2 <? 9) || (PSI_MAX_SECTION_LEN <? len12 d1 d2 + 3)).
Qed.

(** The automaton keeps the assembler well formed. *)
Lemma push_byte_wf pid allow sa psi b st :
  sa_wf sa -> push_byte pid allow (Running sa psi) b = Some st -> sa_wf (feed_result st).1.
Proof.
  intros Hsa. cbn [push_byte].
  destruct (is_idle sa && (negb allow || (ub b =? 255))); [by intros [= <-]|].
  pose proof (sa_len_snoc (sa_data sa) (sa_expected sa) [b]) as Hl.
  change (zlen [b]) with 1 in Hl. fold (sa_len sa) in Hl. cbn [sa_expected].
  destruct Hsa as [[He Hs]|[He Hs]].
  - rewrite He in *. cbn [Z.eqb]. destruct (Z.ltb_spec (sa_len (SA (sa_data sa ++ [b]) 0)) 3).
    { intros [= <-]. left. by split. }
    intros Hh. unfold header_done in Hh. cbn [sa_data] in Hh.
    apply bind_Some in Hh as (d1 & Hd1 & Hh). apply bind_Some in Hh as (d2 & Hd2 & Hh).
    apply rd_bounds in Hd2 as [_ Hd2]. pose proof (len12_bounds d1 d2 Hd2).
    destruct ((len12 d1 d2 <? 9) || (PSI_MAX_SECTION_LEN <? len12 d1 d2 + 3)) eqn:E;
      injection Hh as <-; [left; by split|right]. bool_cases. unfold sa_len in *. cbn in *. lia.
  - rewrite (proj2 (Z.eqb_neq _ 0)) by lia.
    destruct (Z.eqb_spec (sa_len (SA (sa_data sa ++ [b]) (sa_expected sa))) (sa_expected sa)).
    + intros Hh. apply bind_Some in Hh as (q & _ & [= <-]). apply sa_idle_wf.
    + intros [= <-]. right. cbn [feed_result fst sa_expected]. lia.
Qed.

Lemma feed_loop_automaton pid buf len allow fuel : forall pos sa psi,
  len <= zlen buf -> 0 <= pos -> Z.max 0 (len - pos) < Z.of_nat fuel -> sa_wf sa ->
  feed_loop fuel pid buf len pos allow sa psi
  = feed_result <$> push_bytes pid allow (Running sa psi) (pending buf len pos).
Proof.
  induction fuel as [|fuel IH]; intros pos sa psi Hlen Hpos Hfuel Hsa; [lia|].
  destruct (Z.ltb_spec pos len) as [Hlt|Hge].
  2: { rewrite pending_end by lia. cbn [feed_loop]. by rewrite (proj2 (Z.ltb_ge _ _)) by lia. }
  destruct (decide (sa_expected sa = 0)) as [He|He].
  - destruct Hsa as [[_ Hs]|[? _]]; [|lia].
    destruct (pending_cons buf len pos ltac:(lia) Hlen) as (b & Hb & ->).
    erewrite feed_loop_header by (done || lia). cbn [push_bytes].
    destruct (push_byte pid allow (Running sa psi) b) as [st|] eqn:Hst; [|done].
    apply push_byte_wf in Hst; [|by left]. cbn [mbind option_bind].
    destruct st as [sa' psi'|sa' psi']; cbn in Hst.
    + apply IH; lia || done.
    + by rewrite push_bytes_stopped.
  - destruct Hsa as [[? _]|[Hexp Hs]]; [done|]. cbn [feed_loop].
    rewrite (proj2 (Z.ltb_lt _ _)) by lia. cbn [negb].
    rewrite (proj2 (Z.eqb_neq _ 0)) by done.
    set (need := sa_expected sa - sa_len sa).
    set (take := if len - pos <? need then len - pos else need).
    assert (0 < take <= need /\ take <= len - pos) as Htake.
    { subst take need. destruct (Z.ltb_spec (len - pos) (sa_expected sa - sa_len sa)); lia. }
    destruct (pending_split buf len pos take ltac:(lia) ltac:(lia) ltac:(lia) Hlen)
      as (l & Hl & ->).
    rewrite Hl. cbn [mbind option_bind].
    assert (zlen l = take) as Hll.
    { destruct (rd_range_ok buf pos take ltac:(lia) ltac:(lia) ltac:(lia)) as (l' & Hl' & ?).
      congruence. }
    rewrite sa_append_eq by lia. cbn [mbind option_bind sa_expected].
    rewrite push_bytes_app, push_bytes_body;
      [|done|lia|intros ->; change (zlen (@nil byte)) with 0 in Hll; lia].
    cbn zeta. rewrite !sa_len_snoc, Hll. fold (sa_len sa).
    destruct (Z.eqb_spec (sa_len sa + take) (sa_expected sa)); cbn [sa_data].
    + destruct (handleSection psi pid (sa_data sa ++ l) _) as [q|]; [|done].
      cbn [mbind option_bind]. apply IH; lia || apply sa_idle_wf.
    + cbn [mbind option_bind]. apply IH; try lia.
      right. rewrite sa_len_snoc. fold (sa_len sa). cbn [sa_expected]. lia.
Qed.

(** ** Sections in pieces *)

(** A section as a server may send it: it does not look like stuffing, and its
    length field says how long it is. *)
Definition good_section (sec : list byte) : Prop :=
  exists b0 b1 b2 rest, sec = b0 :: b1 :: b2 :: rest /\ ub b0 <> 0xff /\
    len12 (ub b1) (ub b2) = zlen rest /\ 9 <= zlen rest /\ zlen sec <= PSI_MAX_SECTION_LEN.

(** The assembler holding the first bytes [c] of [sec]. *)
Definition partial (sec c : list byte) : section_assembler :=
  SA c (if zlen c <? 3 then 0 else zlen sec).

Lemma partial_nil sec : partial sec [] = sa_idle.
Proof. done. Qed.

Lemma partial_wf sec c k : good_section sec -> sec = c ++ k -> k <> [] -> sa_wf (partial sec c).
Proof.
  intros (b0 & b1 & b2 & rest & Hsec & _ & _ & H9 & Hmax) Hc Hk.
  assert (zlen c < zlen sec) as Hlt.
  { rewrite Hc, zlen_app. destruct k; [done|]. rewrite zlen_cons. pose proof (zlen_nonneg k). lia. }
  pose proof (f_equal zlen Hsec) as Hl. rewrite !zlen_cons in Hl.
  unfold partial, sa_wf, sa_len. cbn. destruct (Z.ltb_spec (zlen c) 3); [left|right]; lia.
Qed.

Definition finish (pid : Z) (sec : list byte) (psi : satipPSI) : option feed_state :=
  psi ← handleSection psi pid sec (zlen sec); Some (Running sa_idle psi).

(** The next byte of the section. *)
Lemma push_next pid allow sec c b k psi :
  good_section sec -> sec = c ++ b :: k -> (c = [] -> allow = true) ->
  push_byte pid allow (Running (partial sec c) psi) b =
  match k with [] => finish pid sec psi | _ => Some (Running (partial sec (c ++ [b])) psi) end.
Proof.
  intros (b0 & b1 & b2 & rest & Hsec & Hff & Hlen & H9 & Hmax) Hc Hallow.
  pose proof (f_equal zlen Hsec) as Hl. rewrite !zlen_cons in Hl.
  pose proof (f_equal zlen Hc) as Hlc. rewrite zlen_app, zlen_cons in Hlc.
  pose proof (zlen_nonneg k). pose proof (zlen_nonneg c).
  assert (is_idle (partial sec c) && (negb allow || (ub b =? 0xff)) = false) as Hgo.
  { unfold is_idle, partial, sa_len. cbn. destruct c as [|x c].
    - rewrite Hallow by done. cbn. rewrite Hsec in Hc. injection Hc as -> _. by apply Z.eqb_neq.
    - rewrite zlen_cons in *. pose proof (zlen_nonneg c).
      rewrite (proj2 (Z.eqb_neq (1 + zlen c) 0)) by lia. by rewrite andb_false_r. }
  cbn [push_byte]. rewrite Hgo. cbn [partial sa_data sa_expected].
  unfold sa_len. cbn [sa_data]. rewrite zlen_app. change (zlen [b]) with 1.
  destruct (Z.ltb_spec (zlen c) 3) as [H3|H3].
  - cbn [Z.eqb]. destruct k as [|x k]; [change (zlen (@nil byte)) with 0 in *; lia|].
    unfold partial. rewrite zlen_app. change (zlen [b]) with 1.
    destruct (Z.ltb_spec (zlen c + 1) 3) as [|l]; [done|].
    destruct c as [|c0 [|c1 [|c2 c]]]; 
      try (exfalso; clear -H3 l; unfold zlen in *; cbn [length] in *; lia).
    rewrite Hsec in Hc. injection Hc as <- <- <- Hrest.
    unfold header_done. cbn [sa_data app].
    change (rd [b0; b1; b2] 1) with (Some (ub b1)). change (rd [b0; b1; b2] 2) with (Some (ub b2)).
    cbn [mbind option_bind]. rewrite Hlen, (proj2 (Z.ltb_ge _ _)), (proj2 (Z.ltb_ge _ _)) by lia.
    cbn [orb]. do 3 f_equal. lia.
  - rewrite (proj2 (Z.eqb_neq (zlen sec) 0)) by lia.
    destruct k as [|x k].
    + change (zlen (@nil byte)) with 0 in *. rewrite (proj2 (Z.eqb_eq (zlen c + 1) _)) by lia.
      unfold finish. rewrite <- Hc. by replace (zlen c + 1) with (zlen sec) by lia.
    + rewrite zlen_cons in *. pose proof (zlen_nonneg k).
      rewrite (proj2 (Z.eqb_neq (zlen c + 1) _)) by lia. unfold partial.
      rewrite zlen_app. change (zlen [b]) with 1. by rewrite (proj2 (Z.ltb_ge _ _)) by lia.
Qed.

Lemma push_chunk pid allow sec psi d : forall c k,
  good_section sec -> sec = c ++ d ++ k -> (c = [] -> allow = true) -> d <> [] ->
  push_bytes pid allow (Running (partial sec c) psi) d =
  match k with [] => finish pid sec psi | _ => Some (Running (partial sec (c ++ d)) psi) end.
Proof.
  induction d as [|b d IH]; intros c k Hg Hc Hallow Hd; [done|]. clear Hd. cbn [push_bytes].
  rewrite (push_next pid allow sec c b (d ++ k)) by done.
  destruct d as [|b' d]; cbn [app].
  - destruct k as [|x k]; [|done]. by destruct (finish pid sec psi).
  - cbn [mbind option_bind]. rewrite (IH (c ++ [b]) k); [by rewrite <- app_assoc|done| |by destruct c|done].
    by rewrite <- app_assoc.
Qed.

(** ** Handlers do not look at the assemblers *)

Definition with_asm (a : gmap Z section_assembler) (p : satipPSI) : satipPSI :=
  p <| m_assembler := a |>.

Lemma collect_loop_with_asm a fuel p l len : forall pos out,
  collect_loop fuel (with_asm a p) l len pos out = collect_loop fuel p l len pos out.
Proof.
  induction fuel as [|fuel IH]; intros pos out; [done|]. cbn [collect_loop].
  destruct (pos + 2 <=? len); [|done].
  destruct (rd l pos) as [tag|]; [|done]. destruct (rd l (pos + 1)) as [dlen|]; [|done].
  cbn [mbind option_bind]. destruct (len <? pos + 2 + dlen); [done|].
  match goal with |- context [option_bind _ _ _ ?o] => destruct o; [apply IH|done] end
  || (change (caidAllowed (with_asm a p)) with (caidAllowed p);
      destruct (if _ : bool then _ else _); cbn [mbind option_bind]; [apply IH|done]).
Qed.

Lemma es_loop_with_asm a fuel p sec end_ : forall pos ecm es,
  es_loop fuel (with_asm a p) sec end_ pos ecm es = es_loop fuel p sec end_ pos ecm es.
Proof.
  induction fuel as [|fuel IH]; intros pos ecm es; [done|]. cbn [es_loop].
  destruct (pos + 5 <=? end_); [|done].
  destruct (rd sec (pos + 1)) as [b1|]; [|done]. destruct (rd sec (pos + 2)) as [b2|]; [|done].
  destruct (rd sec (pos + 3)) as [b3|]; [|done]. destruct (rd sec (pos + 4)) as [b4|]; [|done].
  cbn [mbind option_bind]. destruct (end_ <? pos + 5 + len12 b3 b4); [done|].
  unfold collectCaDescriptors. rewrite collect_loop_with_asm.
  destruct (collect_loop _ p _ _ _ _); [apply IH|done].
Qed.

Lemma parsePAT_with_asm a p sec len :
  parsePAT (with_asm a p) sec len = with_asm a <$> parsePAT p sec len.
Proof.
  unfold parsePAT. destruct (rd sec 5) as [b5|]; [|done]. destruct (rd sec 6) as [b6|]; [|done].
  cbn [mbind option_bind]. destruct (pat_loop _ sec len 8 ∅) as [s|];
    change (m_pat_version (with_asm a p)) with (m_pat_version p);
    destruct (negb _); cbn; try done; by case_bool_decide.
Qed.

Lemma parseCAT_with_asm a p sec len :
  parseCAT (with_asm a p) sec len = with_asm a <$> parseCAT p sec len.
Proof.
  unfold parseCAT. destruct (rd sec 5) as [b5|]; [|done]. destruct (rd sec 6) as [b6|]; [|done].
  cbn [mbind option_bind]. change (m_cat_version (with_asm a p)) with (m_cat_version p).
  set (v := Z.land _ _).
  assert (forall q out, collectCaDescriptors (if negb (v =? m_cat_version p)
            then (with_asm a p) <| m_cat_sections := ∅ |> <| m_cat_version := v |>
            else with_asm a p) q (len - 4 - 8) out
          = collectCaDescriptors (if negb (v =? m_cat_version p)
            then p <| m_cat_sections := ∅ |> <| m_cat_version := v |> else p)
              q (len - 4 - 8) out) as ->.
  { intros q out. destruct (negb _); unfold collectCaDescriptors; [|apply collect_loop_with_asm].
    exact (collect_loop_with_asm a _ (p <| m_cat_sections := ∅ |> <| m_cat_version := v |>) _ _ _ _). }
  destruct (collectCaDescriptors _ _ _ _) as [s|]; [|done]. cbn [mbind option_bind].
  destruct (negb _); cbn; by case_bool_decide.
Qed.

Lemma parsePMT_with_asm a p pid sec len :
  parsePMT (with_asm a p) pid sec len = with_asm a <$> parsePMT p pid sec len.
Proof.
  unfold parsePMT. destruct (rd sec 3) as [b3|]; [|done]. destruct (rd sec 4) as [b4|]; [|done].
  destruct (rd sec 5) as [b5|]; [|done]. cbn [mbind option_bind].
  change (m_pmt (with_asm a p)) with (m_pmt p). set (info := default _ _).
  set (p1 := p <| m_pmt := <[pid := info]> (m_pmt p) |>).
  change ((with_asm a p) <| m_pmt := <[pid := info]> (m_pmt p) |>) with (with_asm a p1).
  destruct (version info =? _); [done|]. destruct (len - 4 <? 12); [done|].
  destruct (rd sec 10) as [b10|]; [|done]. destruct (rd sec 11) as [b11|]; [|done].
  cbn [mbind option_bind]. destruct (len - 4 <? 12 + len12 b10 b11); [done|].
  unfold collectCaDescriptors. rewrite collect_loop_with_asm.
  destruct (collect_loop _ p1 _ _ _ _) as [ecm|]; [|done]. cbn [mbind option_bind].
  rewrite es_loop_with_asm. destruct (es_loop _ p1 _ _ _ _ _) as [[ecm' es']|]; [|done].
  cbn [mbind option_bind]. by case_bool_decide.
Qed.

Lemma handleSection_with_asm a p pid sec len :
  handleSection (with_asm a p) pid sec len = with_asm a <$> handleSection p pid sec len.
Proof.
  unfold handleSection. destruct (rd sec 1) as [b1|]; [|done]. cbn [mbind option_bind].
  destruct (Z.land b1 128 =? 0); [done|].
  destruct (rd_range sec 0 len) as [data|]; [|done]. cbn [mbind option_bind].
  destruct (negb (crc32_calc data =? 0)); [done|].
  destruct (rd sec 5) as [b5|]; [|done]. cbn [mbind option_bind].
  destruct (Z.land b5 1 =? 0); [done|].
  destruct (rd sec 0) as [b0|]; [|done]. cbn [mbind option_bind].
  change (m_sections (with_asm a p)) with (m_sections p).
  set (p1 := p <| m_sections := _ |>).
  change ((with_asm a p) <| m_sections := _ |>) with (with_asm a p1).
  destruct (pid =? PSI_PID_PAT); [destruct (b0 =? 0); [apply parsePAT_with_asm|done]|].
  destruct (pid =? PSI_PID_CAT); [destruct (b0 =? 1); [apply parseCAT_with_asm|done]|].
  destruct (b0 =? 2); [apply parsePMT_with_asm|done].
Qed.

Lemma with_asm_self p : with_asm (m_assembler p) p = p.
Proof. by destruct p. Qed.

Lemma handleSection_asm p pid sec len q :
  handleSection p pid sec len = Some q -> m_assembler q = m_assembler p.
Proof.
  intros Hq. pose proof (handleSection_with_asm (m_assembler p) p pid sec len) as H.
  rewrite with_asm_self, Hq in H. cbn in H. injection H as H. by rewrite H.
Qed.

(** ** feed on whole buffers *)

Definition assembler_of (psi : satipPSI) (pid : Z) : section_assembler :=
  default sa_idle (m_assembler psi !! pid).

Lemma feed_automaton psi pid buf allow :
  sa_wf (assembler_of psi pid) ->
  feed psi pid buf (zlen buf) allow =
  (st ← push_bytes pid allow (Running (assembler_of psi pid) psi) buf;
   let '(sa, q) := feed_result st in
   Some (with_asm (<[pid := sa]> (m_assembler q)) q)).
Proof.
  intros Hsa. unfold feed. rewrite feed_loop_automaton; [|lia..|done].
  assert (pending buf (zlen buf) 0 = buf) as ->.
  { unfold pending, ptr_add, zlen. rewrite Nat2Z.id. cbn. by rewrite take_ge. }
  destruct (push_bytes _ _ _ _) as [st|]; [|done]. cbn. by destruct (feed_result st).
Qed.

(** [feed] on a section's packets: the first one with a unit start. *)
Fixpoint feed_chunks (psi : satipPSI) (pid : Z) (chunks : list (list byte)) (first : bool) :
    option satipPSI :=
  match chunks with
  | [] => Some psi
  | c :: cs => psi ← feed psi pid c (zlen c) first; feed_chunks psi pid cs false
  end.

Lemma feed_chunks_section pid sec chunks : forall c psi first,
  good_section sec -> sec = c ++ concat chunks -> Forall (fun d => d <> []) chunks ->
  chunks <> [] -> (c = [] -> first = true) -> assembler_of psi pid = partial sec c ->
  feed_chunks psi pid chunks first
  = with_asm (<[pid := sa_idle]> (m_assembler psi)) <$> handleSection psi pid sec (zlen sec).
Proof.
  induction chunks as [|d ds IH]; intros c psi first Hg Hc Hne Hnil Hfirst Hasm; [done|].
  clear Hnil. apply Forall_cons in Hne as [Hd Hne]. cbn [concat] in Hc.
  assert (d ++ concat ds <> []) as Hrest by (by destruct d).
  cbn [feed_chunks]. rewrite feed_automaton, Hasm.
  2: { rewrite Hasm. by apply partial_wf with (k := d ++ concat ds). }
  rewrite (push_chunk pid first sec psi d c (concat ds)) by done.
  destruct ds as [|e ds].
  - cbn [concat]. unfold finish.
    destruct (handleSection psi pid sec (zlen sec)) as [q|] eqn:Hq; [|done].
    apply handleSection_asm in Hq. cbn. by rewrite Hq.
  - destruct (concat (e :: ds)) as [|x k] eqn:Hk.
    { apply Forall_cons in Hne as [He _]. by destruct e. }
    rewrite <- Hk in *. cbn [mbind option_bind feed_result].
    set (psi1 := with_asm _ psi).
    rewrite (IH (c ++ d) psi1); [| |by rewrite <- app_assoc|done..| |].
    + unfold psi1. rewrite handleSection_with_asm.
      destruct (handleSection psi pid sec (zlen sec)) as [q|]; [|done].
      cbn. by rewrite insert_insert_eq.
    + done.
    + by destruct c, d.
    + unfold assembler_of, psi1. cbn. by rewrite lookup_insert_eq.
Qed.

(** Stuffing behind a section is skipped. *)
Lemma push_stuffing pid n sa psi :
  is_idle sa = true ->
  exists st, push_bytes pid true (Running sa psi) (replicate n xff) = Some st /\
             feed_result st = (sa, psi).
Proof.
  intros Hsa. destruct n as [|n]; [by exists (Running sa psi)|].
  exists (Stopped sa psi). split; [|done]. cbn [replicate push_bytes push_byte].
  rewrite Hsa. cbn. apply push_bytes_stopped.
Qed.

Lemma feed_section_stuffed psi pid sec n :
  good_section sec -> assembler_of psi pid = sa_idle ->
  feed psi pid (sec ++ replicate n xff) (zlen (sec ++ replicate n xff)) true
  = with_asm (<[pid := sa_idle]> (m_assembler psi)) <$> handleSection psi pid sec (zlen sec).
Proof.
  intros Hg Hasm. rewrite feed_automaton; [|rewrite Hasm; apply sa_idle_wf].
  rewrite Hasm, <- (partial_nil sec), push_bytes_app.
  rewrite (push_chunk pid true sec psi sec [] []) by (done || by rewrite app_nil_r || by
    destruct Hg as (? & ? & ? & ? & -> & _)).
  unfold finish. destruct (handleSection psi pid sec (zlen sec)) as [q|] eqn:Hq; [|done].
  cbn [mbind option_bind]. destruct (push_stuffing pid n sa_idle q) as (st & -> & Hst); [done|].
  cbn [mbind option_bind]. rewrite Hst. apply handleSection_asm in Hq. cbn. by rewrite Hq.
Qed.

(** ** One packet with one section *)

Definition section_packet (pid cc : Z) (sec : list byte) : list byte :=
  [x47; byte_of (0x40 + pid / 256); byte_of pid; byte_of (0x10 + cc); x00] ++ sec
  ++ replicate (Z.to_nat (183 - zlen sec)) xff.

Lemma zlen_replicate {A} n (x : A) : 0 <= n -> zlen (replicate (Z.to_nat n) x) = n.
Proof. intros Hn. unfold zlen. rewrite length_replicate. lia. Qed.

Lemma zlen_section_packet pid cc sec : zlen sec <= 183 -> zlen (section_packet pid cc sec) = 188.
Proof.
  intros Hs. unfold section_packet. rewrite !zlen_app, zlen_replicate by lia.
  change (zlen [x47; _; _; _; x00]) with 5. lia.
Qed.

Lemma unit_start_bit h : 0 <= h < 32 -> (Z.land (0x40 + h) 0x40 =? 0) = false.
Proof.
  intros Hh. rewrite <- (Z2Nat.id h) by lia. assert (Z.to_nat h < 32)%nat as H by lia.
  revert H. generalize (Z.to_nat h). clear. intros n Hn.
  do 32 (destruct n as [|n]; [reflexivity|]). lia.
Qed.

Lemma payload_bits cc : 0 <= cc < 16 ->
  Z.land (0x10 + cc) 0xc0 = 0 /\ Z.land (Z.shiftr (0x10 + cc) 4) 0x03 = 1.
Proof.
  intros Hh. rewrite <- (Z2Nat.id cc) by lia. assert (Z.to_nat cc < 16)%nat as H by lia.
  revert H. generalize (Z.to_nat cc). clear. intros n Hn.
  do 16 (destruct n as [|n]; [by split|]). lia.
Qed.

Lemma pid13_unit_start p : 0 <= p < 0x2000 ->
  pid13 (ub (byte_of (0x40 + p / 256))) (ub (byte_of p)) = p.
Proof.
  intros Hp. assert (0 <= p / 256 < 32) by (split; [|apply Z.div_lt_upper_bound]; lia).
  unfold pid13. rewrite be16_eq by apply ub_bounds.
  rewrite ub_byte_of, ub_byte_of_mod by lia. change 0x1f with (Z.ones 5).
  rewrite Z.land_ones by lia. change (2 ^ 5) with 32. change 0x40 with (2 * 32).
  lia.
Qed.

Lemma ts_packet_section psi pid cc sec :
  0 <= pid < 0x2000 -> 0 <= cc < 16 -> good_section sec -> zlen sec <= 183 ->
  pid ∈ m_watched_pids psi -> assembler_of psi pid = sa_idle ->
  let psi1 := psi <| m_ts_packets := u64 (m_ts_packets psi + 1) |> in
  ts_packet psi (section_packet pid cc sec)
  = (fun q => (with_asm (<[pid := sa_idle]> (m_assembler psi)) q, true))
      <$> handleSection psi1 pid sec (zlen sec).
Proof.
  intros Hpid Hcc Hg Hs Hw Hasm psi1. unfold ts_packet. fold psi1.
  assert (0 <= pid / 256 < 32) as Hdiv by (split; [|apply Z.div_lt_upper_bound]; lia).
  set (pkt := section_packet pid cc sec).
  assert (rd pkt 1 = Some (ub (byte_of (0x40 + pid / 256))) /\ rd pkt 2 = Some (ub (byte_of pid))
          /\ rd pkt 3 = Some (ub (byte_of (0x10 + cc))) /\ rd pkt 4 = Some 0)
    as (-> & -> & -> & H4) by (by split_and!).
  cbn [mbind option_bind]. rewrite pid13_unit_start by done.
  rewrite bool_decide_eq_false_2 by (by intros []).
  rewrite !(ub_byte_of) by lia. destruct (payload_bits cc Hcc) as [-> ->].
  cbn [Z.eqb negb andb orb mbind option_bind Pos.eqb]. rewrite unit_start_bit by done.
  rewrite H4. cbn [negb mbind option_bind Z.add Z.ltb Z.compare].
  change (4 + 1) with 5. change (5 + 0) with 5. change (TS_PACKET_SIZE <? 5) with false. cbv iota.
  assert (ptr_add pkt 5 = sec ++ replicate (Z.to_nat (183 - zlen sec)) xff) as -> by done.
  replace (TS_PACKET_SIZE - 5) with (zlen (sec ++ replicate (Z.to_nat (183 - zlen sec)) xff))
    by (rewrite zlen_app, zlen_replicate by lia; unfold TS_PACKET_SIZE; lia).
  rewrite feed_section_stuffed by done.
  by destruct (handleSection psi1 pid sec (zlen sec)).
Qed.

(** An encoded section is a good one. *)
Lemma encode_section_good t e v s l body :
  section_wf v s body -> ub t <> 0xff -> good_section (encode_section t e v s l body).
Proof.
  intros (Hv & Hs & Hb) Ht. pose proof (zlen_nonneg body).
  pose proof (zlen_encode_section t e v s l body) as Hl.
  assert (exists rest, encode_section t e v s l body
    = t :: byte_of (0xb0 + (9 + zlen body) / 256) :: byte_of (9 + zlen body) :: rest)
    as [rest Hrest] by (unfold encode_section, section_header; cbn [app]; eauto).
  rewrite Hrest in Hl. rewrite !zlen_cons in Hl.
  exists t, (byte_of (0xb0 + (9 + zlen body) / 256)), (byte_of (9 + zlen body)), rest.
  split; [done|]. split; [done|]. split; [|split].
  - change 0xb0 with (16 * 11). rewrite len12_encode by lia. lia.
  - lia.
  - rewrite Hrest, !zlen_cons. unfold PSI_MAX_SECTION_LEN. lia.
Qed.
