(* ===== verification/OptParser.v ===== *)
(** The configuration file of option.h and option.cpp: the class [vtunerOpt]
    and [optParser::load], which reads lines [<index>=<key>:<value>,...]. *)

From S2P Require Import Prelude CText.

Record vtunerOpt := mkOpt {
  m_vtuner_type : text;
  m_ipaddr : text;
  m_tcpdata : bool;
  m_fe_type : Z;
  m_fe_number : Z;
  m_force_plts : bool;
  m_port : text;
  m_ca_pids : bool;
  m_ca_emm : bool;
  m_ca_caids : gset Z
}.

#[export] Instance vtunerOpt_settable : Settable vtunerOpt := fun o => mkOpt
  (m_vtuner_type o) (m_ipaddr o) (m_tcpdata o) (m_fe_type o) (m_fe_number o)
  (m_force_plts o) (m_port o) (m_ca_pids o) (m_ca_emm o) (m_ca_caids o).

Definition vtunerOpt_new : vtunerOpt := mkOpt [] [] false (-1) 0 false [] false true ∅.

Definition isAvailable (o : vtunerOpt) : bool :=
  if bool_decide (m_vtuner_type o <> str "satip_client") || (m_fe_type o =? -1)
     || bool_decide (m_ipaddr o = [])
  then false else true.

(** [split]: the pieces getline finds in the line. *)
Definition split (line : text) (delim : Z) : list text := getline_split delim [] line.

(** [tuner_type_table[key]]: the index operator of a map adds a missing key
    with the value 0. *)
Definition tuner_type_table (key : text) : Z :=
  if bool_decide (key = str "DVB-S") then 0
  else if bool_decide (key = str "DVB-C") then 1
  else if bool_decide (key = str "DVB-T") then 2
  else 0.

Section WithLong.
Context `{LongWidth}.

Definition add_caid (set : gset Z) (caid : text) : gset Z :=
  if bool_decide (caid = []) then set
  else
    let v := strtol 16 caid in
    if (0 <? v) && (v <=? 0xffff) then {[v]} ∪ set else set.

(** One attribute [key:value] of a line, already split at [:]. *)
Definition load_attr (o : vtunerOpt) (attr : list text) : vtunerOpt :=
  match attr with
  | key :: value :: _ =>
    let key_is k := bool_decide (key = str k) in
    let one := bool_decide (value = str "1") in
    if key_is "vtuner_type" then o <| m_vtuner_type := value |>
    else if key_is "ipaddr" then o <| m_ipaddr := value |>
    else if key_is "tcpdata" && one then o <| m_tcpdata := true |>
    else if key_is "tuner_type" then o <| m_fe_type := tuner_type_table value |>
    else if key_is "force_plts" && one then o <| m_force_plts := true |>
    else if key_is "fe" then o <| m_fe_number := atoi value |>
    else if key_is "port" then o <| m_port := value |>
    else if key_is "ca_pids" then o <| m_ca_pids := one |>
    else if key_is "ca_emm" then o <| m_ca_emm := one |>
    else if key_is "ca_caids" then
      o <| m_ca_caids := foldl add_caid (m_ca_caids o) (split value 59) |>
    else o
  | _ => o
  end.

(** One line of the file. *)
Definition load_line (m : gmap Z vtunerOpt) (line : text) : gmap Z vtunerOpt :=
  match split line 61 with
  | [index; attrs] =>
    let index := atoi index in
    let o := default vtunerOpt_new (m !! index) in
    <[index := foldl (fun o a => load_attr o (split a 58)) o (split attrs 44)]> m
  | _ => m
  end.

(** [file] is [None] when the file cannot be opened. *)
Definition load (file : option text) : gmap Z vtunerOpt :=
  match file with
  | None => ∅
  | Some content => foldl load_line ∅ (getline_split 10 [] content)
  end.
End WithLong.

Definition isEmpty (m : gmap Z vtunerOpt) : bool := bool_decide (size m = 0%nat).
