(* ===== verification/OptProps.v ===== *)
(** The configuration file read back: a text format for the settings, and that
    [load] returns the settings that were written in it. *)

From S2P Require Import Prelude CText OptParser.

#[local] Ltac Zify.zify_post_hook ::= Z.to_euclidean_division_equations.

(** ** Hexadecimal numbers *)

Definition hex (n : Z) : text := hex_digits 8 n [].

Lemma digit_of_hex d : 0 <= d < 16 -> digit_of 16 (hex_digit d) = Some d.
Proof.
  intros Hd. rewrite <- (Z2Nat.id d) in * by lia. generalize dependent (Z.to_nat d).
  intros n Hn. do 16 (destruct n as [|n]; [reflexivity|]). lia.
Qed.

Definition hex_text (s : text) : Prop := Forall (fun b => is_Some (digit_of 16 b)) s.

Lemma hex_digits_text fuel : forall n acc, 0 <= n -> hex_text acc -> hex_text (hex_digits fuel n acc).
Proof.
  induction fuel as [|fuel IH]; intros n acc Hn Hacc; [done|]. cbn [hex_digits].
  assert (hex_text (hex_digit (n `mod` 16) :: acc)) as Hacc'.
  { constructor; [|done]. rewrite digit_of_hex by lia. by eexists. }
  destruct (n <? 16); [done|]. apply IH; [lia|done].
Qed.

Lemma read_hex_digits fuel : forall n acc,
  0 <= n < 16 ^ Z.of_nat fuel ->
  read_digits 16 0 (hex_digits fuel n acc) = read_digits 16 n acc.
Proof.
  induction fuel as [|fuel IH]; intros n acc Hn.
  { cbn in *. by replace n with 0 by lia. }
  cbn [hex_digits]. destruct (Z.ltb_spec n 16) as [Hlt|Hge].
  - rewrite Z.mod_small by lia. cbn [read_digits]. rewrite digit_of_hex by lia.
    by replace (0 * 16 + n) with n by lia.
  - rewrite Nat2Z.inj_succ, Z.pow_succ_r in Hn by lia. rewrite IH by lia. cbn [read_digits].
    rewrite digit_of_hex by lia. f_equal. lia.
Qed.

Lemma hex_digit_range b : is_Some (digit_of 16 b) ->
  48 <= ub b <= 57 \/ 97 <= ub b <= 102 \/ 65 <= ub b <= 70.
Proof.
  intros [v Hv]. unfold digit_of in Hv. repeat case_match; bool_cases; try done; lia.
Qed.

Lemma hex_digits_ne fuel n acc : acc <> [] -> hex_digits fuel n acc <> [].
Proof.
  revert n acc. induction fuel as [|fuel IH]; intros n acc Hacc; [done|]. cbn [hex_digits].
  destruct (n <? 16); [done|]. by apply IH.
Qed.

Lemma hex_ne n : hex n <> [].
Proof. unfold hex. cbn [hex_digits]. destruct (n <? 16); [done|]. by apply (hex_digits_ne 7). Qed.

Lemma strtol_hex `{LongWidth} n : 32 <= long_bits -> 0 <= n < 2 ^ 31 -> strtol 16 (hex n) = n.
Proof.
  intros Hl Hn. pose proof (Z.pow_le_mono_r 2 31 (long_bits - 1)).
  assert (hex_text (hex n)) as Ht by (apply hex_digits_text; [lia|constructor]).
  assert (read_digits 16 0 (hex n) = (n, [])) as Hread by (apply (read_hex_digits 8 n []); lia).
  pose proof (hex_ne n) as Hne. unfold strtol. destruct (hex n) as [|b s]; [done|].
  apply Forall_cons in Ht as [Hb Hs]. pose proof (hex_digit_range b Hb) as Hr.
  cbn [skip_spaces]. unfold is_space.
  rewrite (proj2 (Z.eqb_neq (ub b) 32)), (proj2 (Z.leb_gt (ub b) 13)), andb_false_r by lia. cbn [orb read_sign].
  rewrite (proj2 (Z.eqb_neq (ub b) 45)), (proj2 (Z.eqb_neq (ub b) 43)) by lia.
  assert (read_prefix 16 (b :: s) = (16, b :: s)) as ->.
  { unfold read_prefix. cbn [Z.eqb Pos.eqb orb]. destruct ((ub b =? 48) && true); [|done].
    destruct s as [|x [|d s]]; [done..|]. apply Forall_cons in Hs as [Hx _].
    pose proof (hex_digit_range x Hx).
    rewrite (proj2 (Z.eqb_neq (ub x) 120)), (proj2 (Z.eqb_neq (ub x) 88)) by lia. done. }
  rewrite Hread. apply clamp_id. cbn [fst]. lia.
Qed.

Lemma hex_free c n : 0 <= n -> ~ (48 <= c <= 57 \/ 97 <= c <= 102 \/ 65 <= c <= 70) -> free_of c (hex n).
Proof.
  intros Hn Hc. eapply Forall_impl; [by apply (hex_digits_text 8 n []); [|constructor]|].
  cbn. intros b Hb Hbc. apply Hc. subst c. by apply hex_digit_range.
Qed.

(** ** Writing a file *)

(** The pieces with a delimiter between them. *)
Fixpoint join (delim : byte) (l : list text) : text :=
  match l with
  | [] => []
  | [s] => s
  | s :: l => s ++ delim :: join delim l
  end.

Definition bit (b : bool) : text := if b then str "1" else str "0".

Definition tuner_name (fe_type : Z) : text :=
  if fe_type =? 0 then str "DVB-S" else if fe_type =? 1 then str "DVB-C"
  else if fe_type =? 2 then str "DVB-T" else [].

Definition attributes (o : vtunerOpt) : list (text * text) :=
  [(str "vtuner_type", m_vtuner_type o); (str "ipaddr", m_ipaddr o); (str "tcpdata", bit (m_tcpdata o));
   (str "tuner_type", tuner_name (m_fe_type o)); (str "force_plts", bit (m_force_plts o));
   (str "fe", dec (m_fe_number o)); (str "port", m_port o); (str "ca_pids", bit (m_ca_pids o));
   (str "ca_emm", bit (m_ca_emm o)); (str "ca_caids", join x3b (hex <$> set_iter (m_ca_caids o)))].

Definition print_attr (a : text * text) : text := a.1 ++ x3a :: a.2.

Definition print_line (e : Z * vtunerOpt) : text :=
  dec e.1 ++ x3d :: join x2c (print_attr <$> attributes e.2).

Definition print_file (m : gmap Z vtunerOpt) : text :=
  concat ((fun e => print_line e ++ [x0a]) <$> entries m).

(** No delimiter of the format: newline, comma, colon, equals sign. *)
Definition plain (s : text) : Prop :=
  free_of 10 s /\ free_of 44 s /\ free_of 58 s /\ free_of 61 s.

Definition opt_wf (k : Z) (o : vtunerOpt) : Prop :=
  0 <= k < 2 ^ 31 /\ 0 <= m_fe_number o < 2 ^ 31 /\ -1 <= m_fe_type o <= 2 /\
  plain (m_vtuner_type o) /\ plain (m_ipaddr o) /\ plain (m_port o) /\
  forall caid, caid ∈ m_ca_caids o -> 0 < caid <= 0xffff.

(** ** Reading it *)

Lemma split_join d b l :
  ub b = d -> Forall (fun s => free_of d s /\ s <> []) l -> split (join b l) d = l.
Proof.
  intros Hb Hl. unfold split. induction Hl as [|s l [Hs Hne] Hl IH]; [done|].
  destruct l as [|t l]; [by apply getline_split_last|].
  change (join b (s :: t :: l)) with (s ++ b :: join b (t :: l)).
  rewrite getline_split_cons by done. by rewrite IH.
Qed.

Lemma free_of_join c b l : ub b <> c -> Forall (free_of c) l -> free_of c (join b l).
Proof.
  intros Hb Hl. induction Hl as [|s l Hs Hl IH]; [constructor|].
  destruct l as [|t l]; [done|]. apply free_of_app. split; [done|]. by constructor.
Qed.

Lemma join_ne b s l : s <> [] -> join b (s :: l) <> [].
Proof. intros Hs. destruct l; [done|]. cbn. by destruct s. Qed.

Lemma join_nil b l : Forall (fun s => s <> []) l -> join b l = [] -> l = [].
Proof. intros Hl Hj. destruct Hl as [|s l Hs _]; [done|]. by apply join_ne in Hj. Qed.

(** The pieces of one attribute: an empty value is no piece. *)
Lemma split_attr k v :
  free_of 58 k -> free_of 58 v -> k <> [] ->
  split (print_attr (k, v)) 58 = k :: (if bool_decide (v = []) then [] else [v]).
Proof.
  intros Hk Hv Hne. unfold split, print_attr. cbn [fst snd]. rewrite getline_split_cons by done.
  case_bool_decide as Hnil; [by subst v|]. by rewrite getline_split_last.
Qed.

Section Load.
Context `{LongWidth} (Hlong : 32 <= long_bits).

Lemma add_caids l : forall set,
  Forall (fun n => 0 < n <= 0xffff) l -> foldl add_caid set (hex <$> l) = list_to_set l ∪ set.
Proof.
  induction l as [|n l IH]; intros set Hl; [cbn; set_solver|].
  apply Forall_cons in Hl as [Hn Hl]. cbn [fmap list_fmap foldl]. rewrite IH by done.
  assert (add_caid set (hex n) = {[n]} ∪ set) as ->; [|cbn; set_solver].
  unfold add_caid. rewrite bool_decide_eq_false_2 by apply hex_ne.
  rewrite strtol_hex by lia. by rewrite (proj2 (Z.ltb_lt 0 n)), (proj2 (Z.leb_le n 0xffff)) by lia.
Qed.

Lemma load_caids o s :
  (forall n, n ∈ s -> 0 < n <= 0xffff) ->
  foldl add_caid o (split (join x3b (hex <$> set_iter s)) 59) = s ∪ o.
Proof.
  intros Hs. rewrite split_join; [|done|].
  - rewrite add_caids.
    + f_equal. apply set_eq. intros n. by rewrite elem_of_list_to_set, elem_of_set_iter.
    + apply Forall_forall. intros n Hn%elem_of_set_iter. by apply Hs.
  - apply Forall_forall. intros t (n & -> & Hn%elem_of_set_iter)%list_elem_of_fmap. specialize (Hs n Hn).
    split; [apply hex_free; lia|apply hex_ne].
Qed.

(** Reading one attribute whose value has no colon. *)
Definition load_pair (o : vtunerOpt) (a : text * text) : vtunerOpt := load_attr o (split (print_attr a) 58).

Lemma load_pair_value o k v :
  free_of 58 k -> free_of 58 v -> k <> [] -> v <> [] -> load_pair o (k, v) = load_attr o [k; v].
Proof. intros Hk Hv Hne Hnv. unfold load_pair. rewrite split_attr by done. by rewrite bool_decide_eq_false_2. Qed.

Lemma load_pair_empty o k : free_of 58 k -> k <> [] -> load_pair o (k, []) = o.
Proof. intros Hk Hne. unfold load_pair. rewrite split_attr by (done || constructor). done. Qed.

Ltac ascii := apply (bool_decide_unpack _); vm_compute; exact I.

(** A text attribute sets its field, and an empty one leaves it empty. *)
Lemma load_vtuner_type o v :
  free_of 58 v -> m_vtuner_type o = [] ->
  load_pair o (str "vtuner_type", v) = o <| m_vtuner_type := v |>.
Proof.
  intros Hv Ho. destruct o. cbn in Ho. subst. destruct (decide (v = [])) as [->|Hne].
  - by rewrite load_pair_empty by (done || ascii).
  - by rewrite load_pair_value by (done || ascii).
Qed.

Lemma load_ipaddr o v :
  free_of 58 v -> m_ipaddr o = [] -> load_pair o (str "ipaddr", v) = o <| m_ipaddr := v |>.
Proof.
  intros Hv Ho. destruct o. cbn in Ho. subst. destruct (decide (v = [])) as [->|Hne].
  - by rewrite load_pair_empty by (done || ascii).
  - by rewrite load_pair_value by (done || ascii).
Qed.

Lemma load_port o v :
  free_of 58 v -> m_port o = [] -> load_pair o (str "port", v) = o <| m_port := v |>.
Proof.
  intros Hv Ho. destruct o. cbn in Ho. subst. destruct (decide (v = [])) as [->|Hne].
  - by rewrite load_pair_empty by (done || ascii).
  - by rewrite load_pair_value by (done || ascii).
Qed.

Lemma load_tcpdata o b :
  m_tcpdata o = false -> load_pair o (str "tcpdata", bit b) = o <| m_tcpdata := b |>.
Proof. intros Ho. destruct o, b; cbn in Ho; subst; reflexivity. Qed.

Lemma load_force_plts o b :
  m_force_plts o = false -> load_pair o (str "force_plts", bit b) = o <| m_force_plts := b |>.
Proof. intros Ho. destruct o, b; cbn in Ho; subst; reflexivity. Qed.

Lemma load_ca_pids o b : load_pair o (str "ca_pids", bit b) = o <| m_ca_pids := b |>.
Proof. by destruct o, b. Qed.

Lemma load_ca_emm o b : load_pair o (str "ca_emm", bit b) = o <| m_ca_emm := b |>.
Proof. by destruct o, b. Qed.

Lemma load_type o t :
  m_fe_type o = -1 -> -1 <= t <= 2 -> load_pair o (str "tuner_type", tuner_name t) = o <| m_fe_type := t |>.
Proof.
  intros Ho Ht. destruct o. cbn in Ho. subst.
  assert (t = -1 \/ t = 0 \/ t = 1 \/ t = 2) as [->|[->|[->| ->]]] by lia; reflexivity.
Qed.

Lemma load_number o n :
  0 <= n < 2 ^ 31 -> load_pair o (str "fe", dec n) = o <| m_fe_number := n |>.
Proof.
  intros Hn. destruct (dec_digits n) as (Hd & Hne & _); [lia|].
  rewrite load_pair_value; [|ascii|apply dec_free; lia|done|done].
  change (load_attr o [str "fe"; dec n]) with (o <| m_fe_number := atoi (dec n) |>).
  pose proof (atoi_dec n [] Hlong Hn I) as Hat. rewrite app_nil_r in Hat. by rewrite Hat.
Qed.

Lemma load_caid_list o s :
  (forall n, n ∈ s -> 0 < n <= 0xffff) -> m_ca_caids o = ∅ ->
  load_pair o (str "ca_caids", join x3b (hex <$> set_iter s)) = o <| m_ca_caids := s |>.
Proof.
  intros Hs Ho. destruct (decide (s = ∅)) as [->|Hne].
  { destruct o. cbn in Ho. by subst. }
  assert (Forall (fun n => 0 < n) (set_iter s)) as Hpos.
  { apply Forall_forall. intros n Hn%elem_of_set_iter. specialize (Hs n Hn). lia. }
  rewrite load_pair_value; [|ascii| |done|].
  - change (load_attr o [str "ca_caids"; join x3b (hex <$> set_iter s)])
      with (o <| m_ca_caids := foldl add_caid (m_ca_caids o) (split (join x3b (hex <$> set_iter s)) 59) |>).
    rewrite load_caids by done. by rewrite Ho, (right_id_L ∅ (∪)).
  - apply free_of_join; [done|]. apply Forall_fmap. eapply Forall_impl; [exact Hpos|].
    intros n Hn. cbn in *. apply hex_free; lia.
  - intros Hj. apply join_nil in Hj; [|apply Forall_fmap, Forall_true; intros n; apply hex_ne].
    apply fmap_nil_inv in Hj. by apply Hne, set_iter_nil.
Qed.

#[local] Opaque load_pair.

(** The attributes of an entry are read back one after the other. *)
Lemma load_attributes k o :
  opt_wf k o -> foldl load_pair vtunerOpt_new (attributes o) = o.
Proof.
  intros (_ & Hfe & Hty & Hv & Hip & Hport & Hca).
  destruct o as [v ip tcp ty fe pl port cp ce cc]. unfold attributes, vtunerOpt_new, plain in *.
  cbn [foldl m_vtuner_type m_ipaddr m_tcpdata m_fe_type m_fe_number m_force_plts
    m_port m_ca_pids m_ca_emm m_ca_caids] in *.
  destruct Hv as (_ & _ & Hv & _), Hip as (_ & _ & Hip & _), Hport as (_ & _ & Hport & _).
  rewrite load_vtuner_type, load_ipaddr, load_tcpdata, load_type, load_force_plts, load_number, load_port,
    load_ca_pids, load_ca_emm, load_caid_list by done.
  done.
Qed.

(** No delimiter of the lines occurs in an attribute. *)
Lemma attributes_free k o c :
  opt_wf k o -> c = 10 \/ c = 44 \/ c = 61 -> Forall (free_of c) (print_attr <$> attributes o).
Proof.
  intros (_ & Hfe & Hty & Hv & Hip & Hport & Hca) Hc.
  assert (forall key v, free_of 10 key /\ free_of 44 key /\ free_of 61 key -> free_of c v ->
    free_of c (print_attr (key, v))) as Hattr.
  { intros key v (? & ? & ?) Hval. unfold print_attr. cbn [fst snd]. apply free_of_app. split.
    - by destruct Hc as [->|[->| ->]].
    - constructor; [|done]. change (ub x3a) with 58. lia. }
  assert (forall v, plain v -> free_of c v) as Hplain.
  { intros v' (? & ? & ? & ?). by destruct Hc as [->|[->| ->]]. }
  assert (forall b, free_of c (bit b)) as Hbit.
  { intros b. destruct Hc as [->|[->| ->]], b; ascii. }
  assert (free_of c (tuner_name (m_fe_type o))) as Htn.
  { unfold tuner_name. destruct Hc as [->|[->| ->]]; repeat case_match; ascii. }
  assert (free_of c (join x3b (hex <$> set_iter (m_ca_caids o)))) as Hcaids.
  { apply free_of_join; [change (ub x3b) with 59; lia|]. apply Forall_fmap, Forall_forall.
    intros n Hn%elem_of_set_iter. specialize (Hca n Hn). cbn. apply hex_free; lia. }
  assert (free_of c (dec (m_fe_number o))) as Hdec by (apply dec_free; lia).
  unfold attributes. cbn [fmap list_fmap].
  repeat (constructor; [apply Hattr; [split_and!; ascii|]; auto|]). constructor.
Qed.

Lemma print_attr_ne a : print_attr a <> [].
Proof. destruct a as [[|b key] v]; done. Qed.

Lemma load_print_line m k o :
  opt_wf k o -> m !! k = None -> load_line m (print_line (k, o)) = <[k := o]> m.
Proof.
  intros Hwf Hk. pose proof Hwf as (Hrange & _). unfold load_line, print_line. cbn [fst snd].
  set (attrs := join x2c (print_attr <$> attributes o)).
  assert (attrs <> []) as Hne by (apply join_ne, print_attr_ne).
  assert (free_of 61 attrs) as Hfree.
  { apply free_of_join; [done|]. apply (attributes_free k); [done|lia]. }
  unfold split at 1. rewrite getline_split_cons by (done || (apply dec_free; lia)).
  rewrite getline_split_last by done.
  assert (atoi (dec k) = k) as ->.
  { pose proof (atoi_dec k [] Hlong Hrange I) as Hat. by rewrite app_nil_r in Hat. }
  rewrite Hk. cbn [default from_option].
  assert (split attrs 44 = print_attr <$> attributes o) as ->.
  { apply split_join; [done|]. apply Forall_and. split; [apply (attributes_free k); [done|lia]|].
    apply Forall_fmap, Forall_true. intros a. apply print_attr_ne. }
  f_equal. rewrite foldl_fmap. exact (load_attributes k o Hwf).
Qed.

Lemma load_lines es : forall m,
  Forall (fun e => opt_wf e.1 e.2) es -> NoDup es.*1 -> Forall (fun e => m !! e.1 = None) es ->
  foldl load_line m (print_line <$> es) = list_to_map es ∪ m.
Proof.
  induction es as [|[k o] es IH]; intros m Hwf Hnd Hm; [cbn; by rewrite (left_id_L ∅ (∪))|].
  apply Forall_cons in Hwf as [Hko Hwf]. apply Forall_cons in Hm as [Hk Hm].
  cbn [fmap list_fmap fst] in Hnd. apply NoDup_cons in Hnd as [Hn Hnd].
  cbn [fmap list_fmap foldl fst snd] in *. rewrite load_print_line by done. rewrite IH; [|done..|].
  - cbn [list_to_map foldr fst snd]. change (foldr _ ∅ es) with (list_to_map es : gmap Z vtunerOpt).
    rewrite <- insert_union_l. symmetry. apply insert_union_r. by apply not_elem_of_list_to_map.
  - rewrite Forall_forall in Hm |- *. intros e He. rewrite lookup_insert_ne; [by apply Hm|].
    intros ->. apply Hn. by apply list_elem_of_fmap_2.
Qed.

Lemma split_lines es :
  Forall (fun e => opt_wf e.1 e.2) es ->
  getline_split 10 [] (concat ((fun e => print_line e ++ [x0a]) <$> es)) = print_line <$> es.
Proof.
  induction 1 as [|[k o] es Hko Hwf IH]; [done|]. cbn [fmap list_fmap concat].
  rewrite <- app_assoc. cbn [app]. rewrite getline_split_cons; [by f_equal| |done].
  unfold print_line. cbn [fst snd]. apply free_of_app. split; [apply dec_free; lia|].
  constructor; [done|]. apply free_of_join; [done|]. apply (attributes_free k); [done|lia].
Qed.

(** C15: the configuration file gives the settings written in it: a file with one
    line for every index, with all ten attributes of a tuner (empty ones
    included, and any set of caids), loads as exactly those settings. *)
Theorem load_print m :
  map_Forall opt_wf m -> load (Some (print_file m)) = m.
Proof.
  intros Hwf. assert (Forall (fun e => opt_wf e.1 e.2) (entries m)) as Hes.
  { apply Forall_forall. intros [k o] Hko%elem_of_entries. by apply Hwf. }
  unfold load, print_file. rewrite split_lines by done.
  rewrite load_lines; [|done|apply NoDup_entries|apply Forall_forall; by intros [k o] _].
  by rewrite (right_id_L ∅ (∪)), list_to_map_entries.
Qed.
End Load.

Definition demo_settings : gmap Z vtunerOpt :=
  {[3 := mkOpt (str "satip_client") (str "192.168.0.2") true 1 7 false [] true false {[0x1833; 0x9c4]}]}.

Lemma load_print_witness : @load 64 (Some (print_file demo_settings)) = demo_settings.
Proof.
  apply (@load_print 64); [unfold long_bits; lia|]. intros k o Hk.
  unfold demo_settings in Hk. apply lookup_singleton_Some in Hk as [<- <-]. unfold opt_wf, plain. cbn [m_fe_number m_fe_type
    m_vtuner_type m_ipaddr m_port m_ca_caids].
  split_and!; try lia; try (apply (bool_decide_unpack _); vm_compute; exact I).
Defined.
