(* ===== verification/Config.v ===== *)
(** Tuning and pid state of config.h and config.cpp: the class [satipConfig]
    without its text output (see ConfigText.v).

    The parser object behind [m_psi] is kept next to the configuration: the
    two call each other ([clearProperty] and [notifyPidList] call the parser,
    which reports back through [setCaPids]), so the methods that do so work on
    the pair. [m_ca_lock] protects single reads and writes of [m_ca_pids] and
    [m_ca_dirty]; every method is one atomic function here. *)

From S2P Require Import Prelude Crc Psi CText OptParser Dvb.

Definition MAX_PIDS : Z := 30.
Definition FE_TYPE_SAT : Z := 0.
Definition FE_TYPE_CABLE : Z := 1.
Definition FE_TYPE_TERRESTRIAL : Z := 2.

Inductive t_type_pol := CONFIG_POL_HORIZONTAL | CONFIG_POL_VERTICAL.
Inductive t_lnb_onoff := CONFIG_LNB_OFF | CONFIG_LNB_ON.

Inductive t_channel_status :=
| CONFIG_STATUS_CHANNEL_INVALID
| CONFIG_STATUS_CHANNEL_CHANGED
| CONFIG_STATUS_CHANNEL_STABLE.

Inductive t_pid_status := CONFIG_STATUS_PID_STATIONARY | CONFIG_STATUS_PID_CHANGED.

Inductive t_pid_elem_status := PID_ADD | PID_DELETE | PID_VAILD | PID_INVALID.

#[export] Instance t_channel_status_dec : EqDecision t_channel_status.
Proof. solve_decision. Defined.
#[export] Instance t_pid_status_dec : EqDecision t_pid_status.
Proof. solve_decision. Defined.
#[export] Instance t_pid_elem_status_dec : EqDecision t_pid_elem_status.
Proof. solve_decision. Defined.

Record pid_elem := Elem { elem_pid : Z; elem_status : t_pid_elem_status }.

Record satipConfig := mkConfig {
  m_fe_type : Z;
  m_pid_list : list pid_elem;
  m_requested_pids : gset Z;
  m_ca_pids : gset Z;
  m_ca_dirty : bool;
  m_wakeup_fd : Z;
  m_signal_source : Z;
  m_frequency : Z;
  m_pol : t_type_pol;
  m_rolloff : Z;
  m_msys : Z;
  m_mtype : Z;
  m_pilot : Z;
  m_symrate : Z;
  m_fec : Z;
  m_transmode : Z;
  m_guard_interval : Z;
  m_bandwidth : Z;
  m_plpid : Z;
  m_pls_code : Z;
  m_status : t_channel_status;
  m_pid_status : t_pid_status;
  m_tune_generation : Z;
  m_lnb_voltage_onoff : t_lnb_onoff;
  m_settings : vtunerOpt;
  (** the bytes written to [m_wakeup_fd] so far *)
  wakeup_writes : Z
}.

#[export] Instance satipConfig_settable : Settable satipConfig := fun c => mkConfig
  (m_fe_type c) (m_pid_list c) (m_requested_pids c) (m_ca_pids c) (m_ca_dirty c)
  (m_wakeup_fd c) (m_signal_source c) (m_frequency c) (m_pol c) (m_rolloff c) (m_msys c)
  (m_mtype c) (m_pilot c) (m_symrate c) (m_fec c) (m_transmode c) (m_guard_interval c)
  (m_bandwidth c) (m_plpid c) (m_pls_code c) (m_status c) (m_pid_status c)
  (m_tune_generation c) (m_lnb_voltage_onoff c) (m_settings c) (wakeup_writes c).

(** ** The ca pids, reported by the parser *)

(** A failing write is only logged. *)
Definition wakeup (c : satipConfig) : satipConfig :=
  if m_wakeup_fd c <? 0 then c else c <| wakeup_writes := wakeup_writes c + 1 |>.

Definition config_setCaPids (pids : gset Z) (c : satipConfig) : satipConfig :=
  if bool_decide (pids <> m_ca_pids c)
  then wakeup (c <| m_ca_pids := pids |> <| m_ca_dirty := true |>) else c.

#[export] Instance config_ca_sink : CaSink satipConfig :=
  {| setCaPids := config_setCaPids; reported := m_ca_pids |}.

#[export] Instance config_ca_sink_laws : CaSinkLaws satipConfig.
Proof.
  constructor. intros s c. cbn. unfold config_setCaPids, wakeup.
  case_bool_decide as Hs; [by destruct (_ <? 0)|].
  done.
Qed.

(** What every operation does to the wakeup pipe: its end is kept, and bytes are
    only added. The settings never change either. *)
Record woken (c d : satipConfig) : Prop := {
  wk_fd : m_wakeup_fd d = m_wakeup_fd c;
  wk_writes : wakeup_writes c <= wakeup_writes d;
  wk_settings : m_settings d = m_settings c
}.

#[export] Instance woken_preorder : PreOrder woken.
Proof.
  constructor.
  - intros c. by constructor.
  - intros c d e [] []. constructor; [congruence|lia|congruence].
Qed.

Definition same_wakeup (c d : satipConfig) : Prop :=
  m_wakeup_fd d = m_wakeup_fd c /\ wakeup_writes d = wakeup_writes c /\
  m_settings d = m_settings c.

Lemma same_wakeup_woken c d : same_wakeup c d -> woken c d.
Proof. intros (Hfd & Hw & Hs). by constructor; [|lia|]. Qed.

Lemma woken_same c d :
  m_wakeup_fd d = m_wakeup_fd c -> wakeup_writes d = wakeup_writes c ->
  m_settings d = m_settings c -> woken c d.
Proof. intros Hfd Hw Hs. by apply same_wakeup_woken. Qed.

Lemma wakeup_woken c : woken c (wakeup c).
Proof. unfold wakeup. destruct (_ <? 0); by constructor; cbn; [|lia|]. Qed.

(** A change of what is pending by the parser is followed by a wakeup. *)
Definition signalled (c d : satipConfig) : Prop :=
  m_ca_dirty d = m_ca_dirty c \/ m_wakeup_fd c < 0 \/ wakeup_writes c < wakeup_writes d.

Lemma setCaPids_woken pids c :
  woken c (config_setCaPids pids c) /\ signalled c (config_setCaPids pids c).
Proof.
  unfold config_setCaPids. case_bool_decide; [|split; [done|by left]].
  set (d := c <| m_ca_pids := pids |> <| m_ca_dirty := true |>). split.
  - transitivity d; [by apply woken_same|apply wakeup_woken].
  - right. unfold wakeup. change (m_wakeup_fd d) with (m_wakeup_fd c).
    destruct (Z.ltb_spec (m_wakeup_fd c) 0); [by left|]. right. cbn. lia.
Qed.

(** ** The pid list *)

(** The switch of the add loop, for an entry that holds the new pid. *)
Definition add_status (s : t_pid_elem_status) : t_pid_elem_status :=
  match s with
  | PID_ADD => PID_ADD
  | PID_DELETE => PID_VAILD
  | PID_VAILD => PID_VAILD
  | PID_INVALID => PID_ADD
  end.

(** The switch of the delete loop, for an entry the new list does not name. *)
Definition delete_status (s : t_pid_elem_status) : t_pid_elem_status :=
  match s with
  | PID_ADD => PID_INVALID
  | PID_DELETE => PID_DELETE
  | PID_VAILD => PID_DELETE
  | PID_INVALID => PID_INVALID
  end.

(** The first free entry takes the new pid; without one the pid is dropped. *)
Fixpoint claim_slot (l : list pid_elem) (new_pid : Z) : list pid_elem :=
  match l with
  | [] => []
  | e :: l =>
    if bool_decide (elem_status e = PID_INVALID) then Elem new_pid PID_ADD :: l
    else e :: claim_slot l new_pid
  end.

(** The body of the add loop. *)
Definition add_pid (l : list pid_elem) (new_pid : Z) : list pid_elem :=
  if 0x2000 <=? new_pid then l
  else if existsb (fun e => elem_pid e =? new_pid) l then
    map (fun e => if elem_pid e =? new_pid then Elem (elem_pid e) (add_status (elem_status e))
                  else e) l
  else claim_slot l new_pid.

(** The body of the delete loop. *)
Definition delete_pid (new_pid_list : list Z) (e : pid_elem) : pid_elem :=
  if 0x2000 <=? elem_pid e then e
  else if existsb (fun new_pid => (new_pid <? 0x2000) && (elem_pid e =? new_pid)) new_pid_list
  then e
  else Elem (elem_pid e) (delete_status (elem_status e)).

Definition updatePidStatus (c : satipConfig) : satipConfig :=
  if existsb (fun e => bool_decide (elem_status e = PID_ADD)
                       || bool_decide (elem_status e = PID_DELETE)) (m_pid_list c)
  then c <| m_pid_status := CONFIG_STATUS_PID_CHANGED |>
  else c <| m_pid_status := CONFIG_STATUS_PID_STATIONARY |>.

Definition is_active (e : pid_elem) : bool :=
  bool_decide (elem_status e = PID_ADD) || bool_decide (elem_status e = PID_VAILD).

Definition collectActivePids (c : satipConfig) (pids : gset Z) : gset Z :=
  foldl (fun pids e => if is_active e then {[elem_pid e]} ∪ pids else pids) pids (m_pid_list c).

Definition addCaPids (c : satipConfig) (pids : gset Z) : gset Z * satipConfig :=
  (pids ∪ m_ca_pids c, c <| m_ca_dirty := false |>).

Definition commit_elem (e : pid_elem) : pid_elem :=
  match elem_status e with
  | PID_ADD => Elem (elem_pid e) PID_VAILD
  | PID_DELETE => Elem (elem_pid e) PID_INVALID
  | _ => e
  end.

Definition commitPidStates (c : satipConfig) : satipConfig :=
  c <| m_pid_list := map commit_elem (m_pid_list c) |>.

Definition clearPidList (c : satipConfig) : satipConfig :=
  c <| m_pid_list := map (fun e => Elem (elem_pid e) PID_INVALID) (m_pid_list c) |>.

(** ** Channel and pid status *)

Definition getChannelStatus (c : satipConfig) : t_channel_status := m_status c.

(** [m_tune_generation] is an unsigned long. *)
Definition setChannelChanged `{LongWidth} (c : satipConfig) : satipConfig :=
  c <| m_tune_generation := (m_tune_generation c + 1) `mod` 2 ^ long_bits |>
    <| m_status := CONFIG_STATUS_CHANNEL_CHANGED |>.

Definition setChannelRetry (c : satipConfig) : satipConfig :=
  c <| m_status := CONFIG_STATUS_CHANNEL_CHANGED |>.

Definition clearChannelChanged (c : satipConfig) : satipConfig :=
  if bool_decide (m_status c = CONFIG_STATUS_CHANNEL_CHANGED)
  then c <| m_status := CONFIG_STATUS_CHANNEL_STABLE |> else c.

Definition getPidStatus (c : satipConfig) : t_pid_status :=
  if bool_decide (m_pid_status c = CONFIG_STATUS_PID_CHANGED) then CONFIG_STATUS_PID_CHANGED
  else if m_ca_dirty c then CONFIG_STATUS_PID_CHANGED else CONFIG_STATUS_PID_STATIONARY.

(** ** Methods that call the parser *)

Section WithDvb.
Context `{DvbConstants}.

Definition setVoltage (c : satipConfig) (voltage : Z) : satipConfig :=
  let c := c <| m_lnb_voltage_onoff := CONFIG_LNB_ON |> in
  if voltage =? SEC_VOLTAGE_13 then c <| m_pol := CONFIG_POL_VERTICAL |>
  else if voltage =? SEC_VOLTAGE_18 then c <| m_pol := CONFIG_POL_HORIZONTAL |>
  else c <| m_lnb_voltage_onoff := CONFIG_LNB_OFF |>
         <| m_status := CONFIG_STATUS_CHANNEL_INVALID |>.

(** The part of [clearProperty] before it resets the parser. *)
Definition clear_params (c : satipConfig) : satipConfig :=
  let c := c <| m_frequency := 0 |> <| m_symrate := 0 |>
             <| m_msys := SYS_UNDEFINED |> <| m_mtype := QPSK |> <| m_fec := FEC_AUTO |>
             <| m_rolloff := ROLLOFF_AUTO |> <| m_pilot := PILOT_AUTO |>
             <| m_transmode := TRANSMISSION_MODE_AUTO |>
             <| m_guard_interval := GUARD_INTERVAL_AUTO |>
             <| m_bandwidth := 0 |> <| m_plpid := 0 |> <| m_pls_code := 0 |> in
  (clearPidList c) <| m_requested_pids := ∅ |>.

(** Calling a method of [m_psi], whose [m_cfg] is this object. *)
Definition call_psi (f : satipPSI -> option satipConfig -> satipPSI * option satipConfig)
    (c : satipConfig) (psi : option satipPSI) : satipConfig * option satipPSI :=
  match psi with
  | None => (c, None)
  | Some p => let '(p, c') := f p (Some c) in (default c c', Some p)
  end.

Definition clearProperty (c : satipConfig) (psi : option satipPSI) :
    satipConfig * option satipPSI :=
  call_psi reset (clear_params c) psi.

Definition notifyPidList (c : satipConfig) (psi : option satipPSI) :
    satipConfig * option satipPSI :=
  call_psi (fun p cfg => setJoinedPids p cfg (collectActivePids c ∅)) c psi.

Definition updatePidList (c : satipConfig) (psi : option satipPSI) (new_pid_list : list Z) :
    satipConfig * option satipPSI :=
  let l := foldl add_pid (m_pid_list c) new_pid_list in
  let l := map (delete_pid new_pid_list) l in
  let c := c <| m_pid_list := l |> in
  notifyPidList (updatePidStatus c) psi.

(** The constructor. The fields it leaves uninitialised are set by
    [clearProperty]; [m_requested_pids] and [m_ca_pids] start empty. *)
Definition satipConfig_new (fe_type : Z) (settings : vtunerOpt) :
    satipConfig * option satipPSI :=
  let c := mkConfig fe_type (replicate (Z.to_nat MAX_PIDS) (Elem (-1) PID_INVALID)) ∅ ∅ false
             (-1) 1 0 CONFIG_POL_HORIZONTAL 0 0 0 0 0 0 0 0 0 0 0
             CONFIG_STATUS_CHANNEL_INVALID CONFIG_STATUS_PID_STATIONARY 0 CONFIG_LNB_OFF
             settings 0 in
  let '(c, _) := clearProperty c None in
  if OptParser.m_ca_pids settings then
    let '(p, c') := satipPSI_new (Some c) (m_ca_emm settings) (m_ca_caids settings)
                      (m_fe_number settings) in
    (default c c', Some p)
  else (c, None).
End WithDvb.

(** ** Setters *)

Definition setPosition (c : satipConfig) (x : Z) : satipConfig := c <| m_signal_source := x |>.
Definition setFrequency (c : satipConfig) (x : Z) : satipConfig := c <| m_frequency := x |>.
Definition setModsys (c : satipConfig) (x : Z) : satipConfig := c <| m_msys := x |>.
Definition setModtype (c : satipConfig) (x : Z) : satipConfig := c <| m_mtype := x |>.
Definition setSymrate (c : satipConfig) (x : Z) : satipConfig := c <| m_symrate := x |>.
Definition setFec (c : satipConfig) (x : Z) : satipConfig := c <| m_fec := x |>.
Definition setRolloff (c : satipConfig) (x : Z) : satipConfig := c <| m_rolloff := x |>.
Definition setPilots (c : satipConfig) (x : Z) : satipConfig := c <| m_pilot := x |>.
Definition setTransmode (c : satipConfig) (x : Z) : satipConfig := c <| m_transmode := x |>.
Definition setGuardInterval (c : satipConfig) (x : Z) : satipConfig :=
  c <| m_guard_interval := x |>.
Definition setBandwidth (c : satipConfig) (x : Z) : satipConfig := c <| m_bandwidth := x |>.
Definition setPLP (c : satipConfig) (x : Z) : satipConfig := c <| m_plpid := x |>.
Definition setPLScode (c : satipConfig) (x : Z) : satipConfig := c <| m_pls_code := x |>.
Definition setWakeupFd (c : satipConfig) (fd : Z) : satipConfig := c <| m_wakeup_fd := fd |>.
Definition getFeType (c : satipConfig) : Z := m_fe_type c.
Definition isTcpData (c : satipConfig) : bool := m_tcpdata (m_settings c).
Definition getTuneGeneration (c : satipConfig) : Z := m_tune_generation c.

(** ** The pid list as sets

    An entry is occupied unless it is free; the server was last told the
    known ones ([PID_VAILD], [PID_DELETE]); the kernel wants the active ones
    ([PID_ADD], [PID_VAILD]). *)

Definition is_known (s : t_pid_elem_status) : bool :=
  match s with PID_VAILD | PID_DELETE => true | _ => false end.
Definition is_occupied (s : t_pid_elem_status) : bool :=
  match s with PID_INVALID => false | _ => true end.
Definition is_wanted (s : t_pid_elem_status) : bool :=
  match s with PID_ADD | PID_VAILD => true | _ => false end.

Definition pids_with (P : t_pid_elem_status -> bool) (l : list pid_elem) : gset Z :=
  list_to_set (map elem_pid (filter (fun e => P (elem_status e) = true) l)).

Abbreviation active l := (pids_with is_wanted l).
Abbreviation known l := (pids_with is_known l).
Abbreviation occupied l := (pids_with is_occupied l).

(** The pids a new list asks for. *)
Definition asked (new_pid_list : list Z) : gset Z :=
  list_to_set (filter (fun x => x < 0x2000) new_pid_list).

Record slots_wf (l : list pid_elem) : Prop := {
  slots_length : length l = Z.to_nat MAX_PIDS;
  slots_range : Forall (fun e => -1 <= elem_pid e < 0x2000 /\
                                 (elem_pid e = -1 -> elem_status e = PID_INVALID)) l;
  slots_unique : forall i j e f, l !! i = Some e -> l !! j = Some f ->
    elem_pid e = elem_pid f -> 0 <= elem_pid e -> i = j
}.

Lemma elem_of_pids_with P l x :
  x ∈ pids_with P l <-> exists e, e ∈ l /\ elem_pid e = x /\ P (elem_status e) = true.
Proof.
  unfold pids_with. rewrite elem_of_list_to_set, list_elem_of_fmap.
  setoid_rewrite list_elem_of_filter. naive_solver.
Qed.

Lemma elem_of_asked new x : x ∈ asked new <-> x ∈ new /\ x < 0x2000.
Proof. unfold asked. rewrite elem_of_list_to_set, list_elem_of_filter. tauto. Qed.

Lemma elem_of_pids_with_cons P e l x :
  x ∈ pids_with P (e :: l) <-> (x = elem_pid e /\ P (elem_status e) = true) \/ x ∈ pids_with P l.
Proof.
  rewrite !elem_of_pids_with. setoid_rewrite elem_of_cons. split.
  - intros (f & [->|Hf] & <- & HP); [by left|right; eauto].
  - intros [[-> HP]|(f & Hf & <- & HP)]; eauto.
Qed.

Lemma is_active_wanted e : is_active e = is_wanted (elem_status e).
Proof. by destruct e as [p []]. Qed.

Lemma collectActivePids_spec c s : collectActivePids c s = s ∪ active (m_pid_list c).
Proof.
  unfold collectActivePids. generalize (m_pid_list c). intros l. revert s.
  induction l as [|e l IH]; intros s; [set_solver|].
  cbn [foldl]. rewrite IH. apply set_eq. intros x. rewrite !elem_of_union, elem_of_pids_with_cons.
  rewrite is_active_wanted. destruct (is_wanted (elem_status e));
    rewrite ?elem_of_union, ?elem_of_singleton; intuition congruence.
Qed.

(** Changing the status of entries, but not their pids. *)
Definition restatus (g : pid_elem -> t_pid_elem_status) (e : pid_elem) : pid_elem :=
  Elem (elem_pid e) (g e).

Lemma slots_wf_restatus g l :
  (forall e, elem_status e = PID_INVALID -> elem_pid e = -1 -> g e = PID_INVALID) ->
  slots_wf l -> slots_wf (map (restatus g) l).
Proof.
  intros Hg [Hlen Hr Hu]. constructor.
  - by rewrite length_map.
  - apply Forall_fmap. eapply Forall_impl; [done|]. cbn. intros e [? He]. split; [done|].
    intros Hp. apply Hg; auto.
  - intros i j e f Hi Hj. rewrite list_lookup_fmap in Hi, Hj.
    apply fmap_Some in Hi as (e' & Hi & ->), Hj as (f' & Hj & ->). cbn. eauto.
Qed.

Lemma pids_with_restatus P g l x :
  x ∈ pids_with P (map (restatus g) l) <->
  exists e, e ∈ l /\ elem_pid e = x /\ P (g e) = true.
Proof.
  rewrite elem_of_pids_with. setoid_rewrite list_elem_of_fmap. split.
  - intros (e & (e' & -> & He) & <- & HP). eauto.
  - intros (e & He & <- & HP). exists (restatus g e). eauto.
Qed.

(** Two entries that hold the same pid are the same entry. *)
Lemma slots_same l e f :
  slots_wf l -> e ∈ l -> f ∈ l -> elem_pid e = elem_pid f -> 0 <= elem_pid e -> e = f.
Proof.
  intros Hwf [i Hi]%list_elem_of_lookup [j Hj]%list_elem_of_lookup Hp Hpos.
  assert (i = j) as <- by eauto using slots_unique. congruence.
Qed.

Lemma claim_slot_spec l p :
  (claim_slot l p = l /\ Forall (fun e => is_occupied (elem_status e) = true) l) \/
  exists i e, l !! i = Some e /\ elem_status e = PID_INVALID /\
              claim_slot l p = <[i := Elem p PID_ADD]> l.
Proof.
  induction l as [|e l IH]; cbn [claim_slot]; [by left|].
  case_bool_decide as He; [right; by exists O, e|].
  destruct IH as [[-> IH]|(i & f & Hi & Hf & ->)].
  - left. split; [done|]. constructor; [|done]. by destruct (elem_status e).
  - right. by exists (S i), f.
Qed.

(** Occupied entries hold distinct pids, so they are as many as their pids. *)
Lemma size_occupied l :
  slots_wf l -> Forall (fun e => is_occupied (elem_status e) = true) l ->
  size (occupied l) = Z.to_nat MAX_PIDS.
Proof.
  intros Hwf Hocc. rewrite <- (slots_length l Hwf).
  assert (filter (fun e => is_occupied (elem_status e) = true) l = l) as Hf.
  { clear Hwf. induction Hocc; [done|]. rewrite filter_cons_True by done. by f_equal. }
  unfold pids_with. rewrite Hf, size_list_to_set; [by rewrite length_map|].
  apply NoDup_alt. intros i j x Hi Hj. change (map elem_pid l) with (elem_pid <$> l) in *.
  rewrite list_lookup_fmap in Hi, Hj.
  apply fmap_Some in Hi as (e & Hi & ->), Hj as (f & Hj & Hx).
  apply (slots_unique l Hwf i j e f Hi Hj Hx).
  apply (Forall_lookup_1 _ _ _ _ (slots_range l Hwf)) in Hi as Hr.
  apply (Forall_lookup_1 _ _ _ _ Hocc) in Hi as Ho. destruct Hr as [Hr Hinv].
  destruct (decide (elem_pid e = -1)) as [Hm|]; [|lia].
  by rewrite Hinv in Ho.
Qed.

(** ** One pid of the new list *)

Definition add_elem (p : Z) (e : pid_elem) : t_pid_elem_status :=
  if elem_pid e =? p then add_status (elem_status e) else elem_status e.

Lemma add_pid_found l p :
  p < 0x2000 -> existsb (fun e => elem_pid e =? p) l = true ->
  add_pid l p = map (restatus (add_elem p)) l.
Proof.
  intros Hp He. unfold add_pid. rewrite He, (proj2 (Z.leb_gt _ _)) by lia. apply map_ext.
  intros [q s]. unfold restatus, add_elem. cbn. by destruct (q =? p).
Qed.

Lemma existsb_pid_false l p :
  existsb (fun e => elem_pid e =? p) l = false -> forall e, e ∈ l -> elem_pid e <> p.
Proof.
  intros H e He Hp. assert (existsb (fun e => elem_pid e =? p) l = true); [|congruence].
  apply existsb_exists. exists e. split; [by apply list_elem_of_In|by apply Z.eqb_eq].
Qed.

(** Placing a pid in a free entry. *)
Lemma pids_with_claim P l i e p x :
  l !! i = Some e -> P (elem_status e) = false -> P PID_ADD = true ->
  x ∈ pids_with P (<[i := Elem p PID_ADD]> l) <-> x = p \/ x ∈ pids_with P l.
Proof.
  intros Hi He HP. rewrite !elem_of_pids_with. split.
  - intros (f & [j Hj]%list_elem_of_lookup & <- & Hf).
    apply list_lookup_insert_Some in Hj as [(-> & <- & _)|[_ Hj]]; [by left|right].
    exists f. split; [by eapply list_elem_of_lookup_2|done].
  - pose proof (lookup_lt_Some _ _ _ Hi) as Hlt.
    intros [->|(f & [j Hj]%list_elem_of_lookup & <- & Hf)].
    + exists (Elem p PID_ADD). split; [|done]. apply list_elem_of_lookup. exists i.
      by apply list_lookup_insert_eq.
    + exists f. split; [|done]. apply list_elem_of_lookup. exists j.
      rewrite list_lookup_insert_ne; [done|]. intros ->. congruence.
Qed.

Lemma known_claim l i e p :
  l !! i = Some e -> elem_status e = PID_INVALID ->
  known (<[i := Elem p PID_ADD]> l) = known l.
Proof.
  intros Hi He. apply set_eq. intros x. rewrite !elem_of_pids_with.
  pose proof (lookup_lt_Some _ _ _ Hi) as Hlt. split.
  - intros (f & [j Hj]%list_elem_of_lookup & <- & Hf).
    apply list_lookup_insert_Some in Hj as [(-> & <- & _)|[_ Hj]]; [done|].
    exists f. split; [by eapply list_elem_of_lookup_2|done].
  - intros (f & [j Hj]%list_elem_of_lookup & <- & Hf). exists f. split; [|done].
    apply list_elem_of_lookup. exists j. rewrite list_lookup_insert_ne; [done|].
    intros ->. simplify_eq. by rewrite He in Hf.
Qed.

Lemma slots_wf_claim l i e p :
  slots_wf l -> 0 <= p < 0x2000 -> l !! i = Some e -> (forall f, f ∈ l -> elem_pid f <> p) ->
  slots_wf (<[i := Elem p PID_ADD]> l).
Proof.
  intros [Hlen Hr Hu] Hp Hi Hnew. constructor.
  - by rewrite length_insert.
  - apply Forall_insert; [done|]. cbn. lia.
  - intros j k f g Hj Hk Hfg Hpos.
    apply list_lookup_insert_Some in Hj as [(-> & <- & _)|[_ Hj]],
      Hk as [(-> & <- & _)|[_ Hk]]; [done| | |by eauto].
    + destruct (Hnew g); [by eapply list_elem_of_lookup_2|done].
    + destruct (Hnew f); [by eapply list_elem_of_lookup_2|done].
Qed.

(** What the add loop does for one pid of the new list. *)
Record added (l l' : list pid_elem) (p : Z) : Prop := {
  added_wf : slots_wf l';
  added_known : known l' = known l;
  added_active : forall x, x ∈ active l' -> x ∈ active l \/ x = p;
  added_keep : active l ⊆ active l';
  added_occupied : forall x, x ∈ occupied l' -> x ∈ occupied l \/ x = p;
  added_room : (size (occupied l ∪ {[p]}) <= Z.to_nat MAX_PIDS)%nat -> p ∈ active l'
}.

Lemma add_pid_added l p : slots_wf l -> 0 <= p < 0x2000 -> added l (add_pid l p) p.
Proof.
  intros Hwf Hp. destruct (existsb (fun e => elem_pid e =? p) l) eqn:Hex.
  - rewrite add_pid_found by (done || lia). apply existsb_exists in Hex as (e0 & He0 & Hp0).
    apply list_elem_of_In in He0. apply Z.eqb_eq in Hp0.
    constructor; unfold add_elem.
    + apply slots_wf_restatus; [|done]. intros e He Hm. cbn.
      destruct (Z.eqb_spec (elem_pid e) p); [lia|done].
    + apply set_eq. intros x. rewrite pids_with_restatus, elem_of_pids_with.
      split; intros (e & He & <- & Hs); exists e; (split; [done|split; [done|]]);
        destruct (_ =? p), (elem_status e); done.
    + intros x (e & He & <- & Hs)%pids_with_restatus.
      destruct (Z.eqb_spec (elem_pid e) p); [by right|left]. apply elem_of_pids_with. eauto.
    + intros x (e & He & <- & Hs)%elem_of_pids_with. apply pids_with_restatus. exists e.
      split; [done|split; [done|]]. destruct (_ =? p), (elem_status e); done.
    + intros x (e & He & <- & Hs)%pids_with_restatus.
      destruct (Z.eqb_spec (elem_pid e) p); [by right|left]. apply elem_of_pids_with. eauto.
    + intros _. apply pids_with_restatus. exists e0. split; [done|split; [done|]].
      rewrite (proj2 (Z.eqb_eq _ _)) by done. by destruct (elem_status e0).
  - pose proof (existsb_pid_false l p Hex) as Hnew. unfold add_pid.
    rewrite Hex, (proj2 (Z.leb_gt _ _)) by lia.
    destruct (claim_slot_spec l p) as [[-> Hfull]|(i & e & Hi & He & ->)].
    + constructor; try done; auto. intros Hroom.
      rewrite size_union, size_occupied, size_singleton in Hroom; [lia|done|done|].
      intros x (f & Hf & Hx & _)%elem_of_pids_with ->%elem_of_singleton. by apply (Hnew f).
    + assert (forall x, x ∈ active (<[i:=Elem p PID_ADD]> l) <-> x = p \/ x ∈ active l) as Ha.
      { intros x. apply pids_with_claim with e; [done|by rewrite He|done]. }
      assert (forall x, x ∈ occupied (<[i:=Elem p PID_ADD]> l) <-> x = p \/ x ∈ occupied l) as Ho.
      { intros x. apply pids_with_claim with e; [done|by rewrite He|done]. }
      constructor.
      * by apply slots_wf_claim with e.
      * by apply known_claim with e.
      * intros x [?|?]%Ha; auto.
      * intros x Hx. apply Ha. auto.
      * intros x [?|?]%Ho; auto.
      * intros _. apply Ha. auto.
Qed.

(** ** The whole new list *)

Definition u16_list (l : list Z) : Prop := Forall (fun x => 0 <= x < 2 ^ 16) l.

Record added_all (l l' : list pid_elem) (new : gset Z) : Prop := {
  all_wf : slots_wf l';
  all_known : known l' = known l;
  all_active : active l' ⊆ active l ∪ new;
  all_keep : active l ⊆ active l';
  all_occupied : occupied l' ⊆ occupied l ∪ new;
  all_room : (size (occupied l ∪ new) <= Z.to_nat MAX_PIDS)%nat -> new ⊆ active l'
}.

Lemma add_pids_added new : forall l,
  slots_wf l -> u16_list new -> added_all l (foldl add_pid l new) (asked new).
Proof.
  induction new as [|p new IH]; intros l Hwf Hnew.
  { constructor; cbn; (done || set_solver). }
  apply Forall_cons in Hnew as [Hp Hnew]. cbn [foldl]. unfold asked.
  destruct (decide (p < 0x2000)) as [Hlt|Hge].
  - rewrite filter_cons_True by done. cbn [list_to_set]. fold (asked new).
    assert (0 <= p < 0x2000) as Hrange by lia.
    pose proof (add_pid_added l p Hwf Hrange) as [Hwf1 Hk Ha Hkeep Ho Hroom].
    destruct (IH (add_pid l p) Hwf1 Hnew) as [Hwf2 Hk2 Ha2 Hkeep2 Ho2 Hroom2].
    constructor; [done|congruence| | | |].
    + intros x [Hx|Hx]%Ha2%elem_of_union; [apply Ha in Hx as [?| ->]|]; set_solver.
    + by etrans.
    + intros x [Hx|Hx]%Ho2%elem_of_union; [apply Ho in Hx as [?| ->]|]; set_solver.
    + intros Hsize x [->%elem_of_singleton|Hx]%elem_of_union.
      * apply Hkeep2, Hroom. etrans; [|exact Hsize]. apply subseteq_size.
        clear. set_solver.
      * revert x Hx. apply Hroom2. etrans; [|exact Hsize]. apply subseteq_size.
        intros x [Hx|Hx]%elem_of_union; [apply Ho in Hx as [?| ->]|]; set_solver.
  - rewrite filter_cons_False by done. fold (asked new).
    assert (add_pid l p = l) as -> by (unfold add_pid; by rewrite (proj2 (Z.leb_le _ _)) by lia).
    by apply IH.
Qed.

Definition delete_elem (new : list Z) (e : pid_elem) : t_pid_elem_status :=
  if bool_decide (elem_pid e ∈ asked new) then elem_status e else delete_status (elem_status e).

Lemma delete_pid_restatus new l :
  slots_wf l -> map (delete_pid new) l = map (restatus (delete_elem new)) l.
Proof.
  intros Hwf. pose proof (slots_range l Hwf) as Hr. clear Hwf.
  induction Hr as [|e l [He _] _ IH]; [done|]. cbn [map]. rewrite IH. f_equal.
  unfold delete_pid. rewrite (proj2 (Z.leb_gt 0x2000 (elem_pid e))) by lia.
  assert (existsb (fun n => (n <? 0x2000) && (elem_pid e =? n)) new
          = bool_decide (elem_pid e ∈ asked new)) as ->.
  { apply eq_true_iff_eq. rewrite bool_decide_eq_true, elem_of_asked, existsb_exists. split.
    - intros (x & Hx & [? ->%Z.eqb_eq]%andb_true_iff). split; [by apply list_elem_of_In|lia].
    - intros [Hx _]. exists (elem_pid e). split; [by apply list_elem_of_In|].
      apply andb_true_iff. split; [apply Z.ltb_lt; lia|by apply Z.eqb_eq]. }
  unfold restatus, delete_elem. destruct e as [p s]; cbn. by case_bool_decide.
Qed.

(** What [updatePidList] does to the list. *)
Definition updated_list (l : list pid_elem) (new : list Z) : list pid_elem :=
  map (delete_pid new) (foldl add_pid l new).

Lemma updated_list_wf l new : slots_wf l -> u16_list new -> slots_wf (updated_list l new).
Proof.
  intros Hwf Hnew. destruct (add_pids_added new l Hwf Hnew). unfold updated_list.
  rewrite delete_pid_restatus by done. apply slots_wf_restatus; [|done].
  intros e He _. unfold delete_elem. rewrite He. by case_bool_decide.
Qed.

Lemma updated_list_known l new :
  slots_wf l -> u16_list new -> known (updated_list l new) = known l.
Proof.
  intros Hwf Hnew. destruct (add_pids_added new l Hwf Hnew) as [Hwf1 <- _ _ _ _].
  unfold updated_list. rewrite delete_pid_restatus by done. apply set_eq. intros x.
  rewrite pids_with_restatus, elem_of_pids_with. unfold delete_elem.
  split; intros (e & He & <- & Hs); exists e; (split; [done|split; [done|]]);
    case_bool_decide; destruct (elem_status e); done.
Qed.

Lemma updated_list_active l new :
  slots_wf l -> u16_list new ->
  active (updated_list l new) = active (foldl add_pid l new) ∩ asked new.
Proof.
  intros Hwf Hnew. destruct (add_pids_added new l Hwf Hnew) as [Hwf1 _ _ _ _ _].
  unfold updated_list. rewrite delete_pid_restatus by done. apply set_eq. intros x.
  rewrite elem_of_intersection, pids_with_restatus, elem_of_pids_with. unfold delete_elem. split.
  - intros (e & He & <- & Hs). case_bool_decide as Hin; [by eauto|]. by destruct (elem_status e).
  - intros [(e & He & <- & Hs) Hin]. exists e. split; [done|split; [done|]].
    by rewrite bool_decide_eq_true_2.
Qed.

(** ** Pending changes *)

Lemma pending_spec c :
  slots_wf (m_pid_list c) ->
  m_pid_status (updatePidStatus c) = CONFIG_STATUS_PID_STATIONARY
  <-> active (m_pid_list c) = known (m_pid_list c).
Proof.
  intros Hwf. unfold updatePidStatus. set (pending := fun e => _ || _).
  destruct (existsb pending (m_pid_list c)) eqn:Hex; cbn.
  - apply existsb_exists in Hex as (e & He%list_elem_of_In & Hp). split; [done|]. intros Hset.
    pose proof (proj1 (Forall_forall _ _) (slots_range _ Hwf) e He) as [Hr Hinv].
    assert (0 <= elem_pid e) as Hpos.
    { destruct (decide (elem_pid e = -1)) as [Hm|]; [|lia]. revert Hp. unfold pending.
      by rewrite Hinv. }
    assert (elem_pid e ∈ active (m_pid_list c) <-> elem_pid e ∈ known (m_pid_list c)) as Hiff
      by (by rewrite Hset).
    rewrite !elem_of_pids_with in Hiff. unfold pending in Hp.
    destruct (elem_status e) eqn:Hs; try done.
    + destruct Hiff as [Hk _]. destruct Hk as (f & Hf & Hpf & Hsf); [exists e; by rewrite Hs|].
      rewrite (slots_same _ f e Hwf Hf He Hpf) in Hsf by lia. by rewrite Hs in Hsf.
    + destruct Hiff as [_ Hk]. destruct Hk as (f & Hf & Hpf & Hsf); [exists e; by rewrite Hs|].
      rewrite (slots_same _ f e Hwf Hf He Hpf) in Hsf by lia. by rewrite Hs in Hsf.
  - split; [intros _|done]. apply set_eq. intros x. rewrite !elem_of_pids_with.
    assert (forall e, e ∈ m_pid_list c ->
      is_wanted (elem_status e) = is_known (elem_status e)) as Hsame.
    { intros e He. assert (pending e = false) as Hp.
      { destruct (pending e) eqn:Hp; [|done]. rewrite <- Hex. symmetry. apply existsb_exists.
        exists e. split; [by apply list_elem_of_In|done]. }
      revert Hp. unfold pending. by destruct (elem_status e). }
    split; intros (e & He & <- & Hs); exists e; rewrite Hsame in * by done; done.
Qed.

Lemma commit_list_spec l :
  slots_wf l -> slots_wf (map commit_elem l) /\ active (map commit_elem l) = active l
                /\ known (map commit_elem l) = active l.
Proof.
  intros Hwf.
  assert (map commit_elem l = map (restatus (fun e => elem_status (commit_elem e))) l) as ->.
  { apply map_ext. intros [p []]; done. }
  split; [|split].
  - apply slots_wf_restatus; [|done]. by intros [p []].
  - apply set_eq. intros x. rewrite pids_with_restatus, elem_of_pids_with.
    split; intros ([p s] & He & <- & Hs); exists (Elem p s); (split; [done|split; [done|]]);
      by destruct s.
  - apply set_eq. intros x. rewrite pids_with_restatus, elem_of_pids_with.
    split; intros ([p s] & He & <- & Hs); exists (Elem p s); (split; [done|split; [done|]]);
      by destruct s.
Qed.

Lemma clear_list_spec l :
  slots_wf l -> let l' := map (fun e => Elem (elem_pid e) PID_INVALID) l in
  slots_wf l' /\ active l' = ∅ /\ known l' = ∅.
Proof.
  intros Hwf l'. assert (l' = map (restatus (fun _ => PID_INVALID)) l) as -> by done.
  split; [by apply slots_wf_restatus|].
  split; apply set_eq; intros x; rewrite pids_with_restatus; set_solver.
Qed.
