(* ===== verification/ConfigText.v ===== *)
(** What [satipConfig] writes into RTSP requests: [joinNumbers],
    [pls_root2gold], [getTuningData], [getSetupData] and [getPlayData] of
    config.cpp, and the grammar of the query strings they produce. *)

From S2P Require Import Prelude Crc Psi CText OptParser Dvb Config.

(** ** Number lists *)

(** The loop of [joinNumbers]; [first] is [it == values.begin()]. *)
Fixpoint join_loop (hex first : bool) (l : list Z) : text :=
  match l with
  | [] => []
  | n :: l => (if first then [] else str ",") ++ (if hex then hex4 n else dec n)
              ++ join_loop hex false l
  end.

Definition joinNumbers (values : gset Z) (hex : bool) : text :=
  join_loop hex true (set_iter values).

(** ** Scrambling codes *)

(** One step of the x sequence. *)
Definition pls_step (x : Z) : Z :=
  Z.lor (Z.shiftl (Z.land (Z.lxor x (Z.shiftr x 7)) 1) 17) (Z.shiftr x 1).

Fixpoint root2gold_loop (fuel : nat) (root g x : Z) : Z :=
  match fuel with
  | O => 0x3ffff
  | S fuel => if root =? x then g else root2gold_loop fuel root (g + 1) (pls_step x)
  end.

(** The loop runs while [g < 0x3ffff], so that many times at most. *)
Definition pls_root2gold (root : Z) : Z := root2gold_loop (Z.to_nat 0x3ffff) root 0 1.

(** ** The tuning parameters *)

(** A switch that appends a constant. *)
Fixpoint switch (x : Z) (cases : list (Z * string)) (default : string) : text :=
  match cases with
  | [] => str default
  | (label, s) :: cases => if x =? label then str s else switch x cases default
  end.

Section WithDvb.
Context `{DvbConstants}.

Definition freq_text (c : satipConfig) : text :=
  if negb (m_frequency c `mod` 10 =? 0)
  then str "&freq=" ++ dec (m_frequency c / 10) ++ str "." ++ dec (m_frequency c `mod` 10)
  else str "&freq=" ++ dec (m_frequency c / 10).

(** The stream id and the scrambling code of DVB-S2. *)
Definition dvbs2_text (c : satipConfig) : text :=
  let pls_code := u32 (m_pls_code c) in
  let '(isi, pls_code) :=
    if (0 <? m_plpid c) && negb (u32 (m_plpid c) =? NO_STREAM_ID_FILTER) then
      (str "&isi=" ++ dec (Z.land (m_plpid c) 0xff),
       if 255 <? m_plpid c then
         let mode := Z.land (Z.shiftr (m_plpid c) 26) 3 in
         let code := Z.land (Z.shiftr (m_plpid c) 8) 0x3ffff in
         if mode =? 0 then pls_root2gold code else code
       else pls_code)
    else ([], pls_code) in
  isi ++ (if 0 <? pls_code then str "&plsc=" ++ dec pls_code else []).

Definition sat_text (c : satipConfig) : text :=
  str "&src=" ++ dec (m_signal_source c)
  ++ freq_text c
  ++ match m_pol c with
     | CONFIG_POL_HORIZONTAL => str "&pol=h"
     | CONFIG_POL_VERTICAL => str "&pol=v"
     end
  ++ switch (m_msys c) [(SYS_DVBS, "&msys=dvbs"%string); (SYS_DVBS2, "&msys=dvbs2"%string)]
       "&msys=dvbs"
  ++ str "&sr=" ++ dec (m_symrate c)
  ++ switch (m_fec c)
       [(FEC_1_2, "&fec=12"%string); (FEC_2_3, "&fec=23"%string); (FEC_3_4, "&fec=34"%string);
        (FEC_5_6, "&fec=56"%string); (FEC_7_8, "&fec=78"%string); (FEC_8_9, "&fec=89"%string);
        (FEC_3_5, "&fec=35"%string); (FEC_4_5, "&fec=45"%string); (FEC_9_10, "&fec=910"%string)]
       ""
  ++ switch (m_rolloff c)
       [(ROLLOFF_35, "&ro=0.35"%string); (ROLLOFF_20, "&ro=0.20"%string);
        (ROLLOFF_25, "&ro=0.25"%string)] "&ro=0.35"
  ++ switch (m_mtype c) [(QPSK, "&mtype=qpsk"%string); (PSK_8, "&mtype=8psk"%string)]
       "&mtype=qpsk"
  ++ switch (m_pilot c) [(PILOT_ON, "&plts=on"%string); (PILOT_OFF, "&plts=off"%string)] ""
  ++ (if m_msys c =? SYS_DVBS2 then dvbs2_text c else []).

Definition cable_text (c : satipConfig) : text :=
  freq_text c ++ str "&msys=dvbc"
  ++ switch (m_mtype c)
       [(QAM_16, "&mtype=16qam"%string); (QAM_32, "&mtype=32qam"%string);
        (QAM_64, "&mtype=64qam"%string); (QAM_128, "&mtype=128qam"%string);
        (QAM_256, "&mtype=256qam"%string)] ""
  ++ str "&sr=" ++ dec (m_symrate c).

Definition terrestrial_text (c : satipConfig) : text :=
  freq_text c
  ++ switch (m_bandwidth c)
       [(5000000, "&bw=5"%string); (6000000, "&bw=6"%string); (7000000, "&bw=7"%string);
        (8000000, "&bw=8"%string); (10000000, "&bw=10"%string); (1712000, "&bw=1.712"%string)] ""
  ++ switch (m_msys c) [(SYS_DVBT, "&msys=dvbt"%string); (SYS_DVBT2, "&msys=dvbt2"%string)]
       "&msys=dvbt"
  ++ switch (m_transmode c)
       [(TRANSMISSION_MODE_2K, "&tmode=2k"%string); (TRANSMISSION_MODE_8K, "&tmode=8k"%string);
        (TRANSMISSION_MODE_4K, "&tmode=4k"%string); (TRANSMISSION_MODE_1K, "&tmode=1k"%string);
        (TRANSMISSION_MODE_16K, "&tmode=16k"%string);
        (TRANSMISSION_MODE_32K, "&tmode=32k"%string)] ""
  ++ switch (m_mtype c)
       [(QPSK, "&mtype=qpsk"%string); (QAM_16, "&mtype=16qam"%string);
        (QAM_64, "&mtype=64qam"%string); (QAM_256, "&mtype=256qam"%string)] ""
  ++ switch (m_guard_interval c)
       [(GUARD_INTERVAL_1_4, "&gi=14"%string); (GUARD_INTERVAL_1_8, "&gi=18"%string);
        (GUARD_INTERVAL_1_16, "&gi=116"%string); (GUARD_INTERVAL_1_32, "&gi=132"%string);
        (GUARD_INTERVAL_1_128, "&gi=1128"%string); (GUARD_INTERVAL_19_128, "&gi=19128"%string);
        (GUARD_INTERVAL_19_256, "&gi=19256"%string)] ""
  ++ switch (m_fec c)
       [(FEC_1_2, "&fec=12"%string); (FEC_3_5, "&fec=35"%string); (FEC_2_3, "&fec=23"%string);
        (FEC_3_4, "&fec=34"%string); (FEC_4_5, "&fec=45"%string); (FEC_5_6, "&fec=56"%string);
        (FEC_7_8, "&fec=78"%string)] ""
  ++ (if m_msys c =? SYS_DVBT2 then
        if negb (u32 (m_plpid c) =? NO_STREAM_ID_FILTER)
        then str "&plp=" ++ dec (m_plpid c) else []
      else []).

(** For a satellite frontend the pilot setting is stored on the way. *)
Definition getTuningData (c : satipConfig) : text * satipConfig :=
  let fe := if 0 <? m_fe_number (m_settings c)
            then str "&fe=" ++ dec (m_fe_number (m_settings c)) else [] in
  if m_fe_type c =? FE_TYPE_SAT then
    let c := c <| m_pilot := if m_force_plts (m_settings c) then PILOT_ON else PILOT_OFF |> in
    (fe ++ sat_text c, c)
  else if m_fe_type c =? FE_TYPE_CABLE then (fe ++ cable_text c, c)
  else (fe ++ terrestrial_text c, c).

(** The end of both request functions: the leading [&] becomes a [?]. *)
Definition query_start (data : text) : text :=
  match data with
  | [] => []
  | b :: rest => str "?" ++ (if ub b =? 38 then rest else data)
  end.

(** The tuning part of a request: after it the channel counts as told. *)
Definition take_tuning (c : satipConfig) : text * satipConfig :=
  if bool_decide (m_status c = CONFIG_STATUS_CHANNEL_CHANGED) then
    let '(data, c) := getTuningData c in
    (data, c <| m_status := CONFIG_STATUS_CHANNEL_STABLE |>)
  else ([], c).

Definition getSetupData (c : satipConfig) : text * satipConfig :=
  let '(tuning, c) := take_tuning c in
  let '(pids, c) := addCaPids c (collectActivePids c ∅) in
  let c := commitPidStates c in
  let c := c <| m_requested_pids := pids |> in
  let list := if bool_decide (pids <> ∅) then str "&pids=" ++ joinNumbers pids false
              else str "&pids=none" in
  (query_start (tuning ++ list), updatePidStatus c).

(** The pid part of a PLAY: the difference to what the server has. *)
Definition play_pids (c : satipConfig) : text * satipConfig :=
  let '(pids, c) := addCaPids c (collectActivePids c ∅) in
  let c := commitPidStates c in
  let addpids := pids ∖ m_requested_pids c in
  let delpids := m_requested_pids c ∖ pids in
  let c := c <| m_requested_pids := pids |> in
  let add := if bool_decide (addpids <> ∅) then str "&addpids=" ++ joinNumbers addpids false
             else [] in
  let del := if bool_decide (delpids <> ∅) then str "&delpids=" ++ joinNumbers delpids false
             else [] in
  (add ++ del, updatePidStatus c).

(** The tuning part of a PLAY, which starts the pid list over. *)
Definition retune (c : satipConfig) : text * satipConfig :=
  if bool_decide (m_status c = CONFIG_STATUS_CHANNEL_CHANGED) then
    let '(data, c) := take_tuning c in (data, c <| m_requested_pids := ∅ |>)
  else ([], c).

Definition getPlayData (c : satipConfig) : text * satipConfig :=
  let '(tuning, c) := retune c in
  let '(pids, c) := if bool_decide (getPidStatus c = CONFIG_STATUS_PID_CHANGED)
                    then play_pids c else ([], c) in
  (query_start (tuning ++ pids), c).
End WithDvb.

(** ** The grammar of a query string

    [?key=value&key=value...], as the receiver of a request takes it apart. *)

(** The text before and behind the first [=]. *)
Fixpoint parse_param (key p : text) : text * text :=
  match p with
  | [] => (rev key, [])
  | b :: p => if ub b =? 61 then (rev key, p) else parse_param (b :: key) p
  end.

Definition query (data : text) : list (text * text) :=
  match data with
  | b :: rest => if ub b =? 63 then map (parse_param []) (getline_split 38 [] rest) else []
  | [] => []
  end.

Definition render (ps : list (text * text)) : text :=
  concat (map (fun p => str "&" ++ p.1 ++ str "=" ++ p.2) ps).

Definition param_ok (p : text * text) : Prop :=
  free_of 38 p.1 /\ free_of 61 p.1 /\ free_of 38 p.2.

(** The numbers of a comma separated list. *)
Definition numbers (v : text) : list Z :=
  map (fun s => fst (read_digits 10 0 s)) (getline_split 44 [] v).

Lemma parse_param_render k v : forall key, free_of 61 k ->
  parse_param key (k ++ str "=" ++ v) = (rev key ++ k, v).
Proof.
  induction k as [|b k IH]; intros key Hk; [by rewrite app_nil_r|].
  apply Forall_cons in Hk as [Hb Hk]. cbn [app parse_param].
  rewrite (proj2 (Z.eqb_neq _ _)) by done. rewrite IH by done. cbn [rev].
  by rewrite <- app_assoc.
Qed.

(** The pieces of a rendered query are its parameters. *)
Lemma split_render ps : Forall param_ok ps ->
  forall p, param_ok p ->
  map (parse_param []) (getline_split 38 [] (p.1 ++ str "=" ++ p.2 ++ render ps)) = p :: ps.
Proof.
  induction 1 as [|q ps Hq Hps IH]; intros [k v] (Hk & Hk61 & Hv); cbn [fst snd] in *.
  - cbn [render concat map]. rewrite app_nil_r, getline_split_last.
    + cbn [map]. by rewrite parse_param_render.
    + apply free_of_app. split; [done|]. apply free_of_app. split; [|done].
      by apply Forall_singleton.
    + by destruct k.
  - replace (k ++ str "=" ++ v ++ render (q :: ps))
      with ((k ++ str "=" ++ v) ++ x26 :: (q.1 ++ str "=" ++ q.2 ++ render ps)).
    2: { unfold render. cbn [map concat]. by rewrite <- !app_assoc. }
    rewrite getline_split_cons; [|apply free_of_app; split; [done|apply free_of_app; split;
      [by apply Forall_singleton|done]]|done].
    cbn [map]. rewrite parse_param_render by done. by rewrite IH.
Qed.

Lemma query_render ps : Forall param_ok ps -> query (query_start (render ps)) = ps.
Proof.
  intros Hps. destruct Hps as [|p ps Hp Hps]; [done|].
  change (query (query_start (render (p :: ps)))) with
    (map (parse_param []) (getline_split 38 [] ((p.1 ++ str "=" ++ p.2) ++ render ps))).
  rewrite <- !app_assoc. by apply split_render.
Qed.

Lemma render_app ps qs : render (ps ++ qs) = render ps ++ render qs.
Proof. unfold render. by rewrite map_app, concat_app. Qed.

(** ** Numbers in the list *)

Lemma numbers_cons n l : 0 <= n -> Forall (fun x => 0 <= x) l ->
  numbers (dec n ++ join_loop false false l) = n :: l.
Proof.
  intros Hn Hl. revert n Hn. induction Hl as [|m l Hm Hl IH]; intros n Hn; unfold numbers.
  - destruct (dec_digits n Hn) as (Hd & Hne & Hv). cbn [join_loop]. rewrite app_nil_r.
    rewrite getline_split_last by (done || (apply digits_free; [lia|done])). cbn [map]. by rewrite Hv.
  - destruct (dec_digits n Hn) as (Hd & Hne & Hv). cbn [join_loop].
    change (dec n ++ str "," ++ dec m ++ join_loop false false l)
      with (dec n ++ x2c :: (dec m ++ join_loop false false l)).
    rewrite getline_split_cons by (done || (apply digits_free; [lia|done])).
    cbn [map]. rewrite Hv. f_equal. by apply IH.
Qed.

Lemma numbers_joinNumbers s : s <> ∅ -> (forall x, x ∈ s -> 0 <= x) ->
  numbers (joinNumbers s false) = set_iter s.
Proof.
  intros Hne Hs. unfold joinNumbers. assert (Forall (fun x => 0 <= x) (set_iter s)) as Hall.
  { apply Forall_forall. intros x Hx. apply Hs. by apply elem_of_set_iter. }
  destruct (set_iter s) as [|n l] eqn:E; [by apply set_iter_nil in E|].
  apply Forall_cons in Hall as [Hn Hl]. by apply numbers_cons.
Qed.

Lemma join_loop_free c first l :
  ~ (48 <= c <= 57) -> c <> 44 -> c <> 45 -> Forall (fun x => 0 <= x) l ->
  free_of c (join_loop false first l).
Proof.
  intros Hc Hc44 Hc45 Hl. revert first. induction Hl as [|n l Hn Hl IH]; intros first;
    [by apply Forall_nil|].
  cbn [join_loop]. apply free_of_app. split.
  - destruct first; [by apply Forall_nil|]. apply Forall_singleton. cbn. lia.
  - apply free_of_app. split; [by apply dec_free|done].
Qed.

(** ** The tuning text consists of parameters *)

(** The keys of the pid lists, which no tuning parameter uses. *)
Definition pid_keys : list text := [str "pids"; str "addpids"; str "delpids"].

Definition tuning_param (p : text * text) : Prop := param_ok p /\ p.1 ∉ pid_keys.

Definition param_text (t : text) : Prop :=
  exists ps, t = render ps /\ Forall tuning_param ps.

(** A constant [&key=value], checked by computation. *)
Definition is_param (s : text) : bool :=
  match s with
  | b :: rest =>
    let '(k, v) := parse_param [] rest in
    (ub b =? 38) && bool_decide (s = str "&" ++ k ++ str "=" ++ v)
    && bool_decide (tuning_param (k, v))
  | [] => true
  end.

Lemma param_text_value s v :
  is_param s = true -> s <> [] -> free_of 38 v -> param_text (s ++ v).
Proof.
  intros Hs Hne Hv. destruct s as [|b rest]; [done|]. unfold is_param in Hs.
  destruct (parse_param [] rest) as [k v0]. apply andb_true_iff in Hs as [[_ Hs]%andb_true_iff Hp].
  apply bool_decide_eq_true in Hs, Hp. destruct Hp as ((Hk & Hk61 & Hv0) & Hkey). rewrite Hs.
  exists [(k, v0 ++ v)]. split.
  - unfold render. cbn [map concat fst snd]. by rewrite app_nil_r, <- !app_assoc.
  - apply Forall_singleton. split; [|done]. split_and!; [done..|]. by apply free_of_app.
Qed.

Lemma param_text_nil : param_text [].
Proof. exists []. split; [done|by apply Forall_nil]. Qed.

Lemma param_text_const s : is_param s = true -> param_text s.
Proof.
  intros Hs. destruct s as [|b s]; [apply param_text_nil|].
  rewrite <- (app_nil_r (b :: s)). apply param_text_value; [done..|by apply Forall_nil].
Qed.

Lemma param_text_app s t : param_text s -> param_text t -> param_text (s ++ t).
Proof.
  intros (ps & -> & Hps) (qs & -> & Hqs). exists (ps ++ qs). rewrite render_app.
  split; [done|]. by apply Forall_app.
Qed.

Lemma param_text_switch x cases d :
  forallb (fun p => is_param (str p.2)) cases = true -> is_param (str d) = true ->
  param_text (switch x cases d).
Proof.
  intros Hc Hd. induction cases as [|[l s] cases IH]; [by apply param_text_const|].
  apply andb_true_iff in Hc as [Hs Hc]. cbn [switch].
  destruct (x =? l); [by apply param_text_const|by apply IH].
Qed.

Lemma param_text_dec s n :
  is_param s = true -> s <> [] -> param_text (s ++ dec n).
Proof. intros Hs Hne. apply param_text_value; [done..|]. apply dec_free; lia. Qed.

(** Takes a concatenation apart, down to the pieces above. *)
Ltac param_pieces :=
  repeat first
    [ assumption
    | apply param_text_nil
    | apply param_text_dec; [reflexivity|discriminate]
    | apply param_text_switch; reflexivity
    | apply param_text_const; reflexivity
    | match goal with |- context [if ?b then _ else _] => destruct b end
    | apply param_text_app ].

Section Tuning.
Context `{DvbConstants}.

Lemma freq_text_params c : param_text (freq_text c).
Proof.
  unfold freq_text. destruct (negb _); [|param_pieces]. apply param_text_value; [done..|].
  apply free_of_app. split; [apply dec_free; lia|]. apply free_of_app.
  split; [by apply Forall_singleton|apply dec_free; lia].
Qed.

Lemma dvbs2_text_params c : param_text (dvbs2_text c).
Proof. unfold dvbs2_text. destruct (_ && _); param_pieces. Qed.

Lemma sat_text_params c : param_text (sat_text c).
Proof.
  pose proof (freq_text_params c). pose proof (dvbs2_text_params c).
  unfold sat_text. rewrite !(app_assoc (str _) (dec _)). destruct (m_pol c); param_pieces.
Qed.

Lemma cable_text_params c : param_text (cable_text c).
Proof. pose proof (freq_text_params c). unfold cable_text. param_pieces. Qed.

Lemma terrestrial_text_params c : param_text (terrestrial_text c).
Proof. pose proof (freq_text_params c). unfold terrestrial_text. param_pieces. Qed.

Lemma getTuningData_params c : param_text (getTuningData c).1.
Proof.
  unfold getTuningData. set (c' := c <| m_pilot := _ |>).
  pose proof (sat_text_params c'). pose proof (cable_text_params c).
  pose proof (terrestrial_text_params c).
  destruct (_ =? FE_TYPE_SAT); [|destruct (_ =? FE_TYPE_CABLE)]; cbn [fst]; param_pieces.
Qed.
End Tuning.

(** ** What a request does to the configuration *)

Section Requests.
Context `{DvbConstants}.

(** Everything about pids, which the tuning part leaves alone. *)
Definition same_pids (c d : satipConfig) : Prop :=
  m_pid_list d = m_pid_list c /\ m_requested_pids d = m_requested_pids c /\
  m_ca_pids d = m_ca_pids c /\ m_ca_dirty d = m_ca_dirty c /\
  m_pid_status d = m_pid_status c /\
  same_wakeup c d.

Lemma same_pids_woken c d : same_pids c d -> woken c d.
Proof. intros (_ & _ & _ & _ & _ & Hw). by apply same_wakeup_woken. Qed.

Lemma take_tuning_spec c :
  let r := take_tuning c in
  param_text r.1 /\ same_pids c r.2 /\
  m_status r.2 = (if bool_decide (m_status c = CONFIG_STATUS_CHANNEL_CHANGED)
                  then CONFIG_STATUS_CHANNEL_STABLE else m_status c).
Proof.
  unfold take_tuning. case_bool_decide as Hs; [|by split; [apply param_text_nil|]].
  pose proof (getTuningData_params c) as Ht. unfold getTuningData in *.
  destruct (_ =? FE_TYPE_SAT); [|destruct (_ =? FE_TYPE_CABLE)]; done.
Qed.

(** The pids a request wants the server to send. *)
Definition wanted_pids (c : satipConfig) : gset Z := active (m_pid_list c) ∪ m_ca_pids c.

(** After a request that tells the server the pids. *)
Record told (c d : satipConfig) : Prop := {
  told_list : m_pid_list d = map commit_elem (m_pid_list c);
  told_requested : m_requested_pids d = wanted_pids c;
  told_ca : m_ca_pids d = m_ca_pids c;
  told_clean : m_ca_dirty d = false;
  told_status : m_status d = m_status c;
  told_wakeup : same_wakeup c d
}.

Lemma updatePidStatus_told c d : told c d -> told c (updatePidStatus d).
Proof.
  intros []. unfold updatePidStatus.
  destruct (existsb _ _); by constructor.
Qed.

Lemma play_pids_told c : told c (play_pids c).2.
Proof.
  unfold play_pids. rewrite collectActivePids_spec. apply updatePidStatus_told.
  constructor; cbn; try done. unfold wanted_pids. set_solver.
Qed.

(** The committed list has nothing pending. *)
Lemma told_settled c d :
  slots_wf (m_pid_list c) -> told c d ->
  slots_wf (m_pid_list d) /\ active (m_pid_list d) = active (m_pid_list c) /\
  known (m_pid_list d) = active (m_pid_list c) /\
  wanted_pids d = wanted_pids c.
Proof.
  intros Hwf []. rewrite told_list0. destruct (commit_list_spec _ Hwf) as (? & Ha & ?).
  split; [done|]. split; [done|]. split; [done|]. unfold wanted_pids.
  by rewrite told_list0, told_ca0, Ha.
Qed.

Lemma told_stationary c d e :
  slots_wf (m_pid_list c) -> told c d -> d = updatePidStatus e -> m_pid_list e = m_pid_list d ->
  m_pid_status d = CONFIG_STATUS_PID_STATIONARY.
Proof.
  intros Hwf Ht -> He. destruct (told_settled _ _ Hwf Ht) as (Hw & Ha & Hk & _).
  rewrite <- He in Hw, Ha, Hk. apply pending_spec; [done|]. congruence.
Qed.
End Requests.

(** ** The server's side *)

Fixpoint field (k : text) (q : list (text * text)) : option text :=
  match q with
  | [] => None
  | (k', v) :: q => if bool_decide (k' = k) then Some v else field k q
  end.

(** A pid list parameter; a missing one and [none] are empty. *)
Definition field_pids (k : text) (q : list (text * text)) : gset Z :=
  match field k q with
  | None => ∅
  | Some v => if bool_decide (v = str "none") then ∅ else list_to_set (numbers v)
  end.

(** A SETUP defines the pids; a PLAY changes them, and a server that retunes
    starts from none. *)
Definition server_setup (q : list (text * text)) : gset Z := field_pids (str "pids") q.
Definition server_play (retuned : bool) (q : list (text * text)) (s : gset Z) : gset Z :=
  ((if retuned then ∅ else s) ∪ field_pids (str "addpids") q) ∖ field_pids (str "delpids") q.

Lemma field_tuning k ps q :
  Forall tuning_param ps -> k ∈ pid_keys -> field k (ps ++ q) = field k q.
Proof.
  intros Hps Hk. induction Hps as [|[k' v] ps [_ Hkey] _ IH]; [done|].
  cbn [app field]. rewrite bool_decide_eq_false_2; [done|]. intros ->. done.
Qed.

Lemma field_pids_tuning k ps q :
  Forall tuning_param ps -> k ∈ pid_keys -> field_pids k (ps ++ q) = field_pids k q.
Proof. intros Hps Hk. unfold field_pids. by rewrite field_tuning. Qed.

Lemma join_not_none s : (forall x, x ∈ s -> 0 <= x) -> joinNumbers s false <> str "none".
Proof.
  intros Hs Heq. assert (free_of 110 (joinNumbers s false)) as Hf.
  { unfold joinNumbers. apply join_loop_free; [lia..|].
    apply Forall_forall. intros x Hx. apply Hs. by apply elem_of_set_iter. }
  rewrite Heq in Hf. apply Forall_cons in Hf as [Hn _]. by apply Hn.
Qed.

(** The pid list parameter of a set is read back as the set. *)
Lemma field_pids_join k s q :
  s <> ∅ -> (forall x, x ∈ s -> 0 <= x) ->
  field_pids k ((k, joinNumbers s false) :: q) = s.
Proof.
  intros Hne Hs. unfold field_pids. cbn [field]. rewrite bool_decide_eq_true_2 by done.
  rewrite bool_decide_eq_false_2 by by apply join_not_none.
  rewrite numbers_joinNumbers by done. apply set_eq. intros x.
  by rewrite elem_of_list_to_set, elem_of_set_iter.
Qed.

Lemma pid_param_ok k s :
  k ∈ pid_keys -> (forall x, x ∈ s -> 0 <= x) -> param_ok (k, joinNumbers s false).
Proof.
  intros Hk Hs. assert (free_of 38 k /\ free_of 61 k) as [Hk38 Hk61].
  { unfold pid_keys in Hk. repeat (apply elem_of_cons in Hk as [->|Hk]; [split; repeat constructor; done|]).
    by apply elem_of_nil in Hk. }
  split_and!; [done..|]. unfold joinNumbers. apply join_loop_free; [cbn; lia..|].
  apply Forall_forall. intros x Hx. apply Hs. by apply elem_of_set_iter.
Qed.

(** The parameters of a pid list that may be left out. *)
Definition optional_pids (k : text) (s : gset Z) : list (text * text) :=
  if bool_decide (s <> ∅) then [(k, joinNumbers s false)] else [].

Lemma optional_pids_render k s :
  (if bool_decide (s <> ∅) then (str "&" ++ k ++ str "=") ++ joinNumbers s false else [])
  = render (optional_pids k s).
Proof.
  unfold optional_pids. case_bool_decide; [|done]. unfold render. cbn [map concat fst snd].
  by rewrite app_nil_r, <- !app_assoc.
Qed.

Lemma optional_pids_ok k s :
  k ∈ pid_keys -> (forall x, x ∈ s -> 0 <= x) -> Forall param_ok (optional_pids k s).
Proof.
  intros Hk Hs. unfold optional_pids. case_bool_decide; [|done].
  apply Forall_singleton. by apply pid_param_ok.
Qed.

Lemma field_pids_optional k s q :
  (forall x, x ∈ s -> 0 <= x) -> field k q = None -> field_pids k (optional_pids k s ++ q) = s.
Proof.
  intros Hs Hq. unfold optional_pids. case_bool_decide as Hne; [by apply field_pids_join|].
  cbn. unfold field_pids. by rewrite Hq.
Qed.

Lemma field_optional_ne k k' s q : k <> k' -> field k (optional_pids k' s ++ q) = field k q.
Proof.
  intros Hk. unfold optional_pids. case_bool_decide; [|done]. cbn.
  by rewrite bool_decide_eq_false_2.
Qed.

Lemma tuning_params_ok ps : Forall tuning_param ps -> Forall param_ok ps.
Proof. intros Hps. eapply Forall_impl; [exact Hps|]. by intros p []. Qed.

Section Requested.
Context `{DvbConstants}.

Lemma getSetupData_query c :
  (forall x, x ∈ wanted_pids c -> 0 <= x) ->
  server_setup (query (getSetupData c).1) = wanted_pids c.
Proof.
  intros Hpos. unfold getSetupData.
  destruct (take_tuning_spec c) as ((ps & Hps & Hok) & (Hl & _ & Hca & _) & _).
  destruct (take_tuning c) as [tuning c1]. cbn [fst snd] in *. subst tuning.
  rewrite collectActivePids_spec. unfold addCaPids. cbn [fst].
  rewrite union_empty_l_L, Hl, Hca. fold (wanted_pids c). set (w := wanted_pids c) in *.
  set (v := if bool_decide (w <> ∅) then joinNumbers w false else str "none").
  assert ((if bool_decide (w <> ∅) then str "&pids=" ++ joinNumbers w false
           else str "&pids=none") = render [(str "pids", v)]) as ->.
  { unfold v, render. case_bool_decide; cbn [map concat fst snd]; by rewrite app_nil_r. }
  rewrite <- render_app, query_render.
  - unfold server_setup, field_pids. rewrite field_tuning by (done || by left).
    cbn [field]. rewrite bool_decide_eq_true_2 by done. destruct (decide (w = ∅)) as [He|Hne].
    + assert (v = str "none") as ->
        by (unfold v; rewrite bool_decide_eq_false_2; [done|by intros Hn]).
      by rewrite bool_decide_eq_true_2.
    + assert (v = joinNumbers w false) as -> by (unfold v; by rewrite bool_decide_eq_true_2).
      rewrite bool_decide_eq_false_2 by by apply join_not_none.
      rewrite numbers_joinNumbers by done. apply set_eq. intros x.
      by rewrite elem_of_list_to_set, elem_of_set_iter.
  - apply Forall_app. split; [by apply tuning_params_ok|]. apply Forall_singleton.
    unfold v. case_bool_decide; [by apply pid_param_ok; [left|]|].
    split_and!; repeat constructor; done.
Qed.

Lemma play_pids_query c :
  (play_pids c).1 = render (optional_pids (str "addpids") (wanted_pids c ∖ m_requested_pids c)
                         ++ optional_pids (str "delpids") (m_requested_pids c ∖ wanted_pids c)).
Proof.
  unfold play_pids. rewrite collectActivePids_spec. unfold addCaPids. cbn [fst].
  rewrite union_empty_l_L. change (active (m_pid_list c) ∪ m_ca_pids c) with (wanted_pids c).
  rewrite render_app, <- !optional_pids_render. done.
Qed.

Lemma retune_spec c :
  let changed := bool_decide (m_status c = CONFIG_STATUS_CHANNEL_CHANGED) in
  exists ps, (retune c).1 = render ps /\ Forall tuning_param ps /\
    wanted_pids (retune c).2 = wanted_pids c /\
    m_requested_pids (retune c).2 = (if changed then ∅ else m_requested_pids c) /\
    getPidStatus (retune c).2 = getPidStatus c /\
    m_pid_list (retune c).2 = m_pid_list c /\
    m_status (retune c).2 = (if changed then CONFIG_STATUS_CHANNEL_STABLE
                             else m_status c).
Proof.
  intros changed. unfold retune. fold changed.
  destruct (take_tuning_spec c) as ((ps & Hps & Hok) & (Hl & Hr & Hca & Hd & Hs & _) & Hst).
  fold changed in Hst. destruct changed.
  - destruct (take_tuning c) as [tuning c1]. cbn [fst snd] in *. subst tuning.
    exists ps. split_and!; try done.
    + unfold wanted_pids. cbn. by rewrite Hl, Hca.
    + unfold getPidStatus. cbn. by rewrite Hs, Hd.
  - exists []. split_and!; done.
Qed.

Lemma getPlayData_query c :
  (forall x, x ∈ wanted_pids c -> 0 <= x) -> (forall x, x ∈ m_requested_pids c -> 0 <= x) ->
  getPidStatus c = CONFIG_STATUS_PID_CHANGED ->
  server_play (bool_decide (m_status c = CONFIG_STATUS_CHANNEL_CHANGED))
    (query (getPlayData c).1) (m_requested_pids c) = wanted_pids c.
Proof.
  intros Hpos Hreq Hchg. unfold getPlayData.
  destruct (retune_spec c) as (qs & Heq & Hqs & Hw & Ho & Hst & _).
  rewrite (surjective_pairing (retune c)), Heq. set (c1 := (retune c).2) in *.
  set (old := if bool_decide _ then ∅ else m_requested_pids c) in *.
  rewrite Hst, Hchg.
  rewrite (bool_decide_eq_true_2 (CONFIG_STATUS_PID_CHANGED = CONFIG_STATUS_PID_CHANGED)) by done.
  rewrite (surjective_pairing (play_pids c1)), play_pids_query, Hw, Ho. cbn [fst].
  assert (forall x, x ∈ old -> 0 <= x) as Hold by (unfold old; destruct (bool_decide _); set_solver).
  set (add := wanted_pids c ∖ old). set (del := old ∖ wanted_pids c).
  assert (forall x, x ∈ add -> 0 <= x) by set_solver.
  assert (forall x, x ∈ del -> 0 <= x) by set_solver.
  rewrite <- render_app, query_render.
  - unfold server_play. assert (str "addpids" <> str "delpids") by done.
    assert (str "delpids" <> str "addpids") by done.
    rewrite <- (app_nil_r (optional_pids (str "delpids") del)).
    assert (field_pids (str "addpids") (qs ++ optional_pids (str "addpids") add
              ++ optional_pids (str "delpids") del ++ []) = add) as ->.
    { rewrite field_pids_tuning by (done || (right; left)).
      apply field_pids_optional; [done|]. by rewrite field_optional_ne. }
    assert (field_pids (str "delpids") (qs ++ optional_pids (str "addpids") add
              ++ optional_pids (str "delpids") del ++ []) = del) as ->.
    { rewrite field_pids_tuning by (done || (do 2 right; left)).
      unfold field_pids at 1. rewrite field_optional_ne by done.
      by apply (field_pids_optional (str "delpids") del []). }
    fold old. clear -add. apply set_eq. intros x. unfold add, del. destruct (decide (x ∈ old)), (decide (x ∈ wanted_pids c)); set_solver.
  - apply Forall_app. split; [by apply tuning_params_ok|]. apply Forall_app.
    split; apply optional_pids_ok; try done; [right; left|do 2 right; left].
Qed.
End Requested.
