(* ===== verification/PsiProps.v ===== *)
(** The properties of the PSI parser: it is safe on any input, it asks for the
    pids the tables and the kernel's pids call for, sections are learned from
    the stream whatever way they are cut into packets, and damaged sections
    are not learned. *)

From S2P Require Import Prelude Crc Psi PsiFormat PsiFeed CText OptParser Dvb Config.

(** ** Shared lemmas *)

(** What the service handlers store is read by [wanted] through these fields. *)
Lemma wanted_ext p q x :
  m_emm_enabled p = m_emm_enabled q -> m_emm_pids p = m_emm_pids q ->
  m_pat_pmt_pids p = m_pat_pmt_pids q -> m_pmt p = m_pmt q ->
  m_joined_pids p = m_joined_pids q -> wanted p x -> wanted q x.
Proof.
  intros He Hm Hp Ht Hj. unfold wanted, service_active. by rewrite He, Hm, Hp, Ht, Hj.
Qed.

Lemma recompute_fields `{CaSink C} p (cfg : option C) :
  let q := (recompute p cfg).1 in
  m_emm_enabled q = m_emm_enabled p /\ m_emm_pids q = m_emm_pids p /\
  m_pat_pmt_pids q = m_pat_pmt_pids p /\ m_pmt q = m_pmt p /\
  m_joined_pids q = m_joined_pids p /\ m_pat_sections q = m_pat_sections p /\
  m_watched_pids q = watched_of p.
Proof.
  pose proof (recompute_sets_watched p) as Hw. unfold recompute.
  destruct (recompute_sets p) as [d w]. cbn [snd] in Hw. subst w. by case_bool_decide.
Qed.

Lemma wanted_recompute `{CaSink C} p (cfg : option C) x :
  wanted (recompute p cfg).1 x <-> wanted p x.
Proof.
  destruct (recompute_fields p cfg) as (He & Hm & Hp & Ht & Hj & _).
  split; apply wanted_ext; done.
Qed.

(** The pids [derived_of] keeps: all that are wanted, or the 32 smallest. *)
Definition best_wanted (p : satipPSI) (s : gset Z) : Prop :=
  (forall x, x ∈ s -> wanted p x) /\
  (forall x, wanted p x -> x ∉ s ->
     size s = PSI_MAX_DERIVED_PIDS /\ forall y, y ∈ s -> y < x).

Lemma derived_of_best p : best_wanted p (derived_of p).
Proof.
  unfold derived_of. split.
  - intros x Hx%set_take_subseteq. by apply recompute_sets_derived.
  - intros x Hx Hout. apply recompute_sets_derived in Hx. split.
    + rewrite size_set_take. destruct (decide (size (recompute_sets p).1 <= PSI_MAX_DERIVED_PIDS)%nat)
        as [Hle|]; [|lia]. by rewrite set_take_all in Hout.
    + intros y Hy. by apply (set_take_below PSI_MAX_DERIVED_PIDS (recompute_sets p).1).
Qed.

Lemma best_wanted_recompute `{CaSink C} p (cfg : option C) :
  best_wanted (recompute p cfg).1 (m_derived_pids (recompute p cfg).1).
Proof.
  rewrite recompute_derived. destruct (derived_of_best p) as [Hin Hout]. split.
  - intros x Hx. by apply wanted_recompute, Hin.
  - intros x Hx%wanted_recompute. by apply Hout.
Qed.

(** ** One packet that carries a section *)

(** The tables of a parser. *)
Definition same_tables (p q : satipPSI) : Prop :=
  m_emm_enabled q = m_emm_enabled p /\ m_caid_filter q = m_caid_filter p /\
  m_joined_pids q = m_joined_pids p /\ m_pat_version q = m_pat_version p /\
  m_cat_version q = m_cat_version p /\ m_pat_sections q = m_pat_sections p /\
  m_cat_sections q = m_cat_sections p /\ m_pat_pmt_pids q = m_pat_pmt_pids p /\
  m_emm_pids q = m_emm_pids p /\ m_pmt q = m_pmt p.

Lemma same_tables_recompute `{CaSink C} p (cfg : option C) : same_tables p (recompute p cfg).1.
Proof. unfold recompute. destruct (recompute_sets p) as [d w]. by case_bool_decide. Qed.

(** [p] after the statistics of one more packet. *)
Definition counted (p : satipPSI) (t0 : Z) : satipPSI :=
  let p := if negb (m_saw_data p) then p <| m_saw_data := true |> <| m_last_stats := t0 |>
           else p in
  p <| m_ts_packets := u64 (m_ts_packets p + 1) |>.

Lemma ts_loop_one `{CaSink C} p (cfg : option C) pkt q reached :
  zlen pkt = 188 -> rd pkt 0 = Some 0x47 -> ts_packet p pkt = Some (q, reached) ->
  ts_loop (S (Z.to_nat 188)) p cfg pkt 188 0
  = Some (if reached && m_dirty q then recompute (q <| m_dirty := false |>) cfg else (q, cfg)).
Proof.
  intros Hlen Hsync Hp. change (S (Z.to_nat 188)) with (S (S 187)). cbn [ts_loop].
  change (0 + TS_PACKET_SIZE <=? 188) with true. cbv iota. change (ptr_add pkt 0) with pkt.
  rewrite Hsync. cbn [mbind option_bind]. change (negb (71 =? 71)) with false. cbv iota.
  rewrite Hp. cbn [mbind option_bind]. by destruct (if reached && m_dirty q then _ else _).
Qed.

Lemma processTS_section `{CaSink C} p (cfg : option C) pid cc sec t0 t1 q :
  0 <= pid < 0x2000 -> 0 <= cc < 16 -> good_section sec -> zlen sec <= 183 ->
  pid ∈ m_watched_pids p -> assembler_of p pid = sa_idle ->
  handleSection (counted p t0) pid sec (zlen sec) = Some q ->
  exists r, processTS p cfg (section_packet pid cc sec) 188 t0 t1 = Some r /\
    same_tables q r.1 /\ (m_dirty q = true -> best_wanted r.1 (m_derived_pids r.1)) /\
    (m_dirty q = false -> m_derived_pids r.1 = m_derived_pids q /\ r.2 = cfg).
Proof.
  intros Hpid Hcc Hg Hlen Hw Hasm Hq. unfold processTS, counted in *.
  set (p1 := if negb (m_saw_data p) then _ else p) in *.
  assert (m_watched_pids p1 = m_watched_pids p /\ assembler_of p1 pid = assembler_of p pid)
    as [Hw1 Ha1] by (unfold p1; by destruct (m_saw_data p)).
  pose proof (ts_packet_section p1 pid cc sec Hpid Hcc Hg Hlen) as Hpkt. cbn zeta in Hpkt.
  rewrite Hw1, Ha1 in Hpkt. specialize (Hpkt Hw Hasm). rewrite Hq in Hpkt. cbn [fmap option_fmap option_map] in Hpkt.
  set (q1 := with_asm _ q) in Hpkt.
  rewrite (ts_loop_one p1 cfg _ q1 true); [|by apply zlen_section_packet|done|done].
  cbn [mbind option_bind andb].
  set (r := if m_dirty q1 then _ else _). exists (let '(psi, cfg) := r in
    (if 60 <=? t1 - m_last_stats psi then psi <| m_last_stats := t1 |> else psi, cfg)).
  split; [by destruct r|].
  assert (same_tables q r.1 /\ (m_dirty q = true -> best_wanted r.1 (m_derived_pids r.1)) /\
    (m_dirty q = false -> m_derived_pids r.1 = m_derived_pids q /\ r.2 = cfg)) as (Hs & Hb & Hd).
  { unfold r. change (m_dirty q1) with (m_dirty q). destruct (m_dirty q); [|done].
    split; [|split; [intros _; apply best_wanted_recompute|done]].
    pose proof (same_tables_recompute (q1 <| m_dirty := false |>) cfg) as Hrec. exact Hrec. }
  destruct r as [psi cfg']. cbn [fst snd] in *. by destruct (60 <=? _).
Qed.

Lemma counted_tables p t0 : same_tables p (counted p t0).
Proof. unfold counted. by destruct (m_saw_data p). Qed.

Lemma pmt_ecm_pids_filter p q pds xs :
  m_caid_filter p = m_caid_filter q -> pmt_ecm_pids p pds xs = pmt_ecm_pids q pds xs.
Proof.
  intros Hpq. unfold pmt_ecm_pids, stream_ecm_pids. rewrite (ca_pids_of_filter p q) by done.
  do 2 f_equal. apply list_fmap_ext. intros _ x _. by apply ca_pids_of_filter.
Qed.

(** The handler on a PMT: the entry of the service, and whether something is to
    be reported. *)
Lemma handleSection_pmt p pid e v s l pcr pds xs t0 :
  let body := encode_pmt pcr pds xs in
  let sec := encode_section x02 e v s l body in
  let old := default pmt_info_new (m_pmt p !! pid) in
  let new := if version old =? v then old else PMT v (pmt_ecm_pids p pds xs) (stream_pids xs) in
  m_dirty p = false -> section_wf v s body -> pid <> PSI_PID_PAT -> pid <> PSI_PID_CAT ->
  pmt_body_wf pcr pds xs ->
  exists q, handleSection (counted p t0) pid sec (zlen sec) = Some q /\
    m_dirty q = bool_decide (ecm_pids new <> ecm_pids old) /\
    (m_joined_pids q = m_joined_pids p /\ m_pat_pmt_pids q = m_pat_pmt_pids p) /\
    m_derived_pids q = m_derived_pids p /\ m_pmt q = <[pid := new]> (m_pmt p).
Proof.
  intros body sec old new Hd Hsec Hpat Hcat Hpmt.
  pose proof (handleSection_encode (counted p t0) pid x02 e v s l body Hsec) as Hh.
  cbn zeta in Hh. fold sec in Hh.
  rewrite (proj2 (Z.eqb_neq pid PSI_PID_PAT) Hpat), (proj2 (Z.eqb_neq pid PSI_PID_CAT) Hcat) in Hh.
  change (ub x02 =? 2) with true in Hh. cbv iota in Hh. rewrite Hh. clear Hh.
  set (p' := _ <| m_sections := _ |>).
  pose proof (parsePMT_encode p' pid x02 e v s l pcr pds xs Hsec Hpmt) as Hq. cbn zeta in Hq.
  fold body sec in Hq. rewrite Hq. clear Hq.
  destruct (counted_tables p t0) as (_ & Hfil & Hj & _ & _ & _ & _ & Hpp & _ & Hpm).
  assert (m_dirty p' = false /\ m_derived_pids p' = m_derived_pids p) as [Hd' Hder]
    by (subst p'; unfold counted; by destruct (m_saw_data p)).
  change (m_pmt p') with (m_pmt (counted p t0)). rewrite Hpm. fold old.
  assert (pmt_update p' old v pds xs = new) as ->.
  { unfold pmt_update. by rewrite (pmt_ecm_pids_filter p' p) by done. }
  eexists. split; [reflexivity|]. rewrite Hd'. cbn [orb]. split_and!; try done.
  apply bool_decide_ext. naive_solver.
Qed.

(** ** The cleared parser *)

Definition cleared (p : satipPSI) : satipPSI := (clearState p) <| m_joined_pids := ∅ |>.

Definition base_pids (p : satipPSI) : gset Z :=
  {[PSI_PID_PAT]} ∪ (if m_emm_enabled p then {[PSI_PID_CAT]} else ∅).

Lemma keep_keys_empty {A} (s : gset Z) : keep_keys (∅ : gmap Z A) s = ∅.
Proof. apply map_filter_empty. Qed.

Lemma recompute_assembler `{CaSink C} p (cfg : option C) :
  m_assembler (recompute p cfg).1 = keep_keys (m_assembler p) (watched_of p).
Proof.
  pose proof (recompute_sets_watched p) as Hw. unfold recompute.
  destruct (recompute_sets p) as [d w]. cbn [snd] in Hw. subst w. by case_bool_decide.
Qed.

Lemma watched_of_cleared p : watched_of (cleared p) = base_pids p.
Proof. unfold watched_of, base_pids, cleared, clearState. cbn. set_solver. Qed.

Lemma wanted_cleared p x : wanted (cleared p) x <-> x ∈ base_pids p.
Proof.
  unfold wanted, base_pids, cleared, clearState. cbn. destruct (m_emm_enabled p); set_solver.
Qed.

Lemma size_base_pids p : (size (base_pids p) <= 2)%nat.
Proof.
  unfold base_pids. destruct (m_emm_enabled p); apply (bool_decide_unpack _); vm_compute; exact I.
Qed.

Lemma derived_of_cleared p : derived_of (cleared p) = base_pids p.
Proof.
  assert ((recompute_sets (cleared p)).1 = base_pids p) as Hs.
  { apply set_eq. intros x. by rewrite recompute_sets_derived, wanted_cleared. }
  unfold derived_of. rewrite Hs. apply set_take_all. pose proof (size_base_pids p).
  unfold PSI_MAX_DERIVED_PIDS. lia.
Qed.

(** ** A parser to instantiate the theorems with

    It has seen a PAT with one service on pmt pid 0x100; the kernel joined the
    elementary stream 0x101. *)

Definition demo_cfg : satipConfig := (@satipConfig_new linux_dvb 0 vtunerOpt_new).1.
Definition demo_pat : list byte :=
  encode_section x00 1 0 0 0 (encode_pat_entries [PatEntry 1 0x100]).
Definition demo_ecm : descriptor := Desc x09 [x18; x33; xe3; x00].
Definition demo_pmt_body : list byte := encode_pmt 0x1fff [demo_ecm] [Stream x02 0x101 []].
Definition demo_calls : list psi_call :=
  [CallProcessTS (section_packet 0 0 demo_pat) 0 0; CallSetJoinedPids {[0x101]}].
Definition demo_start : satipPSI * option satipConfig := satipPSI_new (Some demo_cfg) false ∅ 0.
Definition demo : satipPSI * option satipConfig :=
  default demo_start (psi_run demo_start demo_calls).

Lemma default_run_ok `{CaSinkLaws C} (start : satipPSI * option C) calls :
  op_ok start -> op_ok (default start (psi_run start calls)).
Proof.
  intros Hs. pose proof (psi_run_ok calls (Some start) Hs) as Hr. unfold psi_run.
  by destruct (foldl _ (Some start) calls).
Qed.

Lemma demo_ok : op_ok demo.
Proof. apply default_run_ok. by apply satipPSI_new_ok. Qed.

(** ** Properties *)

(** C3: the parser is safe on any input. From the constructor, any sequence of
    calls of its methods, on streams of any bytes and any length, returns: no
    read or write leaves its buffer and every loop ends. Afterwards the tables,
    the assemblers and the pid sets are consistent ([psi_wf]), and the
    configuration was told exactly the pids the parser derived. *)
Theorem psi_run_safe {C} `{CaSinkLaws C} (c : C) emm filter tuner calls :
  reported c = ∅ ->
  exists r, psi_run (satipPSI_new (Some c) emm filter tuner) calls = Some r /\
            psi_wf r.1 /\ in_sync r.1 r.2.
Proof.
  intros Hc. apply returns_Some. apply psi_run_ok. by apply satipPSI_new_ok.
Qed.

Lemma psi_run_safe_witness :
  reported demo_cfg = ∅ /\
  exists r, psi_run (satipPSI_new (Some demo_cfg) true ∅ 0)
              [CallProcessTS (replicate 400 x47) 0 0; CallReset] = Some r /\
            psi_wf r.1 /\ in_sync r.1 r.2.
Proof. split; [reflexivity|]. apply (psi_run_safe demo_cfg). reflexivity. Defined.

(** [setJoinedPids] derives what the kernel's pids call for: of the PAT, the
    CAT and emm pids if enabled, and the pmt and ecm pids of every service the
    kernel joined a stream of, all, or the 32 smallest of them; and the
    configuration is told. *)
Theorem setJoinedPids_derives {C} `{CaSinkLaws C} p (cfg : option C) pids :
  psi_wf p -> in_sync p cfg -> pids <> m_joined_pids p ->
  let r := setJoinedPids p cfg pids in
  m_joined_pids r.1 = pids /\ best_wanted r.1 (m_derived_pids r.1) /\
  psi_wf r.1 /\ in_sync r.1 r.2.
Proof.
  intros Hwf Hs Hne r. destruct (setJoinedPids_ok p cfg pids Hwf Hs) as [Hwf' Hs'].
  unfold r, setJoinedPids in *. rewrite bool_decide_eq_true_2 in * by done.
  split; [|split; [apply best_wanted_recompute|done]].
  by destruct (recompute_fields (p <| m_joined_pids := pids |>) cfg) as (_ & _ & _ & _ & -> & _).
Qed.

Lemma setJoinedPids_derives_witness :
  let r := setJoinedPids demo.1 demo.2 {[0x102]} in
  m_joined_pids r.1 = {[0x102]} /\ best_wanted r.1 (m_derived_pids r.1) /\
  psi_wf r.1 /\ in_sync r.1 r.2.
Proof.
  apply setJoinedPids_derives; [apply demo_ok|apply demo_ok|].
  apply (bool_decide_unpack _). vm_compute. exact I.
Defined.

(** C12: a PAT in the stream is learned. When the parser waits for a section on
    pid 0, a packet with a PAT section of any entries makes the pmt pids of its
    services the ones of this version's sections; the parser then watches
    exactly the pids it needs, and stays consistent with the configuration. *)
Theorem processTS_learns_pat {C} `{CaSinkLaws C} p (cfg : option C) cc e v s l es t0 t1 :
  let body := encode_pat_entries es in
  let sec := encode_section x00 e v s l body in
  psi_wf p -> in_sync p cfg -> assembler_of p PSI_PID_PAT = sa_idle -> 0 <= cc < 16 ->
  section_wf v s body -> Forall pat_entry_wf es -> zlen sec <= 183 ->
  exists r, processTS p cfg (section_packet PSI_PID_PAT cc sec) 188 t0 t1 = Some r /\
    m_pat_version r.1 = v /\
    m_pat_sections r.1 = section_update (m_pat_version p) v s (m_pat_sections p) (pat_pids es) /\
    m_pat_pmt_pids r.1 = all_values (m_pat_sections r.1) /\
    m_watched_pids r.1 = watched_of r.1 /\ op_ok r.
Proof.
  intros body sec Hwf Hs Hasm Hcc Hsec Hes Hlen.
  pose proof (handleSection_encode (counted p t0) PSI_PID_PAT x00 e v s l body Hsec) as Hh.
  cbn zeta in Hh. fold sec in Hh. change (PSI_PID_PAT =? PSI_PID_PAT) with true in Hh.
  change (ub x00 =? 0) with true in Hh. cbv iota in Hh.
  set (p' := _ <| m_sections := _ |>) in Hh.
  destruct (parsePAT_encode p' x00 e v s l es Hsec Hes) as (q & Hq & Hv & Hm & Hall).
  destruct (counted_tables p t0) as (_ & _ & _ & Hpv & _ & Hps & _).
  change (m_pat_version p') with (m_pat_version (counted p t0)) in Hm.
  change (m_pat_sections p') with (m_pat_sections (counted p t0)) in Hm. rewrite Hpv, Hps in Hm.
  fold body sec in Hq. rewrite Hq in Hh.
  assert (PSI_PID_PAT ∈ m_watched_pids p) as Hw.
  { rewrite (wf_watched p Hwf). unfold watched_of. set_solver. }
  destruct (processTS_section p cfg PSI_PID_PAT cc sec t0 t1 q) as (r & Hr & Hst & _ & _);
    try done; [by apply encode_section_good|].
  destruct Hst as (_ & _ & _ & Hv' & _ & Hm' & _ & Hall' & _).
  pose proof (zlen_section_packet PSI_PID_PAT cc sec Hlen) as Hz.
  assert (188 <= zlen (section_packet PSI_PID_PAT cc sec)) as Hz' by lia.
  pose proof (processTS_ok p cfg _ 188 t0 t1 Hwf Hs Hz') as Hok. rewrite Hr in Hok.
  exists r. split; [done|]. split_and!; try congruence; [apply (wf_watched _ (proj1 Hok))|apply Hok..].
Qed.

Lemma processTS_learns_pat_witness :
  exists r, processTS demo.1 demo.2
      (section_packet PSI_PID_PAT 3 (encode_section x00 1 1 0 0
         (encode_pat_entries [PatEntry 7 0x200; PatEntry 0 0x10]))) 188 0 0 = Some r /\
    m_pat_version r.1 = 1 /\
    m_pat_sections r.1 = section_update (m_pat_version demo.1) 1 0 (m_pat_sections demo.1)
      (pat_pids [PatEntry 7 0x200; PatEntry 0 0x10]) /\
    m_pat_pmt_pids r.1 = all_values (m_pat_sections r.1) /\
    m_watched_pids r.1 = watched_of r.1 /\ op_ok r.
Proof.
  apply processTS_learns_pat; try lia; [apply demo_ok|apply demo_ok|vm_compute; reflexivity| | |].
  - split_and!; vm_compute; congruence.
  - repeat constructor; cbn; lia.
  - vm_compute. congruence.
Defined.

(** C11: a PMT in the stream is learned. For a service the PAT announced, a packet
    with its PMT leaves what is known when the version is known, and replaces it
    by the pids of the streams and of the allowed CA descriptors, at program and
    stream level, when the version is another one; the other services keep
    theirs. The pid of the PMT and the ecm pids of a service of which the kernel
    joined a stream are wanted. The pids reported are at once the wanted ones
    when the ecm pids changed; when they did not, nothing is reported, even if
    the streams changed and other pids are wanted now. *)
Theorem processTS_learns_pmt {C} `{CaSinkLaws C} p (cfg : option C) pid cc e v s l pcr pds xs t0 t1 :
  let body := encode_pmt pcr pds xs in
  let sec := encode_section x02 e v s l body in
  let old := default pmt_info_new (m_pmt p !! pid) in
  let new := if version old =? v then old else PMT v (pmt_ecm_pids p pds xs) (stream_pids xs) in
  psi_wf p -> in_sync p cfg -> pid ∈ m_pat_pmt_pids p -> pid <> PSI_PID_CAT ->
  assembler_of p pid = sa_idle -> 0 <= cc < 16 ->
  section_wf v s body -> pmt_body_wf pcr pds xs -> zlen sec <= 183 ->
  exists r, processTS p cfg (section_packet pid cc sec) 188 t0 t1 = Some r /\ op_ok r /\
    m_pmt r.1 = <[pid := new]> (m_pmt p) /\
    (forall es, es ∈ es_pids new -> es ∈ m_joined_pids p ->
     forall x, x = pid \/ x ∈ ecm_pids new -> wanted r.1 x) /\
    (ecm_pids new <> ecm_pids old -> best_wanted r.1 (m_derived_pids r.1)) /\
    (ecm_pids new = ecm_pids old -> m_derived_pids r.1 = m_derived_pids p /\ r.2 = cfg).
Proof.
  intros body sec old new Hwf Hs Hpid Hcat Hasm Hcc Hsec Hpmt Hlen.
  assert (0 < pid < PSI_PID_NULL) as Hrange.
  { rewrite (twf_pat p (wf_tables p Hwf)) in Hpid. apply pids_ok_all_values in Hpid; [done|].
    apply (wf_tables p Hwf). }
  destruct (handleSection_pmt p pid e v s l pcr pds xs t0) as (q & Hh & Hqd & [Hqj Hqp] & Hqw & Hqm);
    [apply Hwf|done|unfold PSI_PID_PAT; lia|done|done|].
  fold body sec old new in Hh, Hqd, Hqm.
  assert (pid ∈ m_watched_pids p) as Hw.
  { rewrite (wf_watched p Hwf). unfold watched_of. set_solver. }
  destruct (processTS_section p cfg pid cc sec t0 t1 q) as (r & Hr & Hst & Hbest & Hsame); try done;
    [unfold PSI_PID_NULL in *; lia|by apply encode_section_good|].
  destruct Hst as (_ & _ & Hj' & _ & _ & _ & _ & Hpp' & _ & Hpm'). rewrite Hqj in Hj'. rewrite Hqp in Hpp'.
  assert (m_pmt r.1 = <[pid := new]> (m_pmt p)) as Hinfo by by rewrite Hpm'.
  pose proof (zlen_section_packet pid cc sec Hlen) as Hz.
  assert (188 <= zlen (section_packet pid cc sec)) as Hz' by lia.
  pose proof (processTS_ok p cfg _ 188 t0 t1 Hwf Hs Hz') as Hok. rewrite Hr in Hok.
  exists r. split_and!; [done..| | |].
  - intros es Hes Hjoin x Hx. do 2 right. exists pid, new.
    assert (m_pmt r.1 !! pid = Some new) as Hnew by (rewrite Hinfo; apply lookup_insert_eq).
    split; [congruence|]. split; [|by split]. eexists new, es. split; [done|]. split; [done|congruence].
  - intros Hne. apply Hbest. rewrite Hqd. by apply bool_decide_eq_true_2.
  - intros Heq. rewrite <- Hqw. apply Hsame. rewrite Hqd. apply bool_decide_eq_false_2. by intros [].
Qed.

Lemma processTS_learns_pmt_witness :
  let xs := [Stream x02 0x101 []; Stream x03 0x102 [Desc x09 [x09; xc4; xe3; x01]]] in
  exists r, processTS demo.1 demo.2
      (section_packet 0x100 0 (encode_section x02 1 1 0 0 (encode_pmt 0x1fff [demo_ecm] xs)))
      188 0 0 = Some r /\
    m_pmt r.1 = <[0x100 := PMT 1 (pmt_ecm_pids demo.1 [demo_ecm] xs) (stream_pids xs)]> (m_pmt demo.1) /\
    best_wanted r.1 (m_derived_pids r.1) /\ op_ok r.
Proof.
  intros xs.
  destruct (processTS_learns_pmt demo.1 demo.2 0x100 0 1 1 0 0 0x1fff [demo_ecm] xs 0 0)
    as (r & Hr & Hok & Hpmt & _ & Hbest & _);
    try (apply (bool_decide_unpack _); vm_compute; exact I);
    try (vm_compute; reflexivity); try apply demo_ok.
  exists r. split; [exact Hr|]. split; [exact Hpmt|]. split; [|exact Hok]. apply Hbest.
  apply (bool_decide_unpack _). vm_compute. exact I.
Defined.

(** C17: the buffering loop of [feed], which takes the header byte by byte and
    the rest in blocks, does what an automaton does that is given the bytes one
    at a time: it never skips, repeats or reorders a byte. *)
Theorem feed_is_automaton psi pid buf allow_start :
  sa_wf (assembler_of psi pid) ->
  feed psi pid buf (zlen buf) allow_start =
  (st ← push_bytes pid allow_start (Running (assembler_of psi pid) psi) buf;
   let '(sa, q) := feed_result st in Some (with_asm (<[pid := sa]> (m_assembler q)) q)).
Proof. apply feed_automaton. Qed.

Lemma feed_is_automaton_witness :
  sa_wf (assembler_of demo.1 0x100) /\
  feed demo.1 0x100 [x02; xb0; x0d; x00] (zlen [x02; xb0; x0d; x00]) true =
  (st ← push_bytes 0x100 true (Running (assembler_of demo.1 0x100) demo.1) [x02; xb0; x0d; x00];
   let '(sa, q) := feed_result st in Some (with_asm (<[0x100 := sa]> (m_assembler q)) q)).
Proof.
  assert (sa_wf (assembler_of demo.1 0x100)) as Hsa by (left; vm_compute; by split).
  split; [exact Hsa|]. apply feed_is_automaton. exact Hsa.
Defined.

(** C16: reassembly. However a section is cut into packets, the handler runs once,
    on exactly the bytes of the section, and the assembler is idle again. *)
Theorem feed_reassembles psi pid sec chunks :
  good_section sec -> sec = concat chunks -> Forall (fun d => d <> []) chunks -> chunks <> [] ->
  assembler_of psi pid = sa_idle ->
  feed_chunks psi pid chunks true
  = with_asm (<[pid := sa_idle]> (m_assembler psi)) <$> handleSection psi pid sec (zlen sec).
Proof. intros Hg Hc Hne Hnil Ha. by apply (feed_chunks_section pid sec chunks [] psi true). Qed.

Lemma feed_reassembles_witness :
  let sec := encode_section x02 1 0 0 0 demo_pmt_body in
  let chunks := [take 2 sec; take 3 (drop 2 sec); drop 5 sec] in
  feed_chunks demo.1 0x100 chunks true
  = with_asm (<[0x100 := sa_idle]> (m_assembler demo.1)) <$> handleSection demo.1 0x100 sec (zlen sec).
Proof.
  intros sec chunks. apply feed_reassembles.
  - apply encode_section_good; [split_and!; vm_compute; congruence|vm_compute; congruence].
  - vm_compute. reflexivity.
  - repeat constructor; vm_compute; congruence.
  - discriminate.
  - vm_compute. reflexivity.
Defined.

(** C23: a damaged section teaches nothing. A section whose bytes were altered
    inside a window of at most four bytes leaves every table, version and pid
    set as it was; at most the crc error counter moves. *)
Theorem damaged_section_ignored psi pid t e v s l body pre x y post :
  encode_section t e v s l body = pre ++ x ++ post ->
  length x = length y -> (length x <= 4)%nat -> x <> y ->
  let sec := pre ++ y ++ post in
  handleSection psi pid sec (zlen sec) = Some psi \/
  handleSection psi pid sec (zlen sec)
  = Some (psi <| m_crc_errors := u64 (m_crc_errors psi + 1) |>).
Proof.
  intros Henc Hlen H4 Hne sec.
  assert (crc32_calc sec <> 0) as Hcrc.
  { rewrite <- (crc32_encode_section t e v s l body), Henc.
    intros Heq. symmetry in Heq. revert Heq. by apply crc32_burst_differs. }
  assert (zlen sec = zlen (encode_section t e v s l body)) as Hz.
  { rewrite Henc. unfold sec, zlen. rewrite !length_app. lia. }
  rewrite zlen_encode_section in Hz. pose proof (zlen_nonneg body).
  assert (0 <= 1 < zlen sec) as H1 by lia.
  destruct (rd_ok sec 1 H1) as (b1 & Hb1 & _).
  unfold handleSection. rewrite Hb1. cbn [mbind option_bind].
  destruct (Z.land b1 0x80 =? 0); [by left|right].
  rewrite rd_range_all. cbn [mbind option_bind].
  by rewrite (proj2 (Z.eqb_neq _ 0) Hcrc).
Qed.

Lemma damaged_section_ignored_witness :
  let sec := take 10 demo_pat ++ [xff; x00] ++ drop 12 demo_pat in
  handleSection demo.1 0 sec (zlen sec) = Some demo.1 \/
  handleSection demo.1 0 sec (zlen sec)
  = Some ((demo.1) <| m_crc_errors := u64 (m_crc_errors demo.1 + 1) |>).
Proof.
  apply (damaged_section_ignored demo.1 0 x00 1 0 0 0 (encode_pat_entries [PatEntry 1 0x100])
    (take 10 demo_pat) (take 2 (drop 10 demo_pat)) [xff; x00] (drop 12 demo_pat));
    vm_compute; reflexivity || congruence || lia.
Defined.

(** [reset] forgets the transponder. Whatever was learned before, afterwards
    every table is empty, only the PAT (and the CAT, with emm) is watched and
    asked for, and the configuration is told. *)
Theorem reset_forgets {C} `{CaSinkLaws C} p (cfg : option C) :
  in_sync p cfg ->
  let r := reset p cfg in
  let base := {[PSI_PID_PAT]} ∪ (if m_emm_enabled p then {[PSI_PID_CAT]} else ∅) in
  m_pat_pmt_pids r.1 = ∅ /\ m_emm_pids r.1 = ∅ /\ m_pmt r.1 = ∅ /\ m_assembler r.1 = ∅ /\
  m_joined_pids r.1 = ∅ /\ m_watched_pids r.1 = base /\ m_derived_pids r.1 = base /\ op_ok r.
Proof.
  intros Hs r base. pose proof (reset_ok p cfg Hs) as Hok. fold r in Hok.
  destruct (recompute_fields (cleared p) cfg) as (_ & Hm & Hp & Ht & Hj & _ & Hw).
  pose proof (recompute_assembler (cleared p) cfg) as Ha.
  pose proof (recompute_derived (cleared p) cfg) as Hd.
  assert (recompute (cleared p) cfg = r) as Hr by (unfold r, reset, cleared; reflexivity).
  rewrite Hr in Hm, Hp, Ht, Hj, Hw, Ha, Hd.
  rewrite derived_of_cleared in Hd. rewrite watched_of_cleared in Hw, Ha.
  change (m_assembler (cleared p)) with (∅ : gmap Z section_assembler) in Ha.
  rewrite keep_keys_empty in Ha. split_and!; assumption.
Qed.

Lemma reset_forgets_witness :
  let r := reset demo.1 demo.2 in
  let base := {[PSI_PID_PAT]} ∪ (if m_emm_enabled demo.1 then {[PSI_PID_CAT]} else ∅) in
  m_pat_pmt_pids r.1 = ∅ /\ m_emm_pids r.1 = ∅ /\ m_pmt r.1 = ∅ /\ m_assembler r.1 = ∅ /\
  m_joined_pids r.1 = ∅ /\ m_watched_pids r.1 = base /\ m_derived_pids r.1 = base /\ op_ok r.
Proof. apply reset_forgets. apply demo_ok. Defined.

(** [parsePMT] does not notice a change of the streams alone. After a PMT
    update that only changes the streams (the ecm pids stay), so that the
    kernel's pid now belongs to the service, the ecm pid is wanted, but it is
    not among the pids reported, and the parser is not dirty: it stays
    unrequested until something else changes. *)
Theorem stream_change_missed :
  exists r, psi_run demo
      [CallProcessTS (section_packet 0x100 0 (encode_section x02 1 0 0 0
         (encode_pmt 0x1fff [demo_ecm] [Stream x02 0x102 []]))) 0 0;
       CallProcessTS (section_packet 0x100 0 (encode_section x02 1 1 0 0
         (encode_pmt 0x1fff [demo_ecm] [Stream x02 0x101 []]))) 0 0] = Some r /\
    0x101 ∈ m_joined_pids r.1 /\ wanted r.1 0x300 /\ (0x300 ∉ m_derived_pids r.1) /\
    m_dirty r.1 = false.
Proof.
  set (run := psi_run demo _). assert (is_Some run) as [r Hr].
  { apply (bool_decide_unpack _). vm_compute. exact I. }
  exists r. split; [exact Hr|].
  assert (r = default demo run) as -> by by rewrite Hr.
  split; [apply (bool_decide_unpack _); vm_compute; exact I|].
  split; [apply recompute_sets_derived; apply (bool_decide_unpack _); vm_compute; exact I|].
  split; [apply (bool_decide_unpack _); vm_compute; exact I|vm_compute; reflexivity].
Qed.
