(* ===== verification/Tuner.v ===== *)
(** Configuration and parser together: the invariant that ties [satipConfig]
    to the [satipPSI] it owns, and the pids the server sends as requests reach
    it. *)

From S2P Require Import Prelude Crc Psi CText OptParser Dvb Config ConfigText.

(** ** The invariant *)

Record tuner_wf (c : satipConfig) (psi : option satipPSI) : Prop := {
  tw_slots : slots_wf (m_pid_list c);
  (** nothing pending in the list while the status says so *)
  tw_pending : m_pid_status c = CONFIG_STATUS_PID_STATIONARY ->
    active (m_pid_list c) = known (m_pid_list c);
  (** the parser knows what the kernel joined, the configuration what the
      parser derived *)
  tw_psi : match psi with
           | Some p => psi_wf p /\ m_derived_pids p = m_ca_pids c /\
                       m_joined_pids p = active (m_pid_list c)
           | None => m_ca_pids c = ∅ /\ m_ca_dirty c = false
           end;
  tw_requested : forall x, x ∈ m_requested_pids c -> 0 <= x
}.

(** What the parser may change of the configuration. *)
Record ca_step (c d : satipConfig) : Prop := {
  ca_list : m_pid_list d = m_pid_list c;
  ca_pid_status : m_pid_status d = m_pid_status c;
  ca_requested : m_requested_pids d = m_requested_pids c;
  ca_status : m_status d = m_status c;
  ca_dirty : m_ca_dirty d = false -> m_ca_dirty c = false /\ m_ca_pids d = m_ca_pids c;
  ca_woken : woken c d;
  ca_signalled : signalled c d
}.

Lemma ca_step_refl c : ca_step c c.
Proof. by constructor; [..|left]. Qed.

Lemma ca_step_trans c d e : ca_step c d -> ca_step d e -> ca_step c e.
Proof.
  intros [? ? ? ? Hcd [Hfd Hw ?] Hs] [? ? ? ? Hde [Hfd' Hw' ?] Hs'].
  constructor; try congruence.
  - intros He. destruct (Hde He) as [Hd ->]. auto.
  - constructor; [congruence|lia|congruence].
  - unfold signalled in *. rewrite Hfd in Hs'.
    destruct Hs as [Hs|[?|?]], Hs' as [Hs'|[?|?]]; try (right; (by left) || (right; lia)).
    left. congruence.
Qed.

Lemma setCaPids_ca_step pids c : ca_step c (config_setCaPids pids c).
Proof.
  destruct (setCaPids_woken pids c) as [Hw Hs]. unfold config_setCaPids, wakeup in *.
  case_bool_decide; [|apply ca_step_refl]. by destruct (_ <? 0).
Qed.

(** A call of the parser, seen from the configuration. *)
Definition ca_call (c : satipConfig) (cfg : option satipConfig) : Prop :=
  exists d, cfg = Some d /\ ca_step c d.

Lemma recompute_ca_call p c : ca_call c (recompute p (Some c)).2.
Proof.
  unfold recompute. destruct (recompute_sets p) as [d w]. case_bool_decide; cbn.
  - exists c. split; [done|apply ca_step_refl].
  - eexists. split; [done|]. apply setCaPids_ca_step.
Qed.

Lemma recompute_joined p (cfg : option satipConfig) :
  m_joined_pids (recompute p cfg).1 = m_joined_pids p.
Proof. unfold recompute. destruct (recompute_sets p) as [d w]. by case_bool_decide. Qed.

Lemma ts_loop_ca_call fuel data len : forall off p c r,
  psi_wf p -> len <= zlen data -> 0 <= off ->
  in_sync p (Some c) ->
  ts_loop fuel p (Some c) data len off = Some r ->
  ca_call c r.2 /\ m_joined_pids r.1 = m_joined_pids p.
Proof.
  induction fuel as [|fuel IH]; intros off p c r Hwf Hlen Hoff Hsync Hr; [done|].
  cbn [ts_loop] in Hr. destruct (Z.leb_spec (off + TS_PACKET_SIZE) len) as [Hle|].
  2: { injection Hr as <-. split; [exists c; split; [done|apply ca_step_refl]|done]. }
  unfold TS_PACKET_SIZE in *.
  destruct (rd (ptr_add data off) 0) as [b0|]; [|done]. cbn [mbind option_bind] in Hr.
  destruct (negb (b0 =? 71)).
  { injection Hr as <-. split; [exists c; split; [done|apply ca_step_refl]|done]. }
  assert (188 <= zlen (ptr_add data off)) as Hpkt by (rewrite zlen_ptr_add; lia).
  pose proof (ts_packet_ok p (ptr_add data off) Hwf Hpkt) as Hp.
  destruct (ts_packet p (ptr_add data off)) as [[q reached]|]; [|done].
  destruct Hp as [Hq Hreach]. cbn [mbind option_bind fst snd] in *.
  pose proof (fed_joined _ _ Hq) as Hj.
  destruct (settle_ok p q reached (Some c) Hwf Hsync Hq Hreach) as [Hq' Hs'].
  assert (ca_call c (if reached && m_dirty q then recompute (q <| m_dirty := false |>) (Some c)
                     else (q, Some c)).2 /\
          m_joined_pids (if reached && m_dirty q then recompute (q <| m_dirty := false |>) (Some c)
                         else (q, Some c)).1 = m_joined_pids p) as [Hcall Hj'].
  { destruct (reached && m_dirty q).
    - rewrite recompute_joined. split; [apply recompute_ca_call|done].
    - split; [exists c; split; [done|apply ca_step_refl]|done]. }
  destruct (if reached && m_dirty q then _ else _) as [q' cfg']. cbn [fst snd] in *.
  destruct Hcall as (c' & -> & Hc'). assert (0 <= off + 188) as Hoff' by lia.
  destruct (IH _ _ _ _ Hq' Hlen Hoff' Hs' Hr) as [(d & -> & Hd) ->].
  split; [|congruence]. exists d. split; [done|]. by apply ca_step_trans with c'.
Qed.

Lemma processTS_ca_call p c data len t0 t1 r :
  psi_wf p -> len <= zlen data -> in_sync p (Some c) ->
  processTS p (Some c) data len t0 t1 = Some r ->
  ca_call c r.2 /\ m_joined_pids r.1 = m_joined_pids p.
Proof.
  intros Hwf Hlen Hsync Hr. unfold processTS in Hr.
  set (p1 := if negb (m_saw_data p) then _ else p) in Hr.
  assert (psi_wf p1 /\ in_sync p1 (Some c) /\ m_joined_pids p1 = m_joined_pids p)
    as (Hwf1 & Hs1 & Hj1).
  { subst p1. destruct (m_saw_data p); cbn; [done|]. split; [|done].
    destruct Hwf as [[]]. constructor; [by constructor|done..]. }
  destruct (ts_loop _ p1 (Some c) data len 0) as [[q cfg]|] eqn:E; [|done].
  cbn [mbind option_bind] in Hr.
  apply ts_loop_ca_call in E as [Hcall Hj]; [|done..]. cbn [fst snd] in *.
  destruct (60 <=? t1 - m_last_stats q); injection Hr as <-; cbn; split; (done || congruence).
Qed.

(** ** Calls of the parser keep the invariant *)

(** The configuration and the parser it calls. *)
Definition linked (c : satipConfig) (p : satipPSI) (joined : gset Z) : Prop :=
  psi_wf p /\ m_derived_pids p = m_ca_pids c /\ m_joined_pids p = joined.

Lemma linked_in_sync c p j : linked c p j -> in_sync p (Some c).
Proof. intros (_ & Hd & _) c' [= <-]. by rewrite Hd. Qed.

Lemma linked_result c joined (r : satipPSI * option satipConfig) :
  op_ok r -> ca_call c r.2 -> m_joined_pids r.1 = joined ->
  exists p d, r = (p, Some d) /\ ca_step c d /\ linked d p joined.
Proof.
  destruct r as [p cfg]. intros [Hwf Hs] (d & Hcfg & Hd) Hj. cbn [fst snd] in *. subst cfg.
  exists p, d. split; [done|]. split; [done|]. split; [done|]. split; [|done].
  symmetry. by apply Hs.
Qed.

Lemma setJoinedPids_linked c p j pids :
  linked c p j ->
  exists q d, setJoinedPids p (Some c) pids = (q, Some d) /\ ca_step c d /\ linked d q pids.
Proof.
  intros Hl. apply linked_result.
  - apply setJoinedPids_ok; [apply Hl|by eapply linked_in_sync].
  - unfold setJoinedPids. case_bool_decide; [apply recompute_ca_call|].
    exists c. split; [done|apply ca_step_refl].
  - unfold setJoinedPids. case_bool_decide as Hp; [by rewrite recompute_joined|]. done.
Qed.

Lemma reset_linked c p j :
  linked c p j -> exists q d, reset p (Some c) = (q, Some d) /\ ca_step c d /\ linked d q ∅.
Proof.
  intros Hl. apply linked_result.
  - apply reset_ok. by eapply linked_in_sync.
  - apply recompute_ca_call.
  - unfold reset. by rewrite recompute_joined.
Qed.

Lemma processTS_linked c p j data len t0 t1 :
  linked c p j -> len <= zlen data ->
  exists q d, processTS p (Some c) data len t0 t1 = Some (q, Some d) /\
              ca_step c d /\ linked d q j.
Proof.
  intros Hl Hlen. pose proof (linked_in_sync _ _ _ Hl) as Hs. destruct Hl as (Hwf & Hd & Hj).
  pose proof (processTS_ok p (Some c) data len t0 t1 Hwf Hs Hlen) as Hok.
  destruct (processTS p (Some c) data len t0 t1) as [r|] eqn:E; [|done].
  apply processTS_ca_call in E as [Hcall Hj']; [|done..].
  destruct (linked_result c (m_joined_pids p) r) as (q & d & -> & ? & ?); try done.
  exists q, d. rewrite <- Hj. done.
Qed.

Lemma wanted_pids_nonneg c psi : tuner_wf c psi -> forall x, x ∈ wanted_pids c -> 0 <= x.
Proof.
  intros [Hslots _ Hpsi _] x [Hx|Hx]%elem_of_union.
  - apply elem_of_pids_with in Hx as (e & He & <- & Hs).
    pose proof (proj1 (Forall_forall _ _) (slots_range _ Hslots) e He) as [Hr Hinv].
    destruct (decide (elem_pid e = -1)) as [Hm|]; [|lia]. by rewrite Hinv in Hs.
  - destruct psi as [p|].
    + destruct Hpsi as (Hwf & Hd & _). rewrite <- Hd in Hx.
      apply (wf_derived_range p Hwf) in Hx. lia.
    + destruct Hpsi as [Hca _]. rewrite Hca in Hx. set_solver.
Qed.

(** A step of the parser keeps the invariant when the list agrees. *)
Lemma tuner_wf_ca_step c d p :
  slots_wf (m_pid_list c) ->
  (m_pid_status c = CONFIG_STATUS_PID_STATIONARY ->
   active (m_pid_list c) = known (m_pid_list c)) ->
  (forall x, x ∈ m_requested_pids c -> 0 <= x) ->
  ca_step c d -> linked d p (active (m_pid_list c)) -> tuner_wf d (Some p).
Proof.
  intros Hs Hp Hr [Hl Hps Hrq _ _] (Hwf & Hd & Hj).
  constructor; rewrite ?Hl, ?Hps, ?Hrq; done.
Qed.

Lemma updatePidStatus_fields c :
  m_pid_list (updatePidStatus c) = m_pid_list c /\
  m_requested_pids (updatePidStatus c) = m_requested_pids c /\
  m_ca_pids (updatePidStatus c) = m_ca_pids c /\
  m_ca_dirty (updatePidStatus c) = m_ca_dirty c /\ m_status (updatePidStatus c) = m_status c.
Proof. unfold updatePidStatus. by destruct (existsb _ _). Qed.

(** After [updatePidStatus] the status tells whether something is pending. *)
Lemma updatePidStatus_pending c :
  slots_wf (m_pid_list c) ->
  m_pid_status (updatePidStatus c) = CONFIG_STATUS_PID_STATIONARY ->
  active (m_pid_list (updatePidStatus c)) = known (m_pid_list (updatePidStatus c)).
Proof.
  intros Hwf Hs. destruct (updatePidStatus_fields c) as (-> & _). by apply pending_spec.
Qed.

Section Operations.
Context `{DvbConstants}.

Lemma updatePidList_wf c psi new :
  tuner_wf c psi -> u16_list new ->
  let r := updatePidList c psi new in
  tuner_wf r.1 r.2 /\ m_pid_list r.1 = updated_list (m_pid_list c) new /\
  m_requested_pids r.1 = m_requested_pids c /\ m_status r.1 = m_status c /\
  (m_ca_dirty r.1 = false -> m_ca_dirty c = false /\ m_ca_pids r.1 = m_ca_pids c).
Proof.
  intros [Hslots _ Hpsi Hreq] Hnew r.
  pose proof (updated_list_wf _ new Hslots Hnew) as Hslots'.
  set (c1 := updatePidStatus (c <| m_pid_list := updated_list (m_pid_list c) new |>)).
  destruct (updatePidStatus_fields (c <| m_pid_list := updated_list (m_pid_list c) new |>))
    as (Hl & Hr & Hca & Hd & Hst). fold c1 in Hl, Hr, Hca, Hd, Hst. cbn in Hl, Hr, Hca, Hd, Hst.
  change r with (notifyPidList c1 psi). clear r. unfold notifyPidList.
  assert (m_pid_status c1 = CONFIG_STATUS_PID_STATIONARY ->
          active (m_pid_list c1) = known (m_pid_list c1)) as Hpend
    by by apply updatePidStatus_pending.
  destruct psi as [p|]; cbn [call_psi].
  - destruct (setJoinedPids_linked c1 p (active (m_pid_list c)) (collectActivePids c1 ∅))
      as (q & d & -> & Hstep & Hlink).
    { destruct Hpsi as (? & ? & ?). split_and!; congruence. }
    rewrite collectActivePids_spec, union_empty_l_L in Hlink. cbn [fst snd from_option id].
    pose proof Hstep as [Hl2 Hps2 Hr2 Hst2 Hd2]. split.
    + apply tuner_wf_ca_step with c1; [by rewrite Hl|done|by rewrite Hr|exact Hstep|by rewrite Hl in *].
    + split_and!; try congruence. intros Hdirty. destruct (Hd2 Hdirty). split; congruence.
  - cbn [fst snd]. split; [|split_and!; try congruence; intros ?; split; congruence].
    constructor; [by rewrite Hl|done| |by rewrite Hr]. destruct Hpsi. split; congruence.
Qed.

Lemma clearProperty_wf c psi :
  tuner_wf c psi ->
  let r := clearProperty c psi in
  tuner_wf r.1 r.2 /\ active (m_pid_list r.1) = ∅ /\ known (m_pid_list r.1) = ∅ /\
  m_requested_pids r.1 = ∅ /\ m_status r.1 = m_status c.
Proof.
  intros [Hslots _ Hpsi _] r. set (c1 := clear_params c).
  destruct (clear_list_spec _ Hslots) as (Hslots1 & Ha & Hk).
  change r with (call_psi reset c1 psi). clear r.
  assert (active (m_pid_list c1) = ∅ /\ known (m_pid_list c1) = ∅) as [Ha1 Hk1] by done.
  destruct psi as [p|]; cbn [call_psi].
  - destruct (reset_linked c1 p (active (m_pid_list c))) as (q & d & -> & Hstep & Hlink);
      [exact Hpsi|].
    cbn [fst snd from_option id]. rewrite <- Ha1 in Hlink. pose proof Hstep as [Hl Hps Hr Hst _].
    split; [|rewrite Hl, Hr, Hst; by split_and!].
    apply tuner_wf_ca_step with c1; try done. intros _. by rewrite Ha1, Hk1.
  - cbn [fst snd]. split; [|by split_and!].
    constructor; try done. intros _. by rewrite Ha1, Hk1.
Qed.
End Operations.

(** ** The tuner, its requests and the server

    The methods the session and rtp threads call on the pair, in any order,
    and the pids a server sends that obeys the requests it gets. *)

Inductive tuner_op :=
| OpClearProperty
| OpPidList (new_pid_list : list Z)
| OpVoltage (voltage : Z)
| OpChannelChanged
| OpChannelRetry
| OpClearChannelChanged
| OpSetPosition (x : Z)
| OpSetFrequency (x : Z)
| OpSetup
| OpPlay
| OpProcessTS (data : list byte) (t0 t1 : Z).

(** [w_unclear]: what the server sends is not known to the client, because it
    dropped its record of it ([clearProperty]) or retuned without naming the
    pids, and no later request named them all. *)
Record world := World {
  w_cfg : satipConfig;
  w_psi : option satipPSI;
  w_server : gset Z;
  w_unclear : bool
}.

#[export] Instance world_settable : Settable world :=
  fun w => World (w_cfg w) (w_psi w) (w_server w) (w_unclear w).

Section World.
Context `{DvbConstants} `{LongWidth}.

Definition with_cfg (w : world) (c : satipConfig) : world := w <| w_cfg := c |>.

Definition with_both (w : world) (r : satipConfig * option satipPSI) : world :=
  w <| w_cfg := r.1 |> <| w_psi := r.2 |>.

(** The server gets the query of a SETUP. *)
Definition world_setup (w : world) : world :=
  let '(data, c) := getSetupData (w_cfg w) in
  World c (w_psi w) (server_setup (query data)) false.

(** The server gets the query of a PLAY. *)
Definition world_play (w : world) : world :=
  let retuned := bool_decide (m_status (w_cfg w) = CONFIG_STATUS_CHANNEL_CHANGED) in
  let named := bool_decide (getPidStatus (w_cfg w) = CONFIG_STATUS_PID_CHANGED) in
  let '(data, c) := getPlayData (w_cfg w) in
  World c (w_psi w) (server_play retuned (query data) (w_server w))
    (if retuned then negb named else w_unclear w).

Definition world_exec (w : world) (op : tuner_op) : option world :=
  match op with
  | OpClearProperty =>
      Some ((with_both w (clearProperty (w_cfg w) (w_psi w))) <| w_unclear := true |>)
  | OpPidList new => Some (with_both w (updatePidList (w_cfg w) (w_psi w) new))
  | OpVoltage v => Some (with_cfg w (setVoltage (w_cfg w) v))
  | OpChannelChanged => Some (with_cfg w (setChannelChanged (w_cfg w)))
  | OpChannelRetry => Some (with_cfg w (setChannelRetry (w_cfg w)))
  | OpClearChannelChanged => Some (with_cfg w (clearChannelChanged (w_cfg w)))
  | OpSetPosition x => Some (with_cfg w (setPosition (w_cfg w) x))
  | OpSetFrequency x => Some (with_cfg w (setFrequency (w_cfg w) x))
  | OpSetup => Some (world_setup w)
  | OpPlay => Some (world_play w)
  | OpProcessTS data t0 t1 =>
      match w_psi w with
      | None => Some w
      | Some p =>
        '(p, cfg) ← processTS p (Some (w_cfg w)) data (zlen data) t0 t1;
        Some (with_both w (default (w_cfg w) cfg, Some p))
      end
  end.

Definition world_run (w : world) (ops : list tuner_op) : option world :=
  foldl (fun w op => w ≫= fun w => world_exec w op) (Some w) ops.

(** Before the first request the server sends nothing. *)
Definition world_new (fe_type : Z) (settings : vtunerOpt) : world :=
  let '(c, psi) := satipConfig_new fe_type settings in World c psi ∅ false.

(** The record of what was requested is right, and complete once the ca pids
    are settled. *)
Definition told_server (c : satipConfig) (server : gset Z) : Prop :=
  server = m_requested_pids c /\
  (m_ca_dirty c = false -> m_requested_pids c = known (m_pid_list c) ∪ m_ca_pids c).

Record world_ok (w : world) : Prop := {
  ok_tuner : tuner_wf (w_cfg w) (w_psi w);
  ok_server : w_unclear w = false -> told_server (w_cfg w) (w_server w)
}.

Definition op_valid (op : tuner_op) : Prop :=
  match op with OpPidList new => u16_list new | _ => True end.
End World.

Section WorldLemmas.
Context `{DvbConstants} `{LongWidth}.

(** A change of fields other than the pids. *)
Lemma same_pids_wf c d psi : same_pids c d -> tuner_wf c psi -> tuner_wf d psi.
Proof.
  intros (Hl & Hr & Hca & Hd & Hs & _) []. constructor; rewrite ?Hl, ?Hr, ?Hca, ?Hd, ?Hs; done.
Qed.

Lemma same_pids_told c d s : same_pids c d -> told_server c s -> told_server d s.
Proof. intros (Hl & Hr & Hca & Hd & _). unfold told_server. rewrite Hl, Hr, Hca, Hd. done. Qed.

Lemma with_cfg_ok w c : same_pids (w_cfg w) c -> world_ok w -> world_ok (with_cfg w c).
Proof.
  intros Hc [Hwf Hs]. constructor; cbn.
  - by apply same_pids_wf with (w_cfg w).
  - intros Hu. apply same_pids_told with (w_cfg w); auto.
Qed.

(** After the pids were told, by SETUP or PLAY. *)
Lemma told_tuner_wf c d psi :
  tuner_wf c psi -> told c d -> m_pid_status d = CONFIG_STATUS_PID_STATIONARY -> tuner_wf d psi.
Proof.
  intros Hwf Ht Hs. pose proof (wanted_pids_nonneg _ _ Hwf) as Hpos.
  destruct (told_settled _ _ (tw_slots _ _ Hwf) Ht) as (Hslots & Ha & Hk & _).
  destruct Ht as [_ Hreq Hca Hd _]. constructor.
  - done.
  - intros _. congruence.
  - pose proof (tw_psi _ _ Hwf) as Hpsi. rewrite Hca, Hd, Ha. destruct psi; [done|].
    by destruct Hpsi.
  - by rewrite Hreq.
Qed.

Lemma told_server_told c d psi :
  tuner_wf c psi -> told c d -> told_server d (wanted_pids c).
Proof.
  intros Hwf Ht. destruct (told_settled _ _ (tw_slots _ _ Hwf) Ht) as (_ & _ & Hk & _).
  destruct Ht as [_ Hreq Hca _ _]. split; [done|]. intros _. by rewrite Hreq, Hk, Hca.
Qed.

Lemma getSetupData_told c :
  slots_wf (m_pid_list c) ->
  let d := (getSetupData c).2 in
  told (c <| m_status := m_status d |>) d /\ m_pid_status d = CONFIG_STATUS_PID_STATIONARY.
Proof.
  intros Hslots d. subst d. unfold getSetupData.
  destruct (take_tuning_spec c) as (_ & (Hl & _ & Hca & _ & _ & Hwk) & _).
  destruct (take_tuning c) as [tuning c1]. cbn [fst snd] in *. rewrite collectActivePids_spec.
  unfold addCaPids. set (c2 := _ <| m_requested_pids := _ |>). cbn [snd].
  destruct (updatePidStatus_fields c2) as (_ & _ & _ & _ & Hst).
  assert (told (c <| m_status := m_status c2 |>) c2) as Ht.
  { constructor; cbn; rewrite ?Hl, ?Hca; try done.
    unfold wanted_pids. cbn. set_solver. }
  rewrite Hst. pose proof (updatePidStatus_told _ _ Ht) as Ht2. split; [done|].
  refine (told_stationary _ _ c2 _ Ht2 eq_refl _); [done|].
  symmetry. apply updatePidStatus_fields.
Qed.

Lemma getSetupData_settled c :
  slots_wf (m_pid_list c) ->
  let d := (getSetupData c).2 in
  getPidStatus d = CONFIG_STATUS_PID_STATIONARY /\ wanted_pids d = wanted_pids c /\
  m_status d = (if bool_decide (m_status c = CONFIG_STATUS_CHANNEL_CHANGED)
                then CONFIG_STATUS_CHANNEL_STABLE else m_status c).
Proof.
  intros Hslots d. subst d. destruct (getSetupData_told c Hslots) as [Ht Hst].
  assert (m_status (getSetupData c).2
          = if bool_decide (m_status c = CONFIG_STATUS_CHANNEL_CHANGED)
            then CONFIG_STATUS_CHANNEL_STABLE else m_status c) as Hch.
  { clear. unfold getSetupData. destruct (take_tuning_spec c) as (_ & _ & Hs).
    destruct (take_tuning c) as [t c1]. cbn [fst snd] in *. unfold addCaPids. cbn [snd].
    destruct (updatePidStatus_fields ((commitPidStates (c1 <| m_ca_dirty := false |>))
      <| m_requested_pids := collectActivePids c1 ∅ ∪ m_ca_pids c1 |>)) as (_ & _ & _ & _ & ->).
    exact Hs. }
  set (d := (getSetupData c).2) in *.
  pose proof (fun Hs => told_settled _ d Hs Ht) as Hsettled.
  destruct (Hsettled Hslots) as (_ & _ & _ & Hw). split_and!; [|done|done].
  unfold getPidStatus. by rewrite Hst, (told_clean _ _ Ht).
Qed.

Lemma play_pids_stationary c :
  slots_wf (m_pid_list c) -> m_pid_status (play_pids c).2 = CONFIG_STATUS_PID_STATIONARY.
Proof.
  intros Hslots. eapply told_stationary; [done|apply play_pids_told|by unfold play_pids|].
  symmetry. apply updatePidStatus_fields.
Qed.

Lemma retune_wf c psi : tuner_wf c psi -> tuner_wf (retune c).2 psi.
Proof.
  intros Hwf. unfold retune. case_bool_decide; [|done].
  destruct (take_tuning_spec c) as (_ & Hsame & _). destruct (take_tuning c) as [tuning c1].
  cbn [fst snd] in *. apply (same_pids_wf _ _ _ Hsame) in Hwf. destruct Hwf.
  by constructor.
Qed.

Lemma world_setup_ok w : world_ok w -> world_ok (world_setup w).
Proof.
  intros [Hwf _]. unfold world_setup.
  pose proof (getSetupData_query (w_cfg w) (wanted_pids_nonneg _ _ Hwf)) as Hq.
  destruct (getSetupData_told (w_cfg w) (tw_slots _ _ Hwf)) as [Ht Hst].
  destruct (getSetupData (w_cfg w)) as [data d]. cbn [fst snd] in *. rewrite Hq.
  assert (tuner_wf ((w_cfg w) <| m_status := m_status d |>) (w_psi w)) as Hwf1
    by by apply same_pids_wf with (w_cfg w).
  constructor; cbn.
  - by apply told_tuner_wf with ((w_cfg w) <| m_status := m_status d |>).
  - intros _. by apply (told_server_told _ _ _ Hwf1).
Qed.

Lemma world_play_ok w : world_ok w -> world_ok (world_play w).
Proof.
  intros [Hwf Hserver]. unfold world_play.
  pose proof (getPlayData_query (w_cfg w) (wanted_pids_nonneg _ _ Hwf) (tw_requested _ _ Hwf))
    as Hq.
  pose proof (retune_wf _ _ Hwf) as Hwf1.
  destruct (retune_spec (w_cfg w)) as (ps & Hps & Hok & Hw & Hr & Hst & Hl & _).
  unfold getPlayData in *. rewrite (surjective_pairing (retune (w_cfg w))) in Hq |- *.
  set (c1 := (retune (w_cfg w)).2) in *. rewrite Hst in Hq |- *.
  destruct (bool_decide (getPidStatus (w_cfg w) = CONFIG_STATUS_PID_CHANGED)) eqn:En.
  - apply bool_decide_eq_true in En. specialize (Hq En).
    pose proof (play_pids_told c1) as Ht. pose proof (play_pids_stationary c1 (tw_slots _ _ Hwf1)).
    destruct (play_pids c1) as [pids d]. cbn [fst snd] in *.
    constructor; cbn; [by apply told_tuner_wf with c1|].
    pose proof (told_server_told _ _ _ Hwf1 Ht) as Hts. rewrite Hw in Hts.
    case_bool_decide as Hc.
    + intros _. unfold server_play in *. by rewrite Hq.
    + intros Hu. destruct (Hserver Hu) as [-> _]. by rewrite Hq.
  - clear Hq. cbn [fst snd]. constructor; cbn; [done|]. rewrite app_nil_r.
    unfold retune in *. case_bool_decide; [done|]. intros Hu.
    cbn [fst] in *. destruct (Hserver Hu) as [-> Hset]. split; [|done].
    cbn. unfold field_pids. cbn. set_solver.
Qed.
End WorldLemmas.

Section WorldRuns.
Context `{DvbConstants} `{LongWidth}.

Lemma setVoltage_same c v : same_pids c (setVoltage c v).
Proof. unfold setVoltage. destruct (v =? _); [|destruct (v =? _)]; done. Qed.

Lemma clearChannelChanged_same c : same_pids c (clearChannelChanged c).
Proof. unfold clearChannelChanged. by case_bool_decide. Qed.

(** A step of the parser that keeps the list. *)
Lemma told_server_ca_step c d s : ca_step c d -> told_server c s -> told_server d s.
Proof.
  intros [Hl _ Hr _ Hd] [Hs Hset]. unfold told_server. rewrite Hr, Hl. split; [done|].
  intros Hdirty. destruct (Hd Hdirty) as [Hc ->]. auto.
Qed.

Lemma world_ts_ok w data t0 t1 :
  world_ok w -> returns (world_exec w (OpProcessTS data t0 t1)) world_ok.
Proof.
  intros [Hwf Hserver]. cbn [world_exec]. pose proof (tw_psi _ _ Hwf) as Hpsi.
  destruct (w_psi w) as [p|] eqn:Ep; [|constructor; by rewrite ?Ep].
  destruct (processTS_linked (w_cfg w) p _ data (zlen data) t0 t1 Hpsi) as (q & d & -> & Hstep & Hlink); [lia|].
  cbn [mbind option_bind returns]. constructor; cbn.
  - destruct Hwf. by apply tuner_wf_ca_step with (w_cfg w).
  - intros Hu. apply told_server_ca_step with (w_cfg w); auto.
Qed.

Lemma world_pid_list_ok w new :
  world_ok w -> u16_list new -> returns (world_exec w (OpPidList new)) world_ok.
Proof.
  intros [Hwf Hserver] Hnew. cbn [world_exec returns].
  destruct (updatePidList_wf _ _ new Hwf Hnew) as (Hwf' & Hl & Hr & _ & Hd).
  constructor; cbn; [done|]. intros Hu. destruct (Hserver Hu) as [Hs Hset].
  split; [by rewrite Hr|]. intros Hdirty. destruct (Hd Hdirty) as [Hc ->].
  rewrite Hr, Hl, updated_list_known by (done || apply Hwf). auto.
Qed.

Lemma world_exec_ok w op : op_valid op -> world_ok w -> returns (world_exec w op) world_ok.
Proof.
  intros Hop Hw. destruct op; try (by apply with_cfg_ok); cbn [world_exec returns].
  - destruct Hw as [Hwf _]. destruct (clearProperty_wf _ _ Hwf) as (? & _). by constructor.
  - by apply world_pid_list_ok.
  - apply with_cfg_ok; [apply setVoltage_same|done].
  - apply with_cfg_ok; [apply clearChannelChanged_same|done].
  - by apply world_setup_ok.
  - by apply world_play_ok.
  - by apply world_ts_ok.
Qed.

Lemma world_run_steps ops : forall o : option world,
  Forall op_valid ops -> returns o world_ok ->
  returns (foldl (fun w op => w ≫= fun w => world_exec w op) o ops) world_ok.
Proof.
  induction ops as [|op ops IH]; intros o Hops Ho; [done|].
  apply Forall_cons in Hops as [Hop Hops]. cbn [foldl]. apply IH; [done|].
  eapply returns_bind; [done|]. intros w Hw. by apply world_exec_ok.
Qed.

Lemma slots_wf_new :
  slots_wf (map (fun e => Elem (elem_pid e) PID_INVALID)
                (replicate (Z.to_nat MAX_PIDS) (Elem (-1) PID_INVALID))).
Proof.
  constructor; [done| |].
  - apply Forall_fmap. apply Forall_replicate. by split.
  - intros i j e f Hi%list_elem_of_lookup_2 Hj _ Hpos.
    apply list_elem_of_fmap in Hi as (e' & -> & He'). apply elem_of_replicate in He' as [-> _].
    cbn in Hpos. lia.
Qed.

Lemma world_new_ok fe_type settings : world_ok (world_new fe_type settings).
Proof.
  unfold world_new, satipConfig_new. cbn [clearProperty call_psi].
  set (c := clear_params _). assert (m_ca_pids c = ∅) as Hca by done.
  assert (active (m_pid_list c) = ∅ /\ known (m_pid_list c) = ∅) as [Ha Hk].
  { split; apply set_eq; intros x; rewrite elem_of_pids_with; cbn; set_solver. }
  pose proof slots_wf_new as Hslots.
  destruct (OptParser.m_ca_pids settings).
  - destruct (linked_result c ∅ (satipPSI_new (Some c) (m_ca_emm settings) (m_ca_caids settings)
      (m_fe_number settings))) as (p & d & -> & Hstep & Hlink).
    + by apply satipPSI_new_ok.
    + apply recompute_ca_call.
    + unfold satipPSI_new, reset. by rewrite recompute_joined.
    + cbn [from_option id]. constructor; cbn.
      * apply tuner_wf_ca_step with c; [done|by intros _; rewrite Ha, Hk|done|done|by rewrite Ha].
      * intros _. apply told_server_ca_step with c; [done|]. split; [done|]. intros _.
        rewrite Hk, Hca. set_solver.
  - constructor; cbn.
    + by constructor.
    + intros _. split; [done|]. intros _. change (∅ = known (m_pid_list c) ∪ m_ca_pids c).
      rewrite Hk, Hca. set_solver.
Qed.

(** With nothing pending the record is what is wanted. *)
Lemma told_server_wanted c psi s :
  tuner_wf c psi -> told_server c s -> getPidStatus c = CONFIG_STATUS_PID_STATIONARY ->
  s = wanted_pids c.
Proof.
  intros Hwf [-> Hset] Hst. unfold getPidStatus in Hst.
  case_bool_decide as Hp; [done|]. destruct (m_ca_dirty c) eqn:Hd; [done|].
  rewrite Hset by done. unfold wanted_pids. rewrite (tw_pending _ _ Hwf); [done|].
  by destruct (m_pid_status c).
Qed.
End WorldRuns.
