(* ===== verification/TunerProps.v ===== *)
(** Properties of the configuration and its requests: the pid list follows the
    kernel's, the server follows the pid list, and the tuning parameters say
    what was set. *)

From S2P Require Import Prelude Crc Psi CText OptParser Dvb Config ConfigText Tuner.

(** ** A full pid list *)

Lemma size_add (x : Z) (s : gset Z) : (size ({[x]} ∪ s) <= S (size s))%nat.
Proof.
  rewrite size_union_alt, size_singleton.
  assert (size (s ∖ {[x]}) <= size s)%nat by (apply subseteq_size; set_solver). lia.
Qed.

Lemma occupied_cons e l :
  occupied (e :: l)
  = if is_occupied (elem_status e) then {[elem_pid e]} ∪ occupied l else occupied l.
Proof.
  unfold pids_with. destruct (is_occupied (elem_status e)) eqn:He.
  - by rewrite filter_cons_True.
  - rewrite filter_cons_False; [done|by rewrite He].
Qed.

Lemma size_occupied_le l : (size (occupied l) <= length l)%nat.
Proof.
  induction l as [|e l IH]; [done|]. rewrite occupied_cons. pose proof (size_add (elem_pid e) (occupied l)).
  destruct (is_occupied (elem_status e)); cbn [length]; lia.
Qed.

(** As many pids as entries: no entry is free. *)
Lemma full_list_occupied l :
  size (occupied l) = length l -> Forall (fun e => is_occupied (elem_status e) = true) l.
Proof.
  induction l as [|e l IH]; [done|]. rewrite occupied_cons. intros Hs.
  pose proof (size_occupied_le l). pose proof (size_add (elem_pid e) (occupied l)).
  destruct (is_occupied (elem_status e)) eqn:He; cbn [length] in Hs; [|lia].
  constructor; [done|]. apply IH. lia.
Qed.

Lemma add_pids_full l new :
  Forall (fun e => is_occupied (elem_status e) = true) l ->
  (forall p, p ∈ asked new -> forall e, e ∈ l -> elem_pid e <> p) ->
  foldl add_pid l new = l.
Proof.
  intros Hocc. induction new as [|p new IH]; intros Hnew; [done|]. cbn [foldl].
  assert (add_pid l p = l) as ->.
  { unfold add_pid. destruct (Z.leb_spec 0x2000 p) as [|Hp]; [done|].
    assert (existsb (fun e => elem_pid e =? p) l = false) as ->.
    { apply not_true_iff_false. intros (e & He & Hep)%existsb_exists.
      apply (Hnew p) with e; [|by apply list_elem_of_In|lia]. apply elem_of_asked.
      split; [by left|done]. }
    destruct (claim_slot_spec l p) as [[-> _]|(i & e & Hi & Hinv & _)]; [done|].
    apply (Forall_lookup_1 _ _ _ _ Hocc) in Hi. by rewrite Hinv in Hi. }
  apply IH. intros q Hq. apply Hnew. apply elem_of_asked. apply elem_of_asked in Hq as [? ?].
  split; [by right|done].
Qed.

(** ** Properties *)

Section Props.
Context `{DvbConstants} `{LongWidth}.

(** C2: the client and the server never lose track of each other unnoticed.
    From the constructor, any sequence of calls of the configuration, of
    requests and of stream data returns, and leaves the pid list well-formed,
    the parser and the configuration in agreement, and, unless the record was
    dropped, the record of requested pids equal to what the server sends. *)
Theorem tuner_run_ok fe_type settings ops :
  Forall op_valid ops -> returns (world_run (world_new fe_type settings) ops) world_ok.
Proof. intros Hops. apply world_run_steps; [done|apply world_new_ok]. Qed.

(** A SETUP makes the server send the wanted pids, whatever was before, and
    leaves nothing pending and no tuning to tell. *)
Theorem setup_tells w :
  world_ok w ->
  let w' := world_setup w in
  w_server w' = wanted_pids (w_cfg w) /\ wanted_pids (w_cfg w') = wanted_pids (w_cfg w) /\
  w_unclear w' = false /\ getPidStatus (w_cfg w') = CONFIG_STATUS_PID_STATIONARY /\
  getChannelStatus (w_cfg w') <> CONFIG_STATUS_CHANNEL_CHANGED.
Proof.
  intros [Hwf _] w'. subst w'. unfold world_setup.
  pose proof (getSetupData_query (w_cfg w) (wanted_pids_nonneg _ _ Hwf)) as Hq.
  destruct (getSetupData_settled (w_cfg w) (tw_slots _ _ Hwf)) as (Hst & Hw & Hch).
  destruct (getSetupData (w_cfg w)) as [data d]. cbn [fst snd] in *.
  split_and!; cbn; [done|done|done|done|]. unfold getChannelStatus. rewrite Hch. by case_bool_decide.
Qed.

(** A PLAY sent for a pid change brings the server to the wanted pids by the
    difference alone, also together with a retune. *)
Theorem play_tells w :
  world_ok w -> getPidStatus (w_cfg w) = CONFIG_STATUS_PID_CHANGED ->
  w_unclear w = false \/ getChannelStatus (w_cfg w) = CONFIG_STATUS_CHANNEL_CHANGED ->
  let w' := world_play w in
  w_server w' = wanted_pids (w_cfg w) /\ wanted_pids (w_cfg w') = wanted_pids (w_cfg w) /\
  w_unclear w' = false /\ getPidStatus (w_cfg w') = CONFIG_STATUS_PID_STATIONARY.
Proof.
  intros Hok Hchg Hor w'. pose proof (world_play_ok w Hok) as Hok'. fold w' in Hok'.
  destruct Hok as [Hwf _]. destruct Hok' as [Hwf' Hs'].
  assert (w_unclear w' = false /\ getPidStatus (w_cfg w') = CONFIG_STATUS_PID_STATIONARY /\
          wanted_pids (w_cfg w') = wanted_pids (w_cfg w)) as (Hu & Hst & Hw).
  { subst w'. unfold world_play. rewrite Hchg. pose proof (retune_wf _ _ Hwf) as Hwf1.
    destruct (retune_spec (w_cfg w)) as (ps & _ & _ & Hwr & _ & Hst & _).
    unfold getPlayData. rewrite (surjective_pairing (retune (w_cfg w))), Hst, Hchg.
    rewrite bool_decide_eq_true_2 by done. set (c1 := (retune (w_cfg w)).2) in *.
    pose proof (play_pids_told c1) as Ht. pose proof (tw_slots _ _ Hwf1) as Hslots.
    pose proof (play_pids_stationary c1 Hslots) as Hps.
    destruct (told_settled _ _ Hslots Ht) as (_ & _ & _ & Hw2).
    destruct (play_pids c1) as [pids d]. cbn [fst snd w_cfg w_unclear] in *. split_and!.
    - destruct Hor as [->|Hc]; [by case_bool_decide|]. by rewrite bool_decide_eq_true_2.
    - unfold getPidStatus. by rewrite Hps, (told_clean _ _ Ht).
    - by rewrite Hw2. }
  split_and!; try done. rewrite <- Hw. by apply (told_server_wanted _ (w_psi w')); [|apply Hs'|].
Qed.

(** C25: the pid list follows the kernel. After [updatePidList] only pids of the
    new list are active, none of them that was active before is lost, and all
    of them are there if the entries suffice for the old and the new pids
    together; what the server knows is kept, the pid status says whether the two
    differ, and the parser joined what is active. *)
Theorem pid_list_follows c psi new :
  tuner_wf c psi -> u16_list new ->
  let r := updatePidList c psi new in
  let l := m_pid_list r.1 in
  active l ⊆ asked new /\
  active (m_pid_list c) ∩ asked new ⊆ active l /\
  ((size (occupied (m_pid_list c) ∪ asked new) <= Z.to_nat MAX_PIDS)%nat ->
   active l = asked new) /\
  known l = known (m_pid_list c) /\
  (m_pid_status r.1 = CONFIG_STATUS_PID_STATIONARY <-> active l = known l) /\
  (forall p, r.2 = Some p -> m_joined_pids p = active l).
Proof.
  intros Hwf Hnew r l. destruct (updatePidList_wf c psi new Hwf Hnew) as (Hwf' & Hl & _).
  fold r in Hwf', Hl. pose proof (tw_slots _ _ Hwf) as Hslots.
  destruct (add_pids_added new _ Hslots Hnew) as [_ _ _ Hkeep _ Hroom].
  assert (active l = active (foldl add_pid (m_pid_list c) new) ∩ asked new) as Ha
    by (subst l; rewrite Hl; by apply updated_list_active).
  split_and!.
  - rewrite Ha. set_solver.
  - rewrite Ha. set_solver.
  - intros Hsize. rewrite Ha. specialize (Hroom Hsize). set_solver.
  - subst l. rewrite Hl. by apply updated_list_known.
  - split; [by apply (tw_pending _ _ Hwf')|]. intros Heq.
    assert (m_pid_status r.1
            = m_pid_status (updatePidStatus (c <| m_pid_list := updated_list (m_pid_list c) new |>)))
      as ->.
    { subst r. unfold updatePidList, notifyPidList.
      fold (updated_list (m_pid_list c) new). set (c1 := updatePidStatus _).
      destruct psi as [p|]; [|done]. cbn [call_psi].
      destruct (setJoinedPids_linked c1 p (active (m_pid_list c)) (collectActivePids c1 ∅))
        as (q & d & -> & Hstep & _); [|apply Hstep].
      destruct (updatePidStatus_fields (c <| m_pid_list := updated_list (m_pid_list c) new |>))
        as (_ & _ & Hca & _). fold c1 in Hca.
      destruct (tw_psi _ _ Hwf) as (? & ? & ?). split_and!; [done| |done]. by rewrite Hca. }
    pose proof (updated_list_wf _ new Hslots Hnew) as Hw.
    subst l. rewrite Hl in Heq. apply pending_spec; done.
  - intros p Hp. pose proof (tw_psi _ _ Hwf') as Hpsi. rewrite Hp in Hpsi. by destruct Hpsi as (_ & _ & ->).
Qed.

(** C34: the new pids are added before the old ones are freed, so a full list
    cannot be replaced: when every entry is taken by a pid the new list does not
    name, all pids of the new list are lost. *)
Theorem full_list_loses_pids c psi new :
  tuner_wf c psi -> u16_list new ->
  size (occupied (m_pid_list c)) = Z.to_nat MAX_PIDS ->
  occupied (m_pid_list c) ## asked new ->
  active (m_pid_list (updatePidList c psi new).1) = ∅.
Proof.
  intros Hwf Hnew Hsize Hdisj. destruct (updatePidList_wf c psi new Hwf Hnew) as (_ & -> & _).
  pose proof (tw_slots _ _ Hwf) as Hslots. rewrite <- (slots_length _ Hslots) in Hsize.
  apply full_list_occupied in Hsize as Hocc.
  rewrite updated_list_active, add_pids_full; [|done| |done..].
  - apply set_eq. intros x. split; [|done]. intros [(e & He & <- & Hs)%elem_of_pids_with Hx]%elem_of_intersection.
    exfalso. apply (Hdisj (elem_pid e)); [|done]. apply elem_of_pids_with. exists e.
    split_and!; [done..|]. by destruct (elem_status e).
  - intros p Hp e He <-. apply (Hdisj (elem_pid e)); [|done]. apply elem_of_pids_with. exists e.
    split_and!; [done..|]. by apply (proj1 (Forall_forall _ _) Hocc).
Qed.

(** C35: a PLAY that only retunes leaves the record of requested pids empty,
    names no pid and has nothing pending, whatever pids are wanted. *)
Theorem retune_drops_pids c :
  getChannelStatus c = CONFIG_STATUS_CHANNEL_CHANGED ->
  getPidStatus c = CONFIG_STATUS_PID_STATIONARY ->
  let r := getPlayData c in
  m_requested_pids r.2 = ∅ /\ server_play true (query r.1) (m_requested_pids c) = ∅ /\
  wanted_pids r.2 = wanted_pids c /\ getPidStatus r.2 = CONFIG_STATUS_PID_STATIONARY.
Proof.
  intros Hch Hst r. subst r. unfold getPlayData.
  destruct (retune_spec c) as (ps & Hps & Hok & Hw & Hr & Hst' & _).
  rewrite (surjective_pairing (retune c)), Hst', Hst.
  rewrite bool_decide_eq_false_2 by done. cbn [fst snd].
  rewrite Hr, bool_decide_eq_true_2 by done. split_and!; [done| |done|congruence].
  rewrite app_nil_r, Hps, query_render by by apply tuning_params_ok.
  unfold server_play. rewrite <- (app_nil_r ps), !field_pids_tuning; [|done|right;right;left|done|right;left].
  set_solver.
Qed.
End Props.

(** ** Witnesses *)

Definition demo_settings : vtunerOpt := vtunerOpt_new <| OptParser.m_ca_pids := true |>.
Definition demo_ops : list tuner_op :=
  [OpSetFrequency 124020; OpPidList [0x100; 0x2000]; OpChannelChanged; OpSetup;
   OpPidList [0x101; 0x100]; OpPlay; OpPidList [0x101]; OpPlay].
Definition demo_world : world := @world_new linux_dvb 0 demo_settings.
Definition demo_run (ops : list tuner_op) : option world := @world_run linux_dvb 64 demo_world ops.

Lemma demo_ops_valid : Forall op_valid demo_ops.
Proof. repeat constructor; cbn; lia. Qed.

Lemma demo_prefix_ok n : returns (demo_run (take n demo_ops)) world_ok.
Proof.
  apply world_run_steps; [|apply (@world_new_ok linux_dvb)].
  pose proof demo_ops_valid as Hv. rewrite <- (take_drop n demo_ops) in Hv.
  by apply Forall_app in Hv as [Hv _].
Qed.

Definition demo_at (n : nat) : world := default demo_world (demo_run (take n demo_ops)).

Lemma demo_at_ok n : world_ok (demo_at n).
Proof.
  unfold demo_at. pose proof (demo_prefix_ok n) as Hr.
  destruct (demo_run (take n demo_ops)) as [w|]; [exact Hr|done].
Qed.

Lemma tuner_run_ok_witness :
  returns (@world_run linux_dvb 64 (@world_new linux_dvb 0 demo_settings) demo_ops) world_ok.
Proof. apply (@tuner_run_ok linux_dvb 64). apply demo_ops_valid. Defined.

Lemma setup_tells_witness :
  w_server (@world_setup linux_dvb (demo_at 3)) = wanted_pids (w_cfg (demo_at 3)).
Proof. apply (@setup_tells linux_dvb (demo_at 3)). apply demo_at_ok. Defined.

Lemma play_tells_witness :
  w_server (@world_play linux_dvb (demo_at 7)) = wanted_pids (w_cfg (demo_at 7)).
Proof.
  apply (@play_tells linux_dvb (demo_at 7)); [apply demo_at_ok|vm_compute; reflexivity|].
  left. vm_compute. reflexivity.
Defined.

Lemma pid_list_follows_witness :
  active (m_pid_list (updatePidList (w_cfg (demo_at 4)) (w_psi (demo_at 4)) [0x101; 0x100]).1)
  = asked [0x101; 0x100].
Proof.
  apply (pid_list_follows (w_cfg (demo_at 4)) (w_psi (demo_at 4)) [0x101; 0x100]).
  - apply demo_at_ok.
  - repeat constructor; cbn; lia.
  - apply Nat.leb_le. vm_compute. reflexivity.
Defined.

(** Thirty old pids and one new one. *)
Definition full_list : list Z := map (fun i => 0x100 + Z.of_nat i) (seq 0 30).
Definition full_world : world := default demo_world (demo_run [OpPidList full_list; OpSetup]).

Lemma full_list_loses_pids_witness :
  active (m_pid_list (updatePidList (w_cfg full_world) (w_psi full_world) [0x200]).1) = ∅.
Proof.
  apply full_list_loses_pids.
  - assert (returns (demo_run [OpPidList full_list; OpSetup]) world_ok) as Hr.
    { apply world_run_steps; [|apply (@world_new_ok linux_dvb)]. repeat constructor; cbn; lia. }
    unfold full_world. destruct (demo_run _) as [w|]; [|destruct Hr].
    apply Hr.
  - repeat constructor; cbn; lia.
  - vm_compute. reflexivity.
  - apply (bool_decide_unpack _). vm_compute. exact I.
Defined.

Lemma retune_drops_pids_witness :
  let c := @setChannelChanged 64 (w_cfg (demo_at 8)) in
  let r := @getPlayData linux_dvb c in
  wanted_pids c <> ∅ /\
  m_requested_pids r.2 = ∅ /\ server_play true (query r.1) (m_requested_pids c) = ∅ /\
  wanted_pids r.2 = wanted_pids c /\ getPidStatus r.2 = CONFIG_STATUS_PID_STATIONARY.
Proof.
  intros c r. split; [apply (bool_decide_unpack _); vm_compute; exact I|].
  apply (@retune_drops_pids linux_dvb c); vm_compute; reflexivity.
Defined.
