(* ===== verification/QueryProps.v ===== *)
(** Properties of the tuning parameters in a request: what a server reads from
    the query of a satellite tuning, and the scrambling code conversion. *)

From S2P Require Import Prelude Crc Psi CText OptParser Dvb Config ConfigText.

(** ** Values of the parameters *)

(** The value a switch prints under a key. *)
Fixpoint choice (x : Z) (cases : list (Z * string)) (d : string) : text :=
  match cases with
  | [] => str d
  | (label, s) :: cases => if x =? label then str s else choice x cases d
  end.

(** The decimal text of a frequency that counts tenths. *)
Definition tenths (n : Z) : text :=
  if negb (n `mod` 10 =? 0) then dec (n / 10) ++ str "." ++ dec (n `mod` 10) else dec (n / 10).

(** Reading it back. *)
Definition read_tenths (t : text) : Z :=
  match getline_split 46 [] t with
  | [a] => 10 * fst (read_digits 10 0 a)
  | [a; b] => 10 * fst (read_digits 10 0 a) + fst (read_digits 10 0 b)
  | _ => -1
  end.

Lemma read_tenths_tenths n : 0 <= n -> read_tenths (tenths n) = n.
Proof.
  intros Hn. pose proof (Z.div_pos n 10 Hn ltac:(lia)) as Hq.
  pose proof (Z.mod_pos_bound n 10 ltac:(lia)) as Hr. pose proof (Z.div_mod n 10 ltac:(lia)) as Hd.
  destruct (dec_digits (n / 10) Hq) as (Hdig & Hne & Hv).
  assert (0 <= n `mod` 10) as Hr0 by lia.
  destruct (dec_digits (n `mod` 10) Hr0) as (Hdig' & Hne' & Hv').
  assert (free_of 46 (dec (n / 10)) /\ free_of 46 (dec (n `mod` 10))) as [Hf Hf']
    by (split; apply digits_free; (done || lia)).
  unfold read_tenths, tenths. destruct (Z.eqb_spec (n `mod` 10) 0) as [H0|H0]; cbn [negb].
  - rewrite getline_split_last by done. rewrite Hv. lia.
  - change (str "." ++ dec (n `mod` 10)) with (x2e :: dec (n `mod` 10)).
    rewrite getline_split_cons, getline_split_last by done. rewrite Hv, Hv'. lia.
Qed.

Section Fields.
Context `{DvbConstants}.

Lemma freq_text_tenths c : freq_text c = str "&freq=" ++ tenths (m_frequency c).
Proof. unfold freq_text, tenths. by destruct (negb _). Qed.

(** The parameters in the order they are printed; [rest] stands for the ones
    behind the symbol rate. *)
Definition sat_params (c : satipConfig) : list (text * text) :=
  [(str "src", dec (m_signal_source c));
   (str "freq", tenths (m_frequency c));
   (str "pol", match m_pol c with CONFIG_POL_HORIZONTAL => str "h" | CONFIG_POL_VERTICAL => str "v" end);
   (str "msys", choice (m_msys c) [(SYS_DVBS, "dvbs"%string); (SYS_DVBS2, "dvbs2"%string)] "dvbs");
   (str "sr", dec (m_symrate c))].

Lemma switch_choice prefix x cases d :
  switch x (map (fun p => (p.1, String.append prefix p.2)) cases) (String.append prefix d)
  = str prefix ++ choice x cases d.
Proof.
  assert (forall a b, str (String.append a b) = str a ++ str b) as Happ.
  { intros a. induction a as [|ch a IH]; intros b; [done|].
    exact (f_equal (cons (Ascii.byte_of_ascii ch)) (IH b)). }
  induction cases as [|[l s] cases IH]; cbn; [apply Happ|].
  destruct (x =? l); [apply Happ|done].
Qed.

Lemma sat_text_params' c :
  exists rest, sat_text c = render (sat_params c) ++ rest /\ param_text rest.
Proof.
  pose proof (dvbs2_text_params c). unfold sat_text. rewrite freq_text_tenths.
  assert (switch (m_msys c) [(SYS_DVBS, "&msys=dvbs"%string); (SYS_DVBS2, "&msys=dvbs2"%string)]
            "&msys=dvbs"
          = str "&msys=" ++ choice (m_msys c)
              [(SYS_DVBS, "dvbs"%string); (SYS_DVBS2, "dvbs2"%string)] "dvbs") as ->
    by exact (switch_choice "&msys=" (m_msys c)
                [(SYS_DVBS, "dvbs"%string); (SYS_DVBS2, "dvbs2"%string)] "dvbs").
  eexists. split.
  - unfold render, sat_params. cbn [map concat fst snd]. rewrite <- !app_assoc.
    destruct (m_pol c); reflexivity.
  - param_pieces.
Qed.

Lemma sat_params_ok c : Forall tuning_param (sat_params c).
Proof.
  assert (forall n, free_of 38 (dec n)) as Hdec by (intros n; apply dec_free; lia).
  assert (forall n, free_of 38 (tenths n)) as Hten.
  { intros n. unfold tenths. destruct (negb _); [|done]. apply free_of_app. split; [done|].
    apply free_of_app. split; [by apply Forall_singleton|done]. }
  assert (forall k v, bool_decide (tuning_param (k, [])) = true -> free_of 38 v ->
            tuning_param (k, v)) as Hp.
  { intros k v [(Hk & Hk' & _) Hkey]%bool_decide_eq_true Hv. by split. }
  assert (free_of 38 (choice (m_msys c)
    [(SYS_DVBS, "dvbs"%string); (SYS_DVBS2, "dvbs2"%string)] "dvbs")) as Hm.
  { cbn [choice]. destruct (_ =? _); [|destruct (_ =? _)]; by apply (bool_decide_unpack _). }
  unfold sat_params.
  apply Forall_cons; split; [by apply Hp|]. apply Forall_cons; split; [by apply Hp|].
  apply Forall_cons; split; [apply Hp; [done|]; destruct (m_pol c); by apply (bool_decide_unpack _)|].
  apply Forall_cons; split; [by apply Hp|]. apply Forall_singleton. by apply Hp.
Qed.

(** A satellite tuning starts with the parameters above, behind the number of
    a chosen frontend. *)
Lemma sat_tuning c :
  m_fe_type c = FE_TYPE_SAT ->
  exists fe rest, (getTuningData c).1 = render (fe ++ sat_params c ++ rest) /\
    Forall tuning_param (fe ++ sat_params c ++ rest) /\ Forall (fun p => p.1 = str "fe") fe.
Proof.
  intros Hfe. unfold getTuningData. rewrite Hfe. change (FE_TYPE_SAT =? FE_TYPE_SAT) with true.
  cbv iota. cbn [fst]. set (c' := c <| m_pilot := _ |>).
  destruct (sat_text_params' c') as (rest & -> & (ps & -> & Hps)).
  assert (sat_params c' = sat_params c) as -> by done.
  set (n := m_fe_number (m_settings c)).
  exists (if 0 <? n then [(str "fe", dec n)] else []), ps.
  pose proof (sat_params_ok c) as Hok. split_and!.
  - rewrite !render_app. f_equal. destruct (0 <? n); [|done].
    unfold render. cbn [map concat fst snd]. by rewrite app_nil_r.
  - apply Forall_app. split; [|by apply Forall_app]. destruct (0 <? n); [|done].
    apply Forall_singleton. split; [|by apply (bool_decide_unpack _)].
    split_and!; [by apply (bool_decide_unpack _)..|]. apply dec_free; cbn; lia.
  - destruct (0 <? n); [|done]. by apply Forall_singleton.
Qed.

Lemma field_skip k ps q : Forall (fun p : text * text => p.1 <> k) ps -> field k (ps ++ q) = field k q.
Proof.
  induction 1 as [|[k' v] ps Hk _ IH]; [done|]. cbn [app field] in *.
  by rewrite bool_decide_eq_false_2.
Qed.

(** What a query says about the tuning. *)
Definition says_tuning (c : satipConfig) (q : list (text * text)) : Prop :=
  field (str "src") q = Some (dec (m_signal_source c)) /\
  read_tenths <$> field (str "freq") q = Some (m_frequency c) /\
  field (str "pol") q
  = Some (match m_pol c with CONFIG_POL_HORIZONTAL => str "h" | CONFIG_POL_VERTICAL => str "v" end) /\
  field (str "msys") q = Some (if m_msys c =? SYS_DVBS2 then str "dvbs2" else str "dvbs") /\
  field (str "sr") q = Some (dec (m_symrate c)).

Lemma says_tuning_params c fe rest `{!DvbLaws} :
  0 <= m_frequency c -> Forall (fun p => p.1 = str "fe") fe ->
  says_tuning c (fe ++ sat_params c ++ rest).
Proof.
  intros Hf Hfe.
  assert (forall k, k <> str "fe" -> field k (fe ++ sat_params c ++ rest)
                               = field k (sat_params c ++ rest)) as Hskip.
  { intros k Hk. apply field_skip. eapply Forall_impl; [exact Hfe|]. intros p -> Heq. by apply Hk. }
  unfold says_tuning. rewrite !Hskip by done. split_and!.
  - done.
  - change (field (str "freq") (sat_params c ++ rest)) with (Some (tenths (m_frequency c))).
    cbn [fmap option_fmap option_map]. by rewrite read_tenths_tenths.
  - done.
  - change (field (str "msys") (sat_params c ++ rest))
      with (Some (choice (m_msys c) [(SYS_DVBS, "dvbs"%string); (SYS_DVBS2, "dvbs2"%string)] "dvbs")).
    cbn [choice]. f_equal. destruct (Z.eqb_spec (m_msys c) SYS_DVBS) as [->|]; [|done].
    destruct (Z.eqb_spec SYS_DVBS SYS_DVBS2) as [Heq|]; [|done].
    pose proof systems_distinct as Hnd. rewrite Heq in Hnd.
    do 2 apply NoDup_cons_1_2 in Hnd. apply NoDup_cons in Hnd as [Hnin _]. destruct Hnin. by left.
  - done.
Qed.

Lemma says_tuning_query c tail `{!DvbLaws} :
  m_fe_type c = FE_TYPE_SAT -> 0 <= m_frequency c -> Forall param_ok tail ->
  says_tuning c (query (query_start ((getTuningData c).1 ++ render tail))).
Proof.
  intros Hfe Hf Htail. destruct (sat_tuning c Hfe) as (fe & rest & -> & Hok & Hkey).
  rewrite <- render_app, query_render.
  - rewrite <- !app_assoc. by apply says_tuning_params.
  - apply Forall_app. split; [by apply tuning_params_ok|done].
Qed.
End Fields.

(** ** Scrambling codes *)

(** The x sequence of EN 302 307 (5.5.4): x(0) = 1, x(1), ..., x(17) = 0, and
    x(i + 18) = x(i + 7) + x(i) modulo 2. *)
Fixpoint x_sequence (i : nat) : bool :=
  match i with
  | 0%nat => true
  | S (S (S (S (S (S (S (S (S (S (S (S (S (S (S (S (S (S i)))))) as k)))))))))))
      => xorb (x_sequence k) (x_sequence i)
  | _ => false
  end.

(** The number whose bits are those, the lowest first. *)
Fixpoint bits_value (l : list bool) : Z :=
  match l with
  | [] => 0
  | b :: l => Z.b2z b + 2 * bits_value l
  end.

(** The root code of the Gold code [g]: the 18 bits of the sequence from g on. *)
Definition root_code (g : nat) : Z := bits_value (x_sequence <$> seq g 18).

Lemma x_sequence_start i : (0 < i < 18)%nat -> x_sequence i = false.
Proof. intros Hi. do 18 (destruct i as [|i]; [done || lia|]). lia. Qed.

Lemma x_sequence_next i : x_sequence (18 + i) = xorb (x_sequence (7 + i)) (x_sequence i).
Proof. reflexivity. Qed.

Lemma bits_value_testbit l : forall i, Z.testbit (bits_value l) (Z.of_nat i) = default false (l !! i).
Proof.
  induction l as [|b l IH]; intros i; [by rewrite Z.testbit_0_l|]. cbn [bits_value].
  rewrite Z.add_comm. destruct i as [|i]; [apply Z.testbit_0_r|].
  rewrite Nat2Z.inj_succ, Z.testbit_succ_r by lia. apply IH.
Qed.

Lemma root_code_testbit g i :
  Z.testbit (root_code g) (Z.of_nat i) = (i <? 18)%nat && x_sequence (g + i).
Proof.
  unfold root_code. rewrite bits_value_testbit, list_lookup_fmap. destruct (Nat.ltb_spec i 18) as [Hi|Hi].
  - by rewrite (proj2 (lookup_seq g 18 i (g + i))).
  - by rewrite lookup_ge_None_2 by (by rewrite length_seq).
Qed.

(** The code's register holds the next 18 bits. *)
Lemma pls_step_root_code g : pls_step (root_code g) = root_code (S g).
Proof.
  apply Z.bits_inj'. intros n Hn. rewrite <- (Z2Nat.id n Hn). generalize (Z.to_nat n) as i. intros i.
  unfold pls_step. rewrite Z.lor_spec, Z.shiftr_spec by lia.
  replace (Z.of_nat i + 1) with (Z.of_nat (S i)) by lia. rewrite !root_code_testbit.
  rewrite Nat.add_succ_r. cbn [Nat.add].
  destruct (Nat.lt_trichotomy i 17) as [Hi|[->|Hi]].
  - rewrite Z.shiftl_spec_low by lia.
    by rewrite (proj2 (Nat.ltb_lt i 18)), (proj2 (Nat.ltb_lt (S i) 18)) by lia.
  - rewrite Z.shiftl_spec by lia. change (Z.of_nat 17 - 17) with 0.
    rewrite Z.land_spec, Z.lxor_spec, Z.shiftr_spec by lia. change 0 with (Z.of_nat 0).
    change (Z.of_nat 0 + 7) with (Z.of_nat 7). rewrite !root_code_testbit. cbn [Nat.ltb Nat.leb andb].
    replace (S (g + 17)) with (18 + g)%nat by lia. rewrite x_sequence_next.
    replace (g + 7)%nat with (7 + g)%nat by lia. rewrite Nat.add_0_r. cbn [Z.of_nat Z.testbit].
    by rewrite andb_true_r, orb_false_r, xorb_comm.
  - rewrite Z.shiftl_spec by lia. rewrite (proj2 (Nat.ltb_ge i 18)), (proj2 (Nat.ltb_ge (S i) 18)) by lia.
    rewrite Z.land_spec. cbn [andb]. rewrite orb_false_r.
    assert (Z.testbit 1 (Z.of_nat i - 17) = false) as -> by (apply Z.bits_above_log2; cbn; lia).
    apply andb_false_r.
Qed.

Lemma root2gold_loop_spec root fuel : forall g,
  Z.of_nat g + Z.of_nat fuel = 0x3ffff ->
  let r := root2gold_loop fuel root (Z.of_nat g) (root_code g) in
  (exists k, (g <= k < g + fuel)%nat /\ r = Z.of_nat k /\ root_code k = root /\
             forall j, (g <= j < k)%nat -> root_code j <> root) \/
  (r = 0x3ffff /\ forall j, (g <= j < g + fuel)%nat -> root_code j <> root).
Proof.
  induction fuel as [|fuel IH]; intros g Hg r; [right; split; [done|lia]|].
  subst r. cbn [root2gold_loop]. destruct (Z.eqb_spec root (root_code g)) as [Heq|Hne].
  { left. exists g. split_and!; [lia|lia|done|done|lia]. }
  replace (Z.of_nat g + 1) with (Z.of_nat (S g)) by lia.
  rewrite pls_step_root_code.
  assert (forall j, (g <= j)%nat -> (S g <= j)%nat \/ j = g) as Hcase by lia.
  destruct (IH (S g)) as [(k & Hk & -> & Hs & Hmin)|[-> Hnone]]; [lia| |].
  - left. exists k. split_and!; [lia|lia|done|done|].
    intros j Hj. destruct (Hcase j) as [?| ->]; [lia|apply Hmin; lia|congruence].
  - right. split; [done|].
    intros j Hj. destruct (Hcase j) as [?| ->]; [lia|apply Hnone; lia|congruence].
Qed.

(** ** Requests *)

(** A request for a new satellite tuning says what was set. The server reads
    back from the query, of a SETUP and of a PLAY alike, the signal source, the
    frequency to a tenth, the polarisation, the delivery system and the symbol
    rate of the configuration. *)
Lemma sat_request_says `{DvbConstants} `{!DvbLaws} c :
  getChannelStatus c = CONFIG_STATUS_CHANNEL_CHANGED -> m_fe_type c = FE_TYPE_SAT ->
  0 <= m_frequency c -> (forall x, x ∈ wanted_pids c -> 0 <= x) ->
  says_tuning c (query (getSetupData c).1) /\ says_tuning c (query (getPlayData c).1).
Proof.
  intros Hch Hfe Hf Hpos. unfold getChannelStatus in Hch.
  destruct (take_tuning_spec c) as (_ & (Hl & Hr & Hca & Hd & Hps & _) & _).
  assert ((take_tuning c).1 = (getTuningData c).1) as Ht.
  { unfold take_tuning. rewrite bool_decide_eq_true_2 by done. by destruct (getTuningData c). }
  split.
  - unfold getSetupData. destruct (take_tuning c) as [tuning c1]. cbn [fst snd] in *. subst tuning.
    rewrite collectActivePids_spec. unfold addCaPids. cbn [fst].
    rewrite union_empty_l_L, Hl, Hca. fold (wanted_pids c). set (w := wanted_pids c) in *.
    set (v := if bool_decide (w <> ∅) then joinNumbers w false else str "none").
    assert ((if bool_decide (w <> ∅) then str "&pids=" ++ joinNumbers w false
             else str "&pids=none") = render [(str "pids", v)]) as ->.
    { unfold v, render. case_bool_decide; cbn [map concat fst snd]; by rewrite app_nil_r. }
    apply says_tuning_query; [done..|]. apply Forall_singleton. unfold v.
    case_bool_decide; [by apply pid_param_ok; [left|]|]. by apply (bool_decide_unpack _).
  - unfold getPlayData, retune. rewrite bool_decide_eq_true_2 by done.
    destruct (take_tuning c) as [tuning c1]. cbn [fst snd] in *. subst tuning.
    set (c2 := c1 <| m_requested_pids := ∅ |>).
    assert (wanted_pids c2 = wanted_pids c) as Hw by (unfold wanted_pids; cbn; by rewrite Hl, Hca).
    case_bool_decide.
    + rewrite (surjective_pairing (play_pids c2)), play_pids_query, Hw. cbn [fst].
      apply says_tuning_query; [done..|]. change (m_requested_pids c2) with (∅ : gset Z).
      apply Forall_app. split; apply optional_pids_ok;
        try (intros x Hx; apply Hpos; set_solver); [right; left|right; right; left].
    + cbn [fst]. by apply (says_tuning_query c []).
Qed.

(** ** Properties *)

(** C27: [pls_root2gold] inverts the x sequence of the standard: its result is
    the first Gold code whose root code is the one given, and 0x3ffff when none
    of the first 0x3ffff is. The root code of the Gold code g is the number made
    of the 18 bits of the sequence that begin at the bit g. *)
Theorem root2gold_inverts root :
  let g := pls_root2gold root in
  (exists k, g = Z.of_nat k /\ g < 0x3ffff /\ root_code k = root /\
             forall j, (j < k)%nat -> root_code j <> root) \/
  (g = 0x3ffff /\ forall j : nat, Z.of_nat j < 0x3ffff -> root_code j <> root).
Proof.
  intros g. subst g. unfold pls_root2gold. set (fuel := Z.to_nat 0x3ffff).
  assert (Z.of_nat fuel = 0x3ffff) as Hfuel by (subst fuel; rewrite Z2Nat.id; lia).
  clearbody fuel. pose proof (root2gold_loop_spec root fuel 0) as Hspec. cbv zeta in Hspec.
  change (Z.of_nat 0) with 0 in Hspec. change (root_code 0) with 1 in Hspec.
  destruct Hspec as [(k & Hk & -> & Hs & Hmin)|[-> Hnone]]; [lia| |].
  - left. exists k. split_and!; [done|lia|done|]. intros j Hj. apply Hmin. lia.
  - right. split; [done|]. intros j Hj. apply Hnone. lia.
Qed.
