(* ===== verification/Rtp.v ===== *)
(** The data path of rtp.h and rtp.cpp: the class [satipRTP], which passes the
    transport stream to the vtuner device and to the PSI parser and takes the
    reception quality from RTCP reports.

    As in Psi.v, [None] is undefined behaviour of the C++ code: an access
    outside of a buffer, a null pointer handed to sscanf, the use of an integer
    sscanf did not set, a signed overflow. *)

From S2P Require Import Prelude Crc Psi PsiFormat PsiFeed CText.

#[local] Ltac Zify.zify_post_hook ::= Z.to_euclidean_division_equations.

Definition PORT_BASE : Z := 45000.
Definition PORT_RANGE : Z := 2000.
Definition BUFFER_SIZE : Z := 1328.

(** The fields that change after construction; [m_psi] is kept by the caller,
    next to the configuration it belongs to. *)
Record satipRTP := mkRTP {
  m_rtp_port : Z;
  m_rtcp_port : Z;
  m_openok : bool;
  m_hasLock : bool;
  m_signalStrength : Z;
  m_signalQuality : Z
}.

#[export] Instance satipRTP_settable : Settable satipRTP := fun r => mkRTP
  (m_rtp_port r) (m_rtcp_port r) (m_openok r) (m_hasLock r) (m_signalStrength r)
  (m_signalQuality r).

Definition unset (r : satipRTP) : satipRTP :=
  r <| m_signalStrength := 0 |> <| m_hasLock := false |> <| m_signalQuality := 0 |>.

(** ** Opening the ports *)

(** One round of [openRTP]: the random number and whether the binds succeed. *)
Record port_try := Try { try_random : Z; try_rtp_bind : bool; try_rtcp_bind : bool }.

(** The loop, for the rounds the system would answer with [tries]; [None] when
    it goes on past them. *)
Fixpoint open_loop (attempts : Z) (tries : list port_try) : option (option (Z * Z)) :=
  if attempts - 1 <=? 0 then Some None
  else
    match tries with
    | [] => None
    | t :: tries =>
      let rtp_port := PORT_BASE + Z.rem (try_random t) (PORT_RANGE - 1) in
      let rtcp_port := rtp_port + 1 in
      if negb (try_rtp_bind t) then open_loop (attempts - 1) tries
      else if negb (try_rtcp_bind t) then open_loop (attempts - 1) tries
      else Some (Some (rtp_port, rtcp_port))
    end.

(** [openRTP], with the return value 0 as [true]. *)
Definition openRTP (r : satipRTP) (tries : list port_try) : option (satipRTP * bool) :=
  res ← open_loop (Z.quot PORT_RANGE 2) tries;
  match res with
  | None => Some (r, false)
  | Some (rtp_port, rtcp_port) =>
      Some (r <| m_rtp_port := rtp_port |> <| m_rtcp_port := rtcp_port |>, true)
  end.

Definition satipRTP_new (tcp_data : bool) (tries : list port_try) : option satipRTP :=
  let r := mkRTP (-1) (-1) false false 0 0 in
  if tcp_data then Some (r <| m_openok := true |>)
  else '(r, ok) ← openRTP r tries; Some (r <| m_openok := ok |>).

(** ** Writing to the device *)

(** The answers of write: a count, or an error that is EINTR or not. *)
Inductive write_res := Wrote (n : Z) | WriteError (eintr : bool).

(** [Write], with the answers the system gives: the result and the bytes that
    were written. [None] when it would go on past them. *)
Fixpoint Write_loop (answers : list write_res) (buffer : list byte) (size count : Z) :
    option (Z * list byte) :=
  if negb (count <? size) then Some (count, [])
  else
    match answers with
    | [] => None
    | Wrote n :: answers =>
      if n =? 0 then Some (-1, [])
      else
        chunk ← rd_range buffer count n;
        '(res, rest) ← Write_loop answers buffer size (count + n);
        Some (res, chunk ++ rest)
    | WriteError eintr :: answers =>
      if eintr then Write_loop answers buffer size count else Some (-1, [])
    end.

Definition Write (answers : list write_res) (buffer : list byte) (size : Z) :
    option (Z * list byte) :=
  Write_loop answers buffer size 0.

(** ** RTCP *)

(** A product of two ints. *)
Definition mul_int (a b : Z) : option Z :=
  if (- 2 ^ 31 <=? a * b) && (a * b <? 2 ^ 31) then Some (a * b) else None.

Section WithLong.
Context `{LongWidth}.

(** A [,%d] of the scanf format. *)
Definition scan_field (s : text) : option (Z * text) :=
  match s with
  | b :: s => if ub b =? 44 then scan_int s else None
  | [] => None
  end.

(** [sscanf(strp, ",%d,%d,%d,%*s", ...)]: the three numbers; [None] when the
    first or the second, which are used in any case, is not set. *)
Definition scan_report (s : text) : option (Z * Z * option Z) :=
  '(level, s) ← scan_field s;
  '(lock, s) ← scan_field s;
  Some (level, lock, fst <$> scan_field s).

(** [buffer] is the C string of the payload. *)
Definition parseRtcpAppPayload (r : satipRTP) (buffer : text) : option satipRTP :=
  let r := unset r in
  match strstr buffer (str ";tuner=") with
  | None => Some r
  | Some strp =>
    strp ← strstr strp (str ",");
    '(level, lock, quality) ← scan_report strp;
    strength ← (if 0 <=? level then x ← mul_int level 65535; Some (Z.quot x 255) else Some 0);
    let has_lock := negb (lock =? 0) in
    q ← (if has_lock then
           quality ← quality;
           if 0 <=? quality then x ← mul_int quality 65535; Some (Z.quot x 15) else Some 0
         else Some 0);
    Some (r <| m_signalStrength := strength |> <| m_hasLock := has_lock |>
            <| m_signalQuality := q |>)
  end.

(** A big endian 32 bit read, [ntohl] of the word at [p + i]. *)
Definition rd32 (p : list byte) (i : Z) : option Z :=
  b0 ← rd p i; b1 ← rd p (i + 1); b2 ← rd p (i + 2); b3 ← rd p (i + 3);
  Some (b0 * 2 ^ 24 + b1 * 2 ^ 16 + b2 * 2 ^ 8 + b3).

(** The loop of [rtcpData] at offset [done]; [mem] is the memory from
    [a_buffer] to the end of the receive buffer, of which [a_size] bytes were
    received. [exhausted] is the result when the fuel is used up. *)
Fixpoint rtcp_loop (exhausted : option satipRTP) (fuel : nat) (r : satipRTP) (mem : list byte)
    (a_size done : Z) : option satipRTP :=
  match fuel with
  | O => exhausted
  | S fuel =>
    if negb (done <? a_size) then Some r else
    val ← rd32 mem done;
    let pt := Z.shiftr (Z.land val 0x00ff0000) 16 in
    let length := Z.land val 0x0000ffff in
    r ← (if (pt =? 204) && (1 <? length) then
           _ ← rd32 mem (done + 8);
           n ← rd32 mem (done + 12);
           let string_length := Z.land n 0x0000ffff in
           if 0 <? string_length then
             payload ← rd_range mem (done + 16) string_length;
             parseRtcpAppPayload r (c_str payload)
           else Some r
         else Some r);
    rtcp_loop exhausted fuel r mem a_size (done + (length + 1) * 4)
  end.

Definition rtcpData (r : satipRTP) (mem : list byte) (a_size : Z) : option satipRTP :=
  rtcp_loop None (S (Z.to_nat a_size)) r mem a_size 0.

(** ** Incoming data *)

Context {C : Type} `{CaSink C}.

(** The parser behind [m_psi], with the configuration it reports to. *)
Definition tap (psi : option satipPSI) (cfg : option C) (data : list byte) (len t0 t1 : Z) :
    option (option satipPSI * option C) :=
  match psi with
  | None => Some (None, cfg)
  | Some p => '(p, cfg) ← processTS p cfg data len t0 t1; Some (Some p, cfg)
  end.

(** What a packet of the stream leads to: the new state, and the bytes handed
    to [Write] for the device. *)
Record delivery := Deliver {
  dl_rtp : satipRTP;
  dl_psi : option satipPSI;
  dl_cfg : option C;
  dl_device : list byte
}.

(** The RTP half of the loop of [rtpDump]: a datagram of [rx_bytes] bytes was
    received into the buffer [rx_data]. *)
Definition rtp_datagram (r : satipRTP) (psi : option satipPSI) (cfg : option C)
    (rx_data : list byte) (rx_bytes t0 t1 : Z) : option delivery :=
  if 12 <? rx_bytes then
    b ← rd rx_data 12;
    if b =? 0x47 then
      out ← rd_range rx_data 12 (rx_bytes - 12);
      '(psi, cfg) ← tap psi cfg (ptr_add rx_data 12) (rx_bytes - 12) t0 t1;
      Some (Deliver r psi cfg out)
    else Some (Deliver r psi cfg [])
  else Some (Deliver r psi cfg []).

(** The RTCP half. *)
Definition rtcp_datagram (r : satipRTP) (rx_data : list byte) (rx_bytes : Z) : option satipRTP :=
  if 0 <? rx_bytes then rtcpData r rx_data rx_bytes else Some r.

(** [rtpTcpData], which always returns 0: [data] is the memory from the
    interleaved header on. *)
Definition rtpTcpData (r : satipRTP) (psi : option satipPSI) (cfg : option C)
    (data : list byte) (size t0 t1 : Z) : option delivery :=
  if size <=? 4 + 12 then Some (Deliver r psi cfg []) else
  channel ← rd data 1;
  if channel =? 0 then
    out ← rd_range data 16 (size - 4 - 12);
    '(psi, cfg) ← tap psi cfg (ptr_add data 16) (size - 4 - 12) t0 t1;
    Some (Deliver r psi cfg out)
  else if channel =? 1 then
    r ← rtcpData r (ptr_add data 4) (size - 4);
    Some (Deliver r psi cfg [])
  else Some (Deliver r psi cfg []).
End WithLong.

(** ** Writing: every byte, once, in order *)

Lemma Write_loop_sound answers buffer size : forall count res out,
  0 <= count -> Write_loop answers buffer size count = Some (res, out) ->
  exists rest, ptr_add buffer count = out ++ rest /\
               (res = -1 \/ (res = count + zlen out /\ size <= res)).
Proof.
  induction answers as [|a answers IH]; intros count res out Hc Hw.
  { cbn [Write_loop] in Hw. destruct (Z.ltb_spec count size); [done|]. injection Hw as <- <-.
    eexists. split; [done|]. right. change (zlen []) with 0. lia. }
  cbn [Write_loop] in Hw. destruct (Z.ltb_spec count size); cbn [negb] in Hw.
  2: { injection Hw as <- <-. eexists. split; [done|]. right. change (zlen []) with 0. lia. }
  destruct a as [n|eintr].
  - destruct (n =? 0); [injection Hw as <- <-; eexists; split; [done|by left]|].
    destruct (rd_range buffer count n) as [chunk|] eqn:Hr; [|done]. cbn [mbind option_bind] in Hw.
    destruct (Write_loop answers buffer size (count + n)) as [[res' rest]|] eqn:Hl; [|done].
    injection Hw as <- <-. unfold rd_range in Hr.
    destruct (_ && _ && _) eqn:E; [|done]. bool_cases. injection Hr as <-.
    destruct (IH (count + n) res' rest ltac:(lia) Hl) as (tl & Htl & Hres).
    fold (ptr_add buffer count). exists tl.
    rewrite <- app_assoc, <- Htl. split; [by apply ptr_add_take|].
    rewrite zlen_app, zlen_take by (rewrite zlen_ptr_add; lia). lia.
  - destruct eintr; [by apply IH|]. injection Hw as <- <-. eexists. split; [done|by left].
Qed.

(** The counts of a list of answers without hard errors. *)
Definition counts (answers : list write_res) : list Z :=
  omap (fun a => match a with Wrote n => Some n | WriteError _ => None end) answers.

Lemma counts_cons a answers :
  counts (a :: answers) = match a with Wrote n => n :: counts answers
                          | WriteError _ => counts answers end.
Proof. by destruct a. Qed.

Definition accepting (a : write_res) : Prop :=
  match a with Wrote n => 0 < n | WriteError eintr => eintr = true end.

Fixpoint sum (l : list Z) : Z := match l with [] => 0 | n :: l => n + sum l end.

Lemma sum_nonneg answers : Forall accepting answers -> 0 <= sum (counts answers).
Proof.
  induction 1 as [|a answers Ha _ IH]; [done|]. rewrite counts_cons.
  destruct a; cbn [sum accepting] in *; lia.
Qed.

Lemma Write_loop_complete answers buffer : forall count,
  Forall accepting answers -> 0 <= count <= zlen buffer ->
  count + sum (counts answers) = zlen buffer ->
  exists out, Write_loop answers buffer (zlen buffer) count = Some (zlen buffer, out).
Proof.
  induction answers as [|a answers IH]; intros count Ha Hc Hsum.
  { cbn in Hsum. cbn [Write_loop]. rewrite (proj2 (Z.ltb_ge _ _)) by lia.
    exists []. cbn. do 2 f_equal. lia. }
  apply Forall_cons in Ha as [Ha Hall]. pose proof (sum_nonneg _ Hall) as Hpos.
  cbn [Write_loop]. destruct (Z.ltb_spec count (zlen buffer)); cbn [negb].
  2: { exists []. do 2 f_equal. lia. }
  rewrite counts_cons in Hsum. destruct a as [n|eintr]; cbn [sum accepting] in Ha, Hsum.
  - rewrite (proj2 (Z.eqb_neq n 0)) by lia.
    destruct (rd_range_ok buffer count n) as (chunk & -> & _); [lia..|].
    destruct (IH (count + n)) as [out Hout]; [done|lia|lia|].
    exists (chunk ++ out). cbn [mbind option_bind]. by rewrite Hout.
  - subst eintr. by apply IH.
Qed.

(** ** Reports of the server *)

(** The string payload of an APP packet. *)
Definition report (src fe level lock quality : Z) (rest : text) : text :=
  str "ver=1.0;src=" ++ dec src ++ str ";tuner=" ++ dec fe ++ str "," ++ dec level ++ str ","
  ++ dec lock ++ str "," ++ dec quality ++ str "," ++ rest.

(** An RTCP APP packet: header, ssrc, name, identifier, length, payload, which
    is padded to full words. *)
Definition app_packet (ssrc name : list byte) (payload pad : list byte) : list byte :=
  let words := (zlen payload + zlen pad) / 4 + 3 in
  [x80; xcc; byte_of (words / 256); byte_of words] ++ ssrc ++ name
  ++ [x00; x00; byte_of (zlen payload / 256); byte_of (zlen payload)] ++ payload ++ pad.

Definition app_wf (ssrc name payload pad : list byte) : Prop :=
  zlen ssrc = 4 /\ zlen name = 4 /\ (zlen payload + zlen pad) `mod` 4 = 0 /\
  0 < zlen payload < 2 ^ 16 /\ zlen payload + zlen pad < 2 ^ 17 /\ free_of 0 payload.

Section Reports.
Context `{LongWidth}.

Lemma scan_field_dec n rest :
  32 <= long_bits -> 0 <= n < 2 ^ 31 ->
  scan_field (str "," ++ dec n ++ str "," ++ rest) = Some (n, str "," ++ rest).
Proof.
  intros Hl Hn. unfold scan_field. cbn [str app].
  change (ub x2c =? 44) with true. cbv iota. by apply scan_int_dec.
Qed.

Lemma strstr_report src fe level lock quality rest :
  0 <= src -> 0 <= fe ->
  (strp ← strstr (report src fe level lock quality rest) (str ";tuner="); strstr strp (str ","))
  = Some (str "," ++ dec level ++ str "," ++ dec lock ++ str "," ++ dec quality ++ str ","
          ++ rest).
Proof.
  intros Hs Hf. unfold report.
  assert (forall x, strstr (str "ver=1.0;src=" ++ x) (str ";tuner=") = strstr x (str ";tuner="))
    as -> by done.
  rewrite (strstr_skip _ _ _ x3b) by (done || (apply dec_free; cbn; lia)).
  rewrite strstr_here. cbn [mbind option_bind].
  assert (forall x, strstr (str ";tuner=" ++ x) (str ",") = strstr x (str ",")) as -> by done.
  rewrite (strstr_skip _ _ _ x2c) by (done || (apply dec_free; cbn; lia)).
  apply strstr_here.
Qed.

Lemma parse_report r src fe level lock quality rest :
  32 <= long_bits -> 0 <= src -> 0 <= fe -> 0 <= level <= 255 -> 0 <= lock <= 1 ->
  0 <= quality <= 15 ->
  parseRtcpAppPayload r (report src fe level lock quality rest)
  = Some (r <| m_signalStrength := level * 257 |> <| m_hasLock := lock =? 1 |>
            <| m_signalQuality := if lock =? 1 then quality * 4369 else 0 |>).
Proof.
  intros Hl Hs Hf Hlev Hlock Hq. unfold parseRtcpAppPayload.
  pose proof (strstr_report src fe level lock quality rest Hs Hf) as Hstr.
  destruct (strstr _ (str ";tuner=")) as [strp|]; [|done]. cbn [mbind option_bind] in Hstr.
  rewrite Hstr. cbn [mbind option_bind]. unfold scan_report.
  rewrite !scan_field_dec by lia. cbn [mbind option_bind].
  rewrite scan_field_dec by lia. cbn [mbind option_bind].
  rewrite scan_field_dec by lia. cbn [mbind option_bind fmap option_fmap option_map fst].
  rewrite (proj2 (Z.leb_le 0 level)), (proj2 (Z.leb_le 0 quality)) by lia. unfold mul_int.
  rewrite !(proj2 (Z.leb_le _ _)), !(proj2 (Z.ltb_lt _ _)) by lia. cbn [andb mbind option_bind].
  replace (level * 65535) with (level * 257 * 255) by lia.
  replace (quality * 65535) with (quality * 4369 * 15) by lia.
  rewrite !Z.quot_mul by lia.
  assert (lock = 0 \/ lock = 1) as [->| ->] by lia; done.
Qed.
End Reports.

(** ** RTCP packets *)

Lemma rd32_fields b0 b1 b2 b3 :
  0 <= b0 < 256 -> 0 <= b1 < 256 -> 0 <= b2 < 256 -> 0 <= b3 < 256 ->
  let v := b0 * 2 ^ 24 + b1 * 2 ^ 16 + b2 * 2 ^ 8 + b3 in
  Z.shiftr (Z.land v 0x00ff0000) 16 = b1 /\ Z.land v 0x0000ffff = b2 * 256 + b3.
Proof.
  intros H0 H1 H2 H3 v. subst v. rewrite Z.shiftr_land. change (Z.shiftr 0x00ff0000 16) with (Z.ones 8).
  change 0x0000ffff with (Z.ones 16). rewrite !Z.land_ones, Z.shiftr_div_pow2 by lia.
  split; lia.
Qed.

Lemma rd32_app p q i : 0 <= i -> i + 4 <= zlen p -> rd32 (p ++ q) i = rd32 p i.
Proof. intros Hi Hp. unfold rd32. by rewrite !rd_app_l by lia. Qed.

Lemma rd32_ok p i : 0 <= i -> i + 4 <= zlen p -> exists v, rd32 p i = Some v.
Proof.
  intros Hi Hp. unfold rd32. destruct (rd_ok p i) as (? & -> & _); [lia|].
  destruct (rd_ok p (i + 1)) as (? & -> & _); [lia|].
  destruct (rd_ok p (i + 2)) as (? & -> & _); [lia|].
  destruct (rd_ok p (i + 3)) as (? & -> & _); [lia|]. by eexists.
Qed.

Lemma c_str_free s : free_of 0 s -> c_str s = s.
Proof.
  induction 1 as [|b s Hb Hs IH]; [done|]. cbn [c_str].
  by rewrite (proj2 (Z.eqb_neq (ub b) 0)), IH.
Qed.

Lemma rd_range_middle p q r : rd_range (p ++ q ++ r) (zlen p) (zlen q) = Some q.
Proof.
  pose proof (zlen_nonneg p). pose proof (zlen_nonneg q). pose proof (zlen_nonneg r).
  unfold rd_range. rewrite !zlen_app, !(proj2 (Z.leb_le _ _)) by lia. cbn [andb]. f_equal.
  unfold zlen. rewrite !Nat2Z.id. by rewrite drop_app_length, take_app_length.
Qed.

Lemma rd32_more p q i v : rd32 p i = Some v -> rd32 (p ++ q) i = Some v.
Proof.
  unfold rd32.
  destruct (rd p i) as [b0|] eqn:E0, (rd p (i + 1)) as [b1|] eqn:E1, (rd p (i + 2)) as [b2|] eqn:E2,
    (rd p (i + 3)) as [b3|] eqn:E3; try done.
  by rewrite (rd_more _ q _ _ E0), (rd_more _ q _ _ E1), (rd_more _ q _ _ E2), (rd_more _ q _ _ E3).
Qed.

Lemma rd32_ptr_add p i j : 0 <= i -> 0 <= j -> rd32 p (i + j) = rd32 (ptr_add p i) j.
Proof.
  intros Hi Hj. unfold rd32, rd. rewrite !rdb_ptr_add by lia.
  by rewrite !Z.add_assoc.
Qed.

(** A packet that is passed over. *)
Definition other_packet (b0 pt hi lo : byte) (body : list byte) : list byte := [b0; pt; hi; lo] ++ body.

Section Packets.
Context `{LongWidth}.

(** Fuel for the bytes is not used up: each round takes at least four. *)
Lemma rtcp_loop_fuel x y n : forall k r mem a_size done,
  (0 < n)%nat -> (0 < k)%nat -> a_size - done < Z.of_nat n -> a_size - done < Z.of_nat k ->
  rtcp_loop x n r mem a_size done = rtcp_loop y k r mem a_size done.
Proof.
  induction n as [|n IH]; intros [|k] r mem a_size done Hn Hk Hfn Hfk; [lia..|].
  cbn [rtcp_loop]. destruct (Z.ltb_spec done a_size) as [Hlt|]; cbn [negb]; [|easy].
  destruct (rd32 mem done) as [val|]; [|easy]. cbn [mbind option_bind].
  assert (0 <= Z.land val 0x0000ffff) as Hl by (apply Z.land_nonneg; lia).
  destruct (if _ && _ then _ else _) as [q|]; [|easy]. cbn [mbind option_bind]. apply IH; lia.
Qed.

(** The packets from offset [i] on. *)
Lemma rtcp_loop_shift x n : forall r mem size i j,
  0 <= i <= zlen mem -> 0 <= j ->
  rtcp_loop x n r mem size (i + j) = rtcp_loop x n r (ptr_add mem i) (size - i) j.
Proof.
  induction n as [|n IH]; intros r mem size i j Hi Hj; [done|]. cbn [rtcp_loop].
  replace (i + j <? size) with (j <? size - i) by (destruct (Z.ltb_spec j (size - i)), (Z.ltb_spec (i + j) size); lia).
  destruct (negb _); [done|]. rewrite (rd32_ptr_add mem i j) by lia.
  destruct (rd32 (ptr_add mem i) j) as [val|]; [|done]. cbn [mbind option_bind].
  rewrite <- !Z.add_assoc, !(rd32_ptr_add mem i) by lia.
  assert (0 <= Z.land val 0x0000ffff) as Hl by (apply Z.land_nonneg; lia).
  destruct (_ && _); [|apply IH; lia].
  destruct (rd32 (ptr_add mem i) (j + 8)) as [v|]; [|done].
  destruct (rd32 (ptr_add mem i) (j + 12)) as [m|]; [|done]. cbn [mbind option_bind].
  destruct (0 <? _); [|apply IH; lia]. rewrite rd_range_ptr_add by lia.
  destruct (rd_range (ptr_add mem i) (j + 16) _) as [payload|]; [|done]. cbn [mbind option_bind].
  destruct (parseRtcpAppPayload r _); [|done]. apply IH; lia.
Qed.

(** An APP packet hands its string payload to the parser. *)
Lemma rtcp_round_app x n r ssrc name payload pad mem size :
  app_wf ssrc name payload pad -> 0 < size ->
  let pkt := app_packet ssrc name payload pad in
  rtcp_loop x (S n) r (pkt ++ mem) size 0
  = (r ← parseRtcpAppPayload r payload; rtcp_loop x n r (pkt ++ mem) size (zlen pkt)).
Proof.
  intros (Hs & Hn & Hmod & Hlen & Hmax & Hfree) Hsize pkt. pose proof (zlen_nonneg pad).
  set (words := (zlen payload + zlen pad) / 4 + 3) in *.
  assert (zlen pkt = (words + 1) * 4) as Hz.
  { unfold pkt, app_packet. fold words. rewrite !zlen_app, Hs, Hn.
    change (zlen [_; _; _; _]) with 4. change (zlen [_; _; _; _]) with 4. lia. }
  set (hd := [x80; xcc; byte_of (words / 256); byte_of words]).
  set (ls := [x00; x00; byte_of (zlen payload / 256); byte_of (zlen payload)]).
  assert (pkt = hd ++ ssrc ++ name ++ ls ++ payload ++ pad) as Hpkt by done.
  cbn [rtcp_loop]. rewrite (proj2 (Z.ltb_lt 0 size)) by lia. cbn [negb].
  assert (rd32 pkt 0 = Some (0x80 * 2 ^ 24 + 0xcc * 2 ^ 16 + ub (byte_of (words / 256)) * 2 ^ 8
                             + ub (byte_of words))) as Hfirst by done.
  destruct (rd32_ok pkt (0 + 8)) as [v Hv]; [lia..|].
  assert (rd32 pkt (0 + 12) = Some (0 * 2 ^ 24 + 0 * 2 ^ 16
    + ub (byte_of (zlen payload / 256)) * 2 ^ 8 + ub (byte_of (zlen payload)))) as H12.
  { rewrite Hpkt, !app_assoc. assert (zlen ((hd ++ ssrc) ++ name) = 0 + 12) as Hp.
    { rewrite !zlen_app, Hs, Hn. done. }
    rewrite <- !(app_assoc ((hd ++ ssrc) ++ name)), <- Hp. unfold rd32.
    rewrite rd_shift0, !rd_shift by lia. done. }
  rewrite (rd32_more _ mem _ _ Hfirst), (rd32_more _ mem _ _ Hv), (rd32_more _ mem _ _ H12).
  cbn [mbind option_bind]. clear Hfirst Hv H12 v.
  destruct (rd32_fields 0x80 0xcc (ub (byte_of (words / 256))) (ub (byte_of words)))
    as [-> ->]; [lia|lia|apply ub_bounds|apply ub_bounds|].
  destruct (rd32_fields 0 0 (ub (byte_of (zlen payload / 256))) (ub (byte_of (zlen payload))))
    as [_ ->]; [lia|lia|apply ub_bounds|apply ub_bounds|].
  rewrite !ub_byte_of_mod. replace ((words / 256) `mod` 256 * 256 + words `mod` 256) with words by lia.
  replace ((zlen payload / 256) `mod` 256 * 256 + zlen payload `mod` 256) with (zlen payload) by lia.
  change (204 =? 204) with true. rewrite (proj2 (Z.ltb_lt 1 words)), (proj2 (Z.ltb_lt 0 (zlen payload))) by lia.
  assert (rd_range pkt (0 + 16) (zlen payload) = Some payload) as Hr.
  { rewrite Hpkt, !(app_assoc _ _ (payload ++ pad)).
    assert (zlen (((hd ++ ssrc) ++ name) ++ ls) = 0 + 16) as <-
      by (rewrite !zlen_app, Hs, Hn; done).
    rewrite <- !app_assoc. rewrite !(app_assoc _ _ (payload ++ pad)). by apply rd_range_middle. }
  cbn [andb]. rewrite (rd_range_more _ mem _ _ _ Hr). cbn [mbind option_bind].
  rewrite c_str_free by done. by rewrite Hz.
Qed.

Lemma rtcp_round_other x n r b0 pt hi lo body mem size :
  ub pt <> 204 -> zlen body = (ub hi * 256 + ub lo) * 4 -> 0 < size ->
  let pkt := other_packet b0 pt hi lo body in
  rtcp_loop x (S n) r (pkt ++ mem) size 0 = rtcp_loop x n r (pkt ++ mem) size (zlen pkt).
Proof.
  intros Hpt Hbody Hsize pkt. cbn [rtcp_loop]. rewrite (proj2 (Z.ltb_lt 0 size)) by lia. cbn [negb].
  assert (rd32 (pkt ++ mem) 0 = Some (ub b0 * 2 ^ 24 + ub pt * 2 ^ 16 + ub hi * 2 ^ 8 + ub lo)) as -> by done.
  cbn [mbind option_bind].
  destruct (rd32_fields (ub b0) (ub pt) (ub hi) (ub lo)) as [-> ->]; try apply ub_bounds.
  rewrite (proj2 (Z.eqb_neq _ _) Hpt). cbn [andb mbind option_bind]. f_equal.
  unfold pkt, other_packet. rewrite zlen_app, Hbody. change (zlen [_; _; _; _]) with 4. lia.
Qed.

(** The packets behind the first one. *)
Lemma rtcp_loop_rest r pkt rest x n :
  (0 < n)%nat -> zlen rest < Z.of_nat n ->
  rtcp_loop x n r (pkt ++ rest) (zlen (pkt ++ rest)) (zlen pkt) = rtcpData r rest (zlen rest).
Proof.
  intros Hn Hrest. pose proof (zlen_nonneg pkt). pose proof (zlen_nonneg rest).
  assert (0 <= zlen pkt <= zlen (pkt ++ rest)) as Hpkt by (rewrite zlen_app; lia).
  pose proof (rtcp_loop_shift x n r (pkt ++ rest) (zlen (pkt ++ rest)) (zlen pkt) 0 Hpkt) as Hs.
  rewrite Z.add_0_r in Hs. rewrite Hs by lia.
  assert (ptr_add (pkt ++ rest) (zlen pkt) = rest) as ->
    by (unfold ptr_add, zlen; rewrite Nat2Z.id; apply drop_app_length).
  rewrite zlen_app. replace (zlen pkt + zlen rest - zlen pkt) with (zlen rest) by lia.
  apply rtcp_loop_fuel; lia.
Qed.

Lemma rtcpData_app_cons r ssrc name payload pad rest :
  app_wf ssrc name payload pad ->
  let data := app_packet ssrc name payload pad ++ rest in
  rtcpData r data (zlen data) = (r ← parseRtcpAppPayload r payload; rtcpData r rest (zlen rest)).
Proof.
  intros Hwf data. set (pkt := app_packet ssrc name payload pad) in *.
  assert (0 < zlen pkt) as Hpos.
  { unfold pkt, app_packet. rewrite zlen_app. change (zlen [_; _; _; _]) with 4.
    match goal with |- 0 < 4 + zlen ?l => pose proof (zlen_nonneg l) end. lia. }
  pose proof (zlen_nonneg rest). unfold rtcpData at 1. subst data.
  assert (0 < zlen (pkt ++ rest)) as Hsize by (rewrite zlen_app; lia).
  etrans; [exact (rtcp_round_app None _ r ssrc name payload pad rest _ Hwf Hsize)|]. fold pkt.
  destruct (parseRtcpAppPayload r payload) as [r'|]; [|done]. cbn [mbind option_bind].
  apply rtcp_loop_rest; rewrite zlen_app; lia.
Qed.

Lemma rtcpData_other_cons r b0 pt hi lo body rest :
  ub pt <> 204 -> zlen body = (ub hi * 256 + ub lo) * 4 ->
  let data := other_packet b0 pt hi lo body ++ rest in
  rtcpData r data (zlen data) = rtcpData r rest (zlen rest).
Proof.
  intros Hpt Hbody data. set (pkt := other_packet b0 pt hi lo body) in *.
  assert (0 < zlen pkt) as Hpos.
  { unfold pkt, other_packet. rewrite zlen_app. change (zlen [_; _; _; _]) with 4.
    pose proof (zlen_nonneg body). lia. }
  pose proof (zlen_nonneg rest). unfold rtcpData at 1. subst data.
  assert (0 < zlen (pkt ++ rest)) as Hsize by (rewrite zlen_app; lia).
  etrans; [exact (rtcp_round_other None _ r b0 pt hi lo body rest _ Hpt Hbody Hsize)|]. fold pkt.
  apply rtcp_loop_rest; rewrite zlen_app; lia.
Qed.

Lemma rtcpData_app r ssrc name payload pad :
  app_wf ssrc name payload pad ->
  let pkt := app_packet ssrc name payload pad in
  rtcpData r pkt (zlen pkt) = parseRtcpAppPayload r payload.
Proof.
  intros Hwf pkt. pose proof (rtcpData_app_cons r ssrc name payload pad [] Hwf) as Hr. cbv zeta in Hr.
  rewrite app_nil_r in Hr. fold pkt in Hr. rewrite Hr. by destruct (parseRtcpAppPayload r payload).
Qed.
End Packets.

(** ** Ports and the stream *)

Definition try_ok (t : port_try) : bool := try_rtp_bind t && try_rtcp_bind t.

Definition try_port (t : port_try) : Z := PORT_BASE + Z.rem (try_random t) (PORT_RANGE - 1).

Lemma open_loop_find (rounds : nat) : forall tries,
  (rounds <= length tries)%nat ->
  open_loop (Z.of_nat rounds + 1) tries
  = Some ((fun t => (try_port t, try_port t + 1)) <$> List.find try_ok (take rounds tries)).
Proof.
  induction rounds as [|rounds IH]; intros tries Hlen; [by destruct tries|].
  destruct tries as [|t tries]; [cbn in Hlen; lia|]. cbn [open_loop take List.find length] in *.
  rewrite (proj2 (Z.leb_gt _ _)) by lia.
  replace (Z.of_nat (S rounds) + 1 - 1) with (Z.of_nat rounds + 1) by lia.
  unfold try_ok at 1. destruct (try_rtp_bind t), (try_rtcp_bind t); cbn [negb andb];
    (done || (apply IH; lia)).
Qed.

(** ** Properties *)

(** C24: a report of the server's reception is understood. An RTCP APP packet
    whose payload is a SAT>IP report with the documented ranges (level 0..255,
    lock 0 or 1, quality 0..15) sets the signal strength to [level * 65535 / 255],
    the lock, and the quality, 0 without a lock. *)
Theorem rtcp_report_understood `{LongWidth} r ssrc name pad src fe level lock quality rest :
  let payload := report src fe level lock quality rest in
  32 <= long_bits -> app_wf ssrc name payload pad ->
  0 <= src -> 0 <= fe -> 0 <= level <= 255 -> 0 <= lock <= 1 -> 0 <= quality <= 15 ->
  let pkt := app_packet ssrc name payload pad in
  rtcpData r pkt (zlen pkt)
  = Some (r <| m_signalStrength := level * 257 |> <| m_hasLock := lock =? 1 |>
            <| m_signalQuality := if lock =? 1 then quality * 4369 else 0 |>).
Proof.
  intros payload Hl Hwf Hs Hf Hlev Hlock Hq pkt. etrans; [by apply rtcpData_app|]. by apply parse_report.
Qed.

Definition demo_rtp : satipRTP := mkRTP 45000 45001 true false 0 0.

Lemma rtcp_report_understood_witness :
  let payload := report 1 1 224 1 15 (str "12402.00,v,dvbs,,,,27500,34;pids=0,1") in
  let pkt := app_packet (str "abcd") (str "SES1") payload (str "x") in
  @rtcpData 64 demo_rtp pkt (zlen pkt)
  = Some ((demo_rtp) <| m_signalStrength := 224 * 257 |> <| m_hasLock := 1 =? 1 |>
            <| m_signalQuality := if 1 =? 1 then 15 * 4369 else 0 |>).
Proof.
  apply (@rtcp_report_understood 64); try lia; [unfold long_bits; lia|].
  repeat split; try (vm_compute; congruence). apply (bool_decide_unpack _). vm_compute. exact I.
Defined.

(** A report that is cut short is not survived. When nothing follows the
    [;tuner=] attribute's first number, strstr finds no comma and the null
    pointer is handed to sscanf. *)
Theorem rtcp_report_truncated `{LongWidth} r src :
  parseRtcpAppPayload r (str "ver=1.0;src=" ++ dec src ++ str ";tuner=1") = None.
Proof.
  unfold parseRtcpAppPayload.
  assert (forall x, strstr (str "ver=1.0;src=" ++ x) (str ";tuner=") = strstr x (str ";tuner="))
    as -> by done.
  rewrite (strstr_skip _ _ _ x3b) by (done || (apply dec_free; cbn; lia)).
  change (str ";tuner=1") with (str ";tuner=" ++ str "1"). by rewrite strstr_here.
Qed.

(** C40: the length fields of an RTCP packet are trusted. A 16 byte packet that
    announces a payload longer than the receive buffer makes [rtcpData] copy
    from behind the end of the buffer, whatever the buffer holds. *)
Theorem rtcp_overread `{LongWidth} r mem :
  zlen mem = BUFFER_SIZE - 16 ->
  rtcpData r ([x80; xcc; x00; x03; x00; x00; x00; x00; x53; x45; x53; x31; x00; x00; xff; xff] ++ mem)
    16 = None.
Proof.
  intros Hmem. unfold rtcpData. change (S (Z.to_nat 16)) with 17%nat. cbn [rtcp_loop].
  rewrite !rd32_app by (unfold zlen; cbn [length]; lia). change (negb (0 <? 16)) with false. cbv iota.
  set (hd := [x80; xcc; _; _; _; _; _; _; _; _; _; _; _; _; _; _]).
  assert (rd32 hd 0 = Some 0x80cc0003 /\ rd32 hd (0 + 8) = Some 0x53455331 /\
          rd32 hd (0 + 12) = Some 0xffff) as (-> & -> & ->) by done.
  cbn [mbind option_bind]. change (Z.shiftr (Z.land 0x80cc0003 0x00ff0000) 16 =? 204) with true.
  change (1 <? Z.land 0x80cc0003 0x0000ffff) with true. cbn [andb].
  change (Z.land 0xffff 0xffff) with 0xffff. change (0 <? 0xffff) with true. cbv iota.
  assert (rd_range (hd ++ mem) (0 + 16) 0xffff = None) as ->; [|done].
  unfold rd_range. rewrite zlen_app, Hmem. by vm_compute.
Qed.

Lemma rtcp_overread_witness :
  @rtcpData 64 demo_rtp
    ([x80; xcc; x00; x03; x00; x00; x00; x00; x53; x45; x53; x31; x00; x00; xff; xff]
     ++ replicate 1312 x00) 16 = None.
Proof. apply (@rtcp_overread 64). reflexivity. Defined.

(** What [Write] reports is what happened: whatever counts and errors the
    system answers, the bytes written are the start of the buffer, in order
    and without gap or repetition, and the result is either -1 or their number,
    which is then the whole buffer. *)
Theorem write_sound answers buffer res out :
  Write answers buffer (zlen buffer) = Some (res, out) ->
  exists rest, buffer = out ++ rest /\ (res = -1 \/ (res = zlen buffer /\ out = buffer)).
Proof.
  intros Hw. apply Write_loop_sound in Hw as (rest & Hb & Hres); [|lia]. exists rest.
  change (ptr_add buffer 0) with buffer in Hb. split; [done|].
  destruct Hres as [->|[-> Hle]]; [by left|right]. pose proof (f_equal zlen Hb) as Hz.
  rewrite zlen_app in Hz. pose proof (zlen_nonneg rest). assert (zlen rest = 0) as H0 by lia.
  destruct rest as [|b rest]; [|rewrite zlen_cons in H0; pose proof (zlen_nonneg rest); lia].
  rewrite app_nil_r in Hb. subst out. split; [lia|done].
Qed.

Lemma write_sound_witness :
  let answers := [Wrote 2; WriteError true; Wrote 1] in
  Write answers [x01; x02; x03] 3 = Some (3, [x01; x02; x03]) /\
  exists rest, [x01; x02; x03] = [x01; x02; x03] ++ rest /\
    (3 = -1 \/ (3 = zlen [x01; x02; x03] /\ [x01; x02; x03] = [x01; x02; x03])).
Proof.
  split; [reflexivity|].
  apply (write_sound [Wrote 2; WriteError true; Wrote 1] [x01; x02; x03] 3). reflexivity.
Defined.

(** [Write] finishes the job: short writes and interruptions by signals do
    not stop it, and once the counts add up to the buffer it returns its size. *)
Theorem write_completes answers buffer :
  Forall accepting answers -> sum (counts answers) = zlen buffer ->
  exists out, Write answers buffer (zlen buffer) = Some (zlen buffer, out).
Proof.
  intros Ha Hs. apply Write_loop_complete; [done| |lia]. pose proof (zlen_nonneg buffer). lia.
Qed.

Lemma write_completes_witness :
  exists out, Write [WriteError true; Wrote 2; WriteError true; Wrote 1] [x01; x02; x03] 3
              = Some (3, out).
Proof.
  apply (write_completes [WriteError true; Wrote 2; WriteError true; Wrote 1] [x01; x02; x03]);
    [repeat constructor|reflexivity].
Defined.

(** [openRTP] takes the first pair of neighbouring ports that both can be
    bound, of at most 999 random ones between 45000 and 46999, and fails, without
    a change, when there is none among them. *)
Theorem openRTP_first_free r tries :
  Forall (fun t => 0 <= try_random t) tries -> (999 <= length tries)%nat ->
  match List.find try_ok (take 999 tries) with
  | Some t =>
      openRTP r tries
      = Some (r <| m_rtp_port := try_port t |> <| m_rtcp_port := try_port t + 1 |>, true) /\
      45000 <= try_port t /\ try_port t + 1 <= 46999
  | None => openRTP r tries = Some (r, false)
  end.
Proof.
  intros Hpos Hlen. unfold openRTP. change (Z.quot PORT_RANGE 2) with (Z.of_nat 999 + 1).
  rewrite open_loop_find by done. cbn [mbind option_bind].
  destruct (List.find try_ok (take 999 tries)) as [t|] eqn:Hf; [|done]. split; [done|].
  apply find_some in Hf as [Ht%list_elem_of_In _].
  apply elem_of_take in Ht as (i & Ht & _). apply list_elem_of_lookup_2 in Ht.
  rewrite Forall_forall in Hpos. specialize (Hpos t Ht).
  unfold try_port, PORT_BASE, PORT_RANGE. lia.
Qed.

Lemma openRTP_first_free_witness :
  let tries := Try 7 true false :: Try 1999 true true :: replicate 997 (Try 5 true true) in
  openRTP demo_rtp tries
  = Some ((demo_rtp) <| m_rtp_port := 45000 |> <| m_rtcp_port := 45001 |>, true) /\
  45000 <= 45000 /\ 45000 + 1 <= 46999.
Proof.
  intros tries. refine (openRTP_first_free demo_rtp tries _ _).
  - constructor; [|constructor; [|apply Forall_replicate]]; cbn; lia.
  - apply Nat.leb_le. reflexivity.
Defined.

(** The bytes between a header and what else is in memory. *)
Lemma read_middle header ts mem n :
  zlen header = n ->
  rd_range (header ++ ts ++ mem) n (zlen ts) = Some ts /\ ptr_add (header ++ ts ++ mem) n = ts ++ mem.
Proof.
  intros <-. split; [apply rd_range_middle|]. unfold ptr_add, zlen. rewrite Nat2Z.id. apply drop_app_length.
Qed.

(** C14: the stream reaches the device and the parser, over UDP and over TCP.
    When behind the 12 bytes of an RTP header there are transport packets, these
    bytes, all of them and nothing else, are handed to the device, and the state
    of the parser and the pids it reports become those of [processTS] on exactly
    these bytes, whatever the memory behind them holds; an interleaved frame on
    channel 0 has the same effect. *)
Theorem stream_delivered {C} `{LongWidth} `{CaSink C} `{!CaSinkLaws C} r p (cfg : option C)
    header ts mem hi lo t0 t1 :
  zlen header = 12 -> rd ts 0 = Some 0x47 -> psi_wf p -> in_sync p cfg ->
  exists q cfg', processTS p cfg ts (zlen ts) t0 t1 = Some (q, cfg') /\ op_ok (q, cfg') /\
    rtp_datagram r (Some p) cfg (header ++ ts ++ mem) (12 + zlen ts) t0 t1
    = Some (Deliver r (Some q) cfg' ts) /\
    rtpTcpData r (Some p) cfg ([x24; x00; hi; lo] ++ header ++ ts ++ mem) (4 + 12 + zlen ts) t0 t1
    = Some (Deliver r (Some q) cfg' ts).
Proof.
  intros Hh Hts Hwf Hs. apply rd_bounds in Hts as Hb.
  assert (zlen ts <= zlen ts) as Hle by lia.
  pose proof (processTS_ok p cfg ts _ t0 t1 Hwf Hs Hle) as Hok.
  pose proof (processTS_more p cfg ts mem t0 t1 Hwf Hs) as Hmore.
  destruct (processTS p cfg ts (zlen ts) t0 t1) as [[q cfg']|]; [|done].
  exists q, cfg'. split; [done|]. split; [exact Hok|]. split.
  - assert (rd (header ++ ts ++ mem) 12 = Some 0x47) as H12.
    { unfold rd in *. rewrite rdb_app_r, Hh, rdb_app_l by lia. done. }
    unfold rtp_datagram. rewrite (proj2 (Z.ltb_lt _ _)), H12 by lia. cbn [mbind option_bind].
    change (71 =? 71) with true. cbv iota. replace (12 + zlen ts - 12) with (zlen ts) by lia.
    destruct (read_middle header ts mem 12 Hh) as [-> ->]. cbn [mbind option_bind tap]. by rewrite Hmore.
  - set (frame := [x24; x00; hi; lo] ++ header).
    assert (zlen frame = 16) as Hf by (unfold frame; rewrite zlen_app, Hh; done).
    assert (rd (frame ++ ts ++ mem) 1 = Some 0) as H1 by done.
    rewrite app_assoc. fold frame. unfold rtpTcpData.
    rewrite (proj2 (Z.leb_gt _ _)), H1 by lia. cbn [mbind option_bind].
    change (0 =? 0) with true. cbv iota. replace (4 + 12 + zlen ts - 4 - 12) with (zlen ts) by lia.
    destruct (read_middle frame ts mem 16 Hf) as [-> ->]. cbn [mbind option_bind tap]. by rewrite Hmore.
Qed.

(** A configuration of which only the ca pids are kept. *)
Definition pid_sink : CaSink (gset Z) := {| setCaPids pids _ := pids; reported pids := pids |}.

Lemma pid_sink_laws : @CaSinkLaws (gset Z) pid_sink.
Proof. by constructor. Qed.

(** The witness's packet carries a PAT, so that the parser learns from it. *)
Lemma stream_delivered_witness :
  let header := replicate 12 x00 in
  let ts := section_packet PSI_PID_PAT 3 (encode_section x00 1 1 0 0
              (encode_pat_entries [PatEntry 7 0x200])) in
  let start := @satipPSI_new (gset Z) pid_sink (Some ∅) false ∅ 0 in
  exists q cfg, @processTS (gset Z) pid_sink start.1 start.2 ts (zlen ts) 0 0 = Some (q, cfg) /\
    m_pat_pmt_pids q = {[0x200]} /\
    @rtp_datagram (gset Z) pid_sink demo_rtp (Some start.1) start.2 (header ++ ts ++ [x47]) (12 + zlen ts) 0 0
    = Some (Deliver demo_rtp (Some q) cfg ts) /\
    @rtpTcpData 64 (gset Z) pid_sink demo_rtp (Some start.1) start.2
      ([x24; x00; x00; xc8] ++ header ++ ts ++ [x47]) (4 + 12 + zlen ts) 0 0
    = Some (Deliver demo_rtp (Some q) cfg ts).
Proof.
  intros header ts start.
  destruct (@satipPSI_new_ok (gset Z) pid_sink pid_sink_laws ∅ false ∅ 0 eq_refl) as [Hwf Hs].
  destruct (@stream_delivered (gset Z) 64 pid_sink pid_sink_laws demo_rtp start.1 start.2 header ts [x47]
    x00 xc8 0 0) as (q & cfg & Hq & _ & Hudp & Htcp); [reflexivity|vm_compute; reflexivity|exact Hwf|exact Hs|].
  exists q, cfg. split; [exact Hq|]. split; [|split; [exact Hudp|exact Htcp]].
  assert (option_map (fun r => bool_decide (m_pat_pmt_pids r.1 = {[0x200]}))
    (@processTS (gset Z) pid_sink start.1 start.2 ts (zlen ts) 0 0) = Some true) as Hpat
    by (vm_compute; reflexivity).
  rewrite Hq in Hpat. cbn [option_map fst] in Hpat. injection Hpat as Hpat. by apply bool_decide_eq_true in Hpat.
Defined.
