(* ===== verification/Vtuner.v ===== *)
(** The vtuner device of vtuner.h and vtuner.cpp: the class [satipVtuner],
    which turns the messages of the kernel driver into calls of the
    configuration and answers its questions about the reception.

    [None] is undefined behaviour, as in the other files; here, the overflow of
    a product of ints. *)

From S2P Require Import Prelude Crc Psi CText OptParser Dvb Timer Config ConfigText Tuner Rtp.

#[local] Ltac Zify.zify_post_hook ::= Z.to_euclidean_division_equations.

(** ** Times *)

Definition ts_sub (t1 t2 : timespec) : timespec :=
  let sec := tv_sec t1 - tv_sec t2 in
  let nsec := tv_nsec t1 - tv_nsec t2 in
  if nsec <? 0 then TS (sec - 1) (nsec + 1000000000) else TS sec nsec.

(** [timeout += msek] is the addition of timer.h. *)
Definition timeout_msec (orig now : timespec) : Z :=
  let tv := ts_sub orig now in tv_sec tv * 1000 + Z.quot (tv_nsec tv) 1000000.

(** ** Messages *)

(** Build options: a driver without MSG_SET_PROPERTY, headers of DVB API 5.5 or
    5.11 or later, and whether the higher ioctl numbers are preferred. *)
Class VtunerBuild := {
  HAVE_NO_MSG16 : bool;
  DVB_VER_ATLEAST_5_5 : bool;
  DVB_VER_ATLEAST_5_11 : bool;
  VTUNER_EXTENDED : bool
}.

(** A property of the DVB API: the command and its data word. *)
Record dtv_property := Prop' { prop_cmd : Z; prop_data : Z }.

(** The messages with the member of the union that the type selects; where the
    type is not handled, or the answer may leave the union as it is, the member
    is not looked at. *)
Inductive vtuner_message :=
| MSG_SET_FRONTEND (prop : dtv_property)
| MSG_GET_FRONTEND
| MSG_READ_STATUS
| MSG_READ_BER
| MSG_READ_SIGNAL_STRENGTH (ss : Z)
| MSG_READ_SNR (snr : Z)
| MSG_READ_UCBLOCKS
| MSG_SET_TONE (tone : Z)
| MSG_SET_VOLTAGE (voltage : Z)
| MSG_SEND_DISEQC_MSG (msg : list byte) (msg_len : Z)
| MSG_SEND_DISEQC_BURST (burst : Z)
| MSG_PIDLIST (pidlist : list Z)
| MSG_SET_PROPERTY (prop : dtv_property)
| MSG_GET_PROPERTY
| MSG_GET_TUNE_SETTINGS
| MSG_UNKNOWN (type : Z).

(** What the response says. [NoAnswer]: no response is sent; [Echo]: the body
    of the message is sent back. *)
Inductive vtuner_answer :=
| NoAnswer
| Echo
| AnswerStatus (status : Z)
| AnswerBer (ber : Z)
| AnswerSignalStrength (ss : Z)
| AnswerSnr (snr : Z)
| AnswerUcb (ucb : Z)
| AnswerTuneSettings (min_delay_ms step_size max_drift : Z).

(** [tune_tries] and [timeout] are not initialised by the constructor. *)
Record satipVtuner := mkVtuner {
  m_fd : Z;
  m_ioctl_offset : Z;
  m_openok : bool;
  m_tone : Z;
  tune_tries : Z;
  timeout : timespec
}.

#[export] Instance satipVtuner_settable : Settable satipVtuner := fun v =>
  mkVtuner (m_fd v) (m_ioctl_offset v) (m_openok v) (m_tone v) (tune_tries v) (timeout v).

(** The object with what it refers to. *)
Record tuner := Tuner {
  t_vtuner : satipVtuner;
  t_cfg : satipConfig;
  t_psi : option satipPSI;
  t_rtp : option satipRTP
}.

#[export] Instance tuner_settable : Settable tuner :=
  fun t => Tuner (t_vtuner t) (t_cfg t) (t_psi t) (t_rtp t).

(** ** Opening the device *)

(** The ioctl numbers. *)
Section Numbers.
Context `{VtunerBuild}.
Definition VTUNER_GET_MESSAGE : Z := if VTUNER_EXTENDED then 11 else 1.
Definition VTUNER_SET_RESPONSE : Z := if VTUNER_EXTENDED then 12 else 2.
Definition VTUNER_SET_NAME : Z := if VTUNER_EXTENDED then 13 else 3.
Definition VTUNER_SET_TYPE : Z := if VTUNER_EXTENDED then 14 else 4.
Definition VTUNER_SET_HAS_OUTPUTS : Z := if VTUNER_EXTENDED then 15 else 5.
Definition VTUNER_SET_FE_INFO : Z := if VTUNER_EXTENDED then 16 else 6.
Definition VTUNER_SET_DELSYS : Z := if VTUNER_EXTENDED then 17 else 7.
End Numbers.

(** The members [openVtuner] sets; the others are zero. *)
Record dvb_frontend_info := FeInfo {
  fe_name : text;
  fe_type : Z;
  frequency_min : Z;
  frequency_max : Z;
  frequency_stepsize : Z;
  symbol_rate_min : Z;
  symbol_rate_max : Z;
  fe_caps : Z
}.

(** The nodes /dev/misc/vtuner0, 1, ... as far as they exist: open fails, or
    gives a file descriptor. *)
Inductive vtuner_node := NodeBusy | NodeFree (fd : Z).

Inductive errno := EINVAL | ENOTTY | OtherError.
Inductive ioctl_res := IoctlResult (n : Z) | IoctlFailed (e : errno).
Inductive ioctl_arg :=
| ArgText (t : text)
| ArgInfo (info : dvb_frontend_info)
| ArgSystems (systems : list Z).

(** What a driver answers to a request. *)
Definition driver := Z -> ioctl_arg -> ioctl_res.

(** [ioctl(...) < 0]. *)
Definition failed (r : ioctl_res) : bool :=
  match r with IoctlResult n => n <? 0 | IoctlFailed _ => true end.

Fixpoint AllocateVtuner (nodes : list vtuner_node) : Z :=
  match nodes with
  | [] => -1
  | NodeBusy :: nodes => AllocateVtuner nodes
  | NodeFree fd :: nodes => if fd <? 0 then AllocateVtuner nodes else fd
  end.

Section Open.
Context `{DvbConstants} `{FrontendConstants} `{VtunerBuild}.

(** The first switch: the description of the frontend and its type string. *)
Definition frontend_of (fe_type : Z) : option (dvb_frontend_info * text) :=
  if fe_type =? FE_TYPE_SAT then
    Some (FeInfo (str "SAT>IP DVB-S2 VTUNER") FE_QPSK 925000 2175000 125000 1000000 45000000
      (foldl Z.lor 0 [FE_CAN_INVERSION_AUTO; FE_CAN_FEC_1_2; FE_CAN_FEC_2_3; FE_CAN_FEC_3_4;
        FE_CAN_FEC_4_5; FE_CAN_FEC_5_6; FE_CAN_FEC_7_8; FE_CAN_FEC_8_9; FE_CAN_QPSK;
        FE_CAN_RECOVER; FE_CAN_2G_MODULATION; FE_CAN_MULTISTREAM]), str "DVB-S2")
  else if fe_type =? FE_TYPE_CABLE then
    Some (FeInfo (str "SAT>IP DVB-C VTUNER") FE_QAM 51000000 858000000 62500
      (57840000 / 2 / 64) (57840000 / 2 / 4)
      (foldl Z.lor 0 [FE_CAN_INVERSION_AUTO; FE_CAN_QAM_16; FE_CAN_QAM_32; FE_CAN_QAM_64;
        FE_CAN_QAM_128; FE_CAN_QAM_256; FE_CAN_RECOVER; FE_CAN_FEC_AUTO]), str "DVB-C")
  else if fe_type =? FE_TYPE_TERRESTRIAL then
    Some (FeInfo (str "SAT>IP DVB-T VTUNER") FE_OFDM 0 863250000 62500 0 0
      (foldl Z.lor 0 [FE_CAN_INVERSION_AUTO; FE_CAN_FEC_1_2; FE_CAN_FEC_2_3; FE_CAN_FEC_3_4;
        FE_CAN_FEC_5_6; FE_CAN_FEC_7_8; FE_CAN_FEC_AUTO; FE_CAN_QAM_16; FE_CAN_QAM_64;
        FE_CAN_QPSK; FE_CAN_TRANSMISSION_MODE_AUTO; FE_CAN_GUARD_INTERVAL_AUTO;
        FE_CAN_HIERARCHY_AUTO; FE_CAN_RECOVER; FE_CAN_2G_MODULATION]), str "DVB-T")
  else None.

(** The second switch: the delivery systems. *)
Definition systems_of (fe_type caps : Z) : list Z :=
  let second_generation := negb (Z.land caps FE_CAN_2G_MODULATION =? 0) in
  if fe_type =? FE_TYPE_SAT then SYS_DVBS :: if second_generation then [SYS_DVBS2] else []
  else if fe_type =? FE_TYPE_CABLE then [SYS_DVBC_ANNEX_A]
  else if fe_type =? FE_TYPE_TERRESTRIAL then
    SYS_DVBT :: if second_generation then [SYS_DVBT2] else []
  else [].

(** What [openVtuner] leaves: the file descriptor, the offset, whether the return
    value is 0, and the requests it made. *)
Record opened := Opened {
  op_fd : Z;
  op_offset : Z;
  op_ok : bool;
  op_calls : list (Z * ioctl_arg)
}.

(** SET_NAME, tried with the other numbers when the driver does not know it:
    its result, the offset and the requests. *)
Definition probe (dev : driver) (name : ioctl_arg) : ioctl_res * Z * list (Z * ioctl_arg) :=
  let again :=
    let offset := if VTUNER_SET_NAME =? 13 then -10 else 10 in
    (dev (VTUNER_SET_NAME + offset) name, offset,
     [(VTUNER_SET_NAME, name); (VTUNER_SET_NAME + offset, name)]) in
  match dev VTUNER_SET_NAME name with
  | IoctlFailed EINVAL | IoctlFailed ENOTTY => again
  | r => (r, 0, [(VTUNER_SET_NAME, name)])
  end.

Definition openVtuner (nodes : list vtuner_node) (dev : driver) (fe_type : Z) : opened :=
  let fd := AllocateVtuner nodes in
  if fd =? -1 then Opened (-1) 0 false [] else
  match frontend_of fe_type with
  | None => Opened (-1) 0 false []
  | Some (info, type_str) =>
    let '(result, offset, calls) := probe dev (ArgText (fe_name info)) in
    if failed result then Opened (-1) offset false calls else
    let set_type := (VTUNER_SET_TYPE + offset, ArgText type_str) in
    if failed (dev set_type.1 set_type.2) then Opened (-1) offset false (calls ++ [set_type]) else
    let set_info := (VTUNER_SET_FE_INFO + offset, ArgInfo info) in
    if failed (dev set_info.1 set_info.2)
    then Opened (-1) offset false (calls ++ [set_type; set_info]) else
    let set_systems :=
      if DVB_VER_ATLEAST_5_5
      then [(VTUNER_SET_DELSYS + offset, ArgSystems (systems_of fe_type (fe_caps info)))] else [] in
    Opened fd offset true
      (calls ++ [set_type; set_info] ++ set_systems
       ++ [(VTUNER_SET_HAS_OUTPUTS + offset, ArgText (str "no"))])
  end.

Definition satipVtuner_new (nodes : list vtuner_node) (dev : driver) (fe_type tries : Z)
    (garbage : timespec) : satipVtuner :=
  let o := openVtuner nodes dev fe_type in
  mkVtuner (op_fd o) (op_offset o) (op_ok o) SEC_TONE_OFF tries garbage.
End Open.

Section Vtuner.
Context `{DvbConstants} `{LongWidth} `{VtunerBuild}.

Definition on_cfg (f : satipConfig -> satipConfig) (t : tuner) : tuner := t <| t_cfg := f (t_cfg t) |>.

Definition on_both (r : satipConfig * option satipPSI) (t : tuner) : tuner :=
  t <| t_cfg := r.1 |> <| t_psi := r.2 |>.

(** The frequency for the configuration, in tenths of a MHz, from the data word
    [data]: the intermediate frequency in kHz for a satellite, else Hz. *)
Definition tuned_frequency (fe_type tone data : Z) : Z :=
  if fe_type =? FE_TYPE_SAT then
    u32 (data / 100 + (if tone =? SEC_TONE_ON then 106000 else 97500))
  else data / 100000.

(** The setters take an int, the data word is unsigned. *)
Definition setProperty (prop : dtv_property) (t : tuner) : tuner :=
  let data := prop_data prop in
  let cmd_is c := prop_cmd prop =? c in
  let set f := on_cfg (fun c => f c (s32 data)) t in
  if cmd_is DTV_FREQUENCY then
    on_cfg (fun c => setFrequency c (tuned_frequency (getFeType c) (m_tone (t_vtuner t)) data)) t
  else if cmd_is DTV_DELIVERY_SYSTEM then set setModsys
  else if cmd_is DTV_MODULATION then set setModtype
  else if cmd_is DTV_SYMBOL_RATE then on_cfg (fun c => setSymrate c (data / 1000)) t
  else if cmd_is DTV_INNER_FEC then
    let fec := Z.land data 31 in
    if fec <=? FEC_9_10 then on_cfg (fun c => setFec c fec) t else t
  else if cmd_is DTV_ROLLOFF then set setRolloff
  else if cmd_is DTV_PILOT then set setPilots
  else if cmd_is DTV_TUNE then on_cfg setChannelChanged t
  else if cmd_is DTV_CLEAR then on_both (clearProperty (t_cfg t) (t_psi t)) t
  else if cmd_is DTV_CODE_RATE_LP then on_cfg (fun c => setFec c FEC_AUTO) t
  else if cmd_is DTV_CODE_RATE_HP then on_cfg (fun c => setFec c FEC_AUTO) t
  else if cmd_is DTV_TRANSMISSION_MODE then set setTransmode
  else if cmd_is DTV_GUARD_INTERVAL then set setGuardInterval
  else if cmd_is DTV_HIERARCHY then t
  else if cmd_is DTV_BANDWIDTH_HZ then set setBandwidth
  else if cmd_is DTV_STREAM_ID then set setPLP
  else if cmd_is DTV_INVERSION then t
  else if cmd_is DTV_SCRAMBLING_SEQUENCE_INDEX && DVB_VER_ATLEAST_5_11 then set setPLScode
  else t.

(** The four bytes of a switch command; [None] is a shorter array, which the
    driver's [msg[6]] is not. *)
Definition setDiseqc (msg : list byte) (msg_len : Z) (t : tuner) : option tuner :=
  m0 ← rd msg 0; m1 ← rd msg 1; m2 ← rd msg 2; data ← rd msg 3;
  Some (
    if (m0 =? 0xe0) && (m1 =? 0x10) && (m2 =? 0x38) && (msg_len =? 4) then
      let t := if Z.land data 0x01 =? 0x01 then t <| t_vtuner := (t_vtuner t) <| m_tone := SEC_TONE_ON |> |>
               else if Z.land data 0x11 =? 0x10
               then t <| t_vtuner := (t_vtuner t) <| m_tone := SEC_TONE_OFF |> |>
               else t in
      let t := if Z.land data 0x02 =? 0x02 then on_cfg (fun c => setVoltage c SEC_VOLTAGE_18) t
               else if Z.land data 0x22 =? 0x20 then on_cfg (fun c => setVoltage c SEC_VOLTAGE_13) t
               else t in
      on_cfg (fun c => setPosition c (Z.shiftr (Z.land data 0x0c) 2 + 1)) t
    else if (m0 =? 0xe0) && (m1 =? 0x10) && (m2 =? 0x39) && (msg_len =? 4) then
      on_cfg (fun c => setPosition c (Z.land data 0x0f + 1)) t
    else t).

Definition setPidList (pid_list : list Z) (t : tuner) : tuner :=
  on_both (updatePidList (t_cfg t) (t_psi t) pid_list) t.

(** The status word of MSG_READ_STATUS. *)
Definition read_status (now : timespec) (t : tuner) : Z :=
  let locked := match t_rtp t with Some r => m_hasLock r | None => false end in
  if locked then FE_HAS_LOCK
  else
    let status := if timeout_msec (timeout (t_vtuner t)) now <? 0 then Z.lor 0 FE_TIMEDOUT else 0 in
    if negb (Z.land (tune_tries (t_vtuner t)) 4 =? 0) then Z.lor status FE_HAS_SIGNAL else status.

(** The product of two u16, which are promoted to int. *)
Definition snr_of (r : satipRTP) : option Z :=
  p ← mul_int (u16 (m_signalStrength r)) (u16 (m_signalQuality r));
  Some (u16 (Z.quot p 65535)).

(** A message was read; [now] is the time of a clock reading. *)
Definition vtunerEvent (now : timespec) (msg : vtuner_message) (t : tuner) :
    option (tuner * vtuner_answer) :=
  match msg with
  | MSG_SET_FRONTEND prop =>
      let t := if HAVE_NO_MSG16 then setProperty prop t else t in
      Some (t <| t_vtuner := (t_vtuner t) <| tune_tries := tune_tries (t_vtuner t) + 1 |> |>, Echo)
  | MSG_GET_FRONTEND => Some (t, Echo)
  | MSG_SET_TONE tone => Some (t <| t_vtuner := (t_vtuner t) <| m_tone := tone |> |>, Echo)
  | MSG_SET_VOLTAGE voltage => Some (on_cfg (fun c => setVoltage c voltage) t, Echo)
  | MSG_PIDLIST pidlist => Some (setPidList pidlist t, NoAnswer)
  | MSG_READ_STATUS => Some (t, AnswerStatus (read_status now t))
  | MSG_READ_BER => Some (t, AnswerBer 0)
  | MSG_READ_SIGNAL_STRENGTH ss =>
      Some (t, match t_rtp t with
               | Some r => AnswerSignalStrength (u16 (m_signalStrength r))
               | None => Echo
               end)
  | MSG_READ_SNR snr =>
      match t_rtp t with
      | Some r => v ← snr_of r; Some (t, AnswerSnr v)
      | None => Some (t, Echo)
      end
  | MSG_READ_UCBLOCKS => Some (t, AnswerUcb 0)
  | MSG_SEND_DISEQC_BURST burst =>
      Some (if burst =? SEC_MINI_A then on_cfg (fun c => setPosition c 1) t
            else if burst =? SEC_MINI_B then on_cfg (fun c => setPosition c 2) t
            else t, Echo)
  | MSG_SEND_DISEQC_MSG m len => t ← setDiseqc m len t; Some (t, Echo)
  | MSG_SET_PROPERTY prop => Some (setProperty prop t, Echo)
  | MSG_GET_PROPERTY => Some (t, Echo)
  | MSG_GET_TUNE_SETTINGS =>
      Some (t <| t_rtp := unset <$> t_rtp t |>
              <| t_vtuner := (t_vtuner t) <| tune_tries := 0 |> <| timeout := ts_add now 3000 |> |>,
            AnswerTuneSettings 50 0 0)
  | MSG_UNKNOWN _ => Some (t, Echo)
  end.
End Vtuner.
