(* ===== verification/VtunerProps.v ===== *)
(** Properties of the vtuner device: what the driver's messages do to the tuner
    and to the requests that follow, and what it answers. *)

From S2P Require Import Prelude Crc Psi CText OptParser Dvb Timer Config ConfigText Tuner QueryProps Rtp Vtuner.

#[local] Ltac Zify.zify_post_hook ::= Z.to_euclidean_division_equations.

Section VtunerProps.
Context `{DvbConstants} `{LongWidth} `{VtunerBuild}.

(** Messages one after the other, each with the time of its reading of the
    clock; the answers, the last one first. *)
Definition vtuner_run (t : tuner) (msgs : list (timespec * vtuner_message)) :
    option (tuner * list vtuner_answer) :=
  foldl (fun s m => '(t, answers) ← s; '(t, a) ← vtunerEvent m.1 m.2 t; Some (t, a :: answers))
    (Some (t, [])) msgs.

(** ** One property at a time *)

Section Commands.
Context `{!DvbLaws}.

Lemma setProperty_frequency data t :
  setProperty (Prop' DTV_FREQUENCY data) t
  = on_cfg (fun c => setFrequency c (tuned_frequency (getFeType c) (m_tone (t_vtuner t)) data)) t.
Proof. unfold setProperty. cbn [prop_cmd prop_data]. by switch commands commands_distinct. Qed.

Lemma setProperty_delivery_system data t :
  setProperty (Prop' DTV_DELIVERY_SYSTEM data) t = on_cfg (fun c => setModsys c (s32 data)) t.
Proof. unfold setProperty. cbn [prop_cmd prop_data]. by switch commands commands_distinct. Qed.

Lemma setProperty_symbol_rate data t :
  setProperty (Prop' DTV_SYMBOL_RATE data) t = on_cfg (fun c => setSymrate c (data / 1000)) t.
Proof. unfold setProperty. cbn [prop_cmd prop_data]. by switch commands commands_distinct. Qed.

Lemma setProperty_tune data t :
  setProperty (Prop' DTV_TUNE data) t = on_cfg setChannelChanged t.
Proof. unfold setProperty. cbn [prop_cmd prop_data]. by switch commands commands_distinct. Qed.

(** ** A satellite tuning *)

(** What a zap asks for: the position of the switch, the band and polarisation,
    the intermediate frequency in kHz, the delivery system and the symbols per
    second. *)
Record transponder := Transponder {
  tp_position : Z;
  tp_high : bool;
  tp_horizontal : bool;
  tp_if : Z;
  tp_system : Z;
  tp_symbols : Z
}.

(** The data byte of the switch command: the reset bits, then position,
    polarisation and band. *)
Definition switch_data (tp : transponder) : Z :=
  240 + 4 * tp_position tp + 2 * Z.b2z (tp_horizontal tp) + Z.b2z (tp_high tp).

(** The frequency of the transponder in kHz, with a universal LNB. *)
Definition tp_rf (tp : transponder) : Z :=
  tp_if tp + (if tp_high tp then 10600000 else 9750000).

Record transponder_ok (tp : transponder) : Prop := {
  tp_position_ok : 0 <= tp_position tp < 4;
  tp_if_ok : 0 <= tp_if tp < 2 ^ 32;
  tp_system_ok : - 2 ^ 31 <= tp_system tp < 2 ^ 31;
  tp_symbols_ok : 0 <= tp_symbols tp < 2 ^ 32
}.

Definition zap_messages (tp : transponder) (b : byte) : list vtuner_message :=
  [MSG_SEND_DISEQC_MSG [xe0; x10; x38; b; x00; x00] 4;
   MSG_SET_PROPERTY (Prop' DTV_DELIVERY_SYSTEM (tp_system tp));
   MSG_SET_PROPERTY (Prop' DTV_FREQUENCY (tp_if tp));
   MSG_SET_PROPERTY (Prop' DTV_SYMBOL_RATE (tp_symbols tp));
   MSG_SET_PROPERTY (Prop' DTV_TUNE 0)].

(** What a query says about the transponder. *)
Definition names_transponder (tp : transponder) (q : list (text * text)) : Prop :=
  field (str "src") q = Some (dec (tp_position tp + 1)) /\
  read_tenths <$> field (str "freq") q = Some (tp_rf tp / 100) /\
  field (str "pol") q = Some (str (if tp_horizontal tp then "h" else "v")) /\
  field (str "msys") q = Some (if tp_system tp =? SYS_DVBS2 then str "dvbs2" else str "dvbs") /\
  field (str "sr") q = Some (dec (tp_symbols tp / 1000)).

Lemma committed_switch tp b t :
  0 <= tp_position tp < 4 -> ub b = switch_data tp ->
  setDiseqc [xe0; x10; x38; b; x00; x00] 4 t
  = Some (on_cfg (fun c => setPosition c (tp_position tp + 1))
      (on_cfg (fun c => setVoltage c (if tp_horizontal tp then SEC_VOLTAGE_18 else SEC_VOLTAGE_13))
        (t <| t_vtuner := (t_vtuner t) <| m_tone := if tp_high tp then SEC_TONE_ON else SEC_TONE_OFF |> |>))).
Proof.
  intros Hp Hb. unfold setDiseqc, switch_data in *.
  change (rd [xe0; x10; x38; b; x00; x00] 3) with (Some (ub b)). rewrite Hb. cbn [rd rdb fmap].
  assert (tp_position tp = 0 \/ tp_position tp = 1 \/ tp_position tp = 2 \/ tp_position tp = 3)
    as [-> | [-> | [-> | ->]]] by lia; by destruct (tp_horizontal tp), (tp_high tp).
Qed.

Lemma setVoltage_polarisation c (horizontal : bool) :
  m_pol (setVoltage c (if horizontal then SEC_VOLTAGE_18 else SEC_VOLTAGE_13))
  = (if horizontal then CONFIG_POL_HORIZONTAL else CONFIG_POL_VERTICAL) /\
  m_fe_type (setVoltage c (if horizontal then SEC_VOLTAGE_18 else SEC_VOLTAGE_13)) = m_fe_type c.
Proof.
  unfold setVoltage. destruct horizontal; rewrite ?Z.eqb_refl; [|done].
  rewrite (distinct_eqb _ 1 0 _ _ voltage_distinct eq_refl eq_refl) by lia. done.
Qed.

(** The tuner after the messages of a zap. *)
Record zapped (tp : transponder) (t t' : tuner) : Prop := {
  zp_psi : t_psi t' = t_psi t;
  zp_pids : same_pids (t_cfg t) (t_cfg t');
  zp_fe_type : m_fe_type (t_cfg t') = m_fe_type (t_cfg t);
  zp_status : m_status (t_cfg t') = CONFIG_STATUS_CHANNEL_CHANGED;
  zp_source : m_signal_source (t_cfg t') = tp_position tp + 1;
  zp_frequency : m_frequency (t_cfg t') = tp_rf tp / 100;
  zp_pol : m_pol (t_cfg t')
           = if tp_horizontal tp then CONFIG_POL_HORIZONTAL else CONFIG_POL_VERTICAL;
  zp_msys : m_msys (t_cfg t') = tp_system tp;
  zp_symrate : m_symrate (t_cfg t') = tp_symbols tp / 1000
}.

Lemma tuned_frequency_sat (tp : transponder) :
  0 <= tp_if tp < 2 ^ 32 ->
  tuned_frequency FE_TYPE_SAT (if tp_high tp then SEC_TONE_ON else SEC_TONE_OFF) (tp_if tp)
  = tp_rf tp / 100.
Proof.
  intros Hif. unfold tuned_frequency, tp_rf. rewrite Z.eqb_refl.
  destruct (tp_high tp); rewrite ?Z.eqb_refl.
  - unfold u32. rewrite Z.mod_small; lia.
  - rewrite (distinct_eqb _ 1 0 _ _ tone_distinct eq_refl eq_refl) by lia.
    unfold u32. rewrite Z.mod_small; lia.
Qed.

Lemma zap_run tp b t now :
  getFeType (t_cfg t) = FE_TYPE_SAT -> transponder_ok tp -> ub b = switch_data tp ->
  returns (vtuner_run t (map (pair now) (zap_messages tp b))) (fun r => zapped tp t r.1).
Proof.
  intros Hfe [Hp Hif Hs _] Hb. unfold vtuner_run, zap_messages. cbn [map foldl fst snd vtunerEvent mbind option_bind].
  rewrite (committed_switch tp) by done. cbn [mbind option_bind].
  rewrite setProperty_delivery_system, setProperty_frequency, setProperty_symbol_rate, setProperty_tune.
  set (v := if tp_horizontal tp then SEC_VOLTAGE_18 else SEC_VOLTAGE_13).
  destruct (setVoltage_polarisation (t_cfg t) (tp_horizontal tp)) as [Hpol Hfe'].
  pose proof (setVoltage_same (t_cfg t) v) as Hsame. fold v in Hpol, Hfe'.
  cbn [returns fst]. constructor; cbn; try done.
  - unfold getFeType. cbn. unfold getFeType in Hfe. rewrite Hfe', Hfe. by apply tuned_frequency_sat.
  - by apply s32_id.
Qed.

Lemma zapped_names tp t t' q : zapped tp t t' -> says_tuning (t_cfg t') q -> names_transponder tp q.
Proof.
  intros [_ _ _ _ Hsrc Hfreq Hpol Hsys Hsym] (Hq1 & Hq2 & Hq3 & Hq4 & Hq5).
  rewrite Hsrc in Hq1. rewrite Hfreq in Hq2. rewrite Hpol in Hq3. rewrite Hsys in Hq4.
  rewrite Hsym in Hq5. split_and!; try done. rewrite Hq3. by destruct (tp_horizontal tp).
Qed.

(** C8: what the driver tunes is what the server is asked for. After the
    messages of a satellite zap (a committed switch command, the delivery
    system, the intermediate frequency, the symbol rate and DTV_TUNE), the
    query of the next request, a SETUP or a PLAY, names the switch position,
    the frequency of the transponder with the band's oscillator frequency added
    (to a tenth of a MHz), the polarisation, the system and the symbol rate. *)
Theorem driver_tune_requested tp b t now :
  tuner_wf (t_cfg t) (t_psi t) -> getFeType (t_cfg t) = FE_TYPE_SAT ->
  transponder_ok tp -> ub b = switch_data tp ->
  returns (vtuner_run t (map (pair now) (zap_messages tp b))) (fun r =>
    names_transponder tp (query (getSetupData (t_cfg r.1)).1) /\
    names_transponder tp (query (getPlayData (t_cfg r.1)).1)).
Proof.
  intros Hwf Hfe Htp Hb. eapply returns_mono; [by apply zap_run|]. intros [t' answers] Hz. cbn [fst] in *.
  assert (forall x, x ∈ wanted_pids (t_cfg t') -> 0 <= x) as Hpos.
  { apply (wanted_pids_nonneg _ (t_psi t)). eapply same_pids_wf; [|exact Hwf]. apply Hz. }
  destruct (sat_request_says (t_cfg t')) as [Hs Hp].
  - apply Hz.
  - rewrite (zp_fe_type _ _ _ Hz). exact Hfe.
  - rewrite (zp_frequency _ _ _ Hz). destruct Htp. unfold tp_rf. destruct (tp_high tp); lia.
  - exact Hpos.
  - split; by eapply zapped_names.
Qed.
End Commands.

(** ** The tuner's invariant *)

(** What the layout of the driver's messages gives: the six bytes of a switch
    command, 16 bit pids. *)
Definition message_ok (msg : vtuner_message) : Prop :=
  match msg with
  | MSG_SEND_DISEQC_MSG m _ => length m = 6%nat
  | MSG_PIDLIST pidlist => u16_list pidlist
  | _ => True
  end.

(** The tuner with what the server sends. *)
Definition tuner_world (t : tuner) (server : gset Z) (unclear : bool) : world :=
  World (t_cfg t) (t_psi t) server unclear.

Lemma on_cfg_ok t f server u :
  same_pids (t_cfg t) (f (t_cfg t)) -> world_ok (tuner_world t server u) ->
  world_ok (tuner_world (on_cfg f t) server u).
Proof. intros Hs Hw. exact (with_cfg_ok (tuner_world t server u) _ Hs Hw). Qed.

Definition clears (msg : vtuner_message) : bool :=
  match msg with
  | MSG_SET_FRONTEND prop | MSG_SET_PROPERTY prop => prop_cmd prop =? DTV_CLEAR
  | _ => false
  end.

Lemma setProperty_ok prop t server u :
  world_ok (tuner_world t server u) ->
  world_ok (tuner_world (setProperty prop t) server ((prop_cmd prop =? DTV_CLEAR) || u)).
Proof.
  intros Hw.
  assert (world_ok (tuner_world t server ((prop_cmd prop =? DTV_CLEAR) || u))) as Hw'.
  { destruct Hw as [Hwf Hs]. split; [exact Hwf|]. destruct (_ =? _); [done|exact Hs]. }
  unfold setProperty. cbv zeta. repeat case_match;
    try exact Hw'; try (apply on_cfg_ok; [done|exact Hw']).
  destruct (clearProperty_wf _ _ (ok_tuner _ Hw)) as (? & _). by constructor.
Qed.

Lemma setDiseqc_ok m len t server u :
  length m = 6%nat -> world_ok (tuner_world t server u) ->
  returns (setDiseqc m len t) (fun t => world_ok (tuner_world t server u)).
Proof.
  intros Hm Hw. unfold setDiseqc.
  do 4 (apply returns_rd; [unfold zlen; rewrite Hm; lia|]; intros ? _). cbn [returns].
  repeat case_match; try done; repeat (apply on_cfg_ok; [apply setVoltage_same || done|]); done.
Qed.

Definition snr_fits (r : satipRTP) : Prop :=
  u16 (m_signalStrength r) * u16 (m_signalQuality r) < 2 ^ 31.

Lemma snr_of_spec r :
  snr_of r = if u16 (m_signalStrength r) * u16 (m_signalQuality r) <? 2 ^ 31
             then Some (u16 (Z.quot (u16 (m_signalStrength r) * u16 (m_signalQuality r)) 65535))
             else None.
Proof.
  unfold snr_of, mul_int.
  assert (0 <= u16 (m_signalStrength r) /\ 0 <= u16 (m_signalQuality r)) as [Hs Hq]
    by (unfold u16; lia).
  rewrite (proj2 (Z.leb_le _ _)) by nia. cbn [andb]. by destruct (_ <? _).
Qed.

(** A message is handled unless the SNR overflows. *)
Lemma vtunerEvent_keeps now msg t server u :
  message_ok msg -> world_ok (tuner_world t server u) ->
  match vtunerEvent now msg t with
  | Some r => world_ok (tuner_world r.1 server (clears msg || u))
  | None => exists r, t_rtp t = Some r /\ ~ snr_fits r
  end.
Proof.
  intros Hmsg Hw. destruct msg; cbn [vtunerEvent clears orb message_ok] in *;
    try exact Hw; try (by apply setProperty_ok); try (by apply on_cfg_ok).
  - destruct HAVE_NO_MSG16; [by apply (setProperty_ok _ t)|].
    destruct Hw as [Hwf Hs]. split; [exact Hwf|]. destruct (_ =? _); [done|exact Hs].
  - destruct (t_rtp t) as [r|]; [|exact Hw]. rewrite snr_of_spec.
    destruct (Z.ltb_spec (u16 (m_signalStrength r) * u16 (m_signalQuality r)) (2 ^ 31)); [exact Hw|].
    exists r. split; [done|]. unfold snr_fits. lia.
  - apply on_cfg_ok; [apply setVoltage_same|exact Hw].
  - pose proof (setDiseqc_ok msg msg_len t server u Hmsg Hw) as Hd.
    destruct (setDiseqc msg msg_len t); [exact Hd|done].
  - repeat case_match; try exact Hw; by apply on_cfg_ok.
  - exact (world_pid_list_ok (tuner_world t server u) pidlist Hw Hmsg).
Qed.

(** ** Answers *)

Definition nanoseconds (t : timespec) : Z := tv_sec t * 1000000000 + tv_nsec t.

Definition timespec_ok (t : timespec) : Prop := 0 <= tv_nsec t < 1000000000.

Lemma timeout_msec_negative orig now :
  timespec_ok orig -> timespec_ok now ->
  (timeout_msec orig now <? 0) = (nanoseconds orig <? nanoseconds now).
Proof.
  unfold timespec_ok, timeout_msec, ts_sub, nanoseconds. intros Ho Hn.
  destruct (Z.ltb_spec (tv_nsec orig - tv_nsec now) 0); cbn [tv_sec tv_nsec];
    apply eq_true_iff_eq; rewrite !Z.ltb_lt; lia.
Qed.

Lemma land_4 x : negb (Z.land x 4 =? 0) = Z.testbit x 2.
Proof.
  assert (Z.land x 4 = if Z.testbit x 2 then 4 else 0) as ->; [|by destruct (Z.testbit x 2)].
  apply Z.bits_inj'. intros n Hn. rewrite Z.land_spec. change 4 with (2 ^ 2).
  destruct (Z.eq_dec n 2) as [->|Hne].
  - rewrite Z.pow2_bits_true by lia. by destruct (Z.testbit x 2).
  - rewrite Z.pow2_bits_false, andb_false_r by lia.
    destruct (Z.testbit x 2); [by rewrite Z.pow2_bits_false by lia|by rewrite Z.bits_0].
Qed.

(** The part of the tuner a status is computed from. *)
Record status_from (t : tuner) (tries : Z) (deadline : timespec) : Prop := {
  sf_tries : tune_tries (t_vtuner t) = tries;
  sf_deadline : timeout (t_vtuner t) = deadline;
  sf_unlocked : forall r, t_rtp t = Some r -> m_hasLock r = false
}.

Lemma setProperty_status prop t tries deadline :
  status_from t tries deadline -> status_from (setProperty prop t) tries deadline.
Proof. intros []. unfold setProperty. cbv zeta. repeat case_match; by constructor. Qed.

Lemma set_frontend_runs l : forall t tries deadline answers,
  status_from t tries deadline ->
  returns (foldl (fun s m => '(t, answers) ← s; '(t, a) ← vtunerEvent m.1 m.2 t; Some (t, a :: answers))
             (Some (t, answers)) (map (fun m => (m.1, MSG_SET_FRONTEND m.2)) l))
    (fun r => status_from r.1 (tries + zlen l) deadline).
Proof.
  induction l as [|[now prop] l IH]; intros t tries deadline answers Hs.
  - cbn. rewrite Z.add_0_r. exact Hs.
  - cbn [map foldl fst snd vtunerEvent mbind option_bind]. rewrite zlen_cons, Z.add_assoc.
    apply IH. assert (status_from (if HAVE_NO_MSG16 then setProperty prop t else t) tries deadline)
      as [Ht Hd Hu]; [|by constructor; cbn; rewrite ?Ht].
    destruct HAVE_NO_MSG16; [by apply setProperty_status|done].
Qed.

(** C29: how long the driver is told to wait for a lock. After
    MSG_GET_TUNE_SETTINGS at time [start] and any number of tries to tune, and
    before a report of the server says otherwise, the status is timed out
    exactly when more than 3 seconds have passed, and says there is a signal
    exactly when bit 2 of the number of tries is set. *)
Theorem tuning_timeout t start tries now :
  timespec_ok start -> timespec_ok now ->
  returns (vtuner_run t ((start, MSG_GET_TUNE_SETTINGS)
                         :: map (fun m => (m.1, MSG_SET_FRONTEND m.2)) tries
                         ++ [(now, MSG_READ_STATUS)]))
    (fun r => hd_error r.2 = Some (AnswerStatus
       (let timed_out := if nanoseconds start + 3000000000 <? nanoseconds now then Z.lor 0 FE_TIMEDOUT else 0 in
        if Z.testbit (zlen tries) 2 then Z.lor timed_out FE_HAS_SIGNAL else timed_out))).
Proof.
  intros Hstart Hnow. unfold vtuner_run. cbn [foldl]. rewrite foldl_app.
  cbn [fst snd vtunerEvent mbind option_bind].
  set (t1 := t <| t_rtp := _ |> <| t_vtuner := _ |>).
  assert (status_from t1 0 (ts_add start 3000)) as Hs.
  { constructor; [done..|]. intros r. cbn. destruct (t_rtp t); [|done]. by intros [= <-]. }
  eapply returns_bind; [by apply (set_frontend_runs tries)|]. intros [t2 answers] [Htries Hdl Hun].
  cbn [foldl fst snd vtunerEvent mbind option_bind returns hd_error] in *. do 2 f_equal.
  unfold read_status. rewrite Htries, Hdl, Z.add_0_l.
  assert (match t_rtp t2 with Some r => m_hasLock r | None => false end = false) as ->.
  { destruct (t_rtp t2); [by apply Hun|done]. }
  assert (ts_add start 3000 = TS (tv_sec start + 3) (tv_nsec start)) as ->.
  { unfold ts_add. destruct Hstart. change (Z.rem 3000 1000 * 1000000) with 0.
    rewrite Z.add_0_r, (proj2 (Z.leb_gt _ _)) by lia. done. }
  rewrite timeout_msec_negative by done.
  replace (nanoseconds (TS (tv_sec start + 3) (tv_nsec start))) with (nanoseconds start + 3000000000)
    by (unfold nanoseconds; cbn [tv_sec tv_nsec]; lia).
  by rewrite land_4.
Qed.

(** C31: when the reading of the SNR overflows. After a report of the server
    with a lock, MSG_READ_SNR answers the product of strength and quality over
    65535, unless the product, of two numbers that go up to 65535, does not fit
    an int: with full quality that is so for every level from 128 on. *)
Theorem snr_answer t r ssrc name pad src fe level quality rest now snr :
  32 <= long_bits -> app_wf ssrc name (report src fe level 1 quality rest) pad ->
  0 <= src -> 0 <= fe -> 0 <= level <= 255 -> 0 <= quality <= 15 ->
  let pkt := app_packet ssrc name (report src fe level 1 quality rest) pad in
  returns (rtcpData r pkt (zlen pkt)) (fun r =>
    vtunerEvent now (MSG_READ_SNR snr) (t <| t_rtp := Some r |>)
    = if level * quality <? 1913
      then Some (t <| t_rtp := Some r |>, AnswerSnr (level * 257 * (quality * 4369) / 65535))
      else None).
Proof.
  intros Hl Hwf Hs Hf Hlev Hq pkt. subst pkt. rewrite rtcpData_app by done.
  rewrite parse_report by lia. cbn [returns]. rewrite Z.eqb_refl.
  set (r1 := r <| m_signalStrength := _ |> <| m_hasLock := _ |> <| m_signalQuality := _ |>).
  change (vtunerEvent now (MSG_READ_SNR snr) (t <| t_rtp := Some r1 |>))
    with (v ← snr_of r1; Some (t <| t_rtp := Some r1 |>, AnswerSnr v)).
  assert (u16 (m_signalStrength r1) = level * 257) as Hr1
    by (change (u16 (level * 257) = level * 257); unfold u16; lia).
  assert (u16 (m_signalQuality r1) = quality * 4369) as Hr2
    by (change (u16 (quality * 4369) = quality * 4369); unfold u16; lia).
  rewrite snr_of_spec, Hr1, Hr2. clearbody r1.
  replace (level * 257 * (quality * 4369)) with (level * quality * 1122833) by lia.
  assert (0 <= level * quality <= 3825) as Hp by nia. set (p := level * quality) in *. clearbody p.
  destruct (Z.ltb_spec p 1913).
  - rewrite (proj2 (Z.ltb_lt _ _)) by lia. cbn [mbind option_bind]. do 3 f_equal.
    rewrite Z.quot_div_nonneg by lia. unfold u16. rewrite Z.mod_small; lia.
  - rewrite (proj2 (Z.ltb_ge _ _)) by lia. done.
Qed.
End VtunerProps.

(** ** Opening the device *)

Section OpenProps.
Context `{DvbConstants} `{FrontendConstants} `{VtunerBuild}.

(** A driver with the legacy numbers ([base = 0]) or the extended ones
    ([base = 10]), which does not know other requests. *)
Definition speaks (dev : driver) (base : Z) : Prop :=
  forall request arg,
    if (base <? request) && (request <=? base + 7)
    then exists n, 0 <= n /\ dev request arg = IoctlResult n
    else dev request arg = IoctlFailed EINVAL \/ dev request arg = IoctlFailed ENOTTY.

Lemma speaks_known dev base request arg :
  speaks dev base -> base < request <= base + 7 -> failed (dev request arg) = false.
Proof.
  intros Hs Hr. specialize (Hs request arg).
  rewrite (proj2 (Z.ltb_lt _ _)), (proj2 (Z.leb_le _ _)) in Hs by lia.
  destruct Hs as (n & Hn & ->). cbn. lia.
Qed.

Lemma speaks_probe dev base name :
  base = 0 \/ base = 10 -> speaks dev base ->
  exists r probes, probe dev name = (r, base + 3 - VTUNER_SET_NAME, probes ++ [(base + 3, name)]) /\
    (length probes <= 1)%nat /\ failed r = false.
Proof.
  intros Hb Hs. pose proof (speaks_known dev base (base + 3) name Hs ltac:(lia)) as Hok.
  unfold probe, VTUNER_SET_NAME in *. pose proof (Hs (if VTUNER_EXTENDED then 13 else 3) name) as Hfirst.
  destruct VTUNER_EXTENDED, Hb as [->| ->]; cbv iota in *;
    match type of Hfirst with
    | if ?b then _ else _ => let v := eval vm_compute in b in change b with v in Hfirst
    end; cbv iota in Hfirst.
  - exists (dev (0 + 3) name), [(13, name)]. by destruct Hfirst as [-> | ->].
  - destruct Hfirst as (n & _ & Hd). exists (dev 13 name), [].
    change (failed (dev 13 name) = false) in Hok. split; [by rewrite Hd|by split; [cbn; lia|]].
  - destruct Hfirst as (n & _ & Hd). exists (dev 3 name), [].
    change (failed (dev 3 name) = false) in Hok. split; [by rewrite Hd|by split; [cbn; lia|]].
  - exists (dev (10 + 3) name), [(3, name)]. by destruct Hfirst as [-> | ->].
Qed.

(** C28: the device is found and configured whichever numbers its driver uses.
    With a free node and a known frontend type [openVtuner] succeeds; after at
    most one probe all requests carry the driver's own numbers, and the offset
    makes the main loop's GET_MESSAGE and SET_RESPONSE the driver's. *)
Theorem open_finds_interface nodes dev base fe_type info type_str :
  base = 0 \/ base = 10 -> speaks dev base ->
  frontend_of fe_type = Some (info, type_str) -> AllocateVtuner nodes <> -1 ->
  let o := openVtuner nodes dev fe_type in
  op_ok o = true /\ op_fd o = AllocateVtuner nodes /\
  VTUNER_GET_MESSAGE + op_offset o = base + 1 /\ VTUNER_SET_RESPONSE + op_offset o = base + 2 /\
  exists probes, (length probes <= 1)%nat /\
    op_calls o = probes
      ++ [(base + 3, ArgText (fe_name info)); (base + 4, ArgText type_str); (base + 6, ArgInfo info)]
      ++ (if DVB_VER_ATLEAST_5_5
          then [(base + 7, ArgSystems (systems_of fe_type (fe_caps info)))] else [])
      ++ [(base + 5, ArgText (str "no"))].
Proof.
  intros Hb Hs Hf Hn o. subst o. unfold openVtuner. rewrite (proj2 (Z.eqb_neq _ _)) by done.
  rewrite Hf. destruct (speaks_probe dev base (ArgText (fe_name info)) Hb Hs)
    as (r & probes & -> & Hlen & ->).
  cbn [fst snd].
  assert (VTUNER_SET_TYPE + (base + 3 - VTUNER_SET_NAME) = base + 4 /\
          VTUNER_SET_FE_INFO + (base + 3 - VTUNER_SET_NAME) = base + 6 /\
          VTUNER_SET_DELSYS + (base + 3 - VTUNER_SET_NAME) = base + 7 /\
          VTUNER_SET_HAS_OUTPUTS + (base + 3 - VTUNER_SET_NAME) = base + 5 /\
          VTUNER_GET_MESSAGE + (base + 3 - VTUNER_SET_NAME) = base + 1 /\
          VTUNER_SET_RESPONSE + (base + 3 - VTUNER_SET_NAME) = base + 2)
    as (-> & -> & -> & -> & Hget & Hset).
  { unfold VTUNER_SET_TYPE, VTUNER_SET_FE_INFO, VTUNER_SET_DELSYS, VTUNER_SET_HAS_OUTPUTS,
      VTUNER_GET_MESSAGE, VTUNER_SET_RESPONSE, VTUNER_SET_NAME. destruct VTUNER_EXTENDED; lia. }
  rewrite !(speaks_known dev base) by (done || lia).
  split_and!; [done|done|exact Hget|exact Hset|]. exists probes. split; [done|].
  cbn [op_calls]. by rewrite <- app_assoc.
Qed.
End OpenProps.

(** ** Witnesses *)

Definition demo_build : VtunerBuild := {|
  HAVE_NO_MSG16 := false; DVB_VER_ATLEAST_5_5 := true; DVB_VER_ATLEAST_5_11 := true;
  VTUNER_EXTENDED := true
|}.

Definition demo_tuner : tuner :=
  Tuner (mkVtuner 5 0 true 1 0 (TS 0 0)) (@satipConfig_new linux_dvb 0 vtunerOpt_new).1
    (@satipConfig_new linux_dvb 0 vtunerOpt_new).2 (Some demo_rtp).

Lemma demo_tuner_ok : world_ok (tuner_world demo_tuner ∅ false).
Proof. exact (@world_new_ok linux_dvb 0 vtunerOpt_new). Qed.

(** 12402.5 MHz, vertical, in the high band of the second position. *)
Definition demo_transponder : transponder := Transponder 1 true false 1802500 6 27500000.

Lemma driver_tune_requested_witness :
  returns (@vtuner_run linux_dvb 64 demo_build demo_tuner
             (map (pair (TS 0 0)) (@zap_messages linux_dvb demo_transponder xf5))) (fun r =>
    @names_transponder linux_dvb demo_transponder (query (@getSetupData linux_dvb (t_cfg r.1)).1) /\
    @names_transponder linux_dvb demo_transponder (query (@getPlayData linux_dvb (t_cfg r.1)).1)).
Proof.
  apply (@driver_tune_requested linux_dvb 64 demo_build linux_dvb_laws).
  - apply demo_tuner_ok.
  - reflexivity.
  - constructor; cbn; lia.
  - reflexivity.
Defined.

Lemma tuning_timeout_witness :
  returns (@vtuner_run linux_dvb 64 demo_build demo_tuner
    ((TS 7 0, MSG_GET_TUNE_SETTINGS)
     :: map (fun m => (m.1, MSG_SET_FRONTEND m.2)) [(TS 8 0, Prop' 0 0)]
     ++ [(TS 10 1, MSG_READ_STATUS)]))
    (fun r => hd_error r.2 = Some (AnswerStatus 0x20)).
Proof.
  apply (@tuning_timeout linux_dvb 64 demo_build demo_tuner (TS 7 0) [(TS 8 0, Prop' 0 0)] (TS 10 1));
    split; cbn; lia.
Defined.

Lemma snr_answer_witness :
  let payload := report 1 1 128 1 15 (str "12402.00,v,dvbs,,,,27500,34;pids=0,1") in
  let pkt := app_packet (str "abcd") (str "SES1") payload (str "x") in
  returns (@rtcpData 64 demo_rtp pkt (zlen pkt)) (fun r =>
    @vtunerEvent linux_dvb 64 demo_build (TS 0 0) (MSG_READ_SNR 0) (demo_tuner <| t_rtp := Some r |>) = None).
Proof.
  intros payload pkt.
  apply (@snr_answer linux_dvb 64 demo_build demo_tuner demo_rtp (str "abcd") (str "SES1") (str "x") 1 1 128 15
           (str "12402.00,v,dvbs,,,,27500,34;pids=0,1") (TS 0 0) 0); try lia; [unfold long_bits; lia|].
  repeat split; try (vm_compute; congruence). apply (bool_decide_unpack _). vm_compute. exact I.
Defined.

(** A driver with the legacy numbers. *)
Definition legacy_driver : driver := fun request _ =>
  if (0 <? request) && (request <=? 7) then IoctlResult 0 else IoctlFailed EINVAL.

Lemma open_finds_interface_witness :
  let o := @openVtuner linux_dvb linux_frontend demo_build [NodeBusy; NodeFree 7] legacy_driver 0 in
  op_ok o = true /\ op_fd o = 7 /\ op_offset o = -10.
Proof.
  assert (speaks legacy_driver 0) as Hs.
  { intros request arg. unfold legacy_driver. change (0 + 7) with 7.
    destruct ((0 <? request) && (request <=? 7)); [|by left]. exists 0. split; [lia|done]. }
  set (frontend := @frontend_of linux_frontend 0).
  assert (exists info type_str, frontend = Some (info, type_str)) as (info & type_str & Hf)
    by by eexists _, _.
  destruct (@open_finds_interface linux_dvb linux_frontend demo_build [NodeBusy; NodeFree 7]
              legacy_driver 0 0 info type_str (or_introl eq_refl) Hs Hf ltac:(discriminate))
    as (Hok & Hfd & Hget & _).
  split; [exact Hok|]. split; [exact Hfd|].
  change (@VTUNER_GET_MESSAGE demo_build) with 11 in Hget. lia.
Defined.
