(* ===== verification/Rtsp.v ===== *)
(** The RTSP client of rtsp.h and rtsp.cpp: the class [satipRTSP], a state
    machine that connects, sets a session up, plays it, keeps it alive, follows
    channel and pid changes and tears it down, with two watchdog timers and a
    reconnect timer.

    The methods run in one thread, called by the session's main loop. What the
    system answers during a call is an argument, [env]: the time, the addresses
    of the server and how they take a connection, the result of send and recv.
    The texts handed to send are logged. [None] is undefined behaviour, as in
    the other files. *)

From S2P Require Import Prelude Crc Psi CText OptParser Dvb Timer Config ConfigText Rtp.

(** ** State *)

Inductive rtsp_status :=
| RTSP_STATUS_CONFIG_WAITING
| RTSP_STATUS_SERVER_CONNECTING
| RTSP_STATUS_SESSION_ESTABLISHING
| RTSP_STATUS_SESSION_PLAYING
| RTSP_STATUS_SESSION_TRANSMITTING
| RTSP_STATUS_SESSION_TEARDOWNING.

Inductive rtsp_request :=
| RTSP_REQUEST_NONE
| RTSP_REQUEST_OPTION
| RTSP_REQUEST_SETUP
| RTSP_REQUEST_PLAY
| RTSP_REQUEST_TEARDOWN
| RTSP_REQUEST_DESCRIBE.

Inductive rtsp_res := RTSP_FAILED | RTSP_OK | RTSP_ERROR | RTSP_RESPONSE_COMPLETE.

#[export] Instance rtsp_status_eq_decision : EqDecision rtsp_status.
Proof. solve_decision. Defined.
#[export] Instance rtsp_request_eq_decision : EqDecision rtsp_request.
Proof. solve_decision. Defined.
#[export] Instance rtsp_res_eq_decision : EqDecision rtsp_res.
Proof. solve_decision. Defined.

(** The unused [m_txbuf] is left out. [m_rx_data] is the whole buffer, of
    [m_rx_data_len] bytes. *)
Record satipRTSP := mkRTSP {
  m_host : text;
  m_port : text;
  m_timer_reset_connect : timer_elem;
  m_timer_keep_alive : timer_elem;
  m_timer_reconnect : timer_elem;
  m_reconnect_attempts : Z;
  m_attempted_generation : Z;
  m_fd : Z;
  m_rx_data : list byte;
  m_rx_data_len : Z;
  m_rx_data_pos : Z;
  m_rtsp_status : rtsp_status;
  m_rtsp_request : rtsp_request;
  m_rtsp_session_id : text;
  m_rtsp_stream_id : Z;
  m_rtsp_timeout : Z;
  m_rtsp_cseq : Z;
  m_wait_response : bool
}.

#[export] Instance satipRTSP_settable : Settable satipRTSP := fun r => mkRTSP
  (m_host r) (m_port r) (m_timer_reset_connect r) (m_timer_keep_alive r)
  (m_timer_reconnect r) (m_reconnect_attempts r) (m_attempted_generation r) (m_fd r)
  (m_rx_data r) (m_rx_data_len r) (m_rx_data_pos r) (m_rtsp_status r) (m_rtsp_request r)
  (m_rtsp_session_id r) (m_rtsp_stream_id r) (m_rtsp_timeout r) (m_rtsp_cseq r)
  (m_wait_response r).

(** One address of the server's list: whether socket and fcntl succeed, and
    what connect answers. *)
Inductive connect_res := Connected | InProgress | ConnectError.
Record addr_try := Addr {
  addr_fd : Z;
  addr_socket_ok : bool;
  addr_fcntl_ok : bool;
  addr_connect : connect_res
}.

Inductive recv_res := Received (data : list byte) | Closed | RecvError.

(** What the system answers during one call. *)
Record env := Env {
  env_now : timespec;
  env_addrs : option (list addr_try);
  env_send_ok : bool;
  env_recv : recv_res;
  env_stats_time : Z
}.

(** The object with what it refers to, and what it handed to send and to the
    vtuner device. *)
Record client := Client {
  c_rtsp : satipRTSP;
  c_cfg : satipConfig;
  c_psi : option satipPSI;
  c_rtp : satipRTP;
  c_sent : list text;
  c_device : list byte
}.

#[export] Instance client_settable : Settable client := fun c =>
  Client (c_rtsp c) (c_cfg c) (c_psi c) (c_rtp c) (c_sent c) (c_device c).

Definition on_rtsp (f : satipRTSP -> satipRTSP) (c : client) : client :=
  c <| c_rtsp := f (c_rtsp c) |>.

(** ** Timers *)

Definition startTimerResetConnect (now : timespec) (timeout : Z) (r : satipRTSP) : satipRTSP :=
  r <| m_timer_reset_connect := start now (m_timer_reset_connect r) timeout true |>.
Definition stopTimerResetConnect (r : satipRTSP) : satipRTSP :=
  r <| m_timer_reset_connect := stop (m_timer_reset_connect r) |>.

(** The interval is computed as an int. *)
Definition startTimerKeepAliveMessage (now : timespec) (r : satipRTSP) : option satipRTSP :=
  if m_rtsp_timeout r <? - 2 ^ 31 + 5 then None else
  msec ← mul_int (m_rtsp_timeout r - 5) 1000;
  Some (r <| m_timer_keep_alive := start now (m_timer_keep_alive r) msec true |>).
Definition stopTimerKeepAliveMessage (r : satipRTSP) : satipRTSP :=
  r <| m_timer_keep_alive := stop (m_timer_keep_alive r) |>.

(** The delay of the next attempt. *)
Definition reconnect_delay (attempts : Z) : Z :=
  let delay := Z.shiftl 1000 attempts in
  if (30000 <? delay) || (delay <=? 0) then 30000 else delay.

Definition startTimerReconnect (now : timespec) (r : satipRTSP) : satipRTSP :=
  let delay := reconnect_delay (m_reconnect_attempts r) in
  let r := r <| m_timer_reconnect := start now (m_timer_reconnect r) delay true |> in
  if delay <? 30000 then r <| m_reconnect_attempts := m_reconnect_attempts r + 1 |> else r.
Definition stopTimerReconnect (r : satipRTSP) : satipRTSP :=
  r <| m_timer_reconnect := stop (m_timer_reconnect r) |>.
Definition resetReconnectBackoff (r : satipRTSP) : satipRTSP := r <| m_reconnect_attempts := 0 |>.

(** ** Connecting *)

(** The part of [resetConnect] before it decides about the reconnect timer. *)
Definition disconnect (r : satipRTSP) : satipRTSP :=
  let r := r <| m_rtsp_status := RTSP_STATUS_CONFIG_WAITING |>
             <| m_rtsp_request := RTSP_REQUEST_NONE |> <| m_rtsp_cseq := 1 |>
             <| m_rtsp_session_id := [] |> <| m_rtsp_stream_id := -1 |>
             <| m_rtsp_timeout := 60 |> <| m_rx_data_pos := 0 |>
             <| m_wait_response := false |> <| m_fd := -1 |> in
  stopTimerKeepAliveMessage (stopTimerResetConnect r).

Definition resetConnect (now : timespec) (auto_reconnect : bool) (c : client) : client :=
  let c := on_rtsp disconnect c in
  if negb auto_reconnect
     || bool_decide (getChannelStatus (c_cfg c) = CONFIG_STATUS_CHANNEL_INVALID)
  then on_rtsp (fun r => resetReconnectBackoff (stopTimerReconnect r)) c
  else if bool_decide (getChannelStatus (c_cfg c) = CONFIG_STATUS_CHANNEL_CHANGED)
          && (m_attempted_generation (c_rtsp c) <? getTuneGeneration (c_cfg c))
  then on_rtsp (fun r => resetReconnectBackoff (stopTimerReconnect r)) c
  else on_rtsp (startTimerReconnect now) (c <| c_cfg := clearChannelChanged (c_cfg c) |>).

(** The loop over the addresses: the socket that connects or is connecting. *)
Fixpoint connect_loop (addrs : list addr_try) : option Z :=
  match addrs with
  | [] => None
  | a :: addrs =>
    if negb (addr_socket_ok a) then connect_loop addrs
    else if negb (addr_fcntl_ok a) then connect_loop addrs
    else match addr_connect a with
         | Connected | InProgress => Some (addr_fd a)
         | ConnectError => connect_loop addrs
         end
  end.

Definition connectToServer (e : env) (r : satipRTSP) : rtsp_res * satipRTSP :=
  match env_addrs e with
  | None => (RTSP_ERROR, r)
  | Some addrs =>
    match connect_loop addrs with
    | None => (RTSP_ERROR, r)
    | Some fd => (RTSP_OK, r <| m_fd := fd |>)
    end
  end.

Definition satipRTSP_new (host rtsp_port : text) (garbage : list byte) (now : timespec)
    (cfg : satipConfig) (psi : option satipPSI) (rtp : satipRTP) : client :=
  let len := if isTcpData cfg then 256 * 1024 else 2048 in
  let r := mkRTSP host rtsp_port timer_elem_new timer_elem_new timer_elem_new 0 0 (-1)
             garbage len 0 RTSP_STATUS_CONFIG_WAITING RTSP_REQUEST_NONE [] (-1) 60 1 false in
  resetConnect now false (Client r cfg psi rtp [] []).

(** ** Requests *)

Section Requests.
Context `{DvbConstants}.

(** What follows the URL of every request: the version and the sequence
    number. *)
Definition crlf : text := [x0d; x0a].
Definition start_line_end (cseq : Z) : text :=
  str " RTSP/1.0" ++ crlf ++ str "CSeq: " ++ dec cseq ++ crlf.
Definition session_line (id : text) : text := str "Session: " ++ id ++ crlf.
Definition server_url (method : string) (r : satipRTSP) : text :=
  str method ++ str " rtsp://" ++ m_host r ++ str ":" ++ m_port r ++ str "/".
Definition next_cseq (r : satipRTSP) : satipRTSP := r <| m_rtsp_cseq := m_rtsp_cseq r + 1 |>.

(** [send]: the text is handed over, and RTSP_ERROR stands for a negative
    result. *)
Definition send_text (e : env) (tx_data : text) (c : client) : rtsp_res * client :=
  (if env_send_ok e then RTSP_OK else RTSP_ERROR, c <| c_sent := c_sent c ++ [tx_data] |>).

(** PLAY, OPTIONS and TEARDOWN need a session. *)
Definition no_session (r : satipRTSP) : bool :=
  (m_rtsp_stream_id r =? -1) || bool_decide (m_rtsp_session_id r = []).

Definition sendSetup (e : env) (c : client) : rtsp_res * client :=
  let r := c_rtsp c in
  let stream := if negb (m_rtsp_stream_id r =? -1)
                then str "stream=" ++ dec (m_rtsp_stream_id r) else [] in
  let '(data, cfg) := getSetupData (c_cfg c) in
  let session := if bool_decide (m_rtsp_session_id r <> [])
                 then session_line (m_rtsp_session_id r) else [] in
  let transport :=
    if isTcpData (c_cfg c) then str "Transport: RTP/AVP/TCP;interleaved=0-1" ++ crlf
    else str "Transport: RTP/AVP;unicast;client_port=" ++ dec (m_rtp_port (c_rtp c))
         ++ str "-" ++ dec (m_rtp_port (c_rtp c) + 1) ++ crlf in
  send_text e (server_url "SETUP" r ++ stream ++ data ++ start_line_end (m_rtsp_cseq r)
               ++ session ++ transport ++ crlf)
    (on_rtsp next_cseq (c <| c_cfg := cfg |>)).

Definition sendPlay (e : env) (c : client) : rtsp_res * client :=
  let r := c_rtsp c in
  if no_session r then (RTSP_ERROR, c) else
  let '(data, cfg) := getPlayData (c_cfg c) in
  send_text e (server_url "PLAY" r ++ str "stream=" ++ dec (m_rtsp_stream_id r) ++ data
               ++ start_line_end (m_rtsp_cseq r) ++ session_line (m_rtsp_session_id r) ++ crlf)
    (on_rtsp next_cseq (c <| c_cfg := cfg |>)).

Definition sendOption (e : env) (c : client) : rtsp_res * client :=
  let r := c_rtsp c in
  if no_session r then (RTSP_ERROR, c) else
  send_text e (server_url "OPTIONS" r ++ start_line_end (m_rtsp_cseq r)
               ++ session_line (m_rtsp_session_id r) ++ crlf)
    (on_rtsp next_cseq c).

Definition sendTearDown (e : env) (c : client) : rtsp_res * client :=
  let r := c_rtsp c in
  if no_session r then (RTSP_ERROR, c) else
  send_text e (server_url "TEARDOWN" r ++ str "stream=" ++ dec (m_rtsp_stream_id r)
               ++ start_line_end (m_rtsp_cseq r) ++ session_line (m_rtsp_session_id r) ++ crlf)
    (on_rtsp next_cseq c).

Definition sendDescribe (e : env) (c : client) : rtsp_res * client :=
  let r := c_rtsp c in
  let stream := if negb (m_rtsp_stream_id r =? -1)
                then str "stream=" ++ dec (m_rtsp_stream_id r) else [] in
  send_text e (server_url "DESCRIBE" r ++ stream ++ start_line_end (m_rtsp_cseq r)
               ++ str "Accept: application/sdp" ++ crlf ++ crlf)
    (on_rtsp next_cseq c).

(** The switch of [sendRequest]. *)
Definition send_method (e : env) (request : rtsp_request) (c : client) : rtsp_res * client :=
  match request with
  | RTSP_REQUEST_OPTION => sendOption e c
  | RTSP_REQUEST_SETUP => sendSetup e c
  | RTSP_REQUEST_PLAY => sendPlay e c
  | RTSP_REQUEST_TEARDOWN => sendTearDown e c
  | RTSP_REQUEST_DESCRIBE => sendDescribe e c
  | RTSP_REQUEST_NONE => (RTSP_ERROR, c)
  end.

Definition sendRequest (e : env) (request : rtsp_request) (c : client) : rtsp_res * client :=
  if m_wait_response (c_rtsp c) then (RTSP_FAILED, c) else
  let c := on_rtsp stopTimerKeepAliveMessage c in
  let '(res, c) := send_method e request c in
  (res,
   if bool_decide (res = RTSP_OK) then
     on_rtsp (fun r => startTimerResetConnect (env_now e) 4000
                (r <| m_wait_response := true |> <| m_rtsp_request := request |>)) c
   else resetConnect (env_now e) true c).

(** ** Timer handlers *)

Definition timeoutConnect (e : env) (c : client) : client := resetConnect (env_now e) true c.
Definition timeoutKeepAlive (e : env) (c : client) : client :=
  (sendRequest e RTSP_REQUEST_OPTION c).2.
Definition timeoutStreamInfo (e : env) (c : client) : client :=
  (sendRequest e RTSP_REQUEST_DESCRIBE c).2.
Definition timeoutReconnect (c : client) : client :=
  match getChannelStatus (c_cfg c) with
  | CONFIG_STATUS_CHANNEL_INVALID | CONFIG_STATUS_CHANNEL_CHANGED => on_rtsp resetReconnectBackoff c
  | CONFIG_STATUS_CHANNEL_STABLE => c <| c_cfg := setChannelRetry (c_cfg c) |>
  end.

Inductive rtsp_timer := TimerResetConnect | TimerKeepAlive | TimerReconnect.

(** The three timers, created in this order, with their handlers. *)
#[export] Instance client_timers (e : env) : TimerWorld client := {|
  timer_id := rtsp_timer;
  m_timer_list _ := create TimerReconnect (create TimerKeepAlive (create TimerResetConnect []));
  timer_at i c :=
    match i with
    | TimerResetConnect => m_timer_reset_connect (c_rtsp c)
    | TimerKeepAlive => m_timer_keep_alive (c_rtsp c)
    | TimerReconnect => m_timer_reconnect (c_rtsp c)
    end;
  set_timer i t c :=
    match i with
    | TimerResetConnect => on_rtsp (fun r => r <| m_timer_reset_connect := t |>) c
    | TimerKeepAlive => on_rtsp (fun r => r <| m_timer_keep_alive := t |>) c
    | TimerReconnect => on_rtsp (fun r => r <| m_timer_reconnect := t |>) c
    end;
  run_handler i c :=
    match i with
    | TimerResetConnect => timeoutConnect e c
    | TimerKeepAlive => timeoutKeepAlive e c
    | TimerReconnect => timeoutReconnect c
    end;
  clock_gettime c := (env_now e, c)
|}.

Definition handleNextTimer (e : env) (c : client) : client :=
  @callNextTimer _ (client_timers e) c.
Definition getPollTimeout (e : env) (c : client) : Z :=
  (@getNextTimerBegin _ (client_timers e) c).1.

(** ** The status machine *)

(** CONFIG_WAITING with a new tuning: connect. *)
Definition start_connecting (e : env) (c : client) : client :=
  let gen := getTuneGeneration (c_cfg c) in
  let c := if m_attempted_generation (c_rtsp c) <? gen
           then on_rtsp (fun r => resetReconnectBackoff (stopTimerReconnect r)) c else c in
  let c := on_rtsp (fun r => r <| m_attempted_generation := gen |>) c in
  let '(res, r) := connectToServer e (c_rtsp c) in
  if bool_decide (res = RTSP_OK) then
    c <| c_rtsp := startTimerResetConnect (env_now e) 5000
                     (r <| m_rtsp_status := RTSP_STATUS_SERVER_CONNECTING |>) |>
  else
    on_rtsp (startTimerReconnect (env_now e))
      (c <| c_rtsp := r |> <| c_cfg := clearChannelChanged (c_cfg c) |>).

Definition set_status (s : rtsp_status) (r : satipRTSP) : satipRTSP := r <| m_rtsp_status := s |>.

(** A request of the TRANSMITTING state; the status changes when it is sent. *)
Definition request_and (e : env) (request : rtsp_request) (s : rtsp_status) (c : client) : client :=
  let '(res, c) := sendRequest e request c in
  if bool_decide (res = RTSP_OK) then on_rtsp (set_status s) c else c.

Definition handleRTSPStatus (e : env) (c : client) : option client :=
  match m_rtsp_status (c_rtsp c) with
  | RTSP_STATUS_CONFIG_WAITING =>
    match getChannelStatus (c_cfg c) with
    | CONFIG_STATUS_CHANNEL_INVALID =>
        Some (on_rtsp (fun r => resetReconnectBackoff
          (if m_active (m_timer_reconnect r) then stopTimerReconnect r else r)) c)
    | CONFIG_STATUS_CHANNEL_CHANGED => Some (start_connecting e c)
    | CONFIG_STATUS_CHANNEL_STABLE => Some c
    end
  | RTSP_STATUS_SERVER_CONNECTING => Some c
  | RTSP_STATUS_SESSION_ESTABLISHING => Some (sendRequest e RTSP_REQUEST_SETUP c).2
  | RTSP_STATUS_SESSION_PLAYING => Some (sendRequest e RTSP_REQUEST_PLAY c).2
  | RTSP_STATUS_SESSION_TRANSMITTING =>
    let channel_status := getChannelStatus (c_cfg c) in
    let pid_status := getPidStatus (c_cfg c) in
    if bool_decide (channel_status = CONFIG_STATUS_CHANNEL_CHANGED)
       || bool_decide (pid_status = CONFIG_STATUS_PID_CHANGED)
    then Some (request_and e RTSP_REQUEST_PLAY RTSP_STATUS_SESSION_PLAYING c)
    else if bool_decide (channel_status = CONFIG_STATUS_CHANNEL_INVALID)
    then Some (request_and e RTSP_REQUEST_TEARDOWN RTSP_STATUS_SESSION_TEARDOWNING c)
    else if negb (m_active (m_timer_keep_alive (c_rtsp c))) then
      r ← startTimerKeepAliveMessage (env_now e) (c_rtsp c);
      Some (c <| c_rtsp := r |>)
    else Some c
  | RTSP_STATUS_SESSION_TEARDOWNING => Some c
  end.
End Requests.

(** ** Responses *)

(** [ptr = session_id + strcspn(...)] and the loop behind it: the text up to a
    [;] or a newline, without white space at its end. *)
Fixpoint take_until (stop : list Z) (s : text) : text :=
  match s with
  | [] => []
  | b :: s => if existsb (Z.eqb (ub b)) stop then [] else b :: take_until stop s
  end.

Definition trim_end (s : text) : text := rev (skip_spaces (rev s)).

(** [data] is the C string in [m_rx_data]. *)
Section Responses.
Context `{LongWidth}.

Definition handleResponseSetup (data : text) (r : satipRTSP) : option (rtsp_res * satipRTSP) :=
  match strstr data (str "Session") with
  | None => Some (RTSP_ERROR, r)
  | Some ptr =>
    match strchr ptr 58 with
    | None => Some (RTSP_ERROR, r)
    | Some ptr =>
      let ptr := skip_spaces (tail ptr) in
      (** [strcpy] into [char session_id[1024]] *)
      if negb (zlen ptr <? 1024) then None else
      let r := r <| m_rtsp_session_id := trim_end (take_until [59; 10] ptr) |> in
      let r :=
        match strstr data (str "timeout") with
        | None => r
        | Some ptr =>
          match strchr ptr 61 with
          | None => r
          | Some ptr => r <| m_rtsp_timeout := s32 (strtol 0 (tail ptr)) |>
          end
        end in
      match strstr data (str "com.ses.streamID") with
      | None => Some (RTSP_ERROR, r)
      | Some ptr =>
        match strchr ptr 58 with
        | None => Some (RTSP_ERROR, r)
        | Some ptr =>
          Some (RTSP_RESPONSE_COMPLETE, r <| m_rtsp_stream_id := s32 (strtol 0 (tail ptr)) |>)
        end
      end
    end
  end.

Definition handleResponsePlay : rtsp_res := RTSP_RESPONSE_COMPLETE.
Definition handleResponseOption : rtsp_res := RTSP_RESPONSE_COMPLETE.
Definition handleResponseTeardown : rtsp_res := RTSP_RESPONSE_COMPLETE.
Definition handleResponseDescribe : rtsp_res := RTSP_RESPONSE_COMPLETE.

(** Behind the characters of a [%s]. *)
Fixpoint skip_word (s : text) : text :=
  match s with
  | b :: s' => if is_space b then s else skip_word s'
  | [] => []
  end.

(** [sscanf(m_rx_data, "RTSP/%*s %d", &res_code)]; the code keeps its value
    when the text does not match. *)
Definition scan_status (data : text) (res_code : Z) : Z :=
  if is_prefix (str "RTSP/") data then
    let s := skip_spaces (drop 5 data) in
    if bool_decide (skip_word s = s) then res_code
    else match scan_int (skip_word s) with Some (v, _) => v | None => res_code end
  else res_code.

(** The switch over the request that waits. *)
Definition dispatch_response (data : text) (res : rtsp_res) (r : satipRTSP) :
    option (rtsp_res * satipRTSP) :=
  match m_rtsp_request r with
  | RTSP_REQUEST_NONE | RTSP_REQUEST_DESCRIBE => Some (res, r)
  | RTSP_REQUEST_OPTION => Some (handleResponseOption, r)
  | RTSP_REQUEST_SETUP => handleResponseSetup data r
  | RTSP_REQUEST_PLAY => Some (handleResponsePlay, r)
  | RTSP_REQUEST_TEARDOWN => Some (handleResponseTeardown, r)
  end.

(** [memmove(m_rx_data, m_rx_data + n, m_rx_data_pos - n)] and the new
    position: the buffer behind the moved bytes keeps its content. *)
Definition consume (n : Z) (r : satipRTSP) : satipRTSP :=
  let left := m_rx_data_pos r - n in
  r <| m_rx_data := take (Z.to_nat left) (ptr_add (m_rx_data r) n)
                    ++ ptr_add (m_rx_data r) left |>
    <| m_rx_data_pos := left |>.

(** [m_rx_data[m_rx_data_pos] = 0]. *)
Definition terminate (r : satipRTSP) : option satipRTSP :=
  if (0 <=? m_rx_data_pos r) && (m_rx_data_pos r <? zlen (m_rx_data r)) then
    Some (r <| m_rx_data := <[Z.to_nat (m_rx_data_pos r) := x00]> (m_rx_data r) |>)
  else None.

(** An interleaved frame of [len2] bytes at the start of the buffer. *)
Definition take_frame (e : env) (len2 : Z) (c : client) : option client :=
  let c := on_rtsp (startTimerResetConnect (env_now e) 4000) c in
  d ← rtpTcpData (c_rtp c) (c_psi c) (Some (c_cfg c)) (m_rx_data (c_rtsp c)) len2
        (env_stats_time e) (env_stats_time e);
  Some (on_rtsp (consume len2)
    (c <| c_rtp := dl_rtp d |> <| c_psi := dl_psi d |>
       <| c_cfg := default (c_cfg c) (dl_cfg d) |>
       <| c_device := c_device c ++ dl_device d |>)).

(** A response whose header ends [hdr] bytes into the buffer; [inr] is a
    return, [inl] the code behind [complete:]. *)
Definition take_response (e : env) (data : text) (res : rtsp_res) (res_code : Z) (c : client) :
    option ((rtsp_res * Z * client) + (rtsp_res * client)) :=
  let c := on_rtsp (fun r => r <| m_wait_response := false |>) c in
  if bool_decide (m_rtsp_request (c_rtsp c) = RTSP_REQUEST_DESCRIBE) then
    Some (inl (handleResponseDescribe, res_code, on_rtsp stopTimerResetConnect c))
  else
    let res_code := scan_status data res_code in
    '(res, r) ← (if negb (res_code =? 200)
                 then Some (RTSP_ERROR, (c_rtsp c) <| m_rx_data_pos := 0 |>)
                 else dispatch_response data res (c_rtsp c));
    let c := c <| c_rtsp := r |> in
    Some (if bool_decide (res = RTSP_ERROR) then inr (res, resetConnect (env_now e) true c)
          else if bool_decide (res = RTSP_RESPONSE_COMPLETE)
          then inl (res, res_code, on_rtsp stopTimerResetConnect c)
          else inl (res, res_code, c)).

(** The code from [again:] on. Every round that does not return consumes at
    least four bytes; [exhausted] is the result when the fuel is used up, which
    RtspProps.receive_loops_end shows does not happen. *)
Fixpoint again (exhausted : option (rtsp_res * client)) (fuel : nat) (e : env) (res : rtsp_res)
    (res_code : Z) (c : client) : option (rtsp_res * client) :=
  match fuel with
  | O => exhausted
  | S fuel =>
    let r := c_rtsp c in
    b0 ← rd (m_rx_data r) 0;
    if b0 =? 36 then
      if negb (isTcpData (c_cfg c)) then Some (RTSP_ERROR, c)
      else if m_rx_data_pos r <? 4 then Some (RTSP_OK, c)
      else
        b2 ← rd (m_rx_data r) 2;
        b3 ← rd (m_rx_data r) 3;
        let len2 := 4 + be16 b2 b3 in
        if m_rx_data_pos r <? len2 then Some (RTSP_OK, c)
        else c ← take_frame e len2 c; again exhausted fuel e res res_code c
    else
      r ← terminate r;
      let c := c <| c_rtsp := r |> in
      let data := c_str (m_rx_data r) in
      match strstr data (crlf ++ crlf) with
      | None => Some (RTSP_OK, c)
      | Some s =>
        let hdr := zlen data - zlen s + 4 in
        next ← take_response e data res res_code c;
        match next with
        | inr ret => Some ret
        | inl (res, res_code, c) =>
          let c := on_rtsp (fun r => (consume hdr r) <| m_rtsp_request := RTSP_REQUEST_NONE |>) c in
          if 0 <? m_rx_data_pos (c_rtsp c) then again exhausted fuel e res res_code c else Some (res, c)
        end
      end
  end.

(** [recv] into the buffer at [m_rx_data_pos]. *)
Definition store (data : list byte) (r : satipRTSP) : option satipRTSP :=
  if (0 <=? m_rx_data_pos r) && (m_rx_data_pos r + zlen data <=? zlen (m_rx_data r)) then
    Some (r <| m_rx_data := take (Z.to_nat (m_rx_data_pos r)) (m_rx_data r) ++ data
                            ++ ptr_add (m_rx_data r) (m_rx_data_pos r + zlen data) |>)
  else None.

Definition handleResponse (e : env) (c : client) : option (rtsp_res * client) :=
  let r := c_rtsp c in
  let len := m_rx_data_len r - m_rx_data_pos r - 1 in
  if len =? 0 then Some (RTSP_ERROR, on_rtsp (fun r => r <| m_rx_data_pos := 0 |>) c)
  else
    match env_recv e with
    | Closed => Some (RTSP_ERROR, c)
    | RecvError =>
        let r := r <| m_rx_data_pos := m_rx_data_pos r - 1 |> in
        again None (S (Z.to_nat (m_rx_data_pos r))) e RTSP_ERROR 0 (c <| c_rtsp := r |>)
    | Received data =>
        r ← store data r;
        let r := r <| m_rx_data_pos := m_rx_data_pos r + zlen data |> in
        again None (S (Z.to_nat (m_rx_data_pos r))) e RTSP_ERROR 0 (c <| c_rtsp := r |>)
    end.

(** ** Poll events *)

(** The bits of a [short events] that the code uses. *)
Record poll_events := Events {
  POLLIN : bool;
  POLLOUT : bool;
  POLLHUP : bool;
  POLLERR : bool;
  POLLNVAL : bool
}.

Definition no_events : poll_events := Events false false false false false.
Definition in_events : poll_events := Events true false true true true.
Definition out_events : poll_events := Events false true true true true.

Definition getPollEvent (c : client) : poll_events :=
  match m_rtsp_status (c_rtsp c) with
  | RTSP_STATUS_CONFIG_WAITING => if isTcpData (c_cfg c) then in_events else no_events
  | RTSP_STATUS_SERVER_CONNECTING => out_events
  | RTSP_STATUS_SESSION_ESTABLISHING => in_events
  | RTSP_STATUS_SESSION_PLAYING => in_events
  | RTSP_STATUS_SESSION_TRANSMITTING =>
      if bool_decide (m_rtsp_request (c_rtsp c) = RTSP_REQUEST_OPTION) || isTcpData (c_cfg c)
      then in_events else no_events
  | RTSP_STATUS_SESSION_TEARDOWNING => in_events
  end.

Definition handlePollEvents (e : env) (events : poll_events) (c : client) : option client :=
  if POLLHUP events || POLLERR events || POLLNVAL events then
    Some (resetConnect (env_now e) true c)
  else
    match m_rtsp_status (c_rtsp c) with
    | RTSP_STATUS_CONFIG_WAITING => Some c
    | RTSP_STATUS_SERVER_CONNECTING =>
        Some (if POLLOUT events
              then on_rtsp (fun r => set_status RTSP_STATUS_SESSION_ESTABLISHING
                                       (stopTimerResetConnect r)) c
              else c)
    | RTSP_STATUS_SESSION_ESTABLISHING =>
        if POLLIN events then
          '(res, c) ← handleResponse e c;
          Some (if bool_decide (res = RTSP_RESPONSE_COMPLETE)
                then on_rtsp (set_status RTSP_STATUS_SESSION_PLAYING) c else c)
        else Some c
    | RTSP_STATUS_SESSION_PLAYING =>
        if POLLIN events then
          '(res, c) ← handleResponse e c;
          Some (if bool_decide (res = RTSP_RESPONSE_COMPLETE)
                then on_rtsp (fun r => resetReconnectBackoff (stopTimerReconnect
                                (set_status RTSP_STATUS_SESSION_TRANSMITTING r))) c
                else c)
        else Some c
    | RTSP_STATUS_SESSION_TRANSMITTING =>
        if POLLIN events then '(_, c) ← handleResponse e c; Some c else Some c
    | RTSP_STATUS_SESSION_TEARDOWNING =>
        if POLLIN events then
          '(res, c) ← handleResponse e c;
          Some (if bool_decide (res = RTSP_RESPONSE_COMPLETE)
                then resetConnect (env_now e) false c else c)
        else Some c
    end.
End Responses.
