(* ===== verification/RtspInv.v ===== *)
(** The invariant of the RTSP client: what holds between any two calls of its
    methods, whatever the system and the server answer. *)

From S2P Require Import Prelude Crc Psi CText OptParser Dvb Timer Config ConfigText Tuner Rtp Rtsp.

(** ** The invariant *)

(** Nothing of a session is left. *)
Record idle (r : satipRTSP) : Prop := {
  idle_fd : m_fd r = -1;
  idle_wait : m_wait_response r = false;
  idle_request : m_rtsp_request r = RTSP_REQUEST_NONE;
  idle_session : m_rtsp_session_id r = [] /\ m_rtsp_stream_id r = -1;
  idle_buffer : m_rx_data_pos r = 0;
  idle_timers : m_active (m_timer_reset_connect r) = false /\
                m_active (m_timer_keep_alive r) = false;
  idle_cseq : m_rtsp_cseq r = 1
}.

Definition one_shot (t : timer_elem) : Prop := m_active t = true -> m_single t = true.

Record rtsp_inv (r : satipRTSP) (channel : t_channel_status) : Prop := {
  inv_buffer : zlen (m_rx_data r) = m_rx_data_len r /\ 0 <= m_rx_data_pos r < m_rx_data_len r;
  inv_one_shot : one_shot (m_timer_reset_connect r) /\ one_shot (m_timer_keep_alive r) /\
                 one_shot (m_timer_reconnect r);
  (** whatever the client waits for is watched *)
  inv_watchdog : m_wait_response r = true -> m_active (m_timer_reset_connect r) = true;
  inv_connecting : m_rtsp_status r = RTSP_STATUS_SERVER_CONNECTING ->
                   m_active (m_timer_reset_connect r) = true /\ m_wait_response r = false /\
                   m_active (m_timer_keep_alive r) = false;
  inv_idle : m_rtsp_status r = RTSP_STATUS_CONFIG_WAITING -> idle r;
  inv_backoff : 0 <= m_reconnect_attempts r <= 5;
  (** a lost session will be retried *)
  inv_retry : m_rtsp_status r = RTSP_STATUS_CONFIG_WAITING ->
              channel = CONFIG_STATUS_CHANNEL_STABLE -> m_active (m_timer_reconnect r) = true;
  inv_teardown : m_rtsp_status r = RTSP_STATUS_SESSION_TEARDOWNING ->
                 channel <> CONFIG_STATUS_CHANNEL_STABLE
}.

Record client_inv (c : client) : Prop := {
  ci_rtsp : rtsp_inv (c_rtsp c) (m_status (c_cfg c));
  ci_tuner : tuner_wf (c_cfg c) (c_psi c)
}.

(** ** The backoff *)

Lemma reconnect_delay_spec n : 0 <= n <= 5 ->
  reconnect_delay n = Z.min (1000 * 2 ^ n) 30000 /\ (reconnect_delay n < 30000 <-> n < 5).
Proof.
  intros Hn. assert (n = 0 \/ n = 1 \/ n = 2 \/ n = 3 \/ n = 4 \/ n = 5) as Hcase by lia.
  by repeat destruct Hcase as [->|Hcase]; [..|subst n].
Qed.

Lemma startTimerReconnect_spec now r : 0 <= m_reconnect_attempts r <= 5 ->
  let r' := startTimerReconnect now r in
  m_timer_reconnect r'
  = start now (m_timer_reconnect r) (Z.min (1000 * 2 ^ m_reconnect_attempts r) 30000) true /\
  m_reconnect_attempts r' = Z.min 5 (m_reconnect_attempts r + 1).
Proof.
  intros Hn. unfold startTimerReconnect.
  destruct (reconnect_delay_spec _ Hn) as [<- Hlt]. destruct (Z.ltb_spec (reconnect_delay (m_reconnect_attempts r)) 30000); cbn; (split; [done|lia]).
Qed.

(** ** Connections are dropped cleanly *)

Lemma stop_one_shot t : one_shot (stop t).
Proof. done. Qed.

Lemma start_one_shot now t msec : one_shot (start now t msec true).
Proof. done. Qed.

Lemma clearChannelChanged_status c :
  m_status (clearChannelChanged c)
  = if bool_decide (m_status c = CONFIG_STATUS_CHANNEL_CHANGED) then CONFIG_STATUS_CHANNEL_STABLE
    else m_status c.
Proof. unfold clearChannelChanged. by case_bool_decide. Qed.

Lemma disconnect_idle r : idle (disconnect r).
Proof. by constructor. Qed.

(** A session that ended, with the reconnect timer as it should be. *)
Lemma disconnected_inv (r q : satipRTSP) channel :
  zlen (m_rx_data r) = m_rx_data_len r -> 0 < m_rx_data_len r ->
  m_rx_data q = m_rx_data r -> m_rx_data_len q = m_rx_data_len r ->
  m_rtsp_status q = RTSP_STATUS_CONFIG_WAITING -> idle q ->
  one_shot (m_timer_reconnect q) -> 0 <= m_reconnect_attempts q <= 5 ->
  (channel = CONFIG_STATUS_CHANNEL_STABLE -> m_active (m_timer_reconnect q) = true) ->
  rtsp_inv q channel.
Proof.
  intros Hb Hpos Hd Hl Hs Hidle Hone Hatt Hretry. pose proof Hidle as [_ Hw _ _ Hp [Hr Hk]].
  constructor; rewrite ?Hd, ?Hl, ?Hp, ?Hw, ?Hs; try done.
  split_and!; [by unfold one_shot; rewrite Hr|by unfold one_shot; rewrite Hk|done].
Qed.

Definition buffer_ok (r : satipRTSP) : Prop :=
  zlen (m_rx_data r) = m_rx_data_len r /\ 0 < m_rx_data_len r.

Lemma resetConnect_inv now auto c :
  buffer_ok (c_rtsp c) -> 0 <= m_reconnect_attempts (c_rtsp c) <= 5 ->
  (auto = false -> m_status (c_cfg c) <> CONFIG_STATUS_CHANNEL_STABLE) ->
  tuner_wf (c_cfg c) (c_psi c) -> client_inv (resetConnect now auto c).
Proof.
  intros [Hb Hpos] Hatt Hst Hwf. unfold resetConnect, getChannelStatus.
  set (c1 := on_rtsp disconnect c). change (c_cfg c1) with (c_cfg c).
  assert (forall channel, channel <> CONFIG_STATUS_CHANNEL_STABLE ->
    rtsp_inv (resetReconnectBackoff (stopTimerReconnect (disconnect (c_rtsp c)))) channel) as Hoff.
  { intros channel Hch. by apply (disconnected_inv (c_rtsp c)). }
  destruct (negb auto || bool_decide (m_status (c_cfg c) = CONFIG_STATUS_CHANNEL_INVALID)) eqn:E1.
  { constructor; [|done]. apply Hoff. destruct auto; [|by apply Hst].
    cbn in E1. apply bool_decide_eq_true in E1.
    change (m_status (c_cfg c) <> CONFIG_STATUS_CHANNEL_STABLE). by rewrite E1. }
  destruct (bool_decide (m_status (c_cfg c) = CONFIG_STATUS_CHANNEL_CHANGED) && _) eqn:E2.
  { constructor; [|done]. apply Hoff. apply andb_true_iff in E2 as [E2 _].
    apply bool_decide_eq_true in E2.
    change (m_status (c_cfg c) <> CONFIG_STATUS_CHANNEL_STABLE). by rewrite E2. }
  constructor.
  - destruct (startTimerReconnect_spec now (disconnect (c_rtsp c)) Hatt) as [Ht Ha].
    change (m_reconnect_attempts (disconnect (c_rtsp c)))
      with (m_reconnect_attempts (c_rtsp c)) in *.
    set (r := startTimerReconnect now (disconnect (c_rtsp c))) in *.
    assert (m_rx_data r = m_rx_data (c_rtsp c) /\ m_rx_data_len r = m_rx_data_len (c_rtsp c) /\
            m_rtsp_status r = RTSP_STATUS_CONFIG_WAITING /\ idle r) as (Hd & Hl & Hs & Hi).
    { subst r. unfold startTimerReconnect. by destruct (_ <? 30000). }
    apply (disconnected_inv (c_rtsp c) r); try done; [by rewrite Ht|lia|by rewrite Ht].
  - cbn. eapply same_pids_wf; [apply clearChannelChanged_same|done].
Qed.

Lemma clearChannelChanged_woken c : woken c (clearChannelChanged c).
Proof. unfold clearChannelChanged. case_bool_decide; [by apply woken_same|done]. Qed.

Lemma resetConnect_woken now auto c : woken (c_cfg c) (c_cfg (resetConnect now auto c)).
Proof.
  unfold resetConnect. destruct (_ || _); [done|]. destruct (_ && _); [done|].
  apply clearChannelChanged_woken.
Qed.

(** ** Requests *)

Definition connected (r : satipRTSP) : Prop :=
  m_rtsp_status r <> RTSP_STATUS_CONFIG_WAITING /\ m_rtsp_status r <> RTSP_STATUS_SERVER_CONNECTING.

Lemma rtsp_inv_buffer_ok r channel : rtsp_inv r channel -> buffer_ok r.
Proof. intros Hi. destruct (inv_buffer _ _ Hi). split; [done|lia]. Qed.

Lemma client_inv_reset now c : client_inv c -> client_inv (resetConnect now true c).
Proof.
  intros [Hi Hwf]. apply resetConnect_inv; [by eapply rtsp_inv_buffer_ok|apply Hi|done|done].
Qed.

Section Requests.
Context `{DvbConstants}.

(** What sending a request does to the client, apart from the log. *)
Record sends (c d : client) (request : rtsp_request) : Prop := {
  sends_rtsp : c_rtsp d = c_rtsp c \/ c_rtsp d = next_cseq (c_rtsp c);
  sends_psi : c_psi d = c_psi c;
  sends_wf : tuner_wf (c_cfg c) (c_psi c) -> tuner_wf (c_cfg d) (c_psi c);
  sends_status : request <> RTSP_REQUEST_SETUP -> request <> RTSP_REQUEST_PLAY ->
                 m_status (c_cfg d) = m_status (c_cfg c)
}.

Lemma getSetupData_wf c psi : tuner_wf c psi -> tuner_wf (getSetupData c).2 psi.
Proof.
  intros Hwf. destruct (getSetupData_told c (tw_slots _ _ Hwf)) as [Ht Hst].
  set (d := (getSetupData c).2) in *.
  assert (tuner_wf (c <| m_status := m_status d |>) psi) as Hwf1 by by apply same_pids_wf with c.
  by apply (told_tuner_wf _ d psi Hwf1).
Qed.

Lemma getPlayData_wf c psi : tuner_wf c psi -> tuner_wf (getPlayData c).2 psi.
Proof.
  intros Hwf. unfold getPlayData. pose proof (retune_wf _ _ Hwf) as Hwf1.
  destruct (retune c) as [tuning c1]. cbn [snd] in Hwf1. case_bool_decide; [|done].
  pose proof (play_pids_told c1) as Ht. pose proof (play_pids_stationary c1 (tw_slots _ _ Hwf1)).
  destruct (play_pids c1) as [pids d]. cbn [snd] in *. by apply (told_tuner_wf c1).
Qed.

Lemma send_method_sends e request c : sends c (send_method e request c).2 request.
Proof.
  destruct request; cbn [send_method].
  - by constructor; [left|..].
  - unfold sendOption. destruct (no_session _); by constructor; [(by left) || (by right)|..].
  - unfold sendSetup. pose proof (getSetupData_wf (c_cfg c) (c_psi c)) as Hwf.
    destruct (getSetupData (c_cfg c)) as [data cfg]. by constructor; [right|..].
  - unfold sendPlay. pose proof (getPlayData_wf (c_cfg c) (c_psi c)) as Hwf.
    destruct (no_session _); [by constructor; [left|..]|].
    destruct (getPlayData (c_cfg c)) as [data cfg]. by constructor; [right|..].
  - unfold sendTearDown. destruct (no_session _); by constructor; [(by left) || (by right)|..].
  - by constructor; [right|..].
Qed.

(** A request from a state with a connection. *)
Lemma sendRequest_inv e request c :
  client_inv c -> connected (c_rtsp c) ->
  (m_rtsp_status (c_rtsp c) = RTSP_STATUS_SESSION_TEARDOWNING ->
   request <> RTSP_REQUEST_SETUP /\ request <> RTSP_REQUEST_PLAY) ->
  let r := sendRequest e request c in
  client_inv r.2 /\
  (r.1 = RTSP_OK -> m_rtsp_status (c_rtsp r.2) = m_rtsp_status (c_rtsp c) /\
                    m_status (c_cfg r.2) = m_status (c_cfg (send_method e request
                                             (on_rtsp stopTimerKeepAliveMessage c)).2)).
Proof.
  intros [Hi Hwf] [Hnw Hnc] Htd r. subst r. unfold sendRequest.
  destruct (m_wait_response (c_rtsp c)); [by split|].
  set (c1 := on_rtsp stopTimerKeepAliveMessage c).
  destruct (send_method_sends e request c1) as [Hr Hpsi Hcfg Hch].
  destruct (send_method e request c1) as [res c2]. cbn [fst snd] in *.
  assert (tuner_wf (c_cfg c2) (c_psi c2)) as Hwf2 by (rewrite Hpsi; by apply Hcfg).
  assert (m_rtsp_status (c_rtsp c2) = m_rtsp_status (c_rtsp c) /\
          m_rx_data (c_rtsp c2) = m_rx_data (c_rtsp c) /\
          m_rx_data_len (c_rtsp c2) = m_rx_data_len (c_rtsp c) /\
          m_rx_data_pos (c_rtsp c2) = m_rx_data_pos (c_rtsp c) /\
          m_reconnect_attempts (c_rtsp c2) = m_reconnect_attempts (c_rtsp c) /\
          m_timer_keep_alive (c_rtsp c2) = stop (m_timer_keep_alive (c_rtsp c)) /\
          m_timer_reconnect (c_rtsp c2) = m_timer_reconnect (c_rtsp c))
    as (Hs & Hd & Hl & Hp & Ha & Hk & Hrc) by (by destruct Hr as [->| ->]).
  destruct Hi as [Hbuf (_ & _ & H1) _ _ _ Hb _ Ht]. case_bool_decide as Hres.
  - split; [|done]. constructor; [|done].
    constructor; cbn; rewrite ?Hs, ?Hd, ?Hl, ?Hp, ?Ha; try done.
    + split_and!; [done|by rewrite Hk|by rewrite Hrc].
    + intros Heq. destruct (Htd Heq) as [H2 H3]. rewrite (Hch H2 H3). by apply Ht.
  - split; [|done]. apply resetConnect_inv; [|by rewrite Ha|done|done].
    unfold buffer_ok. rewrite Hd, Hl. split; [apply Hbuf|lia].
Qed.
End Requests.

(** ** Frames *)

Lemma tuner_wf_ca c d p q :
  tuner_wf c (Some p) -> ca_step c d -> linked d q (active (m_pid_list c)) -> tuner_wf d (Some q).
Proof. intros [? ? _ ?] Hstep Hlink. by apply tuner_wf_ca_step with c. Qed.

Section Frames.
Context `{LongWidth}.

(** What data for the parser may change. *)
Definition tuner_step (cfg : satipConfig) (d : delivery) : Prop :=
  tuner_wf (default cfg (dl_cfg d)) (dl_psi d) /\ ca_step cfg (default cfg (dl_cfg d)).

Lemma tap_tuner psi cfg data len t0 t1 :
  tuner_wf cfg psi -> len <= zlen data ->
  returns (tap psi (Some cfg) data len t0 t1) (fun r =>
    forall rtp out, tuner_step cfg (Deliver rtp r.1 r.2 out)).
Proof.
  intros Hwf Hlen. destruct psi as [p|]; cbn [tap].
  2: { intros rtp out. split; [exact Hwf|apply ca_step_refl]. }
  destruct (processTS_linked cfg p _ _ _ t0 t1 (tw_psi _ _ Hwf) Hlen)
    as (q & c' & -> & Hstep & Hlink).
  intros rtp out. split; [by apply tuner_wf_ca with cfg p|exact Hstep].
Qed.

Lemma rtpTcpData_tuner rtp psi cfg data size t0 t1 d :
  tuner_wf cfg psi -> size <= zlen data ->
  rtpTcpData rtp psi (Some cfg) data size t0 t1 = Some d -> tuner_step cfg d.
Proof.
  intros Hwf Hsize Hd. assert (forall r out, tuner_step cfg (Deliver r psi (Some cfg) out)) as Hsame.
  { intros r out. split; [exact Hwf|apply ca_step_refl]. }
  unfold rtpTcpData in Hd. destruct (Z.leb_spec size (4 + 12)); [by injection Hd as <-|].
  destruct (rd data 1) as [ch|]; [|done]. cbn [mbind option_bind] in Hd.
  destruct (ch =? 0).
  - destruct (rd_range data 16 (size - 4 - 12)) as [out|]; [|done]. cbn [mbind option_bind] in Hd.
    assert (size - 4 - 12 <= zlen (ptr_add data 16)) as Hlen by (rewrite zlen_ptr_add; lia).
    pose proof (tap_tuner psi cfg _ _ t0 t1 Hwf Hlen) as Ht.
    destruct (tap _ _ _ _ _ _) as [[psi' cfg']|]; [|done]. cbn [mbind option_bind] in Hd.
    injection Hd as <-. apply Ht.
  - destruct (ch =? 1); [|by injection Hd as <-].
    destruct (rtcpData _ _ _); [|done]. by injection Hd as <-.
Qed.

(** The same for a datagram of the rtp thread. *)
Lemma rtp_datagram_tuner rtp psi cfg data n t0 t1 d :
  tuner_wf cfg psi -> n <= zlen data ->
  rtp_datagram rtp psi (Some cfg) data n t0 t1 = Some d -> tuner_step cfg d.
Proof.
  intros Hwf Hsize Hd. assert (forall out, tuner_step cfg (Deliver rtp psi (Some cfg) out)) as Hsame.
  { intros out. split; [exact Hwf|apply ca_step_refl]. }
  unfold rtp_datagram in Hd. destruct (Z.ltb_spec 12 n); [|by injection Hd as <-].
  destruct (rd data 12) as [b|]; [|done]. cbn [mbind option_bind] in Hd.
  destruct (b =? 71); [|by injection Hd as <-].
  destruct (rd_range data 12 (n - 12)) as [out|]; [|done]. cbn [mbind option_bind] in Hd.
  assert (n - 12 <= zlen (ptr_add data 12)) as Hlen by (rewrite zlen_ptr_add; lia).
  pose proof (tap_tuner psi cfg _ _ t0 t1 Hwf Hlen) as Ht.
  destruct (tap _ _ _ _ _ _) as [[psi' cfg']|]; [|done]. cbn [mbind option_bind] in Hd.
  injection Hd as <-. apply Ht.
Qed.

(** The buffer after bytes were taken from its start. *)
Lemma consume_buffer n r :
  zlen (m_rx_data r) = m_rx_data_len r -> 0 <= n <= m_rx_data_pos r ->
  m_rx_data_pos r < m_rx_data_len r ->
  zlen (m_rx_data (consume n r)) = m_rx_data_len r /\
  0 <= m_rx_data_pos (consume n r) < m_rx_data_len r.
Proof.
  intros Hl Hn Hp. cbn. rewrite zlen_app, zlen_take by (rewrite zlen_ptr_add; lia).
  rewrite zlen_ptr_add by lia. lia.
Qed.

(** Changes of the buffer, the request and the reset timer of a client whose
    response came. *)
Lemma rtsp_inv_change r q channel :
  rtsp_inv r channel ->
  zlen (m_rx_data q) = m_rx_data_len q -> 0 <= m_rx_data_pos q < m_rx_data_len q ->
  one_shot (m_timer_reset_connect q) ->
  (m_wait_response q = true -> m_active (m_timer_reset_connect q) = true) ->
  m_rtsp_status q = m_rtsp_status r ->
  m_rtsp_status r <> RTSP_STATUS_CONFIG_WAITING ->
  m_rtsp_status r <> RTSP_STATUS_SERVER_CONNECTING ->
  m_reconnect_attempts q = m_reconnect_attempts r ->
  m_timer_reconnect q = m_timer_reconnect r -> m_timer_keep_alive q = m_timer_keep_alive r ->
  rtsp_inv q channel.
Proof.
  intros [_ (_ & Hk & Hr) _ _ _ Hb _ Ht] Hlen Hpos H1 Hw Hs Hnw Hnc Ha Htr Htk.
  constructor; rewrite ?Hs, ?Ha, ?Htr, ?Htk; try done.
Qed.
End Frames.

(** ** Responses *)

Section Responses.
Context `{LongWidth}.

Lemma take_frame_inv e len2 c d :
  client_inv c -> connected (c_rtsp c) -> 0 <= len2 <= m_rx_data_pos (c_rtsp c) ->
  take_frame e len2 c = Some d ->
  client_inv d /\ m_rtsp_status (c_rtsp d) = m_rtsp_status (c_rtsp c) /\
  woken (c_cfg c) (c_cfg d).
Proof.
  intros [Hi Hwf] [Hw Hc] Hlen Hd. unfold take_frame in Hd.
  set (c1 := on_rtsp (startTimerResetConnect (env_now e) 4000) c) in *.
  destruct (inv_buffer _ _ Hi) as [Hbuf Hpos].
  destruct (rtpTcpData _ _ _ _ _ _ _) as [dl|] eqn:Hdl; [|done]. cbn [mbind option_bind] in Hd.
  assert (len2 <= zlen (m_rx_data (c_rtsp c1))) as Hsize by (cbn; lia).
  destruct (rtpTcpData_tuner _ _ _ _ _ _ _ _ Hwf Hsize Hdl) as [Hwf' Hst].
  injection Hd as <-. split; [|split; [done|apply Hst]]. constructor; [|exact Hwf'].
  change (m_status (c_cfg _)) with (m_status (default (c_cfg c) (dl_cfg dl))).
  rewrite (ca_status _ _ Hst).
  destruct (consume_buffer len2 (c_rtsp c) Hbuf Hlen) as [Hb Hp]; [lia|].
  by apply (rtsp_inv_change (c_rtsp c)).
Qed.

(** Handling a response touches the session's data only. *)
Lemma dispatch_response_same data res r res' r' :
  dispatch_response data res r = Some (res', r') ->
  exists id timeout stream, r' = r <| m_rtsp_session_id := id |> <| m_rtsp_timeout := timeout |>
                                   <| m_rtsp_stream_id := stream |>.
Proof.
  assert (forall s : satipRTSP, exists id timeout stream,
    s = s <| m_rtsp_session_id := id |> <| m_rtsp_timeout := timeout |>
          <| m_rtsp_stream_id := stream |>) as Hrefl.
  { intros s. exists (m_rtsp_session_id s), (m_rtsp_timeout s), (m_rtsp_stream_id s). by destruct s. }
  unfold dispatch_response. intros Hd. destruct (m_rtsp_request r);
    [injection Hd as <- <-; apply Hrefl..| |injection Hd as <- <-; apply Hrefl
    |injection Hd as <- <-; apply Hrefl|injection Hd as <- <-; apply Hrefl].
  unfold handleResponseSetup in Hd.
  destruct (strstr data (str "Session")) as [p|]; [|injection Hd as <- <-; apply Hrefl].
  destruct (strchr p 58) as [p1|]; [|injection Hd as <- <-; apply Hrefl].
  destruct (negb _); [done|]. set (id := trim_end _) in Hd.
  set (r1 := r <| m_rtsp_session_id := id |>) in Hd.
  assert (exists t, (match strstr data (str "timeout") with
    | None => r1
    | Some ptr => match strchr ptr 61 with
                  | None => r1
                  | Some ptr => r1 <| m_rtsp_timeout := s32 (strtol 0 (tail ptr)) |>
                  end
    end) = r1 <| m_rtsp_timeout := t |>) as [t Ht].
  { destruct (strstr data (str "timeout")) as [p2|]; [destruct (strchr p2 61)|];
      first [by eexists|exists (m_rtsp_timeout r); clear Hd; subst r1; by destruct r]. }
  rewrite Ht in Hd.
  destruct (strstr data (str "com.ses.streamID")) as [p3|];
    [destruct (strchr p3 58) as [p4|]|]; injection Hd as <- <-;
    first [by eexists _, _, _|exists id, t, (m_rtsp_stream_id r); subst r1; clear; by destruct r].
Qed.

Lemma take_response_inv e data res res_code c out :
  client_inv c -> connected (c_rtsp c) ->
  take_response e data res res_code c = Some out ->
  match out with
  | inr ret => client_inv ret.2 /\ ret.1 = RTSP_ERROR /\ woken (c_cfg c) (c_cfg ret.2)
  | inl (_, _, d) =>
      client_inv d /\ m_rtsp_status (c_rtsp d) = m_rtsp_status (c_rtsp c) /\
      m_rx_data_pos (c_rtsp d) = m_rx_data_pos (c_rtsp c) /\ m_wait_response (c_rtsp d) = false /\
      c_cfg d = c_cfg c
  end.
Proof.
  intros [Hi Hwf] [Hw Hc] Hd. unfold take_response in Hd.
  set (c1 := on_rtsp _ c) in Hd.
  assert (forall r : satipRTSP, woken (c_cfg c) (c_cfg (resetConnect (env_now e) true (c1 <| c_rtsp := r |>))))
    as Hreset by (intros r; etrans; [|apply resetConnect_woken]; done). destruct (inv_buffer _ _ Hi) as [Hbuf Hpos].
  assert (forall q, m_rx_data q = m_rx_data (c_rtsp c) -> m_rx_data_len q = m_rx_data_len (c_rtsp c) ->
    m_rx_data_pos q = m_rx_data_pos (c_rtsp c) ->
    (m_timer_reset_connect q = m_timer_reset_connect (c_rtsp c) \/
     m_timer_reset_connect q = stop (m_timer_reset_connect (c_rtsp c))) ->
    m_wait_response q = false -> m_rtsp_status q = m_rtsp_status (c_rtsp c) ->
    m_reconnect_attempts q = m_reconnect_attempts (c_rtsp c) ->
    m_timer_reconnect q = m_timer_reconnect (c_rtsp c) ->
    m_timer_keep_alive q = m_timer_keep_alive (c_rtsp c) ->
    client_inv (c <| c_rtsp := q |>)) as Hkeep.
  { intros q Hqd Hql Hqp Hqr Hqw Hqs Hqa Hqt Hqk. constructor; [|done].
    assert (one_shot (m_timer_reset_connect q)) by (destruct Hqr as [->| ->]; [apply Hi|done]).
    apply (rtsp_inv_change (c_rtsp c)); cbn; rewrite ?Hqd, ?Hql, ?Hqp, ?Hqw; done. }
  case_bool_decide.
  { injection Hd as <-. split; [|done]. by apply Hkeep; try done; right. }
  set (code := scan_status data res_code) in Hd. clearbody code.
  destruct (negb (code =? 200)).
  { cbn [mbind option_bind] in Hd. rewrite bool_decide_eq_true_2 in Hd by done.
    injection Hd as <-. split; [|split; [done|apply Hreset]].
    apply resetConnect_inv; [|apply Hi|done|done]. by split; [|cbn; lia]. }
  destruct (dispatch_response data res (c_rtsp c1)) as [[res' r']|] eqn:Hdisp; [|done].
  apply dispatch_response_same in Hdisp as (id & t & stream & ->).
  cbn [mbind option_bind] in Hd. injection Hd as <-. case_bool_decide.
  { split; [|split; [done|apply Hreset]].
    apply resetConnect_inv; [|apply Hi|done|done]. by split; [|cbn; lia]. }
  case_bool_decide; (split; [|done]).
  - apply Hkeep; try done. by right.
  - apply Hkeep; try done. by left.
Qed.

Lemma terminate_same r q : terminate r = Some q ->
  exists mem, q = r <| m_rx_data := mem |> /\ zlen mem = zlen (m_rx_data r) /\
    zlen (c_str mem) <= m_rx_data_pos r.
Proof.
  unfold terminate. destruct (_ && _) eqn:Hb; [|done]. bool_cases. intros [= <-].
  eexists. split; [done|]. split; [unfold zlen; by rewrite length_insert|].
  unfold zlen in *. set (i := Z.to_nat (m_rx_data_pos r)).
  assert (<[i := x00]> (m_rx_data r) !! i = Some x00) as Hz
    by (apply list_lookup_insert_eq; lia).
  apply c_str_bound in Hz. lia.
Qed.

Lemma terminate_inv c r :
  client_inv c -> connected (c_rtsp c) -> terminate (c_rtsp c) = Some r ->
  exists mem, r = (c_rtsp c) <| m_rx_data := mem |> /\ client_inv (c <| c_rtsp := r |>) /\
    zlen (c_str mem) <= m_rx_data_pos (c_rtsp c).
Proof.
  intros [Hi Hwf] Hcon Ht. apply terminate_same in Ht as (mem & -> & Hmem & Hstr).
  destruct (inv_buffer _ _ Hi) as [Hbuf Hpos]. exists mem. split; [done|]. split; [|done].
  constructor; [|done].
  apply (rtsp_inv_change (c_rtsp c)); try done; cbn; try apply Hi; try lia; apply Hcon.
Qed.

(** A response that does not end the call is taken off the buffer. *)
Lemma take_response_consumed e data res res_code c out s :
  client_inv c -> connected (c_rtsp c) ->
  strstr data (crlf ++ crlf) = Some s -> zlen data <= m_rx_data_pos (c_rtsp c) ->
  take_response e data res res_code c = Some out ->
  match out with
  | inr ret => client_inv ret.2 /\ ret.1 = RTSP_ERROR /\ woken (c_cfg c) (c_cfg ret.2)
  | inl (_, _, d) =>
      let hdr := zlen data - zlen s + 4 in
      let d := on_rtsp (fun r => (consume hdr r) <| m_rtsp_request := RTSP_REQUEST_NONE |>) d in
      client_inv d /\ connected (c_rtsp d) /\ m_rtsp_status (c_rtsp d) = m_rtsp_status (c_rtsp c) /\
      m_rx_data_pos (c_rtsp d) = m_rx_data_pos (c_rtsp c) - hdr /\ 4 <= hdr /\ c_cfg d = c_cfg c
  end.
Proof.
  intros Hinv Hcon Hs Hlen Hn. apply strstr_length in Hs. change (zlen (crlf ++ crlf)) with 4 in Hs.
  apply take_response_inv in Hn; [|done..]. destruct out as [[[res' code'] d]|ret]; [|exact Hn].
  destruct Hn as (Hd & Hst & Hp & Hw & Hcfg). cbv zeta.
  set (hdr := zlen data - zlen s + 4). set (d1 := on_rtsp _ d).
  assert (connected (c_rtsp d1)) as Hcon1
    by (unfold connected in *; change (m_rtsp_status (c_rtsp d1)) with (m_rtsp_status (c_rtsp d)); by rewrite Hst).
  split_and!; [|done|done|by rewrite <- Hp|pose proof (zlen_nonneg s); lia|done].
  destruct Hd as [Hi Hwf]. constructor; [|done]. destruct (inv_buffer _ _ Hi) as [Hb Hp2].
  assert (0 <= hdr <= m_rx_data_pos (c_rtsp d)) as Hh by (pose proof (zlen_nonneg s); lia).
  destruct (consume_buffer hdr (c_rtsp d) Hb Hh) as [Hb' Hp']; [lia|].
  apply (rtsp_inv_change (c_rtsp d)); try done; [apply Hi|cbn; by rewrite Hw|..];
    rewrite Hst; apply Hcon.
Qed.

(** What a round of [again] leaves. *)
Lemma again_inv e fuel : forall res res_code c out,
  client_inv c -> connected (c_rtsp c) ->
  again None fuel e res res_code c = Some out ->
  client_inv out.2 /\
  (out.1 = RTSP_RESPONSE_COMPLETE -> m_rtsp_status (c_rtsp out.2) = m_rtsp_status (c_rtsp c)) /\
  woken (c_cfg c) (c_cfg out.2).
Proof.
  induction fuel as [|fuel IH]; intros res res_code c out Hinv Hcon Hout; [done|].
  cbn [again] in Hout. destruct (rd _ 0) as [b0|]; [|done]. cbn [mbind option_bind] in Hout.
  destruct (b0 =? 36).
  - destruct (negb _); [by injection Hout as <-|].
    destruct (_ <? 4); [by injection Hout as <-|].
    destruct (rd _ 2) as [b2|] eqn:H2; [|done]. destruct (rd _ 3) as [b3|] eqn:H3; [|done].
    cbn [mbind option_bind] in Hout. apply rd_bounds in H2 as [_ H2], H3 as [_ H3].
    destruct (Z.ltb_spec (m_rx_data_pos (c_rtsp c)) (4 + be16 b2 b3)); [by injection Hout as <-|].
    destruct (take_frame e _ c) as [d|] eqn:Hd; [|done]. cbn [mbind option_bind] in Hout.
    assert (0 <= 4 + be16 b2 b3 <= m_rx_data_pos (c_rtsp c)) as Hlen
      by (rewrite be16_eq in * by done; lia).
    apply take_frame_inv in Hd as (Hd & Hs & Hwk); [|done..].
    apply IH in Hout as (Ho & Hst & Hwk'); [|done|unfold connected in *; by rewrite Hs].
    split; [done|]. split; [|by etrans]. intros Hc. rewrite Hst by done. done.
  - destruct (terminate (c_rtsp c)) as [r|] eqn:Ht; [|done]. cbn [mbind option_bind] in Hout.
    apply terminate_inv in Ht as (mem & -> & Hinv1 & Hstr); [|done..].
    change (m_rx_data (_ <| m_rx_data := mem |>)) with mem in Hout.
    destruct (strstr (c_str mem) (crlf ++ crlf)) as [s|] eqn:Hs; [|by injection Hout as <-].
    destruct (take_response _ _ _ _ _) as [next|] eqn:Hn; [|done]. cbn [mbind option_bind] in Hout.
    apply (take_response_consumed _ _ _ _ _ _ _ Hinv1 Hcon Hs Hstr) in Hn.
    destruct next as [[[res' code'] d]|ret].
    2: { injection Hout as <-. destruct Hn as (Hn & Hr & Hwk). split; [done|]. by rewrite Hr. }
    destruct Hn as (Hd & Hcon1 & Hst & _ & _ & Hcfg). set (d1 := on_rtsp _ d) in *.
    destruct (0 <? _).
    + apply IH in Hout as (Ho & Hst' & Hwk); [|done..].
      split; [done|]. split; [intros Hc; by rewrite Hst'|]. by rewrite Hcfg in Hwk.
    + injection Hout as <-. split; [done|]. split; [by intros _|].
      change (woken (c_cfg c) (c_cfg d1)). by rewrite Hcfg.
Qed.
End Responses.

(** ** The handlers *)

(** recv hands over at least one byte, and no more than there is room for; it
    fails only while the buffer holds something (see
    RtspTheorems.recv_error_underflow for an empty one). *)
Definition recv_ok (e : env) (r : satipRTSP) : Prop :=
  match env_recv e with
  | Received data => 0 < zlen data <= m_rx_data_len r - m_rx_data_pos r - 1
  | Closed => True
  | RecvError => 0 < m_rx_data_pos r
  end.

Section Handlers.
Context `{DvbConstants} `{LongWidth}.

Lemma store_buffer data r q :
  store data r = Some q ->
  exists mem, q = r <| m_rx_data := mem |> /\ zlen mem = zlen (m_rx_data r).
Proof.
  unfold store. destruct (_ && _) eqn:Hb; [|done]. bool_cases. intros [= <-].
  eexists. split; [done|]. pose proof (zlen_nonneg data).
  rewrite !zlen_app, zlen_take, zlen_ptr_add by lia. lia.
Qed.

(** What [handleResponse] does before its loop. *)
Lemma handleResponse_start e c out :
  client_inv c -> connected (c_rtsp c) -> recv_ok e (c_rtsp c) ->
  handleResponse e c = Some out ->
  exists mem pos,
    let c1 := c <| c_rtsp := (c_rtsp c) <| m_rx_data := mem |> <| m_rx_data_pos := pos |> |> in
    client_inv c1 /\
    (out = (RTSP_ERROR, c1) \/ again None (S (Z.to_nat pos)) e RTSP_ERROR 0 c1 = Some out).
Proof.
  intros Hinv Hcon Hrecv Hout. destruct (inv_buffer _ _ (ci_rtsp _ Hinv)) as [Hbuf Hpos].
  pose proof Hinv as [Hi Hwf].
  assert (forall mem pos, zlen mem = m_rx_data_len (c_rtsp c) -> 0 <= pos < m_rx_data_len (c_rtsp c) ->
    client_inv (c <| c_rtsp := (c_rtsp c) <| m_rx_data := mem |> <| m_rx_data_pos := pos |> |>)) as Hch.
  { intros mem pos Hm Hp. constructor; [|done].
    apply (rtsp_inv_change (c_rtsp c)); try done; try apply Hi; apply Hcon. }
  unfold handleResponse in Hout. destruct (_ =? 0).
  { injection Hout as <-. exists (m_rx_data (c_rtsp c)), 0. split; [apply Hch; lia|by left]. }
  unfold recv_ok in Hrecv. destruct (env_recv e) as [data| |].
  - destruct (store data (c_rtsp c)) as [r|] eqn:Hst; [|done]. cbn [mbind option_bind] in Hout.
    apply store_buffer in Hst as (mem & -> & Hmem).
    exists mem, (m_rx_data_pos (c_rtsp c) + zlen data). split; [apply Hch; lia|]. right. exact Hout.
  - injection Hout as <-. exists (m_rx_data (c_rtsp c)), (m_rx_data_pos (c_rtsp c)).
    split; [apply Hch; lia|left]. by destruct c as [[]].
  - exists (m_rx_data (c_rtsp c)), (m_rx_data_pos (c_rtsp c) - 1). split; [apply Hch; lia|right].
    exact Hout.
Qed.

Lemma handleResponse_inv e c out :
  client_inv c -> connected (c_rtsp c) -> recv_ok e (c_rtsp c) ->
  handleResponse e c = Some out ->
  client_inv out.2 /\
  (out.1 = RTSP_RESPONSE_COMPLETE -> m_rtsp_status (c_rtsp out.2) = m_rtsp_status (c_rtsp c)) /\
  woken (c_cfg c) (c_cfg out.2).
Proof.
  intros Hinv Hcon Hrecv Hout.
  destruct (handleResponse_start e c out Hinv Hcon Hrecv Hout) as (mem & pos & Hinv1 & [->|Hagain]); [done|].
  by apply again_inv in Hagain.
Qed.

Lemma set_status_inv s c :
  client_inv c ->
  s <> RTSP_STATUS_CONFIG_WAITING -> s <> RTSP_STATUS_SERVER_CONNECTING ->
  (s = RTSP_STATUS_SESSION_TEARDOWNING -> m_status (c_cfg c) <> CONFIG_STATUS_CHANNEL_STABLE) ->
  client_inv (on_rtsp (set_status s) c).
Proof. intros [[] Hwf] Hw Hc Ht. by constructor; [constructor|]. Qed.

Lemma stop_reconnect_inv c :
  client_inv c ->
  (m_rtsp_status (c_rtsp c) = RTSP_STATUS_CONFIG_WAITING ->
   m_status (c_cfg c) <> CONFIG_STATUS_CHANNEL_STABLE) ->
  client_inv (on_rtsp (fun r => resetReconnectBackoff (stopTimerReconnect r)) c).
Proof.
  intros [[? [? [? ?]] ? ? Hidle ? ? ?] Hwf] Hst. constructor; [|done].
  constructor; cbn; try done.
  - intros Hs. destruct (Hidle Hs). by constructor.
  - intros Hs Hb. by destruct (Hst Hs).
Qed.

Lemma reset_backoff_inv c : client_inv c -> client_inv (on_rtsp resetReconnectBackoff c).
Proof.
  intros [[? ? ? ? Hidle ? ? ?] Hwf]. constructor; [|done].
  constructor; cbn; try done. intros Hs. destruct (Hidle Hs). by constructor.
Qed.

Lemma handlePollEvents_inv e ev c d :
  client_inv c -> recv_ok e (c_rtsp c) -> handlePollEvents e ev c = Some d -> client_inv d.
Proof.
  intros Hinv Hrecv Hd. unfold handlePollEvents in Hd.
  destruct (_ || _ || _); [injection Hd as <-; by apply client_inv_reset|].
  pose proof (fun out Hcon => handleResponse_inv e c out Hinv Hcon Hrecv) as Hresp.
  assert (forall s, m_rtsp_status (c_rtsp c) = s -> s <> RTSP_STATUS_CONFIG_WAITING ->
    s <> RTSP_STATUS_SERVER_CONNECTING -> connected (c_rtsp c)) as Hcon
    by (intros s <- ? ?; by split).
  destruct (m_rtsp_status (c_rtsp c)) eqn:Hs.
  - by injection Hd as <-.
  - injection Hd as <-. destruct (POLLOUT ev); [|done]. destruct Hinv as [[] Hwf].
    destruct (inv_connecting0 Hs) as (_ & Hw & _).
    constructor; [|done]. constructor; cbn; try done; [by destruct inv_one_shot0|by rewrite Hw].
  - destruct (POLLIN ev); [|by injection Hd as <-].
    destruct (handleResponse e c) as [[res c1]|]; [|done]. injection Hd as <-.
    destruct (Hresp _ (Hcon _ eq_refl ltac:(done) ltac:(done)) eq_refl) as [Hc1 _].
    case_bool_decide; [|done]. by apply set_status_inv.
  - destruct (POLLIN ev); [|by injection Hd as <-].
    destruct (handleResponse e c) as [[res c1]|]; [|done]. injection Hd as <-.
    destruct (Hresp _ (Hcon _ eq_refl ltac:(done) ltac:(done)) eq_refl) as [Hc1 _].
    case_bool_decide; [|done].
    apply (stop_reconnect_inv (on_rtsp (set_status RTSP_STATUS_SESSION_TRANSMITTING) c1)); [|done].
    by apply set_status_inv.
  - destruct (POLLIN ev); [|by injection Hd as <-].
    destruct (handleResponse e c) as [[res c1]|]; [|done]. injection Hd as <-.
    by destruct (Hresp _ (Hcon _ eq_refl ltac:(done) ltac:(done)) eq_refl) as [Hc1 _].
  - destruct (POLLIN ev); [|by injection Hd as <-].
    destruct (handleResponse e c) as [[res c1]|]; [|done]. injection Hd as <-.
    destruct (Hresp _ (Hcon _ eq_refl ltac:(done) ltac:(done)) eq_refl) as (Hc1 & Hst & _).
    case_bool_decide as Hres; [|done]. specialize (Hst Hres). cbn [snd] in Hst, Hc1.
    destruct Hc1 as [Hi1 Hwf1].
    apply resetConnect_inv; [by eapply rtsp_inv_buffer_ok|apply Hi1| |done].
    intros _. by apply (inv_teardown _ _ Hi1).
Qed.
End Handlers.

(** ** Timers and status *)

Section Steps.
Context `{DvbConstants} `{LongWidth}.

Lemma request_and_inv e request s c :
  client_inv c -> connected (c_rtsp c) ->
  m_rtsp_status (c_rtsp c) <> RTSP_STATUS_SESSION_TEARDOWNING ->
  (s = RTSP_STATUS_SESSION_PLAYING \/
   s = RTSP_STATUS_SESSION_TEARDOWNING /\ request = RTSP_REQUEST_TEARDOWN /\
   m_status (c_cfg c) = CONFIG_STATUS_CHANNEL_INVALID) ->
  client_inv (request_and e request s c).
Proof.
  intros Hinv Hcon Hnt Hs. unfold request_and.
  destruct (sendRequest_inv e request c Hinv Hcon) as [Hc1 Hst]; [done|].
  destruct (sendRequest e request c) as [res c1]. cbn [fst snd] in *.
  case_bool_decide as Hres; [|done]. destruct (Hst Hres) as [_ Hch].
  destruct Hs as [->|(-> & -> & Hinvalid)]; [by apply set_status_inv|].
  apply set_status_inv; [done..|]. intros _. rewrite Hch.
  rewrite (sends_status _ _ _ (send_method_sends e RTSP_REQUEST_TEARDOWN _)) by done.
  change (m_status (c_cfg c) <> CONFIG_STATUS_CHANNEL_STABLE). by rewrite Hinvalid.
Qed.

Lemma startKeepAlive_inv now c r :
  client_inv c -> connected (c_rtsp c) ->
  startTimerKeepAliveMessage now (c_rtsp c) = Some r -> client_inv (c <| c_rtsp := r |>).
Proof.
  intros [Hi Hwf] [Hnw Hnc] Hr. unfold startTimerKeepAliveMessage in Hr.
  destruct (_ <? _); [done|]. destruct (mul_int _ _) as [ms|]; [|done]. injection Hr as <-.
  constructor; [|done]. destruct Hi as [? [? [? ?]] ? ? ? ? ? ?]. by constructor.
Qed.

Lemma start_connecting_inv e c :
  client_inv c -> m_rtsp_status (c_rtsp c) = RTSP_STATUS_CONFIG_WAITING ->
  client_inv (start_connecting e c).
Proof.
  intros [Hi Hwf] Hs. unfold start_connecting. set (gen := getTuneGeneration (c_cfg c)).
  set (c1 := if _ <? _ then _ else c). set (c2 := on_rtsp _ c1).
  destruct (inv_idle _ _ Hi Hs) as [Hfd Hw Hreq Hses Hp [Hr Hk]].
  destruct (inv_buffer _ _ Hi) as [Hbuf Hpos]. pose proof (inv_one_shot _ _ Hi) as (_ & _ & H3).
  assert (exists t a fd, 0 <= a <= 5 /\ one_shot t /\
    (connectToServer e (c_rtsp c2)).2
    = (c_rtsp c) <| m_timer_reconnect := t |> <| m_reconnect_attempts := a |>
                 <| m_attempted_generation := gen |> <| m_fd := fd |> /\
    ((connectToServer e (c_rtsp c2)).1 = RTSP_OK \/
     (connectToServer e (c_rtsp c2)).1 = RTSP_ERROR /\ fd = -1) /\ c_cfg c2 = c_cfg c /\
    c_psi c2 = c_psi c)
    as (t & a & fd & Ha & Ht & Hr2 & Hres & Hcfg & Hpsi).
  { unfold connectToServer. exists (m_timer_reconnect (c_rtsp c2)), (m_reconnect_attempts (c_rtsp c2)).
    exists (match env_addrs e with Some addrs => default (-1) (connect_loop addrs) | None => -1 end).
    subst c2 c1. destruct c as [[] cfg psi rtp sent dev]. cbn in *. subst.
    pose proof (inv_backoff _ _ Hi) as Hb. cbn in Hb.
    destruct (_ <? gen); cbn; destruct (env_addrs e) as [addrs|];
      try destruct (connect_loop addrs); cbn; split_and!; try done; try lia; auto. }
  assert (tuner_wf (c_cfg c2) (c_psi c2)) as Hwf2 by (by rewrite Hcfg, Hpsi).
  destruct (connectToServer e (c_rtsp c2)) as [res r]. cbn [fst snd] in *. subst r.
  destruct Hres as [->|[-> ->]].
  - rewrite bool_decide_eq_true_2 by done. constructor; [|exact Hwf2].
    constructor; cbn; try done. split_and!; [done|by unfold one_shot; rewrite Hk|done].
  - rewrite bool_decide_eq_false_2 by done.
    set (c3 := c2 <| c_rtsp := _ |> <| c_cfg := _ |>).
    assert (0 <= m_reconnect_attempts (c_rtsp c3) <= 5) as Ha3 by done.
    destruct (startTimerReconnect_spec (env_now e) (c_rtsp c3) Ha3) as [Ht3 Hatt].
    set (q := startTimerReconnect (env_now e) (c_rtsp c3)) in *.
    assert (m_rx_data q = m_rx_data (c_rtsp c) /\ m_rx_data_len q = m_rx_data_len (c_rtsp c) /\
            m_rtsp_status q = m_rtsp_status (c_rtsp c) /\ idle q) as (Hd & Hl & Hqs & Hq).
    { subst q. unfold startTimerReconnect. destruct (_ <? 30000); by split_and!; [..|constructor]. }
    constructor.
    + apply (disconnected_inv (c_rtsp c) q); try done; [lia|by rewrite Hqs|by rewrite Ht3|lia|by rewrite Ht3].
    + eapply same_pids_wf; [apply clearChannelChanged_same|exact Hwf2].
Qed.

Lemma handleRTSPStatus_inv e c d : client_inv c -> handleRTSPStatus e c = Some d -> client_inv d.
Proof.
  intros Hinv Hd. unfold handleRTSPStatus in Hd. pose proof Hinv as [Hi Hwf].
  assert (forall s, m_rtsp_status (c_rtsp c) = s -> s <> RTSP_STATUS_CONFIG_WAITING ->
    s <> RTSP_STATUS_SERVER_CONNECTING -> connected (c_rtsp c)) as Hcon
    by (intros s <- ? ?; by split).
  destruct (m_rtsp_status (c_rtsp c)) eqn:Hs.
  - unfold getChannelStatus in Hd. destruct (m_status (c_cfg c)) eqn:Hch; injection Hd as <-.
    + change (client_inv (c <| c_rtsp := resetReconnectBackoff
        (if m_active (m_timer_reconnect (c_rtsp c)) then stopTimerReconnect (c_rtsp c)
         else c_rtsp c) |>)).
      destruct (m_active (m_timer_reconnect (c_rtsp c))).
      * apply (stop_reconnect_inv c Hinv). intros _. by rewrite Hch.
      * by apply reset_backoff_inv.
    + by apply start_connecting_inv.
    + done.
  - by injection Hd as <-.
  - injection Hd as <-. apply sendRequest_inv; [done|by apply (Hcon _ eq_refl)|by rewrite Hs].
  - injection Hd as <-. apply sendRequest_inv; [done|by apply (Hcon _ eq_refl)|by rewrite Hs].
  - assert (connected (c_rtsp c)) as Hc by by apply (Hcon _ eq_refl). destruct (_ || _).
    { injection Hd as <-. apply request_and_inv; [done..|by rewrite Hs|by left]. }
    case_bool_decide as Hch.
    { injection Hd as <-. apply request_and_inv; [done..|by rewrite Hs|by right]. }
    destruct (negb _); [|by injection Hd as <-].
    destruct (startTimerKeepAliveMessage _ _) as [r|] eqn:Hr; [|done]. injection Hd as <-.
    by eapply startKeepAlive_inv.
  - by injection Hd as <-.
Qed.
End Steps.

Section TimerCalls.
Context `{DvbConstants} `{LongWidth} (e : env).

(** What [call] stores in a timer after its handler ran. *)
Lemma set_timer_inv (i : rtsp_timer) t c :
  client_inv c -> one_shot t ->
  match i with
  | TimerResetConnect => m_rtsp_status (c_rtsp c) = RTSP_STATUS_CONFIG_WAITING /\ m_active t = false
  | TimerKeepAlive => m_active t = false
  | TimerReconnect => m_rtsp_status (c_rtsp c) = RTSP_STATUS_CONFIG_WAITING ->
                      m_status (c_cfg c) <> CONFIG_STATUS_CHANNEL_STABLE
  end ->
  client_inv (@set_timer _ (client_timers e) i t c).
Proof.
  intros [[? (? & ? & ?) ? Hcon Hidle ? ? ?] Hwf] Ht Hi.
  destruct i; (constructor; [|done]); constructor; cbn in *; try done.
  - intros Hw. destruct Hi as [Hs _]. by rewrite (idle_wait _ (Hidle Hs)) in Hw.
  - intros Hs. by rewrite (proj1 Hi) in Hs.
  - intros Hs. destruct (Hidle Hs) as [? ? ? ? ? [? ?]]. destruct Hi as [_ Ha]. by constructor.
  - intros Hs. destruct (Hcon Hs) as (? & ? & ?). done.
  - intros Hs. destruct (Hidle Hs) as [? ? ? ? ? [? ?]]. by constructor.
  - intros Hs. destruct (Hidle Hs) as [? ? ? ? ? [? ?]]. by constructor.
  - intros Hs Hst. by destruct (Hi Hs).
Qed.

Lemma resetConnect_status now auto c :
  m_rtsp_status (c_rtsp (resetConnect now auto c)) = RTSP_STATUS_CONFIG_WAITING.
Proof.
  unfold resetConnect. destruct (_ || _); [done|]. destruct (_ && _); [done|].
  cbn. unfold startTimerReconnect. by destruct (_ <? 30000).
Qed.

Lemma call_inv i c : client_inv c -> client_inv (@call _ (client_timers e) i c).
Proof.
  intros Hinv. unfold call. destruct (m_active _) eqn:Hact; [|done]. cbn [clock_gettime client_timers].
  set (c1 := run_handler i c). set (t := @timer_at _ (client_timers e) i c1).
  assert (client_inv c1) as Hc1.
  { subst c1. destruct i; cbn [run_handler client_timers].
    - by apply client_inv_reset.
    - apply sendRequest_inv; [done| |done]. destruct Hinv as [Hi _]. cbn in Hact.
      split; intros Hs.
      + destruct (inv_idle _ _ Hi Hs) as [_ _ _ _ _ [_ Hk]]. congruence.
      + destruct (inv_connecting _ _ Hi Hs) as (_ & _ & Hk). congruence.
    - unfold timeoutReconnect, getChannelStatus. destruct Hinv as [Hi Hwf].
      destruct (m_status (c_cfg c)) eqn:Hs; try (apply reset_backoff_inv; by constructor; [rewrite Hs|]).
      constructor; cbn; [|eapply same_pids_wf; [|exact Hwf]; done].
      destruct Hi. by constructor. }
  assert (one_shot t) as Ht.
  { destruct (inv_one_shot _ _ (ci_rtsp _ Hc1)) as (? & ? & ?). by destruct i. }
  assert (match i with
    | TimerResetConnect => m_rtsp_status (c_rtsp c1) = RTSP_STATUS_CONFIG_WAITING
    | TimerKeepAlive => True
    | TimerReconnect => m_status (c_cfg c1) <> CONFIG_STATUS_CHANNEL_STABLE
    end) as Hpost.
  { subst c1. destruct i; cbn [run_handler client_timers]; [apply resetConnect_status|done|].
    unfold timeoutReconnect, getChannelStatus. destruct (m_status (c_cfg c)) eqn:Hs; cbn; congruence. }
  destruct (m_single t) eqn:Hsingle.
  - apply set_timer_inv; [done|done|]. by destruct i.
  - apply set_timer_inv; [done| |].
    + unfold one_shot in *. cbn. intros Ha. by apply Ht in Ha.
    + assert (m_active t = false) as Ha.
      { destruct (m_active t) eqn:Ha; [|done]. by rewrite (Ht Ha) in Hsingle. }
      destruct i; [by split|done|by intros _].
Qed.

Lemma handleNextTimer_inv c : client_inv c -> client_inv (handleNextTimer e c).
Proof.
  intros Hinv. apply (@callNextTimer_ind _ (client_timers e) client_inv); [done| |done]. intros i d Hd. by apply call_inv.
Qed.
End TimerCalls.
