(* ===== verification/RtspText.v ===== *)
(** What a server answers: the text of its responses, and how the client reads
    them. *)

From stdpp Require Import pretty.
From S2P Require Import Prelude Crc Psi CText OptParser Dvb Timer Config ConfigText Tuner Rtp Rtsp RtspInv.

(** ** Printed numbers without a leading zero *)

Lemma pretty_go_head x : (0 < x)%N ->
  forall s, exists b r, str (pretty_N_go x s) = b :: r /\ ub b <> 48.
Proof.
  induction (N.lt_wf_0 x) as [x _ IH]. intros Hx s. rewrite pretty_N_go_step by done.
  destruct (decide (x < 10)%N) as [Hlt|Hge].
  - rewrite N.div_small, N.mod_small, pretty_N_go_0 by done.
    exists (Ascii.byte_of_ascii (pretty_N_char x)), (str s). split; [done|].
    assert (Forall (fun n : N => ub (Ascii.byte_of_ascii (pretty_N_char n)) <> 48)
              [1; 2; 3; 4; 5; 6; 7; 8; 9]%N) as Hall by (repeat constructor; done).
    rewrite Forall_forall in Hall. apply Hall.
    assert (x = 1 \/ x = 2 \/ x = 3 \/ x = 4 \/ x = 5 \/ x = 6 \/ x = 7 \/ x = 8 \/ x = 9)%N as Hc
      by lia.
    repeat destruct Hc as [->|Hc]; try subst x; set_solver.
  - apply IH; [apply N.div_lt; lia|]. apply N.div_str_pos. lia.
Qed.

Lemma dec_head_nonzero n : 0 < n -> exists b r, dec n = b :: r /\ ub b <> 48.
Proof.
  intros Hn. unfold dec. destruct n as [|p|p]; [lia| |lia].
  change (pretty (Z.pos p)) with (pretty_N_go (N.pos p) ""). by apply pretty_go_head.
Qed.

Section Reading.
Context `{LongWidth}.

(** Base 0: a number without a leading zero is decimal. *)
Lemma strtol0_dec spaces n rest :
  Forall (fun b => is_space b = true) spaces ->
  0 < n < 2 ^ (long_bits - 1) -> no_digit rest -> strtol 0 (spaces ++ dec n ++ rest) = n.
Proof.
  intros Hsp Hn Hr. assert (0 <= n < 2 ^ (long_bits - 1)) as Hn0 by lia.
  rewrite <- (strtol_dec n rest Hn0 Hr) at 2.
  assert (skip_spaces (spaces ++ dec n ++ rest) = skip_spaces (dec n ++ rest)) as Hskip.
  { induction Hsp as [|b s Hb _ IH]; [done|]. cbn [app skip_spaces]. by rewrite Hb. }
  unfold strtol. rewrite Hskip. destruct (dec_head n) as (b & s & Hb & Hspb & _ & Hm & Hp); [lia|].
  destruct (dec_head_nonzero n) as (b' & s' & Hb' & Hz); [lia|].
  rewrite Hb in Hb'. injection Hb' as <- <-. rewrite Hb. cbn [app skip_spaces]. rewrite Hspb.
  cbn [read_sign]. rewrite Hm, Hp. unfold read_prefix. rewrite (proj2 (Z.eqb_neq _ _) Hz). done.
Qed.
End Reading.

(** ** Lines *)

(** The end of the header is where the first empty line is. *)
Lemma header_line l x rest :
  free_of 13 l -> ub x <> 13 ->
  strstr (l ++ crlf ++ x :: rest) (crlf ++ crlf) = strstr (x :: rest) (crlf ++ crlf).
Proof.
  intros Hl Hx. rewrite (strstr_skip _ _ _ x0d) by done. set (t := x :: rest).
  assert (strstr (crlf ++ t) (crlf ++ crlf)
          = if is_prefix crlf t then Some (crlf ++ t) else strstr t (crlf ++ crlf)) as -> by done.
  subst t. cbn [crlf is_prefix]. by rewrite (proj2 (Z.eqb_neq (ub x0d) (ub x))) by (cbn; congruence).
Qed.

Lemma header_end l : free_of 13 l -> strstr (l ++ crlf ++ crlf) (crlf ++ crlf) = Some (crlf ++ crlf).
Proof. intros Hl. by rewrite (strstr_skip _ _ _ x0d). Qed.

Lemma c_str_app a b : free_of 0 a -> c_str (a ++ x00 :: b) = a.
Proof.
  induction 1 as [|c a Hc _ IH]; [done|]. cbn [app c_str].
  by rewrite (proj2 (Z.eqb_neq (ub c) 0)), IH.
Qed.

(** ** The response to a SETUP *)

(** Session ids are made of hexadecimal digits. *)
Definition id_ok (id : text) : Prop :=
  id <> [] /\ Forall (fun b => is_Some (digit_of 16 b)) id.

Definition setup_response (cseq : Z) (id : text) (timeout : Z) (transport : text) (stream : Z) : text :=
  str "RTSP/1.0 200 OK" ++ crlf ++ str "CSeq: " ++ dec cseq ++ crlf
  ++ str "Session: " ++ id ++ str ";timeout=" ++ dec timeout ++ crlf
  ++ str "Transport: " ++ transport ++ crlf
  ++ str "com.ses.streamID: " ++ dec stream ++ crlf ++ crlf.

(** A transport parameter: no line end, no NUL, and not the letter I. *)
Definition transport_ok (t : text) : Prop := free_of 13 t /\ free_of 10 t /\ free_of 0 t /\ free_of 73 t.

Lemma hex_char b : is_Some (digit_of 16 b) ->
  48 <= ub b <= 57 \/ 97 <= ub b <= 102 \/ 65 <= ub b <= 70.
Proof.
  intros [v Hv]. revert Hv. unfold digit_of. pose proof (ub_bounds b).
  destruct ((48 <=? ub b) && (ub b <=? 57)) eqn:E1; bool_cases; [lia|].
  destruct ((97 <=? ub b) && (ub b <=? 122)) eqn:E2; bool_cases.
  { destruct (Z.ltb_spec (ub b - 87) 16); [lia|done]. }
  destruct ((65 <=? ub b) && (ub b <=? 90)) eqn:E3; bool_cases.
  { destruct (Z.ltb_spec (ub b - 55) 16); [lia|done]. }
  done.
Qed.

Lemma id_free c id : id_ok id ->
  ~ (48 <= c <= 57) -> ~ (97 <= c <= 102) -> ~ (65 <= c <= 70) -> free_of c id.
Proof.
  intros [_ Hid] H1 H2 H3. eapply Forall_impl; [exact Hid|]. cbn. intros b Hb Hc. subst c.
  apply hex_char in Hb. lia.
Qed.

(** An id is read up to the semicolon, and has no white space to trim. *)
Lemma take_until_id id rest : id_ok id -> trim_end (take_until [59; 10] (id ++ x3b :: rest)) = id.
Proof.
  intros Hid. pose proof (id_free 59 id Hid) as H59. pose proof (id_free 10 id Hid) as H10.
  assert (take_until [59; 10] (id ++ x3b :: rest) = id) as ->.
  { specialize (H59 ltac:(lia) ltac:(lia) ltac:(lia)). specialize (H10 ltac:(lia) ltac:(lia) ltac:(lia)).
    clear Hid. induction id as [|b id IH]; [done|]. apply Forall_cons in H59 as [Hb H59], H10 as [Hc H10].
    cbn [app take_until existsb]. rewrite (proj2 (Z.eqb_neq _ _) Hb), (proj2 (Z.eqb_neq _ _) Hc).
    cbn [orb]. by rewrite IH. }
  unfold trim_end. destruct Hid as [Hne Hid].
  assert (skip_spaces (rev id) = rev id) as ->; [|apply rev_involutive].
  destruct (rev id) as [|b l] eqn:E; [done|]. assert (b ∈ id) as Hb.
  { apply list_elem_of_In, in_rev. rewrite E. by left. }
  rewrite Forall_forall in Hid. apply Hid, hex_char in Hb. cbn [skip_spaces]. unfold is_space.
  rewrite (proj2 (Z.eqb_neq (ub b) 32)) by lia. rewrite (proj2 (Z.leb_gt (ub b) 13)) by lia.
  by rewrite andb_false_r.
Qed.

Lemma skip_spaces_id id rest : id_ok id -> skip_spaces (id ++ rest) = id ++ rest.
Proof.
  intros [Hne Hid]. destruct id as [|b id]; [done|]. apply Forall_cons in Hid as [Hb _].
  apply hex_char in Hb. cbn [app skip_spaces]. unfold is_space.
  rewrite (proj2 (Z.eqb_neq (ub b) 32)) by lia. rewrite (proj2 (Z.leb_gt (ub b) 13)) by lia.
  by rewrite andb_false_r.
Qed.

(** Free of a character that is not in constants, numbers and ids. *)
Ltac solve_free :=
  repeat match goal with
  | |- free_of _ (_ ++ _) => apply free_of_app; split
  | |- free_of _ (dec _) => apply dec_free; cbn; lia
  | H : id_ok ?id |- free_of _ ?id => apply (id_free _ id H); cbn; lia
  | |- free_of _ _ => solve [assumption | repeat constructor; cbn; congruence]
  end.

Section Setup.
Context `{LongWidth}.

(** The parts of a SETUP response: before the session header, from the timeout
    on, from the stream id on. *)
Definition setup_start (cseq : Z) : text := str "RTSP/1.0 200 OK" ++ crlf ++ str "CSeq: " ++ dec cseq ++ crlf.
Definition setup_last (stream : Z) : text := str ": " ++ dec stream ++ crlf ++ crlf.
Definition setup_mid (timeout : Z) (transport : text) (stream : Z) : text :=
  dec timeout ++ crlf ++ str "Transport: " ++ transport ++ crlf ++ str "com.ses.streamID" ++ setup_last stream.

Lemma setup_response_parts cseq id timeout transport stream :
  setup_response cseq id timeout transport stream
  = setup_start cseq ++ str "Session" ++ str ": " ++ id ++ str ";timeout=" ++ setup_mid timeout transport stream.
Proof. unfold setup_response, setup_start, setup_mid, setup_last. by rewrite <- !app_assoc. Qed.

(** What the three searches find. *)
Lemma find_session cseq rest :
  strstr (setup_start cseq ++ str "Session" ++ rest) (str "Session") = Some (str "Session" ++ rest).
Proof.
  unfold setup_start. rewrite <- !app_assoc. set (x := str "Session" ++ _).
  assert (forall y, strstr (str "RTSP/1.0 200 OK" ++ crlf ++ str "CSeq: " ++ y) (str "Session")
                    = strstr y (str "Session")) as -> by done.
  rewrite (strstr_skip (dec cseq) _ _ x53) by (done || solve_free).
  change (strstr (crlf ++ x) (str "Session")) with (strstr x (str "Session")). apply strstr_here.
Qed.

Lemma find_timeout cseq id rest : id_ok id ->
  strstr (setup_start cseq ++ str "Session" ++ str ": " ++ id ++ str ";timeout=" ++ rest) (str "timeout")
  = Some (str "timeout" ++ str "=" ++ rest).
Proof.
  intros Hid.
  assert (setup_start cseq ++ str "Session" ++ str ": " ++ id ++ str ";timeout=" ++ rest
    = (setup_start cseq ++ str "Session: " ++ id ++ str ";") ++ str "timeout" ++ str "=" ++ rest) as ->
    by by rewrite <- !app_assoc.
  rewrite (strstr_skip _ _ _ x74); [apply strstr_here|done|]. unfold setup_start. solve_free.
Qed.

Lemma find_stream cseq id timeout transport stream : id_ok id -> transport_ok transport ->
  strstr (setup_start cseq ++ str "Session" ++ str ": " ++ id ++ str ";timeout="
          ++ setup_mid timeout transport stream) (str "com.ses.streamID")
  = Some (str "com.ses.streamID" ++ setup_last stream).
Proof.
  intros Hid (_ & _ & _ & Ht73). unfold setup_mid. set (com := str "com.ses.streamID" ++ setup_last stream).
  assert (setup_start cseq ++ str "Session" ++ str ": " ++ id ++ str ";timeout=" ++ dec timeout ++ crlf
          ++ str "Transport: " ++ transport ++ crlf ++ com
    = (setup_start cseq ++ str "Session: " ++ id ++ str ";timeout=" ++ dec timeout ++ crlf
       ++ str "Transport: " ++ transport ++ [x0d]) ++ x0a :: com) as -> by by rewrite <- !app_assoc.
  rewrite (strstr_pass _ _ _ _ x49).
  - change (strstr (x0a :: com) (str "com.ses.streamID")) with (strstr com (str "com.ses.streamID")).
    apply strstr_here.
  - by apply (bool_decide_unpack _).
  - unfold setup_start. solve_free.
  - solve_free.
Qed.

Lemma setup_response_parsed r cseq id timeout transport stream :
  32 <= long_bits -> id_ok id -> transport_ok transport ->
  0 < timeout < 2 ^ 31 -> 0 < stream < 2 ^ 31 ->
  let data := setup_response cseq id timeout transport stream in
  zlen data < 1024 ->
  handleResponseSetup data r
  = Some (RTSP_RESPONSE_COMPLETE, r <| m_rtsp_session_id := id |> <| m_rtsp_timeout := timeout |>
                                    <| m_rtsp_stream_id := stream |>).
Proof.
  intros Hl Hid Htr Hto Hst data Hlen.
  assert (2 ^ 31 <= 2 ^ (long_bits - 1)) as Hpow by (apply Z.pow_le_mono_r; lia).
  pose proof (setup_response_parts cseq id timeout transport stream) as Hdata. fold data in Hdata.
  unfold handleResponseSetup. rewrite Hdata, find_session, find_timeout, find_stream by done.
  rewrite Hdata, !zlen_app in Hlen. set (mid := setup_mid timeout transport stream) in *.
  assert (strchr (str "Session" ++ str ": " ++ id ++ str ";timeout=" ++ mid) 58
          = Some (str ": " ++ id ++ str ";timeout=" ++ mid)) as -> by done.
  assert (strchr (str "timeout" ++ str "=" ++ mid) 61 = Some (str "=" ++ mid)) as -> by done.
  assert (strchr (str "com.ses.streamID" ++ setup_last stream) 58 = Some (setup_last stream)) as -> by done.
  assert (skip_spaces (tail (str ": " ++ id ++ str ";timeout=" ++ mid)) = id ++ str ";timeout=" ++ mid)
    as -> by exact (skip_spaces_id id _ Hid).
  assert (zlen (id ++ str ";timeout=" ++ mid) < 1024) as Hfit.
  { rewrite !zlen_app. pose proof (zlen_nonneg (setup_start cseq)).
    pose proof (zlen_nonneg (str "Session")). pose proof (zlen_nonneg (str ": ")). lia. }
  rewrite (proj2 (Z.ltb_lt _ _) Hfit). cbn [negb].
  change (str ";timeout=" ++ mid) with (x3b :: str "timeout=" ++ mid). rewrite take_until_id by done.
  assert (strtol 0 (tail (str "=" ++ mid)) = timeout) as ->.
  { change (tail (str "=" ++ mid)) with ([] ++ mid). apply strtol0_dec; [done|lia|done]. }
  assert (strtol 0 (tail (setup_last stream)) = stream) as ->.
  { change (tail (setup_last stream)) with ([x20] ++ dec stream ++ crlf ++ crlf).
    apply strtol0_dec; [by apply Forall_singleton|lia|done]. }
  rewrite !s32_id by lia. done.
Qed.

(** A response that arrives whole and alone, with code 200. *)
Record whole_response (data : text) : Prop := {
  wr_head : exists b l, data = b :: l /\ ub b <> 36;
  wr_nul : free_of 0 data;
  wr_end : strstr data (crlf ++ crlf) = Some (crlf ++ crlf);
  wr_code : scan_status data 0 = 200
}.

Lemma scan_status_200 rest : 32 <= long_bits -> scan_status (str "RTSP/1.0 200" ++ x20 :: rest) 0 = 200.
Proof.
  intros Hl. unfold scan_status.
  assert (scan_int (skip_word (skip_spaces (drop 5 (str "RTSP/1.0 200" ++ x20 :: rest))))
          = scan_int (dec 200 ++ x20 :: rest)) as -> by done.
  rewrite scan_int_dec by (done || lia).
  change (is_prefix (str "RTSP/") (str "RTSP/1.0 200" ++ x20 :: rest)) with true. cbv iota.
  rewrite bool_decide_eq_false_2; [done|]. intros Heq. by apply (f_equal head) in Heq.
Qed.

(** Any status line and headers without a carriage return end where they
    should. *)
Definition response (headers : list text) : text :=
  concat (map (fun h => h ++ crlf) (str "RTSP/1.0 200 OK" :: headers)) ++ crlf.

Definition header_ok (h : text) : Prop := h <> [] /\ free_of 13 h /\ free_of 0 h.

Lemma response_end headers h : header_ok h -> Forall header_ok headers ->
  strstr (concat (map (fun h => h ++ crlf) (h :: headers)) ++ crlf) (crlf ++ crlf)
  = Some (crlf ++ crlf).
Proof.
  revert h. induction headers as [|g headers IH]; intros h (_ & Hh & _) Hall.
  { cbn [map concat]. rewrite app_nil_r, <- app_assoc. by apply header_end. }
  apply Forall_cons in Hall as [Hg Hall]. cbn [map concat]. rewrite <- !app_assoc.
  pose proof Hg as (Hne & Hg13 & _). destruct g as [|x g]; [done|].
  apply Forall_cons in Hg13 as [Hx _].
  change ((x :: g) ++ crlf ++ concat (map (fun h => h ++ crlf) headers) ++ crlf)
    with (x :: (g ++ crlf ++ concat (map (fun h => h ++ crlf) headers) ++ crlf)).
  rewrite header_line by done.
  specialize (IH (x :: g) Hg Hall). cbn [map concat] in IH. rewrite <- !app_assoc in IH. exact IH.
Qed.

Lemma response_whole headers : 32 <= long_bits -> Forall header_ok headers ->
  whole_response (response headers).
Proof.
  intros Hl Hall. constructor.
  - by eexists _, _.
  - unfold response. apply free_of_app. split; [|solve_free]. cbn [map concat].
    apply free_of_app. split; [solve_free|].
    induction Hall as [|h headers (_ & _ & Hh) _ IH]; [by apply Forall_nil|]. cbn [map concat].
    apply free_of_app. split; [solve_free|exact IH].
  - apply response_end; [|done]. split; [done|split; solve_free].
  - by apply (scan_status_200 (str "OK" ++ crlf ++ concat (map (fun h => h ++ crlf) headers) ++ crlf)).
Qed.

Lemma setup_response_whole cseq id timeout transport stream :
  32 <= long_bits -> id_ok id -> transport_ok transport ->
  whole_response (setup_response cseq id timeout transport stream).
Proof.
  intros Hl Hid (Ht13 & Ht10 & Ht0 & _).
  assert (setup_response cseq id timeout transport stream
    = response [str "CSeq: " ++ dec cseq; str "Session: " ++ id ++ str ";timeout=" ++ dec timeout;
                str "Transport: " ++ transport; str "com.ses.streamID: " ++ dec stream]) as ->.
  { unfold setup_response, response. cbn [map concat]. rewrite app_nil_r, <- !app_assoc. done. }
  apply response_whole; [done|].
  repeat (apply Forall_cons; split); [..|by apply Forall_nil];
    (split; [intros Heq; by apply (f_equal head) in Heq|split; solve_free]).
Qed.
End Setup.
