(* ===== verification/RtspProps.v ===== *)
(** The RTSP client in operation: its steps as a transition system, what holds
    in every reachable state, and that steps return. *)

From S2P Require Import Prelude Crc Psi CText OptParser Dvb Timer Config ConfigText Tuner Rtp Rtsp RtspInv.

(** ** Steps *)

(** One call: of the main loop, or of the vtuner side on the configuration. *)
Inductive client_step :=
| StepStatus (e : env)
| StepTimer (e : env)
| StepPoll (e : env) (events : poll_events)
| StepUser (op : tuner_op).

(** The calls that are not the RTSP client's own. *)
Definition user_op (op : tuner_op) : Prop :=
  match op with
  | OpSetup | OpPlay | OpChannelRetry | OpClearChannelChanged => False
  | _ => op_valid op
  end.

Section Steps.
Context `{DvbConstants} `{LongWidth}.

Definition client_exec (c : client) (s : client_step) : option client :=
  match s with
  | StepStatus e => handleRTSPStatus e c
  | StepTimer e => Some (handleNextTimer e c)
  | StepPoll e events => handlePollEvents e events c
  | StepUser op =>
    w ← world_exec (World (c_cfg c) (c_psi c) ∅ true) op;
    Some (c <| c_cfg := w_cfg w |> <| c_psi := w_psi w |>)
  end.

(** What the system may answer. *)
Definition step_ok (c : client) (s : client_step) : Prop :=
  match s with
  | StepPoll e _ => recv_ok e (c_rtsp c)
  | StepUser op => user_op op
  | _ => True
  end.

(** A fresh client, with the receive buffer malloc gave it. *)
Definition client_new (fe_type : Z) (settings : vtunerOpt) (host port : text)
    (garbage : list byte) (now : timespec) (rtp : satipRTP) : client :=
  let '(cfg, psi) := satipConfig_new fe_type settings in
  satipRTSP_new host port garbage now cfg psi rtp.

Inductive reachable : client -> Prop :=
| reach_new fe_type settings host port garbage now rtp :
    zlen garbage = (if m_tcpdata settings then 256 * 1024 else 2048) ->
    reachable (client_new fe_type settings host port garbage now rtp)
| reach_step c s d : reachable c -> step_ok c s -> client_exec c s = Some d -> reachable d.

(** The vtuner side never makes a channel stable. *)
Lemma user_op_status op w w' :
  user_op op -> tuner_wf (w_cfg w) (w_psi w) -> world_exec w op = Some w' ->
  m_status (w_cfg w') = CONFIG_STATUS_CHANNEL_STABLE ->
  m_status (w_cfg w) = CONFIG_STATUS_CHANNEL_STABLE.
Proof.
  intros Hop Hwf Hw. destruct op; try done; cbn [world_exec] in Hw;
    try (injection Hw as <-; try done).
  - cbn. destruct (clearProperty_wf _ _ Hwf) as (_ & _ & _ & _ & ->). done.
  - destruct (updatePidList_wf _ _ _ Hwf Hop) as (_ & _ & _ & Hs & _). cbn. by rewrite Hs.
  - cbn. unfold setVoltage. destruct (_ =? _); [done|]. by destruct (_ =? _).
  - destruct (w_psi w) as [p|] eqn:Hp; [|by injection Hw as <-].
    pose proof (tw_psi _ _ Hwf) as Hlink. assert (zlen data <= zlen data) as Hlen by lia.
    destruct (processTS_linked _ p _ data (zlen data) t0 t1 Hlink Hlen) as (q & d & Heq & Hs & _).
    rewrite Heq in Hw. injection Hw as <-. cbn. by rewrite (ca_status _ _ Hs).
Qed.

Lemma rtsp_inv_channel r a b :
  (b = CONFIG_STATUS_CHANNEL_STABLE -> a = CONFIG_STATUS_CHANNEL_STABLE) ->
  rtsp_inv r a -> rtsp_inv r b.
Proof.
  intros Hab [? ? ? ? ? ? Hretry Htd]. constructor; try done; [by auto|].
  intros Hs Hb. apply (Htd Hs). auto.
Qed.

Lemma client_step_inv c s d :
  client_inv c -> step_ok c s -> client_exec c s = Some d -> client_inv d.
Proof.
  intros Hinv Hok Hd. destruct s as [e|e|e ev|op]; cbn [client_exec] in Hd.
  - by eapply handleRTSPStatus_inv.
  - injection Hd as <-. by apply handleNextTimer_inv.
  - by eapply handlePollEvents_inv.
  - destruct Hinv as [Hi Hwf]. set (w := World (c_cfg c) (c_psi c) ∅ true) in Hd.
    assert (world_ok w) as Hw by by constructor.
    assert (op_valid op) as Hv by by destruct op.
    pose proof (world_exec_ok w op Hv Hw) as Hw'.
    destruct (world_exec w op) as [w'|] eqn:E; [|done]. injection Hd as <-.
    constructor; [|apply Hw']. eapply rtsp_inv_channel; [|exact Hi].
    by apply (user_op_status op w w').
Qed.

Lemma setCaPids_fields pids c :
  m_status (config_setCaPids pids c) = m_status c /\
  m_settings (config_setCaPids pids c) = m_settings c.
Proof.
  unfold config_setCaPids, wakeup. case_bool_decide; [|by split]. cbn. by destruct (_ <? 0).
Qed.

Lemma satipConfig_new_status fe_type settings :
  m_status (satipConfig_new fe_type settings).1 = CONFIG_STATUS_CHANNEL_INVALID /\
  m_settings (satipConfig_new fe_type settings).1 = settings.
Proof.
  unfold satipConfig_new. cbn [clearProperty call_psi]. destruct (OptParser.m_ca_pids settings); [|split; reflexivity].
  unfold satipPSI_new, reset, recompute. destruct (recompute_sets _) as [d w].
  case_bool_decide; [by split|].
  split; (etrans; [apply setCaPids_fields|reflexivity]).
Qed.

Lemma satipRTSP_new_inv host port garbage now cfg psi rtp :
  tuner_wf cfg psi -> m_status cfg = CONFIG_STATUS_CHANNEL_INVALID ->
  zlen garbage = (if isTcpData cfg then 256 * 1024 else 2048) ->
  client_inv (satipRTSP_new host port garbage now cfg psi rtp).
Proof.
  intros Hwf Hs Hg. unfold satipRTSP_new. apply resetConnect_inv; try done; cbn.
  - unfold buffer_ok. cbn. rewrite Hg. by destruct (isTcpData cfg).
  - by rewrite Hs.
Qed.

Lemma client_new_inv fe_type settings host port garbage now rtp :
  zlen garbage = (if m_tcpdata settings then 256 * 1024 else 2048) ->
  client_inv (client_new fe_type settings host port garbage now rtp).
Proof.
  intros Hg. unfold client_new. destruct (satipConfig_new_status fe_type settings) as [Hs Hset].
  pose proof (ok_tuner _ (world_new_ok fe_type settings)) as Hwf. unfold world_new in Hwf.
  destruct (satipConfig_new fe_type settings) as [cfg psi]. cbn [fst snd w_cfg w_psi] in *.
  apply satipRTSP_new_inv; [done|done|]. unfold isTcpData. by rewrite Hset.
Qed.

Lemma reachable_inv c : reachable c -> client_inv c.
Proof.
  induction 1 as [|c s d _ IH Hok Hd]; [by apply client_new_inv|by eapply client_step_inv].
Qed.
End Steps.

(** ** Steps return *)

Section Returns.
Context `{DvbConstants} `{LongWidth}.

(** A response that fits the session id buffer is handled. *)
Lemma handleResponseSetup_returns data r :
  zlen data <= 1024 -> is_Some (handleResponseSetup data r).
Proof.
  intros Hlen. unfold handleResponseSetup.
  destruct (strstr data (str "Session")) as [p|] eqn:Hp; [|by eexists].
  destruct (strchr p 58) as [p1|] eqn:Hp1; [|by eexists].
  apply strstr_length in Hp. apply strchr_length in Hp1 as Hl.
  pose proof (skip_spaces_length (tail p1)) as Hsk.
  assert (zlen (tail p1) < zlen p1) as Ht.
  { destruct p1 as [|b p1]; [|cbn [tail]; rewrite zlen_cons; lia].
    clear -Hp1. induction p as [|b p IH]; cbn in Hp1; [done|]. by destruct (_ =? _); auto. }
  rewrite (proj2 (Z.ltb_lt _ _)) by lia. cbn [negb].
  destruct (strstr data (str "com.ses.streamID")) as [p3|]; [|by eexists].
  destruct (strchr p3 58); by eexists.
Qed.

Lemma take_response_returns e data res res_code c :
  zlen data <= 1024 -> is_Some (take_response e data res res_code c).
Proof.
  intros Hlen. unfold take_response. case_bool_decide; [by eexists|].
  destruct (negb _); [by eexists|].
  assert (is_Some (dispatch_response data res
    (c_rtsp (on_rtsp (fun r => r <| m_wait_response := false |>) c)))) as [[res' r'] ->].
  { unfold dispatch_response. destruct (m_rtsp_request _); try by eexists.
    by apply handleResponseSetup_returns. }
  by eexists.
Qed.

(** In UDP mode, with short responses, [again] returns: its rounds consume the
    buffer. *)
Lemma again_returns e fuel : forall res res_code c,
  client_inv c -> connected (c_rtsp c) -> isTcpData (c_cfg c) = false ->
  m_rx_data_pos (c_rtsp c) <= 1024 -> m_rx_data_pos (c_rtsp c) < Z.of_nat fuel ->
  is_Some (again None fuel e res res_code c).
Proof.
  induction fuel as [|fuel IH]; intros res res_code c Hinv Hcon Htcp Hshort Hfuel.
  { destruct (inv_buffer _ _ (ci_rtsp _ Hinv)). lia. }
  destruct (inv_buffer _ _ (ci_rtsp _ Hinv)) as [Hbuf Hpos]. cbn [again].
  destruct (rd_ok (m_rx_data (c_rtsp c)) 0) as (b0 & -> & _); [lia|]. cbn [mbind option_bind].
  rewrite Htcp. destruct (b0 =? 36); [by eexists|].
  assert (is_Some (terminate (c_rtsp c))) as [r Ht].
  { unfold terminate. rewrite (proj2 (Z.leb_le _ _)), (proj2 (Z.ltb_lt _ _)) by lia. by eexists. }
  rewrite Ht. cbn [mbind option_bind]. apply terminate_inv in Ht as (mem & -> & Hinv1 & Hstr); [|done..].
  set (c1 := c <| c_rtsp := _ |>) in *. change (m_rx_data (_ <| m_rx_data := mem |>)) with mem.
  destruct (strstr (c_str mem) (crlf ++ crlf)) as [s|] eqn:Hs; [|by eexists].
  destruct (take_response_returns e (c_str mem) res res_code c1) as [next Hn]; [lia|].
  rewrite Hn. cbn [mbind option_bind].
  apply (take_response_consumed _ _ _ _ _ _ _ Hinv1 Hcon Hs Hstr) in Hn.
  destruct next as [[[res' code'] d]|ret]; [|by eexists].
  destruct Hn as (Hd & Hcon1 & _ & Hp & Hhdr & Hcfg). cbv zeta in *. set (d1 := on_rtsp _ d) in *.
  change (m_rx_data_pos (c_rtsp c1)) with (m_rx_data_pos (c_rtsp c)) in Hp.
  destruct (0 <? _); [|by eexists]. apply IH; [done|done|by rewrite Hcfg|lia|lia].
Qed.
End Returns.

(** ** The loops over what arrived end *)

Section Loops.
Context `{DvbConstants} `{LongWidth}.

(** A frame and a response shorten what is left in the buffer. *)
Lemma take_frame_consumed e len2 c d :
  take_frame e len2 c = Some d -> m_rx_data_pos (c_rtsp d) = m_rx_data_pos (c_rtsp c) - len2.
Proof.
  unfold take_frame. destruct (rtpTcpData _ _ _ _ _ _ _); [|done]. by intros [= <-].
Qed.

Lemma again_fuel e x y n : forall k res res_code c,
  client_inv c -> connected (c_rtsp c) ->
  m_rx_data_pos (c_rtsp c) < Z.of_nat n -> m_rx_data_pos (c_rtsp c) < Z.of_nat k ->
  again x n e res res_code c = again y k e res res_code c.
Proof.
  induction n as [|n IH]; intros [|k] res res_code c Hinv Hcon Hfn Hfk;
    destruct (inv_buffer _ _ (ci_rtsp _ Hinv)) as [Hbuf Hpos]; [lia..|]. cbn [again].
  destruct (rd _ 0) as [b0|]; [|done]. cbn [mbind option_bind]. destruct (b0 =? 36).
  - destruct (negb _); [done|]. destruct (_ <? 4); [done|].
    destruct (rd _ 2) as [b2|] eqn:H2; [|done]. destruct (rd _ 3) as [b3|] eqn:H3; [|done].
    cbn [mbind option_bind]. apply rd_bounds in H2 as [_ H2], H3 as [_ H3].
    destruct (Z.ltb_spec (m_rx_data_pos (c_rtsp c)) (4 + be16 b2 b3)); [done|].
    destruct (take_frame e _ c) as [d|] eqn:Hd; [|done]. cbn [mbind option_bind].
    assert (4 <= 4 + be16 b2 b3 <= m_rx_data_pos (c_rtsp c)) as Hlen
      by (rewrite be16_eq in * by done; lia).
    pose proof (take_frame_consumed _ _ _ _ Hd) as Hp.
    apply take_frame_inv in Hd as (Hd & Hs & _); [|done..|lia].
    apply IH; [done|unfold connected in *; by rewrite Hs|lia|lia].
  - destruct (terminate (c_rtsp c)) as [r|] eqn:Ht; [|done]. cbn [mbind option_bind].
    apply terminate_inv in Ht as (mem & -> & Hinv1 & Hstr); [|done..].
    set (c1 := c <| c_rtsp := _ |>) in *. change (m_rx_data (_ <| m_rx_data := mem |>)) with mem.
    destruct (strstr (c_str mem) (crlf ++ crlf)) as [s|] eqn:Hs; [|done].
    destruct (take_response _ _ _ _ c1) as [next|] eqn:Hn; [|done]. cbn [mbind option_bind].
    apply (take_response_consumed _ _ _ _ _ _ _ Hinv1 Hcon Hs Hstr) in Hn.
    destruct next as [[[res' code'] d]|ret]; [|done].
    destruct Hn as (Hd & Hcon1 & _ & Hp & Hhdr & _). cbv zeta in *. set (d1 := on_rtsp _ d) in *.
    change (m_rx_data_pos (c_rtsp c1)) with (m_rx_data_pos (c_rtsp c)) in Hp.
    destruct (0 <? _); [|done]. apply IH; [done|done|lia|lia].
Qed.

(** C19: handling what arrived always ends, in both modes. The loop over the
    responses and frames in the receive buffer takes at most one round more than
    there are bytes in it, and so does the loop over the packets of an RTCP
    report: with that much fuel, or any more, the result is not the one for
    exhausted fuel, which may be anything. So a loop ends with a result or, where
    the result is None, in an undefined operation. *)
Theorem receive_loops_end c e res res_code rtp mem size n k x y :
  client_inv c -> connected (c_rtsp c) ->
  m_rx_data_pos (c_rtsp c) < Z.of_nat n -> (0 < k)%nat -> size < Z.of_nat k ->
  again x n e res res_code c
  = again None (S (Z.to_nat (m_rx_data_pos (c_rtsp c)))) e res res_code c /\
  rtcp_loop y k rtp mem size 0 = rtcpData rtp mem size.
Proof.
  intros Hinv Hcon Hn Hk Hsize. destruct (inv_buffer _ _ (ci_rtsp _ Hinv)) as [_ Hpos].
  split; [apply again_fuel; [done|done|lia|lia]|]. unfold rtcpData. apply rtcp_loop_fuel; lia.
Qed.
End Loops.

(** The steps whose data is of the usual size, in UDP mode. *)
Definition benign (c : client) (s : client_step) : Prop :=
  match s with
  | StepStatus _ => - 2000000 <= m_rtsp_timeout (c_rtsp c) <= 2000000
  | StepTimer _ => True
  | StepPoll e _ =>
      isTcpData (c_cfg c) = false /\ recv_ok e (c_rtsp c) /\
      match env_recv e with
      | Received data => m_rx_data_pos (c_rtsp c) + zlen data <= 1024
      | Closed => True
      | RecvError => m_rx_data_pos (c_rtsp c) <= 1024
      end
  | StepUser op => user_op op
  end.

Section Props.
Context `{DvbConstants} `{LongWidth}.

Lemma handleResponse_returns e ev c :
  client_inv c -> connected (c_rtsp c) -> benign c (StepPoll e ev) -> is_Some (handleResponse e c).
Proof.
  intros Hinv Hcon (Htcp & Hrecv & Hlen). unfold handleResponse. unfold recv_ok in Hrecv.
  destruct (inv_buffer _ _ (ci_rtsp _ Hinv)) as [Hbuf Hpos]. destruct (_ =? 0); [by eexists|].
  pose proof Hinv as [Hi Hwf].
  destruct (env_recv e) as [data| |]; [|by eexists|].
  - assert (is_Some (store data (c_rtsp c))) as [r Hst].
    { unfold store. rewrite !(proj2 (Z.leb_le _ _)) by lia. by eexists. }
    rewrite Hst. cbn [mbind option_bind]. apply store_buffer in Hst as (mem & -> & Hmem).
    apply again_returns; [|done|done|cbn; lia|cbn; lia]. constructor; [|done].
    apply (rtsp_inv_change (c_rtsp c)); try done; try apply Hi; try apply Hcon; cbn; lia.
  - apply again_returns; [|done|done|cbn; lia|cbn; lia]. constructor; [|done].
    apply (rtsp_inv_change (c_rtsp c)); try done; try apply Hi; try apply Hcon; cbn; lia.
Qed.

(** Every call returns, without undefined behaviour. *)
Lemma client_exec_returns c s : client_inv c -> benign c s -> is_Some (client_exec c s).
Proof.
  intros Hinv Hb. destruct s as [e|e|e ev|op]; cbn [client_exec].
  - unfold handleRTSPStatus. cbn [benign] in Hb. destruct (m_rtsp_status _); try by eexists.
    + by destruct (getChannelStatus _); eexists.
    + destruct (_ || _); [by eexists|]. case_bool_decide; [by eexists|].
      destruct (negb _); [|by eexists]. unfold startTimerKeepAliveMessage, mul_int.
      rewrite (proj2 (Z.ltb_ge _ _)) by lia.
      rewrite (proj2 (Z.leb_le _ _)), (proj2 (Z.ltb_lt _ _)) by lia. by eexists.
  - by eexists.
  - unfold handlePollEvents. destruct (_ || _ || _); [by eexists|].
    pose proof (fun Hcon => handleResponse_returns e ev c Hinv Hcon Hb) as Hr.
    unfold connected in Hr.
    destruct (m_rtsp_status _); [by eexists..| | | |];
      (destruct (POLLIN ev); [|by eexists]; destruct Hr as [[res d] ->]; [done|by eexists]).
  - set (w := World (c_cfg c) (c_psi c) ∅ true).
    assert (world_ok w) as Hw by (constructor; [apply Hinv|done]).
    assert (op_valid op) as Hv by by destruct op.
    pose proof (world_exec_ok w op Hv Hw) as Hw'. destruct (world_exec w op); [by eexists|done].
Qed.
End Props.

(** ** Witnesses *)

(** A client whose receive buffer holds a response. *)
Definition heard_text : text := str "RTSP/1.0 200 OK" ++ crlf ++ crlf.
Definition hearing (c : client) : client :=
  on_rtsp (fun r => r <| m_rx_data := heard_text ++ replicate 2029 xff |>
                      <| m_rx_data_pos := zlen heard_text |>)
    (on_rtsp (set_status RTSP_STATUS_SESSION_ESTABLISHING) c).

Lemma hearing_inv c : client_inv c -> m_rx_data_len (c_rtsp c) = 2048 -> client_inv (hearing c).
Proof.
  intros Hc Hlen. apply (set_status_inv RTSP_STATUS_SESSION_ESTABLISHING) in Hc as [Hi Hwf]; [|done..].
  constructor; [|exact Hwf].
  apply (rtsp_inv_change (c_rtsp (on_rtsp (set_status RTSP_STATUS_SESSION_ESTABLISHING) c)));
    [exact Hi|..]; try done; try apply Hi; cbn; rewrite Hlen.
  split; [discriminate|reflexivity].
Qed.

Definition hearing_client : client :=
  hearing (@client_new linux_dvb 0 vtunerOpt_new (str "192.168.0.2") (str "554") (replicate 2048 x00)
             (TS 10 0) (mkRTP 45000 45001 true false 0 0)).

Lemma hearing_client_inv : client_inv hearing_client.
Proof. apply hearing_inv; [apply client_new_inv; reflexivity|vm_compute; reflexivity]. Qed.

Lemma receive_loops_end_witness :
  let e := Env (TS 20 0) None true Closed 0 in
  let rtp := mkRTP 45000 45001 true false 0 0 in
  let report := replicate 8 x00 in
  let lost := Some (RTSP_FAILED, hearing_client) in
  @again 64 lost 20 e RTSP_ERROR 0 hearing_client = @again 64 None 20 e RTSP_ERROR 0 hearing_client /\
  option_map (fun out => m_rx_data_pos (c_rtsp out.2)) (@again 64 lost 20 e RTSP_ERROR 0 hearing_client)
    = Some 0 /\
  @rtcp_loop 64 (Some (rtp <| m_hasLock := true |>)) 9 rtp report 8 0 = Some rtp.
Proof.
  cbv zeta.
  destruct (@receive_loops_end 64 hearing_client (Env (TS 20 0) None true Closed 0) RTSP_ERROR 0
    (mkRTP 45000 45001 true false 0 0) (replicate 8 x00) 8 20 9
    (Some (RTSP_FAILED, hearing_client)) (Some (mkRTP 45000 45001 true true 0 0)) hearing_client_inv)
    as [Ha Hr]; [split; discriminate|vm_compute; reflexivity|lia|lia|].
  split; [exact Ha|]. split; [vm_compute; reflexivity|]. etrans; [exact Hr|]. vm_compute. reflexivity.
Defined.
