(* ===== verification/RtspServer.v ===== *)
(** What the server was told: a server that reads the texts of the requests,
    and that what it sends is what the client wants, whatever happens in
    between. *)

From S2P Require Import Prelude Crc Psi CText OptParser Dvb Timer Config ConfigText Tuner Rtp Rtsp RtspInv RtspProps.

(** ** Reading a request *)

(** The second word of the request. *)
Definition request_url (t : text) : text :=
  match strchr t 32 with
  | Some s => take_until [32] (tail s)
  | None => []
  end.

Definition request_query (t : text) : list (text * text) :=
  match strchr (request_url t) 63 with
  | Some q => query q
  | None => []
  end.

(** A query with a parameter that is no pid list is about the tuning. *)
Definition retunes (q : list (text * text)) : bool :=
  existsb (fun p => bool_decide (p.1 ∉ pid_keys)) q.

Definition is_setup (t : text) : bool := is_prefix (str "SETUP ") t.
Definition is_play (t : text) : bool := is_prefix (str "PLAY ") t.
Definition is_teardown (t : text) : bool := is_prefix (str "TEARDOWN ") t.

(** The pids the server sends after a request. *)
Definition server_get (s : gset Z) (t : text) : gset Z :=
  let q := request_query t in
  if is_setup t then server_setup q
  else if is_play t then server_play (retunes q) q s
  else if is_teardown t then ∅ else s.

Definition server_sees (l : list text) : gset Z := foldl server_get ∅ l.

(** The client does not know what the server sends after a retune that adds no
    pids, until the next SETUP, or PLAY that does. *)
Definition unclear_after (u : bool) (t : text) : bool :=
  let q := request_query t in
  if is_setup t then false
  else if is_play t then
    if retunes q then bool_decide (field (str "addpids") q = None) else u
  else u.

(** ** Characters of a request *)

(** Printable characters other than the blank: no line end, no NUL. *)
Definition graphic (t : text) : Prop := Forall (fun b => 33 <= ub b <= 126) t.

Lemma graphic_app s t : graphic (s ++ t) <-> graphic s /\ graphic t.
Proof. apply Forall_app. Qed.

Lemma graphic_free c t : graphic t -> c < 33 -> free_of c t.
Proof. intros Ht Hc. eapply Forall_impl; [exact Ht|]. cbn. lia. Qed.

Lemma graphic_dec n : graphic (dec n).
Proof.
  apply Forall_forall. intros b Hb. destruct (decide (48 <= ub b <= 57)); [lia|].
  destruct (decide (ub b = 45)); [lia|]. exfalso.
  pose proof (dec_free (ub b) n) as Hf. unfold free_of in Hf. rewrite Forall_forall in Hf.
  by apply (Hf ltac:(lia) ltac:(lia) b).
Qed.

Section Free.
Context `{DvbConstants}.

Lemma switch_graphic x cases d :
  forallb (fun p => bool_decide (graphic (str p.2))) cases = true -> graphic (str d) ->
  graphic (switch x cases d).
Proof.
  intros Hc Hd. induction cases as [|[l s] cases IH]; [done|].
  apply andb_true_iff in Hc as [Hs%bool_decide_eq_true Hc]. cbn [switch].
  destruct (x =? l); [done|by apply IH].
Qed.

Ltac free_pieces :=
  repeat first
    [ assumption
    | apply Forall_nil; exact I
    | apply graphic_dec
    | apply switch_graphic; [vm_compute; reflexivity|apply (bool_decide_unpack _); vm_compute; exact I]
    | match goal with |- graphic (if ?b then _ else _) => destruct b end
    | apply graphic_app; split
    | apply (bool_decide_unpack _); vm_compute; exact I ].

Lemma freq_text_graphic c : graphic (freq_text c).
Proof. unfold freq_text. free_pieces. Qed.

Lemma dvbs2_text_graphic c : graphic (dvbs2_text c).
Proof. unfold dvbs2_text. destruct (_ && _); cbv zeta; free_pieces. Qed.

Lemma getTuningData_graphic c : graphic (getTuningData c).1.
Proof.
  unfold getTuningData. set (c' := c <| m_pilot := _ |>).
  pose proof (freq_text_graphic c). pose proof (freq_text_graphic c'). pose proof (dvbs2_text_graphic c').
  destruct (_ =? FE_TYPE_SAT); [|destruct (_ =? FE_TYPE_CABLE)]; cbn [fst].
  - unfold sat_text. destruct (m_pol c'); free_pieces.
  - unfold cable_text. free_pieces.
  - unfold terrestrial_text. free_pieces.
Qed.

Lemma join_loop_graphic first l : graphic (join_loop false first l).
Proof.
  revert first. induction l as [|n l IH]; intros first; [by apply Forall_nil|]. cbn [join_loop].
  pose proof (IH false). free_pieces.
Qed.

Lemma optional_pids_graphic k s : graphic k -> graphic (render (optional_pids k s)).
Proof.
  intros Hk. rewrite <- optional_pids_render. pose proof (join_loop_graphic true (set_iter s)).
  unfold joinNumbers. case_bool_decide; free_pieces.
Qed.

Lemma query_start_graphic d : graphic d -> graphic (query_start d).
Proof.
  intros Hd. destruct d as [|b d]; [apply Forall_nil; exact I|]. cbn [query_start].
  apply graphic_app. split; [free_pieces|].
  destruct (ub b =? 38); [by apply Forall_cons in Hd as [_ Hd]|exact Hd].
Qed.

Lemma take_tuning_graphic c : graphic (take_tuning c).1.
Proof.
  unfold take_tuning. case_bool_decide; [|free_pieces]. pose proof (getTuningData_graphic c).
  by destruct (getTuningData c).
Qed.

Lemma retune_graphic c : graphic (retune c).1.
Proof.
  unfold retune. case_bool_decide; [|free_pieces]. pose proof (take_tuning_graphic c).
  by destruct (take_tuning c).
Qed.

Lemma getSetupData_graphic c : graphic (getSetupData c).1.
Proof.
  unfold getSetupData. pose proof (take_tuning_graphic c) as Ht.
  destruct (take_tuning c) as [tuning c1]. cbn [fst] in Ht. rewrite collectActivePids_spec.
  unfold addCaPids, joinNumbers. cbn [fst]. set (w := _ ∪ m_ca_pids c1).
  pose proof (join_loop_graphic true (set_iter w)). apply query_start_graphic. free_pieces.
Qed.

Lemma getPlayData_graphic c : graphic (getPlayData c).1.
Proof.
  unfold getPlayData. pose proof (retune_graphic c) as Ht.
  destruct (retune c) as [tuning c1]. cbn [fst] in *.
  case_bool_decide; [|cbn [fst]; apply query_start_graphic; by rewrite app_nil_r].
  rewrite (surjective_pairing (play_pids c1)), play_pids_query. cbn [fst].
  apply query_start_graphic. rewrite render_app. apply graphic_app. split; [done|]. apply graphic_app.
  split; (apply optional_pids_graphic; apply (bool_decide_unpack _); vm_compute; exact I).
Qed.
End Free.

(** ** Requests are read as they were written *)

Lemma take_until_stop a b rest :
  free_of (ub b) a -> take_until [ub b] (a ++ b :: rest) = a.
Proof.
  induction 1 as [|c a Hc _ IH]; cbn [app take_until existsb].
  - by rewrite Z.eqb_refl.
  - by rewrite (proj2 (Z.eqb_neq _ _) Hc), IH.
Qed.

(** The name and port of the server are plain words. *)
Definition plain (s : text) : Prop := graphic s /\ free_of 63 s.

Lemma plain_app s t : plain s -> plain t -> plain (s ++ t).
Proof. intros [] []. split; [by apply graphic_app|by apply free_of_app]. Qed.

Lemma plain_dec n : plain (dec n).
Proof. split; [apply graphic_dec|apply dec_free; lia]. Qed.

Definition plain_server (r : satipRTSP) : Prop := plain (m_host r) /\ plain (m_port r).

Lemma query_start_cases d : query_start d = [] \/ exists rest, query_start d = x3f :: rest.
Proof. destruct d as [|b d]; [by left|right]. by eexists. Qed.

Lemma request_query_text method r stream d n rest :
  plain_server r -> graphic (str method) -> plain stream -> graphic (query_start d) ->
  request_query (server_url method r ++ stream ++ query_start d ++ start_line_end n ++ rest)
  = query (query_start d).
Proof.
  intros [Hh Hp] Hm Hs Hd. set (data := query_start d) in *.
  set (path := str "rtsp://" ++ m_host r ++ str ":" ++ m_port r ++ str "/" ++ stream).
  assert (plain path) as [Hpg Hp63].
  { repeat apply plain_app; try done; split; apply (bool_decide_unpack _); vm_compute; exact I. }
  assert (request_url (server_url method r ++ stream ++ data ++ start_line_end n ++ rest)
          = path ++ data) as Hurl.
  { unfold request_url, server_url. rewrite <- !app_assoc, strchr_skip by (by apply graphic_free).
    set (tl := str "RTSP/1.0" ++ crlf ++ str "CSeq: " ++ dec n ++ crlf ++ rest).
    assert (str " rtsp://" ++ m_host r ++ str ":" ++ m_port r ++ str "/" ++ stream ++ data
            ++ start_line_end n ++ rest = x20 :: (path ++ data) ++ x20 :: tl) as ->.
    { subst path tl. unfold start_line_end. rewrite <- !app_assoc. done. }
    cbn [strchr]. change (ub x20 =? 32) with true. cbn [tail].
    apply (take_until_stop (path ++ data) x20).
    apply graphic_free; [by apply graphic_app|done]. }
  unfold request_query. rewrite Hurl, strchr_skip by done.
  destruct (query_start_cases d) as [Hd'|[q Hd']]; fold data in Hd'; by rewrite Hd'.
Qed.

(** What a request is, from its first word. *)
Lemma method_of_setup r t : is_setup (server_url "SETUP" r ++ t) = true.
Proof. done. Qed.

Lemma method_of_play r t :
  is_setup (server_url "PLAY" r ++ t) = false /\ is_play (server_url "PLAY" r ++ t) = true.
Proof. done. Qed.

(** ** A PLAY says whether it retunes *)

Section Retunes.
Context `{DvbConstants}.

Lemma getTuningData_nonempty c : (getTuningData c).1 <> [].
Proof.
  assert (forall c a b, a ++ freq_text c ++ b <> []) as Hf.
  { intros d a b Heq. apply app_eq_nil in Heq as [_ Heq]. apply app_eq_nil in Heq as [Heq _].
    unfold freq_text in Heq. by destruct (negb _). }
  unfold getTuningData.
  destruct (_ =? FE_TYPE_SAT); [|destruct (_ =? FE_TYPE_CABLE)]; cbn [fst].
  - unfold sat_text. rewrite !app_assoc, <- (app_assoc _ (freq_text _)), <- !app_assoc.
    intros Heq. rewrite !app_assoc, <- !app_assoc in Heq.
    apply app_eq_nil in Heq as [_ Heq]. by apply app_eq_nil in Heq as [Heq _].
  - unfold cable_text. apply Hf.
  - unfold terrestrial_text. apply Hf.
Qed.

Lemma retune_params c :
  exists ps, (retune c).1 = render ps /\ Forall tuning_param ps /\
    (ps = [] <-> m_status c <> CONFIG_STATUS_CHANNEL_CHANGED).
Proof.
  destruct (retune_spec c) as (ps & Hps & Hok & _). exists ps. split_and!; [done..|].
  assert ((retune c).1 = [] <-> m_status c <> CONFIG_STATUS_CHANNEL_CHANGED) as Hiff.
  { unfold retune. case_bool_decide as Hs; [|done]. unfold take_tuning.
    rewrite bool_decide_eq_true_2 by done. pose proof (getTuningData_nonempty c).
    by destruct (getTuningData c). }
  rewrite <- Hiff, Hps. split; [by intros ->|]. by destruct ps.
Qed.

(** The query of a PLAY: tuning parameters for a new channel, pid lists for a
    pid change. *)
Lemma getPlayData_params c :
  (forall x, x ∈ wanted_pids c -> 0 <= x) -> (forall x, x ∈ m_requested_pids c -> 0 <= x) ->
  exists ps rest, query (getPlayData c).1 = ps ++ rest /\ Forall tuning_param ps /\
    (ps = [] <-> m_status c <> CONFIG_STATUS_CHANNEL_CHANGED) /\
    Forall (fun p => p.1 ∈ pid_keys) rest /\
    (getPidStatus c <> CONFIG_STATUS_PID_CHANGED -> rest = []).
Proof.
  intros Hpos Hreq. destruct (retune_params c) as (ps & Hps & Hok & Hnil).
  destruct (retune_spec c) as (_ & _ & _ & Hw & Hr & Hst & _). cbv zeta in Hr.
  set (changed := bool_decide _) in Hr.
  unfold getPlayData. destruct (retune c) as [tuning c1]. cbn [fst snd] in *. subst tuning.
  rewrite Hst. destruct (bool_decide (getPidStatus c = CONFIG_STATUS_PID_CHANGED)) eqn:En.
  - apply bool_decide_eq_true in En.
    rewrite (surjective_pairing (play_pids c1)), play_pids_query, Hw, Hr. cbn [fst].
    set (old := if changed then _ else _).
    assert (forall x, x ∈ old -> 0 <= x) by (unfold old; destruct changed; set_solver).
    eexists ps, _. rewrite <- render_app, query_render; [split_and!; try done|].
    + apply Forall_app. unfold optional_pids.
      split; case_bool_decide; try done; apply Forall_singleton; [right; left|right; right; left].
    + apply Forall_app. split; [by apply tuning_params_ok|]. apply Forall_app.
      split; (apply optional_pids_ok; [|set_solver]); [right; left|right; right; left].
  - apply bool_decide_eq_false in En. exists ps, []. cbn [fst]. rewrite !app_nil_r.
    split_and!; try done. by apply query_render, tuning_params_ok.
Qed.

Lemma field_absent k q : Forall (fun p : text * text => p.1 <> k) q -> field k q = None.
Proof.
  induction 1 as [|[k' v] q Hk _ IH]; [done|]. cbn [field] in *. by rewrite bool_decide_eq_false_2.
Qed.

Lemma play_query_retunes c :
  (forall x, x ∈ wanted_pids c -> 0 <= x) -> (forall x, x ∈ m_requested_pids c -> 0 <= x) ->
  let q := query (getPlayData c).1 in
  retunes q = bool_decide (m_status c = CONFIG_STATUS_CHANNEL_CHANGED) /\
  (getPidStatus c <> CONFIG_STATUS_PID_CHANGED -> field (str "addpids") q = None).
Proof.
  intros Hpos Hreq q. subst q.
  destruct (getPlayData_params c Hpos Hreq) as (ps & rest & -> & Hok & Hnil & Hrest & Hst). split.
  - unfold retunes. rewrite existsb_app.
    assert (existsb (fun p => bool_decide (p.1 ∉ pid_keys)) rest = false) as ->.
    { apply not_true_iff_false. intros (p & Hp & Hk%bool_decide_eq_true)%existsb_exists.
      rewrite Forall_forall in Hrest. by apply Hk, Hrest, list_elem_of_In. }
    rewrite orb_false_r. case_bool_decide as Hs.
    + destruct Hok as [|p ps [_ Hk] _]; [by destruct (proj1 Hnil eq_refl)|].
      cbn [existsb]. by rewrite bool_decide_eq_true_2.
    + by rewrite (proj2 Hnil).
  - intros Hp. rewrite (Hst Hp), app_nil_r. apply field_absent.
    eapply Forall_impl; [exact Hok|]. cbn. intros p [_ Hk] Heq. apply Hk. rewrite Heq. right; left.
Qed.
End Retunes.

(** ** The invariant *)

(** The states in which a SETUP of this session has been sent. *)
Definition told_state (r : satipRTSP) : Prop :=
  m_rtsp_status r = RTSP_STATUS_SESSION_PLAYING \/
  m_rtsp_status r = RTSP_STATUS_SESSION_TRANSMITTING \/
  m_rtsp_status r = RTSP_STATUS_SESSION_ESTABLISHING /\ m_rtsp_request r <> RTSP_REQUEST_NONE.

(** Requests are due in the states that make them. *)
Record orderly (r : satipRTSP) : Prop := {
  od_keep_alive : m_active (m_timer_keep_alive r) = true ->
                  m_rtsp_status r = RTSP_STATUS_SESSION_TRANSMITTING;
  od_request : ~ connected r -> m_rtsp_request r = RTSP_REQUEST_NONE
}.

(** [u]: see [unclear_after]. *)
Record server_inv (c : client) (u : bool) : Prop := {
  sv_plain : plain_server (c_rtsp c);
  sv_orderly : orderly (c_rtsp c);
  sv_told : told_state (c_rtsp c) -> u = false -> told_server (c_cfg c) (server_sees (c_sent c))
}.

(** From one client to a later one, with the texts sent on the way. *)
Definition follows (u : bool) (c d : client) : Prop :=
  exists l, c_sent d = c_sent c ++ l /\ server_inv d (foldl unclear_after u l).

Lemma follows_trans u c d e :
  follows u c d -> (forall v, server_inv d v -> follows v d e) -> follows u c e.
Proof.
  intros (l1 & H1 & Hd) Hnext. destruct (Hnext _ Hd) as (l2 & H2 & He).
  exists (l1 ++ l2). rewrite H2, H1, app_assoc. split; [done|]. by rewrite foldl_app.
Qed.

(** Requests that say nothing about pids. *)
Definition no_pids (t : text) : Prop := is_setup t = false /\ is_play t = false.

(** Everything but SETUP and PLAY: the client does not come closer to a session
    that the server was told of. *)
Record quiet (c d : client) : Prop := {
  qt_server : m_host (c_rtsp d) = m_host (c_rtsp c) /\ m_port (c_rtsp d) = m_port (c_rtsp c);
  qt_orderly : orderly (c_rtsp c) -> orderly (c_rtsp d);
  qt_sent : exists l, c_sent d = c_sent c ++ l /\ Forall no_pids l /\
              (told_state (c_rtsp d) -> Forall (fun t => is_teardown t = false) l);
  qt_told : told_state (c_rtsp d) -> told_state (c_rtsp c) /\
              forall s, told_server (c_cfg c) s -> told_server (c_cfg d) s
}.

#[export] Instance quiet_preorder : PreOrder quiet.
Proof.
  constructor.
  - intros c. constructor; try done. exists []. by rewrite app_nil_r.
  - intros c d e [[] Ho (l1 & E1 & Hn1 & Ht1) Ht] [[] Ho' (l2 & E2 & Hn2 & Ht2) Ht'].
    constructor; [split; congruence|auto| |].
    + exists (l1 ++ l2). rewrite E2, E1, app_assoc. split; [done|].
      split; [by apply Forall_app|]. intros He. apply Forall_app.
      destruct (Ht' He) as [Hd _]. auto.
    + intros He. destruct (Ht' He) as [Hd Hs]. destruct (Ht Hd) as [Hc Hs']. auto.
Qed.

Lemma unclear_no_pids u l : Forall no_pids l -> foldl unclear_after u l = u.
Proof.
  induction 1 as [|t l [Hs Hp] _ IH]; [done|]. cbn [foldl]. unfold unclear_after at 2.
  by rewrite Hs, Hp.
Qed.

Lemma server_no_pids s l :
  Forall no_pids l -> Forall (fun t => is_teardown t = false) l -> foldl server_get s l = s.
Proof.
  induction 1 as [|t l [Hs Hp] _ IH]; intros Ht; [done|]. apply Forall_cons in Ht as [Ht Hl].
  cbn [foldl]. unfold server_get at 2. rewrite Hs, Hp, Ht. by apply IH.
Qed.

Lemma quiet_follows u c d : server_inv c u -> quiet c d -> follows u c d.
Proof.
  intros [[Hh Hpt] Ho Hs] [[Hqh Hqp] Hqo (l & Hl & Hn & Htd) Hqt]. exists l. split; [done|].
  rewrite unclear_no_pids by done. constructor.
  - split; congruence.
  - auto.
  - intros Ht Hu. destruct (Hqt Ht) as [Hc Hkeep]. unfold server_sees in *.
    rewrite Hl, foldl_app, server_no_pids by auto. auto.
Qed.

(** ** Calls that do not tell pids *)

Lemma quiet_rtsp c r :
  m_host r = m_host (c_rtsp c) -> m_port r = m_port (c_rtsp c) ->
  (orderly (c_rtsp c) -> orderly r) -> (told_state r -> told_state (c_rtsp c)) ->
  quiet c (c <| c_rtsp := r |>).
Proof.
  intros Hh Hp Ho Ht. constructor; try done.
  - exists []. by rewrite app_nil_r.
  - intros Hd. split; [by apply Ht|done].
Qed.

(** The same status, request and keep-alive timer. *)
Lemma quiet_same c r :
  m_host r = m_host (c_rtsp c) -> m_port r = m_port (c_rtsp c) ->
  m_rtsp_status r = m_rtsp_status (c_rtsp c) -> m_rtsp_request r = m_rtsp_request (c_rtsp c) ->
  m_timer_keep_alive r = m_timer_keep_alive (c_rtsp c) -> quiet c (c <| c_rtsp := r |>).
Proof.
  intros Hh Hp Hs Hr Hk. apply quiet_rtsp; [done..| |].
  - intros []. constructor; unfold connected in *; by rewrite ?Hs, ?Hr, ?Hk.
  - unfold told_state. by rewrite Hs, Hr.
Qed.

Lemma disconnected_not_told r :
  m_rtsp_status r = RTSP_STATUS_CONFIG_WAITING \/ m_rtsp_status r = RTSP_STATUS_SERVER_CONNECTING ->
  ~ told_state r.
Proof. unfold told_state. intros [-> | ->]; naive_solver. Qed.

Lemma quiet_cfg c cfg :
  (forall s, told_server (c_cfg c) s -> told_server cfg s) -> quiet c (c <| c_cfg := cfg |>).
Proof. intros Hs. constructor; try done. exists []. by rewrite app_nil_r. Qed.

Lemma on_rtsp_twice f g c : on_rtsp g (on_rtsp f c) = c <| c_rtsp := g (f (c_rtsp c)) |> <| c_cfg := c_cfg c |>.
Proof. reflexivity. Qed.

Lemma on_rtsp_cfg f g (cfg : satipConfig) c :
  on_rtsp g ((on_rtsp f c) <| c_cfg := cfg |>) = c <| c_rtsp := g (f (c_rtsp c)) |> <| c_cfg := cfg |>.
Proof. reflexivity. Qed.

Lemma resetConnect_fields now auto c :
  exists r cfg, resetConnect now auto c = c <| c_rtsp := r |> <| c_cfg := cfg |> /\
    same_pids (c_cfg c) cfg /\ m_host r = m_host (c_rtsp c) /\ m_port r = m_port (c_rtsp c) /\
    m_rtsp_status r = RTSP_STATUS_CONFIG_WAITING /\ m_rtsp_request r = RTSP_REQUEST_NONE /\
    m_active (m_timer_keep_alive r) = false.
Proof.
  set (off := resetReconnectBackoff (stopTimerReconnect (disconnect (c_rtsp c)))).
  assert (same_pids (c_cfg c) (c_cfg c)) as Hsame by done.
  unfold resetConnect. destruct (_ || _).
  { exists off, (c_cfg c). split; [apply on_rtsp_twice|]. split; [exact Hsame|]. by repeat split. }
  destruct (_ && _).
  { exists off, (c_cfg c). split; [apply on_rtsp_twice|]. split; [exact Hsame|]. by repeat split. }
  exists (startTimerReconnect now (disconnect (c_rtsp c))), (clearChannelChanged (c_cfg c)).
  split; [apply on_rtsp_cfg|]. split; [apply clearChannelChanged_same|].
  unfold startTimerReconnect. by destruct (_ <? 30000).
Qed.

Lemma quiet_reset now auto c : quiet c (resetConnect now auto c).
Proof.
  destruct (resetConnect_fields now auto c) as (r & cfg & -> & _ & Hh & Hp & Hs & Hr & Hk).
  assert (~ told_state r) as Ht by (apply disconnected_not_told; by left).
  constructor; cbn [c_rtsp c_sent c_cfg update_field client_settable rebuild]; try done.
  - intros _. constructor; [by rewrite Hk|done].
  - exists []. by rewrite app_nil_r.
Qed.

Section Handlers.
Context `{DvbConstants} `{LongWidth}.

(** The requests without a query. *)
Record sends_no_pids (c d : client) (request : rtsp_request) : Prop := {
  sn_rtsp : c_rtsp d = c_rtsp c \/ c_rtsp d = next_cseq (c_rtsp c);
  sn_cfg : c_cfg d = c_cfg c;
  sn_sent : exists l, c_sent d = c_sent c ++ l /\ Forall no_pids l /\
              (request <> RTSP_REQUEST_TEARDOWN -> Forall (fun t => is_teardown t = false) l)
}.

Lemma send_method_no_pids e request c :
  request <> RTSP_REQUEST_SETUP -> request <> RTSP_REQUEST_PLAY ->
  sends_no_pids c (send_method e request c).2 request.
Proof.
  intros Hs Hp.
  assert (forall c, exists l, c_sent c = c_sent c ++ l /\ Forall no_pids l /\
    (request <> RTSP_REQUEST_TEARDOWN -> Forall (fun t => is_teardown t = false) l)) as Hnil
    by (intros d; exists []; by rewrite app_nil_r).
  assert (forall t, no_pids t -> (request <> RTSP_REQUEST_TEARDOWN -> is_teardown t = false) ->
    sends_no_pids c (send_text e t (on_rtsp next_cseq c)).2 request) as Hone.
  { intros t Ht Htd. constructor; [by right|done|]. exists [t].
    split; [done|]. split; [by apply Forall_singleton|]. intros Hr. apply Forall_singleton. auto. }
  destruct request; try done; cbn [send_method].
  - constructor; [by left|done|apply Hnil].
  - unfold sendOption. destruct (no_session _); [|by apply Hone].
    constructor; [by left|done|apply Hnil].
  - unfold sendTearDown. destruct (no_session _); [|by apply Hone].
    constructor; [by left|done|apply Hnil].
  - unfold sendDescribe. cbv zeta. by apply Hone.
Qed.

(** A request that was sent. *)
Lemma quiet_sent e request s c d :
  sends_no_pids (on_rtsp stopTimerKeepAliveMessage c) d request -> connected (c_rtsp c) ->
  (s = RTSP_STATUS_SESSION_TEARDOWNING \/
   request <> RTSP_REQUEST_TEARDOWN /\ s = RTSP_STATUS_SESSION_TRANSMITTING /\
   m_rtsp_status (c_rtsp c) = s) ->
  quiet c (on_rtsp (set_status s) (on_rtsp (fun r => startTimerResetConnect (env_now e) 4000
             (r <| m_wait_response := true |> <| m_rtsp_request := request |>)) d)).
Proof.
  intros [Hr Hcfg (l & Hl & Hn & Htd)] Hcon Hs. rewrite on_rtsp_twice.
  set (q := set_status s _).
  assert (m_host q = m_host (c_rtsp c) /\ m_port q = m_port (c_rtsp c) /\ m_rtsp_status q = s /\
          m_active (m_timer_keep_alive q) = false) as (Hh & Hp & Hq & Hk)
    by (subst q; destruct Hr as [Hr|Hr]; cbn; rewrite Hr; by repeat split).
  clearbody q. constructor; cbn [c_rtsp c_sent c_cfg update_field client_settable rebuild].
  - done.
  - intros _. constructor; [by rewrite Hk|]. intros Hc. destruct Hc. unfold connected. rewrite Hq.
    by destruct Hs as [->|(_ & -> & _)].
  - exists l. split; [exact Hl|]. split; [done|]. unfold told_state. rewrite Hq.
    destruct Hs as [->|(Hne & _ & _)]; [naive_solver|by intros _; apply Htd].
  - unfold told_state. rewrite Hq, Hcfg. destruct Hs as [->|(_ & -> & Hst)]; [naive_solver|].
    intros _. split; [right; by left|done].
Qed.

(** A request that was not. *)
Lemma quiet_failed now request c d :
  sends_no_pids (on_rtsp stopTimerKeepAliveMessage c) d request -> quiet c (resetConnect now true d).
Proof.
  intros [Hr _ (l & Hl & Hn & _)].
  destruct (resetConnect_fields now true d) as (r & cfg & -> & _ & Hh & Hp & Hs & Hrq & Hk).
  assert (~ told_state r) as Ht by (apply disconnected_not_told; by left).
  constructor; cbn [c_rtsp c_sent c_cfg update_field client_settable rebuild]; [|..|done].
  - rewrite Hh, Hp. by destruct Hr as [->| ->].
  - intros _. constructor; [by rewrite Hk|done].
  - by exists l.
Qed.

(** A sent request leaves the keep-alive timer stopped. *)
Lemma send_keep_alive e request c :
  (sendRequest e request c).1 = RTSP_OK ->
  m_active (m_timer_keep_alive (c_rtsp (sendRequest e request c).2)) = false /\
  m_rtsp_status (c_rtsp (sendRequest e request c).2) = m_rtsp_status (c_rtsp c).
Proof.
  unfold sendRequest. destruct (m_wait_response _); [done|].
  destruct (send_method_sends e request (on_rtsp stopTimerKeepAliveMessage c)) as [Hr _ _ _].
  destruct (send_method _ _ _) as [res d]. cbn [fst snd] in *. intros ->.
  rewrite bool_decide_eq_true_2 by done. cbn. by destruct Hr as [->| ->].
Qed.

Lemma quiet_option e c :
  m_rtsp_status (c_rtsp c) = RTSP_STATUS_SESSION_TRANSMITTING -> quiet c (timeoutKeepAlive e c).
Proof.
  intros Hs. unfold timeoutKeepAlive, sendRequest. destruct (m_wait_response _); [done|].
  pose proof (send_method_no_pids e RTSP_REQUEST_OPTION (on_rtsp stopTimerKeepAliveMessage c)) as Hsend.
  assert (connected (c_rtsp c)) as Hcon by (unfold connected; by rewrite Hs).
  destruct (send_method _ _ _) as [res d]. cbn [snd] in *.
  specialize (Hsend ltac:(done) ltac:(done)). case_bool_decide; [|by eapply quiet_failed].
  assert (forall q, m_rtsp_status q = RTSP_STATUS_SESSION_TRANSMITTING ->
            set_status RTSP_STATUS_SESSION_TRANSMITTING q = q) as Hid
    by (intros q; destruct q; cbn; by intros ->).
  set (f := fun r => startTimerResetConnect _ _ _).
  assert (on_rtsp f d = on_rtsp (set_status RTSP_STATUS_SESSION_TRANSMITTING) (on_rtsp f d)) as ->.
  { rewrite on_rtsp_twice, Hid; [done|]. destruct Hsend as [[Hr|Hr] _ _]; cbn; by rewrite Hr. }
  eapply quiet_sent; [exact Hsend|done|by right].
Qed.

Lemma quiet_teardown e c :
  m_rtsp_status (c_rtsp c) = RTSP_STATUS_SESSION_TRANSMITTING ->
  quiet c (request_and e RTSP_REQUEST_TEARDOWN RTSP_STATUS_SESSION_TEARDOWNING c).
Proof.
  intros Hs. unfold request_and, sendRequest. destruct (m_wait_response _).
  { by rewrite bool_decide_eq_false_2. }
  pose proof (send_method_no_pids e RTSP_REQUEST_TEARDOWN (on_rtsp stopTimerKeepAliveMessage c)) as Hsend.
  assert (connected (c_rtsp c)) as Hcon by (unfold connected; by rewrite Hs).
  destruct (send_method _ _ _) as [res d]. cbn [snd] in *.
  specialize (Hsend ltac:(done) ltac:(done)). case_bool_decide; [|by eapply quiet_failed].
  eapply quiet_sent; [exact Hsend|done|by left].
Qed.

(** ** SETUP and PLAY *)

(** A request with a query, sent or not. *)
Lemma told_follows e u c request res t cfg :
  server_inv c u -> connected (c_rtsp c) ->
  (unclear_after u t = false -> told_server cfg (server_get (server_sees (c_sent c)) t)) ->
  let d := Client (next_cseq (stopTimerKeepAliveMessage (c_rtsp c))) cfg (c_psi c) (c_rtp c)
             (c_sent c ++ [t]) (c_device c) in
  follows u c
    (if bool_decide (res = RTSP_OK) then
       on_rtsp (fun r => startTimerResetConnect (env_now e) 4000
                  (r <| m_wait_response := true |> <| m_rtsp_request := request |>)) d
     else resetConnect (env_now e) true d).
Proof.
  intros [Hp _ _] Hcon Htold d. exists [t]. case_bool_decide.
  - split; [done|]. constructor; [exact Hp| |].
    + constructor; [done|]. intros Hc. by destruct Hc.
    + intros _ Hu. specialize (Htold Hu). unfold server_sees in *.
      change (c_sent (on_rtsp _ d)) with (c_sent c ++ [t]). rewrite foldl_app. exact Htold.
  - destruct (resetConnect_fields (env_now e) true d) as (r & cfg' & -> & _ & Hh & Hpt & Hs & Hrq & Hk).
    split; [done|]. constructor; cbn [c_rtsp c_sent c_cfg update_field client_settable rebuild].
    + unfold plain_server. by rewrite Hh, Hpt.
    + constructor; [by rewrite Hk|done].
    + intros Ht. destruct (disconnected_not_told r); [by left|done].
Qed.

Lemma setup_follows e u c :
  server_inv c u -> tuner_wf (c_cfg c) (c_psi c) -> connected (c_rtsp c) ->
  follows u c (sendRequest e RTSP_REQUEST_SETUP c).2.
Proof.
  intros Hinv Hwf Hcon. unfold sendRequest. destruct (m_wait_response _); [by apply quiet_follows|].
  cbn [send_method]. unfold sendSetup. set (c1 := on_rtsp stopTimerKeepAliveMessage c).
  change (c_cfg c1) with (c_cfg c). pose proof (wanted_pids_nonneg _ _ Hwf) as Hpos.
  pose proof (getSetupData_graphic (c_cfg c)) as Hfree.
  assert (exists q, (getSetupData (c_cfg c)).1 = query_start q) as [q Hq].
  { unfold getSetupData. destruct (take_tuning (c_cfg c)) as [tuning c2].
    destruct (addCaPids _ _) as [pids c3]. by eexists. }
  assert (world_ok (World (c_cfg c) (c_psi c) (server_sees (c_sent c)) true)) as Hw by by constructor.
  pose proof (ok_server _ (world_setup_ok _ Hw)) as Htold. unfold world_setup in Htold. cbn [w_cfg] in Htold.
  destruct (getSetupData (c_cfg c)) as [data cfg]. cbn [fst w_cfg w_server w_unclear] in *. subst data.
  apply (told_follows e u c); [done|done|]. intros _. unfold server_get. rewrite method_of_setup.
  rewrite request_query_text; [by apply Htold|apply Hinv| | |exact Hfree].
  - apply (bool_decide_unpack _); vm_compute; exact I.
  - destruct (negb _); [|by split; apply Forall_nil]. apply plain_app; [|apply plain_dec].
    split; apply (bool_decide_unpack _); vm_compute; exact I.
Qed.

(** Stopping the keep-alive timer alone. *)
Lemma quiet_stop c : quiet c (on_rtsp stopTimerKeepAliveMessage c).
Proof. apply quiet_rtsp; [done..| |done]. intros []. by constructor. Qed.

Lemma play_told u c psi s t data cfg :
  tuner_wf c psi -> getPlayData c = (data, cfg) -> request_query t = query data ->
  is_setup t = false -> is_play t = true -> (u = false -> told_server c s) ->
  unclear_after u t = false -> told_server cfg (server_get s t).
Proof.
  intros Hwf Hdata Hq Hs Hp Htold Hu. pose proof (wanted_pids_nonneg _ _ Hwf) as Hpos.
  destruct (play_query_retunes c Hpos (tw_requested _ _ Hwf)) as [Hret Hadd].
  assert (world_ok (World c psi s u)) as Hw by by constructor.
  pose proof (ok_server _ (world_play_ok _ Hw)) as Hok. unfold world_play in Hok. cbn [w_cfg] in Hok.
  rewrite Hdata in *. cbn [fst w_cfg w_server w_unclear w_psi] in *.
  unfold server_get, unclear_after in *. rewrite Hs, Hp, Hq, Hret in *. apply Hok.
  destruct (bool_decide (m_status c = CONFIG_STATUS_CHANNEL_CHANGED)); [|done].
  apply bool_decide_eq_false in Hu. apply negb_false_iff, bool_decide_eq_true.
  destruct (getPidStatus c) eqn:Hst; [by destruct Hu; apply Hadd|done].
Qed.

Lemma play_follows e u c :
  server_inv c u -> tuner_wf (c_cfg c) (c_psi c) -> told_state (c_rtsp c) -> connected (c_rtsp c) ->
  follows u c (sendRequest e RTSP_REQUEST_PLAY c).2.
Proof.
  intros Hinv Hwf Hstate Hcon. unfold sendRequest. destruct (m_wait_response _); [by apply quiet_follows|].
  cbn [send_method]. unfold sendPlay. set (c1 := on_rtsp stopTimerKeepAliveMessage c).
  destruct (no_session (c_rtsp c1)).
  { apply quiet_follows; [done|]. transitivity c1; [apply quiet_stop|apply quiet_reset]. }
  change (c_cfg c1) with (c_cfg c). pose proof (wanted_pids_nonneg _ _ Hwf) as Hpos.
  pose proof (getPlayData_graphic (c_cfg c)) as Hfree.
  assert (exists q, (getPlayData (c_cfg c)).1 = query_start q) as [q Hq].
  { unfold getPlayData. destruct (retune (c_cfg c)) as [tuning c2].
    destruct (if bool_decide _ then _ else _) as [pids c3]. by eexists. }
  destruct (getPlayData (c_cfg c)) as [data cfg] eqn:Hdata. cbn [fst] in *. subst data.
  rewrite (app_assoc (str "stream=")).
  apply (told_follows e u c); [done|done|].
  destruct (method_of_play (c_rtsp c1) ((str "stream=" ++ dec (m_rtsp_stream_id (c_rtsp c1))) ++ query_start q
    ++ start_line_end (m_rtsp_cseq (c_rtsp c1)) ++ session_line (m_rtsp_session_id (c_rtsp c1)) ++ crlf))
    as [Hs Hp].
  eapply play_told; [exact Hwf|exact Hdata| |exact Hs|exact Hp|by apply Hinv].
  apply request_query_text; [apply Hinv| | |exact Hfree].
  - apply (bool_decide_unpack _); vm_compute; exact I.
  - apply plain_app; [|apply plain_dec]. split; apply (bool_decide_unpack _); vm_compute; exact I.
Qed.
End Handlers.

(** ** Responses *)

(** What handling what arrived may change, as long as it does not drop the
    connection. *)
Record heard (c d : client) : Prop := {
  hd_server : m_host (c_rtsp d) = m_host (c_rtsp c) /\ m_port (c_rtsp d) = m_port (c_rtsp c);
  hd_status : m_rtsp_status (c_rtsp d) = m_rtsp_status (c_rtsp c);
  hd_request : m_rtsp_request (c_rtsp d) = m_rtsp_request (c_rtsp c) \/
               m_rtsp_request (c_rtsp d) = RTSP_REQUEST_NONE;
  hd_keep_alive : m_timer_keep_alive (c_rtsp d) = m_timer_keep_alive (c_rtsp c);
  hd_sent : c_sent d = c_sent c;
  hd_told : forall s, told_server (c_cfg c) s -> told_server (c_cfg d) s
}.

#[export] Instance heard_preorder : PreOrder heard.
Proof.
  constructor; [intros c; by constructor; [..|left| | |]|].
  intros c d e [[] ? Hr ? ? ?] [[] ? Hr' ? ? ?]. constructor; [split|..]; try congruence; [|by auto].
  destruct Hr' as [->|?]; [done|by right].
Qed.

Lemma heard_quiet c d : heard c d -> quiet c d.
Proof.
  intros [Hs Hst Hr Hk Hsent Ht]. constructor; [done| | |].
  - intros [Hka Hrq]. constructor; [by rewrite Hk, Hst|]. unfold connected in *. rewrite Hst.
    intros Hc. destruct Hr as [->|]; [by apply Hrq|done].
  - exists []. by rewrite app_nil_r.
  - intros Hd. split; [|done]. unfold told_state in *. rewrite Hst in Hd.
    destruct Hd as [?|[?|[Hs' Hn]]]; [by left|by right; left|].
    right; right. split; [done|]. by destruct Hr as [<-|].
Qed.

Section Responses.
Context `{DvbConstants} `{LongWidth}.

(** A change of the client's own fields only. *)
Lemma heard_rtsp c r :
  m_host r = m_host (c_rtsp c) -> m_port r = m_port (c_rtsp c) ->
  m_rtsp_status r = m_rtsp_status (c_rtsp c) ->
  m_rtsp_request r = m_rtsp_request (c_rtsp c) \/ m_rtsp_request r = RTSP_REQUEST_NONE ->
  m_timer_keep_alive r = m_timer_keep_alive (c_rtsp c) -> heard c (c <| c_rtsp := r |>).
Proof. intros Hh Hp Hs Hr Hk. by constructor. Qed.

Lemma take_frame_heard e len2 c d :
  client_inv c -> len2 <= zlen (m_rx_data (c_rtsp c)) -> take_frame e len2 c = Some d ->
  heard c d /\ m_rtsp_request (c_rtsp d) = m_rtsp_request (c_rtsp c).
Proof.
  intros [Hi Hwf] Hlen Hd. unfold take_frame in Hd. set (c1 := on_rtsp _ c) in Hd.
  destruct (rtpTcpData _ _ _ _ _ _ _) as [dl|] eqn:Hdl; [|done]. cbn [mbind option_bind] in Hd.
  destruct (rtpTcpData_tuner _ _ _ _ _ _ _ _ Hwf Hlen Hdl) as [_ Hst]. injection Hd as <-.
  split; [|done]. constructor; try done; [by left|]. intros s Hs.
  exact (told_server_ca_step _ _ s Hst Hs).
Qed.

(** A response completes a request only if there was one. *)
Lemma dispatch_response_complete data res r res' r' :
  dispatch_response data res r = Some (res', r') -> res' = RTSP_RESPONSE_COMPLETE ->
  res = RTSP_RESPONSE_COMPLETE \/ m_rtsp_request r <> RTSP_REQUEST_NONE.
Proof.
  unfold dispatch_response. intros Hd ->. destruct (m_rtsp_request r); [|by right..].
  injection Hd as -> _. by left.
Qed.

Lemma take_response_heard e data res res_code c out :
  take_response e data res res_code c = Some out ->
  match out with
  | inr ret => exists d, ret = (RTSP_ERROR, resetConnect (env_now e) true d) /\ heard c d
  | inl (res', _, d) => heard c d /\ (res' = RTSP_RESPONSE_COMPLETE ->
      res = RTSP_RESPONSE_COMPLETE \/ m_rtsp_request (c_rtsp c) <> RTSP_REQUEST_NONE)
  end.
Proof.
  intros Hd. unfold take_response in Hd. set (c1 := on_rtsp _ c) in Hd.
  case_bool_decide as Hdesc.
  { injection Hd as <-. split; [apply (heard_rtsp c); by try left|].
    intros _. right. change (m_rtsp_request (c_rtsp c) = RTSP_REQUEST_DESCRIBE) in Hdesc. by rewrite Hdesc. }
  set (code := scan_status data res_code) in Hd. clearbody code.
  destruct (negb (code =? 200)).
  { cbn [mbind option_bind] in Hd. rewrite bool_decide_eq_true_2 in Hd by done. injection Hd as <-.
    eexists. split; [reflexivity|]. apply (heard_rtsp c); by try left. }
  destruct (dispatch_response data res (c_rtsp c1)) as [[res' r']|] eqn:Hdisp; [|done].
  pose proof (dispatch_response_complete _ _ _ _ _ Hdisp) as Hcomplete.
  apply dispatch_response_same in Hdisp as (id & t & stream & ->).
  cbn [mbind option_bind] in Hd. injection Hd as <-. case_bool_decide.
  { subst res'. eexists. split; [reflexivity|]. apply (heard_rtsp c); by try left. }
  case_bool_decide; (split; [apply (heard_rtsp c); by try left|done]).
Qed.

(** What was heard; in the second case the connection was dropped then. *)
Definition heard_or_reset (e : env) (res : rtsp_res) (c : client) (out : rtsp_res * client) : Prop :=
  (heard c out.2 /\ (out.1 = RTSP_RESPONSE_COMPLETE ->
     res = RTSP_RESPONSE_COMPLETE \/ m_rtsp_request (c_rtsp c) <> RTSP_REQUEST_NONE)) \/
  exists d, out = (RTSP_ERROR, resetConnect (env_now e) true d) /\ heard c d.

Lemma heard_first e res res' c d out :
  heard c d ->
  (res' = RTSP_RESPONSE_COMPLETE ->
   res = RTSP_RESPONSE_COMPLETE \/ m_rtsp_request (c_rtsp c) <> RTSP_REQUEST_NONE) ->
  heard_or_reset e res' d out -> heard_or_reset e res c out.
Proof.
  intros Hcd Hres [[Hd Hc]|(x & -> & Hx)].
  - left. split; [by etrans|]. intros Ho. destruct (Hc Ho) as [Hr|Hr]; [auto|right].
    intros Hn. apply Hr. destruct (hd_request _ _ Hcd) as [->|]; done.
  - right. exists x. split; [done|by etrans].
Qed.

Lemma again_heard e fuel : forall res res_code c out,
  client_inv c -> connected (c_rtsp c) -> again None fuel e res res_code c = Some out ->
  heard_or_reset e res c out.
Proof.
  induction fuel as [|fuel IH]; intros res res_code c out Hinv Hcon Hout; [done|].
  assert (forall r : rtsp_res, r <> RTSP_RESPONSE_COMPLETE -> heard_or_reset e res c (r, c)) as Hstop
    by (intros r Hr; by left).
  cbn [again] in Hout. destruct (rd _ 0) as [b0|]; [|done]. cbn [mbind option_bind] in Hout.
  destruct (inv_buffer _ _ (ci_rtsp _ Hinv)) as [Hbuf Hpos]. destruct (b0 =? 36).
  - destruct (negb _); [injection Hout as <-; by apply Hstop|].
    destruct (_ <? 4); [injection Hout as <-; by apply Hstop|].
    destruct (rd _ 2) as [b2|] eqn:H2; [|done]. destruct (rd _ 3) as [b3|] eqn:H3; [|done].
    cbn [mbind option_bind] in Hout. apply rd_bounds in H2 as [_ H2], H3 as [_ H3].
    destruct (Z.ltb_spec (m_rx_data_pos (c_rtsp c)) (4 + be16 b2 b3)); [injection Hout as <-; by apply Hstop|].
    destruct (take_frame e _ c) as [d|] eqn:Hd; [|done]. cbn [mbind option_bind] in Hout.
    assert (0 <= 4 + be16 b2 b3 <= m_rx_data_pos (c_rtsp c)) as Hlen
      by (rewrite be16_eq in * by done; lia).
    assert (4 + be16 b2 b3 <= zlen (m_rx_data (c_rtsp c))) as Hsize by lia.
    destruct (take_frame_heard _ _ _ _ Hinv Hsize Hd) as [Hheard _].
    apply take_frame_inv in Hd as (Hd & Hs & _); [|done..].
    apply heard_first with res d; [done|by left|].
    eapply IH; [done|unfold connected in *; by rewrite Hs|exact Hout].
  - destruct (terminate (c_rtsp c)) as [r|] eqn:Ht; [|done]. cbn [mbind option_bind] in Hout.
    apply terminate_inv in Ht as (mem & -> & Hinv1 & Hstr); [|done..].
    set (c1 := c <| c_rtsp := _ |>) in *.
    assert (heard c c1) as Hc1 by (apply heard_rtsp; by try left).
    change (m_rx_data (_ <| m_rx_data := mem |>)) with mem in Hout.
    destruct (strstr (c_str mem) (crlf ++ crlf)) as [s|] eqn:Hs; [|injection Hout as <-; by left].
    destruct (take_response _ _ _ _ c1) as [next|] eqn:Hn; [|done]. cbn [mbind option_bind] in Hout.
    pose proof (take_response_heard _ _ _ _ _ _ Hn) as Hheard.
    apply (take_response_consumed _ _ _ _ _ _ _ Hinv1 Hcon Hs Hstr) in Hn.
    destruct next as [[[res' code'] d]|ret].
    2: { injection Hout as <-. destruct Hheard as (d & -> & Hd). right. exists d. by split; [|etrans]. }
    destruct Hheard as [Hd Hres]. set (d1 := on_rtsp _ d) in *.
    assert (heard c d1) as Hcd.
    { etrans; [exact Hc1|]. etrans; [exact Hd|]. apply heard_rtsp; by try right. }
    destruct (0 <? _).
    + apply heard_first with res' d1; [done|exact Hres|]. eapply IH; [apply Hn..|exact Hout].
    + injection Hout as <-. left. by split.
Qed.

Lemma handleResponse_heard e c out :
  client_inv c -> connected (c_rtsp c) -> recv_ok e (c_rtsp c) ->
  handleResponse e c = Some out -> heard_or_reset e RTSP_ERROR c out.
Proof.
  intros Hinv Hcon Hrecv Hout.
  destruct (handleResponse_start e c out Hinv Hcon Hrecv Hout) as (mem & pos & Hinv1 & Hcase).
  set (c1 := c <| c_rtsp := _ |>) in *.
  assert (heard c c1) as Hc1 by (apply (heard_rtsp c); by try left).
  apply heard_first with RTSP_ERROR c1; [done|by left|].
  destruct Hcase as [->|Hagain]; [by left|]. by apply again_heard in Hagain.
Qed.
End Responses.

(** ** Every step *)

Section Steps.
Context `{DvbConstants} `{LongWidth}.

Lemma quiet_heard_or_reset e res c out : heard_or_reset e res c out -> quiet c out.2.
Proof.
  intros [[Hh _]|(d & -> & Hd)]; [by apply heard_quiet|].
  transitivity d; [by apply heard_quiet|apply quiet_reset].
Qed.

(** A completed response moves the client on. *)
Lemma quiet_complete e c res d s :
  heard_or_reset e RTSP_ERROR c (res, d) -> res = RTSP_RESPONSE_COMPLETE ->
  m_rtsp_status (c_rtsp c) = RTSP_STATUS_SESSION_ESTABLISHING /\ s = RTSP_STATUS_SESSION_PLAYING \/
  m_rtsp_status (c_rtsp c) = RTSP_STATUS_SESSION_PLAYING /\ s = RTSP_STATUS_SESSION_TRANSMITTING ->
  quiet c (on_rtsp (set_status s) d).
Proof.
  intros Hr -> Hs. destruct Hr as [[Hh Hreq]|(x & Hx & _)]; [|done].
  destruct (Hreq eq_refl) as [|Hn]; [done|]. cbn [snd] in Hh.
  assert (told_state (c_rtsp c)) as Hc.
  { unfold told_state. destruct Hs as [[-> _]|[-> _]]; [by right; right|by left]. }
  destruct Hh as [Hsv Hst Hrq Hk Hsent Ht].
  constructor; cbn [c_rtsp c_sent c_cfg on_rtsp update_field client_settable rebuild]; [exact Hsv| | |].
  - intros [Hka _]. constructor.
    + change (m_timer_keep_alive (set_status s (c_rtsp d))) with (m_timer_keep_alive (c_rtsp d)).
      rewrite Hk. intros Ha. apply Hka in Ha. destruct Hs as [[Hs _]|[Hs _]]; congruence.
    + intros Hc'. destruct Hc'. unfold connected. cbn. by destruct Hs as [[_ ->]|[_ ->]].
  - exists []. by rewrite app_nil_r.
  - intros _. by split.
Qed.

Lemma poll_quiet e ev c d :
  client_inv c -> orderly (c_rtsp c) -> recv_ok e (c_rtsp c) ->
  handlePollEvents e ev c = Some d -> quiet c d.
Proof.
  intros Hinv Ho Hrecv Hd. unfold handlePollEvents in Hd.
  destruct (_ || _ || _); [injection Hd as <-; apply quiet_reset|].
  pose proof (fun out Hcon => handleResponse_heard e c out Hinv Hcon Hrecv) as Hresp.
  destruct (m_rtsp_status (c_rtsp c)) eqn:Hs; [by injection Hd as <-| |destruct (POLLIN ev); [|by injection Hd as <-]..].
  { injection Hd as <-. destruct (POLLOUT ev); [|done].
    assert (m_rtsp_request (c_rtsp c) = RTSP_REQUEST_NONE) as Hn
      by (apply Ho; unfold connected; rewrite Hs; naive_solver).
    apply quiet_rtsp; [done..| |].
    - intros [Hka _]. constructor; [|done]. intros Ha. apply Hka in Ha. congruence.
    - intros [?|[?|[_ Hne]]]; done. }
  all: assert (connected (c_rtsp c)) as Hcon by (by unfold connected; rewrite Hs).
  all: destruct (handleResponse e c) as [[res c1]|]; [|done]; injection Hd as <-.
  all: specialize (Hresp _ Hcon eq_refl); pose proof (quiet_heard_or_reset _ _ _ _ Hresp) as Hq; cbn [snd] in Hq.
  - case_bool_decide; [|done]. eapply quiet_complete; [done..|by left].
  - case_bool_decide; [|done].
    set (c2 := on_rtsp (set_status RTSP_STATUS_SESSION_TRANSMITTING) c1).
    transitivity c2; [|by apply (quiet_same c2)].
    eapply quiet_complete; [done..|by right].
  - done.
  - case_bool_decide; [|done]. transitivity c1; [done|apply quiet_reset].
Qed.

(** The status step of a client that transmits. *)
Lemma transmitting_follows e u c d :
  server_inv c u -> tuner_wf (c_cfg c) (c_psi c) ->
  m_rtsp_status (c_rtsp c) = RTSP_STATUS_SESSION_TRANSMITTING ->
  handleRTSPStatus e c = Some d -> follows u c d.
Proof.
  intros Hinv Hwf Hs Hd. unfold handleRTSPStatus in Hd. rewrite Hs in Hd. destruct (_ || _).
  { injection Hd as <-. unfold request_and.
    assert (follows u c (sendRequest e RTSP_REQUEST_PLAY c).2) as (l & Hl & Hp)
      by (apply play_follows; [done|done|by right; left|by unfold connected; rewrite Hs]).
    pose proof (send_keep_alive e RTSP_REQUEST_PLAY c) as Hka.
    destruct (sendRequest e RTSP_REQUEST_PLAY c) as [res c1]. cbn [fst snd] in *.
    case_bool_decide as Hres; [|by exists l]. destruct (Hka Hres) as [Hk Hst]. exists l. split; [done|].
    destruct Hp as [Hpl _ Ht]. constructor; [exact Hpl| |].
    - constructor; [cbn; by rewrite Hk|]. intros Hc. by destruct Hc.
    - intros _. apply Ht. right; left. by rewrite Hst. }
  case_bool_decide.
  { injection Hd as <-. apply quiet_follows; [done|by apply quiet_teardown]. }
  destruct (negb _); [|injection Hd as <-; by apply quiet_follows].
  destruct (startTimerKeepAliveMessage _ _) as [r|] eqn:Hr; [|done]. injection Hd as <-.
  apply quiet_follows; [done|]. unfold startTimerKeepAliveMessage in Hr.
  destruct (_ <? _); [done|]. destruct (mul_int _ _) as [ms|]; [|done]. injection Hr as <-.
  apply quiet_rtsp; [done..| |done]. intros [_ Hrq]. by constructor.
Qed.

Lemma start_connecting_quiet e c :
  m_rtsp_status (c_rtsp c) = RTSP_STATUS_CONFIG_WAITING -> idle (c_rtsp c) ->
  quiet c (start_connecting e c).
Proof.
  intros Hs [_ _ Hreq _ _ [_ Hk] _].
  assert (exists r cfg, start_connecting e c = c <| c_rtsp := r |> <| c_cfg := cfg |> /\
    m_host r = m_host (c_rtsp c) /\ m_port r = m_port (c_rtsp c) /\
    (m_rtsp_status r = RTSP_STATUS_CONFIG_WAITING \/ m_rtsp_status r = RTSP_STATUS_SERVER_CONNECTING) /\
    m_rtsp_request r = RTSP_REQUEST_NONE /\ m_active (m_timer_keep_alive r) = false)
    as (r & cfg & -> & Hh & Hp & Hst & Hrq & Hka).
  { exists (c_rtsp (start_connecting e c)), (c_cfg (start_connecting e c)). unfold start_connecting.
    destruct c as [[] cfg psi rtp sent dev]. cbn in *. subst.
    destruct (_ <? _); unfold connectToServer; destruct (env_addrs e) as [addrs|];
      try destruct (connect_loop addrs); cbn; unfold startTimerReconnect;
      try destruct (_ <? 30000); cbn; (split; [reflexivity|]); repeat split;
      first [by left|by right|done]. }
  assert (~ told_state r) as Ht by by apply disconnected_not_told.
  constructor; cbn [c_rtsp c_sent c_cfg update_field client_settable rebuild]; try done.
  - intros _. constructor; [by rewrite Hka|done].
  - exists []. by rewrite app_nil_r.
Qed.

Lemma status_follows e u c d :
  client_inv c -> server_inv c u -> handleRTSPStatus e c = Some d -> follows u c d.
Proof.
  intros [Hi Hwf] Hinv Hd.
  destruct (m_rtsp_status (c_rtsp c)) eqn:Hs; [| | | |by eapply transmitting_follows|];
    unfold handleRTSPStatus in Hd; rewrite Hs in Hd.
  - apply quiet_follows; [done|].
    destruct (getChannelStatus (c_cfg c)); injection Hd as <-; [|by apply start_connecting_quiet; [|apply Hi]|done].
    apply quiet_same; cbn; by destruct (m_active _).
  - injection Hd as <-. by apply quiet_follows.
  - injection Hd as <-. apply setup_follows; [done..|]. unfold connected. by rewrite Hs.
  - injection Hd as <-. apply play_follows; [done..|by left|]. unfold connected. by rewrite Hs.
  - injection Hd as <-. by apply quiet_follows.
Qed.

(** A timer's handler, and the timer after it. *)
Lemma call_quiet e i c :
  orderly (c_rtsp c) -> quiet c (@call _ (client_timers e) i c).
Proof.
  intros Ho. unfold call. destruct (m_active _) eqn:Hact; [|done]. cbn [clock_gettime client_timers].
  assert (quiet c (run_handler i c)) as Hq.
  { destruct i; cbn [run_handler client_timers].
    - apply quiet_reset.
    - apply quiet_option. by apply Ho.
    - unfold timeoutReconnect. destruct (getChannelStatus _); [by apply (quiet_same c)..|].
      apply quiet_cfg. intros s. by apply same_pids_told. }
  set (c1 := run_handler i c) in *. set (t := @timer_at _ (client_timers e) i c1).
  etrans; [exact Hq|].
  assert (forall t', (i = TimerKeepAlive -> m_active t' = true -> m_active t = true) ->
    quiet c1 (@set_timer _ (client_timers e) i t' c1)) as Hset.
  { intros t' Ht. destruct i; cbn [set_timer client_timers];
      try (by apply (quiet_same c1)). apply quiet_rtsp; [done..| |done].
    intros [Hka Hrq]. constructor; [|done]. cbn. intros Ha. apply Hka. by apply Ht. }
  destruct (m_single t); apply Hset; [done|]. by intros _.
Qed.

Lemma timer_quiet e c : orderly (c_rtsp c) -> quiet c (handleNextTimer e c).
Proof.
  intros Ho. apply (@callNextTimer_ind _ (client_timers e) (quiet c)); [done| |done]. intros i d Hd. etrans; [exact Hd|].
  apply call_quiet. by apply Hd.
Qed.

End Steps.

(** ** A new client *)

Lemma satipRTSP_new_server host port garbage now cfg psi rtp :
  plain host -> plain port -> server_inv (satipRTSP_new host port garbage now cfg psi rtp) false.
Proof.
  intros Hh Hp. unfold satipRTSP_new. set (c := Client _ _ _ _ _ _).
  destruct (resetConnect_fields now false c) as (r & cfg' & -> & _ & Hrh & Hrp & Hs & Hrq & Hk).
  constructor; cbn [c_rtsp c_sent c_cfg update_field client_settable rebuild].
  - split; by rewrite ?Hrh, ?Hrp.
  - constructor; [by rewrite Hk|done].
  - intros Ht. destruct (disconnected_not_told r); [by left|done].
Qed.
