(* ===== verification/RtspSession.v ===== *)
(** Sessions of the RTSP client: how it gets from a new tuning to the stream,
    how it retries, and where it loses its way. *)

From S2P Require Import Prelude Crc Psi CText OptParser Dvb Timer Config ConfigText Tuner Rtp Rtsp RtspInv RtspText RtspProps.

(** ** Receiving a whole response *)

(** What a response sets of the session. *)
Definition set_session (o : option (text * Z * Z)) (r : satipRTSP) : satipRTSP :=
  match o with
  | None => r
  | Some (id, timeout, stream) =>
      r <| m_rtsp_session_id := id |> <| m_rtsp_timeout := timeout |> <| m_rtsp_stream_id := stream |>
  end.

(** After the response. *)
Definition answered (o : option (text * Z * Z)) (mem : list byte) (r : satipRTSP) : satipRTSP :=
  (stopTimerResetConnect (set_session o (r <| m_wait_response := false |>)))
    <| m_rx_data := mem |> <| m_rx_data_pos := 0 |> <| m_rtsp_request := RTSP_REQUEST_NONE |>.

Section Receive.
Context `{LongWidth}.

Lemma insert_behind (data rest : list byte) x y :
  <[length data := x]> (data ++ y :: rest) = data ++ x :: rest.
Proof. induction data as [|b data IH]; [done|]. exact (f_equal (cons b) IH). Qed.

(** The buffer after [recv], the text behind a zero. *)
Definition received (data rest : list byte) (r : satipRTSP) : satipRTSP :=
  r <| m_rx_data := data ++ x00 :: rest |> <| m_rx_data_pos := zlen data |>.

(** Data that starts a response, received into the empty buffer, is stored and
    terminated, and its first response is handled. *)
Lemma receive_start e c data b l s :
  client_inv c -> m_rx_data_pos (c_rtsp c) = 0 -> env_recv e = Received data ->
  zlen data < m_rx_data_len (c_rtsp c) -> data = b :: l -> ub b <> 36 -> free_of 0 data ->
  strstr data (crlf ++ crlf) = Some s ->
  exists rest fuel, zlen (data ++ x00 :: rest) = m_rx_data_len (c_rtsp c) /\ (length l < fuel)%nat /\
    handleResponse e c
    = (next ← take_response e data RTSP_ERROR 0 (c <| c_rtsp := received data rest (c_rtsp c) |>);
       match next with
       | inr ret => Some ret
       | inl (res, res_code, c) =>
         let c := on_rtsp (fun r => (consume (zlen data - zlen s + 4) r)
                                      <| m_rtsp_request := RTSP_REQUEST_NONE |>) c in
         if 0 <? m_rx_data_pos (c_rtsp c) then again None fuel e res res_code c else Some (res, c)
       end).
Proof.
  intros Hinv Hp Hrecv Hlen Hhd Hb Hnul Hend.
  destruct (inv_buffer _ _ (ci_rtsp _ Hinv)) as [Hbuf _].
  pose proof (zlen_nonneg l) as Hl. assert (zlen data = 1 + zlen l) as Hz by (rewrite Hhd; apply zlen_cons).
  set (n := length data). assert (zlen data = Z.of_nat n) as Hn by done.
  destruct (drop n (m_rx_data (c_rtsp c))) as [|y rest] eqn:Hdrop.
  { apply (f_equal length) in Hdrop. rewrite length_drop in Hdrop. unfold zlen in *. cbn in Hdrop. lia. }
  exists rest, (Z.to_nat (zlen data)). split; [|split].
  { rewrite <- Hbuf. unfold zlen. rewrite <- (take_drop n (m_rx_data (c_rtsp c))), Hdrop, !length_app, length_take.
    unfold zlen in *. cbn. lia. }
  { unfold zlen in *. lia. }
  set (q1 := (c_rtsp c) <| m_rx_data := data ++ y :: rest |> <| m_rx_data_pos := zlen data |>).
  assert (handleResponse e c = again None (S (Z.to_nat (zlen data))) e RTSP_ERROR 0 (c <| c_rtsp := q1 |>))
    as ->.
  { unfold handleResponse. rewrite Hp, (proj2 (Z.eqb_neq _ _)) by lia. rewrite Hrecv.
    assert (store data (c_rtsp c) = Some ((c_rtsp c) <| m_rx_data := data ++ y :: rest |>)) as ->.
    { unfold store. rewrite Hp, !(proj2 (Z.leb_le _ _)) by lia. cbn [andb].
      change (0 + zlen data) with (zlen data). unfold ptr_add. by rewrite Hn, Nat2Z.id, Hdrop. }
    cbn. by rewrite Hp. }
  generalize (Z.to_nat (zlen data)) as fuel. intros fuel. cbn [again].
  change (c_rtsp (c <| c_rtsp := q1 |>)) with q1.
  assert (rd (m_rx_data q1) 0 = Some (ub b)) as -> by (cbn; rewrite Hhd; done).
  cbn [mbind option_bind]. rewrite (proj2 (Z.eqb_neq _ _) Hb).
  assert (terminate q1 = Some (received data rest (c_rtsp c))) as ->.
  { unfold terminate. change (m_rx_data_pos q1) with (zlen data).
    change (m_rx_data q1) with (data ++ y :: rest). rewrite (proj2 (Z.leb_le _ _)) by lia.
    rewrite (proj2 (Z.ltb_lt _ _)) by (rewrite zlen_app, zlen_cons; pose proof (zlen_nonneg rest); lia).
    cbn [andb]. rewrite Hn, Nat2Z.id. unfold n. by rewrite insert_behind. }
  cbn [mbind option_bind]. change (m_rx_data (received data rest (c_rtsp c))) with (data ++ x00 :: rest).
  assert (c_str (data ++ x00 :: rest) = data) as -> by by apply c_str_app. by rewrite Hend.
Qed.

(** A response with status 200 that completes the request. *)
Lemma take_response_complete e data c r :
  m_rtsp_request (c_rtsp c) <> RTSP_REQUEST_DESCRIBE -> scan_status data 0 = 200 ->
  dispatch_response data RTSP_ERROR ((c_rtsp c) <| m_wait_response := false |>)
  = Some (RTSP_RESPONSE_COMPLETE, r) ->
  take_response e data RTSP_ERROR 0 c
  = Some (inl (RTSP_RESPONSE_COMPLETE, 200, c <| c_rtsp := stopTimerResetConnect r |>)).
Proof.
  intros Hreq Hcode Hdisp. unfold take_response. rewrite bool_decide_eq_false_2 by done. rewrite Hcode.
  change (negb (200 =? 200)) with false. cbv iota. cbn [on_rtsp c_rtsp update_field].
  match goal with |- context [dispatch_response ?a ?b ?q] =>
    change (dispatch_response a b q) with (dispatch_response data RTSP_ERROR ((c_rtsp c) <| m_wait_response := false |>)) end.
  rewrite Hdisp. cbn [mbind option_bind].
  by rewrite bool_decide_eq_false_2, bool_decide_eq_true_2 by done.
Qed.

Lemma receive_response e c data o :
  client_inv c -> m_rx_data_pos (c_rtsp c) = 0 -> env_recv e = Received data ->
  whole_response data -> zlen data < m_rx_data_len (c_rtsp c) ->
  m_rtsp_request (c_rtsp c) <> RTSP_REQUEST_DESCRIBE ->
  (forall r, m_rtsp_request r = m_rtsp_request (c_rtsp c) ->
     dispatch_response data RTSP_ERROR r = Some (RTSP_RESPONSE_COMPLETE, set_session o r)) ->
  exists mem, zlen mem = m_rx_data_len (c_rtsp c) /\
    handleResponse e c
    = Some (RTSP_RESPONSE_COMPLETE, c <| c_rtsp := answered o mem (c_rtsp c) |>).
Proof.
  intros Hinv Hp Hrecv [(b & l & Hhd & Hb) Hnul Hend Hcode] Hlen Hreq Hdisp.
  destruct (receive_start e c data b l _ Hinv Hp Hrecv Hlen Hhd Hb Hnul Hend)
    as (rest & fuel & Hmem & _ & ->). exists (data ++ x00 :: rest). split; [done|].
  rewrite (take_response_complete e data _ (set_session o ((received data rest (c_rtsp c))
    <| m_wait_response := false |>))) by (done || by apply Hdisp).
  cbn [mbind option_bind]. replace (zlen data - zlen (crlf ++ crlf) + 4) with (zlen data)
    by (change (zlen (crlf ++ crlf)) with 4; lia).
  assert (forall r, m_rx_data_pos r = zlen data -> m_rx_data r = data ++ x00 :: rest ->
    consume (zlen data) r = r <| m_rx_data := data ++ x00 :: rest |> <| m_rx_data_pos := 0 |>) as Hcons.
  { intros r Hr Hm. unfold consume. by rewrite Hr, Hm, Z.sub_diag. }
  unfold on_rtsp. by destruct o as [[[id t] st]|]; rewrite Hcons by done.
Qed.
End Receive.

(** ** The way to the stream *)

Definition readable : poll_events := Events true false false false false.
Definition writable : poll_events := Events false true false false false.

Section Establish.
Context `{DvbConstants} `{LongWidth}.

Definition client_run (c : client) (steps : list client_step) : option client :=
  foldl (fun o s => o ≫= fun c => client_exec c s) (Some c) steps.

(** A connection without a session, yet. *)
Record fresh (c : client) (r : satipRTSP) : Prop := {
  fresh_session : m_rtsp_session_id r = [] /\ m_rtsp_stream_id r = -1 /\ m_rtsp_cseq r = 1;
  fresh_wait : m_wait_response r = false /\ m_rtsp_request r = RTSP_REQUEST_NONE;
  fresh_buffer : m_rx_data_pos r = 0 /\ m_rx_data_len r = m_rx_data_len (c_rtsp c);
  fresh_server : m_host r = m_host (c_rtsp c) /\ m_port r = m_port (c_rtsp c)
}.

Lemma start_connecting_fresh e c fd addrs :
  idle (c_rtsp c) -> env_addrs e = Some addrs -> connect_loop addrs = Some fd ->
  exists r, start_connecting e c = c <| c_rtsp := r |> /\ fresh c r /\
    m_rtsp_status r = RTSP_STATUS_SERVER_CONNECTING /\ m_fd r = fd /\
    m_active (m_timer_reset_connect r) = true.
Proof.
  intros [Hfd Hw Hreq [Hid Hst] Hp _ Hcs] Haddrs Hloop. unfold start_connecting, connectToServer.
  rewrite Haddrs, Hloop. rewrite bool_decide_eq_true_2 by done.
  destruct (_ <? _); (eexists; split; [reflexivity|]); by (split; [constructor|]).
Qed.

Definition transport_line (c : client) : text :=
  if isTcpData (c_cfg c) then str "Transport: RTP/AVP/TCP;interleaved=0-1" ++ crlf
  else str "Transport: RTP/AVP;unicast;client_port=" ++ dec (m_rtp_port (c_rtp c))
       ++ str "-" ++ dec (m_rtp_port (c_rtp c) + 1) ++ crlf.

(** The texts of the two requests. *)
Definition setup_text (c : client) (data : text) : text :=
  server_url "SETUP" (c_rtsp c) ++ data ++ start_line_end 1 ++ transport_line c ++ crlf.
Definition play_text (c : client) (stream : Z) (id data : text) : text :=
  server_url "PLAY" (c_rtsp c) ++ str "stream=" ++ dec stream ++ data ++ start_line_end 2
  ++ session_line id ++ crlf.

(** The requests, sent. *)
Definition waiting (e : env) (request : rtsp_request) (r : satipRTSP) : satipRTSP :=
  startTimerResetConnect (env_now e) 4000
    ((next_cseq (stopTimerKeepAliveMessage r)) <| m_wait_response := true |>
       <| m_rtsp_request := request |>).

Lemma setup_sent e c r :
  fresh c r -> env_send_ok e = true ->
  (sendRequest e RTSP_REQUEST_SETUP (c <| c_rtsp := r |>)).2
  = Client (waiting e RTSP_REQUEST_SETUP r) (getSetupData (c_cfg c)).2 (c_psi c) (c_rtp c)
      (c_sent c ++ [setup_text c (getSetupData (c_cfg c)).1]) (c_device c).
Proof.
  intros [(Hid & Hst & Hcs) [Hw _] _ [Hh Hp]] Hsend. unfold sendRequest.
  change (c_rtsp (c <| c_rtsp := r |>)) with r. rewrite Hw. cbn [send_method].
  unfold sendSetup, setup_text, server_url, transport_line.
  change (c_rtsp (on_rtsp stopTimerKeepAliveMessage (c <| c_rtsp := r |>)))
    with (stopTimerKeepAliveMessage r).
  change (c_cfg (on_rtsp stopTimerKeepAliveMessage (c <| c_rtsp := r |>))) with (c_cfg c).
  cbn [stopTimerKeepAliveMessage m_rtsp_stream_id m_rtsp_session_id m_rtsp_cseq m_host m_port].
  destruct (getSetupData (c_cfg c)) as [data cfg]. cbn [fst snd]. unfold send_text. rewrite Hsend.
  rewrite bool_decide_eq_true_2 by done. cbn. by rewrite Hst, Hid, Hcs, Hh, Hp.
Qed.

(** A PLAY of a client with a session. *)
Definition play_request (r : satipRTSP) (data : text) : text :=
  server_url "PLAY" r ++ str "stream=" ++ dec (m_rtsp_stream_id r) ++ data
  ++ start_line_end (m_rtsp_cseq r) ++ session_line (m_rtsp_session_id r) ++ crlf.

Lemma play_request_sent e c :
  m_wait_response (c_rtsp c) = false -> no_session (c_rtsp c) = false -> env_send_ok e = true ->
  sendRequest e RTSP_REQUEST_PLAY c
  = (RTSP_OK, Client (waiting e RTSP_REQUEST_PLAY (c_rtsp c)) (getPlayData (c_cfg c)).2 (c_psi c)
                (c_rtp c) (c_sent c ++ [play_request (c_rtsp c) (getPlayData (c_cfg c)).1]) (c_device c)).
Proof.
  intros Hw Hses Hsend. unfold sendRequest. rewrite Hw. cbn [send_method]. unfold sendPlay.
  change (no_session (c_rtsp (on_rtsp stopTimerKeepAliveMessage c))) with (no_session (c_rtsp c)).
  rewrite Hses. change (c_cfg (on_rtsp stopTimerKeepAliveMessage c)) with (c_cfg c).
  destruct (getPlayData (c_cfg c)) as [data cfg]. unfold send_text. rewrite Hsend.
  by rewrite bool_decide_eq_true_2.
Qed.

Lemma play_sent e c r stream id data cfg :
  m_wait_response r = false -> env_send_ok e = true ->
  m_rtsp_session_id r = id -> m_rtsp_stream_id r = stream -> id <> [] -> stream <> -1 ->
  m_rtsp_cseq r = 2 -> m_host r = m_host (c_rtsp c) -> m_port r = m_port (c_rtsp c) ->
  getPlayData (c_cfg c) = (data, cfg) ->
  (sendRequest e RTSP_REQUEST_PLAY (c <| c_rtsp := r |>)).2
  = Client (waiting e RTSP_REQUEST_PLAY r) cfg (c_psi c) (c_rtp c)
      (c_sent c ++ [play_text c stream id data]) (c_device c).
Proof.
  intros Hw Hsend Hid Hst Hne Hst1 Hcs Hh Hp Hplay.
  assert (no_session r = false) as Hses.
  { unfold no_session. rewrite Hst, Hid, (proj2 (Z.eqb_neq _ _) Hst1).
    by rewrite bool_decide_eq_false_2. }
  pose proof (play_request_sent e (c <| c_rtsp := r |>)) as Hps.
  rewrite (Hps Hw Hses Hsend).
  change (c_cfg (c <| c_rtsp := r |>)) with (c_cfg c). rewrite Hplay. cbn [fst snd].
  unfold play_request, play_text, server_url. cbn. by rewrite Hst, Hid, Hcs, Hh, Hp.
Qed.
End Establish.

Section Established.
Context `{DvbConstants} `{LongWidth}.

Lemma client_run_cons c s d steps :
  client_exec c s = Some d -> client_run c (s :: steps) = client_run d steps.
Proof. intros Hs. unfold client_run. cbn [foldl mbind option_bind]. by rewrite Hs. Qed.

Lemma whole_response_pos data : whole_response data -> 0 < zlen data.
Proof. intros [(b & l & -> & _) _ _ _]. rewrite zlen_cons. pose proof (zlen_nonneg l). lia. Qed.

(** The complete response of a state. *)
Lemma poll_establishing e c r :
  m_rtsp_status (c_rtsp c) = RTSP_STATUS_SESSION_ESTABLISHING ->
  handleResponse e c = Some (RTSP_RESPONSE_COMPLETE, c <| c_rtsp := r |>) ->
  handlePollEvents e readable c
  = Some (c <| c_rtsp := set_status RTSP_STATUS_SESSION_PLAYING r |>).
Proof. intros Hs Hr. unfold handlePollEvents. rewrite Hs, Hr. done. Qed.

Lemma poll_playing e c r :
  m_rtsp_status (c_rtsp c) = RTSP_STATUS_SESSION_PLAYING ->
  handleResponse e c = Some (RTSP_RESPONSE_COMPLETE, c <| c_rtsp := r |>) ->
  handlePollEvents e readable c
  = Some (c <| c_rtsp := resetReconnectBackoff (stopTimerReconnect
                           (set_status RTSP_STATUS_SESSION_TRANSMITTING r)) |>).
Proof. intros Hs Hr. unfold handlePollEvents. rewrite Hs, Hr. done. Qed.

(** Nothing is left to tell after a SETUP. *)
Lemma play_after_setup c psi :
  tuner_wf c psi -> m_status c = CONFIG_STATUS_CHANNEL_CHANGED ->
  getPlayData (getSetupData c).2 = ([], (getSetupData c).2).
Proof.
  intros Hwf Hch. destruct (getSetupData_settled c (tw_slots _ _ Hwf)) as (Hst & _ & Hs).
  rewrite Hch, bool_decide_eq_true_2 in Hs by done.
  set (d := (getSetupData c).2) in *. unfold getPlayData, retune.
  rewrite bool_decide_eq_false_2 by by rewrite Hs. by rewrite bool_decide_eq_false_2 by by rewrite Hst.
Qed.

(** The steps of a session that starts, for the answers in [e1] to [e6]. *)
Definition start_steps (e1 e2 e3 e4 e5 e6 : env) : list client_step :=
  [StepStatus e1; StepPoll e2 writable; StepStatus e3; StepPoll e4 readable;
   StepStatus e5; StepPoll e6 readable].

(** A server that answers both requests. *)
Record answering (e1 e3 e4 e5 e6 : env) (cseq1 : Z) (id : text) (timeout : Z) (transport : text)
    (stream : Z) (played : text) : Prop := {
  an_connect : exists addrs fd, env_addrs e1 = Some addrs /\ connect_loop addrs = Some fd;
  an_send : env_send_ok e3 = true /\ env_send_ok e5 = true;
  an_setup : env_recv e4 = Received (setup_response cseq1 id timeout transport stream);
  an_setup_ok : id_ok id /\ transport_ok transport /\ 0 < timeout < 2 ^ 31 /\ 0 < stream < 2 ^ 31 /\
                zlen (setup_response cseq1 id timeout transport stream) < 1024;
  an_play : env_recv e6 = Received played /\ whole_response played /\ zlen played < 1024
}.

(** The first two steps: connected. *)
Lemma get_connected c e1 e2 steps :
  client_inv c -> m_rtsp_status (c_rtsp c) = RTSP_STATUS_CONFIG_WAITING ->
  m_status (c_cfg c) = CONFIG_STATUS_CHANNEL_CHANGED ->
  (exists addrs fd, env_addrs e1 = Some addrs /\ connect_loop addrs = Some fd) ->
  exists r, client_run c (StepStatus e1 :: StepPoll e2 writable :: steps)
            = client_run (c <| c_rtsp := r |>) steps /\
    fresh c r /\ client_inv (c <| c_rtsp := r |>) /\ m_rtsp_status r = RTSP_STATUS_SESSION_ESTABLISHING.
Proof.
  intros Hinv Hs Hch (addrs & fd & Haddrs & Hfd).
  pose proof (inv_idle _ _ (ci_rtsp _ Hinv) Hs) as Hidle.
  destruct (start_connecting_fresh e1 c fd addrs Hidle Haddrs Hfd) as (r1 & Hc1 & Hf1 & Hs1 & _ & _).
  assert (client_exec c (StepStatus e1) = Some (c <| c_rtsp := r1 |>)) as E1.
  { cbn [client_exec]. unfold handleRTSPStatus, getChannelStatus. by rewrite Hs, Hch, Hc1. }
  pose proof (client_step_inv _ (StepStatus e1) _ Hinv I E1) as Hinv1.
  rewrite (client_run_cons _ _ _ _ E1). set (c1 := c <| c_rtsp := r1 |>) in *.
  set (r2 := set_status RTSP_STATUS_SESSION_ESTABLISHING (stopTimerResetConnect r1)).
  assert (client_exec c1 (StepPoll e2 writable) = Some (c <| c_rtsp := r2 |>)) as E2.
  { cbn [client_exec]. unfold handlePollEvents. change (c_rtsp c1) with r1. by rewrite Hs1. }
  rewrite (client_run_cons _ _ _ _ E2). exists r2. split_and!; [done|by destruct Hf1| |done].
  destruct Hinv1 as [Hi1 Hwf1]. destruct (inv_connecting _ _ Hi1 Hs1) as (_ & Hw1 & _).
  destruct Hi1 as [? (? & ? & ?) ? ? ? ? ? ?]. constructor; [|done].
  constructor; cbn; try done. change (m_wait_response r1 = false) in Hw1. by rewrite Hw1.
Qed.

(** The client with a session, before PLAY. *)
Definition after_setup (c : client) (r : satipRTSP) : client :=
  Client r (getSetupData (c_cfg c)).2 (c_psi c) (c_rtp c)
    (c_sent c ++ [setup_text c (getSetupData (c_cfg c)).1]) (c_device c).

Record has_session (c : client) (id : text) (stream timeout : Z) (r : satipRTSP) : Prop := {
  hs_status : m_rtsp_status r = RTSP_STATUS_SESSION_PLAYING;
  hs_session : m_rtsp_session_id r = id /\ m_rtsp_stream_id r = stream /\ m_rtsp_timeout r = timeout;
  hs_wait : m_wait_response r = false /\ m_rtsp_cseq r = 2;
  hs_server : m_host r = m_host (c_rtsp c) /\ m_port r = m_port (c_rtsp c);
  hs_buffer : m_rx_data_pos r = 0 /\ m_rx_data_len r = m_rx_data_len (c_rtsp c)
}.

(** The next two steps: SETUP and its response. *)
Lemma get_session c r e3 e4 cseq id timeout transport stream steps :
  32 <= long_bits -> client_inv (c <| c_rtsp := r |>) -> fresh c r ->
  m_rtsp_status r = RTSP_STATUS_SESSION_ESTABLISHING ->
  env_send_ok e3 = true -> env_recv e4 = Received (setup_response cseq id timeout transport stream) ->
  id_ok id -> transport_ok transport -> 0 < timeout < 2 ^ 31 -> 0 < stream < 2 ^ 31 ->
  zlen (setup_response cseq id timeout transport stream) < 1024 <= m_rx_data_len (c_rtsp c) ->
  exists r', client_run (c <| c_rtsp := r |>) (StepStatus e3 :: StepPoll e4 readable :: steps)
             = client_run (after_setup c r') steps /\
    client_inv (after_setup c r') /\ has_session c id stream timeout r'.
Proof.
  intros Hl Hinv2 Hf2 Hs2 Hs3 H4 Hid Htr Hto Hst Hsz.
  assert (client_exec (c <| c_rtsp := r |>) (StepStatus e3)
          = Some (sendRequest e3 RTSP_REQUEST_SETUP (c <| c_rtsp := r |>)).2) as E3.
  { cbn [client_exec]. unfold handleRTSPStatus. change (c_rtsp (c <| c_rtsp := r |>)) with r. by rewrite Hs2. }
  pose proof (client_step_inv _ (StepStatus e3) _ Hinv2 I E3) as Hinv3.
  rewrite (setup_sent e3 c r Hf2 Hs3) in E3, Hinv3. rewrite (client_run_cons _ _ _ _ E3).
  set (c3 := Client _ _ _ _ _ _) in *.
  pose proof Hf2 as [(_ & _ & Hcs2) _ [Hp2 Hl2] [Hh2 Hpo2]].
  assert (zlen (setup_response cseq id timeout transport stream) < m_rx_data_len (c_rtsp c3)) as Hfit
    by (change (m_rx_data_len (c_rtsp c3)) with (m_rx_data_len r); lia).
  destruct (receive_response e4 c3 _ (Some (id, timeout, stream)) Hinv3 Hp2 H4) as (mem4 & Hm4 & Hresp4).
  { by apply setup_response_whole. }
  { done. }
  { done. }
  { intros q Hq. unfold dispatch_response. rewrite Hq. apply setup_response_parsed; try done. apply Hsz. }
  set (r4 := set_status RTSP_STATUS_SESSION_PLAYING
               (answered (Some (id, timeout, stream)) mem4 (c_rtsp c3))).
  assert (client_exec c3 (StepPoll e4 readable) = Some (c3 <| c_rtsp := r4 |>)) as E4
    by exact (poll_establishing e4 c3 _ Hs2 Hresp4).
  assert (step_ok c3 (StepPoll e4 readable)) as Hok4.
  { cbn [step_ok]. unfold recv_ok. rewrite H4. change (m_rx_data_pos (c_rtsp c3)) with (m_rx_data_pos r).
    rewrite Hp2. pose proof (whole_response_pos _ (setup_response_whole cseq id timeout transport stream
      Hl Hid Htr)) as Hz. clear -Hz Hfit. lia. }
  pose proof (client_step_inv _ _ _ Hinv3 Hok4 E4) as Hinv4. rewrite (client_run_cons _ _ _ _ E4).
  exists r4. split; [done|]. split; [done|]. constructor; try done.
  split; [done|]. change (m_rtsp_cseq r4) with (m_rtsp_cseq r + 1). by rewrite Hcs2.
Qed.

(** The last two steps: PLAY and its response. *)
Lemma get_stream c r e5 e6 id stream timeout played :
  client_inv (after_setup c r) -> has_session c id stream timeout r ->
  tuner_wf (c_cfg c) (c_psi c) -> m_status (c_cfg c) = CONFIG_STATUS_CHANNEL_CHANGED ->
  id <> [] -> stream <> -1 -> env_send_ok e5 = true ->
  env_recv e6 = Received played -> whole_response played -> zlen played < m_rx_data_len (c_rtsp c) ->
  exists r',
    client_run (after_setup c r) [StepStatus e5; StepPoll e6 readable]
    = Some (Client r' (getSetupData (c_cfg c)).2 (c_psi c) (c_rtp c)
              (c_sent c ++ [setup_text c (getSetupData (c_cfg c)).1; play_text c stream id []])
              (c_device c)) /\
    m_rtsp_status r' = RTSP_STATUS_SESSION_TRANSMITTING /\
    m_rtsp_session_id r' = id /\ m_rtsp_stream_id r' = stream /\ m_rtsp_timeout r' = timeout /\
    m_wait_response r' = false /\ m_reconnect_attempts r' = 0 /\ m_rx_data_pos r' = 0 /\
    m_active (m_timer_reset_connect r') = false /\ m_active (m_timer_reconnect r') = false.
Proof.
  intros Hinv4 [Hs4 (Hid & Hst & Hto) [Hw4 Hcs4] [Hh4 Hpo4] [Hpos4 Hlen4]] Hwf Hch Hne Hst1 Hs5 H6 Hwhole Hfit.
  set (c4 := after_setup c r) in *. change (after_setup c r) with (c4 <| c_rtsp := r |>).
  assert (client_exec (c4 <| c_rtsp := r |>) (StepStatus e5)
          = Some (sendRequest e5 RTSP_REQUEST_PLAY (c4 <| c_rtsp := r |>)).2) as E5.
  { cbn [client_exec]. unfold handleRTSPStatus. change (c_rtsp (c4 <| c_rtsp := r |>)) with r. by rewrite Hs4. }
  pose proof (client_step_inv (c4 <| c_rtsp := r |>) (StepStatus e5) _ Hinv4 I E5) as Hinv5.
  pose proof (play_after_setup (c_cfg c) (c_psi c) Hwf Hch) as Hplay.
  rewrite (play_sent e5 c4 r stream id [] (c_cfg c4)) in E5, Hinv5 by done.
  rewrite (client_run_cons _ _ _ _ E5).
  set (c5 := Client (waiting e5 RTSP_REQUEST_PLAY r) _ _ _ _ _) in *.
  assert (zlen played < m_rx_data_len (c_rtsp c5)) as Hfit6
    by (change (m_rx_data_len (c_rtsp c5)) with (m_rx_data_len r); lia).
  destruct (receive_response e6 c5 played None Hinv5 Hpos4 H6 Hwhole Hfit6) as (mem6 & Hm6 & Hresp6).
  { done. }
  { intros q Hq. unfold dispatch_response. by rewrite Hq. }
  set (r6 := resetReconnectBackoff (stopTimerReconnect (set_status RTSP_STATUS_SESSION_TRANSMITTING
               (answered None mem6 (c_rtsp c5))))).
  assert (client_exec c5 (StepPoll e6 readable) = Some (c5 <| c_rtsp := r6 |>)) as E6
    by exact (poll_playing e6 c5 _ Hs4 Hresp6).
  rewrite (client_run_cons _ _ _ _ E6). exists r6. split; [|by split_and!].
  unfold client_run. cbn [foldl]. f_equal.
  assert (play_text c4 stream id [] = play_text c stream id []) as Htext.
  { unfold play_text, server_url. change (m_host (c_rtsp c4)) with (m_host r).
    change (m_port (c_rtsp c4)) with (m_port r). by rewrite Hh4, Hpo4. }
  change (c5 <| c_rtsp := r6 |>) with (Client r6 (getSetupData (c_cfg c)).2 (c_psi c) (c_rtp c)
    ((c_sent c ++ [setup_text c (getSetupData (c_cfg c)).1]) ++ [play_text c4 stream id []]) (c_device c)).
  by rewrite Htext, <- app_assoc.
Qed.

Lemma establish c e1 e2 e3 e4 e5 e6 cseq1 id timeout transport stream played :
  32 <= long_bits -> client_inv c -> 1024 <= m_rx_data_len (c_rtsp c) ->
  m_rtsp_status (c_rtsp c) = RTSP_STATUS_CONFIG_WAITING ->
  m_status (c_cfg c) = CONFIG_STATUS_CHANNEL_CHANGED ->
  answering e1 e3 e4 e5 e6 cseq1 id timeout transport stream played ->
  exists r,
    client_run c (start_steps e1 e2 e3 e4 e5 e6)
    = Some (Client r (getSetupData (c_cfg c)).2 (c_psi c) (c_rtp c)
              (c_sent c ++ [setup_text c (getSetupData (c_cfg c)).1; play_text c stream id []])
              (c_device c)) /\
    m_rtsp_status r = RTSP_STATUS_SESSION_TRANSMITTING /\
    m_rtsp_session_id r = id /\ m_rtsp_stream_id r = stream /\ m_rtsp_timeout r = timeout /\
    m_wait_response r = false /\ m_reconnect_attempts r = 0 /\ m_rx_data_pos r = 0 /\
    m_active (m_timer_reset_connect r) = false /\ m_active (m_timer_reconnect r) = false.
Proof.
  intros Hl Hinv Hlen Hs Hch [Hconn [Hs3 Hs5] H4 (Hid & Htr & Hto & Hst & Hsz) (H6 & Hwhole & Hsz6)].
  unfold start_steps.
  destruct (get_connected c e1 e2 [StepStatus e3; StepPoll e4 readable; StepStatus e5; StepPoll e6 readable]
    Hinv Hs Hch Hconn) as (r2 & -> & Hf2 & Hinv2 & Hs2).
  destruct (get_session c r2 e3 e4 cseq1 id timeout transport stream [StepStatus e5; StepPoll e6 readable]
    Hl Hinv2 Hf2 Hs2 Hs3 H4 Hid Htr Hto Hst) as (r4 & -> & Hinv4 & Hsess); [lia|].
  apply (get_stream c r4 e5 e6 id stream timeout played); try done; try lia;
    [apply (ci_tuner _ Hinv)|by destruct Hid].
Qed.
End Established.

(** ** Keeping the session *)

Section Keep.
Context `{DvbConstants} `{LongWidth}.

(** The stream runs, all wishes are fulfilled, and only the keep-alive timer is
    active; the server's timeout is of use. *)
Record kept (c : client) : Prop := {
  kp_status : m_rtsp_status (c_rtsp c) = RTSP_STATUS_SESSION_TRANSMITTING /\
              m_wait_response (c_rtsp c) = false /\ m_rx_data_pos (c_rtsp c) = 0;
  kp_session : no_session (c_rtsp c) = false /\ 5 < m_rtsp_timeout (c_rtsp c) <= 2000000;
  kp_timers : m_active (m_timer_reset_connect (c_rtsp c)) = false /\
              m_active (m_timer_reconnect (c_rtsp c)) = false /\
              m_active (m_timer_keep_alive (c_rtsp c)) = true /\ ts_wf (m_ts (m_timer_keep_alive (c_rtsp c)));
  kp_wishes : getChannelStatus (c_cfg c) = CONFIG_STATUS_CHANNEL_STABLE /\
              getPidStatus (c_cfg c) = CONFIG_STATUS_PID_STATIONARY
}.

Definition options_request (r : satipRTSP) : text :=
  server_url "OPTIONS" r ++ start_line_end (m_rtsp_cseq r) ++ session_line (m_rtsp_session_id r) ++ crlf.

(** After the keep-alive request. *)
Definition asked (e : env) (c : client) : client :=
  Client (waiting e RTSP_REQUEST_OPTION (c_rtsp c)) (c_cfg c) (c_psi c) (c_rtp c)
    (c_sent c ++ [options_request (c_rtsp c)]) (c_device c).

Lemma option_sent e c :
  m_wait_response (c_rtsp c) = false -> no_session (c_rtsp c) = false -> env_send_ok e = true ->
  (sendRequest e RTSP_REQUEST_OPTION c).2 = asked e c.
Proof.
  intros Hw Hses Hsend. unfold sendRequest. rewrite Hw. cbn [send_method]. unfold sendOption.
  change (no_session (c_rtsp (on_rtsp stopTimerKeepAliveMessage c))) with (no_session (c_rtsp c)).
  rewrite Hses. unfold send_text. rewrite Hsend. by rewrite bool_decide_eq_true_2.
Qed.

(** The timer list when only the keep-alive timer is active. *)
Lemma keep_alive_fires e c :
  client_inv c -> kept c -> env_send_ok e = true ->
  handleNextTimer e c
  = if ts_after (env_now e) (m_ts (m_timer_keep_alive (c_rtsp c))) then asked e c else c.
Proof.
  intros Hinv [(_ & Hw & _) [Hses _] (H1 & H2 & H3 & _) _] Hsend.
  destruct (inv_one_shot _ _ (ci_rtsp _ Hinv)) as (_ & Hone & _).
  pose proof (option_sent e c Hw Hses Hsend) as Hsent.
  assert (m_single (m_timer_keep_alive (c_rtsp (asked e c))) = true) as Ha1 by exact (Hone H3).
  assert (m_active (m_timer_reconnect (c_rtsp (asked e c))) = false) as Ha2 by exact H2.
  assert (on_rtsp (fun r => r <| m_timer_keep_alive
    := (m_timer_keep_alive (c_rtsp (asked e c))) <| m_active := false |> |>) (asked e c) = asked e c) as Ha3
    by reflexivity.
  generalize dependent (asked e c). intros a Hsent Ha1 Ha2 Ha3.
  unfold handleNextTimer, callNextTimer.
  cbn [clock_gettime client_timers m_timer_list create app foldl timer_at]. rewrite H1, H3.
  destruct (ts_after _ _); [|by rewrite H2]. unfold call.
  cbn [timer_at client_timers clock_gettime run_handler set_timer]. rewrite H3.
  unfold timeoutKeepAlive. rewrite Hsent, Ha1, Ha3. by rewrite Ha2.
Qed.

Lemma startKeepAlive_spec now r :
  5 < m_rtsp_timeout r <= 2000000 ->
  startTimerKeepAliveMessage now r
  = Some (r <| m_timer_keep_alive := start now (m_timer_keep_alive r) ((m_rtsp_timeout r - 5) * 1000) true |>).
Proof.
  intros Ht. unfold startTimerKeepAliveMessage. rewrite (proj2 (Z.ltb_ge _ _)) by lia.
  unfold mul_int. by rewrite (proj2 (Z.leb_le _ _)), (proj2 (Z.ltb_lt _ _)) by lia.
Qed.

(** The timer is started again while the response is awaited. *)
Definition restarted (e : env) (c : client) : client :=
  on_rtsp (fun r => r <| m_timer_keep_alive
    := start (env_now e) (m_timer_keep_alive r) ((m_rtsp_timeout r - 5) * 1000) true |>) c.

(** What the round keeps while the response is awaited. *)
Record awaiting (c d : client) : Prop := {
  aw_status : m_rtsp_status (c_rtsp d) = RTSP_STATUS_SESSION_TRANSMITTING /\
              m_rx_data_pos (c_rtsp d) = 0 /\ m_rtsp_request (c_rtsp d) = RTSP_REQUEST_OPTION;
  aw_session : m_rtsp_session_id (c_rtsp d) = m_rtsp_session_id (c_rtsp c) /\
               m_rtsp_stream_id (c_rtsp d) = m_rtsp_stream_id (c_rtsp c) /\
               m_rtsp_timeout (c_rtsp d) = m_rtsp_timeout (c_rtsp c) /\
               m_rx_data_len (c_rtsp d) = m_rx_data_len (c_rtsp c);
  aw_reconnect : m_active (m_timer_reconnect (c_rtsp d)) = false;
  aw_cfg : c_cfg d = c_cfg c
}.

Lemma asked_awaiting e c : kept c -> awaiting c (asked e c).
Proof. by intros [(? & ? & ?) _ (? & ? & ?) _]. Qed.

Lemma restarted_awaiting e c d : awaiting c d -> awaiting c (restarted e d).
Proof. by intros []. Qed.

Lemma status_restarts e c d :
  kept c -> awaiting c d -> m_active (m_timer_keep_alive (c_rtsp d)) = false ->
  handleRTSPStatus e d = Some (restarted e d).
Proof.
  intros [_ [_ Hto] _ [Hch Hpid]] [(Hst & _) (_ & _ & Ht & _) _ Hcfg] Hka. unfold handleRTSPStatus.
  rewrite Hst, Hcfg, Hch, Hpid, !bool_decide_eq_false_2 by done. cbn [orb]. rewrite Hka. cbn [negb].
  by rewrite startKeepAlive_spec by (by rewrite Ht).
Qed.

(** The response ends the round. *)
Lemma response_keeps e c d played :
  kept c -> awaiting c d -> client_inv d ->
  m_active (m_timer_keep_alive (c_rtsp d)) = true -> ts_wf (m_ts (m_timer_keep_alive (c_rtsp d))) ->
  env_recv e = Received played -> whole_response played -> zlen played < m_rx_data_len (c_rtsp c) ->
  exists mem,
    let d' := d <| c_rtsp := answered None mem (c_rtsp d) |> in
    client_exec d (StepPoll e readable) = Some d' /\ step_ok d (StepPoll e readable) /\ kept d'.
Proof.
  intros [_ [Hses Hto] _ Hwish] [(Hst & Hp & Hreq) (Hid & Hstr & Ht & Hl) Hrec Hcfg] Hinv Hka Hwf Hrecv Hwhole Hlen.
  destruct (receive_response e d played None Hinv Hp Hrecv Hwhole) as (mem & _ & Hresp);
    [by rewrite Hl|by rewrite Hreq|intros r Hr; unfold dispatch_response; by rewrite Hr, Hreq|].
  exists mem. cbv zeta. split; [|split].
  - cbn [client_exec]. unfold handlePollEvents. by rewrite Hst, Hresp.
  - cbn [step_ok]. unfold recv_ok. rewrite Hrecv, Hp, Hl. pose proof (whole_response_pos _ Hwhole). lia.
  - constructor; [by split_and!| |by split_and!|].
    + unfold no_session in *. cbn. by rewrite Hid, Hstr, Ht.
    + change (getChannelStatus (c_cfg d) = CONFIG_STATUS_CHANNEL_STABLE /\
              getPidStatus (c_cfg d) = CONFIG_STATUS_PID_STATIONARY). by rewrite Hcfg.
Qed.

(** One round: the request, the timer, the response. *)
Definition after_round (e2 e3 : env) (mem : list byte) (c : client) : client :=
  let d := restarted e3 (asked e2 c) in d <| c_rtsp := answered None mem (c_rtsp d) |>.

Lemma keep_alive_round c e2 e3 e4 played :
  client_inv c -> kept c -> ts_after (env_now e2) (m_ts (m_timer_keep_alive (c_rtsp c))) = true ->
  env_send_ok e2 = true -> ts_wf (env_now e3) ->
  env_recv e4 = Received played -> whole_response played -> zlen played < m_rx_data_len (c_rtsp c) ->
  exists mem,
    client_run c [StepTimer e2; StepStatus e3; StepPoll e4 readable] = Some (after_round e2 e3 mem c) /\
    kept (after_round e2 e3 mem c) /\ client_inv (after_round e2 e3 mem c).
Proof.
  intros Hinv Hkept Hdue Hsend Hnow Hrecv Hwhole Hlen.
  assert (client_exec c (StepTimer e2) = Some (asked e2 c)) as E2.
  { cbn [client_exec]. by rewrite keep_alive_fires, Hdue. }
  pose proof (client_step_inv _ (StepTimer e2) _ Hinv I E2) as Hinv2. rewrite (client_run_cons _ _ _ _ E2).
  pose proof (asked_awaiting e2 c Hkept) as Haw.
  pose proof (status_restarts e3 c _ Hkept Haw eq_refl : client_exec _ (StepStatus e3) = _) as E3.
  pose proof (client_step_inv _ (StepStatus e3) _ Hinv2 I E3) as Hinv3. rewrite (client_run_cons _ _ _ _ E3).
  assert (ts_wf (m_ts (m_timer_keep_alive (c_rtsp (restarted e3 (asked e2 c)))))) as Hwf.
  { apply (ts_add_ns (env_now e3) ((m_rtsp_timeout (c_rtsp c) - 5) * 1000) Hnow).
    destruct Hkept as [_ [_ Hto] _ _]. lia. }
  destruct (response_keeps e4 c _ played Hkept (restarted_awaiting e3 c _ Haw) Hinv3 eq_refl Hwf Hrecv Hwhole Hlen)
    as (mem & E4 & Hok & Hk). exists mem. unfold after_round.
  rewrite (client_run_cons _ _ _ _ E4). split_and!; [done|done|].
  by apply (client_step_inv _ (StepPoll e4 readable) _ Hinv3 Hok).
Qed.

(** Rounds of the keep-alive, and what is asked of each: it comes after the
    deadline of its timer, the request is sent, and the server answers. *)
Record keep_round := KeepRound { kr_due : env; kr_status : env; kr_answer : env; kr_text : text }.

Definition round_steps (r : keep_round) : list client_step :=
  [StepTimer (kr_due r); StepStatus (kr_status r); StepPoll (kr_answer r) readable].

Fixpoint rounds_ok (size timeout deadline : Z) (rounds : list keep_round) : Prop :=
  match rounds with
  | [] => True
  | r :: rounds =>
      (ts_wf (env_now (kr_due r)) /\ deadline < ts_ns (env_now (kr_due r)) /\
       env_send_ok (kr_due r) = true /\ ts_wf (env_now (kr_status r)) /\
       env_recv (kr_answer r) = Received (kr_text r) /\ whole_response (kr_text r) /\ zlen (kr_text r) < size) /\
      rounds_ok size timeout (ts_ns (env_now (kr_status r)) + (timeout - 5) * 1000000000) rounds
  end.

(** The requests of [n] rounds, numbered on. *)
Fixpoint options_requests (n : nat) (r : satipRTSP) : list text :=
  match n with
  | O => []
  | S n => options_request r :: options_requests n (next_cseq r)
  end.

Lemma options_requests_eq n : forall r q,
  m_host q = m_host r -> m_port q = m_port r -> m_rtsp_session_id q = m_rtsp_session_id r ->
  m_rtsp_cseq q = m_rtsp_cseq r -> options_requests n q = options_requests n r.
Proof.
  induction n as [|n IH]; intros r q Hh Hp Hid Hc; [done|]. cbn [options_requests]. f_equal.
  - unfold options_request, server_url. by rewrite Hh, Hp, Hid, Hc.
  - apply IH; try done. cbn. by rewrite Hc.
Qed.

Lemma kept_deadline c : kept c -> ts_wf (m_ts (m_timer_keep_alive (c_rtsp c))).
Proof. intros Hk. apply (kp_timers _ Hk). Qed.

Lemma after_round_deadline e2 e3 mem c :
  kept c -> ts_wf (env_now e3) ->
  ts_ns (m_ts (m_timer_keep_alive (c_rtsp (after_round e2 e3 mem c))))
  = ts_ns (env_now e3) + (m_rtsp_timeout (c_rtsp c) - 5) * 1000000000.
Proof.
  intros Hk Hnow. destruct (kp_session _ Hk) as [_ Hto].
  change (ts_ns (ts_add (env_now e3) ((m_rtsp_timeout (c_rtsp c) - 5) * 1000))
          = ts_ns (env_now e3) + (m_rtsp_timeout (c_rtsp c) - 5) * 1000000000).
  rewrite (proj2 (ts_add_ns (env_now e3) ((m_rtsp_timeout (c_rtsp c) - 5) * 1000) Hnow ltac:(lia))). lia.
Qed.

Lemma client_run_app c l1 l2 d :
  client_run c l1 = Some d -> client_run c (l1 ++ l2) = client_run d l2.
Proof. intros Hrun. unfold client_run in *. by rewrite foldl_app, Hrun. Qed.

Lemma keep_alive_rounds rounds : forall c,
  client_inv c -> kept c ->
  rounds_ok (m_rx_data_len (c_rtsp c)) (m_rtsp_timeout (c_rtsp c))
    (ts_ns (m_ts (m_timer_keep_alive (c_rtsp c)))) rounds ->
  exists d, client_run c (concat (map round_steps rounds)) = Some d /\ kept d /\ c_cfg d = c_cfg c /\
    c_sent d = c_sent c ++ options_requests (length rounds) (c_rtsp c).
Proof.
  induction rounds as [|r rounds IH]; intros c Hinv Hkept Hok.
  { exists c. split_and!; [done..|]. by rewrite app_nil_r. }
  destruct Hok as ((Hwf2 & Hdue & Hsend & Hwf3 & Hrecv & Hwhole & Hlen) & Hok).
  destruct (keep_alive_round c (kr_due r) (kr_status r) (kr_answer r) (kr_text r) Hinv Hkept) as (mem & Hrun & Hk & Hi);
    try done.
  { rewrite ts_after_ns by (done || by apply kept_deadline). by apply Z.ltb_lt. }
  destruct (IH (after_round (kr_due r) (kr_status r) mem c) Hi Hk) as (d & Hd & Hkd & Hcfg & Hsent).
  { rewrite after_round_deadline by done. exact Hok. }
  exists d. cbn [map concat]. rewrite (client_run_app _ _ _ _ Hrun). split_and!; [done|done|by rewrite Hcfg|].
  rewrite Hsent. change (c_sent (after_round (kr_due r) (kr_status r) mem c))
    with (c_sent c ++ [options_request (c_rtsp c)]). rewrite <- app_assoc. cbn [app length options_requests].
  f_equal. f_equal. by apply options_requests_eq.
Qed.
End Keep.

(** ** Responses with something behind them *)

Lemma is_prefix_app_long p : forall s t, (length p <= length s)%nat ->
  is_prefix p (s ++ t) = is_prefix p s.
Proof.
  induction p as [|b p IH]; intros s t Hlen; [done|]. destruct s as [|c s]; [cbn in Hlen; lia|].
  cbn in *. by rewrite IH by lia.
Qed.

Lemma strstr_app hay needle s t :
  strstr hay needle = Some s -> strstr (hay ++ t) needle = Some (s ++ t).
Proof.
  induction hay as [|b hay IH]; intros Hs; pose proof (strstr_length _ _ _ Hs) as Hl; unfold zlen in Hl.
  - assert (needle = []) as -> by (apply length_zero_iff_nil; cbn in Hl; lia).
    cbn in Hs. injection Hs as <-. by destruct t.
  - cbn [strstr app] in *. change (b :: hay ++ t) with ((b :: hay) ++ t).
    rewrite is_prefix_app_long by lia. destruct (is_prefix needle (b :: hay)); [by injection Hs as <-|].
    by apply IH.
Qed.

(** The first byte of an interleaved frame, received behind a response: the
    response is handled, but its completion is not returned. *)
Definition interleaved_start (mem : list byte) (r : satipRTSP) : satipRTSP :=
  (stopTimerResetConnect (r <| m_wait_response := false |>))
    <| m_rx_data := mem |> <| m_rx_data_pos := 1 |> <| m_rtsp_request := RTSP_REQUEST_NONE |>.

Section Interleaved.
Context `{LongWidth}.

Lemma receive_interleaved e c headers :
  32 <= long_bits -> client_inv c -> m_rx_data_pos (c_rtsp c) = 0 -> isTcpData (c_cfg c) = true ->
  env_recv e = Received (response headers ++ [x24]) -> Forall header_ok headers ->
  zlen (response headers) + 1 < m_rx_data_len (c_rtsp c) ->
  (m_rtsp_request (c_rtsp c) = RTSP_REQUEST_PLAY \/ m_rtsp_request (c_rtsp c) = RTSP_REQUEST_OPTION \/
   m_rtsp_request (c_rtsp c) = RTSP_REQUEST_TEARDOWN) ->
  exists mem, handleResponse e c
    = Some (RTSP_OK, c <| c_rtsp := interleaved_start mem (c_rtsp c) |>).
Proof.
  intros Hl Hinv Hp Htcp Hrecv Hhd Hlen Hreq.
  destruct (response_whole headers Hl Hhd) as [(b & l & Hb1 & Hb) Hnul Hend _].
  set (resp := response headers) in *. set (data := resp ++ [x24]) in *.
  assert (zlen data = zlen resp + 1) as Hz by (unfold data; by rewrite zlen_app).
  destruct (receive_start e c data b (l ++ [x24]) ((crlf ++ crlf) ++ [x24])) as (rest & fuel & _ & Hfuel & ->);
    try done; [lia|unfold data; by rewrite Hb1|apply free_of_app; split; [done|by apply Forall_singleton]
      |by apply strstr_app|].
  rewrite (take_response_complete e data _ ((received data rest (c_rtsp c)) <| m_wait_response := false |>)).
  2: { by destruct Hreq as [Hr|[Hr|Hr]]; cbn; rewrite Hr. }
  2: { pose proof (scan_status_200 (str "OK" ++ crlf ++ concat (map (fun h => h ++ crlf) headers) ++ crlf ++ [x24]) Hl)
         as Hcode. etrans; [|exact Hcode]. apply (f_equal (fun d => scan_status d 0)).
       unfold data, resp, response. cbn [map concat]. by rewrite <- !app_assoc. }
  2: { unfold dispatch_response. by destruct Hreq as [Hr|[Hr|Hr]]; cbn; rewrite Hr. }
  replace (zlen data - zlen ((crlf ++ crlf) ++ [x24]) + 4) with (zlen resp)
    by (change (zlen ((crlf ++ crlf) ++ [x24])) with 5; lia).
  set (mem := data ++ x00 :: rest).
  assert (forall r, m_rx_data_pos r = zlen data -> m_rx_data r = mem ->
    consume (zlen resp) r = r <| m_rx_data := x24 :: ptr_add mem 1 |> <| m_rx_data_pos := 1 |>) as Hcons.
  { intros r Hr Hm. unfold consume. rewrite Hr, Hm, Hz. replace (zlen resp + 1 - zlen resp) with 1 by lia.
    assert (ptr_add mem (zlen resp) = x24 :: x00 :: rest) as ->; [|done].
    unfold mem, data, ptr_add, zlen. by rewrite Nat2Z.id, <- app_assoc, drop_app_length. }
  exists (x24 :: ptr_add mem 1). cbn [mbind option_bind]. set (c3 := on_rtsp _ _).
  assert (c3 = c <| c_rtsp := interleaved_start (x24 :: ptr_add mem 1) (c_rtsp c) |>) as ->
    by (subst c3; unfold on_rtsp; rewrite Hcons by done; done).
  change (0 <? m_rx_data_pos _) with true. cbv iota. destruct fuel as [|fuel]; [lia|]. cbn [again].
  assert (isTcpData (c_cfg (c <| c_rtsp := interleaved_start (x24 :: ptr_add mem 1) (c_rtsp c) |>)) = true)
    as -> by exact Htcp.
  done.
Qed.
End Interleaved.
