(* ===== verification/RtspTheorems.v ===== *)
(** What the RTSP client achieves, and where it goes wrong: the theorems on
    sessions, retries, keep-alive and responses, with their instances. *)

From S2P Require Import Prelude Crc Psi CText OptParser Dvb Timer Config ConfigText Tuner Rtp Rtsp RtspInv RtspText RtspProps RtspSession.

#[local] Ltac Zify.zify_post_hook ::= Z.to_euclidean_division_equations.

(** ** Every state *)

Section States.
Context `{DvbConstants} `{LongWidth}.

(** Whatever the server and the system answer, in every reachable state the
    receive buffer is intact, an outstanding response or connection is watched
    by an active one-shot timer, a client without a connection is clean, the
    backoff is within its bounds, and a lost session of a tuned channel is
    scheduled to be retried; the configuration and the parser agree. *)
Theorem rtsp_invariant c : reachable c -> client_inv c.
Proof. apply reachable_inv. Qed.

(** In UDP mode every call returns, without undefined behaviour, as long as
    recv does not fail while the receive buffer is empty, responses stay within 1024 bytes and the server's
    timeout within 2000000 seconds. *)
Theorem rtsp_step_returns c s :
  reachable c -> benign c s -> returns (client_exec c s) reachable.
Proof.
  intros Hreach Hb. destruct (client_exec_returns c s (reachable_inv c Hreach) Hb) as [d Hd].
  rewrite Hd. cbn [returns]. apply (reach_step c s d); [done| |done].
  destruct s; cbn in Hb |- *; [done|done|apply Hb|done].
Qed.
End States.

(** ** A session *)

Section Sessions.
Context `{DvbConstants} `{LongWidth}.

(** C1: a new tuning leads to the stream. When a reachable client without a
    connection finds a changed channel and the server answers, the six steps
    connect, SETUP and PLAY are taken without a detour: two requests are sent,
    the SETUP names exactly the wanted pids and the PLAY the session and stream
    the server chose; then the client transmits, waits for nothing, has no
    timer pending but its keep-alive to come, and nothing left to tell. *)
Theorem session_established c e1 e2 e3 e4 e5 e6 cseq1 id timeout transport stream played :
  32 <= long_bits -> reachable c -> 1024 <= m_rx_data_len (c_rtsp c) ->
  m_rtsp_status (c_rtsp c) = RTSP_STATUS_CONFIG_WAITING ->
  getChannelStatus (c_cfg c) = CONFIG_STATUS_CHANNEL_CHANGED ->
  answering e1 e3 e4 e5 e6 cseq1 id timeout transport stream played ->
  exists d data,
    client_run c (start_steps e1 e2 e3 e4 e5 e6) = Some d /\
    c_sent d = c_sent c ++ [setup_text c data; play_text c stream id []] /\
    server_setup (query data) = wanted_pids (c_cfg c) /\
    m_rtsp_status (c_rtsp d) = RTSP_STATUS_SESSION_TRANSMITTING /\
    m_rtsp_session_id (c_rtsp d) = id /\ m_rtsp_stream_id (c_rtsp d) = stream /\
    m_rtsp_timeout (c_rtsp d) = timeout /\ m_wait_response (c_rtsp d) = false /\
    m_reconnect_attempts (c_rtsp d) = 0 /\
    m_active (m_timer_reset_connect (c_rtsp d)) = false /\
    m_active (m_timer_reconnect (c_rtsp d)) = false /\
    getChannelStatus (c_cfg d) = CONFIG_STATUS_CHANNEL_STABLE /\
    getPidStatus (c_cfg d) = CONFIG_STATUS_PID_STATIONARY.
Proof.
  intros Hl Hreach Hlen Hs Hch Hans. pose proof (reachable_inv c Hreach) as Hinv.
  pose proof (ci_tuner _ Hinv) as Hwf. unfold getChannelStatus in *.
  destruct (establish c e1 e2 e3 e4 e5 e6 cseq1 id timeout transport stream played Hl Hinv Hlen Hs Hch Hans)
    as (r & Hrun & Hst & Hid & Hstr & Hto & Hw & Ha & _ & Ht1 & Ht3).
  destruct (getSetupData_settled (c_cfg c) (tw_slots _ _ Hwf)) as (Hpid & _ & Hstable).
  rewrite Hch, bool_decide_eq_true_2 in Hstable by done.
  eexists _, (getSetupData (c_cfg c)).1. split; [exact Hrun|].
  split_and!; try done. apply getSetupData_query. by apply (wanted_pids_nonneg _ (c_psi c)).
Qed.

(** C39: a SETUP response with a long session header overruns the buffer on the
    stack: the whole rest of the receive buffer is copied into 1024 bytes
    before the id is cut out of it. *)
Theorem session_header_overflow r cseq id rest :
  id_ok id -> 1024 <= zlen id + zlen rest ->
  handleResponseSetup (str "RTSP/1.0 200 OK" ++ crlf ++ str "CSeq: " ++ dec cseq ++ crlf
                       ++ str "Session: " ++ id ++ rest) r = None.
Proof.
  intros Hid Hlen. unfold handleResponseSetup. set (x := str "Session: " ++ id ++ rest).
  assert (forall y, strstr (str "RTSP/1.0 200 OK" ++ crlf ++ str "CSeq: " ++ y) (str "Session")
                    = strstr y (str "Session")) as -> by done.
  rewrite (strstr_skip (dec cseq) _ _ x53) by (done || (apply dec_free; cbn; lia)).
  change (strstr (crlf ++ x) (str "Session")) with (strstr x (str "Session")).
  assert (strstr x (str "Session") = Some x) as ->.
  { change x with (str "Session" ++ str ": " ++ id ++ rest). apply strstr_here. }
  assert (strchr x 58 = Some (str ": " ++ id ++ rest)) as -> by done.
  assert (skip_spaces (tail (str ": " ++ id ++ rest)) = id ++ rest) as ->.
  { change (skip_spaces (id ++ rest) = id ++ rest). by apply skip_spaces_id. }
  rewrite zlen_app, (proj2 (Z.ltb_ge _ _)) by lia. done.
Qed.

(** C10: the session is kept alive for as long as it is wanted. Once the stream
    runs, no request is made until the server's timeout less five seconds have
    passed since the timer was started; then one OPTIONS with the session id and
    the next sequence number is sent, and the timer is started again. Any number
    of such rounds, with the server's responses, sends one request each and
    leaves the stream running and the configuration as it was. *)
Theorem session_kept_alive c rounds :
  reachable c -> kept c ->
  rounds_ok (m_rx_data_len (c_rtsp c)) (m_rtsp_timeout (c_rtsp c))
    (ts_ns (m_ts (m_timer_keep_alive (c_rtsp c)))) rounds ->
  (forall e, ts_wf (env_now e) -> env_send_ok e = true ->
     ts_ns (env_now e) <= ts_ns (m_ts (m_timer_keep_alive (c_rtsp c))) -> handleNextTimer e c = c) /\
  exists d, client_run c (concat (map round_steps rounds)) = Some d /\ kept d /\ c_cfg d = c_cfg c /\
    c_sent d = c_sent c ++ options_requests (length rounds) (c_rtsp c).
Proof.
  intros Hreach Hkept Hok. pose proof (reachable_inv c Hreach) as Hinv. split.
  - intros e Hwf Hsend Hle. rewrite keep_alive_fires by done.
    rewrite ts_after_ns by (done || by apply kept_deadline). by rewrite (proj2 (Z.ltb_ge _ _)).
  - by apply keep_alive_rounds.
Qed.
End Sessions.

(** ** Retries *)

Section Retries.
Context `{DvbConstants} `{LongWidth}.

(** A failed attempt of a tuning that was tried before. *)
Definition failing (e : env) : Prop :=
  match env_addrs e with None => True | Some addrs => connect_loop addrs = None end.

Lemma start_connecting_fails e c :
  failing e -> m_attempted_generation (c_rtsp c) = getTuneGeneration (c_cfg c) ->
  start_connecting e c
  = on_rtsp (startTimerReconnect (env_now e)) (c <| c_cfg := clearChannelChanged (c_cfg c) |>).
Proof.
  intros Hfail Hgen. unfold start_connecting, connectToServer. rewrite Hgen, Z.ltb_irrefl.
  assert (on_rtsp (fun r => r <| m_attempted_generation := getTuneGeneration (c_cfg c) |>) c = c) as ->.
  { rewrite <- Hgen. by destruct c as [[]]. }
  unfold failing in Hfail. destruct (env_addrs e) as [addrs|]; [rewrite Hfail|]; by destruct c as [[]].
Qed.

(** The timer list when only the reconnect timer is active. *)
Lemma reconnect_fires e c :
  m_active (m_timer_reset_connect (c_rtsp c)) = false ->
  m_active (m_timer_keep_alive (c_rtsp c)) = false ->
  m_active (m_timer_reconnect (c_rtsp c)) = true ->
  m_single (m_timer_reconnect (c_rtsp c)) = true ->
  handleNextTimer e c
  = if ts_after (env_now e) (m_ts (m_timer_reconnect (c_rtsp c)))
    then on_rtsp (fun r => r <| m_timer_reconnect := stop (m_timer_reconnect r) |>) (timeoutReconnect c)
    else c.
Proof.
  intros H1 H2 H3 H4. unfold handleNextTimer, callNextTimer.
  cbn [clock_gettime client_timers m_timer_list create app foldl timer_at]. rewrite H1, H2, H3.
  destruct (ts_after _ _); [|done]. unfold call. cbn [timer_at client_timers clock_gettime run_handler].
  rewrite H3.
  assert (m_timer_reconnect (c_rtsp (timeoutReconnect c)) = m_timer_reconnect (c_rtsp c)) as Ht
    by (unfold timeoutReconnect; by destruct (getChannelStatus _)).
  change (@timer_at _ (client_timers e) TimerReconnect (timeoutReconnect c)) with (m_timer_reconnect (c_rtsp (timeoutReconnect c))).
  rewrite Ht, H4. unfold on_rtsp. by rewrite <- Ht.
Qed.

(** C20: failed attempts are repeated with exponential backoff. When connecting
    for a tuning already attempted fails for the [n]th time in a row, the client
    waits min(1000 * 2^n, 30000) milliseconds: before that time has passed the
    timers do nothing, and after it they make the client try again, with the
    count of attempts one higher, up to 5. *)
Theorem retry_backs_off c e :
  reachable c -> m_rtsp_status (c_rtsp c) = RTSP_STATUS_CONFIG_WAITING ->
  getChannelStatus (c_cfg c) = CONFIG_STATUS_CHANNEL_CHANGED ->
  m_attempted_generation (c_rtsp c) = getTuneGeneration (c_cfg c) ->
  failing e -> ts_wf (env_now e) ->
  let n := m_reconnect_attempts (c_rtsp c) in
  let deadline := ts_ns (env_now e) + Z.min (1000 * 2 ^ n) 30000 * 1000000 in
  exists d,
    handleRTSPStatus e c = Some d /\ c_sent d = c_sent c /\
    m_rtsp_status (c_rtsp d) = RTSP_STATUS_CONFIG_WAITING /\
    getChannelStatus (c_cfg d) = CONFIG_STATUS_CHANNEL_STABLE /\
    m_reconnect_attempts (c_rtsp d) = Z.min 5 (n + 1) /\
    forall e', ts_wf (env_now e') ->
      let d' := handleNextTimer e' d in
      if deadline <? ts_ns (env_now e') then
        getChannelStatus (c_cfg d') = CONFIG_STATUS_CHANNEL_CHANGED /\
        m_rtsp_status (c_rtsp d') = RTSP_STATUS_CONFIG_WAITING /\
        m_attempted_generation (c_rtsp d') = getTuneGeneration (c_cfg d') /\
        m_reconnect_attempts (c_rtsp d') = Z.min 5 (n + 1)
      else d' = d.
Proof.
  intros Hreach Hs Hch Hgen Hfail Hnow n deadline. pose proof (reachable_inv c Hreach) as Hinv.
  pose proof (inv_backoff _ _ (ci_rtsp _ Hinv)) as Hn. fold n in Hn. unfold getChannelStatus in *.
  set (c1 := c <| c_cfg := clearChannelChanged (c_cfg c) |>).
  set (d := on_rtsp (startTimerReconnect (env_now e)) c1). exists d.
  assert (handleRTSPStatus e c = Some d) as Hd.
  { unfold handleRTSPStatus, getChannelStatus. rewrite Hs, Hch. f_equal. by apply start_connecting_fails. }
  assert (m_status (c_cfg d) = CONFIG_STATUS_CHANNEL_STABLE) as Hst.
  { change (m_status (clearChannelChanged (c_cfg c)) = CONFIG_STATUS_CHANNEL_STABLE).
    by rewrite clearChannelChanged_status, Hch. }
  destruct (startTimerReconnect_spec (env_now e) (c_rtsp c1) Hn) as [Ht Hatt].
  change (startTimerReconnect (env_now e) (c_rtsp c1)) with (c_rtsp d) in Ht, Hatt.
  change (m_reconnect_attempts (c_rtsp c1)) with n in Ht, Hatt.
  assert (m_rtsp_status (c_rtsp d) = RTSP_STATUS_CONFIG_WAITING /\
          m_attempted_generation (c_rtsp d) = getTuneGeneration (c_cfg d) /\ idle (c_rtsp d)) as (Hsd & Hgd & Hid).
  { pose proof (handleRTSPStatus_inv e c d Hinv Hd) as Hinvd.
    assert (m_rtsp_status (c_rtsp d) = RTSP_STATUS_CONFIG_WAITING) as Hsd.
    { subst d. cbn. unfold startTimerReconnect. by destruct (_ <? 30000). }
    split; [done|]. split; [|by apply (inv_idle _ _ (ci_rtsp _ Hinvd))].
    transitivity (m_attempted_generation (c_rtsp c)).
    - subst d. cbn. unfold startTimerReconnect. by destruct (_ <? 30000).
    - rewrite Hgen. unfold getTuneGeneration, d. cbn. unfold clearChannelChanged. by case_bool_decide. }
  do 5 (split; [done|]). intros e' Hnow'.
  destruct Hid as [_ _ _ _ _ [Hr Hk] _].
  rewrite reconnect_fires; [|done|done|by rewrite Ht|by rewrite Ht].
  assert (0 <= Z.min (1000 * 2 ^ n) 30000) as Hdelay by (pose proof (Z.pow_nonneg 2 n); lia).
  destruct (ts_add_ns (env_now e) _ Hnow Hdelay) as [Hwf Hns].
  rewrite ts_after_ns, Ht by (done || by rewrite Ht). cbn [start m_ts]. rewrite Hns. fold deadline.
  destruct (_ <? _); [|done].
  unfold timeoutReconnect, getChannelStatus. rewrite Hst. by split_and!.
Qed.

Lemma resetConnect_keeps_retune now c :
  getChannelStatus (c_cfg c) = CONFIG_STATUS_CHANNEL_CHANGED ->
  m_attempted_generation (c_rtsp c) < getTuneGeneration (c_cfg c) ->
  exists r, resetConnect now true c
            = Client r (c_cfg c) (c_psi c) (c_rtp c) (c_sent c) (c_device c) /\
    m_rtsp_status r = RTSP_STATUS_CONFIG_WAITING /\
    m_attempted_generation r = m_attempted_generation (c_rtsp c).
Proof.
  intros Hch Hgen. exists (resetReconnectBackoff (stopTimerReconnect (disconnect (c_rtsp c)))).
  split; [|done]. unfold resetConnect. change (c_cfg (on_rtsp disconnect c)) with (c_cfg c).
  rewrite Hch, bool_decide_eq_false_2, bool_decide_eq_true_2 by done. cbn [negb orb andb].
  change (m_attempted_generation (c_rtsp (on_rtsp disconnect c))) with (m_attempted_generation (c_rtsp c)).
  by rewrite (proj2 (Z.ltb_lt _ _) Hgen).
Qed.

Lemma start_connecting_retune e r cfg psi rtp sent dev addrs fd :
  m_attempted_generation r < getTuneGeneration cfg ->
  env_addrs e = Some addrs -> connect_loop addrs = Some fd ->
  let d := start_connecting e (Client r cfg psi rtp sent dev) in
  m_rtsp_status (c_rtsp d) = RTSP_STATUS_SERVER_CONNECTING /\ m_fd (c_rtsp d) = fd /\
  m_reconnect_attempts (c_rtsp d) = 0 /\ m_active (m_timer_reconnect (c_rtsp d)) = false /\
  m_attempted_generation (c_rtsp d) = getTuneGeneration cfg /\
  m_active (m_timer_reset_connect (c_rtsp d)) = true.
Proof.
  intros Hgen Haddrs Hfd d. subst d. unfold start_connecting, connectToServer. cbn [c_rtsp c_cfg].
  rewrite (proj2 (Z.ltb_lt _ _) Hgen), Haddrs, Hfd. by destruct r.
Qed.

(** C26: a genuine new tuning is not delayed by old failures: a connection that
    is lost or given up keeps a tuning that was not attempted yet, drops the
    backoff, and the next status step connects at once. *)
Theorem retune_not_delayed c now e addrs fd :
  getChannelStatus (c_cfg c) = CONFIG_STATUS_CHANNEL_CHANGED ->
  m_attempted_generation (c_rtsp c) < getTuneGeneration (c_cfg c) ->
  env_addrs e = Some addrs -> connect_loop addrs = Some fd ->
  let d := resetConnect now true c in
  exists d', handleRTSPStatus e d = Some d' /\
    m_rtsp_status (c_rtsp d') = RTSP_STATUS_SERVER_CONNECTING /\ m_fd (c_rtsp d') = fd /\
    m_reconnect_attempts (c_rtsp d') = 0 /\ m_active (m_timer_reconnect (c_rtsp d')) = false /\
    m_attempted_generation (c_rtsp d') = getTuneGeneration (c_cfg c) /\
    m_active (m_timer_reset_connect (c_rtsp d')) = true.
Proof.
  intros Hch Hgen Haddrs Hfd d. destruct (resetConnect_keeps_retune now c Hch Hgen) as (r & Hd & Hs & Hg).
  subst d. rewrite Hd. unfold getChannelStatus in Hch. rewrite <- Hg in Hgen. clear Hd Hg.
  unfold handleRTSPStatus, getChannelStatus. cbn [c_rtsp c_cfg]. rewrite Hs, Hch.
  eexists. split; [reflexivity|]. by apply start_connecting_retune with addrs.
Qed.
End Retries.

(** ** Lost completions and connections *)

Section Lost.
Context `{DvbConstants} `{LongWidth}.

(** C36: in TCP mode a response is taken for incomplete when the first byte of
    an interleaved frame arrives with it. A PLAY response read together with the
    start of the stream leaves the client in the PLAYING state, waiting for
    nothing, and the next status step sends a PLAY again. *)
Theorem interleaved_completion_lost c e e' headers :
  32 <= long_bits -> client_inv c -> isTcpData (c_cfg c) = true ->
  m_rtsp_status (c_rtsp c) = RTSP_STATUS_SESSION_PLAYING ->
  m_rtsp_request (c_rtsp c) = RTSP_REQUEST_PLAY -> no_session (c_rtsp c) = false ->
  m_rx_data_pos (c_rtsp c) = 0 -> Forall header_ok headers ->
  zlen (response headers) + 1 < m_rx_data_len (c_rtsp c) ->
  env_recv e = Received (response headers ++ [x24]) -> env_send_ok e' = true ->
  exists d d' text,
    handlePollEvents e readable c = Some d /\
    m_rtsp_status (c_rtsp d) = RTSP_STATUS_SESSION_PLAYING /\ m_wait_response (c_rtsp d) = false /\
    m_active (m_timer_reset_connect (c_rtsp d)) = false /\
    handleRTSPStatus e' d = Some d' /\ c_sent d' = c_sent c ++ [text] /\
    m_rtsp_request (c_rtsp d') = RTSP_REQUEST_PLAY /\ m_wait_response (c_rtsp d') = true.
Proof.
  intros Hl Hinv Htcp Hs Hreq Hses Hp Hhd Hlen Hrecv Hsend.
  destruct (receive_interleaved e c headers Hl Hinv Hp Htcp Hrecv Hhd Hlen) as [mem Hres]; [by left|].
  assert (handlePollEvents e readable c
          = Some (c <| c_rtsp := interleaved_start mem (c_rtsp c) |>)) as Hd
    by (unfold handlePollEvents; by rewrite Hs, Hres).
  set (r := interleaved_start mem (c_rtsp c)) in *.
  assert (m_rtsp_status r = RTSP_STATUS_SESSION_PLAYING /\ m_wait_response r = false /\
          no_session r = false /\ m_active (m_timer_reset_connect r) = false) as (Hsr & Hwr & Hnr & Htr)
    by (by split_and!). clearbody r.
  set (d := c <| c_rtsp := r |>) in *.
  assert (exists c2 text, send_method e' RTSP_REQUEST_PLAY (on_rtsp stopTimerKeepAliveMessage d)
          = (RTSP_OK, c2) /\ c_sent c2 = c_sent c ++ [text]) as (c2 & text & Hm & Hsent).
  { cbn [send_method]. unfold sendPlay.
    change (no_session (c_rtsp (on_rtsp stopTimerKeepAliveMessage d))) with (no_session r). rewrite Hnr.
    destruct (getPlayData _) as [data cfg]. unfold send_text. rewrite Hsend. by eexists _, _. }
  assert (handleRTSPStatus e' d = Some (sendRequest e' RTSP_REQUEST_PLAY d).2) as Hd'.
  { unfold handleRTSPStatus. change (c_rtsp d) with r. by rewrite Hsr. }
  exists d, (sendRequest e' RTSP_REQUEST_PLAY d).2, text.
  split_and!; try done; unfold sendRequest; change (c_rtsp d) with r; rewrite Hwr, Hm;
    (rewrite bool_decide_eq_true_2 by done); done.
Qed.

(** The end of the connection is not noticed. When the server closes it,
    recv returns 0, [handleResponse] reports an error, and no state reacts: the
    client is left exactly as it was, polling a socket that stays readable. *)
Theorem closed_connection_ignored c e :
  client_inv c -> env_recv e = Closed ->
  m_rx_data_pos (c_rtsp c) + 1 < m_rx_data_len (c_rtsp c) ->
  m_rtsp_status (c_rtsp c) <> RTSP_STATUS_SERVER_CONNECTING ->
  handlePollEvents e readable c = Some c.
Proof.
  intros Hinv Hrecv Hpos Hnc. unfold handlePollEvents.
  assert (handleResponse e c = Some (RTSP_ERROR, c)) as Hr.
  { unfold handleResponse. rewrite Hrecv, (proj2 (Z.eqb_neq _ _)) by lia. done. }
  by destruct (m_rtsp_status (c_rtsp c)); cbn [POLLHUP POLLERR POLLNVAL POLLIN readable orb]; try rewrite Hr.
Qed.

(** The steps of a client whose server has gone. *)
Definition gone (s : client_step) : Prop :=
  match s with
  | StepStatus _ | StepTimer _ => True
  | StepPoll e events => events = readable /\ env_recv e = Closed
  | StepUser _ => False
  end.

(** C37: a teardown can hang for good. The start of an interleaved frame read
    with the response to TEARDOWN leaves the client in the TEARDOWNING state
    without any timer, and when the server then closes the connection, no
    sequence of steps of the main loop ever changes it again. *)
Theorem teardown_hangs c e headers steps :
  32 <= long_bits -> client_inv c -> isTcpData (c_cfg c) = true ->
  m_rtsp_status (c_rtsp c) = RTSP_STATUS_SESSION_TEARDOWNING ->
  m_rtsp_request (c_rtsp c) = RTSP_REQUEST_TEARDOWN ->
  m_active (m_timer_keep_alive (c_rtsp c)) = false ->
  m_active (m_timer_reconnect (c_rtsp c)) = false ->
  m_rx_data_pos (c_rtsp c) = 0 -> Forall header_ok headers ->
  zlen (response headers) + 1 < m_rx_data_len (c_rtsp c) ->
  env_recv e = Received (response headers ++ [x24]) -> Forall gone steps ->
  exists d, handlePollEvents e readable c = Some d /\
    m_rtsp_status (c_rtsp d) = RTSP_STATUS_SESSION_TEARDOWNING /\ client_run d steps = Some d.
Proof.
  intros Hl Hinv Htcp Hs Hreq Hk Hrec Hp Hhd Hlen Hrecv Hsteps.
  destruct (receive_interleaved e c headers Hl Hinv Hp Htcp Hrecv Hhd Hlen) as [mem Hres]; [by right; right|].
  assert (handlePollEvents e readable c
          = Some (c <| c_rtsp := interleaved_start mem (c_rtsp c) |>)) as Hd
    by (unfold handlePollEvents; by rewrite Hs, Hres).
  eexists. split; [exact Hd|]. set (d := c <| c_rtsp := _ |>) in *.
  assert (recv_ok e (c_rtsp c)) as Hok.
  { unfold recv_ok. rewrite Hrecv, Hp, zlen_app. change (zlen [x24]) with 1.
    pose proof (zlen_nonneg (response headers)). lia. }
  pose proof (handlePollEvents_inv e readable c d Hinv Hok Hd) as Hinvd.
  assert (m_rtsp_status (c_rtsp d) = RTSP_STATUS_SESSION_TEARDOWNING) as Hsd by exact Hs.
  split; [done|].
  assert (forall s, gone s -> client_exec d s = Some d) as Hstep.
  { intros [e1|e1|e1 ev|op] Hg; cbn [client_exec]; [| | |done].
    - unfold handleRTSPStatus. by rewrite Hsd.
    - unfold handleNextTimer, callNextTimer. cbn [clock_gettime client_timers m_timer_list create app foldl timer_at].
      assert (m_active (m_timer_reset_connect (c_rtsp d)) = false) as -> by done.
      assert (m_active (m_timer_keep_alive (c_rtsp d)) = false) as -> by exact Hk.
      by assert (m_active (m_timer_reconnect (c_rtsp d)) = false) as -> by exact Hrec.
    - destruct Hg as [-> Hc]. unfold handlePollEvents. rewrite Hsd.
      assert (handleResponse e1 d = Some (RTSP_ERROR, d)) as Hr.
      { unfold handleResponse. rewrite Hc, (proj2 (Z.eqb_neq _ _)); [done|].
        change (m_rx_data_len (c_rtsp d)) with (m_rx_data_len (c_rtsp c)).
        change (m_rx_data_pos (c_rtsp d)) with 1. pose proof (zlen_nonneg (response headers)).
        assert (4 <= zlen (response headers)); [|lia].
        pose proof (strstr_length _ _ _ (wr_end _ (response_whole headers Hl Hhd))) as Hz.
        change (zlen (crlf ++ crlf)) with 4 in Hz. lia. }
      by rewrite Hr. }
  clear -Hsteps Hstep. induction Hsteps as [|s steps Hs _ IH]; [done|].
  rewrite (client_run_cons _ _ _ _ (Hstep s Hs)). exact IH.
Qed.

(** C38: a failing recv is added to the buffer position like a count. With an
    empty buffer whose first byte is not [$], the terminating NUL is then
    written in front of the buffer. *)
Theorem recv_error_underflow c e b :
  connected (c_rtsp c) -> env_recv e = RecvError -> m_rx_data_pos (c_rtsp c) = 0 ->
  1 < m_rx_data_len (c_rtsp c) -> rd (m_rx_data (c_rtsp c)) 0 = Some b -> b <> 36 ->
  handlePollEvents e readable c = None.
Proof.
  intros [Hw Hc] Hrecv Hp Hlen Hb Hne. unfold handlePollEvents.
  assert (handleResponse e c = None) as Hr.
  { unfold handleResponse. rewrite Hrecv, (proj2 (Z.eqb_neq _ _)) by lia.
    set (r := (c_rtsp c) <| m_rx_data_pos := m_rx_data_pos (c_rtsp c) - 1 |>).
    cbn [again]. change (c_rtsp (c <| c_rtsp := r |>)) with r.
    change (m_rx_data r) with (m_rx_data (c_rtsp c)). rewrite Hb. cbn [mbind option_bind].
    rewrite (proj2 (Z.eqb_neq _ _) Hne). unfold terminate.
    change (m_rx_data_pos r) with (m_rx_data_pos (c_rtsp c) - 1). by rewrite Hp. }
  by destruct (m_rtsp_status (c_rtsp c)); cbn [POLLHUP POLLERR POLLNVAL POLLIN readable orb];
    try rewrite Hr.
Qed.
End Lost.

(** ** Instances *)

Definition demo_rtp : satipRTP := mkRTP 45000 45001 true false 0 0.
Definition demo_env (now : Z) (recv : recv_res) : env :=
  Env (TS now 0) (Some [Addr 3 true true ConnectError; Addr 4 true true InProgress]) true recv 0.
Definition demo_client : client :=
  @client_new linux_dvb 0 vtunerOpt_new (str "192.168.0.2") (str "554") (replicate 2048 xff) (TS 10 0)
    demo_rtp.

Lemma client_run_reachable `{DvbConstants} `{LongWidth} steps : forall c d,
  reachable c ->
  Forall (fun s => match s with StepUser op => user_op op | StepPoll _ _ => False | _ => True end) steps ->
  client_run c steps = Some d -> reachable d.
Proof.
  induction steps as [|s steps IH]; intros c d Hc Hsteps Hd; [by injection Hd as <-|].
  apply Forall_cons in Hsteps as [Hs Hsteps].
  destruct (client_exec c s) as [c1|] eqn:E.
  - rewrite (client_run_cons _ _ _ _ E) in Hd. apply (IH c1); [|done|done].
    eapply reach_step; [exact Hc| |exact E]. by destruct s.
  - unfold client_run in Hd. cbn [foldl mbind option_bind] in Hd. rewrite E in Hd. clear -Hd.
    induction steps as [|s' steps IH]; [done|]. by apply IH.
Qed.

Definition demo_tuning : list client_step :=
  [StepUser (OpSetFrequency 124020); StepUser (OpPidList [0x100; 0x101]); StepUser OpChannelChanged].
Definition demo_tuned : client := default demo_client (@client_run linux_dvb 64 demo_client demo_tuning).

Lemma demo_client_reachable : @reachable linux_dvb 64 demo_client.
Proof. apply (@reach_new linux_dvb 64). reflexivity. Qed.

Lemma demo_tuned_reachable : @reachable linux_dvb 64 demo_tuned.
Proof.
  unfold demo_tuned. destruct (client_run demo_client demo_tuning) as [d|] eqn:E;
    [|exact demo_client_reachable].
  apply (@client_run_reachable linux_dvb 64 demo_tuning demo_client d demo_client_reachable); [|exact E].
  repeat constructor; cbn; lia.
Qed.

Definition demo_headers : list text := [str "CSeq: 2"; str "Session: 12345678"].
Definition demo_setup : text :=
  setup_response 1 (str "12345678") 60 (str "RTP/AVP;unicast;client_port=45000-45001") 7.

Lemma demo_headers_ok : Forall header_ok demo_headers.
Proof. repeat constructor; unfold header_ok; apply (bool_decide_unpack _); vm_compute; exact I. Qed.

Lemma demo_answering :
  @answering 64 (demo_env 11 Closed) (demo_env 12 Closed) (demo_env 13 (Received demo_setup))
    (demo_env 14 Closed) (demo_env 15 (Received (response demo_headers))) 1 (str "12345678") 60
    (str "RTP/AVP;unicast;client_port=45000-45001") 7 (response demo_headers).
Proof.
  constructor.
  - by eexists _, _.
  - done.
  - done.
  - split; [split; [done|]; apply (bool_decide_unpack _); vm_compute; exact I|].
    split; [split_and!; apply (bool_decide_unpack _); vm_compute; exact I|]. by split_and!.
  - split; [done|]. split; [|done]. apply (@response_whole 64); [unfold long_bits; lia|].
    apply demo_headers_ok.
Qed.

(** The client of [session_established], with its keep-alive timer started. *)
Definition demo_steps : list client_step :=
  start_steps (demo_env 11 Closed) (demo_env 11 Closed) (demo_env 12 Closed)
    (demo_env 13 (Received demo_setup)) (demo_env 14 Closed) (demo_env 15 (Received (response demo_headers)))
  ++ [StepStatus (demo_env 16 Closed)].

Definition step_okb (c : client) (s : client_step) : bool :=
  match s with
  | StepPoll e _ =>
      match env_recv e with
      | Received data =>
          (0 <? zlen data) && (zlen data <=? m_rx_data_len (c_rtsp c) - m_rx_data_pos (c_rtsp c) - 1)
      | Closed => true
      | RecvError => false
      end
  | StepUser _ => false
  | _ => true
  end.

Fixpoint run_checked `{DvbConstants} `{LongWidth} (c : client) (steps : list client_step) : option client :=
  match steps with
  | [] => Some c
  | s :: steps => if step_okb c s then d ← client_exec c s; run_checked d steps else None
  end.

Lemma run_checked_reachable `{DvbConstants} `{LongWidth} steps : forall c d,
  reachable c -> run_checked c steps = Some d -> reachable d.
Proof.
  induction steps as [|s steps IH]; intros c d Hc Hd; [by injection Hd as <-|]. cbn [run_checked] in Hd.
  destruct (step_okb c s) eqn:Hok; [|done]. destruct (client_exec c s) as [c1|] eqn:E; [|done].
  apply (IH c1); [|done]. apply (reach_step c s); [done| |done].
  destruct s as [e|e|e ev|op]; try done. cbn [step_ok step_okb] in *. unfold recv_ok.
  destruct (env_recv e); try done. bool_cases. lia.
Qed.

Definition demo_kept : client := default demo_tuned (@run_checked linux_dvb 64 demo_tuned demo_steps).

Lemma demo_kept_reachable : @reachable linux_dvb 64 demo_kept.
Proof.
  unfold demo_kept. destruct (run_checked demo_tuned demo_steps) as [d|] eqn:E; [|exact demo_tuned_reachable].
  exact (run_checked_reachable _ _ _ demo_tuned_reachable E).
Qed.

Lemma demo_kept_kept : kept demo_kept.
Proof.
  constructor; split_and!; try (vm_compute; reflexivity); apply (bool_decide_unpack _); vm_compute; exact I.
Qed.

Definition demo_round (now : Z) : keep_round :=
  KeepRound (demo_env now Closed) (demo_env now Closed) (demo_env (now + 1) (Received (response demo_headers)))
    (response demo_headers).

Lemma demo_rounds_ok :
  @rounds_ok 64 (m_rx_data_len (c_rtsp demo_kept)) (m_rtsp_timeout (c_rtsp demo_kept))
    (ts_ns (m_ts (m_timer_keep_alive (c_rtsp demo_kept)))) [demo_round 72; demo_round 128].
Proof.
  assert (@whole_response 64 (response demo_headers)) as Hw
    by (apply (@response_whole 64); [unfold long_bits; lia|apply demo_headers_ok]).
  split; [|split; [|exact I]]; split_and!; try done; apply (bool_decide_unpack _); vm_compute; exact I.
Qed.

Lemma session_kept_alive_witness :
  exists d, @client_run linux_dvb 64 demo_kept (concat (map round_steps [demo_round 72; demo_round 128])) = Some d /\
    c_sent d = c_sent demo_kept ++ options_requests 2 (c_rtsp demo_kept).
Proof.
  destruct (@session_kept_alive linux_dvb 64 demo_kept [demo_round 72; demo_round 128] demo_kept_reachable
    demo_kept_kept demo_rounds_ok) as (_ & d & Hrun & _ & _ & Hsent).
  exists d. split; [exact Hrun|exact Hsent].
Defined.

Lemma rtsp_invariant_witness : client_inv demo_tuned.
Proof. apply (@rtsp_invariant linux_dvb 64). exact demo_tuned_reachable. Defined.

Lemma rtsp_step_returns_witness :
  returns (@client_exec linux_dvb 64 demo_tuned (StepStatus (demo_env 11 Closed)))
    (@reachable linux_dvb 64).
Proof.
  apply (@rtsp_step_returns linux_dvb 64); [exact demo_tuned_reachable|].
  split; vm_compute; congruence.
Defined.

Lemma session_established_witness :
  exists d data,
    @client_run linux_dvb 64 demo_tuned (start_steps (demo_env 11 Closed) (demo_env 11 Closed)
      (demo_env 12 Closed) (demo_env 13 (Received demo_setup)) (demo_env 14 Closed)
      (demo_env 15 (Received (response demo_headers)))) = Some d /\
    c_sent d = c_sent demo_tuned ++ [setup_text demo_tuned data; play_text demo_tuned 7 (str "12345678") []] /\
    server_setup (query data) = wanted_pids (c_cfg demo_tuned) /\
    m_rtsp_status (c_rtsp d) = RTSP_STATUS_SESSION_TRANSMITTING.
Proof.
  destruct (@session_established linux_dvb 64 demo_tuned _ (demo_env 11 Closed) _ _ _ _ _ _ _ _ _ _
    ltac:(unfold long_bits; lia) demo_tuned_reachable ltac:(vm_compute; congruence)
    ltac:(vm_compute; reflexivity) ltac:(vm_compute; reflexivity) demo_answering)
    as (d & data & Hrun & Hsent & Hq & Hs & _).
  exists d, data. by split_and!.
Defined.

Lemma session_header_overflow_witness :
  @handleResponseSetup 64 (str "RTSP/1.0 200 OK" ++ crlf ++ str "CSeq: " ++ dec 1 ++ crlf
    ++ str "Session: " ++ str "12345678" ++ replicate 1016 x20) (c_rtsp demo_client) = None.
Proof.
  apply (@session_header_overflow 64).
  - split; [done|]. apply (bool_decide_unpack _). vm_compute. exact I.
  - vm_compute. congruence.
Defined.

(** A failed attempt, and the timer after it. *)
Definition no_server (now : Z) : env := Env (TS now 0) None true Closed 0.
Definition demo_retry_steps : list client_step := [StepStatus (no_server 20); StepTimer (no_server 22)].
Definition demo_retry : client := default demo_tuned (@client_run linux_dvb 64 demo_tuned demo_retry_steps).

Lemma demo_retry_reachable : @reachable linux_dvb 64 demo_retry.
Proof.
  unfold demo_retry. destruct (client_run demo_tuned demo_retry_steps) as [d|] eqn:E;
    [|exact demo_tuned_reachable].
  apply (@client_run_reachable linux_dvb 64 demo_retry_steps demo_tuned d demo_tuned_reachable); [|exact E].
  repeat constructor.
Qed.

Lemma retry_backs_off_witness :
  m_reconnect_attempts (c_rtsp demo_retry) = 1 /\
  exists d, @handleRTSPStatus linux_dvb (no_server 30) demo_retry = Some d /\
    m_reconnect_attempts (c_rtsp d) = 2.
Proof.
  split; [vm_compute; reflexivity|].
  destruct (@retry_backs_off linux_dvb 64 demo_retry (no_server 30) demo_retry_reachable
    ltac:(vm_compute; reflexivity) ltac:(vm_compute; reflexivity) ltac:(vm_compute; reflexivity) I
    ltac:(split; cbn; lia)) as (d & Hd & _ & _ & _ & Hn & _).
  exists d. split; [exact Hd|]. rewrite Hn. vm_compute. reflexivity.
Defined.

Lemma retune_not_delayed_witness :
  exists d', @handleRTSPStatus linux_dvb (demo_env 11 Closed) (resetConnect (TS 11 0) true demo_tuned) = Some d' /\
    m_rtsp_status (c_rtsp d') = RTSP_STATUS_SERVER_CONNECTING /\ m_fd (c_rtsp d') = 4.
Proof.
  destruct (@retune_not_delayed linux_dvb demo_tuned (TS 11 0) (demo_env 11 Closed) _ 4
    ltac:(vm_compute; reflexivity) ltac:(vm_compute; reflexivity) eq_refl eq_refl) as (d' & H1 & H2 & H3 & _).
  exists d'. by split_and!.
Defined.

(** A client in TCP mode that waits for a response, with a small buffer. *)
Definition demo_tcp (status : rtsp_status) (request : rtsp_request) : client :=
  let '(cfg, psi) := @satipConfig_new linux_dvb 0 (vtunerOpt_new <| m_tcpdata := true |>) in
  Client (mkRTSP (str "192.168.0.2") (str "554") (start (TS 10 0) timer_elem_new 4000 true)
            timer_elem_new timer_elem_new 0 1 4 (replicate 200 xff) 200 0 status request
            (str "12345678") 7 60 3 true) cfg psi demo_rtp [] [].

Lemma demo_tcp_inv status request :
  status = RTSP_STATUS_SESSION_PLAYING \/ status = RTSP_STATUS_SESSION_TEARDOWNING ->
  client_inv (demo_tcp status request).
Proof.
  intros Hs. pose proof (ok_tuner _ (@world_new_ok linux_dvb 0 (vtunerOpt_new <| m_tcpdata := true |>))) as Hwf.
  unfold world_new in Hwf. unfold demo_tcp.
  destruct (@satipConfig_new_status linux_dvb 0 (vtunerOpt_new <| m_tcpdata := true |>)) as [Hst _].
  destruct (@satipConfig_new linux_dvb 0 (vtunerOpt_new <| m_tcpdata := true |>)) as [cfg psi].
  constructor; [|exact Hwf]. cbn [fst c_rtsp c_cfg] in *. rewrite Hst. by destruct Hs as [->| ->].
Qed.

Definition demo_interleaved : env := demo_env 11 (Received (response demo_headers ++ [x24])).

Lemma interleaved_completion_lost_witness :
  exists d d' text,
    @handlePollEvents 64 demo_interleaved readable
      (demo_tcp RTSP_STATUS_SESSION_PLAYING RTSP_REQUEST_PLAY) = Some d /\
    m_rtsp_status (c_rtsp d) = RTSP_STATUS_SESSION_PLAYING /\ m_wait_response (c_rtsp d) = false /\
    @handleRTSPStatus linux_dvb (demo_env 12 Closed) d = Some d' /\ c_sent d' = [text].
Proof.
  destruct (@interleaved_completion_lost linux_dvb 64
    (demo_tcp RTSP_STATUS_SESSION_PLAYING RTSP_REQUEST_PLAY) demo_interleaved (demo_env 12 Closed)
    demo_headers) as (d & d' & text & H1 & H2 & H3 & _ & H4 & H5 & _); try reflexivity;
    [unfold long_bits; lia|by apply demo_tcp_inv; left|apply demo_headers_ok|].
  exists d, d', text. by split_and!.
Defined.

Lemma closed_connection_ignored_witness :
  @handlePollEvents 64 (demo_env 11 Closed) readable
    (demo_tcp RTSP_STATUS_SESSION_PLAYING RTSP_REQUEST_PLAY)
  = Some (demo_tcp RTSP_STATUS_SESSION_PLAYING RTSP_REQUEST_PLAY).
Proof.
  apply (@closed_connection_ignored 64); [by apply demo_tcp_inv; left|reflexivity|reflexivity|done].
Defined.

Lemma teardown_hangs_witness :
  exists d, @handlePollEvents 64 demo_interleaved readable
      (demo_tcp RTSP_STATUS_SESSION_TEARDOWNING RTSP_REQUEST_TEARDOWN) = Some d /\
    @client_run linux_dvb 64 d [StepStatus (no_server 20); StepTimer (no_server 100);
      StepPoll (no_server 100) readable] = Some d.
Proof.
  destruct (@teardown_hangs linux_dvb 64
    (demo_tcp RTSP_STATUS_SESSION_TEARDOWNING RTSP_REQUEST_TEARDOWN) demo_interleaved demo_headers
    [StepStatus (no_server 20); StepTimer (no_server 100); StepPoll (no_server 100) readable])
    as (d & H1 & _ & H2); try reflexivity;
    [unfold long_bits; lia|by apply demo_tcp_inv; right|apply demo_headers_ok|repeat constructor|].
  exists d. by split.
Defined.

Lemma recv_error_underflow_witness :
  @handlePollEvents 64 (demo_env 11 RecvError) readable
    (demo_tcp RTSP_STATUS_SESSION_PLAYING RTSP_REQUEST_PLAY) = None.
Proof.
  apply (@recv_error_underflow 64 _ _ 255); try reflexivity; [by split|].
  intros Heq. discriminate.
Defined.
