(* ===== verification/Session.v ===== *)
(** The session of session.h and session.cpp: the class [satipSession], which
    owns the objects of one virtual tuner, and the two threads that work on
    them: the main loop, and the rtp thread of rtp.cpp.

    The main loop is a sequence of calls, [loop_pc] says which one is next. The
    rtp thread's handling of a datagram and [stop], called by the main thread,
    may come between any two of them. The calls themselves are atomic here:
    what the threads share is the parser, which locks itself, and the ca pids
    of the configuration, which a call reads once, under a lock. *)

From S2P Require Import Prelude Crc Psi CText OptParser Dvb Timer Config ConfigText Tuner Rtp Vtuner Rtsp.

#[export] Instance poll_events_eq_decision : EqDecision poll_events.
Proof. solve_decision. Defined.

(** ** State *)

(** What poll reported. *)
Record polled := Polled {
  pl_vtuner : bool;
  pl_wakeup : bool;
  pl_rtsp : poll_events
}.

(** The call that comes next in [satipMainLoop]; [PcEnd]: there is no thread. *)
Inductive loop_pc :=
| PcTest
| PcStatus
| PcPoll
| PcTimer (p : polled)
| PcDrain (p : polled)
| PcVtuner (p : polled)
| PcEvents (p : polled)
| PcEnd.

(** [m_wakeup_pipe] holds the two ends; the pipe holds the bytes written, which
    the configuration counts, behind the first [s_drained]. *)
Record satipSession := mkSession {
  s_client : client;
  s_vtuner : satipVtuner;
  m_running : bool;
  m_wakeup_pipe : Z * Z;
  s_drained : Z;
  s_pc : loop_pc;
  s_rtp_running : bool
}.

#[export] Instance satipSession_settable : Settable satipSession := fun s =>
  mkSession (s_client s) (s_vtuner s) (m_running s) (m_wakeup_pipe s) (s_drained s) (s_pc s)
    (s_rtp_running s).

Definition s_cfg (s : satipSession) : satipConfig := c_cfg (s_client s).

Definition pipe_readable (s : satipSession) : bool :=
  negb ((m_wakeup_pipe s).1 =? -1) && (s_drained s <? wakeup_writes (s_cfg s)).

(** ** Construction *)

(** What the system gives a new session: the two ends of the pipe, the device
    nodes and their driver, the answers about the ports, the memory of the
    receive buffer, the uninitialised fields of the vtuner object, the time. *)
Record resources := Resources {
  rs_pipe : option (Z * Z);
  rs_nodes : list vtuner_node;
  rs_driver : driver;
  rs_ports : list port_try;
  rs_buffer : list byte;
  rs_tries : Z;
  rs_timeout : timespec;
  rs_now : timespec
}.

Section Session.
Context `{DvbConstants} `{FrontendConstants} `{LongWidth} `{VtunerBuild}.

(** The new object and [initok]. *)
Definition satipSession_new (host rtsp_port : text) (fe_type : Z) (settings : vtunerOpt)
    (rs : resources) : option (satipSession * bool) :=
  let pipe := default (-1, -1) (rs_pipe rs) in
  let '(cfg, psi) := satipConfig_new fe_type settings in
  let cfg := setWakeupFd cfg pipe.2 in
  let vtuner := satipVtuner_new (rs_nodes rs) (rs_driver rs) (getFeType cfg) (rs_tries rs)
                  (rs_timeout rs) in
  rtp ← satipRTP_new (m_tcpdata settings) (rs_ports rs);
  let client := satipRTSP_new host rtsp_port (rs_buffer rs) (rs_now rs) cfg psi rtp in
  Some (mkSession client vtuner false pipe 0 PcEnd false,
        Vtuner.m_openok vtuner && Rtp.m_openok rtp).

(** [satipRTP::run]: the thread is there in UDP mode only. *)
Definition rtp_run (s : satipSession) : satipSession :=
  s <| s_rtp_running := negb (isTcpData (s_cfg s)) |>.

(** [satipRTP::stop] waits for the rtp thread. *)
Definition rtp_stop (s : satipSession) : satipSession := s <| s_rtp_running := false |>.

(** [start], which calls [run]. *)
Definition session_start (s : satipSession) : satipSession :=
  rtp_run s <| m_running := true |> <| s_pc := PcTest |>.

Definition session_stop (s : satipSession) : satipSession :=
  rtp_stop s <| m_running := false |>
    <| s_client := (s_client s) <| c_cfg := wakeup (s_cfg s) |> |>.

(** ** The main loop *)

(** What poll answers: it fails, with EINTR or not, or returns the events of
    the vtuner device and of the socket. *)
Inductive poll_answer := PollFailed (eintr : bool) | PollReturned (vtuner : bool) (rtsp : poll_events).

(** What the system answers during one call; [an_message] is [None] when the
    ioctl fails. *)
Record answers := Answers {
  an_env : env;
  an_poll : poll_answer;
  an_message : option vtuner_message
}.

(** poll, on up to three descriptors: the device, the pipe and, with events to
    wait for, the socket; a negative descriptor is ignored. *)
Definition poll_result (a : poll_answer) (s : satipSession) : loop_pc :=
  match a with
  | PollFailed eintr => if eintr then PcTimer (Polled false false no_events) else PcEnd
  | PollReturned vtuner rtsp =>
      let slot := bool_decide (getPollEvent (s_client s) <> no_events)
                  && (0 <=? m_fd (c_rtsp (s_client s))) in
      PcTimer (Polled vtuner (pipe_readable s) (if slot then rtsp else no_events))
  end.

(** The tuner the vtuner object works on. *)
Definition s_tuner (s : satipSession) : tuner :=
  Tuner (s_vtuner s) (s_cfg s) (c_psi (s_client s)) (Some (c_rtp (s_client s))).

Definition set_tuner (t : tuner) (s : satipSession) : satipSession :=
  s <| s_vtuner := t_vtuner t |>
    <| s_client := (s_client s) <| c_cfg := t_cfg t |> <| c_psi := t_psi t |>
                     <| c_rtp := default (c_rtp (s_client s)) (t_rtp t) |> |>.

(** One call of the main loop. *)
Definition main_step (a : answers) (s : satipSession) : option satipSession :=
  match s_pc s with
  | PcTest => Some (s <| s_pc := if m_running s then PcStatus else PcEnd |>)
  | PcStatus => c ← handleRTSPStatus (an_env a) (s_client s);
                Some (s <| s_client := c |> <| s_pc := PcPoll |>)
  | PcPoll => Some (s <| s_pc := poll_result (an_poll a) s |>)
  | PcTimer p => Some (s <| s_client := handleNextTimer (an_env a) (s_client s) |>
                         <| s_pc := PcDrain p |>)
  | PcDrain p =>
      let s := if pl_wakeup p then s <| s_drained := wakeup_writes (s_cfg s) |> else s in
      Some (s <| s_pc := PcVtuner p |>)
  | PcVtuner p =>
      s ← (if pl_vtuner p then
             match an_message a with
             | None => Some s
             | Some msg => '(t, _) ← vtunerEvent (env_now (an_env a)) msg (s_tuner s);
                           Some (set_tuner t s)
             end
           else Some s);
      Some (s <| s_pc := PcEvents p |>)
  | PcEvents p =>
      c ← (if bool_decide (pl_rtsp p <> no_events)
           then handlePollEvents (an_env a) (pl_rtsp p) (s_client s) else Some (s_client s));
      Some (s <| s_client := c |> <| s_pc := PcTest |>)
  | PcEnd => Some s
  end.

(** ** All threads *)

(** One step of some thread. A datagram comes with the memory of the receive
    buffer and the number of bytes received. *)
Inductive session_step :=
| StepMain (a : answers)
| StepRtp (data : list byte) (n t0 t1 : Z)
| StepRtcp (data : list byte) (n : Z)
| StepStop.

Definition session_exec (s : satipSession) (st : session_step) : option satipSession :=
  match st with
  | StepMain a => main_step a s
  | StepRtp data n t0 t1 =>
      if negb (s_rtp_running s) then Some s else
      let c := s_client s in
      d ← rtp_datagram (c_rtp c) (c_psi c) (Some (c_cfg c)) data n t0 t1;
      Some (s <| s_client := c <| c_rtp := dl_rtp d |> <| c_psi := dl_psi d |>
                               <| c_cfg := default (c_cfg c) (dl_cfg d) |>
                               <| c_device := c_device c ++ dl_device d |> |>)
  | StepRtcp data n =>
      if negb (s_rtp_running s) then Some s else
      let c := s_client s in
      r ← rtcp_datagram (c_rtp c) data n;
      Some (s <| s_client := c <| c_rtp := r |> |>)
  | StepStop => Some (session_stop s)
  end.

Definition session_run (s : satipSession) (steps : list session_step) : option satipSession :=
  foldl (fun s st => s ≫= fun s => session_exec s st) (Some s) steps.
End Session.
