(* ===== verification/SessionInv.v ===== *)
(** What every call does to the wakeup pipe, and the invariant of the session:
    the client's invariant whatever the threads do, and that a wakeup is never
    lost. *)

From S2P Require Import Prelude Crc Psi CText OptParser Dvb Timer Config ConfigText Tuner Rtp Vtuner VtunerProps Rtsp RtspInv RtspProps Session.

(** ** Calls of the configuration *)

Lemma ca_call_woken c (r : satipPSI * option satipConfig) :
  ca_call c r.2 -> woken c (default c r.2).
Proof. intros (d & -> & Hd). apply Hd. Qed.

Lemma call_psi_woken f c psi :
  (forall p c, ca_call c (f p (Some c)).2) -> woken c (call_psi f c psi).1.
Proof.
  intros Hf. unfold call_psi. destruct psi as [p|]; [|done].
  pose proof (ca_call_woken c (f p (Some c)) (Hf p c)) as Hw. by destruct (f p (Some c)).
Qed.

Lemma setJoinedPids_ca_call pids p c : ca_call c (setJoinedPids p (Some c) pids).2.
Proof.
  unfold setJoinedPids. case_bool_decide; [apply recompute_ca_call|].
  exists c. split; [done|apply ca_step_refl].
Qed.

Section Calls.
Context `{DvbConstants} `{LongWidth} `{VtunerBuild}.

Lemma clearProperty_woken c psi : woken c (clearProperty c psi).1.
Proof.
  unfold clearProperty. transitivity (clear_params c); [by apply woken_same|].
  apply call_psi_woken. intros p d. apply recompute_ca_call.
Qed.

Lemma updatePidList_woken c psi new : woken c (updatePidList c psi new).1.
Proof.
  unfold updatePidList. set (c1 := c <| m_pid_list := _ |>).
  transitivity (updatePidStatus c1).
  - unfold updatePidStatus. destruct (existsb _ _); by apply woken_same.
  - apply call_psi_woken. intros p d. apply setJoinedPids_ca_call.
Qed.

Lemma setVoltage_woken c v : woken c (setVoltage c v).
Proof. apply same_pids_woken, setVoltage_same. Qed.

(** ** Messages of the driver *)

(** What a message leaves alone or only adds to. *)
Record event_step (t t' : tuner) : Prop := {
  es_woken : woken (t_cfg t) (t_cfg t');
  es_status : m_status (t_cfg t') = CONFIG_STATUS_CHANNEL_STABLE ->
              m_status (t_cfg t) = CONFIG_STATUS_CHANNEL_STABLE
}.

Lemma event_step_refl t : event_step t t.
Proof. by constructor. Qed.

Lemma on_cfg_step f t :
  woken (t_cfg t) (f (t_cfg t)) -> 
  (m_status (f (t_cfg t)) = m_status (t_cfg t) \/
   m_status (f (t_cfg t)) <> CONFIG_STATUS_CHANNEL_STABLE) ->
  event_step t (on_cfg f t).
Proof. intros Hw [Hs|Hs]; constructor; cbn; try done. by rewrite Hs. Qed.

Lemma setVoltage_status c v :
  m_status (setVoltage c v) = m_status c \/ m_status (setVoltage c v) <> CONFIG_STATUS_CHANNEL_STABLE.
Proof. unfold setVoltage. destruct (_ =? _); [by left|]. destruct (_ =? _); [by left|by right]. Qed.

Lemma setProperty_step prop t :
  tuner_wf (t_cfg t) (t_psi t) -> event_step t (setProperty prop t).
Proof.
  intros Hwf. unfold setProperty. cbv zeta. repeat case_match;
    try apply event_step_refl; try (apply on_cfg_step; [by apply woken_same|first [by left|by right]]).
  destruct (clearProperty_wf _ _ Hwf) as (_ & _ & _ & _ & Hst).
  constructor; [apply clearProperty_woken|]. cbn. by rewrite Hst.
Qed.

Lemma setDiseqc_step m len t t' : setDiseqc m len t = Some t' -> event_step t t'.
Proof.
  unfold setDiseqc. destruct (rd m 0), (rd m 1), (rd m 2), (rd m 3); try done.
  cbn [mbind option_bind]. intros [= <-]. set (v18 := SEC_VOLTAGE_18). set (v13 := SEC_VOLTAGE_13).
  pose proof (setVoltage_woken (t_cfg t)) as Hw. pose proof (setVoltage_status (t_cfg t)) as Hs.
  assert (forall v, m_status (setVoltage (t_cfg t) v) = CONFIG_STATUS_CHANNEL_STABLE ->
    m_status (t_cfg t) = CONFIG_STATUS_CHANNEL_STABLE) as Hst.
  { intros v Hv. destruct (Hs v) as [He|He]; congruence. }
  repeat case_match; (constructor; cbn; [|first [done|apply Hst]]); try (by apply woken_same);
    (etrans; [apply Hw|by apply woken_same]).
Qed.

Lemma vtunerEvent_step now msg t r :
  message_ok msg -> tuner_wf (t_cfg t) (t_psi t) ->
  vtunerEvent now msg t = Some r -> event_step t r.1.
Proof.
  intros Hmsg Hwf Hr. destruct msg; cbn [vtunerEvent] in Hr;
    try (injection Hr as <-; first [apply event_step_refl|by apply setProperty_step|by constructor]).
  - injection Hr as <-. cbn [fst].
    assert (event_step t (if HAVE_NO_MSG16 then setProperty prop t else t)) as []
      by (destruct HAVE_NO_MSG16; [by apply setProperty_step|apply event_step_refl]).
    by constructor.
  - destruct (t_rtp t) as [rtp|]; [|injection Hr as <-; apply event_step_refl].
    destruct (snr_of rtp); [|done]. injection Hr as <-. apply event_step_refl.
  - injection Hr as <-. apply on_cfg_step; [apply setVoltage_woken|apply setVoltage_status].
  - destruct (setDiseqc _ _ _) as [t'|] eqn:Hd; [|done]. injection Hr as <-.
    by eapply setDiseqc_step.
  - injection Hr as <-. repeat case_match; try apply event_step_refl;
      apply on_cfg_step; [by apply woken_same|by left|by apply woken_same|by left].
  - injection Hr as <-. cbn [fst].
    destruct (updatePidList_wf (t_cfg t) (t_psi t) pidlist Hwf Hmsg) as (_ & _ & _ & Hst & _).
    constructor; [apply updatePidList_woken|]. cbn. by rewrite Hst.
Qed.
End Calls.

(** ** Calls of the RTSP client *)

Definition client_woken (c d : client) : Prop := woken (c_cfg c) (c_cfg d).

#[export] Instance client_woken_preorder : PreOrder client_woken.
Proof. constructor; [by intros c|]. intros c d e Hc Hd. unfold client_woken in *. by etrans. Qed.

Lemma on_rtsp_woken f c : client_woken c (on_rtsp f c).
Proof. by unfold client_woken. Qed.

Section Client.
Context `{DvbConstants} `{LongWidth}.

Lemma take_tuning_woken c : woken c (take_tuning c).2.
Proof. apply same_pids_woken. by destruct (take_tuning_spec c) as (_ & Hs & _). Qed.

Lemma updatePidStatus_woken c : woken c (updatePidStatus c).
Proof. unfold updatePidStatus. destruct (existsb _ _); by apply woken_same. Qed.

Lemma getSetupData_woken c : woken c (getSetupData c).2.
Proof.
  unfold getSetupData. pose proof (take_tuning_woken c) as Hw.
  destruct (take_tuning c) as [tuning c1]. cbn [addCaPids snd] in *. etrans; [exact Hw|].
  etrans; [|apply updatePidStatus_woken]. by apply woken_same.
Qed.

Lemma retune_woken c : woken c (retune c).2.
Proof.
  unfold retune. case_bool_decide; [|done]. pose proof (take_tuning_woken c) as Hw.
  destruct (take_tuning c) as [tuning c1]. etrans; [exact Hw|]. by apply woken_same.
Qed.

Lemma getPlayData_woken c : woken c (getPlayData c).2.
Proof.
  unfold getPlayData. pose proof (retune_woken c) as Hw. destruct (retune c) as [tuning c1].
  case_bool_decide; [|exact Hw]. pose proof (same_wakeup_woken _ _ (told_wakeup _ _ (play_pids_told c1))) as Hw'.
  destruct (play_pids c1) as [pids c2]. by etrans.
Qed.

Lemma send_method_woken e request c : client_woken c (send_method e request c).2.
Proof.
  destruct request; cbn [send_method]; try done.
  - unfold sendOption. by destruct (no_session _).
  - unfold sendSetup. pose proof (getSetupData_woken (c_cfg c)) as Hw. by destruct (getSetupData _).
  - unfold sendPlay. destruct (no_session _); [done|].
    pose proof (getPlayData_woken (c_cfg c)) as Hw. by destruct (getPlayData _).
  - unfold sendTearDown. by destruct (no_session _).
Qed.

Lemma sendRequest_woken e request c : client_woken c (sendRequest e request c).2.
Proof.
  unfold sendRequest. destruct (m_wait_response _); [done|].
  pose proof (send_method_woken e request (on_rtsp stopTimerKeepAliveMessage c)) as Hw.
  destruct (send_method _ _ _) as [res d]. cbn [snd] in *. case_bool_decide; [exact Hw|].
  etrans; [exact Hw|]. apply resetConnect_woken.
Qed.

Lemma request_and_woken e request s c : client_woken c (request_and e request s c).
Proof.
  unfold request_and. pose proof (sendRequest_woken e request c) as Hw.
  destruct (sendRequest _ _ _) as [res d]. by case_bool_decide.
Qed.

Lemma handleRTSPStatus_woken e c d : handleRTSPStatus e c = Some d -> client_woken c d.
Proof.
  intros Hd. unfold handleRTSPStatus in Hd.
  destruct (m_rtsp_status (c_rtsp c)); try (by injection Hd as <-);
    try (injection Hd as <-; apply sendRequest_woken).
  - destruct (getChannelStatus (c_cfg c)); try (by injection Hd as <-). injection Hd as <-.
    unfold start_connecting. destruct (m_attempted_generation (c_rtsp c) <? _);
      destruct (connectToServer _ _) as [res r]; (case_bool_decide; [done|]);
      apply clearChannelChanged_woken.
  - destruct (_ || _); [injection Hd as <-; apply request_and_woken|].
    case_bool_decide; [injection Hd as <-; apply request_and_woken|].
    destruct (negb _); [|by injection Hd as <-].
    destruct (startTimerKeepAliveMessage _ _); [|done]. by injection Hd as <-.
Qed.

Lemma call_woken e i c : client_woken c (@call _ (client_timers e) i c).
Proof.
  unfold call. destruct (m_active _); [|done]. cbn [clock_gettime client_timers].
  assert (client_woken c (run_handler i c)) as Hw.
  { destruct i; cbn [run_handler client_timers];
      [apply resetConnect_woken|apply sendRequest_woken|].
    unfold timeoutReconnect. by destruct (getChannelStatus _); [..|apply woken_same]. }
  etrans; [exact Hw|]. destruct (m_single _), i; done.
Qed.

Lemma handleNextTimer_woken e c : client_woken c (handleNextTimer e c).
Proof.
  apply (@callNextTimer_ind _ (client_timers e) (client_woken c)); [done| |done]. intros i d Hd. etrans; [exact Hd|]. apply call_woken.
Qed.

Lemma handlePollEvents_woken e ev c d :
  client_inv c -> recv_ok e (c_rtsp c) -> handlePollEvents e ev c = Some d -> client_woken c d.
Proof.
  intros Hinv Hrecv Hd. unfold handlePollEvents in Hd.
  destruct (_ || _ || _); [injection Hd as <-; apply resetConnect_woken|].
  assert (forall res c1, connected (c_rtsp c) -> handleResponse e c = Some (res, c1) ->
    client_woken c c1) as Hresp.
  { intros res c1 Hcon Hr. by destruct (handleResponse_inv e c _ Hinv Hcon Hrecv Hr) as (_ & _ & ?). }
  destruct (m_rtsp_status (c_rtsp c)) eqn:Hs; try (by injection Hd as <-).
  1: { injection Hd as <-. by destruct (POLLOUT ev). }
  all: destruct (POLLIN ev); [|by injection Hd as <-].
  all: assert (connected (c_rtsp c)) as Hcon by (by unfold connected; rewrite Hs).
  all: destruct (handleResponse e c) as [[res c1]|]; [|done]; injection Hd as <-.
  all: specialize (Hresp _ _ Hcon eq_refl); try exact Hresp.
  all: by case_bool_decide.
Qed.
End Client.

(** ** After the status step nothing is pending *)

Section Settled.
Context `{DvbConstants} `{LongWidth}.

Lemma sendRequest_cases e request c :
  let r := sendRequest e request c in
  (m_wait_response (c_rtsp c) = true /\ r = (RTSP_FAILED, c)) \/
  (r.1 = RTSP_OK /\ m_rtsp_status (c_rtsp r.2) = m_rtsp_status (c_rtsp c)) \/
  (r.1 <> RTSP_OK /\ m_rtsp_status (c_rtsp r.2) = RTSP_STATUS_CONFIG_WAITING).
Proof.
  intros r. subst r. unfold sendRequest. destruct (m_wait_response (c_rtsp c)); [by left|right].
  destruct (send_method_sends e request (on_rtsp stopTimerKeepAliveMessage c)) as [Hr _ _ _].
  destruct (send_method _ _ _) as [res d]. cbn [fst snd] in *. case_bool_decide.
  - left. split; [done|]. cbn. by destruct Hr as [->| ->].
  - right. split; [done|]. apply resetConnect_status.
Qed.

(** The client may act on a pid change. *)
Definition attentive (r : satipRTSP) : Prop :=
  m_rtsp_status r = RTSP_STATUS_SESSION_TRANSMITTING /\ m_wait_response r = false.

Lemma sendRequest_attentive e request c :
  attentive (c_rtsp (sendRequest e request c).2) -> attentive (c_rtsp c) ->
  (sendRequest e request c).1 = RTSP_OK.
Proof.
  intros [Hs Hw] [_ Hwc]. destruct (sendRequest_cases e request c) as [[Hwt _]|[[Ho _]|[_ Hr]]]; congruence.
Qed.

Lemma request_and_attentive e request s c :
  s <> RTSP_STATUS_SESSION_TRANSMITTING ->
  m_rtsp_status (c_rtsp c) = RTSP_STATUS_SESSION_TRANSMITTING ->
  ~ attentive (c_rtsp (request_and e request s c)).
Proof.
  intros Hne Hst [Hs Hw]. unfold request_and in *.
  destruct (sendRequest_cases e request c) as [[Hwt Heq]|[[Ho _]|[Ho Hr]]].
  - rewrite Heq in Hw. by rewrite bool_decide_eq_false_2 in Hw; cbn in Hw; [congruence|].
  - destruct (sendRequest e request c) as [res d]. cbn [fst snd] in *.
    rewrite bool_decide_eq_true_2 in Hs by done. by cbn in Hs.
  - destruct (sendRequest e request c) as [res d]. cbn [fst snd] in *.
    rewrite bool_decide_eq_false_2 in Hs by done. congruence.
Qed.

Lemma handleRTSPStatus_settled e c d :
  handleRTSPStatus e c = Some d -> attentive (c_rtsp d) ->
  getPidStatus (c_cfg d) = CONFIG_STATUS_PID_STATIONARY.
Proof.
  intros Hd Hatt. unfold handleRTSPStatus in Hd.
  assert (forall request, m_rtsp_status (c_rtsp c) <> RTSP_STATUS_SESSION_TRANSMITTING ->
    d = (sendRequest e request c).2 -> False) as Hsend.
  { intros request Hne ->. destruct Hatt as [Hs _].
    destruct (sendRequest_cases e request c) as [[_ Heq]|[[_ Heq]|[_ Heq]]].
    - rewrite Heq in Hs. done.
    - congruence.
    - congruence. }
  destruct (m_rtsp_status (c_rtsp c)) eqn:Hst.
  - exfalso. destruct Hatt as [Hs _]. destruct (getChannelStatus (c_cfg c)); injection Hd as <-.
    + cbn in Hs. destruct (m_active _); cbn in Hs; by rewrite Hst in Hs.
    + unfold start_connecting in Hs. destruct (m_attempted_generation (c_rtsp c) <? _);
        unfold connectToServer in Hs; destruct (env_addrs e) as [addrs|]; try destruct (connect_loop addrs);
        cbn in Hs; try done; unfold startTimerReconnect in Hs;
        destruct (_ <? 30000); cbn in Hs; by rewrite Hst in Hs.
    + by rewrite Hst in Hs.
  - injection Hd as <-. destruct Hatt. congruence.
  - injection Hd as <-. exfalso. by eapply Hsend.
  - injection Hd as <-. exfalso. by eapply Hsend.
  - destruct (_ || _) eqn:Hor.
    { injection Hd as <-. by apply request_and_attentive in Hatt. }
    apply orb_false_iff in Hor as [_ Hpid].
    case_bool_decide as Hch.
    { injection Hd as <-. by apply request_and_attentive in Hatt. }
    assert (c_cfg d = c_cfg c) as ->.
    { destruct (negb _); [|by injection Hd as <-].
      destruct (startTimerKeepAliveMessage _ _); [|done]. by injection Hd as <-. }
    apply bool_decide_eq_false in Hpid. by destruct (getPidStatus (c_cfg c)).
  - injection Hd as <-. destruct Hatt. congruence.
Qed.
End Settled.

(** ** The invariant of the session *)

(** Both ends of the wakeup pipe exist. *)
Definition pipe_ok (s : satipSession) : Prop :=
  0 <= (m_wakeup_pipe s).1 /\ 0 <= (m_wakeup_pipe s).2.

Record session_inv (s : satipSession) : Prop := {
  si_client : client_inv (s_client s);
  si_end : m_wakeup_fd (s_cfg s) = (m_wakeup_pipe s).2;
  si_drained : s_drained s <= wakeup_writes (s_cfg s);
  (** before poll, pids that are pending unseen by the status step have left a
      byte in the pipe, and so has [stop] *)
  si_pids : s_pc s = PcPoll -> pipe_ok s -> attentive (c_rtsp (s_client s)) ->
            getPidStatus (s_cfg s) = CONFIG_STATUS_PID_CHANGED -> pipe_readable s = true;
  si_stop : s_pc s = PcStatus \/ s_pc s = PcPoll -> pipe_ok s -> m_running s = false ->
            pipe_readable s = true
}.

(** What the system may answer: see [step_ok] and [message_ok]; a datagram is no
    longer than the memory it is in. *)
Definition session_step_ok (s : satipSession) (st : session_step) : Prop :=
  match st with
  | StepMain a => recv_ok (an_env a) (c_rtsp (s_client s)) /\ from_option message_ok True (an_message a)
  | StepRtp data n _ _ => n <= zlen data
  | _ => True
  end.

Lemma pipe_readable_lt s : pipe_ok s -> s_drained s < wakeup_writes (s_cfg s) -> pipe_readable s = true.
Proof.
  intros [Hp _] Hlt. unfold pipe_readable. rewrite (proj2 (Z.eqb_neq _ _)) by lia.
  by rewrite (proj2 (Z.ltb_lt _ _)).
Qed.

Lemma pipe_readable_lt_inv s : pipe_readable s = true -> s_drained s < wakeup_writes (s_cfg s).
Proof. unfold pipe_readable. intros Hr. by apply andb_true_iff in Hr as [_ Hr%Z.ltb_lt]. Qed.

(** The same pipe and counter, with more written. *)
Lemma pipe_readable_mono s t :
  m_wakeup_pipe t = m_wakeup_pipe s -> s_drained t = s_drained s ->
  wakeup_writes (s_cfg s) <= wakeup_writes (s_cfg t) ->
  pipe_readable s = true -> pipe_readable t = true.
Proof.
  unfold pipe_readable. intros -> -> Hle [Hp Hlt%Z.ltb_lt]%andb_true_iff. rewrite Hp. apply Z.ltb_lt. lia.
Qed.

(** A step that changes the client only, to one with the client's invariant,
    outside of the poll. *)
Lemma session_inv_client s c pc :
  session_inv s -> client_inv c -> client_woken (s_client s) c ->
  (pc = PcPoll -> attentive (c_rtsp c) -> getPidStatus (c_cfg c) = CONFIG_STATUS_PID_STATIONARY) ->
  (pc = PcStatus \/ pc = PcPoll -> pipe_ok s -> m_running s = false -> pipe_readable s = true) ->
  session_inv (s <| s_client := c |> <| s_pc := pc |>).
Proof.
  intros [_ Hend Hdr _ _] Hc [Hfd Hwr _] Hpids Hstop. unfold s_cfg in *.
  constructor; unfold s_cfg; cbn [s_client m_wakeup_pipe s_drained s_pc m_running update_field satipSession_settable rebuild].
  - done.
  - congruence.
  - lia.
  - intros -> _ Hatt Hch. rewrite (Hpids eq_refl Hatt) in Hch. done.
  - intros Hpc Hok Hrun. eapply pipe_readable_mono; [..|by apply Hstop]; done.
Qed.

Lemma session_inv_vtuner v s : session_inv s -> session_inv (s <| s_vtuner := v |>).
Proof. by intros []. Qed.

Lemma client_inv_tuner c cfg psi rtp device :
  client_inv c -> tuner_wf cfg psi ->
  (m_status cfg = CONFIG_STATUS_CHANNEL_STABLE -> m_status (c_cfg c) = CONFIG_STATUS_CHANNEL_STABLE) ->
  client_inv (Client (c_rtsp c) cfg psi rtp (c_sent c) device).
Proof. intros [Hi _] Hwf Hst. constructor; [|exact Hwf]. by eapply rtsp_inv_channel. Qed.

Section Steps.
Context `{DvbConstants} `{FrontendConstants} `{LongWidth} `{VtunerBuild}.

Lemma main_step_inv a s s' :
  session_inv s -> session_step_ok s (StepMain a) -> main_step a s = Some s' -> session_inv s'.
Proof.
  intros Hinv [Hrecv Hmsg] Hs'. pose proof Hinv as [Hc Hend Hdr Hpids Hstop].
  unfold main_step in Hs'. destruct (s_pc s) as [| | |p|p|p|p|] eqn:Hpc.
  - injection Hs' as <-. apply (session_inv_client s (s_client s)); try done.
    + by destruct (m_running s).
    + intros Hp _ Hrun. by rewrite Hrun in Hp; destruct Hp.
  - destruct (handleRTSPStatus _ _) as [c|] eqn:Hst; [|done]. injection Hs' as <-.
    apply session_inv_client; [done|by eapply handleRTSPStatus_inv|by eapply handleRTSPStatus_woken|..].
    + intros _. by eapply handleRTSPStatus_settled.
    + intros _. apply Hstop. by left.
  - injection Hs' as <-. apply (session_inv_client s (s_client s)); try done;
      destruct (an_poll a) as [[]|]; (done || by intros []).
  - injection Hs' as <-. apply session_inv_client; [done|by apply handleNextTimer_inv
      |by apply handleNextTimer_woken|done|by intros []].
  - injection Hs' as <-. destruct (pl_wakeup p); [|by apply (session_inv_client s (s_client s)); try done; intros []].
    constructor; cbn; try done; by intros [].
  - destruct (pl_vtuner p); [|injection Hs' as <-;
      by apply (session_inv_client s (s_client s)); try done; intros []].
    destruct (an_message a) as [msg|]; [|injection Hs' as <-;
      by apply (session_inv_client s (s_client s)); try done; intros []].
    cbn [from_option] in Hmsg.
    destruct (vtunerEvent _ _ _) as [[t ans]|] eqn:Ht; [|done]. cbn [mbind option_bind] in Hs'.
    injection Hs' as <-. pose proof (ci_tuner _ Hc) as Hwf.
    assert (world_ok (tuner_world (s_tuner s) ∅ true)) as Hw by by constructor.
    pose proof (vtunerEvent_keeps (env_now (an_env a)) msg _ _ _ Hmsg Hw) as Hk. rewrite Ht in Hk.
    destruct (vtunerEvent_step _ msg (s_tuner s) _ Hmsg Hwf Ht) as [Hwk Hst]. cbn [fst] in *.
    refine (session_inv_vtuner (t_vtuner t)
              (s <| s_client := s_client (set_tuner t s) |> <| s_pc := PcEvents p |>) _).
    apply session_inv_client; [done| |exact Hwk|done|by intros []].
    apply (client_inv_tuner (s_client s)); [done|apply Hk|exact Hst].
  - assert (exists c, s' = s <| s_client := c |> <| s_pc := PcTest |> /\ client_inv c /\
      client_woken (s_client s) c) as (c & -> & Hc' & Hwk).
    { case_bool_decide.
      - destruct (handlePollEvents _ _ _) as [c|] eqn:Hp; [|done]. injection Hs' as <-.
        exists c. split; [done|]. split; [by eapply handlePollEvents_inv|by eapply handlePollEvents_woken].
      - injection Hs' as <-. by exists (s_client s). }
    by apply session_inv_client; try done; intros [].
  - by injection Hs' as <-.
Qed.

(** Data of the rtp thread, which may change what is pending. *)
Lemma rtp_step_inv s d :
  session_inv s -> tuner_step (s_cfg s) d ->
  session_inv (s <| s_client := (s_client s) <| c_rtp := dl_rtp d |> <| c_psi := dl_psi d |>
                     <| c_cfg := default (s_cfg s) (dl_cfg d) |>
                     <| c_device := c_device (s_client s) ++ dl_device d |> |>).
Proof.
  intros [Hc Hend Hdr Hpids Hstop] [Hwf Hstep].
  set (cfg := default (s_cfg s) (dl_cfg d)) in *. set (t := s <| s_client := _ |>).
  destruct (ca_woken _ _ Hstep) as [Hfd Hwr _].
  assert (s_cfg t = cfg) as Hcfg by done.
  constructor; rewrite ?Hcfg.
  - apply (client_inv_tuner (s_client s)); [done|done|].
    intros He. rewrite <- He. symmetry. exact (ca_status _ _ Hstep).
  - rewrite Hfd. exact Hend.
  - change (s_drained t) with (s_drained s). lia.
  - intros Hpc Hok Hatt Hch. destruct (ca_signalled _ _ Hstep) as [Hd|[Hneg|Hlt]].
    + apply (pipe_readable_mono s); [done|done|by rewrite Hcfg|]. apply Hpids; try done.
      unfold getPidStatus in *. by rewrite (ca_pid_status _ _ Hstep), Hd in Hch.
    + destruct Hok as [_ Hok]. change (m_wakeup_pipe t) with (m_wakeup_pipe s) in Hok. lia.
    + apply pipe_readable_lt; [done|]. rewrite Hcfg. change (s_drained t) with (s_drained s). lia.
  - intros Hpc Hok Hrun. apply (pipe_readable_mono s); [done|done|by rewrite Hcfg|]. by apply Hstop.
Qed.

Lemma session_stop_inv s : session_inv s -> session_inv (session_stop s).
Proof.
  intros [Hc Hend Hdr Hpids Hstop]. set (t := session_stop s).
  assert (s_cfg t = wakeup (s_cfg s)) as Hcfg by done.
  destruct (wakeup_woken (s_cfg s)) as [Hfd Hwr _].
  assert (pipe_ok s -> wakeup_writes (wakeup (s_cfg s)) = wakeup_writes (s_cfg s) + 1) as Hinc.
  { intros [_ Hok]. unfold wakeup. rewrite (proj2 (Z.ltb_ge _ _)) by lia. done. }
  constructor; rewrite ?Hcfg.
  - change (s_client t) with ((s_client s) <| c_cfg := wakeup (s_cfg s) |>). unfold wakeup.
    apply (client_inv_tuner (s_client s)); [done| |by destruct (_ <? 0)].
    destruct (_ <? 0); [apply Hc|]. destruct (ci_tuner _ Hc). by constructor.
  - rewrite Hfd. exact Hend.
  - change (s_drained t) with (s_drained s). lia.
  - intros Hpc Hok _ _. apply pipe_readable_lt; [done|]. rewrite Hcfg, (Hinc Hok). change (s_drained t) with (s_drained s). lia.
  - intros Hpc Hok _. apply pipe_readable_lt; [done|]. rewrite Hcfg, (Hinc Hok). change (s_drained t) with (s_drained s). lia.
Qed.

Lemma session_exec_inv s st s' :
  session_inv s -> session_step_ok s st -> session_exec s st = Some s' -> session_inv s'.
Proof.
  intros Hinv Hok Hs'. destruct st as [a|data n t0 t1|data n|]; cbn [session_exec] in Hs'.
  - by eapply main_step_inv.
  - destruct (negb _); [by injection Hs' as <-|].
    destruct (rtp_datagram _ _ _ _ _ _ _) as [d|] eqn:Hd; [|done]. injection Hs' as <-.
    apply rtp_step_inv; [done|]. by eapply rtp_datagram_tuner; [apply Hinv|..].
  - destruct (negb _); [by injection Hs' as <-|].
    destruct (rtcp_datagram _ _ _) as [r|]; [|done]. injection Hs' as <-.
    destruct Hinv as [[Hi Hwf] ? ? ? ?]. by constructor.
  - injection Hs' as <-. by apply session_stop_inv.
Qed.
End Steps.
