(* ===== verification/SessionProps.v ===== *)
(** Properties of the session: a new one has the invariant, calls return, a
    change of the ca pids found by the rtp thread is not slept over, and [stop]
    ends the main loop. *)

From S2P Require Import Prelude Crc Psi CText OptParser Dvb Timer Config ConfigText Tuner Rtp Vtuner VtunerProps Rtsp RtspInv RtspProps RtspSession Session SessionInv.

#[local] Ltac Zify.zify_post_hook ::= Z.to_euclidean_division_equations.

Section Reachable.
Context `{DvbConstants} `{FrontendConstants} `{LongWidth} `{VtunerBuild}.

Lemma satipConfig_new_writes fe_type settings :
  0 <= wakeup_writes (satipConfig_new fe_type settings).1.
Proof.
  unfold satipConfig_new. cbn [clearProperty call_psi]. set (c := clear_params _).
  destruct (OptParser.m_ca_pids settings); [|cbn; lia].
  pose proof (ca_call_woken c (satipPSI_new (Some c) (m_ca_emm settings) (m_ca_caids settings)
    (m_fe_number settings)) (recompute_ca_call _ _)) as [_ Hw _].
  destruct (satipPSI_new _ _ _ _) as [p cfg]. exact Hw.
Qed.

Lemma satipSession_new_inv host port fe_type settings rs s ok :
  zlen (rs_buffer rs) = (if m_tcpdata settings then 256 * 1024 else 2048) ->
  satipSession_new host port fe_type settings rs = Some (s, ok) -> session_inv (session_start s).
Proof.
  intros Hbuf Hs. unfold satipSession_new in Hs.
  pose proof (satipConfig_new_writes fe_type settings) as Hwr.
  destruct (satipConfig_new_status fe_type settings) as [Hst Hset].
  pose proof (ok_tuner _ (world_new_ok fe_type settings)) as Hwf. unfold world_new in Hwf.
  destruct (satipConfig_new fe_type settings) as [cfg psi]. cbn [fst snd w_cfg w_psi] in *.
  destruct (satipRTP_new _ _) as [rtp|]; [|done]. cbn [mbind option_bind] in Hs.
  injection Hs as <- <-. set (cfg1 := setWakeupFd cfg _) in *.
  assert (client_inv (satipRTSP_new host port (rs_buffer rs) (rs_now rs) cfg1 psi rtp)) as Hc.
  { apply satipRTSP_new_inv; [by destruct Hwf|done|].
    change (isTcpData cfg1) with (m_tcpdata (m_settings cfg)). by rewrite Hset. }
  constructor; cbn [session_start s_client s_pc m_running m_wakeup_pipe s_drained update_field
    satipSession_settable rebuild]; try done.
Qed.

(** ** Calls return *)

(** A packet of RTCP: a report of the reception with the documented ranges, or a
    packet of another type with its length. *)
Definition rtcp_packet (pkt : list byte) : Prop :=
  (exists ssrc name pad src fe level lock quality rest,
     let payload := report src fe level lock quality rest in
     pkt = app_packet ssrc name payload pad /\ app_wf ssrc name payload pad /\
     0 <= src /\ 0 <= fe /\ 0 <= level <= 255 /\ 0 <= lock <= 1 /\ 0 <= quality <= 15) \/
  (exists b0 pt hi lo body,
     pkt = other_packet b0 pt hi lo body /\ ub pt <> 204 /\ zlen body = (ub hi * 256 + ub lo) * 4).

(** A compound of such packets. *)
Definition reception_report (data : list byte) : Prop :=
  exists pkts, data = concat pkts /\ Forall rtcp_packet pkts.

Lemma reception_report_returns r data :
  32 <= long_bits -> reception_report data -> is_Some (rtcp_datagram r data (zlen data)).
Proof.
  intros Hl (pkts & -> & Hpkts). unfold rtcp_datagram. destruct (0 <? _); [|by eexists].
  revert r. induction Hpkts as [|pkt pkts Hpkt _ IH]; intros r; [by eexists|]. cbn [concat].
  destruct Hpkt as [(ssrc & name & pad & src & fe & level & lock & quality & rest & -> & Hwf & Hs)
                   |(b0 & pt & hi & lo & body & -> & Hpt & Hbody)].
  - rewrite rtcpData_app_cons by done. destruct Hs as (? & ? & ? & ? & ?).
    rewrite parse_report by done. apply IH.
  - rewrite rtcpData_other_cons by done. apply IH.
Qed.

(** Data of the usual size and layout, in UDP mode: see [benign]. *)
Definition session_benign (s : satipSession) (st : session_step) : Prop :=
  match st with
  | StepMain a =>
      session_step_ok s st /\ isTcpData (s_cfg s) = false /\
      - 2000000 <= m_rtsp_timeout (c_rtsp (s_client s)) <= 2000000 /\
      match env_recv (an_env a) with
      | Received data => m_rx_data_pos (c_rtsp (s_client s)) + zlen data <= 1024
      | Closed => True
      | RecvError => m_rx_data_pos (c_rtsp (s_client s)) <= 1024
      end /\ snr_fits (c_rtp (s_client s))
  | StepRtp data n _ _ => n <= zlen data
  | StepRtcp data n => n = zlen data /\ reception_report data
  | StepStop => True
  end.

Lemma rtp_datagram_returns rtp psi cfg data n t0 t1 :
  tuner_wf cfg psi -> n <= zlen data -> is_Some (rtp_datagram rtp psi (Some cfg) data n t0 t1).
Proof.
  intros Hwf Hn. unfold rtp_datagram. destruct (Z.ltb_spec 12 n); [|by eexists].
  destruct (rd_ok data 12) as (b & -> & _); [lia|]. cbn [mbind option_bind].
  destruct (b =? 71); [|by eexists].
  destruct (rd_range_ok data 12 (n - 12)) as (out & -> & _); [lia..|]. cbn [mbind option_bind].
  assert (n - 12 <= zlen (ptr_add data 12)) as Hlen by (rewrite zlen_ptr_add; lia).
  pose proof (tap_tuner psi cfg _ _ t0 t1 Hwf Hlen) as Ht.
  destruct (tap _ _ _ _ _ _) as [[p c]|]; [by eexists|done].
Qed.

Lemma main_step_returns a s :
  session_inv s -> session_benign s (StepMain a) -> is_Some (main_step a s).
Proof.
  intros Hinv ([Hrecv Hmsg] & Htcp & Htime & Hdata & Hsnr). pose proof (si_client _ Hinv) as Hc.
  unfold main_step. destruct (s_pc s) as [| | |p|p|p|p|]; try by eexists.
  - destruct (client_exec_returns (s_client s) (StepStatus (an_env a)) Hc Htime) as [d Hd].
    cbn [client_exec] in Hd. rewrite Hd. by eexists.
  - destruct (pl_vtuner p); [|by eexists]. destruct (an_message a) as [msg|]; [|by eexists].
    cbn [from_option] in Hmsg.
    assert (world_ok (tuner_world (s_tuner s) ∅ true)) as Hw by (constructor; [apply Hc|done]).
    pose proof (vtunerEvent_keeps (env_now (an_env a)) msg _ _ _ Hmsg Hw) as Hk.
    destruct (vtunerEvent _ _ _) as [[t ans]|]; [by eexists|].
    destruct Hk as (r & Hr & Hn). by injection Hr as <-.
  - case_bool_decide; [|by eexists].
    assert (benign (s_client s) (StepPoll (an_env a) (pl_rtsp p))) as Hb by done.
    destruct (client_exec_returns _ _ Hc Hb) as [d Hd]. cbn [client_exec] in Hd. rewrite Hd. by eexists.
Qed.

Lemma session_exec_returns s st :
  32 <= long_bits -> session_inv s -> session_benign s st -> is_Some (session_exec s st).
Proof.
  intros Hl Hinv Hb. destruct st as [a|data n t0 t1|data n|]; cbn [session_exec].
  - by apply main_step_returns.
  - destruct (negb _); [by eexists|].
    destruct (rtp_datagram_returns (c_rtp (s_client s)) (c_psi (s_client s)) (s_cfg s) data n t0 t1)
      as [d Hd]; [apply Hinv|done|]. unfold s_cfg in Hd. rewrite Hd. by eexists.
  - destruct (negb _); [by eexists|]. destruct Hb as [-> Hb].
    destruct (reception_report_returns (c_rtp (s_client s)) data Hl Hb) as [r ->]. by eexists.
  - by eexists.
Qed.

Lemma session_benign_ok s st : session_benign s st -> session_step_ok s st.
Proof. destruct st; try done. by intros []. Qed.

End Reachable.

(** ** Pid changes *)

Section Changes.
Context `{DvbConstants} `{FrontendConstants} `{LongWidth} `{VtunerBuild}.

(** No timer is due. *)
Definition timers_quiet (e : env) (c : client) : Prop :=
  forall i, m_active (@timer_at _ (client_timers e) i c) = true ->
    ts_after (env_now e) (m_ts (@timer_at _ (client_timers e) i c)) = false.

Lemma timers_quiet_nothing e c : timers_quiet e c -> handleNextTimer e c = c.
Proof.
  intros Hq. unfold handleNextTimer, callNextTimer. cbn [clock_gettime client_timers m_timer_list create app].
  generalize [TimerResetConnect; TimerKeepAlive; TimerReconnect] as l.
  induction l as [|i l IH]; [done|]. cbn [foldl]. pose proof (Hq i) as Hi.
  destruct (m_active _); [|exact IH]. rewrite Hi by done. exact IH.
Qed.

(** A PLAY for pids leaves nothing pending and the pipe alone. *)
Lemma getPlayData_pending c :
  slots_wf (m_pid_list c) -> getPidStatus c = CONFIG_STATUS_PID_CHANGED ->
  getPidStatus (getPlayData c).2 = CONFIG_STATUS_PID_STATIONARY /\
  wakeup_writes (getPlayData c).2 = wakeup_writes c.
Proof.
  intros Hslots Hch. unfold getPlayData.
  destruct (retune_spec c) as (_ & _ & _ & _ & _ & Hst & Hl & _).
  assert (wakeup_writes (retune c).2 = wakeup_writes c) as Hw.
  { unfold retune. case_bool_decide; [|done].
    destruct (take_tuning_spec c) as (_ & (_ & _ & _ & _ & _ & _ & Hw & _) & _).
    by destruct (take_tuning c). }
  destruct (retune c) as [tuning c1]. cbn [snd] in *. rewrite Hst, Hch, bool_decide_eq_true_2 by done.
  rewrite <- Hl in Hslots. pose proof (play_pids_stationary c1 Hslots) as Hps.
  destruct (play_pids_told c1) as [_ _ _ Hclean _ (_ & Hw2 & _)].
  destruct (play_pids c1) as [pids c2]. cbn [snd] in *. split; [|congruence].
  unfold getPidStatus. by rewrite Hps, Hclean.
Qed.

Lemma session_run_cons s st s' steps :
  session_exec s st = Some s' -> session_run s (st :: steps) = session_run s' steps.
Proof. intros Hs. unfold session_run. cbn [foldl mbind option_bind]. by rewrite Hs. Qed.

Lemma session_run_inv s st steps s' :
  session_run s (st :: steps) = Some s' ->
  exists s1, session_exec s st = Some s1 /\ session_run s1 steps = Some s'.
Proof.
  intros Hrun. destruct (session_exec s st) as [s1|] eqn:E.
  - exists s1. split; [done|]. by rewrite <- (session_run_cons _ _ _ _ E).
  - exfalso. unfold session_run in Hrun. cbn [foldl mbind option_bind] in Hrun. rewrite E in Hrun.
    clear -Hrun. induction steps as [|x steps IH]; [done|]. by apply IH.
Qed.

Lemma session_exec_pipe s st s' : session_exec s st = Some s' -> m_wakeup_pipe s' = m_wakeup_pipe s.
Proof.
  destruct st as [a|data n t0 t1|data n|]; cbn [session_exec].
  - unfold main_step. destruct (s_pc s) as [| | |p|p|p|p|]; intros Hs'.
    + by injection Hs' as <-.
    + destruct (handleRTSPStatus _ _); [|done]. by injection Hs' as <-.
    + by injection Hs' as <-.
    + by injection Hs' as <-.
    + injection Hs' as <-. by destruct (pl_wakeup p).
    + destruct (pl_vtuner p); [|by injection Hs' as <-].
      destruct (an_message a); [|by injection Hs' as <-].
      destruct (vtunerEvent _ _ _) as [[t ans]|]; [|done]. by injection Hs' as <-.
    + destruct (if bool_decide _ then _ else _); [|done]. by injection Hs' as <-.
    + by injection Hs' as <-.
  - destruct (negb _); intros Hs'; [by injection Hs' as <-|].
    destruct (rtp_datagram _ _ _ _ _ _ _); [|done]. by injection Hs' as <-.
  - destruct (negb _); intros Hs'; [by injection Hs' as <-|].
    destruct (rtcp_datagram _ _ _); [|done]. by injection Hs' as <-.
  - intros Hs'. by injection Hs' as <-.
Qed.

Lemma session_run_pipe steps : forall s s',
  session_run s steps = Some s' -> m_wakeup_pipe s' = m_wakeup_pipe s.
Proof.
  induction steps as [|st steps IH]; intros s s' Hrun; [by injection Hrun as <-|].
  apply session_run_inv in Hrun as (s1 & Hs1 & Hrun). rewrite (IH _ _ Hrun). by eapply session_exec_pipe.
Qed.

(** A turn of the main loop, from poll on, in which only the pipe is readable. *)
Lemma quiet_turn s a1 a2 a3 a4 a5 a6 steps :
  s_pc s = PcPoll -> m_running s = true -> pipe_readable s = true ->
  an_poll a1 = PollReturned false no_events -> timers_quiet (an_env a2) (s_client s) ->
  session_run s (map StepMain [a1; a2; a3; a4; a5; a6] ++ steps)
  = session_run (s <| s_drained := wakeup_writes (s_cfg s) |> <| s_pc := PcStatus |>) steps.
Proof.
  destruct s as [c vt run pipe dr pc rtp]. cbn [s_pc m_running s_client s_cfg].
  intros -> -> Hread Hpoll Hquiet. set (p := Polled false true no_events).
  set (dr' := wakeup_writes (c_cfg c)). cbn [map app].
  rewrite (session_run_cons _ _ (mkSession c vt true pipe dr (PcTimer p) rtp)).
  2: { cbn [session_exec]. unfold main_step. cbn [s_pc]. rewrite Hpoll. cbn [poll_result].
       rewrite Hread. by destruct (bool_decide _ && _). }
  rewrite (session_run_cons _ _ (mkSession c vt true pipe dr (PcDrain p) rtp)).
  2: { cbn [session_exec]. unfold main_step. cbn [s_pc s_client].
       by rewrite (timers_quiet_nothing _ _ Hquiet). }
  rewrite (session_run_cons _ _ (mkSession c vt true pipe dr' (PcVtuner p) rtp)) by done.
  rewrite (session_run_cons _ _ (mkSession c vt true pipe dr' (PcEvents p) rtp)) by done.
  rewrite (session_run_cons _ _ (mkSession c vt true pipe dr' PcTest rtp)) by done.
  by rewrite (session_run_cons _ _ (mkSession c vt true pipe dr' PcStatus rtp)).
Qed.

(** A change of the pids is not slept over. When pids are pending that a
    transmitting client could request, found by the rtp thread at whatever
    moment, the main loop that is about to poll finds the pipe readable; the
    turn it then makes sends a PLAY with the pids, after which nothing is
    pending and the pipe is empty again. *)
Lemma pid_change_wakes_session s a1 a2 a3 a4 a5 a6 a7 :
  session_inv s -> pipe_ok s -> s_pc s = PcPoll -> m_running s = true ->
  attentive (c_rtsp (s_client s)) -> no_session (c_rtsp (s_client s)) = false ->
  getPidStatus (s_cfg s) = CONFIG_STATUS_PID_CHANGED ->
  an_poll a1 = PollReturned false no_events -> timers_quiet (an_env a2) (s_client s) ->
  env_send_ok (an_env a7) = true ->
  pipe_readable s = true /\
  exists s', session_run s (map StepMain [a1; a2; a3; a4; a5; a6; a7]) = Some s' /\
    c_sent (s_client s') = c_sent (s_client s)
      ++ [play_request (c_rtsp (s_client s)) (getPlayData (s_cfg s)).1] /\
    s_cfg s' = (getPlayData (s_cfg s)).2 /\
    getPidStatus (s_cfg s') = CONFIG_STATUS_PID_STATIONARY /\
    m_rtsp_status (c_rtsp (s_client s')) = RTSP_STATUS_SESSION_PLAYING /\
    s_pc s' = PcPoll /\ pipe_readable s' = false.
Proof.
  intros Hinv Hok Hpc Hrun Hatt Hses Hch Hpoll Hquiet Hsend.
  pose proof (si_pids _ Hinv Hpc Hok Hatt Hch) as Hread. split; [exact Hread|].
  change [a1; a2; a3; a4; a5; a6; a7] with ([a1; a2; a3; a4; a5; a6] ++ [a7]). rewrite map_app.
  rewrite (quiet_turn s _ _ _ _ _ _ _ Hpc Hrun Hread Hpoll Hquiet). cbn [map].
  pose proof (tw_slots _ _ (ci_tuner _ (si_client _ Hinv))) as Hslots.
  destruct (getPlayData_pending (s_cfg s) Hslots Hch) as [Hsettled Hwrites].
  destruct Hatt as [Hst Hw]. pose proof (play_request_sent (an_env a7) _ Hw Hses Hsend) as Hreq.
  set (c' := on_rtsp (set_status RTSP_STATUS_SESSION_PLAYING)
    (Client (waiting (an_env a7) RTSP_REQUEST_PLAY (c_rtsp (s_client s))) (getPlayData (s_cfg s)).2
       (c_psi (s_client s)) (c_rtp (s_client s))
       (c_sent (s_client s) ++ [play_request (c_rtsp (s_client s)) (getPlayData (s_cfg s)).1])
       (c_device (s_client s)))).
  assert (handleRTSPStatus (an_env a7) (s_client s) = Some c') as Hstep.
  { unfold handleRTSPStatus. rewrite Hst. unfold s_cfg in Hch. rewrite Hch.
    rewrite (bool_decide_eq_true_2 (CONFIG_STATUS_PID_CHANGED = CONFIG_STATUS_PID_CHANGED)) by done.
    rewrite orb_true_r. unfold request_and. rewrite Hreq. by rewrite bool_decide_eq_true_2. }
  exists (mkSession c' (s_vtuner s) (m_running s) (m_wakeup_pipe s) (wakeup_writes (s_cfg s)) PcPoll
            (s_rtp_running s)).
  split.
  { erewrite session_run_cons; [reflexivity|]. cbn [session_exec]. unfold main_step.
    change (s_pc (s <| s_drained := wakeup_writes (s_cfg s) |> <| s_pc := PcStatus |>)) with PcStatus.
    cbv iota. change (s_client (s <| s_drained := wakeup_writes (s_cfg s) |> <| s_pc := PcStatus |>)) with (s_client s).
    by rewrite Hstep. }
  split_and!; try done. unfold pipe_readable. cbn [s_drained m_wakeup_pipe].
  change (s_cfg (mkSession c' _ _ _ _ _ _)) with ((getPlayData (s_cfg s)).2). rewrite Hwrites.
  by rewrite Z.ltb_irrefl, andb_false_r.
Qed.
End Changes.

(** ** The end *)

Section Stop.
Context `{DvbConstants} `{FrontendConstants} `{LongWidth} `{VtunerBuild}.

(** The calls the main loop still makes once it is told to stop. *)
Definition calls_left (pc : loop_pc) : nat :=
  match pc with
  | PcStatus => 7
  | PcPoll => 6
  | PcTimer _ => 5
  | PcDrain _ => 4
  | PcVtuner _ => 3
  | PcEvents _ => 2
  | PcTest => 1
  | PcEnd => 0
  end%nat.

Record stopped (s : satipSession) : Prop := {
  st_running : m_running s = false /\ s_rtp_running s = false;
  st_readable : pipe_ok s -> s_pc s = PcStatus \/ s_pc s = PcPoll -> pipe_readable s = true
}.

Lemma main_step_stopped a s s' :
  stopped s -> main_step a s = Some s' ->
  stopped s' /\ (calls_left (s_pc s') <= pred (calls_left (s_pc s)))%nat.
Proof.
  intros [[Hrun Hrtp] Hread] Hs'. unfold main_step in Hs'.
  assert (forall c pc, (pc = PcStatus \/ pc = PcPoll -> False) ->
    stopped (s <| s_client := c |> <| s_pc := pc |>)) as Hother.
  { intros c pc Hpc. constructor; [done|]. cbn. intros _ Hp. by destruct (Hpc Hp). }
  destruct (s_pc s) as [| | |p|p|p|p|] eqn:Hpc.
  - rewrite Hrun in Hs'. injection Hs' as <-. split; [|done].
    apply (Hother (s_client s)). by intros [].
  - destruct (handleRTSPStatus _ _) as [c|] eqn:Hst; [|done]. injection Hs' as <-. split; [|done].
    constructor; [done|]. intros Hok _. apply handleRTSPStatus_woken in Hst as [_ Hw _].
    apply (pipe_readable_mono s); [done|done|exact Hw|]. apply (Hread Hok). by left.
  - injection Hs' as <-. destruct (an_poll a) as [[]|]; (split; [|cbn; lia]);
      apply (Hother (s_client s)); by intros [].
  - injection Hs' as <-. split; [|done]. apply Hother. by intros [].
  - injection Hs' as <-. split; [|by destruct (pl_wakeup p)].
    destruct (pl_wakeup p); [|apply (Hother (s_client s)); by intros []].
    constructor; [done|]. by intros ? [].
  - destruct (if pl_vtuner p then _ else _) as [s1|] eqn:Hs1; [|done]. injection Hs' as <-.
    split; [|done].
    assert (m_running s1 = m_running s /\ s_rtp_running s1 = s_rtp_running s) as [Hr1 Hr2].
    { destruct (pl_vtuner p); [|by injection Hs1 as <-].
      destruct (an_message a); [|by injection Hs1 as <-].
      destruct (vtunerEvent _ _ _) as [[t ans]|]; [|done]. by injection Hs1 as <-. }
    constructor; [cbn; by rewrite Hr1, Hr2|]. by intros ? [].
  - destruct (if bool_decide _ then _ else _) as [c|]; [|done]. injection Hs' as <-.
    split; [|done]. apply Hother. by intros [].
  - injection Hs' as <-. split; [|rewrite Hpc; done]. constructor; [done|]. rewrite Hpc. by intros ? [].
Qed.

Definition is_main (st : session_step) : bool := match st with StepMain _ => true | _ => false end.
Definition is_stop (st : session_step) : bool := match st with StepStop => true | _ => false end.

Definition main_calls (st : session_step) : nat := if is_main st then 1 else 0.

Lemma session_exec_stopped s st s' :
  stopped s -> is_stop st = false -> session_exec s st = Some s' ->
  stopped s' /\ (calls_left (s_pc s') <= calls_left (s_pc s) - main_calls st)%nat.
Proof.
  intros Hs Hst Hs'. destruct st as [a|data n t0 t1|data n|]; cbn [session_exec] in *; [| | |done].
  - destruct (main_step_stopped a s s' Hs Hs'). split; [done|cbn; lia].
  - rewrite (proj2 (st_running _ Hs)) in Hs'. injection Hs' as <-. split; [done|cbn; lia].
  - rewrite (proj2 (st_running _ Hs)) in Hs'. injection Hs' as <-. split; [done|cbn; lia].
Qed.

Lemma stopped_run steps : forall s s',
  stopped s -> forallb (fun st => negb (is_stop st)) steps = true ->
  session_run s steps = Some s' ->
  stopped s' /\ (calls_left (s_pc s') <= calls_left (s_pc s) - length (List.filter is_main steps))%nat.
Proof.
  induction steps as [|st steps IH]; intros s s' Hs Hns Hrun.
  { injection Hrun as <-. split; [done|cbn; lia]. }
  cbn [forallb] in Hns. apply andb_true_iff in Hns as [Hst%negb_true_iff Hns].
  apply session_run_inv in Hrun as (s1 & Hs1 & Hrun).
  destruct (session_exec_stopped s st s1 Hs Hst Hs1) as [Hs1' Hle].
  destruct (IH s1 s' Hs1' Hns Hrun) as [Hs' Hle']. split; [done|].
  unfold main_calls in Hle. cbn [List.filter]. destruct (is_main st); cbn [length]; lia.
Qed.

Lemma calls_left_max pc : (calls_left pc <= 7)%nat.
Proof. destruct pc; cbn; lia. Qed.

Lemma calls_left_end pc : calls_left pc = 0%nat -> pc = PcEnd.
Proof. by destruct pc. Qed.

Lemma session_stop_stopped s : session_inv s -> stopped (session_stop s).
Proof.
  intros Hinv. pose proof (session_stop_inv s Hinv) as Hstop.
  constructor; [done|]. intros Hok Hpc. by apply (si_stop _ Hstop).
Qed.

(** A stopped session is at its end after seven calls of the main loop. *)
Lemma stopped_ends s steps s' :
  stopped s -> forallb (fun st => negb (is_stop st)) steps = true ->
  session_run s steps = Some s' -> (7 <= length (List.filter is_main steps))%nat -> s_pc s' = PcEnd.
Proof.
  intros Hst Hns Hrun Hlen. destruct (stopped_run steps _ _ Hst Hns Hrun) as [_ Hle].
  pose proof (calls_left_max (s_pc s)). apply calls_left_end. lia.
Qed.

(** [stop] ends the main loop, soon. Wherever the loop stands when the main
    thread calls [stop], it ends after at most seven more calls, and the poll
    among them, if any, finds the pipe readable and does not sleep; steps of
    the rtp thread can no longer come between. *)
Lemma stop_ends_loop s steps s' :
  session_inv s -> pipe_ok s -> forallb (fun st => negb (is_stop st)) steps = true ->
  session_run (session_stop s) steps = Some s' ->
  ((7 <= length (List.filter is_main steps))%nat -> s_pc s' = PcEnd) /\
  (s_pc s' = PcPoll -> pipe_readable s' = true).
Proof.
  intros Hinv Hok Hns Hrun. pose proof (session_stop_stopped s Hinv) as Hst.
  split; [by apply (stopped_ends _ _ _ Hst Hns Hrun)|]. intros Hpc.
  destruct (stopped_run steps _ _ Hst Hns Hrun) as [Hs' _].
  apply (st_readable _ Hs'); [|by right]. unfold pipe_ok. by rewrite (session_run_pipe _ _ _ Hrun).
Qed.
End Stop.

(** ** An instance *)

(** A client that transmits, with a pid to ask for, before poll. *)
Definition demo_cfg : satipConfig :=
  wakeup (@updatePidList (setWakeupFd (@satipConfig_new linux_dvb 0 vtunerOpt_new).1 9) None [256]).1.

Definition demo_rtsp : satipRTSP :=
  mkRTSP (str "192.168.0.2") (str "554") timer_elem_new timer_elem_new timer_elem_new 0 1 5
    (replicate 8 x00) 8 0 RTSP_STATUS_SESSION_TRANSMITTING RTSP_REQUEST_NONE (str "12345678") 7 60 3 false.

Definition demo_waiting : satipSession :=
  mkSession (Client demo_rtsp demo_cfg None demo_rtp [] []) (mkVtuner 7 (-10) true 1 0 (TS 0 0)) true
    (8, 9) 0 PcPoll true.

Definition demo_answers : answers :=
  Answers (Env (TS 20 0) None true Closed 0) (PollReturned false no_events) None.

Lemma wakeup_wf c psi : tuner_wf c psi -> tuner_wf (wakeup c) psi.
Proof. intros Hwf. unfold wakeup. destruct (_ <? 0); [exact Hwf|]. destruct Hwf. by constructor. Qed.

Lemma setWakeupFd_wf c psi fd : tuner_wf c psi -> tuner_wf (setWakeupFd c fd) psi.
Proof. intros Hwf. destruct Hwf. by constructor. Qed.

Lemma demo_cfg_wf : tuner_wf demo_cfg None.
Proof.
  apply wakeup_wf.
  apply (proj1 (updatePidList_wf (setWakeupFd (@satipConfig_new linux_dvb 0 vtunerOpt_new).1 9) None [256]
    (setWakeupFd_wf _ _ 9 (ok_tuner _ (@world_new_ok linux_dvb 0 vtunerOpt_new)))
    ltac:(repeat constructor; cbn; lia))).
Qed.

(** A report of the reception behind a sender report. *)
Definition demo_packets : list (list byte) :=
  [other_packet x80 xc8 x00 x06 (replicate 24 x00);
   app_packet (str "abcd") (str "SES1")
     (report 1 1 224 1 7 (str "12402.00,v,dvbs,,,,27500,34;pids=0,1")) (str "xx")].

Definition demo_report : list byte := concat demo_packets.

Lemma demo_report_ok : reception_report demo_report.
Proof.
  exists demo_packets. split; [reflexivity|]. constructor; [|constructor; [|constructor]].
  - right. exists x80, xc8, x00, x06, (replicate 24 x00).
    split; [reflexivity|]. split; [discriminate|reflexivity].
  - left. exists (str "abcd"), (str "SES1"), (str "xx"), 1, 1, 224, 1, 7,
      (str "12402.00,v,dvbs,,,,27500,34;pids=0,1").
    split; [reflexivity|]. split; [|lia].
    repeat split; try (vm_compute; congruence). apply (bool_decide_unpack _). vm_compute. exact I.
Qed.

Lemma demo_waiting_inv : session_inv demo_waiting.
Proof.
  constructor.
  - constructor; [|exact demo_cfg_wf]. constructor; cbn; try done.
  - reflexivity.
  - apply Z.leb_le. vm_compute. reflexivity.
  - intros _ _ _ _. vm_compute. reflexivity.
  - done.
Qed.
