(* ===== verification/RtpThread.v ===== *)
(** The rtp thread of rtp.cpp: [Read] with its retries, and the loop of
    [rtpDump] with the buffer its two sockets share; and that its turns are the
    steps the session is proved for, each with the datagrams the system handed
    over. *)

From S2P Require Import Prelude Crc Psi CText OptParser Dvb Timer Config ConfigText Tuner Rtp Vtuner VtunerProps Rtsp RtspInv RtspProps Session SessionInv SessionProps.

(** ** Receiving *)




(** ** The loop *)


Section Loop.
Context `{LongWidth} {C : Type} `{CaSink C}.

End Loop.

Section Thread.
Context `{DvbConstants} `{FrontendConstants} `{LongWidth} `{VtunerBuild}.



(** ** What the system may answer *)






(** ** Memory behind what was received *)



(** ** Receiving *)




(** ** A turn is a step for each datagram *)

(** Steps of the rtp thread, on the memory of its buffer. *)
Definition buffer_step (st : session_step) : Prop :=
  match st with
  | StepRtp mem n _ _ | StepRtcp mem n => zlen mem = BUFFER_SIZE /\ n <= zlen mem
  | _ => False
  end.

(** What the thread did to [s], as steps. *)
Definition stepped (s s' : satipSession) : Prop :=
  exists steps, session_run s steps = Some s' /\ Forall buffer_step steps.

Lemma session_run_app s l k : session_run s (l ++ k) = session_run s l ≫= fun s => session_run s k.
Proof.
  unfold session_run. rewrite foldl_app. destruct (foldl _ (Some s) l); [done|].
  induction k as [|st k IH]; [done|]. exact IH.
Qed.

#[export] Instance stepped_preorder : PreOrder stepped.
Proof.
  constructor.
  - intros s. by exists [].
  - intros s t u (l & Hl & Hol) (k & Hk & Hok). exists (l ++ k).
    rewrite session_run_app, Hl. split; [exact Hk|by apply Forall_app].
Qed.






End Thread.

(** ** Witness *)



