(* ===== verification/SessionServer.v ===== *)
(** The session and its server: whatever the driver, the stream, the user and
    the network do, in any order, a server that does what the texts say sends
    what the session wants. *)

From S2P Require Import Prelude Crc Psi CText OptParser Dvb Timer Config ConfigText Tuner Rtp Vtuner VtunerProps Rtsp RtspInv RtspProps RtspServer RtspSession Session SessionInv SessionProps.

Section SessionServer.
Context `{DvbConstants} `{FrontendConstants} `{LongWidth} `{VtunerBuild}.

(** A step by which the session drops its record of what it asked for: the
    driver clears the properties. *)
Definition session_drops (s : satipSession) (st : session_step) : bool :=
  match st, s_pc s with
  | StepMain a, PcVtuner p => pl_vtuner p && from_option clears false (an_message a)
  | _, _ => false
  end.

(** A new tuner of the client, with the texts and the connection as they were. *)
Lemma tuner_follows u v c cfg psi rtp device :
  server_inv c u -> (told_state (c_rtsp c) -> v = false -> told_server cfg (server_sees (c_sent c))) ->
  follows v c (Client (c_rtsp c) cfg psi rtp (c_sent c) device).
Proof.
  intros [Hp Ho _] Ht. exists []. split; [by rewrite app_nil_r|]. by constructor.
Qed.

Lemma message_follows now msg u s t ans :
  message_ok msg -> client_inv (s_client s) -> server_inv (s_client s) u ->
  vtunerEvent now msg (s_tuner s) = Some (t, ans) ->
  follows (clears msg || u) (s_client s) (s_client (set_tuner t s)).
Proof.
  intros Hmsg Hc Hs Ht. apply (tuner_follows u _ (s_client s)); [done|]. intros Hstate Hv.
  apply orb_false_iff in Hv as [Hclear ->].
  assert (world_ok (tuner_world (s_tuner s) (server_sees (c_sent (s_client s))) false)) as Hw.
  { constructor; [apply Hc|]. intros _. by apply Hs. }
  pose proof (vtunerEvent_keeps now msg _ _ _ Hmsg Hw) as Hk. rewrite Ht in Hk.
  apply Hk. cbn. by rewrite Hclear.
Qed.

Lemma main_step_follows u a s s' :
  session_inv s -> server_inv (s_client s) u -> session_step_ok s (StepMain a) ->
  main_step a s = Some s' ->
  follows (session_drops s (StepMain a) || u) (s_client s) (s_client s').
Proof.
  intros Hinv Hs [Hrecv Hmsg] Hs'. pose proof (si_client _ Hinv) as Hc.
  assert (follows u (s_client s) (s_client s)) as Hrefl by by apply quiet_follows.
  unfold main_step, session_drops in *. destruct (s_pc s) as [| | |p|p|p|p|]; cbn [orb].
  - by injection Hs' as <-.
  - destruct (handleRTSPStatus _ _) as [c|] eqn:Hst; [|done]. injection Hs' as <-.
    by eapply status_follows.
  - by injection Hs' as <-.
  - injection Hs' as <-. apply quiet_follows; [done|]. apply timer_quiet, Hs.
  - injection Hs' as <-. by destruct (pl_wakeup p).
  - destruct (pl_vtuner p); cbn [andb orb]; [|by injection Hs' as <-].
    destruct (an_message a) as [msg|]; cbn [from_option] in *; [|by injection Hs' as <-].
    destruct (vtunerEvent _ _ _) as [[t ans]|] eqn:Ht; [|done]. injection Hs' as <-.
    by eapply (message_follows _ msg).
  - destruct (if bool_decide _ then _ else _) as [c|] eqn:Hp; [|done]. injection Hs' as <-.
    case_bool_decide; [|by injection Hp as <-].
    apply quiet_follows; [done|]. eapply poll_quiet; [done|apply Hs|exact Hrecv|exact Hp].
  - by injection Hs' as <-.
Qed.

Lemma session_exec_follows u s st s' :
  session_inv s -> server_inv (s_client s) u -> session_step_ok s st -> session_exec s st = Some s' ->
  follows (session_drops s st || u) (s_client s) (s_client s').
Proof.
  intros Hinv Hs Hok Hs'. assert (follows u (s_client s) (s_client s)) as Hrefl by by apply quiet_follows.
  destruct st as [a|data n t0 t1|data n|]; cbn [session_exec] in Hs'.
  - by apply main_step_follows.
  - cbn [session_drops orb]. destruct (negb _); [by injection Hs' as <-|].
    destruct (rtp_datagram _ _ _ _ _ _ _) as [d|] eqn:Hd; [|done]. injection Hs' as <-.
    apply (rtp_datagram_tuner _ _ _ _ _ _ _ _ (ci_tuner _ (si_client _ Hinv)) Hok) in Hd as [_ Hstep].
    apply (tuner_follows u _ (s_client s)); [done|]. intros Hstate Hu.
    apply (told_server_ca_step (c_cfg (s_client s))); [exact Hstep|]. by apply Hs.
  - cbn [session_drops orb]. destruct (negb _); [by injection Hs' as <-|].
    destruct (rtcp_datagram _ _ _) as [r|]; [|done]. injection Hs' as <-.
    apply (tuner_follows u _ (s_client s)); [done|]. apply Hs.
  - injection Hs' as <-. cbn [session_drops orb].
    apply (tuner_follows u _ (s_client s)); [done|]. intros Hstate Hu. pose proof (sv_told _ _ Hs Hstate Hu) as Ht.
    unfold wakeup, s_cfg. by destruct (_ <? 0).
Qed.

(** A step with the flag of [unclear_after]: the texts it sends are those behind
    the ones that were sent before. *)
Definition session_track (t : satipSession * bool) (st : session_step) : option (satipSession * bool) :=
  s ← session_exec t.1 st;
  Some (s, foldl unclear_after (session_drops t.1 st || t.2)
             (drop (length (c_sent (s_client t.1))) (c_sent (s_client s)))).

Inductive session_tracked : satipSession * bool -> Prop :=
| session_tracked_new host port fe_type settings rs s ok :
    zlen (rs_buffer rs) = (if m_tcpdata settings then 256 * 1024 else 2048) ->
    plain host -> plain port ->
    satipSession_new host port fe_type settings rs = Some (s, ok) ->
    session_tracked (session_start s, false)
| session_tracked_step t st t' :
    session_tracked t -> session_step_ok t.1 st -> session_track t st = Some t' ->
    session_tracked t'.

Lemma satipSession_new_server host port fe_type settings rs s ok :
  plain host -> plain port -> satipSession_new host port fe_type settings rs = Some (s, ok) ->
  server_inv (s_client (session_start s)) false.
Proof.
  intros Hh Hp Hs. unfold satipSession_new in Hs.
  destruct (satipConfig_new fe_type settings) as [cfg psi].
  destruct (satipRTP_new _ _) as [rtp|]; [|done]. cbn [mbind option_bind] in Hs.
  injection Hs as <- <-. by apply satipRTSP_new_server.
Qed.

Lemma session_tracked_inv t : session_tracked t -> session_inv t.1 /\ server_inv (s_client t.1) t.2.
Proof.
  induction 1 as [host port fe_type settings rs s ok Hbuf Hh Hp Hs|[s u] st t' _ [Hi Hs] Hok Ht'].
  - split; [exact (satipSession_new_inv _ _ _ _ _ _ _ Hbuf Hs)
           |exact (satipSession_new_server _ _ _ _ _ _ _ Hh Hp Hs)].
  - unfold session_track in Ht'. cbn [fst snd] in *.
    destruct (session_exec s st) as [s'|] eqn:Hs'; [|done]. injection Ht' as <-. cbn [fst snd].
    split; [by eapply session_exec_inv|].
    destruct (session_exec_follows u s st s' Hi Hs Hok Hs') as (l & -> & Hinv).
    by rewrite drop_app_length.
Qed.

(** ** Properties *)

(** C5: what the server sends is what the session wants. The server reads the
    texts the session sends, and no others. Whatever the driver asks for, the
    stream holds, the server answers and the network does, in any order and in
    both modes: in a session that was set up, host and port being plain words, as long as the driver did not
    clear the properties and no retune left out the pids since they were last
    named, and once no change of the pids is pending, the pids the server sends
    are those the kernel opened and those the parser found. *)
Theorem session_server_agrees s u :
  session_tracked (s, u) ->
  session_inv s /\ server_inv (s_client s) u /\
  (told_state (c_rtsp (s_client s)) -> u = false ->
   getPidStatus (s_cfg s) = CONFIG_STATUS_PID_STATIONARY ->
   server_sees (c_sent (s_client s)) = wanted_pids (s_cfg s)).
Proof.
  intros Ht. destruct (session_tracked_inv _ Ht) as [Hi Hs]. cbn [fst snd] in *.
  split; [done|]. split; [done|]. intros Hstate Hu Hpid.
  apply (told_server_wanted _ (c_psi (s_client s))); [apply Hi|by apply Hs|done].
Qed.

(** The PLAY of a pid change, as the server reads it. *)
Lemma play_request_told u c :
  server_inv c u -> tuner_wf (c_cfg c) (c_psi c) -> told_state (c_rtsp c) -> u = false ->
  getChannelStatus (c_cfg c) <> CONFIG_STATUS_CHANNEL_CHANGED ->
  told_server (getPlayData (c_cfg c)).2
    (server_sees (c_sent c ++ [play_request (c_rtsp c) (getPlayData (c_cfg c)).1])).
Proof.
  intros Hs Hwf Hstate Hu Hch. pose proof (wanted_pids_nonneg _ _ Hwf) as Hpos.
  pose proof (getPlayData_graphic (c_cfg c)) as Hfree.
  destruct (play_query_retunes (c_cfg c) Hpos (tw_requested _ _ Hwf)) as [Hret _].
  rewrite bool_decide_eq_false_2 in Hret by done.
  assert (exists q, (getPlayData (c_cfg c)).1 = query_start q) as [q Hq].
  { unfold getPlayData. destruct (retune (c_cfg c)) as [tuning c2].
    destruct (if bool_decide _ then _ else _) as [pids c3]. by eexists. }
  set (t := play_request _ _). assert (request_query t = query (getPlayData (c_cfg c)).1) as Hquery.
  { subst t. unfold play_request. rewrite Hq in *. rewrite (app_assoc (str "stream=")).
    apply request_query_text; [apply Hs| | |exact Hfree].
    - apply (bool_decide_unpack _); vm_compute; exact I.
    - apply plain_app; [|apply plain_dec]. split; apply (bool_decide_unpack _); vm_compute; exact I. }
  destruct (method_of_play (c_rtsp c) (str "stream=" ++ dec (m_rtsp_stream_id (c_rtsp c))
    ++ (getPlayData (c_cfg c)).1 ++ start_line_end (m_rtsp_cseq (c_rtsp c))
    ++ session_line (m_rtsp_session_id (c_rtsp c)) ++ crlf)) as [Hsetup Hplay].
  unfold server_sees. rewrite foldl_app. cbn [foldl].
  eapply (play_told u); [exact Hwf|apply surjective_pairing|exact Hquery|exact Hsetup|exact Hplay|by apply Hs|].
  unfold unclear_after. rewrite Hquery, Hret. by rewrite (Hsetup : is_setup t = false), (Hplay : is_play t = true).
Qed.

(** C6: a change of the pids is not slept over, and reaches the server. When pids are pending that a
    transmitting client could request, found by the rtp thread at whatever
    moment, the main loop that is about to poll finds the pipe readable; the
    turn it then makes sends a PLAY with the pids, after which nothing is
    pending, the pipe is empty again and the server sends exactly the wanted
    pids. *)
Theorem pid_change_reaches_server s a1 a2 a3 a4 a5 a6 a7 :
  session_inv s -> server_inv (s_client s) false ->
  pipe_ok s -> s_pc s = PcPoll -> m_running s = true ->
  attentive (c_rtsp (s_client s)) -> no_session (c_rtsp (s_client s)) = false ->
  getPidStatus (s_cfg s) = CONFIG_STATUS_PID_CHANGED ->
  getChannelStatus (s_cfg s) <> CONFIG_STATUS_CHANNEL_CHANGED ->
  an_poll a1 = PollReturned false no_events -> timers_quiet (an_env a2) (s_client s) ->
  env_send_ok (an_env a7) = true ->
  pipe_readable s = true /\
  exists s', session_run s (map StepMain [a1; a2; a3; a4; a5; a6; a7]) = Some s' /\
    c_sent (s_client s') = c_sent (s_client s)
      ++ [play_request (c_rtsp (s_client s)) (getPlayData (s_cfg s)).1] /\
    server_sees (c_sent (s_client s')) = wanted_pids (s_cfg s') /\
    getPidStatus (s_cfg s') = CONFIG_STATUS_PID_STATIONARY /\
    m_rtsp_status (c_rtsp (s_client s')) = RTSP_STATUS_SESSION_PLAYING /\
    s_pc s' = PcPoll /\ pipe_readable s' = false.
Proof.
  intros Hinv Hs Hok Hpc Hrun Hatt Hses Hpid Hch Hpoll Hquiet Hsend.
  destruct (pid_change_wakes_session s a1 a2 a3 a4 a5 a6 a7) as (Hread & s' & Hrun' & Hsent & Hcfg & Hst & Hrest);
    try done. split; [done|]. exists s'. split; [done|]. split; [done|]. split; [|done].
  pose proof (ci_tuner _ (si_client _ Hinv)) as Hwf.
  assert (told_state (c_rtsp (s_client s))) as Hstate by (right; left; apply Hatt).
  rewrite Hsent. apply (told_server_wanted _ (c_psi (s_client s))); [|rewrite Hcfg|done].
  - rewrite Hcfg. by apply getPlayData_wf.
  - by apply (play_request_told false).
Qed.
End SessionServer.

(** ** Witnesses *)

Lemma pid_change_reaches_server_witness :
  pipe_readable demo_waiting = true /\
  exists s', @session_run linux_dvb 64 demo_build demo_waiting
      (map StepMain (repeat demo_answers 7)) = Some s' /\
    server_sees (c_sent (s_client s')) = wanted_pids (s_cfg s') /\
    s_pc s' = PcPoll /\ pipe_readable s' = false.
Proof.
  destruct (@pid_change_reaches_server linux_dvb 64 demo_build demo_waiting
    demo_answers demo_answers demo_answers demo_answers demo_answers demo_answers demo_answers)
    as (Hr & s' & Hrun & _ & Hsv & _ & _ & Hpc & Hempty); try reflexivity; try discriminate.
  - exact demo_waiting_inv.
  - constructor; [|constructor; done|].
    + repeat split; apply (bool_decide_unpack _); vm_compute; exact I.
    + intros _ _. split; [apply (bool_decide_unpack _); vm_compute; exact I|].
      intros _. apply (bool_decide_unpack _). vm_compute. exact I.
  - split; cbn; lia.
  - by split.
  - intros []; cbn; discriminate.
  - split; [exact Hr|]. exists s'. by split_and!.
Defined.

(** A session from its start to its SETUP: the driver opens a pid and tunes, the
    socket connects. *)
Definition demo_node : resources :=
  Resources (Some (8, 9)) [NodeFree 7] legacy_driver (replicate 999 (Try 100 true true))
    (replicate 2048 x00) 0 (TS 0 0) (TS 10 0).

Definition demo_new : option (satipSession * bool) :=
  @satipSession_new linux_dvb linux_frontend demo_build (str "192.168.0.2") (str "554") 0
    vtunerOpt_new demo_node.

Definition demo_turn (msg : vtuner_message) (ev : poll_events) : list session_step :=
  repeat (StepMain (Answers (Env (TS 20 0) (Some [Addr 4 true true InProgress]) true Closed 0)
                      (PollReturned true ev) (Some msg))) 7.

Definition demo_zap : list session_step :=
  demo_turn (MSG_PIDLIST [256]) no_events
  ++ demo_turn (MSG_SET_PROPERTY (Prop' (@DTV_TUNE linux_dvb) 0)) no_events
  ++ demo_turn (MSG_PIDLIST [256; 257]) writable
  ++ take 2 (demo_turn (MSG_PIDLIST [256]) no_events).

Definition demo_track (t : satipSession * bool) (steps : list session_step) :
    option (satipSession * bool) :=
  foldl (fun t st => t ≫= fun t => @session_track linux_dvb 64 demo_build t st) (Some t) steps.

(** What the system answers in these steps may come at any time. *)
Definition harmless (st : session_step) : Prop :=
  match st with
  | StepMain a => env_recv (an_env a) = Closed /\ from_option message_ok True (an_message a)
  | _ => False
  end.

Lemma demo_track_tracked steps : forall t t',
  @session_tracked linux_dvb linux_frontend 64 demo_build t -> Forall harmless steps ->
  demo_track t steps = Some t' -> @session_tracked linux_dvb linux_frontend 64 demo_build t'.
Proof.
  induction steps as [|st steps IH]; intros t t' Ht Hok Hrun; [by injection Hrun as <-|].
  apply Forall_cons in Hok as [Hst Hok]. unfold demo_track in Hrun. cbn [foldl mbind option_bind] in Hrun.
  destruct (session_track t st) as [t1|] eqn:E.
  - apply (IH t1); [|done|exact Hrun]. eapply session_tracked_step; [exact Ht| |exact E].
    destruct st as [a| | |]; try done. destruct Hst as [Hr Hm]. cbn [session_step_ok].
    unfold recv_ok. by rewrite Hr.
  - exfalso. clear -Hrun. induction steps as [|x steps IH]; [done|]. by apply IH.
Qed.

Lemma demo_zap_harmless : Forall harmless demo_zap.
Proof. repeat (constructor; [split; [reflexivity|repeat constructor; lia]|]). constructor. Qed.

Definition demo_result : option (satipSession * bool) :=
  '(s, _) ← demo_new; demo_track (session_start s, false) demo_zap.

Lemma demo_result_tracked t :
  demo_result = Some t -> @session_tracked linux_dvb linux_frontend 64 demo_build t.
Proof.
  unfold demo_result. destruct demo_new as [[s ok]|] eqn:E; [|done]. cbn [mbind option_bind].
  apply demo_track_tracked; [|exact demo_zap_harmless].
  eapply session_tracked_new; [|..|exact E]; [reflexivity|..];
    (split; apply (bool_decide_unpack _); vm_compute; exact I).
Qed.

Lemma session_server_agrees_witness :
  exists s, demo_result = Some (s, false) /\
    server_sees (c_sent (s_client s)) = wanted_pids (s_cfg s) /\ wanted_pids (s_cfg s) = {[256; 257]}.
Proof.
  assert (match demo_result with
          | Some (s, u) =>
              bool_decide (m_rtsp_status (c_rtsp (s_client s)) = RTSP_STATUS_SESSION_ESTABLISHING /\
                m_rtsp_request (c_rtsp (s_client s)) = RTSP_REQUEST_SETUP /\ u = false /\
                getPidStatus (s_cfg s) = CONFIG_STATUS_PID_STATIONARY /\
                wanted_pids (s_cfg s) = {[256; 257]})
          | None => false
          end = true) as Hshape by (vm_compute; reflexivity).
  destruct demo_result as [[s u]|] eqn:E; [|discriminate Hshape].
  apply bool_decide_eq_true in Hshape as (Hst & Hreq & -> & Hpid & Hw).
  exists s. split; [reflexivity|]. split; [|exact Hw].
  apply (proj2 (proj2 (@session_server_agrees linux_dvb linux_frontend 64 demo_build s false
    (demo_result_tracked _ E)))); [|reflexivity|exact Hpid].
  right; right. split; [exact Hst|]. by rewrite Hreq.
Defined.
