(* ===== verification/Requests.v ===== *)
(** The texts the client sends are RTSP requests, whatever it was told: a
    request as data, how it is printed, and that every text is the print of
    one. *)

From S2P Require Import Prelude Crc Psi CText OptParser Dvb Timer Config ConfigText Tuner Rtp Vtuner VtunerProps Rtsp RtspInv RtspProps RtspServer RtspSession Session SessionInv SessionProps SessionServer.

(** ** Requests *)

Record request := Request {
  rq_method : rtsp_request;
  rq_url : text;
  rq_cseq : Z;
  rq_headers : list text
}.

Definition method_name (m : rtsp_request) : string :=
  match m with
  | RTSP_REQUEST_OPTION => "OPTIONS"
  | RTSP_REQUEST_SETUP => "SETUP"
  | RTSP_REQUEST_PLAY => "PLAY"
  | RTSP_REQUEST_TEARDOWN => "TEARDOWN"
  | RTSP_REQUEST_DESCRIBE => "DESCRIBE"
  | RTSP_REQUEST_NONE => ""
  end.

(** The end of a line. *)
Definition eol : text := [x0d; x0a].

Definition print_request (q : request) : text :=
  str (method_name (rq_method q)) ++ str " " ++ rq_url q ++ str " RTSP/1.0" ++ eol
  ++ str "CSeq: " ++ dec (rq_cseq q) ++ eol
  ++ concat (map (fun h => h ++ eol) (rq_headers q)) ++ eol.

(** One word for the URL, and lines that neither end early nor are empty, so
    that the empty line is the end of the request. *)
Record request_ok (q : request) : Prop := {
  ro_method : rq_method q <> RTSP_REQUEST_NONE;
  ro_url : is_prefix (str "rtsp://") (rq_url q) = true /\ graphic (rq_url q);
  ro_cseq : 1 <= rq_cseq q;
  ro_headers : Forall (fun h => h <> [] /\ free_of 10 h) (rq_headers q)
}.

Definition well_formed (t : text) : Prop := exists q, t = print_request q /\ request_ok q.

(** A reader that takes the second word of a request gets the URL. *)
Lemma print_request_url q : request_ok q -> request_url (print_request q) = rq_url q.
Proof.
  intros [Hm [_ Hurl] _ _]. unfold request_url, print_request.
  rewrite strchr_skip by (by destruct (rq_method q); apply (bool_decide_unpack _); vm_compute).
  change (str " " ++ ?t) with (x20 :: t). cbn [strchr]. change (ub x20 =? 32) with true. cbn [tail].
  apply (take_until_stop (rq_url q) x20). by apply graphic_free.
Qed.

(** What a client's requests are made of. *)
Record line_ok (r : satipRTSP) : Prop := {
  lo_server : graphic (m_host r) /\ graphic (m_port r);
  lo_session : free_of 10 (m_rtsp_session_id r);
  lo_cseq : 1 <= m_rtsp_cseq r
}.

Record texts_ok (c : client) : Prop := {
  tx_line : line_ok (c_rtsp c);
  tx_sent : Forall well_formed (c_sent c)
}.

(** ** Changes that keep the lines *)

Lemma line_ok_same r q :
  m_host q = m_host r -> m_port q = m_port r -> m_rtsp_session_id q = m_rtsp_session_id r ->
  m_rtsp_cseq q = m_rtsp_cseq r -> line_ok r -> line_ok q.
Proof. intros Hh Hp Hi Hc [? ? ?]. constructor; rewrite ?Hh, ?Hp, ?Hi, ?Hc; done. Qed.

Lemma next_cseq_line r : line_ok r -> line_ok (next_cseq r).
Proof. intros [? ? ?]. constructor; [done..|cbn; lia]. Qed.

Lemma disconnect_line r : line_ok r -> line_ok (disconnect r).
Proof. intros [? ? ?]. constructor; [done|apply Forall_nil; exact I|cbn; lia]. Qed.

Lemma startTimerReconnect_line now r : line_ok r -> line_ok (startTimerReconnect now r).
Proof. unfold startTimerReconnect. destruct (_ <? 30000); by apply line_ok_same. Qed.

Lemma resetReconnectBackoff_line r : line_ok r -> line_ok (resetReconnectBackoff r).
Proof. by apply line_ok_same. Qed.

Lemma stopTimerReconnect_line r : line_ok r -> line_ok (stopTimerReconnect r).
Proof. by apply line_ok_same. Qed.

Lemma stopped_line r : line_ok r -> line_ok (resetReconnectBackoff (stopTimerReconnect r)).
Proof. intros Hl. apply resetReconnectBackoff_line, stopTimerReconnect_line, Hl. Qed.

Lemma texts_rtsp f c :
  (line_ok (c_rtsp c) -> line_ok (f (c_rtsp c))) -> texts_ok c -> texts_ok (on_rtsp f c).
Proof. intros Hf [Hl Hs]. constructor; [by apply Hf|exact Hs]. Qed.

(** The lines' parts unchanged. *)
Lemma texts_same f c :
  m_host (f (c_rtsp c)) = m_host (c_rtsp c) -> m_port (f (c_rtsp c)) = m_port (c_rtsp c) ->
  m_rtsp_session_id (f (c_rtsp c)) = m_rtsp_session_id (c_rtsp c) ->
  m_rtsp_cseq (f (c_rtsp c)) = m_rtsp_cseq (c_rtsp c) -> texts_ok c -> texts_ok (on_rtsp f c).
Proof. intros Hh Hp Hi Hc. apply texts_rtsp. by apply line_ok_same. Qed.

(** Everything but the client's own fields and what was sent. *)
Lemma texts_rest c cfg psi rtp device :
  texts_ok c -> texts_ok (Client (c_rtsp c) cfg psi rtp (c_sent c) device).
Proof. by intros [? ?]. Qed.

Lemma resetConnect_texts now auto c : texts_ok c -> texts_ok (resetConnect now auto c).
Proof.
  intros Hc. unfold resetConnect. assert (texts_ok (on_rtsp disconnect c)) as Hd by (apply texts_rtsp; [apply disconnect_line|exact Hc]).
  revert Hd. generalize (on_rtsp disconnect c) as d. intros d Hd.
  destruct (_ || _); [apply texts_rtsp; [apply stopped_line|exact Hd]|].
  destruct (_ && _); [apply texts_rtsp; [apply stopped_line|exact Hd]|].
  apply texts_rtsp; [apply startTimerReconnect_line|exact (texts_rest d _ _ _ _ Hd)].
Qed.

(** ** Requests are well formed *)

Section Sending.
Context `{DvbConstants}.

Lemma url_ok r rest :
  line_ok r -> graphic rest ->
  let url := str "rtsp://" ++ m_host r ++ str ":" ++ m_port r ++ str "/" ++ rest in
  is_prefix (str "rtsp://") url = true /\ graphic url.
Proof.
  intros [[Hh Hp] _ _] Hr. split; [done|].
  repeat (apply graphic_app; split; [first [assumption|apply (bool_decide_unpack _); vm_compute; exact I]|]).
  exact Hr.
Qed.

(** A request with the URL's last part and its headers. *)
Definition request_of (m : rtsp_request) (r : satipRTSP) (rest : text) (headers : list text) : request :=
  Request m (str "rtsp://" ++ m_host r ++ str ":" ++ m_port r ++ str "/" ++ rest)
    (m_rtsp_cseq r) headers.

Lemma send_text_ok e m rest headers t cfg c :
  texts_ok c -> m <> RTSP_REQUEST_NONE -> graphic rest ->
  Forall (fun h => h <> [] /\ free_of 10 h) headers ->
  t = print_request (request_of m (c_rtsp c) rest headers) ->
  texts_ok (send_text e t (on_rtsp next_cseq (c <| c_cfg := cfg |>))).2.
Proof.
  intros [Hl Hs] Hm Hr Hh ->. constructor; [by apply next_cseq_line|].
  apply Forall_app. split; [exact Hs|]. apply Forall_singleton. eexists. split; [done|].
  constructor; [done|by apply url_ok|apply Hl|done].
Qed.

Lemma session_header r :
  line_ok r -> str "Session: " ++ m_rtsp_session_id r <> [] /\
               free_of 10 (str "Session: " ++ m_rtsp_session_id r).
Proof.
  intros Hl. split; [done|]. apply free_of_app. split; [|apply Hl].
  apply (bool_decide_unpack _); vm_compute; exact I.
Qed.

Lemma stream_graphic (id : Z) : graphic (str "stream=" ++ dec id).
Proof.
  apply graphic_app. split; [apply (bool_decide_unpack _); vm_compute; exact I|apply graphic_dec].
Qed.

Lemma transport_header (rtp_port : Z) (tcp : bool) :
  let h := if tcp then str "Transport: RTP/AVP/TCP;interleaved=0-1"
           else str "Transport: RTP/AVP;unicast;client_port=" ++ dec rtp_port
                ++ str "-" ++ dec (rtp_port + 1) in
  h <> [] /\ free_of 10 h.
Proof.
  destruct tcp; (split; [done|]); [apply (bool_decide_unpack _); vm_compute; exact I|].
  repeat (apply free_of_app; split);
    first [apply dec_free; lia|apply (bool_decide_unpack _); vm_compute; exact I].
Qed.

Ltac print_eq := unfold print_request, request_of, server_url, session_line, start_line_end; cbn [rq_url rq_headers
  rq_cseq rq_method method_name map concat app]; rewrite <- ?app_assoc, ?app_nil_l; reflexivity.

Lemma optional_graphic (b : bool) s : graphic s -> graphic (if b then s else []).
Proof. destruct b; [done|]. intros _. apply Forall_nil. exact I. Qed.

Lemma sendSetup_texts e c : texts_ok c -> texts_ok (sendSetup e c).2.
Proof.
  intros Hc. pose proof (session_header _ (tx_line _ Hc)) as Hsess.
  unfold sendSetup. pose proof (getSetupData_graphic (c_cfg c)) as Hd.
  pose proof (transport_header (m_rtp_port (c_rtp c)) (isTcpData (c_cfg c))) as Htr. cbv zeta in Htr.
  destruct (getSetupData (c_cfg c)) as [data cfg]. cbn [fst] in Hd.
  set (headers := (if bool_decide (m_rtsp_session_id (c_rtsp c) <> [])
                   then [str "Session: " ++ m_rtsp_session_id (c_rtsp c)] else []) ++
                  [if isTcpData (c_cfg c) then str "Transport: RTP/AVP/TCP;interleaved=0-1"
                   else str "Transport: RTP/AVP;unicast;client_port=" ++ dec (m_rtp_port (c_rtp c))
                        ++ str "-" ++ dec (m_rtp_port (c_rtp c) + 1)]).
  apply (send_text_ok e RTSP_REQUEST_SETUP
           ((if negb (m_rtsp_stream_id (c_rtsp c) =? -1)
             then str "stream=" ++ dec (m_rtsp_stream_id (c_rtsp c)) else []) ++ data) headers); [done..| |
    |unfold headers; cbv zeta; case_bool_decide; destruct (isTcpData _), (negb _); print_eq].
  - apply graphic_app. split; [apply optional_graphic, stream_graphic|exact Hd].
  - apply Forall_app. split; [|by apply Forall_singleton].
    destruct (bool_decide _); [by apply Forall_singleton|by apply Forall_nil].
Qed.

Lemma send_method_texts e m c : texts_ok c -> texts_ok (send_method e m c).2.
Proof.
  intros Hc. pose proof (tx_line _ Hc) as Hl. pose proof (session_header _ Hl) as Hsess.
  pose proof (stream_graphic (m_rtsp_stream_id (c_rtsp c))) as Hstream.
  destruct m; cbn [send_method]; [done|..].
  - unfold sendOption. destruct (no_session _); [done|].
    apply (send_text_ok e RTSP_REQUEST_OPTION [] [str "Session: " ++ m_rtsp_session_id (c_rtsp c)] _ (c_cfg c));
      [done..|apply Forall_nil; exact I|by apply Forall_singleton|print_eq].
  - by apply sendSetup_texts.
  - unfold sendPlay. destruct (no_session _); [done|].
    pose proof (getPlayData_graphic (c_cfg c)) as Hd.
    destruct (getPlayData (c_cfg c)) as [data cfg]. cbn [fst] in Hd.
    apply (send_text_ok e RTSP_REQUEST_PLAY
             ((str "stream=" ++ dec (m_rtsp_stream_id (c_rtsp c))) ++ data)
             [str "Session: " ++ m_rtsp_session_id (c_rtsp c)]);
      [done..|by apply graphic_app|by apply Forall_singleton|print_eq].
  - unfold sendTearDown. destruct (no_session _); [done|].
    apply (send_text_ok e RTSP_REQUEST_TEARDOWN (str "stream=" ++ dec (m_rtsp_stream_id (c_rtsp c)))
             [str "Session: " ++ m_rtsp_session_id (c_rtsp c)] _ (c_cfg c));
      [done..|exact Hstream|by apply Forall_singleton|print_eq].
  - unfold sendDescribe. cbv zeta.
    apply (send_text_ok e RTSP_REQUEST_DESCRIBE
             (if negb (m_rtsp_stream_id (c_rtsp c) =? -1)
              then str "stream=" ++ dec (m_rtsp_stream_id (c_rtsp c)) else [])
             [str "Accept: application/sdp"] _ (c_cfg c));
      [done..|by apply optional_graphic| |print_eq].
    apply Forall_singleton. split; [done|apply (bool_decide_unpack _); vm_compute; exact I].
Qed.
End Sending.

(** ** Every step *)

Section Steps.
Context `{DvbConstants} `{LongWidth}.

Lemma sendRequest_texts e m c : texts_ok c -> texts_ok (sendRequest e m c).2.
Proof.
  intros Hc. unfold sendRequest. destruct (m_wait_response _); [done|].
  pose proof (send_method_texts e m (on_rtsp stopTimerKeepAliveMessage c)) as Hsend.
  destruct (send_method _ _ _) as [res d]. cbn [snd] in *.
  assert (texts_ok d) as Hd by (apply Hsend; by apply texts_same).
  case_bool_decide; [by apply texts_same|by apply resetConnect_texts].
Qed.

Lemma request_and_texts e m s c : texts_ok c -> texts_ok (request_and e m s c).
Proof.
  intros Hc. unfold request_and. pose proof (sendRequest_texts e m c Hc) as Hd.
  destruct (sendRequest _ _ _) as [res d]. cbn [snd] in Hd. case_bool_decide; [by apply texts_same|done].
Qed.

Lemma connectToServer_line e r : line_ok r -> line_ok (connectToServer e r).2.
Proof.
  intros Hl. unfold connectToServer. destruct (env_addrs e) as [addrs|]; [|done].
  destruct (connect_loop addrs); by apply (line_ok_same r).
Qed.

Lemma start_connecting_texts e c : texts_ok c -> texts_ok (start_connecting e c).
Proof.
  intros Hc. unfold start_connecting.
  set (c1 := if _ <? _ then _ else c).
  assert (texts_ok c1) as Hc1 by (subst c1; destruct (_ <? _); [apply texts_rtsp; [apply stopped_line|done]|done]).
  set (c2 := on_rtsp _ c1). assert (texts_ok c2) as Hc2 by by apply texts_same.
  clearbody c2. pose proof (connectToServer_line e (c_rtsp c2) (tx_line _ Hc2)) as Hr.
  destruct (connectToServer e (c_rtsp c2)) as [res r]. cbn [snd] in Hr.
  assert (texts_ok (c2 <| c_rtsp := r |>)) as Hc3 by (constructor; [exact Hr|apply Hc2]).
  case_bool_decide; [constructor; [by apply (line_ok_same r)|apply Hc2]|].
  apply texts_rtsp; [apply startTimerReconnect_line|]. by apply (texts_rest (c2 <| c_rtsp := r |>)).
Qed.

Lemma handleRTSPStatus_texts e c d : handleRTSPStatus e c = Some d -> texts_ok c -> texts_ok d.
Proof.
  intros Hd Hc. unfold handleRTSPStatus in Hd.
  destruct (m_rtsp_status (c_rtsp c)); try (by injection Hd as <-);
    try (injection Hd as <-; by apply sendRequest_texts).
  - destruct (getChannelStatus (c_cfg c)); injection Hd as <-;
      [|by apply start_connecting_texts|done].
    apply texts_rtsp; [|done]. intros Hl. apply (line_ok_same (c_rtsp c)); try done; by destruct (m_active _).
  - destruct (_ || _); [injection Hd as <-; by apply request_and_texts|].
    case_bool_decide; [injection Hd as <-; by apply request_and_texts|].
    destruct (negb _); [|by injection Hd as <-].
    destruct (startTimerKeepAliveMessage _ _) as [r|] eqn:Hr; [|done]. injection Hd as <-.
    unfold startTimerKeepAliveMessage in Hr. destruct (_ <? _); [done|].
    destruct (mul_int _ _); [|done]. injection Hr as <-.
    constructor; [apply (line_ok_same (c_rtsp c)); [done..|]|]; apply Hc.
Qed.

(** Taking a response: the session id is cut at a line's end. *)
Lemma trim_end_free c s : free_of c s -> free_of c (trim_end s).
Proof.
  intros Hs. unfold trim_end, free_of. apply Forall_rev.
  assert (free_of c (rev s)) as Hr by by apply Forall_rev.
  induction Hr as [|b l Hb Hl IH]; [by apply Forall_nil|]. cbn [skip_spaces].
  destruct (is_space b); [exact IH|by constructor].
Qed.

Lemma take_until_free s : free_of 10 (take_until [59; 10] s).
Proof.
  induction s as [|b s IH]; [by apply Forall_nil|]. cbn [take_until existsb].
  destruct (Z.eqb_spec (ub b) 59); [by apply Forall_nil|].
  destruct (Z.eqb_spec (ub b) 10); [by apply Forall_nil|]. by constructor.
Qed.

Lemma dispatch_response_line data res r res' r' :
  dispatch_response data res r = Some (res', r') -> line_ok r -> line_ok r'.
Proof.
  unfold dispatch_response. intros Hd Hl.
  destruct (m_rtsp_request r); [by injection Hd as _ <-..| |by injection Hd as _ <-
    |by injection Hd as _ <-|by injection Hd as _ <-].
  unfold handleResponseSetup in Hd. destruct (strstr data (str "Session")) as [p|]; [|by injection Hd as _ <-].
  destruct (strchr p 58) as [p1|]; [|by injection Hd as _ <-]. destruct (negb _); [done|].
  set (id := trim_end _) in Hd.
  assert (line_ok (r <| m_rtsp_session_id := id |>)) as Hid.
  { destruct Hl. constructor; [done|apply trim_end_free, take_until_free|done]. }
  set (r1 := r <| m_rtsp_session_id := id |>) in *. clearbody r1.
  set (r2 := match strstr data (str "timeout") with Some _ => _ | None => r1 end) in Hd.
  assert (line_ok r2) as Hr2.
  { subst r2. destruct (strstr data (str "timeout")) as [q|]; [|done].
    destruct (strchr q 61); [by apply (line_ok_same r1)|done]. }
  clearbody r2. destruct (strstr data (str "com.ses.streamID")) as [p3|]; [|by injection Hd as _ <-].
  destruct (strchr p3 58) as [p4|]; [|by injection Hd as _ <-].
  injection Hd as _ <-. by apply (line_ok_same r2).
Qed.

Lemma take_response_texts e data res res_code c out :
  take_response e data res res_code c = Some out -> texts_ok c ->
  match out with inl (_, _, d) => texts_ok d | inr ret => texts_ok ret.2 end.
Proof.
  intros Hd Hc. unfold take_response in Hd. set (c1 := on_rtsp _ c) in Hd.
  assert (texts_ok c1) as Hc1 by by apply texts_same. clearbody c1.
  case_bool_decide; [injection Hd as <-; by apply texts_same|].
  set (code := scan_status data res_code) in Hd. clearbody code.
  destruct (if negb _ then _ else _) as [[res' r']|] eqn:Hr; [|done].
  cbn [mbind option_bind] in Hd. injection Hd as <-.
  assert (texts_ok (c1 <| c_rtsp := r' |>)) as Hc2.
  { constructor; [|apply Hc1]. destruct (negb _).
    - injection Hr as _ <-. by apply (line_ok_same (c_rtsp c1)); [..|apply Hc1].
    - eapply dispatch_response_line; [exact Hr|apply Hc1]. }
  case_bool_decide; [by apply resetConnect_texts|]. case_bool_decide; [by apply texts_same|done].
Qed.

Lemma take_frame_texts e len2 c d : take_frame e len2 c = Some d -> texts_ok c -> texts_ok d.
Proof.
  intros Hd Hc. unfold take_frame in Hd. set (c1 := on_rtsp _ c) in Hd.
  assert (texts_ok c1) as Hc1 by by apply texts_same.
  destruct (rtpTcpData _ _ _ _ _ _ _) as [dl|]; [|done]. cbn [mbind option_bind] in Hd.
  injection Hd as <-. apply texts_same; [done..|]. by apply (texts_rest c1).
Qed.

Lemma again_texts e fuel : forall res res_code c out,
  again None fuel e res res_code c = Some out -> texts_ok c -> texts_ok out.2.
Proof.
  induction fuel as [|fuel IH]; intros res res_code c out Hout Hc; [done|]. cbn [again] in Hout.
  destruct (rd _ 0) as [b0|]; [|done]. cbn [mbind option_bind] in Hout. destruct (b0 =? 36).
  - destruct (negb _); [by injection Hout as <-|]. destruct (_ <? 4); [by injection Hout as <-|].
    destruct (rd _ 2) as [b2|]; [|done]. destruct (rd _ 3) as [b3|]; [|done].
    cbn [mbind option_bind] in Hout. destruct (_ <? _); [by injection Hout as <-|].
    destruct (take_frame e _ c) as [d|] eqn:Hd; [|done]. cbn [mbind option_bind] in Hout.
    apply IH in Hout; [done|by eapply take_frame_texts].
  - destruct (terminate (c_rtsp c)) as [r|] eqn:Ht; [|done]. cbn [mbind option_bind] in Hout.
    apply terminate_same in Ht as (mem & -> & _). set (c1 := c <| c_rtsp := _ |>) in *.
    assert (texts_ok c1) as Hc1 by by apply (texts_same (fun r => r <| m_rx_data := mem |>)).
    destruct (strstr _ _) as [s|]; [|by injection Hout as <-].
    destruct (take_response _ _ _ _ c1) as [next|] eqn:Hn; [|done]. cbn [mbind option_bind] in Hout.
    apply take_response_texts in Hn; [|done].
    destruct next as [[[res' code'] d]|ret]; [|by injection Hout as <-].
    assert (texts_ok (on_rtsp (fun r => (consume (zlen (c_str (m_rx_data (c_rtsp c1))) - zlen s + 4) r)
                         <| m_rtsp_request := RTSP_REQUEST_NONE |>) d)) as Hd1 by by apply texts_same.
    destruct (0 <? _); [|by injection Hout as <-]. by apply IH in Hout.
Qed.

Lemma handleResponse_texts e c out : handleResponse e c = Some out -> texts_ok c -> texts_ok out.2.
Proof.
  intros Hout Hc. unfold handleResponse in Hout.
  destruct (_ =? 0); [injection Hout as <-; by apply texts_same|].
  destruct (env_recv e) as [data| |]; [|by injection Hout as <-|].
  - destruct (store data (c_rtsp c)) as [r|] eqn:Hst; [|done]. cbn [mbind option_bind] in Hout.
    apply store_buffer in Hst as (mem & -> & _). eapply again_texts; [exact Hout|].
    by apply (texts_same (fun r => r <| m_rx_data := mem |> <| m_rx_data_pos := _ |>)).
  - eapply again_texts; [exact Hout|]. by apply (texts_same (fun r => r <| m_rx_data_pos := _ |>)).
Qed.

Lemma handlePollEvents_texts e ev c d : handlePollEvents e ev c = Some d -> texts_ok c -> texts_ok d.
Proof.
  intros Hd Hc. unfold handlePollEvents in Hd.
  destruct (_ || _ || _); [injection Hd as <-; by apply resetConnect_texts|].
  pose proof (fun out Hout => handleResponse_texts e c out Hout Hc) as Hresp.
  destruct (m_rtsp_status (c_rtsp c)); try (by injection Hd as <-).
  1: { injection Hd as <-. destruct (POLLOUT ev); [by apply texts_same|done]. }
  all: destruct (POLLIN ev); [|by injection Hd as <-].
  all: destruct (handleResponse e c) as [[res c1]|]; [|done]; injection Hd as <-.
  all: specialize (Hresp _ eq_refl); cbn [snd] in Hresp; try exact Hresp.
  all: case_bool_decide; [|done].
  - by apply texts_same.
  - apply texts_rtsp; [|done]. intros Hl. apply stopped_line. by apply (line_ok_same (c_rtsp c1)).
  - by apply resetConnect_texts.
Qed.

Lemma call_texts e i c : texts_ok c -> texts_ok (@call _ (client_timers e) i c).
Proof.
  intros Hc. unfold call. destruct (m_active _); [|done]. cbn [clock_gettime client_timers].
  assert (texts_ok (run_handler i c)) as Hd.
  { destruct i; cbn [run_handler client_timers];
      [by apply resetConnect_texts|by apply sendRequest_texts|].
    unfold timeoutReconnect. destruct (getChannelStatus _); [by apply texts_same..|by apply texts_rest]. }
  revert Hd. generalize (run_handler i c) as d. intros d Hd.
  destruct (m_single _), i; by apply texts_same.
Qed.

Lemma handleNextTimer_texts e c : texts_ok c -> texts_ok (handleNextTimer e c).
Proof.
  intros Hc. apply (@callNextTimer_ind _ (client_timers e) texts_ok); [done| |done]. intros i d Hd. by apply call_texts.
Qed.
End Steps.

Section Session.
Context `{DvbConstants} `{FrontendConstants} `{LongWidth} `{VtunerBuild}.

Lemma main_step_texts a s s' :
  main_step a s = Some s' -> texts_ok (s_client s) -> texts_ok (s_client s').
Proof.
  intros Hs' Hc. unfold main_step in Hs'. destruct (s_pc s) as [| | |p|p|p|p|]; try (by injection Hs' as <-).
  - destruct (handleRTSPStatus _ _) as [c|] eqn:Hst; [|done]. injection Hs' as <-.
    by eapply handleRTSPStatus_texts.
  - injection Hs' as <-. by apply handleNextTimer_texts.
  - injection Hs' as <-. by destruct (pl_wakeup p).
  - destruct (pl_vtuner p); [|by injection Hs' as <-].
    destruct (an_message a) as [msg|]; [|by injection Hs' as <-].
    destruct (vtunerEvent _ _ _) as [[t ans]|]; [|done]. injection Hs' as <-.
    by apply (texts_rest (s_client s)).
  - destruct (if bool_decide _ then _ else _) as [c|] eqn:Hp; [|done]. injection Hs' as <-.
    case_bool_decide; [by eapply handlePollEvents_texts|by injection Hp as <-].
Qed.

Lemma session_exec_texts st s s' :
  session_exec s st = Some s' -> texts_ok (s_client s) -> texts_ok (s_client s').
Proof.
  intros Hs' Hc. destruct st as [a|data n t0 t1|data n|]; cbn [session_exec] in Hs'.
  - by eapply main_step_texts.
  - destruct (negb _); [by injection Hs' as <-|].
    destruct (rtp_datagram _ _ _ _ _ _ _); [|done]. injection Hs' as <-. by apply (texts_rest (s_client s)).
  - destruct (negb _); [by injection Hs' as <-|].
    destruct (rtcp_datagram _ _ _); [|done]. injection Hs' as <-. by apply (texts_rest (s_client s)).
  - injection Hs' as <-. by apply (texts_rest (s_client s)).
Qed.

Lemma satipSession_new_texts host port fe_type settings rs s ok :
  graphic host -> graphic port -> satipSession_new host port fe_type settings rs = Some (s, ok) ->
  texts_ok (s_client (session_start s)).
Proof.
  intros Hh Hp Hs. unfold satipSession_new in Hs.
  destruct (satipConfig_new fe_type settings) as [cfg psi].
  destruct (satipRTP_new _ _) as [rtp|]; [|done]. cbn [mbind option_bind] in Hs.
  injection Hs as <- _. change (texts_ok (satipRTSP_new host port (rs_buffer rs) (rs_now rs)
    (setWakeupFd cfg (default (-1, -1) (rs_pipe rs)).2) psi rtp)).
  unfold satipRTSP_new. apply resetConnect_texts.
  constructor; [|apply Forall_nil; exact I]. constructor; [done|apply Forall_nil; exact I|cbn; lia].
Qed.

Lemma session_tracked_texts t : session_tracked t -> texts_ok (s_client t.1).
Proof.
  induction 1 as [host port fe_type settings rs s ok _ [Hh _] [Hp _] Hs|[s u] st t' _ IH _ Ht'].
  - exact (satipSession_new_texts _ _ _ _ _ _ _ Hh Hp Hs).
  - unfold session_track in Ht'. cbn [fst snd] in *.
    destruct (session_exec s st) as [s'|] eqn:Hs'; [|done]. injection Ht' as <-.
    by eapply session_exec_texts.
Qed.

(** C7: every text a session sends is a request. When host and port of the
    settings are plain words, and whatever the driver asks for,
    the stream holds and the server answers, the session ids it makes up
    included, each text is a method, a URL of graphic characters, the version, a
    positive sequence number and header lines of which none is empty or broken,
    and it ends with the only empty line: neither a tuning parameter nor a
    session id can add a line or a word to a request. A reader that takes the
    second word gets the URL. *)
Theorem requests_well_formed s u :
  session_tracked (s, u) ->
  Forall (fun t => exists q, t = print_request q /\ request_ok q /\ request_url t = rq_url q)
    (c_sent (s_client s)).
Proof.
  intros Ht. eapply Forall_impl; [exact (tx_sent _ (session_tracked_texts _ Ht))|].
  intros t (q & -> & Hq). exists q. by split_and!; [..|apply print_request_url].
Qed.
End Session.

Lemma requests_well_formed_witness :
  exists t, option_map (fun t => length (c_sent (s_client t.1))) demo_result = Some 1%nat /\
    option_map (fun t => c_sent (s_client t.1)) demo_result = Some [t] /\
    exists q, t = print_request q /\ request_ok q /\ request_url t = rq_url q.
Proof.
  assert (option_map (fun t => length (c_sent (s_client t.1))) demo_result = Some 1%nat) as Hlen
    by (vm_compute; reflexivity).
  destruct demo_result as [[s u]|] eqn:E; [|discriminate Hlen].
  pose proof (@requests_well_formed linux_dvb linux_frontend 64 demo_build s u
    (demo_result_tracked _ E)) as Hall. cbn [option_map fst] in Hlen |- *.
  destruct (c_sent (s_client s)) as [|t [|? ?]]; try discriminate Hlen.
  exists t. split; [reflexivity|]. split; [reflexivity|]. by apply Forall_cons in Hall as [Hall _].
Defined.
