(* ===== verification/Manager.v ===== *)
(** The sessions of the program: the class [sessionManager] of manager.h and
    manager.cpp, and the life of the process in main.cpp: start, the signals,
    the shutdown.

    The main thread and the threads of the sessions take turns in any order.
    [satipStart] and [sessionStop] are single steps of the main thread: what
    the sessions do meanwhile touches none of the state these still work on,
    since the sessions share nothing. *)

From S2P Require Import Prelude CText OptParser Dvb Timer Config Vtuner Rtp Rtsp Session.

(** ** The manager *)

Record sessionManager := mkManager {
  m_sessions : list satipSession;
  m_satip_opt : gmap Z vtunerOpt
}.

#[export] Instance sessionManager_settable : Settable sessionManager :=
  fun m => mkManager (m_sessions m) (m_satip_opt m).

Definition default_port : text := str "554".

Section Manager.
Context `{DvbConstants} `{FrontendConstants} `{LongWidth} `{VtunerBuild}.

Definition satipSessionCreate (ipaddr : text) (fe_type : Z) (port : text) (settings : vtunerOpt)
    (rs : resources) (m : sessionManager) : option (sessionManager * Z) :=
  '(session, ok) ← satipSession_new ipaddr (if bool_decide (port = []) then default_port else port)
                     fe_type settings rs;
  if negb ok then Some (m, -1)
  else Some (m <| m_sessions := m_sessions m ++ [session_start session] |>, 0).

(** The loop of [satipStart]; [rs] is what the system gives to the session of
    an index. *)
Fixpoint start_loop (rs : Z -> resources) (data : list (Z * vtunerOpt)) (m : sessionManager) :
    option sessionManager :=
  match data with
  | [] => Some m
  | (index, o) :: data =>
    m ← (if OptParser.isAvailable o then
           '(m, _) ← satipSessionCreate (c_str (OptParser.m_ipaddr o)) (OptParser.m_fe_type o) (c_str (OptParser.m_port o)) o
                       (rs index) m;
           Some m
         else Some m);
    start_loop rs data m
  end.

Definition satipStart (rs : Z -> resources) (m : sessionManager) : option (sessionManager * Z) :=
  if isEmpty (m_satip_opt m) then Some (m, -1)
  else m ← start_loop rs (entries (m_satip_opt m)) m; Some (m, 0).

Definition sessionStop (m : sessionManager) : sessionManager :=
  m <| m_sessions := map session_stop (m_sessions m) |>.

(** [join] waits until the thread of the session has ended. *)
Definition ended (s : satipSession) : bool :=
  match s_pc s with PcEnd => true | _ => false end.

(** [sessionJoin] returns. *)
Definition sessionJoin (m : sessionManager) : bool := forallb ended (m_sessions m).

(** [getInstance]: the constructor of the options reads the file. *)
Definition sessionManager_new (file : option text) : sessionManager := mkManager [] (load file).

(** ** The process *)

(** What [main] does next: start the sessions; wait for a signal, both signals
    being blocked outside of [sigsuspend]; wait for the threads; [MainKilled]:
    the second signal has ended the process. *)
Inductive main_pc := MainStart | MainWait | MainJoin | MainEnd | MainKilled.

#[export] Instance main_pc_eq_decision : EqDecision main_pc.
Proof. solve_decision. Defined.

(** [p_pending] holds the signals that were sent and not delivered yet. *)
Record program := mkProgram {
  p_manager : sessionManager;
  shutdown_signo : Z;
  p_pending : gset Z;
  p_pc : main_pc
}.

#[export] Instance program_settable : Settable program :=
  fun p => mkProgram (p_manager p) (shutdown_signo p) (p_pending p) (p_pc p).

Definition program_new (file : option text) : program :=
  mkProgram (sessionManager_new file) 0 ∅ MainStart.

Definition sigint_handler (signo : Z) (p : program) : program :=
  if negb (shutdown_signo p =? 0) then p <| p_pc := MainKilled |>
  else p <| shutdown_signo := signo |>.

(** Whether a signal reaches the handler now: in [sigsuspend], and once the
    mask is restored. *)
Definition unblocked (p : program) : bool :=
  match p_pc p with MainWait | MainJoin => true | _ => false end.

Definition main_exec (rs : Z -> resources) (p : program) : option program :=
  match p_pc p with
  | MainStart =>
      '(m, res) ← satipStart rs (p_manager p);
      Some (p <| p_manager := m |> <| p_pc := if res =? 0 then MainWait else MainEnd |>)
  | MainWait =>
      if shutdown_signo p =? 0 then Some p
      else Some (p <| p_manager := sessionStop (p_manager p) |> <| p_pc := MainJoin |>)
  | MainJoin => Some (if sessionJoin (p_manager p) then p <| p_pc := MainEnd |> else p)
  | MainEnd | MainKilled => Some p
  end.

(** A step of the main thread, of a thread of the session with a number, the
    sending and the delivery of a signal. [stop] is called by the main thread
    only. *)
Inductive program_step :=
| ProgMain (rs : Z -> resources)
| ProgSession (i : nat) (st : session_step)
| ProgSend (signo : Z)
| ProgDeliver (signo : Z).

(** After the end of the process no thread runs. *)
Definition alive (p : program) : bool :=
  match p_pc p with MainEnd | MainKilled => false | _ => true end.

Definition program_exec (p : program) (st : program_step) : option program :=
  match st with
  | ProgMain rs => main_exec rs p
  | ProgSession i st =>
      match alive p, m_sessions (p_manager p) !! i, st with
      | true, Some s, (StepMain _ | StepRtp _ _ _ _ | StepRtcp _ _) =>
          s ← session_exec s st;
          Some (p <| p_manager := (p_manager p) <| m_sessions := <[i := s]> (m_sessions (p_manager p)) |> |>)
      | _, _, _ => Some p
      end
  | ProgSend signo => Some (if alive p then p <| p_pending := {[signo]} ∪ p_pending p |> else p)
  | ProgDeliver signo =>
      Some (if unblocked p && bool_decide (signo ∈ p_pending p)
            then sigint_handler signo (p <| p_pending := p_pending p ∖ {[signo]} |>) else p)
  end.

Definition program_run (p : program) (steps : list program_step) : option program :=
  foldl (fun p st => p ≫= fun p => program_exec p st) (Some p) steps.
End Manager.
