(* ===== verification/ManagerProps.v ===== *)
(** Properties of the manager and of the process: which sessions run, the
    invariant of all of them, and that a signal ends the process. *)

From S2P Require Import Prelude CText OptParser Dvb Timer Config Vtuner VtunerProps Rtp Rtsp Session SessionInv SessionProps Manager.

(** ** Which sessions run *)

Section Start.
Context `{DvbConstants} `{FrontendConstants} `{LongWidth} `{VtunerBuild}.

(** The session the settings of an index ask for. *)
Definition new_session (rs : Z -> resources) (e : Z * vtunerOpt) : option (satipSession * bool) :=
  let o := e.2 in
  satipSession_new (c_str (OptParser.m_ipaddr o))
    (if bool_decide (c_str (OptParser.m_port o) = []) then str "554" else c_str (OptParser.m_port o))
    (OptParser.m_fe_type o) o (rs e.1).

(** The entry is complete, and device and ports could be opened. *)
Definition comes_up (rs : Z -> resources) (e : Z * vtunerOpt) : bool :=
  OptParser.isAvailable e.2 && from_option snd false (new_session rs e).

Lemma satipSession_new_returns host port fe_type settings rs :
  (999 <= length (rs_ports rs))%nat ->
  is_Some (satipSession_new host port fe_type settings rs).
Proof.
  intros Hports. unfold satipSession_new. destruct (satipConfig_new _ _) as [cfg psi].
  assert (exists rtp, satipRTP_new (m_tcpdata settings) (rs_ports rs) = Some rtp) as [rtp ->]; [|by eexists].
  unfold satipRTP_new. destruct (m_tcpdata settings); [by eexists|]. unfold openRTP.
  change (Z.quot PORT_RANGE 2) with (Z.of_nat 999 + 1). rewrite open_loop_find by done.
  cbn [mbind option_bind]. destruct (_ <$> _) as [[]|]; by eexists.
Qed.

Lemma new_session_returns rs k o :
  (999 <= length (rs_ports (rs k)))%nat -> exists s ok, new_session rs (k, o) = Some (s, ok).
Proof.
  intros Hports. unfold new_session.
  destruct (satipSession_new_returns (c_str (OptParser.m_ipaddr o))
    (if bool_decide (c_str (OptParser.m_port o) = []) then str "554" else c_str (OptParser.m_port o))
    (OptParser.m_fe_type o) o (rs k) Hports) as [[s ok] Hs]. by exists s, ok.
Qed.

Lemma start_loop_spec rs data : forall m,
  (forall k, (999 <= length (rs_ports (rs k)))%nat) ->
  exists ss, start_loop rs data m = Some (m <| m_sessions := m_sessions m ++ ss |>) /\
    Forall2 (fun e s => exists s0, new_session rs e = Some (s0, true) /\ s = session_start s0)
      (filter (fun e => comes_up rs e = true) data) ss.
Proof.
  intros m Hports. revert m. induction data as [|[index o] data IH]; intros m.
  { exists []. split; [|constructor]. destruct m as [ss opt]. cbn. by rewrite (right_id_L [] (++)). }
  cbn [start_loop]. destruct (new_session_returns rs index o (Hports index)) as (s & ok & E).
  destruct (OptParser.isAvailable o) eqn:Ha; cbn [mbind option_bind].
  2: { rewrite filter_cons_False by (by unfold comes_up; cbn [snd]; rewrite Ha). apply IH. }
  assert (comes_up rs (index, o) = ok) as Hc by (unfold comes_up; cbn [snd]; by rewrite Ha, E).
  unfold satipSessionCreate. change default_port with (str "554").
  unfold new_session in E. cbn [fst snd] in E. rewrite E. cbn [mbind option_bind].
  destruct ok; cbn [negb mbind option_bind].
  - destruct (IH (m <| m_sessions := m_sessions m ++ [session_start s] |>)) as (ss & -> & Hss).
    exists (session_start s :: ss). split; [cbn; by rewrite <- app_assoc|].
    rewrite filter_cons_True by done. constructor; [by exists s|done].
  - destruct (IH m) as (ss & -> & Hss). exists ss. rewrite filter_cons_False; [done|]. by rewrite Hc.
Qed.

(** C21: the sessions that run are those of the configuration. Starting always
    returns, with -1 exactly when no index is configured; it creates one running
    session for every index whose settings are complete and whose device and
    ports could be opened, in the order of the indices, with the settings' host,
    port (554 by default) and frontend type, and no other. *)
Theorem sessions_started rs opt :
  (forall k, (999 <= length (rs_ports (rs k)))%nat) ->
  exists started sessions,
    satipStart rs (mkManager [] opt)
    = Some (mkManager sessions opt, if bool_decide (opt = ∅) then -1 else 0) /\
    StronglySorted Z.lt (fst <$> started) /\
    (forall k o, (k, o) ∈ started <-> opt !! k = Some o /\ comes_up rs (k, o) = true) /\
    Forall2 (fun e s => exists s0, new_session rs e = Some (s0, true) /\ s = session_start s0)
      started sessions.
Proof.
  intros Hports. unfold satipStart, isEmpty. cbn [m_satip_opt].
  destruct (decide (opt = ∅)) as [->|Hne].
  { exists [], []. split_and!; [done|constructor| |constructor]. intros k o.
    rewrite lookup_empty. split; [intros Hn; inversion Hn|by intros []]. }
  rewrite (bool_decide_eq_false_2 (size opt = 0%nat)) by (by rewrite map_size_empty_iff).
  rewrite bool_decide_eq_false_2 by done.
  destruct (start_loop_spec rs (entries opt) (mkManager [] opt) Hports) as (ss & -> & Hss).
  exists (filter (fun e => comes_up rs e = true) (entries opt)), ss. split_and!; [done| | |done].
  - pose proof (entries_sorted opt) as Hs. clear Hss. revert Hs.
    induction (entries opt) as [|e l IH]; [done|]. rewrite filter_cons. cbn [fmap list_fmap].
    intros [Hs Hall]%StronglySorted_inv. case_decide; [|by apply IH].
    cbn [fmap list_fmap]. constructor; [by apply IH|]. rewrite Forall_forall in Hall |- *.
    intros k (e' & -> & [_ He']%list_elem_of_filter)%list_elem_of_fmap. apply Hall.
    by apply list_elem_of_fmap_2.
  - intros k o. rewrite list_elem_of_filter, elem_of_entries. tauto.
Qed.
End Start.

(** ** The process *)

Section Process.
Context `{DvbConstants} `{FrontendConstants} `{LongWidth} `{VtunerBuild}.
Implicit Types (p : program).

Definition sessions_of p : list satipSession := m_sessions (p_manager p).

(** What the system may do: the receive buffer has the size that is asked for,
    what arrives in a session is as [session_step_ok] says, and signals have
    numbers other than 0. *)
Definition program_step_ok p (st : program_step) : Prop :=
  match st with
  | ProgMain rs =>
      forall k o, m_satip_opt (p_manager p) !! k = Some o ->
        zlen (rs_buffer (rs k)) = (if m_tcpdata o then 256 * 1024 else 2048)
  | ProgSession i st => forall s, sessions_of p !! i = Some s -> session_step_ok s st
  | ProgSend signo => signo <> 0
  | ProgDeliver _ => True
  end.

Inductive program_reachable : program -> Prop :=
| program_reach_start file : program_reachable (program_new file)
| program_reach_step p st p' :
    program_reachable p -> program_step_ok p st -> program_exec p st = Some p' ->
    program_reachable p'.

Record program_inv p : Prop := {
  pi_sessions : Forall session_inv (sessions_of p);
  pi_start : p_pc p = MainStart -> sessions_of p = [];
  pi_join : p_pc p = MainJoin -> Forall stopped (sessions_of p);
  pi_end : p_pc p = MainEnd ->
           Forall (fun s => s_pc s = PcEnd /\ s_rtp_running s = false) (sessions_of p);
  pi_pending : 0 ∉ p_pending p
}.

Lemma start_loop_inv rs data : forall m m',
  (forall k o, (k, o) ∈ data -> zlen (rs_buffer (rs k)) = (if m_tcpdata o then 256 * 1024 else 2048)) ->
  Forall session_inv (m_sessions m) -> start_loop rs data m = Some m' ->
  Forall session_inv (m_sessions m').
Proof.
  induction data as [|[k o] data IH]; intros m m' Hbuf Hm Hrun; [by injection Hrun as <-|].
  cbn [start_loop] in Hrun.
  assert (forall k' o', (k', o') ∈ data ->
    zlen (rs_buffer (rs k')) = (if m_tcpdata o' then 256 * 1024 else 2048)) as Hbuf'
    by (intros k' o' Hin; apply Hbuf; by right).
  destruct (OptParser.isAvailable o); cbn [mbind option_bind] in Hrun; [|by apply (IH m)].
  unfold satipSessionCreate in Hrun.
  destruct (satipSession_new _ _ _ _ _) as [[s ok]|] eqn:Hs; [|done]. cbn [mbind option_bind] in Hrun.
  apply satipSession_new_inv in Hs; [|apply Hbuf; by left].
  destruct ok; cbn [negb mbind option_bind] in Hrun; apply (IH _ _ Hbuf') in Hrun; try done.
  apply Forall_app. split; [done|by constructor].
Qed.

Lemma sessionJoin_ended m : sessionJoin m = true -> Forall (fun s => s_pc s = PcEnd) (m_sessions m).
Proof.
  unfold sessionJoin. intros Hj. apply Forall_forall. intros s Hs%list_elem_of_In.
  pose proof (proj1 (forallb_forall _ _) Hj s Hs) as He. unfold ended in He. by destruct (s_pc s).
Qed.

Lemma main_exec_inv rs p p' :
  program_inv p -> program_step_ok p (ProgMain rs) -> main_exec rs p = Some p' -> program_inv p'.
Proof.
  intros [Hses Hstart Hjoin Hend Hpend] Hok Hp'. unfold main_exec in Hp'.
  destruct (p_pc p) eqn:Hpc.
  - unfold satipStart in Hp'. destruct (isEmpty _).
    { injection Hp' as <-. constructor; cbn; try done. intros _.
      unfold sessions_of in *. cbn. by rewrite (Hstart eq_refl). }
    destruct (start_loop _ _ _) as [m|] eqn:Hm; [|done]. injection Hp' as <-.
    constructor; cbn; try done. apply (start_loop_inv _ _ _ _) in Hm; [done| |done].
    intros k o Hko%elem_of_entries. by apply Hok.
  - destruct (shutdown_signo p =? 0); injection Hp' as <-.
    { constructor; [done|by rewrite Hpc..|done]. }
    unfold sessions_of in Hses.
    constructor; cbn; try done; unfold sessions_of; cbn.
    + apply Forall_map. eapply Forall_impl; [exact Hses|]. intros s. apply session_stop_inv.
    + intros _. apply Forall_map. eapply Forall_impl; [exact Hses|]. intros s. apply session_stop_stopped.
  - destruct (sessionJoin _) eqn:Hj; injection Hp' as <-.
    2: { constructor; [done|by rewrite Hpc|by rewrite Hpc|by rewrite Hpc|done]. }
    constructor; cbn; try done. intros _. apply sessionJoin_ended in Hj. specialize (Hjoin eq_refl).
    unfold sessions_of in *. cbn. rewrite Forall_forall in Hj, Hjoin |- *. intros s Hs. split; [by apply Hj|].
    apply (st_running _ (Hjoin s Hs)).
  - injection Hp' as <-. constructor; [done|by rewrite Hpc|by rewrite Hpc|by rewrite Hpc|done].
  - injection Hp' as <-. constructor; [done|by rewrite Hpc|by rewrite Hpc|by rewrite Hpc|done].
Qed.

(** A step of a session's thread: nothing, or a step of that session. *)
Lemma session_exec_program p i st p' :
  program_exec p (ProgSession i st) = Some p' ->
  (p' = p /\ (alive p = false \/ sessions_of p !! i = None \/ is_stop st = true)) \/
  (alive p = true /\ is_stop st = false /\ exists s s', sessions_of p !! i = Some s /\ session_exec s st = Some s' /\
    p' = p <| p_manager := (p_manager p) <| m_sessions := <[i := s']> (sessions_of p) |> |>).
Proof.
  cbn [program_exec]. unfold sessions_of.
  destruct (alive p), (m_sessions (p_manager p) !! i) as [s|] eqn:Hi, st; intros Hp';
    try (left; split; [congruence|tauto]);
    (destruct (session_exec s _) as [s'|] eqn:Hs; [|done]); injection Hp' as <-;
    right; (split_and!; [done..|]); by exists s, s'.
Qed.

Lemma program_inv_sessions p ss :
  program_inv p -> alive p = true -> Forall session_inv ss ->
  (p_pc p = MainStart -> ss = []) -> (p_pc p = MainJoin -> Forall stopped ss) ->
  program_inv (p <| p_manager := (p_manager p) <| m_sessions := ss |> |>).
Proof.
  intros [_ _ _ _ Hpend] Hal Hss Hstart Hjoin. constructor; try done.
  unfold alive in Hal. cbn. intros Hpc. by rewrite Hpc in Hal.
Qed.

Lemma program_exec_inv p st p' :
  program_inv p -> program_step_ok p st -> program_exec p st = Some p' -> program_inv p'.
Proof.
  intros Hinv Hok Hp'. destruct st as [rs|i st|signo|signo].
  - by apply (main_exec_inv rs p).
  - apply session_exec_program in Hp' as [[-> _]|(Hal & Hst & s & s' & Hs & Hs' & ->)]; [done|].
    pose proof Hinv as [Hses Hstart Hjoin _ _].
    apply program_inv_sessions; [done|done| | |].
    + apply Forall_insert; [done|]. rewrite Forall_lookup in Hses.
      by apply (session_exec_inv s st s' (Hses i s Hs) (Hok s Hs)).
    + intros Hpc. rewrite (Hstart Hpc) in Hs. done.
    + intros Hpc. specialize (Hjoin Hpc). apply Forall_insert; [done|]. rewrite Forall_lookup in Hjoin.
      by apply (session_exec_stopped s st s' (Hjoin i s Hs) Hst).
  - cbn [program_exec] in Hp'. injection Hp' as <-. destruct (alive p); [|done].
    destruct Hinv. constructor; try done. cbn. cbn in Hok. set_solver.
  - cbn [program_exec] in Hp'. injection Hp' as <-. destruct (unblocked p && _) eqn:Hun; [|done].
    destruct Hinv. unfold sigint_handler. destruct (negb _); constructor; try done; cbn; set_solver.
Qed.

Lemma program_reachable_inv p : program_reachable p -> program_inv p.
Proof.
  induction 1 as [file|p st p' _ IH Hok Hp']; [|by eapply program_exec_inv].
  by constructor; cbn.
Qed.

(** C4: whatever the threads do and the system answers, in any order, as long
    as recv does not fail while the receive buffer is empty: every session has
    its invariant (the buffers intact, the wakeup pipe readable when something
    was left to do before poll); the main thread joins stopped sessions only;
    and main returns only when every thread of every session has ended. *)
Theorem program_invariant p : program_reachable p -> program_inv p.
Proof. apply program_reachable_inv. Qed.

(** ** Steps return *)




(** ** The end *)

(** Calls of the main loop of a session in a list of steps. *)
Definition calls_of (i : nat) (st : program_step) : nat :=
  match st with ProgSession j st => if Nat.eqb j i then main_calls st else 0 | _ => 0 end.

Definition total_calls (i : nat) (steps : list program_step) : nat :=
  list_sum (calls_of i <$> steps).

(** All sessions are told to stop, and none of the loops has more than [n i]
    calls left. *)
Definition ending (n : nat -> nat) p : Prop :=
  alive p = false \/
  (p_pc p = MainJoin /\ Forall stopped (sessions_of p) /\
   forall i s, sessions_of p !! i = Some s -> (calls_left (s_pc s) <= n i)%nat).

Lemma program_exec_dead p st p' :
  alive p = false -> program_exec p st = Some p' -> alive p' = false.
Proof.
  intros Hd. destruct st as [rs|i st|signo|signo]; cbn [program_exec].
  - unfold main_exec. unfold alive in Hd. destruct (p_pc p) eqn:Hpc; try done;
      intros Hp'; injection Hp' as <-; unfold alive; by rewrite Hpc.
  - rewrite Hd. intros Hp'. by injection Hp' as <-.
  - rewrite Hd. intros Hp'. by injection Hp' as <-.
  - assert (unblocked p = false) as ->.
    { unfold alive in Hd. unfold unblocked. by destruct (p_pc p). }
    intros Hp'. by injection Hp' as <-.
Qed.

Lemma program_exec_ending n p st p' :
  ending n p -> program_exec p st = Some p' -> ending (fun i => n i - calls_of i st)%nat p'.
Proof.
  intros [Hd|(Hpc & Hst & Hn)] Hp'; [left; by eapply program_exec_dead|].
  destruct st as [rs|i st|signo|signo]; cbn [calls_of].
  - cbn [program_exec] in Hp'. unfold main_exec in Hp'. rewrite Hpc in Hp'.
    destruct (sessionJoin _); injection Hp' as <-; [by left|]. right. split_and!; [done..|].
    intros i s Hs. specialize (Hn i s Hs). lia.
  - apply session_exec_program in Hp' as [[-> Hno]|(_ & Hns & s & s' & Hs & Hs' & ->)].
    { right. split_and!; [done..|]. intros j t Hj. specialize (Hn j t Hj).
      destruct (Nat.eqb_spec i j) as [<-|Hne]; [|lia].
      destruct Hno as [Hal|[Hno|Hno]]; [|congruence|].
      - unfold alive in Hal. by rewrite Hpc in Hal.
      - destruct st; try done. cbn. lia. }
    pose proof Hst as Hall. rewrite Forall_lookup in Hall.
    destruct (session_exec_stopped s st s' (Hall i s Hs) Hns Hs') as [Hst' Hle].
    right. split_and!; [done|by apply Forall_insert|]. unfold sessions_of. cbn. intros j t Hj.
    specialize (Hn i s Hs) as Hni. destruct (Nat.eqb_spec i j) as [<-|Hne].
    + rewrite list_lookup_insert_eq in Hj by (by eapply lookup_lt_Some). injection Hj as <-. lia.
    + rewrite list_lookup_insert_ne in Hj by done. specialize (Hn j t Hj). lia.
  - cbn [program_exec] in Hp'. injection Hp' as <-. destruct (alive p); right; (split_and!; [done..|]);
      intros i s Hs; specialize (Hn i s Hs); lia.
  - cbn [program_exec] in Hp'. injection Hp' as <-.
    destruct (_ && _); [|right; split_and!; [done..|]; intros i s Hs; specialize (Hn i s Hs); lia].
    unfold sigint_handler. destruct (negb _); [by left|]. right. split_and!; [done..|].
    intros i s Hs. specialize (Hn i s Hs). lia.
Qed.

Lemma program_run_inv p st steps p' :
  program_run p (st :: steps) = Some p' ->
  exists p1, program_exec p st = Some p1 /\ program_run p1 steps = Some p'.
Proof.
  unfold program_run. cbn [foldl mbind option_bind]. intros Hrun.
  destruct (program_exec p st) as [p1|]; [by exists p1|]. exfalso.
  clear -Hrun. induction steps as [|x steps IH]; [done|]. by apply IH.
Qed.

Lemma program_run_ending steps : forall n p p',
  ending n p -> program_run p steps = Some p' -> ending (fun i => n i - total_calls i steps)%nat p'.
Proof.
  induction steps as [|st steps IH]; intros n p p' Hend Hrun.
  { injection Hrun as <-. unfold total_calls. cbn. destruct Hend as [Hd|(Hpc & Hst & Hn)]; [by left|].
    right. split_and!; [done..|]. intros i s Hs. specialize (Hn i s Hs). lia. }
  apply program_run_inv in Hrun as (p1 & Hp1 & Hrun).
  specialize (IH _ _ _ (program_exec_ending _ _ _ _ Hend Hp1) Hrun).
  destruct IH as [Hd|(Hpc & Hst & Hn)]; [by left|]. right. split_and!; [done..|].
  intros i s Hs. specialize (Hn i s Hs). change (total_calls i (st :: steps)) with (calls_of i st + total_calls i steps)%nat.
  cbn beta in Hn. lia.
Qed.

Lemma program_run_app p l1 l2 p' :
  program_run p (l1 ++ l2) = Some p' ->
  exists p1, program_run p l1 = Some p1 /\ program_run p1 l2 = Some p'.
Proof.
  revert p. induction l1 as [|st l1 IH]; intros p Hrun; [by exists p|].
  apply program_run_inv in Hrun as (p1 & Hp1 & Hrun). destruct (IH _ Hrun) as (p2 & Hp2 & Hrun2).
  exists p2. split; [|done]. unfold program_run. cbn [foldl mbind option_bind]. by rewrite Hp1.
Qed.

(** C9: a signal ends the program. When a signal that is pending reaches the
    waiting main thread, then after any sequence of steps, of all threads and
    with any further signals, in which the main loop of every session gets seven
    calls, the next step of the main thread finds all of them ended and main
    returns (or a second signal has ended the process already). *)
Theorem signal_ends_program p signo rs rs' steps p' :
  program_reachable p -> p_pc p = MainWait -> signo ∈ p_pending p ->
  (forall i, (i < length (sessions_of p))%nat -> (7 <= total_calls i steps)%nat) ->
  program_run p (ProgDeliver signo :: ProgMain rs :: steps ++ [ProgMain rs']) = Some p' ->
  alive p' = false.
Proof.
  intros Hreach Hpc Hsig Hcalls Hrun. pose proof (program_reachable_inv p Hreach) as Hinv.
  apply program_run_inv in Hrun as (p1 & Hp1 & Hrun). cbn [program_exec] in Hp1.
  assert (unblocked p = true) as Hun by (unfold unblocked; by rewrite Hpc).
  rewrite Hun, bool_decide_eq_true_2 in Hp1 by done. injection Hp1 as Hp1.
  apply program_run_inv in Hrun as (p2 & Hp2 & Hrun).
  apply program_run_app in Hrun as (p3 & Hp3 & Hrun).
  apply program_run_inv in Hrun as (p4 & Hp4 & Hrun). injection Hrun as <-.
  assert (ending (fun i => if decide (i < length (sessions_of p))%nat then 7 else 0)%nat p2) as Hend.
  { cbn [program_exec] in Hp2. unfold main_exec, sigint_handler in *. rewrite <- Hp1 in Hp2.
    pose proof (pi_pending _ Hinv) as Hno0.
    destruct (shutdown_signo p =? 0) eqn:Hs0; cbn in Hp2; rewrite ?Hpc, ?Hs0 in Hp2; cbn in Hp2;
      [|injection Hp2 as <-; by left].
    rewrite (proj2 (Z.eqb_neq signo 0)) in Hp2 by (by intros ->). injection Hp2 as <-.
    right. unfold sessions_of. cbn. split_and!; [done| |].
    - apply Forall_map. eapply Forall_impl; [exact (pi_sessions _ Hinv)|].
      intros s. apply session_stop_stopped.
    - intros i s Hs. rewrite decide_True; [apply calls_left_max|].
      apply lookup_lt_Some in Hs. by rewrite length_map in Hs. }
  apply program_run_ending with (steps := steps) (p' := p3) in Hend; [|done].
  destruct Hend as [Hd|(Hpc3 & Hst & Hn)]; [by eapply program_exec_dead|].
  cbn [program_exec] in Hp4. unfold main_exec in Hp4. rewrite Hpc3 in Hp4.
  assert (sessionJoin (p_manager p3) = true) as Hj; [|rewrite Hj in Hp4; by injection Hp4 as <-].
  unfold sessionJoin. apply forallb_forall. intros s [i Hi]%list_elem_of_In%list_elem_of_lookup.
  specialize (Hn i s Hi). unfold ended. rewrite (calls_left_end (s_pc s)); [done|].
  case_decide as Hlt; [specialize (Hcalls i Hlt)|]; lia.
Qed.
End Process.

(** ** Witnesses *)

Definition demo_file : text :=
  str "0=vtuner_type:satip_client,ipaddr:192.168.0.2,tuner_type:DVB-S" ++ [x0a].

Definition demo_resources (k : Z) : resources :=
  Resources (Some (8, 9)) [NodeBusy; NodeFree 7] legacy_driver (replicate 999 (Try 100 true true))
    (replicate 2048 x00) 0 (TS 0 0) (TS 10 0).

Definition demo_opt : gmap Z vtunerOpt := @load 64 (Some demo_file).

Definition demo_program : program := @program_new 64 (Some demo_file).

Definition demo_main : program_step := ProgMain demo_resources.

Definition demo_exec := @program_exec linux_dvb linux_frontend 64 demo_build.

(** The program with one session, and a signal pending. *)
Definition demo_waiting : option program := p ← demo_exec demo_program demo_main; demo_exec p (ProgSend 15).

Definition demo_steps : list program_step :=
  repeat (ProgSession 0 (StepMain (Answers (Env (TS 20 0) None true Closed 0) (PollReturned false no_events) None))) 7.

Lemma demo_ports k : (999 <= length (rs_ports (demo_resources k)))%nat.
Proof. apply Nat.leb_le. reflexivity. Qed.

Lemma demo_opt_udp k o : demo_opt !! k = Some o -> m_tcpdata o = false.
Proof.
  intros Ho. assert (map_Forall (fun _ o => m_tcpdata o = false) demo_opt) as Hall; [|by apply (Hall k)].
  apply (bool_decide_unpack _). vm_compute. exact I.
Qed.

Lemma demo_step_ok : program_step_ok demo_program demo_main.
Proof. intros k o Ho. by rewrite (demo_opt_udp k o Ho). Qed.

Lemma demo_waiting_shape :
  match demo_waiting with
  | Some p => p_pc p = MainWait /\ 15 ∈ p_pending p /\ length (sessions_of p) = 1%nat
  | None => False
  end.
Proof.
  assert (match demo_waiting with
          | Some p => bool_decide (p_pc p = MainWait /\ 15 ∈ p_pending p /\ length (sessions_of p) = 1%nat)
          | None => false
          end = true) as Hok by (vm_compute; reflexivity).
  destruct demo_waiting; [|done]. by apply bool_decide_eq_true in Hok.
Qed.

Lemma demo_waiting_reachable p :
  demo_waiting = Some p -> @program_reachable linux_dvb linux_frontend 64 demo_build p.
Proof.
  unfold demo_waiting. destruct (demo_exec demo_program demo_main) as [p1|] eqn:E; [|done].
  cbn [mbind option_bind]. intros Hp.
  apply (program_reach_step p1 (ProgSend 15)); [|done|exact Hp].
  apply (program_reach_step demo_program demo_main); [|exact demo_step_ok|exact E].
  exact (program_reach_start (Some demo_file)).
Qed.

Lemma sessions_started_witness :
  exists (started : list (Z * vtunerOpt)) (sessions : list satipSession),
    @satipStart linux_dvb linux_frontend demo_build demo_resources (mkManager [] demo_opt)
    = Some (mkManager sessions demo_opt, 0) /\ length started = length sessions.
Proof.
  destruct (@sessions_started linux_dvb linux_frontend demo_build demo_resources demo_opt demo_ports)
    as (started & sessions & Hrun & _ & _ & Hall).
  exists started, sessions. split; [|exact (Forall2_length _ _ _ Hall)].
  rewrite bool_decide_eq_false_2 in Hrun; [exact Hrun|].
  apply (bool_decide_unpack _). vm_compute. exact I.
Defined.

Lemma program_invariant_witness :
  exists p, demo_waiting = Some p /\ length (sessions_of p) = 1%nat /\ program_inv p.
Proof.
  pose proof demo_waiting_shape as Hshape. destruct demo_waiting as [p|] eqn:E; [|destruct Hshape].
  exists p. split_and!; [reflexivity|apply Hshape|].
  apply (@program_invariant linux_dvb linux_frontend 64 demo_build). exact (demo_waiting_reachable p E).
Defined.










Lemma signal_ends_program_witness :
  exists p p', demo_waiting = Some p /\
    @program_run linux_dvb linux_frontend 64 demo_build p
      (ProgDeliver 15 :: demo_main :: demo_steps ++ [demo_main]) = Some p' /\ alive p' = false.
Proof.
  pose proof demo_waiting_shape as Hshape. destruct demo_waiting as [p|] eqn:E; [|destruct Hshape].
  destruct Hshape as (Hpc & Hsig & Hlen).
  destruct (@program_run linux_dvb linux_frontend 64 demo_build p
              (ProgDeliver 15 :: demo_main :: demo_steps ++ [demo_main])) as [p'|] eqn:Hrun.
  - exists p, p'. split_and!; [reflexivity|exact Hrun|].
    apply (@signal_ends_program linux_dvb linux_frontend 64 demo_build p 15 demo_resources demo_resources
             demo_steps p' (demo_waiting_reachable p E) Hpc Hsig); [|exact Hrun].
    intros i Hi. rewrite Hlen in Hi. destruct i; [|lia]. apply Nat.leb_le. reflexivity.
  - exfalso. assert (match demo_waiting with
      | Some p => match @program_run linux_dvb linux_frontend 64 demo_build p
                    (ProgDeliver 15 :: demo_main :: demo_steps ++ [demo_main]) with
                  | Some _ => true | None => false end
      | None => false end = true) as Hok by (vm_compute; reflexivity).
    rewrite E, Hrun in Hok. discriminate Hok.
Defined.
